(* ===== verification/_CoqProject ===== *)
-Q . S2P
Prelude.v
Text.v
Utf8.v
Schema.v
Tracker.v
TrackerTime.v
Channels.v
Bus.v
Runtime.v
CollectorState.v
Codec.v
Ingest.v
Store.v
SyslogIn.v
GuiApi.v
Counting.v
Watcher.v
Liveness.v
Subscribe.v
CollectorSystem.v
Sections.v
Races.v
EndToEnd.v
Regex.v
Webhooks.v
CollectorConfig.v
Transport.v
Drain.v
Float.v
Config.v
Connect.v
Pipeline.v
Json.v
Host.v
Command.v
VendorDetect.v
ConfigLoad.v
Agent.v
Windows.v
Kmsg.v
NetworkNic.v
MemPressure.v
Nvme.v
DiskSmart.v
OsHang.v
PcieAer.v
CpuMce.v
StorageController.v
StorageIo.v
MemoryEcc.v
Thermal.v
Bmc.v
Gpu.v
Lifecycle.v
SyslogRules.v
ModuleSpecs.v
AgentModules.v
AgentPipeline.v
DebugHttp.v
DebugProbes.v
CollectorMain.v
GuiRouter.v
Restart.v
AgentMain.v
ToolJson.v
WireJson.v
