(* ===== verification/Prelude.v ===== *)
(** * UMA monitoring tool: a verification development

    The program is a hardware-health monitor in Rust: a [monitor-agent] per host
    (src/agent) detects faults, deduplicates them and streams alerts to a
    [monitor-collector] (src/collector), which keeps what is firing, stores a
    history and feeds browsers and webhooks.  Both sides share one wire schema
    (src/shared).  This library models both programs as executable definitions,
    one file per component, with the source lines of each definition in its doc
    comment, and proves what makes each component correct.

    ** How the parts interact

    A detection module (nvme.rs, network_nic.rs, ...) reads a tool, sysfs or the
    kernel log and hands an alert builder to its own [AlertTracker] (state.rs).
    The tracker lets the first detection through, repeats it every [re_notify],
    counts the suppressed ones, and produces the resolved alert.  What it emits
    goes to the [AlertSink] (bus.rs): a critical and a normal bounded lane.  The
    transport (transport.rs) drains both lanes into a WebSocket, critical first,
    and reconnects with backoff.  The collector's ingest (ws_ingest.rs) decodes
    each frame, updates [AppState] (state.rs), queues the alert for the SQLite
    writer (store.rs) and broadcasts it to the GUI feed (ws_subscribe.rs) and the
    webhooks (webhooks.rs).  A watcher (main.rs) raises [host_offline] by itself,
    and the GUI (http.rs) can resolve an alert.

    ** Files

    Foundations: [Prelude] (tactics, machine integers, durations), [Text] and
    [Utf8] (Rust's [str]), [Float] (binary32 parsing, comparison and printing),
    [Json] (accessors of [serde_json::Value]), [Regex] (the [regex] crate as an
    interface), [Channels] ([tokio::sync::mpsc] as an interface, with a reference
    instance), [Codec] (messages and rows as text, an interface that
    [WireJson.WireCodec] implements), [Windows]
    (sliding windows shared by three modules).

    Shared schema: [Schema] is src/shared/src/lib.rs (severities, alerts, hosts,
    envelopes, the fingerprint, the builder); [WireJson] is its JSON, from the
    derived serialisers and deserialisers.

    Agent: [Tracker] and [TrackerTime] (state.rs), [Bus] (bus.rs), [Transport]
    (transport.rs: the pump and the reconnections), [Drain] (what the pump does
    with a backlog), [Connect] (transport.rs: connect and build_tls_client),
    [Runtime] (the emit statement all modules repeat, as actions run on a tracker
    and a sink), [Config] (config.rs), [ConfigLoad] (its deserialisation and
    load), [Host] (host.rs), [VendorDetect] (vendor_detect.rs), [Command]
    (priv_cmd.rs), [Kmsg] (kmsg.rs), [Agent] (messages of main.rs, log retention),
    [AgentMain] (start of main.rs, log layers), [DebugHttp] and [DebugProbes]
    (debug_http.rs), and one file per file of src/agent/src/modules: [Nvme],
    [DiskSmart], [NetworkNic], [MemPressure], [OsHang], [PcieAer], [CpuMce],
    [StorageController], [StorageIo], [MemoryEcc], [Thermal], [Bmc]
    (bmc_redfish.rs and bmc_eventlog.rs), [Gpu] (gpu_nvidia.rs and gpu_amd.rs),
    [Lifecycle] (lifecycle.rs and boot.rs), [SyslogRules] (syslog_rules.rs and
    journal.rs).  [ToolJson] decodes the JSON of nvme-cli and smartctl.
    [ModuleSpecs] is the interface a module offers the rest: the category and the
    severities its actions keep to; [AgentModules] has every module's tasks, gates,
    periods and steps, and shows that each meets its specification.

    Collector: [CollectorState] (state.rs), [Ingest] (ws_ingest.rs), [Counting]
    (the host counters over runs of ingest and GUI), [Watcher] (the offline
    watcher of main.rs), [Liveness] (whose clock decides that a host is online),
    [Store] (store.rs), [SyslogIn] (syslog_in.rs), [GuiApi] and [GuiRouter]
    (http.rs), [Subscribe] (ws_subscribe.rs), [Webhooks] (webhooks.rs),
    [CollectorConfig] (config.rs), [CollectorMain] (config.rs loading, store.rs
    opening, main.rs), [CollectorSystem] (all its actors as one transition
    system, a handler being one step), [Sections] (the same handlers as sequences of
    lock sections, of which any two tasks' may interleave), [Races] (a resolution
    overlapping with a new report of its alert).

    Both: [EndToEnd] (tracker and firing map joined by an ordered delivery),
    [Pipeline] (trackers, sink, connection and ingest interleaved),
    [AgentPipeline] (the whole agent, every task of it, over that pipeline),
    [Restart] (what a restart of either side of that pipeline loses).

    ** How state and effects are modelled

    A component's state is a record; an operation is a function of its inputs and
    the state.  A Rust method that holds a lock for its whole body is one atomic
    step.  The handlers of the collector (ingest, syslog, GUI, watcher, subscription)
    take and release several locks: [Sections] has each as a program of lock
    sections and runs the sections of all tasks in any order; [CollectorSystem] has
    each as one step, which [Sections.atomic_is_sections] shows to be the sections
    run with nothing in between.  Clock readings,
    ULIDs and what I/O returns are arguments ([Stamp], [Sample], a tool's output, a
    [Poll] of the socket), so theorems quantify over them.  A HashMap is a [gmap];
    where the program iterates one, the order is the interface [HashOrder]
    ([Command]) or a [map_to_list], and a result that depends on it is shown to
    depend on it.  Integers are [Z] with the wrap, saturation or truncation of each
    Rust operation written out in [Prelude.Int]; the release profile turns overflow
    checks off, so [+] wraps, and aborts on a panic, so a panic of a module is the
    end of the process ([CpuMce] returns [None], [AgentModules] and [AgentMain]
    have an aborted outcome).  Strings are byte strings.  A handler of a module
    returns the list of [Runtime.Action]s it performs; [Runtime.exec] runs them,
    and [Runtime.exec_tracker] transports every theorem about tracker runs to it.

    Code outside the repository is an interface with its documented behaviour as
    laws: [Channels.Mpsc], [Codec.Codec], [Regex.RegexEngine],
    [CollectorState.Chrono], [Store.Sqlite], [CollectorMain.SqliteDb],
    [Connect.Net] with [Connect.NetLaws] (sockets, rustls, tungstenite); parsers of TOML, JSON text and
    addresses are arguments.  Each is instantiated for the concrete runs that
    accompany the theorems with hypotheses.

    Service loops are folds or recursions over the sequence of events they
    receive; concurrent ones are the step relations [CollectorSystem.cstep] (handlers)
    and [Sections.pstep] (lock sections) or the event lists of [Pipeline] and
    [AgentPipeline], in any order.  Fuel appears in
    four places.  The scans of [Text] and [Utf8] take the length of the text, and
    every turn consumes a byte ([Utf8] proves the validator against a specification
    without fuel).  [Kmsg.read_all] takes the number of reads, and every drain
    consumes one ([Kmsg.kmsg_reader_complete] shows that none is left).  The
    decimal printer of [Float] searches an exponent with 100 turns, binary32
    needing fewer than 47, and digits with 9 turns, which always suffice for
    binary32.

    ** What the theorems show

    - Agreement of the two programs: [EndToEnd.collector_mirrors_tracker] for an
      ordered delivery, [Pipeline.pipeline_mirrors] through lanes, reconnections
      and frames, and [AgentPipeline.agent_mirrors] for the real agent, every task
      of every module included.  The general statement needs an alert to keep to
      one lane if it can be resolved ([Pipeline.lane_reordering_keeps_stale] is a
      run that fails without it); [ModuleSpecs] and [AgentModules] establish it for
      the program's modules, whose resolvable metrics (critical_warning, psi_high,
      link_down) have a constant severity.  [AgentPipeline.disabled_module_silent]:
      a module switched off never reports.  Neither agreement survives a restart: an
      alert whose fault clears while the agent is down stays, through disconnection,
      hello and any later traffic ([Restart.agent_restart_stale]), and a restarted
      collector misses ongoing faults with nothing left in a lane until the next
      re-notification ([Restart.collector_restart_blind]).
    - Deduplication: in every reachable state an entry sits under the fingerprint
      its resolution will carry ([Tracker.tracker_reachable_wf],
      [Tracker.resolved_matches_entry]).  Over any run, OK readings and resolutions
      included ([TrackerTime]): repeats are [re_notify] apart, counters count the
      detections since the last resolution exactly, a resolution comes after a full
      recovery window without detection and comes if the readings stay good, an
      escalation inside [re_notify] is suppressed and the resolution reports the
      first severity.
    - Delivery: each lane is first-in first-out with nothing duplicated or lost
      across reconnections ([Transport.lanes_fifo]), critical first
      ([Transport.critical_first], [Bus.critical_lane_isolated]), a backlog is
      worked off in as many turns as messages ([Drain.pump_drains]), maintenance
      sends no alert, backoff doubles to its cap, every message decodes to itself
      ([WireJson.wire_round_trip]), and the agent connects only to a server whose chain
      verifies against the configured authority, offering the configured identity
      ([Connect.connect_authenticated]).
    - Collector: its state is well typed under every interleaving of its actors
      ([CollectorSystem.collector_typed]); under every interleaving of lock sections
      in which no two handlers about a fingerprint overlap, the live feed replayed on
      a snapshot gives the firing map there ([Sections.gui_feed_refines]), an overlap
      can make them differ ([Races.resolve_race]), a client is right if nothing
      about the fingerprint runs between its snapshot and its subscription, and
      misses an alert ingested in between ([Sections.subscription_window]); the host counters equal the number of firing alerts
      ([Counting.firing_count_exact]) except for the watcher's removal
      ([Watcher.watcher_count_leak]); the history table implements a map
      ([Store.store_refines_map]) and its query returns the newest alerts of it
      ([Store.list_recent_spec]); the GUI port changes only what its POST routes
      are for ([GuiRouter.gui_port_confined]); webhooks respect their rate in every
      minute ([Webhooks.webhook_rate_bound]).
    - Start and configuration: the agent starts on any file, on the built-in
      defaults if it must ([ConfigLoad.config_load_typed],
      [ConfigLoad.absent_block_is_empty], [AgentMain.agent_start_spec]), the
      collector on a complete one only
      ([CollectorMain.collector_serves_configured]); the debug snapshot is
      independent of the passwords ([DebugProbes.snapshot_password_free]) and runs
      fixed commands ([DebugProbes.debug_commands_fixed]).
    - Modules: which readings are reported, exactly, for each detector, over
      whole sequences of ticks; the kernel-log reader hands every parsed record to its
      channel and round-trips a printed record; the NVMe decoder misses the keys nvme-cli writes
      ([ToolJson.nvme_keys_required]).
    - Divergences of the code from its comments are theorems too: the statement
      says what the code does.

    ** Not modelled

    The TLS handshake and sockets themselves, D-Bus and netlink messages,
    processes and files (their results are inputs); TOML and JSON text
    (interfaces); the formatting of trace events; the JSON of
    the Redfish, GPU and AMD tools is modelled on parsed values only; blocking and
    the scheduling of threads below the steps of [Sections] and [AgentPipeline]; the
    lag of a receiver of the kernel-log broadcast; the browser code, Ansible roles and packaging, which are not
    Rust.

    ** Order of work

    Done here: the shared schema, the alert path, the collector, every detection
    module, both mains, the composition of the whole agent with the collector's
    ingest, and of the collector's actors with each other, down to their lock sections.  Next: several agents
    and connections in one composition with the collector's own steps, webhooks
    against [AppState] over interleavings (lagging subscribers), and the messages
    of the agent shown to be in the range [WireJson] asks for.

    This file: automation, generic lemmas, machine integers and durations. *)
From stdpp Require Export prelude gmap strings list pretty.
From Stdlib Require Export ZArith Lia Sorted.

#[global] Set Default Goal Selector "!".
#[global] Open Scope Z_scope.

(** Concatenation reduces on a constructor, as the string functions need. *)
#[global] Arguments String.append !s1 s2 /.

(** * Automation

    [uma] collects the rewriting and resolution facts of the components. *)
Create HintDb uma.

(** Case analysis on every decided proposition of the goal and hypotheses. *)
Ltac decide_all :=
  repeat match goal with
  | |- context [decide ?P] => destruct (decide P)
  | H : context [decide ?P] |- _ => destruct (decide P)
  | |- context [bool_decide ?P] =>
      destruct (bool_decide_reflect P)
  | H : context [bool_decide ?P] |- _ =>
      destruct (bool_decide_reflect P)
  end.

(** Split boolean comparisons into arithmetic facts and finish with [lia]. *)
Ltac zbool :=
  repeat match goal with
  | H : (_ <=? _)%Z = true |- _ => apply Z.leb_le in H
  | H : (_ <=? _)%Z = false |- _ => apply Z.leb_gt in H
  | H : (_ <? _)%Z = true |- _ => apply Z.ltb_lt in H
  | H : (_ <? _)%Z = false |- _ => apply Z.ltb_ge in H
  | H : (_ =? _)%Z = true |- _ => apply Z.eqb_eq in H
  | H : (_ =? _)%Z = false |- _ => apply Z.eqb_neq in H
  | H : (_ && _) = true |- _ => apply andb_true_iff in H as [? ?]
  | H : (_ || _) = false |- _ => apply orb_false_iff in H as [? ?]
  end; try lia.

(** Open every [match] of the goal, simplifying the equations it leaves. *)
Ltac cases := repeat (case_match; simplify_eq/=); try done.

(** * Machine integers

    A Rust integer is a [Z]; the width shows in the operation that wraps,
    saturates or truncates.  The release profile sets [overflow-checks = false],
    so [+] and [-] wrap. *)
Module Int.

Definition u8_max : Z := 255.
Definition u32_max : Z := 4294967295.
Definition u64_max : Z := 18446744073709551615.
Definition i32_min : Z := -2147483648.
Definition i32_max : Z := 2147483647.

(** [x as u8], [x as u32], [x as u64]: truncation. *)
Definition as_u8 (x : Z) : Z := x mod 2 ^ 8.
Definition as_u32 (x : Z) : Z := x mod 2 ^ 32.
Definition as_u64 (x : Z) : Z := x mod 2 ^ 64.

(** [x as i32]: the low 32 bits read in two's complement. *)
Definition as_i32 (x : Z) : Z :=
  let y := x mod 2 ^ 32 in if (y <? 2 ^ 31)%Z then y else y - 2 ^ 32.

(** [x as i64]. *)
Definition as_i64 (x : Z) : Z :=
  let y := x mod 2 ^ 64 in if (y <? 2 ^ 63)%Z then y else y - 2 ^ 64.

Definition wrapping_add_u64 (x y : Z) : Z := as_u64 (x + y).
Definition wrapping_add_i32 (x y : Z) : Z := as_i32 (x + y).

(** [saturating_sub] on an unsigned type, [saturating_sub] on [i32],
    [saturating_mul] on [u64]. *)
Definition saturating_sub (x y : Z) : Z := Z.max 0 (x - y).
Definition saturating_sub_i32 (x y : Z) : Z :=
  Z.max i32_min (Z.min i32_max (x - y)).
Definition saturating_mul_u64 (x y : Z) : Z := Z.min u64_max (x * y).

Definition is_u8 (x : Z) : Prop := (0 <= x <= u8_max)%Z.
Definition is_u32 (x : Z) : Prop := (0 <= x <= u32_max)%Z.
Definition is_u64 (x : Z) : Prop := (0 <= x <= u64_max)%Z.
Definition is_i32 (x : Z) : Prop := (i32_min <= x <= i32_max)%Z.

Lemma as_u64_id x : is_u64 x -> as_u64 x = x.
Proof. unfold is_u64, as_u64, u64_max. intros. apply Z.mod_small. lia. Qed.

Lemma as_u32_id x : is_u32 x -> as_u32 x = x.
Proof. unfold is_u32, as_u32, u32_max. intros. apply Z.mod_small. lia. Qed.

Lemma as_u8_id x : is_u8 x -> as_u8 x = x.
Proof. unfold is_u8, as_u8, u8_max. intros. apply Z.mod_small. lia. Qed.

Lemma as_i32_id x : is_i32 x -> as_i32 x = x.
Proof.
  unfold is_i32, as_i32, i32_min, i32_max. intros H.
  destruct (decide (0 <= x)%Z).
  - rewrite Z.mod_small by lia. destruct (Z.ltb_spec x (2 ^ 31)); lia.
  - assert (E : (x mod 2 ^ 32 = x + 2 ^ 32)%Z).
    { symmetry. apply (Z.mod_unique_pos _ _ (-1)); lia. }
    rewrite E. destruct (Z.ltb_spec (x + 2 ^ 32) (2 ^ 31)); lia.
Qed.

Lemma as_i64_id x : (0 <= x < 2 ^ 63)%Z -> as_i64 x = x.
Proof.
  unfold as_i64. intros H. rewrite Z.mod_small by lia.
  destruct (Z.ltb_spec x (2 ^ 63)); lia.
Qed.

Lemma as_u64_range x : is_u64 (as_u64 x).
Proof.
  unfold is_u64, as_u64, u64_max.
  pose proof (Z.mod_pos_bound x (2 ^ 64) ltac:(lia)). lia.
Qed.

Lemma as_u32_range x : is_u32 (as_u32 x).
Proof.
  unfold is_u32, as_u32, u32_max.
  pose proof (Z.mod_pos_bound x (2 ^ 32) ltac:(lia)). lia.
Qed.

End Int.

(** * Time

    [std::time::Instant] and [chrono::DateTime<Utc>] are counts of nanoseconds;
    a [Duration] is a count of nanoseconds. *)
Abbreviation Instant := Z (only parsing).
Abbreviation Duration := Z (only parsing).
Abbreviation DateTime := Z (only parsing).

Definition nanos_per_sec : Z := 1000000000.
Definition from_secs (s : Z) : Duration := (s * nanos_per_sec)%Z.
Definition from_millis (ms : Z) : Duration := (ms * 1000000)%Z.

(** [Instant::duration_since] saturates at zero. *)
Definition duration_since (now earlier : Instant) : Duration :=
  Z.max 0 (now - earlier).

(** [Duration::as_secs] and [subsec_millis]. *)
Definition as_secs (d : Duration) : Z := (d / nanos_per_sec)%Z.
Definition subsec_millis (d : Duration) : Z :=
  ((d mod nanos_per_sec) / 1000000)%Z.

Lemma duration_since_le now t d :
  (0 < d)%Z -> (d <= duration_since now t)%Z -> (t + d <= now)%Z.
Proof. unfold duration_since. lia. Qed.

#[export] Hint Unfold duration_since : uma.

(** * Lists *)
Section lists.
Context {A : Type}.

(** [while let Some(x) = q.front() { if p(x) { q.pop_front() } else { break } }] *)
Fixpoint drop_while (p : A -> bool) (l : list A) : list A :=
  match l with
  | [] => []
  | x :: l' => if p x then drop_while p l' else l
  end.

Lemma drop_while_suffix p l : drop_while p l `suffix_of` l.
Proof.
  induction l as [|x l IH]; simpl; [done|].
  destruct (p x); [by apply suffix_cons_r|done].
Qed.

Lemma drop_while_length p l : (length (drop_while p l) <= length l)%nat.
Proof. apply suffix_length, drop_while_suffix. Qed.

Lemma drop_while_head p l x l' : drop_while p l = x :: l' -> p x = false.
Proof.
  induction l as [|y l IH]; simpl; [done|].
  destruct (p y) eqn:E; [done|]. by intros [= -> ->].
Qed.

Lemma drop_while_elem p l x : x ∈ drop_while p l -> x ∈ l.
Proof. intros Hx. destruct (drop_while_suffix p l) as [k ->]. set_solver. Qed.

(** On a list sorted so that [p] can only turn from true to false, popping from
    the front keeps exactly the entries that fail [p]. *)
Lemma drop_while_filter p (R : A -> A -> Prop) l :
  (forall x y, R x y -> p x = false -> p y = false) ->
  StronglySorted R l ->
  drop_while p l = List.filter (fun x => negb (p x)) l.
Proof.
  intros HR Hs. induction Hs as [|x l Hs IH Hall]; simpl; [done|].
  destruct (p x) eqn:E; simpl; [done|]. f_equal.
  clear IH Hs. induction l as [|y l IH]; simpl; [done|].
  apply Forall_cons in Hall as [Hxy Hall].
  rewrite (HR _ _ Hxy E). simpl. f_equal. auto.
Qed.

End lists.

(** Keys stay distinct under filtering. *)
Lemma NoDup_map_filter {A B} (f : A -> B) (P : A -> Prop)
    `{!forall x, Decision (P x)} (l : list A) :
  NoDup (map f l) -> NoDup (map f (filter P l)).
Proof.
  induction l as [|x l IH]; [done|]. simpl. intros [Hn Hnd]%NoDup_cons.
  rewrite filter_cons. case_decide; [|by apply IH].
  simpl. apply NoDup_cons. split; [|by apply IH].
  intros (y & Ey & Hy)%list_elem_of_fmap. apply Hn. rewrite Ey.
  apply list_elem_of_fmap. exists y. split; [done|].
  by apply list_elem_of_filter in Hy as [_ ?].
Qed.

Lemma length_omap_le {A B} (f : A -> option B) (l : list A) :
  (length (omap f l) <= length l)%nat.
Proof.
  induction l as [|x l IH]; [done|]. simpl. unfold omap in IH.
  destruct (f x); simpl; lia.
Qed.

(** Text of an unsigned or signed integer, as [to_string] and [{}] print it. *)
Definition show (n : Z) : string := pretty n.

(** The double quote, which Rust writes as an escape inside a literal. *)
Definition dq : string := String (Ascii.ascii_of_nat 34) "".

(** The newline. *)
Definition nl : string := String (Ascii.ascii_of_nat 10) "".
