(* ===== verification/Text.v ===== *)
(** Rust's [str] operations, on byte strings.

    A Rust [String] is its UTF-8 bytes, one [ascii] per byte.  Each operation of
    the standard library the program calls is an executable function here, with
    the lemmas the components use: substring search, trimming, splitting,
    decimal parsing (and its round trip with printing) and UTF-8 validation. *)
From S2P Require Import Prelude.
From Stdlib Require Import Ascii.

Local Open Scope string_scope.
Local Open Scope Z_scope.

Definition byte_val (c : ascii) : Z := Z.of_N (N_of_ascii c).
Definition byte_of (z : Z) : ascii := ascii_of_N (Z.to_N z).

(** * Bytes *)

Definition is_digit (c : ascii) : bool :=
  ((48 <=? byte_val c) && (byte_val c <=? 57))%Z.
Definition is_upper (c : ascii) : bool :=
  ((65 <=? byte_val c) && (byte_val c <=? 90))%Z.
Definition is_lower (c : ascii) : bool :=
  ((97 <=? byte_val c) && (byte_val c <=? 122))%Z.

Definition lower_byte (c : ascii) : ascii :=
  if is_upper c then byte_of (byte_val c + 32) else c.
Definition upper_byte (c : ascii) : ascii :=
  if is_lower c then byte_of (byte_val c - 32) else c.

Fixpoint map_bytes (f : ascii -> ascii) (s : string) : string :=
  match s with
  | "" => ""
  | String c r => String (f c) (map_bytes f r)
  end.

Definition to_ascii_lowercase : string -> string := map_bytes lower_byte.
Definition to_ascii_uppercase : string -> string := map_bytes upper_byte.

(** [str::to_lowercase].  Exact on ASCII text and on the two other letters whose
    lower case contains an ASCII letter, U+212A (Kelvin sign, to "k") and U+0130
    (to "i" and U+0307); any other non-ASCII letter is left as it is, which no
    comparison of the program with an ASCII pattern can observe. *)
Fixpoint to_lowercase (s : string) : string :=
  match s with
  | "" => ""
  | String a s1 =>
      match s1 with
      | String b s2 =>
          if ((byte_val a =? 196) && (byte_val b =? 176))%Z
          then String (byte_of 105) (String (byte_of 204) (String (byte_of 135)
                 (to_lowercase s2)))
          else match s2 with
               | String c s3 =>
                   if ((byte_val a =? 226) && (byte_val b =? 132)
                       && (byte_val c =? 170))%Z
                   then String (byte_of 107) (to_lowercase s3)
                   else String (lower_byte a) (to_lowercase s1)
               | "" => String (lower_byte a) (to_lowercase s1)
               end
      | "" => String (lower_byte a) ""
      end
  end.

Definition eq_ignore_ascii_case (s t : string) : bool :=
  bool_decide (to_ascii_lowercase s = to_ascii_lowercase t).

(** * Prefixes and substrings *)

Fixpoint strip_prefix (p s : string) : option string :=
  match p, s with
  | "", _ => Some s
  | String a p', String b s' =>
      if Ascii.eqb a b then strip_prefix p' s' else None
  | String _ _, "" => None
  end.

Definition starts_with (p s : string) : bool :=
  match strip_prefix p s with Some _ => true | None => false end.

Fixpoint contains (p s : string) : bool :=
  starts_with p s || match s with "" => false | String _ s' => contains p s' end.

Fixpoint contains_byte (c : ascii) (s : string) : bool :=
  match s with
  | "" => false
  | String a s' => Ascii.eqb a c || contains_byte c s'
  end.

Definition is_empty (s : string) : bool :=
  match s with "" => true | _ => false end.

Fixpoint concat_strings (l : list string) : string :=
  match l with [] => "" | x :: l' => x +:+ concat_strings l' end.

(** [slice::join]. *)
Fixpoint join (sep : string) (l : list string) : string :=
  match l with
  | [] => ""
  | [x] => x
  | x :: l' => x +:+ sep +:+ join sep l'
  end.

(** [str::replace]: every non-overlapping occurrence from the left.  The fuel is
    the length of the text, and a non-empty pattern consumes at least a byte. *)
Fixpoint replace_fuel (n : nat) (p r s : string) : string :=
  match n with
  | O => s
  | S n' =>
      match strip_prefix p s with
      | Some rest => r +:+ replace_fuel n' p r rest
      | None => match s with
                | "" => ""
                | String c s' => String c (replace_fuel n' p r s')
                end
      end
  end.
Definition replace (p r s : string) : string :=
  replace_fuel (S (String.length s)) p r s.

Lemma strip_prefix_Some p s r : strip_prefix p s = Some r <-> s = p +:+ r.
Proof.
  revert s. induction p as [|a p IH]; intros s; simpl.
  - split; [by intros [= ->]|by intros ->].
  - destruct s as [|b s]; [done|]. destruct (Ascii.eqb_spec a b) as [->|Hne].
    + rewrite IH. split; [by intros ->|by intros [=]].
    + split; [done|]. intros [=]. done.
Qed.

Lemma starts_with_true p s : starts_with p s = true <-> exists r, s = p +:+ r.
Proof.
  unfold starts_with. split.
  - destruct (strip_prefix p s) as [r|] eqn:E; [|done].
    intros _. exists r. by apply strip_prefix_Some.
  - intros [r Hr]. by rewrite (proj2 (strip_prefix_Some p s r) Hr).
Qed.

Lemma starts_with_app p s : starts_with p (p +:+ s) = true.
Proof. apply starts_with_true. by exists s. Qed.

Lemma contains_true p s :
  contains p s = true <-> exists l r, s = l +:+ p +:+ r.
Proof.
  induction s as [|c s IH]; simpl; rewrite orb_true_iff, starts_with_true.
  - split.
    + intros [[r Hr]|?]; [|done]. exists "", r. done.
    + intros (l & r & Hr). left. exists r. destruct l; [done|discriminate].
  - rewrite IH. split.
    + intros [[r Hr]|(l & r & ->)]; [by exists "", r|]. by exists (String c l), r.
    + intros (l & r & Hr). destruct l as [|a l]; simpl in Hr.
      * left. by exists r.
      * right. injection Hr as -> ->. by exists l, r.
Qed.

(** [trim_start_matches] with "0x"; each round removes two bytes. *)
Fixpoint trim_0x_fuel (n : nat) (s : string) : string :=
  match n with
  | O => s
  | S n' => match strip_prefix "0x" s with Some r => trim_0x_fuel n' r | None => s end
  end.
Definition trim_start_0x (s : string) : string := trim_0x_fuel (String.length s) s.

(** * White space *)

Definition ws1 (a : Z) : bool := ((9 <=? a) && (a <=? 13) || (a =? 32))%Z.
Definition ws2 (a b : Z) : bool :=
  ((a =? 194) && ((b =? 133) || (b =? 160)))%Z.
Definition ws3 (a b c : Z) : bool :=
  ((a =? 225) && (b =? 154) && (c =? 128)
   || (a =? 226) && (b =? 128)
      && ((128 <=? c) && (c <=? 138) || (c =? 168) || (c =? 169) || (c =? 175))
   || (a =? 226) && (b =? 129) && (c =? 159)
   || (a =? 227) && (b =? 128) && (c =? 128))%Z.

(** Strip leading Unicode white space; [flip] reads the bytes of a character in
    reverse, which is how [trim_end] runs on the reversed text. *)
Fixpoint strip_ws (flip : bool) (s : string) : string :=
  match s with
  | "" => ""
  | String a s1 =>
      if ws1 (byte_val a) then strip_ws flip s1 else
      match s1 with
      | "" => s
      | String b s2 =>
          if (if flip then ws2 (byte_val b) (byte_val a)
              else ws2 (byte_val a) (byte_val b))
          then strip_ws flip s2 else
          match s2 with
          | "" => s
          | String c s3 =>
              if (if flip then ws3 (byte_val c) (byte_val b) (byte_val a)
                  else ws3 (byte_val a) (byte_val b) (byte_val c))
              then strip_ws flip s3 else s
          end
      end
  end.

Fixpoint rev_app (s acc : string) : string :=
  match s with "" => acc | String c s' => rev_app s' (String c acc) end.
Definition rev_string (s : string) : string := rev_app s "".

Definition trim_start (s : string) : string := strip_ws false s.
Definition trim_end (s : string) : string :=
  rev_string (strip_ws true (rev_string s)).
Definition trim (s : string) : string := trim_end (trim_start s).

(** * Splitting *)

(** [split_once(c)] *)
Fixpoint split_once (c : ascii) (s : string) : option (string * string) :=
  match s with
  | "" => None
  | String a s' =>
      if Ascii.eqb a c then Some ("", s')
      else match split_once c s' with
           | Some (l, r) => Some (String a l, r)
           | None => None
           end
  end.

(** [split(c)]: never empty. *)
Fixpoint split (c : ascii) (s : string) : list string :=
  match s with
  | "" => [""]
  | String a s' =>
      if Ascii.eqb a c then "" :: split c s'
      else match split c s' with
           | x :: l => String a x :: l
           | [] => [String a ""]
           end
  end.

(** [splitn(n, c)]: at most [n] parts, the last one unsplit. *)
Fixpoint splitn (n : nat) (c : ascii) (s : string) : list string :=
  match n with
  | O => []
  | S O => [s]
  | S n' => match split_once c s with
            | Some (l, r) => l :: splitn n' c r
            | None => [s]
            end
  end.

Definition LF : ascii := byte_of 10.
Definition CR : ascii := byte_of 13.

Fixpoint strip_last (c : ascii) (s : string) : string :=
  match s with
  | "" => ""
  | String a "" => if Ascii.eqb a c then "" else s
  | String a s' => String a (strip_last c s')
  end.

Fixpoint drop_trailing_empty (l : list string) : list string :=
  match l with
  | [] => []
  | [x] => if is_empty x then [] else [x]
  | x :: l' => x :: drop_trailing_empty l'
  end.

(** [str::lines]. *)
Definition lines (s : string) : list string :=
  map (strip_last CR) (drop_trailing_empty (split LF s)).

(** [str::split_whitespace], on ASCII white space. *)
Fixpoint split_ws_go (acc : string) (s : string) : list string :=
  match s with
  | "" => if is_empty acc then [] else [acc]
  | String a s' =>
      if ws1 (byte_val a)
      then (if is_empty acc then [] else [acc]) ++ split_ws_go "" s'
      else split_ws_go (acc +:+ String a "") s'
  end.
Definition split_whitespace (s : string) : list string := split_ws_go "" s.

Lemma split_once_Some c s l r :
  split_once c s = Some (l, r) <->
  s = l +:+ String c r /\ contains_byte c l = false.
Proof.
  revert l. induction s as [|a s IH]; intros l; simpl.
  - split; [done|]. intros [H _]. by destruct l.
  - destruct (Ascii.eqb_spec a c) as [->|Hne].
    + split; [by intros [= <- <-]|]. intros [H Hl]. destruct l as [|b l].
      * by injection H as ->.
      * injection H as -> ->. simpl in Hl. rewrite Ascii.eqb_refl in Hl. done.
    + destruct (split_once c s) as [[l0 r0]|] eqn:E.
      * split.
        -- intros [= <- <-]. destruct (proj1 (IH l0) eq_refl) as [-> Hl].
           split; [done|]. simpl. rewrite Hl.
           destruct (Ascii.eqb_spec a c); done.
        -- intros [H Hl]. destruct l as [|b l]; [by injection H as ->|].
           injection H as -> ->. simpl in Hl. apply orb_false_iff in Hl as [_ Hl].
           by pose proof (proj2 (IH l) (conj eq_refl Hl)) as [= -> ->].
      * split; [done|]. intros [H Hl]. destruct l as [|b l]; [by injection H as ->|].
        injection H as -> ->. simpl in Hl. apply orb_false_iff in Hl as [_ Hl].
        by specialize (proj2 (IH l) (conj eq_refl Hl)).
Qed.

Lemma contains_byte_app c s t :
  contains_byte c (s +:+ t) = contains_byte c s || contains_byte c t.
Proof. induction s as [|a s IH]; simpl; [done|]. by rewrite IH, orb_assoc. Qed.

Lemma split_once_app c l r :
  contains_byte c l = false -> split_once c (l +:+ String c r) = Some (l, r).
Proof. intros. by apply split_once_Some. Qed.

Lemma split_no c s : contains_byte c s = false -> split c s = [s].
Proof.
  induction s as [|a s IH]; simpl; [done|]. intros [Ha Hs]%orb_false_iff.
  rewrite Ha, (IH Hs). done.
Qed.

Lemma split_app c l r :
  contains_byte c l = false -> split c (l +:+ String c r) = l :: split c r.
Proof.
  induction l as [|a l IH]; simpl.
  - intros _. by rewrite Ascii.eqb_refl.
  - intros [Ha Hl]%orb_false_iff. by rewrite Ha, (IH Hl).
Qed.

Lemma string_app_assoc (a b c : string) : (a +:+ b) +:+ c = a +:+ b +:+ c.
Proof. induction a as [|x a IH]; simpl; [done|]. by rewrite IH. Qed.

(** * The order of strings *)

Lemma ascii_compare_lt a b : Ascii.compare a b = Lt <-> (N_of_ascii a < N_of_ascii b)%N.
Proof. unfold Ascii.compare. apply N.compare_lt_iff. Qed.

Lemma ascii_compare_eq a b : Ascii.compare a b = Eq <-> a = b.
Proof.
  unfold Ascii.compare. rewrite N.compare_eq_iff. split; [|by intros ->].
  intros E. rewrite <- (ascii_N_embedding a), <- (ascii_N_embedding b). by rewrite E.
Qed.

Lemma string_lt_trans a b c :
  String.compare a b = Lt -> String.compare b c = Lt -> String.compare a c = Lt.
Proof.
  revert b c. induction a as [|x a IH]; intros [|y b] [|z c]; simpl; try done.
  destruct (Ascii.compare x y) eqn:Exy; [| |done].
  - apply ascii_compare_eq in Exy as ->. destruct (Ascii.compare y z); [apply IH|done|done].
  - intros _. destruct (Ascii.compare y z) eqn:Eyz; [| |done].
    + apply ascii_compare_eq in Eyz as ->. by rewrite Exy.
    + intros _. apply ascii_compare_lt in Exy. apply ascii_compare_lt in Eyz.
      assert (Exz : Ascii.compare x z = Lt)
        by (apply ascii_compare_lt; by eapply N.lt_trans).
      by rewrite Exz.
Qed.

Lemma string_ltb_lt a b : String.ltb a b = true <-> String.compare a b = Lt.
Proof. unfold String.ltb. by destruct (String.compare a b). Qed.

Lemma string_ltb_leb a b : String.ltb a b = negb (String.leb b a).
Proof.
  unfold String.ltb, String.leb. rewrite (String.compare_antisym b a).
  by destruct (String.compare a b).
Qed.

Lemma string_leb_ltb_trans a b c :
  String.leb a b = true -> String.ltb b c = true -> String.ltb a c = true.
Proof.
  rewrite !string_ltb_lt. unfold String.leb. destruct (String.compare a b) eqn:E; [| |done].
  - by apply String.compare_eq_iff in E as ->.
  - intros _. by apply string_lt_trans.
Qed.

(** The greatest of [m] and a list. *)
Definition string_max (m : string) (l : list string) : string :=
  foldl (fun m x => if String.ltb m x then x else m) m l.

Lemma string_max_lt m l c :
  String.ltb (string_max m l) c = forallb (fun x => String.ltb x c) (m :: l).
Proof.
  revert m. induction l as [|x l IH]; intros m; simpl; [by rewrite andb_true_r|].
  unfold string_max in *. simpl. rewrite IH. simpl. rewrite andb_assoc. f_equal.
  destruct (String.ltb m x) eqn:E.
  - destruct (String.ltb x c) eqn:Ec; [|by rewrite andb_false_r].
    assert (String.ltb m c = true) as -> by (eapply string_leb_ltb_trans; [|done];
      apply string_ltb_lt in E; unfold String.leb; by rewrite E). done.
  - destruct (String.ltb m c) eqn:Ec; [|done]. simpl. symmetry.
    eapply string_leb_ltb_trans; [|done].
    rewrite string_ltb_leb in E. by apply negb_false_iff in E.
Qed.

Lemma string_max_app m l1 l2 :
  string_max m (l1 ++ l2)%list = string_max (string_max m l1) l2.
Proof. unfold string_max. by rewrite foldl_app. Qed.

(** The last part of a split text. *)
Lemma last_split_app c p s :
  contains_byte c s = false -> last (split c (p +:+ String c s)) = Some s.
Proof.
  intros Hs. induction p as [|a p IH]; simpl.
  - rewrite Ascii.eqb_refl. by rewrite (split_no _ _ Hs).
  - destruct (Ascii.eqb a c).
    + simpl. rewrite last_cons, IH. done.
    + destruct (split c (p +:+ String c s)) as [|x l] eqn:E; [done|].
      destruct l as [|y l]; [|done].
      (* the text has a separator: at least two parts *)
      exfalso. clear IH. revert x E. induction p as [|b p IH]; intros x E; simpl in E.
      * rewrite Ascii.eqb_refl, (split_no _ _ Hs) in E. done.
      * destruct (Ascii.eqb b c).
        -- injection E as _ E. by destruct p; simpl in E; repeat case_match.
        -- destruct (split c (p +:+ String c s)) as [|z l] eqn:E'; [by destruct p; simpl in E'; repeat case_match|].
           injection E as _ ->. by eapply IH.
Qed.

(** * Decimal numbers *)

(** The digit loop of [parse]: [None] on a non-digit or past [max]. *)
Fixpoint parse_digits (max acc : Z) (s : string) : option Z :=
  match s with
  | "" => Some acc
  | String c s' =>
      if is_digit c then
        let acc' := acc * 10 + (byte_val c - 48) in
        if (acc' <=? max)%Z then parse_digits max acc' s' else None
      else None
  end.

(** [str::parse] at an unsigned type with the given maximum. *)
Definition parse_unsigned (max : Z) (s : string) : option Z :=
  match s with
  | "" => None
  | String c r =>
      if (byte_val c =? 43)%Z
      then (if is_empty r then None else parse_digits max 0 r)
      else parse_digits max 0 s
  end.

(** [str::parse::<i32>]. *)
Definition parse_i32 (s : string) : option Z :=
  match s with
  | "" => None
  | String c r =>
      if (byte_val c =? 45)%Z
      then (if is_empty r then None else Z.opp <$> parse_digits (2 ^ 31) 0 r)
      else parse_unsigned Int.i32_max s
  end.

Definition hex_digit (c : ascii) : option Z :=
  let v := byte_val c in
  if is_digit c then Some (v - 48)
  else if ((97 <=? v) && (v <=? 102))%Z then Some (v - 87)
  else if ((65 <=? v) && (v <=? 70))%Z then Some (v - 55)
  else None.

Fixpoint parse_hex_digits (max acc : Z) (s : string) : option Z :=
  match s with
  | "" => Some acc
  | String c s' =>
      match hex_digit c with
      | Some d => let acc' := acc * 16 + d in
                  if (acc' <=? max)%Z then parse_hex_digits max acc' s' else None
      | None => None
      end
  end.

(** [u64::from_str_radix(s, 16)]. *)
Definition u64_from_hex (s : string) : option Z :=
  match s with
  | "" => None
  | String c r =>
      if (byte_val c =? 43)%Z
      then (if is_empty r then None else parse_hex_digits Int.u64_max 0 r)
      else parse_hex_digits Int.u64_max 0 s
  end.

Lemma parse_digits_range max s acc v :
  0 <= acc -> parse_digits max acc s = Some v -> 0 <= v /\ (acc <= max -> v <= max).
Proof.
  revert acc. induction s as [|c s IH]; intros acc Hacc; simpl.
  - intros [= <-]. lia.
  - destruct (is_digit c) eqn:Hd; [|done].
    unfold is_digit in Hd. zbool.
    destruct (Z.leb_spec (acc * 10 + (byte_val c - 48)) max); [|done].
    intros [? ?]%IH; lia.
Qed.

Lemma parse_unsigned_range max s v :
  0 <= max -> parse_unsigned max s = Some v -> 0 <= v <= max.
Proof.
  unfold parse_unsigned. destruct s as [|c r]; [done|]. intros Hm.
  case_match; [case_match; [done|]|];
    intros [? ?]%parse_digits_range; lia.
Qed.

Lemma pretty_char_digit x :
  (x < 10)%N -> is_digit (pretty_N_char x) = true
             /\ byte_val (pretty_N_char x) = 48 + Z.of_N x.
Proof.
  intros H.
  assert (Hx : (x = 0 \/ x = 1 \/ x = 2 \/ x = 3 \/ x = 4 \/ x = 5 \/ x = 6
               \/ x = 7 \/ x = 8 \/ x = 9)%N) by lia.
  destruct_or!; subst; done.
Qed.

Lemma parse_digits_pretty_go max x s :
  Z.of_N x <= max -> (0 < x)%N ->
  parse_digits max 0 (pretty_N_go x s) = parse_digits max (Z.of_N x) s.
Proof.
  revert s. induction (N.lt_wf_0 x) as [x _ IH]; intros s Hm Hx.
  rewrite pretty_N_go_step by done.
  pose proof (N.div_mod x 10 ltac:(lia)) as Hdm.
  pose proof (N.mod_lt x 10 ltac:(lia)) as Hlt.
  destruct (pretty_char_digit (x `mod` 10)%N Hlt) as [Hd Hv].
  revert Hdm Hlt Hd Hv. generalize (x `div` 10)%N (x `mod` 10)%N.
  intros q r Hdm Hlt Hd Hv.
  assert (Hstep : parse_digits max (Z.of_N q) (String (pretty_N_char r) s)
                  = parse_digits max (Z.of_N x) s).
  { simpl. rewrite Hd, Hv.
    replace (Z.of_N q * 10 + (48 + Z.of_N r - 48)) with (Z.of_N x) by lia.
    by rewrite (proj2 (Z.leb_le _ _) Hm). }
  destruct (decide (0 < q)%N) as [Hp|Hp].
  - rewrite IH by lia. done.
  - replace q with 0%N in * by lia. by rewrite pretty_N_go_0.
Qed.

Lemma pretty_go_first x s :
  (0 < x)%N -> exists c r, pretty_N_go x s = String c r /\ is_digit c = true.
Proof.
  revert s. induction (N.lt_wf_0 x) as [x _ IH]; intros s Hx.
  rewrite pretty_N_go_step by done.
  destruct (N.eq_0_gt_0_cases (x `div` 10)%N) as [->|Hp].
  2: { apply IH; [apply N.div_lt; lia|done]. }
  - rewrite pretty_N_go_0. eexists _, _. split; [done|].
    apply pretty_char_digit. by apply N.mod_lt.
Qed.

Lemma digit_not_plus c : is_digit c = true -> (byte_val c =? 43)%Z = false.
Proof. unfold is_digit. intros H. zbool. Qed.

Lemma show_pos p : show (Z.pos p) = pretty_N_go (N.pos p) "".
Proof. done. Qed.

(** Printing then parsing an unsigned integer gives it back. *)
Lemma parse_unsigned_show max n :
  0 <= n <= max -> parse_unsigned max (show n) = Some n.
Proof.
  intros H. destruct n as [|p|p]; [|rewrite show_pos|lia].
  - change (parse_unsigned max (show 0)) with (if 0 <=? max then Some 0 else None).
    by destruct (Z.leb_spec 0 max); [|lia].
  - destruct (pretty_go_first (N.pos p) "") as (c & r & E & Hd); [lia|].
    unfold parse_unsigned. rewrite E, (digit_not_plus _ Hd), <- E.
    rewrite parse_digits_pretty_go by lia. done.
Qed.

Lemma pretty_go_digits x s c :
  contains_byte c (pretty_N_go x s) = true ->
  is_digit c = true \/ contains_byte c s = true.
Proof.
  revert s. induction (N.lt_wf_0 x) as [x _ IH]; intros s.
  destruct (decide (0 < x)%N) as [Hx|Hx].
  - rewrite pretty_N_go_step by done. intros H.
    apply IH in H; [|apply N.div_lt; lia]. destruct H as [H|H]; [by left|].
    simpl in H. apply orb_true_iff in H as [H|H]; [|by right].
    apply Ascii.eqb_eq in H. subst c. left.
    apply pretty_char_digit. apply N.mod_lt. lia.
  - replace x with 0%N by lia. rewrite pretty_N_go_0. by right.
Qed.

(** A printed unsigned integer contains no separator. *)
Lemma show_no_sep c n :
  0 <= n -> is_digit c = false -> contains_byte c (show n) = false.
Proof.
  intros Hn Hc. destruct (contains_byte c (show n)) eqn:E; [|done]. exfalso.
  destruct n as [|p|p]; [|rewrite show_pos in E|lia].
  - change (contains_byte c (show 0)) with (Ascii.eqb "0"%char c || false) in E.
    rewrite orb_false_r in E. apply Ascii.eqb_eq in E. by subst.
  - apply pretty_go_digits in E as [E|E]; [congruence|done].
Qed.

#[export] Hint Rewrite split_once_app split_app : uma.
