(* ===== verification/Utf8.v ===== *)
(** UTF-8 validation ([str::from_utf8]) and lossy decoding
    ([String::from_utf8_lossy]) on byte strings. *)
From S2P Require Import Prelude Text.
From Stdlib Require Import Ascii.

Local Open Scope Z_scope.

Definition between (lo hi x : Z) : bool := (lo <=? x) && (x <=? hi).
Definition cont (x : Z) : bool := between 128 191 x.

(** The second byte a lead byte of a three or four byte sequence accepts. *)
Definition second_ok (b0 b1 : Z) : bool :=
  if b0 =? 224 then between 160 191 b1
  else if b0 =? 237 then between 128 159 b1
  else if b0 =? 240 then between 144 191 b1
  else if b0 =? 244 then between 128 143 b1
  else cont b1.

(** The first character of a non-empty text: [(true, n)] for a well-formed
    sequence of [n] bytes, [(false, n)] for an ill-formed maximal prefix. *)
Definition utf8_head (s : string) : bool * nat :=
  match s with
  | EmptyString => (true, 0%nat)
  | String c0 s1 =>
      let b0 := byte_val c0 in
      if b0 <=? 127 then (true, 1%nat)
      else if between 194 223 b0 then
        match s1 with
        | String c1 _ => if cont (byte_val c1) then (true, 2%nat) else (false, 1%nat)
        | EmptyString => (false, 1%nat)
        end
      else if between 224 239 b0 then
        match s1 with
        | String c1 s2 =>
            if second_ok b0 (byte_val c1) then
              match s2 with
              | String c2 _ =>
                  if cont (byte_val c2) then (true, 3%nat) else (false, 2%nat)
              | EmptyString => (false, 2%nat)
              end
            else (false, 1%nat)
        | EmptyString => (false, 1%nat)
        end
      else if between 240 244 b0 then
        match s1 with
        | String c1 s2 =>
            if second_ok b0 (byte_val c1) then
              match s2 with
              | String c2 s3 =>
                  if cont (byte_val c2) then
                    match s3 with
                    | String c3 _ =>
                        if cont (byte_val c3) then (true, 4%nat) else (false, 3%nat)
                    | EmptyString => (false, 3%nat)
                    end
                  else (false, 2%nat)
              | EmptyString => (false, 2%nat)
              end
            else (false, 1%nat)
        | EmptyString => (false, 1%nat)
        end
      else (false, 1%nat)
  end.

Fixpoint take_bytes (n : nat) (s : string) : string :=
  match n, s with
  | S n', String c s' => String c (take_bytes n' s')
  | _, _ => EmptyString
  end.
Fixpoint drop_bytes (n : nat) (s : string) : string :=
  match n, s with
  | O, _ => s
  | S n', String _ s' => drop_bytes n' s'
  | S _, EmptyString => EmptyString
  end.

(** U+FFFD. *)
Definition replacement : string :=
  String (byte_of 239) (String (byte_of 191) (String (byte_of 189) EmptyString)).

(** Every step consumes at least one byte, so the length is enough fuel. *)
Fixpoint utf8_valid_fuel (n : nat) (s : string) : bool :=
  match n, s with
  | _, EmptyString => true
  | O, _ => false
  | S n', _ => let (ok, k) := utf8_head s in ok && utf8_valid_fuel n' (drop_bytes k s)
  end.
Definition utf8_valid (s : string) : bool := utf8_valid_fuel (String.length s) s.

(** [std::str::from_utf8(bytes).ok()] *)
Definition from_utf8 (s : string) : option string :=
  if utf8_valid s then Some s else None.

Fixpoint lossy_fuel (n : nat) (s : string) : string :=
  match n, s with
  | _, EmptyString => EmptyString
  | O, _ => EmptyString
  | S n', _ =>
      let (ok, k) := utf8_head s in
      (if ok then take_bytes k s else replacement) +:+ lossy_fuel n' (drop_bytes k s)
  end.
Definition from_utf8_lossy (s : string) : string := lossy_fuel (String.length s) s.

Lemma take_drop_bytes k s : take_bytes k s +:+ drop_bytes k s = s.
Proof.
  revert s. induction k as [|k IH]; intros s; [by destruct s|].
  destruct s; simpl; [done|]. by rewrite IH.
Qed.

(** Lossy decoding leaves valid text alone. *)
Lemma from_utf8_lossy_valid s : utf8_valid s = true -> from_utf8_lossy s = s.
Proof.
  unfold utf8_valid, from_utf8_lossy. generalize (String.length s) as n.
  intros n. revert s. induction n as [|n IH]; intros [|c s]; try done.
  cbn [utf8_valid_fuel lossy_fuel]. destruct (utf8_head (String c s)) as [ok k].
  intros [-> Hv]%andb_true_iff. rewrite (IH _ Hv). apply take_drop_bytes.
Qed.

Fixpoint all_ascii (s : string) : bool :=
  match s with
  | EmptyString => true
  | String c s' => (byte_val c <=? 127) && all_ascii s'
  end.

Lemma all_ascii_valid s : all_ascii s = true -> utf8_valid s = true.
Proof.
  unfold utf8_valid. induction s as [|c s IH]; [done|].
  cbn [all_ascii String.length utf8_valid_fuel]. intros [Hc Hs]%andb_true_iff.
  unfold utf8_head. rewrite Hc. cbn [andb drop_bytes]. by apply IH.
Qed.

Lemma all_ascii_app s t : all_ascii (s +:+ t) = all_ascii s && all_ascii t.
Proof. induction s as [|c s IH]; [done|]. simpl. by rewrite IH, andb_assoc. Qed.

Lemma all_ascii_forall s :
  (forall c, contains_byte c s = true -> byte_val c <= 127) -> all_ascii s = true.
Proof.
  induction s as [|a s IH]; simpl; [done|]. intros H.
  rewrite (proj2 (Z.leb_le _ _)), IH; [done| |].
  - intros c Hc. apply H. by rewrite Hc, orb_true_r.
  - apply H. by rewrite Ascii.eqb_refl.
Qed.

Lemma digit_ascii c : is_digit c = true -> byte_val c <= 127.
Proof. unfold is_digit. intros H. zbool. Qed.

Lemma show_ascii n : 0 <= n -> all_ascii (show n) = true.
Proof.
  intros Hn. apply all_ascii_forall. intros c Hc.
  destruct (is_digit c) eqn:E; [by apply digit_ascii|].
  by rewrite (show_no_sep c n Hn E) in Hc.
Qed.

(** * Cutting at a character boundary *)

(** The byte at a position. *)
Fixpoint byte_at (n : nat) (s : string) {struct s} : option Z :=
  match s with
  | EmptyString => None
  | String c s' => match n with O => Some (byte_val c) | S n' => byte_at n' s' end
  end.

(** [str::is_char_boundary]. *)
Definition is_char_boundary (n : nat) (s : string) : bool :=
  (n =? 0)%nat || (n =? String.length s)%nat
  || match byte_at n s with Some b => negb (cont b) | None => false end.

(** Well-formed text as a sequence of characters. *)
Inductive well_formed : string -> Prop :=
  | wf_nil : well_formed EmptyString
  | wf_char c s k :
      utf8_head (String c s) = (true, k) -> well_formed (drop_bytes k (String c s)) ->
      well_formed (String c s).

Ltac utf8_cases H :=
  unfold utf8_head in H;
  repeat (match type of H with context [if ?b then _ else _] => destruct b eqn:? end
          || match type of H with context [match ?s with EmptyString => _ | _ => _ end] => destruct s end);
  try discriminate H; injection H as <-.

Lemma second_ok_cont a b : second_ok a b = true -> cont b = true.
Proof. unfold second_ok, cont, between. intros H. repeat case_match; zbool; lia. Qed.

(** A character is one to four bytes, the later ones continuations. *)
Lemma utf8_head_shape c s k :
  utf8_head (String c s) = (true, k) ->
  (1 <= k <= 4)%nat /\ (k <= S (String.length s))%nat
  /\ forall i, (1 <= i < k)%nat -> exists b, byte_at i (String c s) = Some b /\ cont b = true.
Proof.
  intros Hh. utf8_cases Hh; (split; [lia|]); (split; [simpl; lia|]); intros i Hi;
    destruct i as [|[|[|[|i]]]]; try lia; eexists; (split; [reflexivity|]);
    try done; by eapply second_ok_cont.
Qed.

(** The character depends on its own bytes only. *)
Lemma utf8_head_prefix c s k t :
  utf8_head (String c s) = (true, k) ->
  utf8_head (take_bytes k (String c s) +:+ t) = (true, k).
Proof.
  intros Hh. utf8_cases Hh; unfold utf8_head; simpl;
    repeat match goal with E : ?x = _ |- context [?x] => rewrite E end; done.
Qed.

Lemma utf8_valid_well_formed n s : utf8_valid_fuel n s = true -> well_formed s.
Proof.
  revert s. induction n as [|n IH]; intros [|c s]; try (done || constructor).
  cbn [utf8_valid_fuel]. destruct (utf8_head (String c s)) as [ok k] eqn:E.
  intros [-> Hv]%andb_true_iff. econstructor; [exact E|]. by apply IH.
Qed.

Lemma length_drop_bytes k s : String.length (drop_bytes k s) = (String.length s - k)%nat.
Proof.
  revert s. induction k as [|k IH]; intros [|c s]; simpl; try done; apply IH.
Qed.

Lemma well_formed_fuel n s :
  well_formed s -> (String.length s <= n)%nat -> utf8_valid_fuel n s = true.
Proof.
  intros Hw. revert n. induction Hw as [|c s k Hh Hw IH]; intros n Hn; [by destruct n|].
  destruct n as [|n]; [simpl in Hn; lia|]. cbn [utf8_valid_fuel]. rewrite Hh. simpl.
  destruct (utf8_head_shape _ _ _ Hh) as (Hk & _ & _).
  apply IH. rewrite length_drop_bytes. simpl in *. lia.
Qed.

Lemma utf8_valid_spec s : utf8_valid s = true <-> well_formed s.
Proof.
  split; [apply utf8_valid_well_formed|]. intros Hw. by apply well_formed_fuel.
Qed.

Lemma byte_at_drop k n s : byte_at (k + n) s = byte_at n (drop_bytes k s).
Proof.
  revert s. induction k as [|k IH]; intros [|c s]; simpl; try done; apply IH.
Qed.

(** Inside a character there is no boundary. *)
Lemma inside_no_boundary c s k n :
  utf8_head (String c s) = (true, k) -> (1 <= n < k)%nat ->
  is_char_boundary n (String c s) = false.
Proof.
  intros Hh Hn. destruct (utf8_head_shape _ _ _ Hh) as (_ & Hlen & Hin).
  destruct (Hin n Hn) as (b & Hb & Hc). unfold is_char_boundary. rewrite Hb, Hc.
  rewrite (proj2 (Nat.eqb_neq _ _)) by lia. rewrite (proj2 (Nat.eqb_neq _ _)); [done|].
  simpl. lia.
Qed.

Lemma boundary_drop k n s :
  (k <= String.length s)%nat -> n <> 0%nat ->
  is_char_boundary (k + n) s = is_char_boundary n (drop_bytes k s).
Proof.
  intros Hk Hn. unfold is_char_boundary. rewrite byte_at_drop, length_drop_bytes.
  f_equal. f_equal.
  - by rewrite !(proj2 (Nat.eqb_neq _ _)) by lia.
  - destruct (Nat.eqb_spec (k + n) (String.length s)), (Nat.eqb_spec n (String.length s - k));
      done || lia.
Qed.

(** A character starts at a boundary. *)
Lemma boundary_zero s : is_char_boundary 0 s = true.
Proof. done. Qed.

Lemma take_bytes_add k n s :
  take_bytes (k + n) s = take_bytes k s +:+ take_bytes n (drop_bytes k s).
Proof.
  revert s. induction k as [|k IH]; intros [|c s]; simpl; try done; by rewrite ?IH; destruct n.
Qed.

Lemma drop_take_bytes k s t :
  (k <= String.length s)%nat -> drop_bytes k (take_bytes k s +:+ t) = t.
Proof.
  revert s. induction k as [|k IH]; intros [|c s] Hl; simpl in *; try done; [lia|].
  apply IH. lia.
Qed.

Lemma well_formed_char c s k t :
  utf8_head (String c s) = (true, k) -> well_formed t ->
  well_formed (take_bytes k (String c s) +:+ t).
Proof.
  intros Hh Ht. destruct (utf8_head_shape _ _ _ Hh) as (Hk & Hlen & _).
  pose proof (utf8_head_prefix _ _ _ t Hh) as Hp.
  destruct k as [|k]; [lia|]. cbn [take_bytes String.append] in *.
  econstructor; [exact Hp|]. cbn [drop_bytes]. by rewrite drop_take_bytes by lia.
Qed.

(** Lossy decoding gives well-formed text. *)
Lemma from_utf8_lossy_well_formed s : well_formed (from_utf8_lossy s).
Proof.
  unfold from_utf8_lossy. generalize (String.length s) as n. intros n. revert s.
  induction n as [|n IH]; intros [|c s]; try constructor.
  cbn [lossy_fuel]. destruct (utf8_head (String c s)) as [[] k] eqn:E.
  - by apply well_formed_char.
  - econstructor; [reflexivity|]. apply IH.
Qed.

Lemma well_formed_take n s :
  well_formed s -> is_char_boundary n s = true -> well_formed (take_bytes n s).
Proof.
  intros Hw. revert n. induction Hw as [|c s k Hh Hw IH]; intros n Hb.
  - destruct n; constructor.
  - destruct (utf8_head_shape _ _ _ Hh) as (Hk & Hlen & _).
    destruct (decide (n = 0)%nat) as [->|Hn0]; [constructor|].
    destruct (decide (n < k)%nat) as [Hlt|Hge].
    { rewrite (inside_no_boundary _ _ _ _ Hh) in Hb by lia. done. }
    replace n with (k + (n - k))%nat in * by lia.
    assert (Htail : well_formed (take_bytes (n - k) (drop_bytes k (String c s)))).
    { destruct (decide (n - k = 0)%nat) as [->|Hne].
      - constructor.
      - apply IH. rewrite boundary_drop in Hb; [done|simpl; lia|done]. }
    rewrite take_bytes_add. by apply well_formed_char.
Qed.

(** At most three bytes back from any position there is a boundary. *)
Lemma near_boundary n s :
  well_formed s -> (n <= String.length s)%nat ->
  exists d, (d <= 3)%nat /\ (d <= n)%nat /\ is_char_boundary (n - d) s = true.
Proof.
  intros Hw. revert n. induction Hw as [|c s k Hh Hw IH]; intros n Hn.
  - exists 0%nat. simpl in Hn. assert (n = 0)%nat as -> by lia. split_and!; [lia..|done].
  - destruct (utf8_head_shape _ _ _ Hh) as (Hk & Hlen & _).
    destruct (decide (n < k)%nat) as [Hlt|Hge].
    + exists n. rewrite Nat.sub_diag. split_and!; [lia..|done].
    + destruct (IH (n - k)%nat) as (d & Hd3 & Hdn & Hb).
      { rewrite length_drop_bytes. simpl in *. lia. }
      exists d. split_and!; [lia..|].
      destruct (decide (n - k - d = 0)%nat) as [Hz|Hz].
      * destruct (decide (n - d = 0)%nat) as [->|Hnz]; [done|].
        (* the start of the next character *)
        replace (n - d)%nat with (k + 0)%nat by lia. unfold is_char_boundary.
        rewrite byte_at_drop. destruct (drop_bytes k (String c s)) as [|c2 s2] eqn:Ed.
        -- pose proof (length_drop_bytes k (String c s)) as Hl. rewrite Ed in Hl. simpl in *.
           rewrite (proj2 (Nat.eqb_eq (k + 0) (S (String.length s)))) by lia.
           by rewrite orb_true_r.
        -- inversion Hw as [|c2' s2' k2 Hh2 _]; subst. simpl.
           assert (Hlead : cont (byte_val c2) = false).
           { utf8_cases Hh2; unfold cont, between in *; zbool; apply andb_false_iff;
               (left; apply Z.leb_gt; lia) || (right; apply Z.leb_gt; lia). }
           rewrite Hlead. by rewrite orb_true_r.
      * replace (n - d)%nat with (k + (n - k - d))%nat by lia.
        rewrite boundary_drop; [done|simpl; lia|done].
Qed.
