(* ===== verification/Schema.v ===== *)
(** The wire schema shared by agent and collector (src/shared/src/lib.rs):
    envelopes, severities, the alert record and the [AlertBuilder] that
    modules use, with the fingerprint that keys deduplication on both sides. *)
From S2P Require Import Prelude Text.
From Stdlib Require Import SpecFloat Ascii.

Local Open Scope string_scope.
Local Open Scope Z_scope.

(** * JSON values

    The documented variants of [serde_json::Value]; a number is an integer or a
    floating-point value, an object keeps its fields in order. *)
#[local] Set Warnings "-register-all".

Inductive Value : Type :=
  | VNull
  | VBool (b : bool)
  | VInt (n : Z)
  | VFloat (f : spec_float)
  | VString (s : string)
  | VArray (l : list Value)
  | VObject (fields : list (string * Value)).

(** * Severity and state *)

(** src/shared/src/lib.rs:27-34 (Severity). *)
Inductive Severity : Type := Info | Warning | Critical.

(** src/shared/src/lib.rs:46-51 (AlertState). *)
Inductive AlertState : Type := Firing | Resolved.

#[export] Instance Severity_eq_dec : EqDecision Severity.
Proof. solve_decision. Defined.
#[export] Instance AlertState_eq_dec : EqDecision AlertState.
Proof. solve_decision. Defined.

(** src/shared/src/lib.rs:36-44 (Severity::as_str). *)
Definition severity_as_str (s : Severity) : string :=
  match s with
  | Info => "info"
  | Warning => "warning"
  | Critical => "critical"
  end.

(** The order [derive(PartialOrd, Ord)] gives the declaration order. *)
Definition severity_rank (s : Severity) : nat :=
  match s with Info => 0 | Warning => 1 | Critical => 2 end%nat.

(** src/shared/src/lib.rs:27-34 (Severity, derived Ord). *)
Definition severity_lt (a b : Severity) : bool :=
  (severity_rank a <? severity_rank b)%nat.

(** * Records *)

(** src/shared/src/lib.rs:53-106 (Alert). *)
Record Alert : Type := mkAlert {
  al_id : string;
  al_ts : DateTime;
  al_host : string;
  al_host_id : string;
  al_primary_ip : string;
  al_category : string;
  al_subsystem : option string;
  al_severity : Severity;
  al_state : AlertState;
  al_device : option string;
  al_device_model : option string;
  al_metric : string;
  al_value : option string;
  al_threshold : option string;
  al_title : string;
  al_message : string;
  al_fingerprint : string;
  al_first_seen : DateTime;
  al_last_seen : DateTime;
  al_occurrences : Z;
  al_raw : gmap string Value;
  al_correlated : list string
}.

(** src/shared/src/lib.rs:112-124 (Heartbeat). *)
Record Heartbeat : Type := mkHeartbeat {
  hb_host : string;
  hb_host_id : string;
  hb_ts : DateTime;
  hb_uptime_s : Z;
  hb_firing_count : Z;
  hb_agent_version : string
}.

(** src/shared/src/lib.rs:144-160 (VendorInfo). *)
Record VendorInfo : Type := mkVendorInfo {
  system_manufacturer : string;
  system_product_name : string;
  bios_version : string;
  bmc_vendor : string;
  gpu_vendors : list string;
  kernel : string;
  os_release : string
}.

(** [VendorInfo::default()], from [derive(Default)]. *)
Definition VendorInfo_default : VendorInfo :=
  mkVendorInfo "" "" "" "" [] "" "".

(** src/shared/src/lib.rs:126-142 (Hello). *)
Record Hello : Type := mkHello {
  hello_host : string;
  hello_host_id : string;
  hello_primary_ip : string;
  hello_agent_version : string;
  hello_started_at : DateTime;
  hello_vendor : VendorInfo;
  hello_tags : gmap string string;
  hello_maintenance : bool
}.

(** src/shared/src/lib.rs:178-194 (HostState). *)
Record HostState : Type := mkHostState {
  hs_host : string;
  hs_host_id : string;
  hs_primary_ip : string;
  hs_online : bool;
  hs_last_seen : DateTime;
  hs_firing_count : Z;
  hs_tags : gmap string string;
  hs_agent_version : string;
  hs_maintenance : bool
}.

(** src/shared/src/lib.rs:162-167 (Snapshot). *)
Record Snapshot : Type := mkSnapshot {
  sn_generated_at : DateTime;
  sn_alerts : list Alert;
  sn_hosts : list HostState
}.

(** src/shared/src/lib.rs:169-176 (HostStatus). *)
Record HostStatus : Type := mkHostStatus {
  st_host : string;
  st_host_id : string;
  st_online : bool;
  st_last_seen : DateTime;
  st_firing_count : Z
}.

(** src/shared/src/lib.rs:11-25 (Envelope). *)
Inductive Envelope : Type :=
  | EnvAlert (a : Alert)
  | EnvHeartbeat (h : Heartbeat)
  | EnvHello (h : Hello)
  | EnvSnapshot (s : Snapshot)
  | EnvHostStatus (s : HostStatus).

(** * AlertBuilder *)

(** src/shared/src/lib.rs:196-213 (AlertBuilder). *)
Record AlertBuilder : Type := mkBuilder {
  b_host : string;
  b_host_id : string;
  b_category : string;
  b_subsystem : option string;
  b_severity : Severity;
  b_metric : string;
  b_device : option string;
  b_device_model : option string;
  b_value : option string;
  b_threshold : option string;
  b_title : string;
  b_message : string;
  b_raw : gmap string Value;
  b_correlated : list string
}.

(** src/shared/src/lib.rs:216-239 (AlertBuilder::new). *)
Definition builder_new (host host_id category metric : string)
    (severity : Severity) : AlertBuilder :=
  mkBuilder host host_id category None severity metric None None None None
    "" "" ∅ [].

(** src/shared/src/lib.rs:241-244 (AlertBuilder::subsystem). *)
Definition with_subsystem (s : string) (b : AlertBuilder) : AlertBuilder :=
  let (h, hi, c, _, sv, m, d, dm, v, t, ti, me, r, co) := b in
  mkBuilder h hi c (Some s) sv m d dm v t ti me r co.

(** src/shared/src/lib.rs:245-248 (AlertBuilder::device). *)
Definition with_device (s : string) (b : AlertBuilder) : AlertBuilder :=
  let (h, hi, c, ss, sv, m, _, dm, v, t, ti, me, r, co) := b in
  mkBuilder h hi c ss sv m (Some s) dm v t ti me r co.

(** src/shared/src/lib.rs:249-252 (AlertBuilder::device_model). *)
Definition with_device_model (s : string) (b : AlertBuilder) : AlertBuilder :=
  let (h, hi, c, ss, sv, m, d, _, v, t, ti, me, r, co) := b in
  mkBuilder h hi c ss sv m d (Some s) v t ti me r co.

(** src/shared/src/lib.rs:253-256 (AlertBuilder::value). *)
Definition with_value (s : string) (b : AlertBuilder) : AlertBuilder :=
  let (h, hi, c, ss, sv, m, d, dm, _, t, ti, me, r, co) := b in
  mkBuilder h hi c ss sv m d dm (Some s) t ti me r co.

(** src/shared/src/lib.rs:257-260 (AlertBuilder::threshold). *)
Definition with_threshold (s : string) (b : AlertBuilder) : AlertBuilder :=
  let (h, hi, c, ss, sv, m, d, dm, v, _, ti, me, r, co) := b in
  mkBuilder h hi c ss sv m d dm v (Some s) ti me r co.

(** src/shared/src/lib.rs:261-264 (AlertBuilder::title). *)
Definition with_title (s : string) (b : AlertBuilder) : AlertBuilder :=
  let (h, hi, c, ss, sv, m, d, dm, v, t, _, me, r, co) := b in
  mkBuilder h hi c ss sv m d dm v t s me r co.

(** src/shared/src/lib.rs:265-268 (AlertBuilder::message). *)
Definition with_message (s : string) (b : AlertBuilder) : AlertBuilder :=
  let (h, hi, c, ss, sv, m, d, dm, v, t, ti, _, r, co) := b in
  mkBuilder h hi c ss sv m d dm v t ti s r co.

(** src/shared/src/lib.rs:269-272 (AlertBuilder::raw_kv). *)
Definition raw_kv (k : string) (x : Value) (b : AlertBuilder) : AlertBuilder :=
  let (h, hi, c, ss, sv, m, d, dm, v, t, ti, me, r, co) := b in
  mkBuilder h hi c ss sv m d dm v t ti me (<[k := x]> r) co.

(** src/shared/src/lib.rs:273-276 (AlertBuilder::correlate). *)
Definition correlate (fp : string) (b : AlertBuilder) : AlertBuilder :=
  let (h, hi, c, ss, sv, m, d, dm, v, t, ti, me, r, co) := b in
  mkBuilder h hi c ss sv m d dm v t ti me r (co ++ [fp]).

(** [b |> with_device d |> with_value v] reads as the source's method chain. *)
Notation "b |> f" := (f b) (at level 68, left associativity, only parsing).

(** src/shared/src/lib.rs:281-287 (the format string of AlertBuilder::fingerprint). *)
Definition format_fingerprint (host_id category : string)
    (device : option string) (metric : string) : string :=
  host_id +:+ "|" +:+ category +:+ "|" +:+ default "-" device +:+ "|" +:+ metric.

(** src/shared/src/lib.rs:278-288 (AlertBuilder::fingerprint). *)
Definition fingerprint (b : AlertBuilder) : string :=
  format_fingerprint (b_host_id b) (b_category b) (b_device b) (b_metric b).

(** One reading of the wall clock and of the ULID generator. *)
Record Stamp : Type := mkStamp { stamp_utc : DateTime; stamp_ulid : string }.

(** src/shared/src/lib.rs:290-319 (AlertBuilder::build_firing). *)
Definition build_firing (s : Stamp) (b : AlertBuilder) : Alert :=
  let now := stamp_utc s in
  let fp := fingerprint b in
  {| al_id := stamp_ulid s;
     al_ts := now;
     al_host := b_host b;
     al_host_id := b_host_id b;
     al_primary_ip := "";
     al_category := b_category b;
     al_subsystem := b_subsystem b;
     al_severity := b_severity b;
     al_state := Firing;
     al_device := b_device b;
     al_device_model := b_device_model b;
     al_metric := b_metric b;
     al_value := b_value b;
     al_threshold := b_threshold b;
     al_title := b_title b;
     al_message := b_message b;
     al_fingerprint := fp;
     al_first_seen := now;
     al_last_seen := now;
     al_occurrences := 1;
     al_raw := b_raw b;
     al_correlated := b_correlated b |}.

(** * Categories *)

(** src/shared/src/lib.rs:322-344 (mod cat). *)
Module cat.
Definition NVME : string := "nvme".
Definition DISK_SMART : string := "disk_smart".
Definition MEMORY_ECC : string := "memory_ecc".
Definition CPU_MCE : string := "cpu_mce".
Definition PCIE_AER : string := "pcie_aer".
Definition THERMAL : string := "thermal".
Definition GPU_NVIDIA : string := "gpu_nvidia".
Definition GPU_AMD : string := "gpu_amd".
Definition NETWORK_NIC : string := "network_nic".
Definition STORAGE_CONTROLLER : string := "storage_controller".
Definition STORAGE_IO : string := "storage_io".
Definition MEMORY_PRESSURE : string := "memory_pressure".
Definition OS_HANG : string := "os_hang".
Definition BMC_REDFISH : string := "bmc_redfish".
Definition BMC_EVENTLOG : string := "bmc_eventlog".
Definition SYSLOG : string := "syslog".
Definition BOOT : string := "boot".
Definition LIFECYCLE : string := "lifecycle".
Definition AGENT : string := "agent".
Definition COLLECTOR : string := "collector".
End cat.

(** * Field updates used by the components *)

Definition set_occurrences (n : Z) (a : Alert) : Alert :=
  let (i, ts, h, hi, ip, c, ss, sv, st, d, dm, m, v, t, ti, me, fp, fs, ls, _, r, co) := a in
  mkAlert i ts h hi ip c ss sv st d dm m v t ti me fp fs ls n r co.

Definition set_ts (x : DateTime) (a : Alert) : Alert :=
  let (i, _, h, hi, ip, c, ss, sv, st, d, dm, m, v, t, ti, me, fp, fs, ls, n, r, co) := a in
  mkAlert i x h hi ip c ss sv st d dm m v t ti me fp fs ls n r co.

Definition set_primary_ip (x : string) (a : Alert) : Alert :=
  let (i, ts, h, hi, _, c, ss, sv, st, d, dm, m, v, t, ti, me, fp, fs, ls, n, r, co) := a in
  mkAlert i ts h hi x c ss sv st d dm m v t ti me fp fs ls n r co.

Definition set_state (x : AlertState) (a : Alert) : Alert :=
  let (i, ts, h, hi, ip, c, ss, sv, _, d, dm, m, v, t, ti, me, fp, fs, ls, n, r, co) := a in
  mkAlert i ts h hi ip c ss sv x d dm m v t ti me fp fs ls n r co.

Definition set_title (x : string) (a : Alert) : Alert :=
  let (i, ts, h, hi, ip, c, ss, sv, st, d, dm, m, v, t, _, me, fp, fs, ls, n, r, co) := a in
  mkAlert i ts h hi ip c ss sv st d dm m v t x me fp fs ls n r co.

(** * Fingerprints *)

(** The device as the fingerprint shows it: an absent device is a dash. *)
Definition device_key (d : option string) : string := default "-" d.

Definition pipe_free (s : string) : Prop := contains_byte "|"%char s = false.

Lemma app_bar_inj (s1 s2 r1 r2 : string) :
  pipe_free s1 -> pipe_free s2 ->
  s1 +:+ "|" +:+ r1 = s2 +:+ "|" +:+ r2 -> s1 = s2 /\ r1 = r2.
Proof.
  intros H1 H2 H. apply (f_equal (split_once "|"%char)) in H.
  change ("|" +:+ r1) with (String "|"%char r1) in H.
  change ("|" +:+ r2) with (String "|"%char r2) in H.
  rewrite !split_once_app in H by done. by simplify_eq.
Qed.

(** The host of a fingerprint is the text before its first separator. *)
Lemma format_fingerprint_host h1 c1 d1 m1 h2 c2 d2 m2 :
  pipe_free h1 -> pipe_free h2 ->
  format_fingerprint h1 c1 d1 m1 = format_fingerprint h2 c2 d2 m2 -> h1 = h2.
Proof. unfold format_fingerprint. intros ?? H. by apply app_bar_inj in H as [? _]. Qed.

Lemma format_fingerprint_inj h1 c1 d1 m1 h2 c2 d2 m2 :
  pipe_free h1 -> pipe_free h2 -> pipe_free c1 -> pipe_free c2 ->
  pipe_free (device_key d1) -> pipe_free (device_key d2) ->
  format_fingerprint h1 c1 d1 m1 = format_fingerprint h2 c2 d2 m2 ->
  h1 = h2 /\ c1 = c2 /\ device_key d1 = device_key d2 /\ m1 = m2.
Proof.
  unfold format_fingerprint. intros ?????? H.
  apply app_bar_inj in H as [-> H]; [|done..].
  apply app_bar_inj in H as [-> H]; [|done..].
  apply app_bar_inj in H as [? ->]; done.
Qed.

(** The fingerprint is a faithful dedup key.  Two builders whose host id,
    category and device contain no separator get the same fingerprint exactly
    when they agree on host id, category, device (an absent one reads as a dash)
    and metric; host name, severity, texts and raw data never enter it. *)
Theorem fingerprint_identity (b1 b2 : AlertBuilder)
    (H1 : pipe_free (b_host_id b1) /\ pipe_free (b_category b1)
          /\ pipe_free (device_key (b_device b1)))
    (H2 : pipe_free (b_host_id b2) /\ pipe_free (b_category b2)
          /\ pipe_free (device_key (b_device b2))) :
  fingerprint b1 = fingerprint b2 <->
  b_host_id b1 = b_host_id b2 /\ b_category b1 = b_category b2
  /\ device_key (b_device b1) = device_key (b_device b2)
  /\ b_metric b1 = b_metric b2.
Proof.
  destruct H1 as (?&?&?), H2 as (?&?&?). unfold fingerprint. split.
  - intros Heq. by apply format_fingerprint_inj in Heq.
  - unfold format_fingerprint, device_key. by intros (-> & -> & -> & ->).
Qed.

Lemma fingerprint_identity_witness :
  fingerprint (builder_new "h1" "hid" "nvme" "media_errors" Info
               |> with_device "/dev/nvme0n1")
  = fingerprint (builder_new "h2" "hid" "nvme" "media_errors" Critical
               |> with_device "/dev/nvme0n1" |> with_title "t").
Proof. apply fingerprint_identity; repeat split; reflexivity. Defined.

Lemma fingerprint_build_firing s b :
  al_fingerprint (build_firing s b) = fingerprint b.
Proof. done. Qed.

#[export] Hint Rewrite fingerprint_build_firing : uma.
