(* ===== verification/Tracker.v ===== *)
(** The per-module dedup state machine (src/agent/src/state.rs).

    The map behind [Arc<Mutex<_>>] is explicit state: every operation takes the
    lock for its whole body, so an operation is one atomic step on the map that
    all clones of the tracker share.  The clock readings of an operation are its
    arguments. *)
From S2P Require Import Prelude Text Schema.

Local Open Scope string_scope.
Local Open Scope Z_scope.

(** src/agent/src/state.rs:23-35 (AlertSnapshot). *)
Record AlertSnapshot : Type := mkAlertSnapshot {
  as_host : string;
  as_host_id : string;
  as_category : string;
  as_subsystem : option string;
  as_metric : string;
  as_device : option string;
  as_device_model : option string;
  as_title : string
}.

(** src/agent/src/state.rs:13-21 (Entry). *)
Record Entry : Type := mkEntry {
  e_last_emitted : Instant;
  e_last_seen : Instant;
  e_occurrences : Z;
  e_severity : Severity;
  e_template : AlertSnapshot;
  e_ok_since : option Instant
}.

(** src/agent/src/state.rs:37-42 (AlertTracker). *)
Record AlertTracker : Type := mkTracker {
  t_inner : gmap string Entry;
  t_re_notify : Duration;
  t_recovery : Duration
}.

(** src/agent/src/state.rs:44-50 (Decision). *)
Inductive Decision : Type :=
  | Emit (a : Alert)
  | Suppress.

(** src/agent/src/state.rs:53-59 (AlertTracker::new). *)
Definition tracker_new (re_notify recovery : Duration) : AlertTracker :=
  mkTracker ∅ re_notify recovery.

Definition set_inner (m : gmap string Entry) (t : AlertTracker) : AlertTracker :=
  mkTracker m (t_re_notify t) (t_recovery t).

(** src/agent/src/state.rs:83-92 (the AlertSnapshot literal of observe). *)
Definition snapshot_of (alert : Alert) : AlertSnapshot :=
  {| as_host := al_host alert;
     as_host_id := al_host_id alert;
     as_category := al_category alert;
     as_subsystem := al_subsystem alert;
     as_metric := al_metric alert;
     as_device := al_device alert;
     as_device_model := al_device_model alert;
     as_title := al_title alert |}.

(** src/agent/src/state.rs:61-107 (AlertTracker::observe). *)
Definition observe (now : Instant) (s : Stamp) (b : AlertBuilder)
    (t : AlertTracker) : AlertTracker * Decision :=
  let fp := fingerprint b in
  match t_inner t !! fp with
  | Some e =>
      let occ := Int.wrapping_add_u64 (e_occurrences e) 1 in
      if t_re_notify t <=? duration_since now (e_last_emitted e) then
        let alert := set_occurrences occ (build_firing s b) in
        let e' := mkEntry now now occ (e_severity e) (e_template e) None in
        (set_inner (<[fp := e']> (t_inner t)) t, Emit alert)
      else
        let e' := mkEntry (e_last_emitted e) now occ (e_severity e)
                    (e_template e) None in
        (set_inner (<[fp := e']> (t_inner t)) t, Suppress)
  | None =>
      let alert := build_firing s b in
      let e := mkEntry now now 1 (al_severity alert) (snapshot_of alert) None in
      (set_inner (<[fp := e]> (t_inner t)) t, Emit alert)
  end.

(** src/agent/src/state.rs:144-149 (the fingerprint of build_resolved). *)
Definition snapshot_fingerprint (snap : AlertSnapshot) : string :=
  format_fingerprint (as_host_id snap) (as_category snap) (as_device snap)
    (as_metric snap).

(** src/agent/src/state.rs:142-178 (build_resolved). *)
Definition build_resolved (s : Stamp) (snap : AlertSnapshot)
    (severity : Severity) (occ : Z) : Alert :=
  let now := stamp_utc s in
  {| al_id := stamp_ulid s;
     al_ts := now;
     al_host := as_host snap;
     al_host_id := as_host_id snap;
     al_primary_ip := "";
     al_category := as_category snap;
     al_subsystem := as_subsystem snap;
     al_severity := severity;
     al_state := Resolved;
     al_device := as_device snap;
     al_device_model := as_device_model snap;
     al_metric := as_metric snap;
     al_value := None;
     al_threshold := None;
     al_title := "Resolved: " +:+ as_title snap;
     al_message := "Condition recovered after " +:+ show occ +:+ " occurrence(s).";
     al_fingerprint := snapshot_fingerprint snap;
     al_first_seen := now;
     al_last_seen := now;
     al_occurrences := occ;
     al_raw := ∅;
     al_correlated := [] |}.

(** src/agent/src/state.rs:109-130 (AlertTracker::observe_ok). *)
Definition observe_ok (now : Instant) (s : Stamp) (fp : string)
    (t : AlertTracker) : AlertTracker * option Alert :=
  match t_inner t !! fp with
  | None => (t, None)
  | Some e =>
      match e_ok_since e with
      | None =>
          let e' := mkEntry (e_last_emitted e) (e_last_seen e) (e_occurrences e)
                      (e_severity e) (e_template e) (Some now) in
          (set_inner (<[fp := e']> (t_inner t)) t, None)
      | Some t0 =>
          if t_recovery t <=? duration_since now t0 then
            (set_inner (delete fp (t_inner t)) t,
             Some (build_resolved s (e_template e) (e_severity e)
                     (e_occurrences e)))
          else (t, None)
      end
  end.

(** src/agent/src/state.rs:132-139 (AlertTracker::force_resolve). *)
Definition force_resolve (s : Stamp) (fp : string) (t : AlertTracker) :
    AlertTracker * option Alert :=
  match t_inner t !! fp with
  | None => (t, None)
  | Some e =>
      (set_inner (delete fp (t_inner t)) t,
       Some (build_resolved s (e_template e) (e_severity e) (e_occurrences e)))
  end.

(** * The tracker as a transition system *)

Inductive Event : Type :=
  | EvObserve (now : Instant) (s : Stamp) (b : AlertBuilder)
  | EvOk (now : Instant) (s : Stamp) (fp : string)
  | EvForce (s : Stamp) (fp : string).

Definition event_fp (ev : Event) : string :=
  match ev with
  | EvObserve _ _ b => fingerprint b
  | EvOk _ _ fp => fp
  | EvForce _ fp => fp
  end.

(** One locked operation and the alert it hands to the sink, if any. *)
Definition tracker_step (t : AlertTracker) (ev : Event) :
    AlertTracker * option Alert :=
  match ev with
  | EvObserve now s b =>
      let r := observe now s b t in
      (fst r, match snd r with Emit a => Some a | Suppress => None end)
  | EvOk now s fp => observe_ok now s fp t
  | EvForce s fp => force_resolve s fp t
  end.

Definition tracker_run (t : AlertTracker) (evs : list Event) : AlertTracker :=
  foldl (fun t ev => fst (tracker_step t ev)) t evs.

(** * Frame: an operation touches its own fingerprint only *)

Lemma tracker_step_params t ev :
  t_re_notify (fst (tracker_step t ev)) = t_re_notify t
  /\ t_recovery (fst (tracker_step t ev)) = t_recovery t.
Proof.
  destruct ev; simpl; unfold observe, observe_ok, force_resolve; simpl; cases.
Qed.

Lemma tracker_step_frame t ev fp :
  event_fp ev <> fp ->
  t_inner (fst (tracker_step t ev)) !! fp = t_inner t !! fp.
Proof.
  destruct ev; simpl; intros Hne; unfold observe, observe_ok, force_resolve;
    cases; simpl; by rewrite ?lookup_insert_ne, ?lookup_delete_ne.
Qed.

Lemma tracker_run_snoc t evs ev :
  tracker_run t (evs ++ [ev]) = fst (tracker_step (tracker_run t evs) ev).
Proof. unfold tracker_run. by rewrite foldl_app. Qed.

Lemma tracker_run_params t evs :
  t_re_notify (tracker_run t evs) = t_re_notify t
  /\ t_recovery (tracker_run t evs) = t_recovery t.
Proof.
  induction evs as [|ev evs [IH1 IH2]] using rev_ind; [done|].
  rewrite tracker_run_snoc.
  destruct (tracker_step_params (tracker_run t evs) ev) as [-> ->]. done.
Qed.

(** * The well-formedness invariant *)

(** An entry sits under the fingerprint its template will resolve, and its
    counter is a [u64]. *)
Definition entry_wf (fp : string) (e : Entry) : Prop :=
  snapshot_fingerprint (e_template e) = fp /\ Int.is_u64 (e_occurrences e).

Definition tracker_wf (t : AlertTracker) : Prop :=
  forall fp e, t_inner t !! fp = Some e -> entry_wf fp e.

Lemma tracker_wf_insert t fp e :
  tracker_wf t -> entry_wf fp e -> tracker_wf (set_inner (<[fp := e]> (t_inner t)) t).
Proof.
  intros Ht He fp' e' Hl. simpl in Hl.
  apply lookup_insert_Some in Hl as [[-> ->]|[_ Hl]]; [done|eauto].
Qed.

Lemma tracker_wf_delete t fp :
  tracker_wf t -> tracker_wf (set_inner (delete fp (t_inner t)) t).
Proof. intros Ht fp' e' Hl. simpl in Hl. apply lookup_delete_Some in Hl as [_ Hl]. eauto. Qed.

Lemma tracker_wf_new r v : tracker_wf (tracker_new r v).
Proof. intros fp e H. simpl in H. by rewrite lookup_empty in H. Qed.

#[export] Hint Resolve tracker_wf_insert tracker_wf_delete tracker_wf_new : uma.
#[export] Hint Resolve Int.as_u64_range : uma.

Lemma tracker_step_wf t ev : tracker_wf t -> tracker_wf (fst (tracker_step t ev)).
Proof.
  intros Ht. destruct ev as [now s b|now s fp|s fp]; simpl.
  - unfold observe. destruct (t_inner t !! fingerprint b) as [e|] eqn:E.
    + destruct (Ht _ _ E) as [? _].
      case_match; simpl; apply tracker_wf_insert; try done; split; try done;
        apply Int.as_u64_range.
    + apply tracker_wf_insert; [done|]. split; [done|].
      unfold Int.is_u64, Int.u64_max; simpl; lia.
  - unfold observe_ok. destruct (t_inner t !! fp) as [e|] eqn:E; [|done].
    destruct (Ht _ _ E). cases; simpl; auto with uma.
    by apply tracker_wf_insert.
  - unfold force_resolve. cases; simpl; auto with uma.
Qed.

(** C13: at every point of every run, an entry is stored under the fingerprint
    its resolved alert will carry, and its counter fits a [u64]: so a recovery
    always clears on the collector exactly the alert that fired. *)
Theorem tracker_reachable_wf (re_notify recovery : Duration) (evs : list Event) :
  tracker_wf (tracker_run (tracker_new re_notify recovery) evs).
Proof.
  induction evs as [|ev evs IH] using rev_ind; [apply tracker_wf_new|].
  rewrite tracker_run_snoc. by apply tracker_step_wf.
Qed.

(** * The alerts of a step *)

(** An alert carries the fingerprint of its operation, and it is firing exactly
    when the operation leaves that fingerprint tracked. *)
Lemma tracker_step_alert t ev a t' :
  tracker_wf t -> tracker_step t ev = (t', Some a) ->
  al_fingerprint a = event_fp ev
  /\ (is_Some (t_inner t' !! event_fp ev) <-> al_state a = Firing).
Proof.
  intros Ht Hs. destruct ev as [now s b|now s fp|s fp]; simpl in *.
  - unfold observe in Hs. cases; by rewrite lookup_insert_eq.
  - unfold observe_ok in Hs. destruct (t_inner t !! fp) as [e|] eqn:E; [|done].
    destruct (Ht _ _ E) as [Hfp _]. cases. rewrite lookup_delete_eq.
    split; [done|]. by split; [intros [??]|].
  - unfold force_resolve in Hs. destruct (t_inner t !! fp) as [e|] eqn:E; [|done].
    destruct (Ht _ _ E) as [Hfp _]. simplify_eq/=. rewrite lookup_delete_eq.
    split; [done|]. by split; [intros [??]|].
Qed.

(** A step without an alert changes no membership. *)
Lemma tracker_step_silent t ev t' fp :
  tracker_step t ev = (t', None) ->
  is_Some (t_inner t' !! fp) <-> is_Some (t_inner t !! fp).
Proof.
  intros Hs. destruct ev as [now s b|now s fp'|s fp']; simpl in *.
  - unfold observe in Hs. cases. rewrite lookup_insert_is_Some'. naive_solver.
  - unfold observe_ok in Hs. cases. rewrite lookup_insert_is_Some'. naive_solver.
  - unfold force_resolve in Hs. cases.
Qed.

(** While every observation of a fingerprint has one severity, its entry and its
    alerts, the resolved ones included, have it. *)
Lemma tracker_step_severity t ev fp sv :
  (forall e, t_inner t !! fp = Some e -> e_severity e = sv) ->
  (forall now s b, ev = EvObserve now s b -> fingerprint b = fp -> b_severity b = sv) ->
  (forall e, t_inner (fst (tracker_step t ev)) !! fp = Some e -> e_severity e = sv)
  /\ (event_fp ev = fp -> forall a, snd (tracker_step t ev) = Some a -> al_severity a = sv).
Proof.
  intros Ht Hev. destruct (decide (event_fp ev = fp)) as [Hfp|Hfp].
  - destruct ev as [now s b|now s fp'|s fp']; simpl in *; subst.
    + specialize (Hev _ _ _ eq_refl eq_refl). unfold observe. cases;
        split; intros; simplify_eq/=; rewrite ?lookup_insert_eq in *; naive_solver.
    + unfold observe_ok. destruct (t_inner t !! fp) as [e|] eqn:E; simpl; [|naive_solver].
      cases; rewrite ?lookup_insert_eq, ?lookup_delete_eq; naive_solver.
    + unfold force_resolve. destruct (t_inner t !! fp) as [e|] eqn:E; simpl; [|naive_solver].
      rewrite lookup_delete_eq. naive_solver.
  - by rewrite tracker_step_frame.
Qed.

(** What a resolution is: the alert it produces, and the entry it consumes. *)
Definition resolves (fp : string) (t : AlertTracker) (e : Entry)
    (a : Alert) (t' : AlertTracker) : Prop :=
  t_inner t !! fp = Some e /\ al_state a = Resolved /\ al_fingerprint a = fp
  /\ al_severity a = e_severity e /\ al_occurrences a = e_occurrences e
  /\ t_inner t' = delete fp (t_inner t).

Lemma tracker_step_resolved t ev a t' :
  tracker_wf t -> tracker_step t ev = (t', Some a) -> al_state a = Resolved ->
  exists e, resolves (event_fp ev) t e a t'.
Proof.
  intros Ht Hs Ha. destruct ev as [now s b|now s fp|s fp]; simpl in *.
  - unfold observe in Hs. destruct (t_inner t !! fingerprint b);
      [case_match|]; simplify_eq/=.
  - unfold observe_ok in Hs. destruct (t_inner t !! fp) as [e|] eqn:E; [|done].
    destruct (Ht _ _ E) as [Hfp _]. cases. exists e. by repeat split.
  - unfold force_resolve in Hs. destruct (t_inner t !! fp) as [e|] eqn:E; [|done].
    destruct (Ht _ _ E) as [Hfp _]. simplify_eq/=. exists e. by repeat split.
Qed.

(** C8: in any reachable state, an operation that hands out a resolved alert
    acts on a tracked fingerprint, gives the alert that same fingerprint, the
    severity and the occurrence count recorded for it, and forgets it; every
    other fingerprint keeps its entry. *)
Theorem resolved_matches_entry (re_notify recovery : Duration)
    (evs : list Event) (ev : Event) (a : Alert) (t' : AlertTracker)
    (Hstep : tracker_step (tracker_run (tracker_new re_notify recovery) evs) ev
             = (t', Some a))
    (Hres : al_state a = Resolved) :
  exists e, resolves (event_fp ev)
              (tracker_run (tracker_new re_notify recovery) evs) e a t'.
Proof. eapply tracker_step_resolved; eauto. apply tracker_reachable_wf. Qed.

Definition demo_stamp : Stamp := mkStamp 1000 "01".
Definition demo_builder : AlertBuilder :=
  builder_new "h" "hid" cat.NVME "critical_warning" Critical
  |> with_device "/dev/nvme0n1" |> with_title "NVMe".

Lemma resolved_matches_entry_witness :
  let t := tracker_run (tracker_new 10 5)
             [EvObserve 0 demo_stamp demo_builder;
              EvOk 1 demo_stamp (fingerprint demo_builder)] in
  exists e a t', resolves (fingerprint demo_builder) t e a t'.
Proof.
  destruct (resolved_matches_entry 10 5
    [EvObserve 0 demo_stamp demo_builder;
     EvOk 1 demo_stamp (fingerprint demo_builder)]
    (EvOk 9 demo_stamp (fingerprint demo_builder)) _ _
    ltac:(vm_compute; reflexivity) ltac:(reflexivity)) as [e He].
  eexists e, _, _. exact He.
Defined.
