(* ===== verification/TrackerTime.v ===== *)
(** Timing of the dedup state machine of [Tracker]: how often an alert is
    re-sent, what its occurrence counter means, and when it resolves.  All
    statements are about arbitrary event sequences, including events of other
    fingerprints interleaved with the one under study. *)
From S2P Require Import Prelude Text Schema Tracker.

Local Open Scope Z_scope.

(** An event that records a detection of [fp]. *)
Definition is_observe (fp : string) (ev : Event) : Prop :=
  match ev with EvObserve _ _ b => fingerprint b = fp | _ => False end.

#[export] Instance is_observe_dec fp ev : base.Decision (is_observe fp ev).
Proof. destruct ev; simpl; apply _. Defined.

(** An event that can end an episode of [fp]: an OK reading or a forced
    resolution. *)
Definition is_recovery (fp : string) (ev : Event) : Prop :=
  match ev with EvObserve _ _ _ => False | _ => event_fp ev = fp end.

Definition no_recovery (fp : string) : list Event -> Prop :=
  Forall (fun ev => ~ is_recovery fp ev).
Definition no_observe (fp : string) : list Event -> Prop :=
  Forall (fun ev => ~ is_observe fp ev).
Definition untouched (fp : string) : list Event -> Prop :=
  Forall (fun ev => event_fp ev <> fp).

Definition event_time (ev : Event) : Instant :=
  match ev with EvObserve now _ _ => now | EvOk now _ _ => now | EvForce _ _ => 0 end.

(** What the operations told their caller to send for [fp]: the state of each alert,
    with the clock reading of the operation. *)
Fixpoint notices (fp : string) (t : AlertTracker) (evs : list Event) :
    list (AlertState * Instant) :=
  match evs with
  | [] => []
  | ev :: evs' =>
      let r := tracker_step t ev in
      match snd r with
      | Some a => if decide (event_fp ev = fp)
                  then (al_state a, event_time ev) :: notices fp (fst r) evs'
                  else notices fp (fst r) evs'
      | None => notices fp (fst r) evs'
      end
  end.

Lemma no_recovery_cases fp ev :
  ~ is_recovery fp ev -> is_observe fp ev \/ event_fp ev <> fp.
Proof. destruct ev; simpl; [|by auto..]. intros _. destruct (decide (fingerprint b = fp)); auto. Qed.

Lemma tracker_run_untouched t evs fp :
  untouched fp evs -> t_inner (tracker_run t evs) !! fp = t_inner t !! fp.
Proof.
  induction evs as [|ev evs IH] using rev_ind; [done|].
  intros [Hevs Hev]%Forall_app. rewrite tracker_run_snoc.
  rewrite Forall_singleton in Hev. rewrite tracker_step_frame by exact Hev. by apply IH.
Qed.

(** ** Re-notification *)

Definition spaced (d : Duration) (x y : Instant) : Prop := d <= duration_since y x.

Lemma observe_cases now s b t :
  let fp := fingerprint b in
  let r := tracker_step t (EvObserve now s b) in
  (t_inner t !! fp = None /\ exists a e', snd r = Some a
     /\ t_inner (fst r) !! fp = Some e' /\ e_last_emitted e' = now
     /\ e_occurrences e' = 1 /\ al_occurrences a = 1 /\ e_ok_since e' = None)
  \/ (exists e e', t_inner t !! fp = Some e /\ t_inner (fst r) !! fp = Some e'
     /\ e_occurrences e' = Int.wrapping_add_u64 (e_occurrences e) 1
     /\ e_ok_since e' = None
     /\ ((spaced (t_re_notify t) (e_last_emitted e) now
          /\ e_last_emitted e' = now
          /\ exists a, snd r = Some a /\ al_occurrences a = e_occurrences e')
         \/ (~ spaced (t_re_notify t) (e_last_emitted e) now
          /\ e_last_emitted e' = e_last_emitted e /\ snd r = None))).
Proof.
  simpl. unfold observe, spaced. destruct (t_inner t !! fingerprint b) as [e|].
  - right. destruct (Z.leb_spec (t_re_notify t)
      (duration_since now (e_last_emitted e))); simpl;
      rewrite lookup_insert_eq; eexists _, _; split_and!; try done.
    + left. split_and!; [done..|]. by eexists.
    + right. split_and!; [lia|done..].
  - left. split; [done|]. simpl. rewrite lookup_insert_eq. by eexists _, _.
Qed.

Lemma observe_firing now s b t a :
  snd (tracker_step t (EvObserve now s b)) = Some a -> al_state a = Firing.
Proof.
  simpl. unfold observe. destruct (t_inner t !! fingerprint b) as [e|].
  - by destruct (t_re_notify t <=? _); intros [= <-].
  - by intros [= <-].
Qed.

(** A resolution forgets the entry; whatever else is not a detection keeps it and its
    last notification. *)
Lemma recovery_cases t ev fp :
  event_fp ev = fp -> ~ is_observe fp ev ->
  (exists a e, t_inner t !! fp = Some e /\ snd (tracker_step t ev) = Some a
     /\ al_state a = Resolved /\ al_severity a = e_severity e /\ al_occurrences a = e_occurrences e
     /\ t_inner (fst (tracker_step t ev)) !! fp = None)
  \/ (snd (tracker_step t ev) = None
      /\ ((t_inner t !! fp = None /\ t_inner (fst (tracker_step t ev)) !! fp = None)
          \/ exists e e', t_inner t !! fp = Some e /\ t_inner (fst (tracker_step t ev)) !! fp = Some e'
               /\ e_last_emitted e' = e_last_emitted e /\ e_severity e' = e_severity e
               /\ e_occurrences e' = e_occurrences e)).
Proof.
  intros <- Hno. destruct ev as [now s b|now s fp|s fp]; [by destruct Hno| |]; simpl.
  - unfold observe_ok. destruct (t_inner t !! fp) as [e|] eqn:E; [|simpl; auto].
    destruct (e_ok_since e) as [t0|].
    + destruct (t_recovery t <=? duration_since now t0); simpl.
      * left. eexists _, e. rewrite lookup_delete_eq. by split_and!.
      * right. split; [done|]. right. by exists e, e.
    + right. split; [done|]. right. eexists e, _. simpl. rewrite lookup_insert_eq.
      by split_and!.
  - unfold force_resolve. destruct (t_inner t !! fp) as [e|] eqn:E; simpl; [|auto].
    left. eexists _, e. rewrite lookup_delete_eq. by split_and!.
Qed.

(** Two notices in a row that are both firing. *)
Definition renotified (d : Duration) (x y : AlertState * Instant) : Prop :=
  fst x = Firing -> fst y = Firing -> spaced d (snd x) (snd y).

Lemma notices_sorted fp evs t :
  Sorted (renotified (t_re_notify t)) (notices fp t evs)
  /\ (forall e, t_inner t !! fp = Some e ->
      HdRel (renotified (t_re_notify t)) (Firing, e_last_emitted e) (notices fp t evs)).
Proof.
  revert t. induction evs as [|ev evs IH]; intros t.
  { split; [constructor|]. intros; constructor. }
  destruct (IH (fst (tracker_step t ev))) as [IHs IHh].
  destruct (tracker_step_params t ev) as [Hre _]. rewrite Hre in IHs, IHh. cbn [notices].
  destruct (decide (event_fp ev = fp)) as [Hfp|Hfp].
  2: { assert (Hf : t_inner (fst (tracker_step t ev)) !! fp = t_inner t !! fp)
         by (by apply tracker_step_frame).
       rewrite Hf in IHh. by destruct (snd (tracker_step t ev)). }
  destruct (decide (is_observe fp ev)) as [Ho|Ho].
  - destruct ev as [now s b| |]; [|done..]. simpl in Ho. subst fp. cbn [event_time].
    pose proof (observe_firing now s b t) as Hst.
    destruct (observe_cases now s b t)
      as [(Hn & a & e' & Hr & He' & Hl & _)
         |(e & e' & He & He' & _ & _ & [(Hsp & Hl & a & Hr & _)|(Hsp & Hl & Hr)])]; rewrite Hr.
    + specialize (IHh _ He'). rewrite Hl in IHh. rewrite (Hst a Hr). split; [by constructor|].
      intros e0 He0. congruence.
    + specialize (IHh _ He'). rewrite Hl in IHh. rewrite (Hst a Hr). split; [by constructor|].
      intros e0 He0. constructor. intros _ _. simpl. congruence.
    + specialize (IHh _ He'). rewrite Hl in IHh. split; [done|]. intros e0 He0. congruence.
  - destruct (recovery_cases t ev fp Hfp Ho)
      as [(a & e & He & Hr & Hst & _ & _ & _)|(Hr & [[Hn Hn']|(e & e' & He & He' & Hl & _)])];
      rewrite Hr.
    + rewrite Hst. split; [constructor; [done|]|].
      * destruct (notices fp _ evs); constructor. by intros ?.
      * intros e0 _. constructor. by intros _ ?.
    + split; [done|]. intros e0 He0. congruence.
    + split; [done|]. intros e0 He0. rewrite He in He0. injection He0 as <-. rewrite <- Hl.
      by apply IHh.
Qed.

(** C9: while an alert keeps firing, two consecutive notifications of the same
    fingerprint are at least [re_notify] apart.  For any sequence of detections, OK
    readings, forced resolutions and events of other fingerprints, from any state of
    the tracker, two alerts sent one after the other for a fingerprint are both
    firing only if the second comes that much later: OK readings that do not lead to
    a resolution never shorten the pause. *)
Theorem renotify_spacing (fp : string) (t : AlertTracker) (evs : list Event) :
  Sorted (renotified (t_re_notify t)) (notices fp t evs).
Proof. by apply notices_sorted. Qed.

Definition demo_trace : list Event :=
  [EvObserve 0 demo_stamp demo_builder; EvObserve 4 demo_stamp demo_builder;
   EvObserve 11 demo_stamp demo_builder].

(** A flapping metric: the OK reading at 12 does not resolve, so the detection at 13
    is suppressed; after the resolution at 44 the next detection is sent at once. *)
Example notices_flap :
  notices (fingerprint demo_builder) (tracker_new 10 30)
    (demo_trace ++ [EvOk 12 demo_stamp (fingerprint demo_builder);
                    EvObserve 13 demo_stamp demo_builder;
                    EvOk 14 demo_stamp (fingerprint demo_builder);
                    EvOk 44 demo_stamp (fingerprint demo_builder);
                    EvObserve 45 demo_stamp demo_builder])
  = [(Firing, 0); (Firing, 11); (Resolved, 44); (Firing, 45)].
Proof. vm_compute. reflexivity. Qed.

(** ** Episodes

    What is known of a fingerprint from the events and the alerts alone: since its
    last resolved alert, how often it was detected, with what severity first, and
    when it was last sent as firing. *)
Record Episode : Type := mkEpisode {
  ep_detections : nat;
  ep_severity : Severity;
  ep_notified : Instant
}.

Definition episode_step (fp : string) (ep : option Episode) (ev : Event) (out : option Alert) :
    option Episode :=
  if decide (event_fp ev = fp) then
    match ev with
    | EvObserve now _ b =>
        Some match ep with
             | None => mkEpisode 1 (b_severity b) now
             | Some p => mkEpisode (S (ep_detections p)) (ep_severity p)
                           (match out with Some _ => now | None => ep_notified p end)
             end
    | _ => match out with Some _ => None | None => ep end
    end
  else ep.

(** The tracker and the episode after a run. *)
Definition observed_run (fp : string) (t : AlertTracker) (evs : list Event) :
    AlertTracker * option Episode :=
  foldl (fun te ev => let r := tracker_step (fst te) ev in
                      (fst r, episode_step fp (snd te) ev (snd r))) (t, None) evs.

Definition episode (fp : string) (t : AlertTracker) (evs : list Event) : option Episode :=
  snd (observed_run fp t evs).

Lemma observed_run_tracker fp t evs : fst (observed_run fp t evs) = tracker_run t evs.
Proof.
  induction evs as [|ev evs IH] using rev_ind; [done|].
  unfold observed_run. rewrite foldl_app. simpl. rewrite tracker_run_snoc, <- IH. done.
Qed.

Lemma episode_snoc fp t evs ev :
  episode fp t (evs ++ [ev])
  = episode_step fp (episode fp t evs) ev (snd (tracker_step (tracker_run t evs) ev)).
Proof.
  unfold episode, observed_run. rewrite foldl_app. simpl.
  fold (observed_run fp t evs). by rewrite observed_run_tracker.
Qed.

Lemma episode_step_frame fp p ev out : event_fp ev <> fp -> episode_step fp p ev out = p.
Proof. intros Hne. unfold episode_step. by rewrite decide_False. Qed.

Lemma episode_step_other fp p ev out :
  event_fp ev = fp -> ~ is_observe fp ev ->
  episode_step fp p ev out = match out with Some _ => None | None => p end.
Proof. intros Hfp Ho. unfold episode_step. rewrite decide_True by done. by destruct ev. Qed.

Lemma episode_step_observe p now s b out :
  episode_step (fingerprint b) p (EvObserve now s b) out
  = Some match p with
         | None => mkEpisode 1 (b_severity b) now
         | Some p => mkEpisode (S (ep_detections p)) (ep_severity p)
                       (match out with Some _ => now | None => ep_notified p end)
         end.
Proof. unfold episode_step. by rewrite decide_True. Qed.

(** What an entry holds is the episode. *)
Definition entry_episode (e : option Entry) (p : option Episode) : Prop :=
  match e, p with
  | None, None => True
  | Some e, Some p =>
      (0 < ep_detections p)%nat
      /\ e_occurrences e = Int.as_u64 (Z.of_nat (ep_detections p))
      /\ e_severity e = ep_severity p /\ e_last_emitted e = ep_notified p
  | _, _ => False
  end.

Lemma as_u64_succ n : Int.wrapping_add_u64 (Int.as_u64 (Z.of_nat n)) 1 = Int.as_u64 (Z.of_nat (S n)).
Proof.
  unfold Int.wrapping_add_u64, Int.as_u64. rewrite Zplus_mod_idemp_l. f_equal. lia.
Qed.

(** The severity an entry keeps. *)
Lemma observe_severity now s b t e' :
  t_inner (fst (tracker_step t (EvObserve now s b))) !! fingerprint b = Some e' ->
  e_severity e' = match t_inner t !! fingerprint b with
                  | None => b_severity b | Some e => e_severity e end.
Proof.
  simpl. unfold observe. destruct (t_inner t !! fingerprint b) as [e|]; [case_match|];
    simpl; rewrite lookup_insert_eq; by intros [= <-].
Qed.

Lemma entry_episode_run fp re rec evs :
  let t := tracker_new re rec in
  entry_episode (t_inner (tracker_run t evs) !! fp) (episode fp t evs).
Proof.
  intros t. induction evs as [|ev evs IH] using rev_ind.
  { simpl. by rewrite lookup_empty. }
  rewrite tracker_run_snoc, episode_snoc.
  destruct (decide (event_fp ev = fp)) as [Hfp|Hfp];
    [|by rewrite tracker_step_frame, episode_step_frame].
  destruct (decide (is_observe fp ev)) as [Ho|Ho].
  - destruct ev as [now s b| |]; [|done..]. simpl in Ho, Hfp. subst fp.
    rewrite episode_step_observe. pose proof (observe_severity now s b (tracker_run t evs)) as Hsev.
    destruct (observe_cases now s b (tracker_run t evs))
      as [(Hn & a & e' & _ & He' & Hl & Hc & _)
         |(e & e' & He & He' & Hc & _ & [(_ & Hl & a & Hr & _)|(_ & Hl & Hr)])];
      specialize (Hsev _ He'); rewrite He'.
    + rewrite Hn in IH, Hsev. destruct (episode _ t evs); [done|]. simpl. rewrite Hc, Hl.
      split_and!; [lia|done..].
    + rewrite He in IH, Hsev. rewrite Hr. destruct (episode _ t evs) as [p|]; [|done].
      destruct IH as (Hp & Hoc & Hs & _). simpl. rewrite Hc, Hoc, as_u64_succ, Hl, Hsev.
      split_and!; [lia|done..].
    + rewrite He in IH, Hsev. rewrite Hr. destruct (episode _ t evs) as [p|]; [|done].
      destruct IH as (Hp & Hoc & Hs & Hla). simpl. rewrite Hc, Hoc, as_u64_succ, Hl, Hsev.
      split_and!; [lia|done..].
  - rewrite episode_step_other by done.
    destruct (recovery_cases (tracker_run t evs) ev fp Hfp Ho)
      as [(a & e & He & Hr & _ & _ & _ & Hn')|(Hr & [[Hn Hn']|(e & e' & He & He' & Hl & Hs & Hc)])];
      rewrite Hr.
    + by rewrite Hn'.
    + rewrite Hn'. by rewrite Hn in IH.
    + rewrite He'. rewrite He in IH. destruct (episode fp t evs) as [p|]; [|done].
      destruct IH as (Hp & IH1 & IH2 & IH3). simpl. by rewrite Hc, Hs, Hl.
Qed.

(** C10: the occurrence counter is exact.  In any run of a tracker, an alert of a
    fingerprint carries the number of its detections since its last resolved alert
    (since the start if there was none), modulo 2^64: the suppressed ones are
    included, OK readings that resolve nothing change nothing, and a resolved alert
    reports the count of the whole episode. *)
Theorem occurrences_exact (re rec : Duration) (evs : list Event) (ev : Event) (a : Alert)
    (Hsent : snd (tracker_step (tracker_run (tracker_new re rec) evs) ev) = Some a) :
  let before := from_option ep_detections 0%nat (episode (event_fp ev) (tracker_new re rec) evs) in
  al_occurrences a
  = Int.as_u64 (Z.of_nat (if decide (is_observe (event_fp ev) ev) then S before else before)).
Proof.
  pose proof (entry_episode_run (event_fp ev) re rec evs) as Hep. cbv zeta in *.
  set (t := tracker_run _ evs) in *. destruct (decide (is_observe (event_fp ev) ev)) as [Ho|Ho].
  - destruct ev as [now s b| |]; [|done..]. simpl event_fp in *.
    destruct (observe_cases now s b t)
      as [(Hn & a' & e' & Hr & _ & _ & _ & Ha & _)
         |(e & e' & He & _ & Hc & _ & [(_ & _ & a' & Hr & Ha)|(_ & _ & Hr)])];
      rewrite Hsent in Hr; simplify_eq.
    + rewrite Hn in Hep. by destruct (episode _ _ evs).
    + rewrite He in Hep. destruct (episode _ _ evs) as [p|]; [|done].
      destruct Hep as (_ & Ho' & _). simpl. by rewrite Ha, Hc, Ho', as_u64_succ.
  - destruct (recovery_cases t ev _ eq_refl Ho)
      as [(a' & e & He & Hr & _ & _ & Hc & _)|(Hr & _)]; rewrite Hsent in Hr; simplify_eq.
    rewrite He in Hep. destruct (episode _ _ evs) as [p|]; [|done].
    destruct Hep as (_ & Ho' & _). by rewrite Hc, Ho'.
Qed.

(** Three detections around an OK reading, then a resolution: the second alert sent
    carries 3, the resolved one too. *)
Lemma occurrences_exact_witness :
  let fp := fingerprint demo_builder in
  let evs := [EvObserve 0 demo_stamp demo_builder; EvObserve 4 demo_stamp demo_builder;
              EvOk 5 demo_stamp fp] in
  exists a, snd (tracker_step (tracker_run (tracker_new 10 5) evs)
                  (EvObserve 11 demo_stamp demo_builder)) = Some a
            /\ al_occurrences a = 3.
Proof.
  intros fp evs. eexists. split; [vm_compute; reflexivity|].
  etransitivity; [apply (occurrences_exact 10 5 evs (EvObserve 11 demo_stamp demo_builder))|];
    vm_compute; reflexivity.
Defined.

(** ** Recovery *)

Lemma ok_since_history fp re rec evs e t0 :
  t_inner (tracker_run (tracker_new re rec) evs) !! fp = Some e ->
  e_ok_since e = Some t0 ->
  exists pre s mid, evs = pre ++ EvOk t0 s fp :: mid /\ no_observe fp mid.
Proof.
  revert e. induction evs as [|ev evs IH] using rev_ind; intros e.
  { simpl. by rewrite lookup_empty. }
  rewrite tracker_run_snoc. intros Hl Hok.
  destruct (decide (event_fp ev = fp)) as [Hfp|Hfp].
  2: { rewrite tracker_step_frame in Hl by done.
    destruct (IH _ Hl Hok) as (pre & s & mid & -> & Hmid).
    exists pre, s, (mid ++ [ev]). rewrite <- app_assoc. split; [done|].
    apply Forall_app; split; [done|]. rewrite Forall_singleton.
    destruct ev; simpl in *; tauto. }
  set (t := tracker_run (tracker_new re rec) evs) in *. destruct ev as [now s b|now s f|s f].
  - simpl in Hfp. subst fp.
    destruct (observe_cases now s b t)
      as [(_ & a & e' & _ & He' & _ & _ & _ & Ho)|(_ & e' & _ & He' & _ & Ho & _)];
      rewrite He' in Hl; by simplify_eq.
  - simpl in Hfp. subst f. simpl in Hl. unfold observe_ok in Hl.
    destruct (t_inner t !! fp) as [e0|] eqn:E0; [|simpl in Hl; congruence].
    destruct (e_ok_since e0) as [t1|] eqn:E1.
    + case_match; simpl in Hl; [by rewrite lookup_delete_eq in Hl|].
      rewrite E0 in Hl. injection Hl as ->.
      destruct (IH _ eq_refl Hok) as (pre & s' & mid & -> & Hmid).
      exists pre, s', (mid ++ [EvOk now s fp]). rewrite <- app_assoc. split; [done|].
      apply Forall_app; split; [done|].
      rewrite Forall_singleton. simpl. tauto.
    + simpl in Hl. rewrite lookup_insert_eq in Hl. simplify_eq/=.
      exists evs, s, []. split; [done|]. constructor.
  - simpl in Hfp. subst f. simpl in Hl. unfold force_resolve in Hl.
    destruct (t_inner t !! fp) as [e0|] eqn:E0; simpl in Hl;
      [by rewrite lookup_delete_eq in Hl|congruence].
Qed.

(** C11: an OK reading produces a resolved alert only when an earlier OK reading
    of the same fingerprint lies at least [recovery] before it with no
    detection in between: a flapping metric never resolves early. *)
Theorem recovery_window_respected (re rec : Duration) (evs : list Event)
    (now : Instant) (s : Stamp) (fp : string) (a : Alert) (t' : AlertTracker)
    (Hstep : tracker_step (tracker_run (tracker_new re rec) evs) (EvOk now s fp)
             = (t', Some a)) :
  exists pre t0 s0 mid,
    evs = pre ++ EvOk t0 s0 fp :: mid /\ no_observe fp mid
    /\ rec <= duration_since now t0.
Proof.
  simpl in Hstep. unfold observe_ok in Hstep.
  destruct (t_inner (tracker_run (tracker_new re rec) evs) !! fp) as [e|] eqn:E; [|done].
  destruct (e_ok_since e) as [t0|] eqn:Hok; [|done].
  rewrite (proj2 (tracker_run_params (tracker_new re rec) evs)) in Hstep.
  destruct (Z.leb_spec (t_recovery (tracker_new re rec)) (duration_since now t0)); [|done].
  destruct (ok_since_history _ _ _ _ _ _ E Hok) as (pre & s0 & mid & Hevs & Hmid).
  by exists pre, t0, s0, mid.
Qed.

Lemma recovery_window_respected_witness :
  exists pre t0 s0 mid,
    demo_trace ++ [EvOk 12 demo_stamp (fingerprint demo_builder)]
    = pre ++ EvOk t0 s0 (fingerprint demo_builder) :: mid
    /\ no_observe (fingerprint demo_builder) mid /\ 5 <= duration_since 20 t0.
Proof.
  eapply (recovery_window_respected 10 5 _ 20 demo_stamp).
  vm_compute. reflexivity.
Defined.

(** C12: recovery completes.  Once a firing fingerprint reads OK at [t0], and
    nothing else happens to it, the next OK reading at least [recovery] later
    returns a resolved alert for it and forgets it, so that a further reading
    returns nothing: each episode resolves exactly once. *)
Theorem recovery_completes (t : AlertTracker) (fp : string) (e : Entry)
    (t0 t1 t2 : Instant) (s0 s1 s2 : Stamp) (mid : list Event)
    (Hfire : t_inner t !! fp = Some e) (Hok : e_ok_since e = None)
    (Hmid : untouched fp mid) (Hlate : t_recovery t <= duration_since t1 t0) :
  let u := tracker_run t (EvOk t0 s0 fp :: mid) in
  let r := tracker_step u (EvOk t1 s1 fp) in
  snd r = Some (build_resolved s1 (e_template e) (e_severity e) (e_occurrences e))
  /\ t_inner (fst r) !! fp = None
  /\ snd (tracker_step (fst r) (EvOk t2 s2 fp)) = None.
Proof.
  intros u r. set (v := fst (tracker_step t (EvOk t0 s0 fp))).
  assert (Hv : t_inner u !! fp = t_inner v !! fp).
  { apply (tracker_run_untouched v). done. }
  assert (Hrec : t_recovery u = t_recovery t) by apply tracker_run_params.
  subst v. simpl in Hv. unfold observe_ok in Hv. rewrite Hfire, Hok in Hv.
  simpl in Hv. rewrite lookup_insert_eq in Hv.
  assert (Hr : r = (set_inner (delete fp (t_inner u)) u,
    Some (build_resolved s1 (e_template e) (e_severity e) (e_occurrences e)))).
  { subst r. simpl. unfold observe_ok. rewrite Hv, Hrec. simpl.
    by rewrite (proj2 (Z.leb_le _ _) Hlate). }
  rewrite Hr. simpl. unfold observe_ok. simpl. rewrite lookup_delete_eq. done.
Qed.

Lemma recovery_completes_witness :
  let t := tracker_run (tracker_new 10 5) demo_trace in
  let fp := fingerprint demo_builder in
  let r := tracker_step (tracker_run t [EvOk 20 demo_stamp fp])
             (EvOk 25 demo_stamp fp) in
  t_inner (fst r) !! fp = None.
Proof.
  refine (proj1 (proj2 (recovery_completes
    (tracker_run (tracker_new 10 5) demo_trace) (fingerprint demo_builder)
    (mkEntry 11 11 3 Critical (snapshot_of (build_firing demo_stamp demo_builder)) None)
    20 25 26 demo_stamp demo_stamp demo_stamp [] _ _ _ _))).
  - vm_compute. reflexivity.
  - reflexivity.
  - constructor.
  - vm_compute. discriminate.
Defined.

(** ** Severity of repeats *)

(** C36: an escalation is not sent before the next re-notification, and never
    reaches the resolution.  In any run of a tracker, a detection of a fingerprint
    less than [re_notify] after the last time it was sent as firing (and not resolved
    since) sends nothing, whatever its severity; a later one is sent with its own
    severity; and the resolved alert carries the severity of the first detection of
    the episode, whatever was detected or sent since. *)
Theorem escalation_suppressed (re rec : Duration) (evs : list Event) (fp : string) :
  let t := tracker_run (tracker_new re rec) evs in
  let ep := episode fp (tracker_new re rec) evs in
  (forall p now s b, ep = Some p -> fingerprint b = fp ->
     match snd (tracker_step t (EvObserve now s b)) with
     | None => duration_since now (ep_notified p) < re
     | Some a => re <= duration_since now (ep_notified p) /\ al_severity a = b_severity b
     end)
  /\ (forall ev a, event_fp ev = fp -> snd (tracker_step t ev) = Some a -> al_state a = Resolved ->
        exists p, ep = Some p /\ al_severity a = ep_severity p).
Proof.
  cbv zeta. pose proof (entry_episode_run fp re rec evs) as Hep. cbv zeta in Hep.
  destruct (tracker_run_params (tracker_new re rec) evs) as [Hre _].
  set (t := tracker_run _ evs) in *. split.
  - intros p now s b Hp <-. rewrite Hp in Hep.
    destruct (t_inner t !! fingerprint b) as [e|] eqn:He; [|done].
    destruct Hep as (_ & _ & _ & Hl). rewrite <- Hl. simpl in Hre. simpl. unfold observe.
    rewrite He, Hre. destruct (Z.leb_spec re (duration_since now (e_last_emitted e))); simpl; [|done].
    split; [done|]. reflexivity.
  - intros ev a Hfp Hs Hst. destruct (decide (is_observe fp ev)) as [Ho|Ho].
    + destruct ev as [now s b| |]; [|done..]. apply observe_firing in Hs. congruence.
    + destruct (recovery_cases t ev fp Hfp Ho) as [(a' & e & He & Hr & _ & Hsv & _)|(Hr & _)];
        rewrite Hs in Hr; simplify_eq.
      rewrite He in Hep. destruct (episode _ _ evs) as [p|]; [|done]. exists p.
      split; [done|]. destruct Hep as (_ & _ & Hse & _). by rewrite Hsv.
Qed.

Definition warm : AlertBuilder :=
  builder_new "h" "hid" cat.NVME "temperature" Warning |> with_device "/dev/nvme0n1".
Definition hot : AlertBuilder :=
  builder_new "h" "hid" cat.NVME "temperature" Critical |> with_device "/dev/nvme0n1".

(** A device gets critical a minute after its warning: nothing is sent; it is at the
    next re-notification, and the resolution says warning again. *)
Example escalation_run :
  let fp := fingerprint warm in
  let evs := [EvObserve 0 demo_stamp warm; EvObserve 60 demo_stamp hot;
              EvObserve 1800 demo_stamp hot; EvOk 1900 demo_stamp fp; EvOk 1960 demo_stamp fp] in
  omap (fun k => al_severity <$> snd (tracker_step (tracker_run (tracker_new 1800 60) (take k evs))
                   (nth k evs (EvForce demo_stamp "")))) (seq 0 5)
  = [Warning; Critical; Warning].
Proof. vm_compute. reflexivity. Qed.
