(* ===== verification/Channels.v ===== *)
(** The channel interface the agent and the collector rely on.

    [tokio::sync::mpsc] is not part of this repository: a bounded channel is an
    instance of the class [Mpsc], whose laws [MpscLaws] are the documented
    behaviour of [try_send] and [recv].  Clients are proved against the class;
    [BoundedQueue] is the reference instance the witnesses run on. *)
From S2P Require Import Prelude.

Local Open Scope nat_scope.

Class Mpsc (C : Type -> Type) : Type := {
  try_send : forall {A : Type}, A -> C A -> C A * bool;
  recv : forall {A : Type}, C A -> option A * C A;
  queued : forall {A : Type}, C A -> list A;
  capacity : forall {A : Type}, C A -> nat
}.

(** [try_send] returns [true] for [Ok(())] and [false] for [Err(Full(_))]; the
    receiver of every channel of the program lives as long as the process. *)
Class MpscLaws (C : Type -> Type) `{Mpsc C} : Prop := {
  try_send_room {A} (x : A) (q : C A) :
    length (queued q) < capacity q ->
    snd (try_send x q) = true /\ queued (fst (try_send x q)) = queued q ++ [x];
  try_send_full {A} (x : A) (q : C A) :
    capacity q <= length (queued q) ->
    snd (try_send x q) = false /\ queued (fst (try_send x q)) = queued q;
  try_send_capacity {A} (x : A) (q : C A) :
    capacity (fst (try_send x q)) = capacity q;
  recv_empty {A} (q : C A) : queued q = [] -> recv q = (None, q);
  recv_head {A} (q : C A) (x : A) (l : list A) :
    queued q = x :: l -> fst (recv q) = Some x /\ queued (snd (recv q)) = l;
  recv_capacity {A} (q : C A) : capacity (snd (recv q)) = capacity q
}.

Section client.
Context {C : Type -> Type} `{!Mpsc C} `{!MpscLaws C} {A : Type}.
Implicit Types (q : C A) (x : A).

(** What a send leaves in the queue, in one equation. *)
Lemma try_send_queued x q :
  queued (fst (try_send x q))
  = if decide (length (queued q) < capacity q) then queued q ++ [x] else queued q.
Proof.
  case_decide.
  - by apply try_send_room.
  - apply try_send_full. lia.
Qed.

Lemma try_send_bounded x q :
  length (queued q) <= capacity q ->
  length (queued (fst (try_send x q))) <= capacity (fst (try_send x q)).
Proof.
  intros ?. rewrite try_send_capacity, try_send_queued.
  case_decide; [rewrite length_app; simpl|]; lia.
Qed.

Lemma try_send_incl x q y :
  y ∈ queued (fst (try_send x q)) -> y = x \/ y ∈ queued q.
Proof. rewrite try_send_queued. case_decide; set_solver. Qed.

Lemma recv_None q : fst (recv q) = None <-> queued q = [].
Proof.
  destruct (queued q) as [|x l] eqn:E.
  - by rewrite (recv_empty q E).
  - destruct (recv_head q x l E) as [-> _]. done.
Qed.

End client.

#[export] Hint Resolve try_send_bounded : uma.

(** What a [tokio::sync::broadcast] receiver yields: a value, the number of
    values it missed, or the end. *)
Inductive BRecv (A : Type) : Type :=
  | BOk (x : A)
  | BLagged (n : Z)
  | BClosed.
Arguments BOk {A} x.
Arguments BLagged {A} n.
Arguments BClosed {A}.

(** * The reference instance *)

Record BoundedQueue (A : Type) : Type := mkBounded {
  bq_capacity : nat;
  bq_items : list A
}.
Arguments mkBounded {A} bq_capacity bq_items.
Arguments bq_capacity {A} b.
Arguments bq_items {A} b.

#[export] Instance BoundedQueue_Mpsc : Mpsc BoundedQueue := {
  try_send A x q :=
    if length (bq_items q) <? bq_capacity q
    then (mkBounded (bq_capacity q) (bq_items q ++ [x]), true) else (q, false);
  recv A q :=
    match bq_items q with
    | [] => (None, q)
    | x :: l => (Some x, mkBounded (bq_capacity q) l)
    end;
  queued A q := bq_items q;
  capacity A q := bq_capacity q
}.

#[export] Instance BoundedQueue_laws : MpscLaws BoundedQueue.
Proof.
  split; intros A; simpl.
  - intros x q Hl. by rewrite (proj2 (Nat.ltb_lt _ _) Hl).
  - intros x q Hl. by rewrite (proj2 (Nat.ltb_ge _ _) Hl).
  - intros x q. by destruct (_ <? _).
  - by intros q ->.
  - by intros q x l ->.
  - intros q. by destruct (bq_items q).
Qed.
