(* ===== verification/Bus.v ===== *)
(** The agent's alert sink (src/agent/src/bus.rs): two bounded lanes, an
    in-process fanout, and the maintenance switch. *)
From S2P Require Import Prelude Text Schema Channels.

Local Open Scope Z_scope.

(** src/agent/src/bus.rs:10-15 (Outbound). *)
Inductive Outbound : Type :=
  | OutAlert (a : Alert)
  | OutHeartbeat (h : Heartbeat)
  | OutHello (h : Hello).

(** src/agent/src/bus.rs:17-25 (Outbound::into_envelope). *)
Definition into_envelope (o : Outbound) : Envelope :=
  match o with
  | OutAlert a => EnvAlert a
  | OutHeartbeat h => EnvHeartbeat h
  | OutHello h => EnvHello h
  end.

Section sink.
Context {C : Type -> Type} `{Mpsc C}.

(** src/agent/src/bus.rs:27-37 (AlertSink).  [sink_fanout] is the sequence of
    alerts handed to the broadcast sender, oldest first. *)
Record AlertSink : Type := mkSink {
  sink_normal : C Outbound;
  sink_critical : C Outbound;
  sink_fanout : list Alert;
  sink_suppress_alerts : bool
}.

(** src/agent/src/bus.rs:40-52 (AlertSink::new). *)
Definition sink_new (normal critical : C Outbound) (suppress : bool) : AlertSink :=
  mkSink normal critical [] suppress.

Definition is_alert (o : Outbound) : bool :=
  match o with OutAlert _ => true | _ => false end.

(** src/agent/src/bus.rs:83-86 (the lane of AlertSink::send). *)
Definition critical_lane (o : Outbound) : bool :=
  match o with
  | OutAlert a => bool_decide (al_severity a = Critical)
  | _ => false
  end.

(** src/agent/src/bus.rs:54-91 (AlertSink::send).  The log lines are omitted. *)
Definition send (msg : Outbound) (k : AlertSink) : AlertSink :=
  if sink_suppress_alerts k && is_alert msg then k
  else
    let fan := match msg with
               | OutAlert a => sink_fanout k ++ [a]
               | _ => sink_fanout k
               end in
    if critical_lane msg
    then mkSink (sink_normal k) (fst (try_send msg (sink_critical k))) fan
           (sink_suppress_alerts k)
    else mkSink (fst (try_send msg (sink_normal k))) (sink_critical k) fan
           (sink_suppress_alerts k).

Definition send_all (msgs : list Outbound) (k : AlertSink) : AlertSink :=
  foldl (fun k m => send m k) k msgs.

Lemma send_all_snoc msgs m k : send_all (msgs ++ [m]) k = send m (send_all msgs k).
Proof. unfold send_all. by rewrite foldl_app. Qed.

Lemma send_suppress m k : sink_suppress_alerts (send m k) = sink_suppress_alerts k.
Proof. unfold send. cases. Qed.

Lemma send_all_suppress msgs k :
  sink_suppress_alerts (send_all msgs k) = sink_suppress_alerts k.
Proof.
  induction msgs as [|m msgs IH] using rev_ind; [done|].
  by rewrite send_all_snoc, send_suppress.
Qed.

Context `{!MpscLaws C}.

(** The critical lane is isolated.  However many non-critical messages are
    sent, and however full the normal lane is, the critical lane is untouched,
    so a critical alert is queued whenever the critical lane itself has room. *)
Theorem critical_lane_isolated (k : AlertSink) (flood : list Outbound) (a : Alert)
    (Hflood : Forall (fun m => critical_lane m = false) flood)
    (Hcrit : al_severity a = Critical)
    (Hon : sink_suppress_alerts k = false)
    (Hroom : (length (queued (sink_critical k)) < capacity (sink_critical k))%nat) :
  sink_critical (send_all flood k) = sink_critical k
  /\ queued (sink_critical (send (OutAlert a) (send_all flood k)))
     = queued (sink_critical k) ++ [OutAlert a].
Proof.
  assert (Hsame : sink_critical (send_all flood k) = sink_critical k).
  { induction flood as [|m flood IH] using rev_ind; [done|].
    apply Forall_app in Hflood as [Hf Hm]. rewrite Forall_singleton in Hm.
    rewrite send_all_snoc, <- IH by done. unfold send. rewrite Hm. cases. }
  split; [done|]. unfold send.
  rewrite send_all_suppress, Hon. simpl. rewrite bool_decide_true by done.
  simpl. rewrite Hsame. by apply try_send_room.
Qed.

(** Maintenance mode.  While alerts are suppressed, no sequence of sends
    puts an alert on either lane or on the in-process fanout; heartbeats and the
    hello still go to the normal lane in order, as far as it has room. *)
Theorem maintenance_suppresses_alerts (k : AlertSink) (msgs : list Outbound)
    (Hon : sink_suppress_alerts k = true) :
  sink_fanout (send_all msgs k) = sink_fanout k
  /\ sink_critical (send_all msgs k) = sink_critical k
  /\ sink_normal (send_all msgs k)
     = foldl (fun q m => fst (try_send m q)) (sink_normal k)
         (List.filter (fun m => negb (is_alert m)) msgs).
Proof.
  induction msgs as [|m msgs (IHf & IHc & IHn)] using rev_ind; [done|].
  rewrite send_all_snoc, List.filter_app, foldl_app.
  unfold send. rewrite send_all_suppress, Hon.
  destruct m; simpl; by rewrite ?IHf, ?IHc, ?IHn.
Qed.

(** On overflow the new message is the one that is lost.  Sending to a full
    lane leaves both lanes as they were; an alert still reaches the in-process
    fanout. *)
Theorem overflow_drops_new_message (k : AlertSink) (msg : Outbound)
    (Hon : sink_suppress_alerts k = false)
    (Hfull : let lane := if critical_lane msg then sink_critical k
                         else sink_normal k in
             (capacity lane <= length (queued lane))%nat) :
  queued (sink_normal (send msg k)) = queued (sink_normal k)
  /\ queued (sink_critical (send msg k)) = queued (sink_critical k)
  /\ sink_fanout (send msg k)
     = sink_fanout k ++ match msg with OutAlert a => [a] | _ => [] end.
Proof.
  unfold send. rewrite Hon. simpl.
  destruct (critical_lane msg); simpl;
    destruct (try_send_full msg _ Hfull) as [_ ->]; split_and!; try done;
    destruct msg; simpl; by rewrite ?app_nil_r.
Qed.

Definition sink_bounded (k : AlertSink) : Prop :=
  (length (queued (sink_normal k)) <= capacity (sink_normal k))%nat
  /\ (length (queued (sink_critical k)) <= capacity (sink_critical k))%nat.

Lemma send_bounded m k : sink_bounded k -> sink_bounded (send m k).
Proof. intros [??]. unfold sink_bounded, send. cases; simpl; auto with uma. Qed.

End sink.

Arguments AlertSink C : clear implicits.
#[export] Hint Resolve send_bounded : uma.

Definition demo_alert (sev : Severity) : Alert :=
  build_firing (mkStamp 7 "01") (builder_new "h" "hid" cat.OS_HANG "kernel_bug" sev).

Definition demo_sink (suppress : bool) : AlertSink BoundedQueue :=
  sink_new (mkBounded 1 []) (mkBounded 1 []) suppress.

Lemma critical_lane_isolated_witness :
  queued (sink_critical (send (OutAlert (demo_alert Critical))
    (send_all [OutAlert (demo_alert Info); OutAlert (demo_alert Warning)]
       (demo_sink false)))) = [OutAlert (demo_alert Critical)].
Proof.
  refine (proj2 (critical_lane_isolated (demo_sink false)
    [OutAlert (demo_alert Info); OutAlert (demo_alert Warning)]
    (demo_alert Critical) _ _ _ _)).
  - repeat constructor.
  - reflexivity.
  - reflexivity.
  - simpl. lia.
Defined.

Lemma maintenance_suppresses_alerts_witness :
  sink_fanout (send_all [OutAlert (demo_alert Critical)] (demo_sink true)) = [].
Proof.
  refine (proj1 (maintenance_suppresses_alerts (demo_sink true)
    [OutAlert (demo_alert Critical)] _)). reflexivity.
Defined.

Lemma overflow_drops_new_message_witness :
  let k := send (OutAlert (demo_alert Info)) (demo_sink false) in
  queued (sink_normal (send (OutAlert (demo_alert Warning)) k))
  = [OutAlert (demo_alert Info)].
Proof.
  refine (proj1 (overflow_drops_new_message
    (send (OutAlert (demo_alert Info)) (demo_sink false))
    (OutAlert (demo_alert Warning)) _ _)).
  - reflexivity.
  - simpl. lia.
Defined.
