(* ===== verification/Runtime.v ===== *)
(** What every detection module does with its findings: the statement
    [if let Decision::Emit(a) = tracker.observe(b) { sink.send(Outbound::Alert(a)) }]
    and its [observe_ok] and [force_resolve] variants, as actions executed in
    program order on the tracker and the sink.

    A module's decision of what to report never depends on what the tracker
    answers, so a handler is a function from its inputs to a list of actions;
    [exec] runs them with one clock sample each. *)
From S2P Require Import Prelude Text Schema Tracker Channels Bus.

Local Open Scope Z_scope.

(** One reading of the monotonic clock, the wall clock and the ULID source. *)
Record Sample : Type := mkSample { smp_now : Instant; smp_stamp : Stamp }.

Inductive Action : Type :=
  | ActObserve (b : AlertBuilder)
  | ActObserveOk (fp : string)
  | ActForceResolve (fp : string)
  | ActSend (o : Outbound).

(** The metrics a list of actions observes, with the severity of each. *)
Definition observed (l : list Action) : list (string * Severity) :=
  omap (fun a => match a with ActObserve b => Some (b_metric b, b_severity b) | _ => None end) l.

Lemma observed_app l1 l2 : observed (l1 ++ l2)%list = (observed l1 ++ observed l2)%list.
Proof. apply omap_app. Qed.

Lemma observed_concat_map {A} (f : A -> list Action) (l : list A) :
  observed (concat (map f l)) = concat (map (fun x => observed (f x)) l).
Proof. induction l as [|x l IH]; [done|]. simpl. by rewrite observed_app, IH. Qed.

(** * Handlers folded over the inputs of a tick *)

Section fold_actions.
Context {St X : Type} (f : St -> X -> St * list Action).

(** A loop body that updates a state and reports actions, over a list. *)
Definition fold_actions (xs : list X) (st : St) : St * list Action :=
  foldl (fun acc x => let r := f (fst acc) x in (fst r, (snd acc ++ snd r)%list)) (st, []) xs.

Lemma fold_actions_snoc xs x st :
  fold_actions (xs ++ [x]) st
  = (fst (f (fst (fold_actions xs st)) x),
     (snd (fold_actions xs st) ++ snd (f (fst (fold_actions xs st)) x))%list).
Proof. unfold fold_actions. by rewrite foldl_app. Qed.

(** The state is the fold of the states. *)
Lemma fold_actions_state xs st :
  fst (fold_actions xs st) = foldl (fun s x => fst (f s x)) st xs.
Proof.
  induction xs as [|x xs IH] using rev_ind; [done|].
  by rewrite fold_actions_snoc, foldl_app, <- IH.
Qed.

(** An action comes from one input, in the state the inputs before it left. *)
Lemma elem_of_fold_actions xs st act :
  act ∈ snd (fold_actions xs st)
  <-> exists before x after, xs = before ++ x :: after
        /\ act ∈ snd (f (fst (fold_actions before st)) x).
Proof.
  induction xs as [|x xs IH] using rev_ind.
  - split; [by intros ?%elem_of_nil|]. intros (b & x & a & Heq & _). by destruct b.
  - rewrite fold_actions_snoc. cbn [snd]. rewrite elem_of_app, IH. split.
    + intros [(b & y & a & -> & Hin)|Hin].
      * exists b, y, (a ++ [x]). split; [by rewrite <- app_assoc|done].
      * by exists xs, x, [].
    + intros (b & y & a & Heq & Hin). destruct a as [|z a _] using rev_ind.
      * apply app_inj_tail in Heq as [-> ->]. by right.
      * left. rewrite app_comm_cons, app_assoc in Heq.
        apply app_inj_tail in Heq as [-> ->]. by exists b, y, a.
Qed.

End fold_actions.

Section runtime.
Context {C : Type -> Type} `{!Mpsc C}.

Record World : Type := mkWorld {
  w_tracker : AlertTracker;
  w_sink : AlertSink C
}.

(** Hand an alert, if there is one, to the sink. *)
Definition send_opt (o : option Alert) (k : AlertSink C) : AlertSink C :=
  match o with Some a => send (OutAlert a) k | None => k end.

(** src/agent/src/modules/nvme.rs:274-278 (emit). *)
Definition emit (x : Sample) (b : AlertBuilder) (w : World) : World :=
  let r := observe (smp_now x) (smp_stamp x) b (w_tracker w) in
  mkWorld (fst r)
    (match snd r with
     | Emit a => send (OutAlert a) (w_sink w)
     | Suppress => w_sink w
     end).

Definition exec_action (w : World) (xa : Sample * Action) : World :=
  let (x, act) := xa in
  match act with
  | ActObserve b => emit x b w
  | ActObserveOk fp =>
      let r := observe_ok (smp_now x) (smp_stamp x) fp (w_tracker w) in
      mkWorld (fst r) (send_opt (snd r) (w_sink w))
  | ActForceResolve fp =>
      let r := force_resolve (smp_stamp x) fp (w_tracker w) in
      mkWorld (fst r) (send_opt (snd r) (w_sink w))
  | ActSend o => mkWorld (w_tracker w) (send o (w_sink w))
  end.

Definition exec (l : list (Sample * Action)) (w : World) : World :=
  foldl exec_action w l.

(** The tracker event an action amounts to. *)
Definition action_event (xa : Sample * Action) : list Event :=
  let (x, act) := xa in
  match act with
  | ActObserve b => [EvObserve (smp_now x) (smp_stamp x) b]
  | ActObserveOk fp => [EvOk (smp_now x) (smp_stamp x) fp]
  | ActForceResolve fp => [EvForce (smp_stamp x) fp]
  | ActSend _ => []
  end.

Lemma exec_snoc l xa w : exec (l ++ [xa]) w = exec_action (exec l w) xa.
Proof. unfold exec. by rewrite foldl_app. Qed.

(** Running a module's actions runs the tracker on the corresponding events, so
    every trace theorem about the tracker applies to every module. *)
Lemma exec_tracker l w :
  w_tracker (exec l w) = tracker_run (w_tracker w) (concat (map action_event l)).
Proof.
  induction l as [|[x act] l IH] using rev_ind; [done|].
  rewrite exec_snoc, map_app, concat_app. simpl. rewrite app_nil_r.
  destruct act; simpl; rewrite ?tracker_run_snoc, ?app_nil_r, IH; done.
Qed.

Lemma exec_suppress l w :
  sink_suppress_alerts (w_sink (exec l w)) = sink_suppress_alerts (w_sink w).
Proof.
  induction l as [|[x act] l IH] using rev_ind; [done|].
  rewrite exec_snoc. destruct act; simpl; unfold send_opt;
    rewrite <- IH; cases; by rewrite ?send_suppress.
Qed.

End runtime.
Arguments World C : clear implicits.
