(* ===== verification/CollectorState.v ===== *)
(** The collector's in-memory state (src/collector/src/state.rs): firing alerts
    by fingerprint, hosts by id, and the sequence of envelopes broadcast to the
    subscribers.

    [chrono] is not part of this repository: what the program uses of it beyond
    the subtraction of instants is a parameter, with its documented meaning. *)
From S2P Require Import Prelude Text Schema.

Local Open Scope Z_scope.

(** [datetime_min] is [DateTime::<Utc>::MIN_UTC]: the subtraction of a delta that
    would go below it panics. *)
Class Chrono : Type := {
  num_seconds : Z -> Z;
  to_rfc3339 : DateTime -> string;
  datetime_min : DateTime
}.

(** The number of whole seconds of a time delta. *)
Class ChronoLaws `{Chrono} : Prop := {
  num_seconds_spec d : num_seconds d = Z.quot d nanos_per_sec
}.

(** src/collector/src/state.rs:24-35 (HostInfo). *)
Record HostInfo : Type := mkHostInfo {
  hi_host : string;
  hi_host_id : string;
  hi_primary_ip : string;
  hi_last_seen : DateTime;
  hi_tags : gmap string string;
  hi_vendor : VendorInfo;
  hi_firing_count : Z;
  hi_agent_version : string;
  hi_maintenance : bool
}.

(** src/collector/src/state.rs:16-22 (AppState).  [app_fanout] is the sequence of
    envelopes handed to the broadcast sender, oldest first. *)
Record AppState : Type := mkApp {
  app_firing : gmap string Alert;
  app_hosts : gmap string HostInfo;
  app_fanout : list Envelope;
  app_offline_after_s : Z
}.

(** src/collector/src/state.rs:38-46 (AppState::new). *)
Definition app_new (offline_after_s : Z) : AppState := mkApp ∅ ∅ [] offline_after_s.

Definition set_firing (m : gmap string Alert) (s : AppState) : AppState :=
  mkApp m (app_hosts s) (app_fanout s) (app_offline_after_s s).
Definition set_hosts (m : gmap string HostInfo) (s : AppState) : AppState :=
  mkApp (app_firing s) m (app_fanout s) (app_offline_after_s s).

(** src/collector/src/state.rs:169-171 (AppState::broadcast). *)
Definition broadcast (e : Envelope) (s : AppState) : AppState :=
  mkApp (app_firing s) (app_hosts s) (app_fanout s ++ [e]) (app_offline_after_s s).

Definition set_count (n : Z) (h : HostInfo) : HostInfo :=
  mkHostInfo (hi_host h) (hi_host_id h) (hi_primary_ip h) (hi_last_seen h)
    (hi_tags h) (hi_vendor h) n (hi_agent_version h) (hi_maintenance h).

(** src/collector/src/state.rs:91-92 (the arithmetic of bump_host_count). *)
Definition bump_count (n delta : Z) : Z :=
  Int.as_u32 (Z.max 0 (Int.wrapping_add_i32 (Int.as_i32 n) delta)).

(** src/collector/src/state.rs:88-94 (AppState::bump_host_count). *)
Definition bump_host_count (host_id : string) (delta : Z) (s : AppState) : AppState :=
  match app_hosts s !! host_id with
  | Some h =>
      set_hosts (<[host_id := set_count (bump_count (hi_firing_count h) delta) h]>
                   (app_hosts s)) s
  | None => s
  end.

(** src/collector/src/state.rs:64-86 (AppState::apply_alert). *)
Definition apply_alert (a : Alert) (s : AppState) : AppState * bool :=
  match al_state a with
  | Firing =>
      let was_new := bool_decide (app_firing s !! al_fingerprint a = None) in
      let s1 := set_firing (<[al_fingerprint a := a]> (app_firing s)) s in
      (if was_new then bump_host_count (al_host_id a) 1 s1 else s1, true)
  | Resolved =>
      match app_firing s !! al_fingerprint a with
      | Some _ =>
          let s1 := set_firing (delete (al_fingerprint a) (app_firing s)) s in
          (bump_host_count (al_host_id a) (-1) s1, true)
      | None => (s, false)
      end
  end.

(** src/collector/src/state.rs:96-114 (AppState::touch_host). *)
Definition touch_host (host host_id : string) (ts : DateTime)
    (agent_version : string) (s : AppState) : AppState :=
  let entry := default
    (mkHostInfo host host_id "" ts ∅ VendorInfo_default 0 agent_version false)
    (app_hosts s !! host_id) in
  let entry' :=
    mkHostInfo host (hi_host_id entry) (hi_primary_ip entry) ts (hi_tags entry)
      (hi_vendor entry) (hi_firing_count entry)
      (if is_empty agent_version then hi_agent_version entry else agent_version)
      (hi_maintenance entry) in
  set_hosts (<[host_id := entry']> (app_hosts s)) s.

(** src/collector/src/state.rs:116-137 (AppState::register_hello). *)
Definition register_hello (h : Hello) (s : AppState) : AppState :=
  let entry := default
    (mkHostInfo (hello_host h) (hello_host_id h) (hello_primary_ip h)
       (hello_started_at h) (hello_tags h) (hello_vendor h) 0
       (hello_agent_version h) (hello_maintenance h))
    (app_hosts s !! hello_host_id h) in
  let entry' :=
    mkHostInfo (hello_host h) (hi_host_id entry)
      (if is_empty (hello_primary_ip h) then hi_primary_ip entry
       else hello_primary_ip h)
      (hi_last_seen entry) (hello_tags h) (hello_vendor h) (hi_firing_count entry)
      (hello_agent_version h) (hello_maintenance h) in
  set_hosts (<[hello_host_id h := entry']> (app_hosts s)) s.

(** src/collector/src/state.rs:139-146 (AppState::host_primary_ip). *)
Definition host_primary_ip (host_id : string) (s : AppState) : string :=
  default "" (hi_primary_ip <$> app_hosts s !! host_id).

(** src/collector/src/state.rs:148-155 (AppState::host_in_maintenance). *)
Definition host_in_maintenance (host_id : string) (s : AppState) : bool :=
  default false (hi_maintenance <$> app_hosts s !! host_id).

Section views.
Context `{Chrono}.

(** src/collector/src/state.rs:54-54 (the online test). *)
Definition is_online (now last_seen : DateTime) (after_s : Z) : bool :=
  num_seconds (now - last_seen) <=? Int.as_i64 after_s.

(** src/collector/src/state.rs:50-60 (the HostState of a HostInfo). *)
Definition host_state (now : DateTime) (after_s : Z) (h : HostInfo) : HostState :=
  {| hs_host := hi_host h;
     hs_host_id := hi_host_id h;
     hs_primary_ip := hi_primary_ip h;
     hs_online := is_online now (hi_last_seen h) after_s;
     hs_last_seen := hi_last_seen h;
     hs_firing_count := hi_firing_count h;
     hs_tags := hi_tags h;
     hs_agent_version := hi_agent_version h;
     hs_maintenance := hi_maintenance h |}.

(** src/collector/src/state.rs:48-62 (AppState::snapshot).  The clock is read
    once per host, [now_of], and once at the end. *)
Definition snapshot (now_of : string -> DateTime) (now : DateTime) (s : AppState) :
    Snapshot :=
  let alerts := map snd (map_to_list (app_firing s)) in
  let hosts := map (fun kh => host_state (now_of (fst kh)) (app_offline_after_s s)
                                (snd kh))
                 (map_to_list (app_hosts s)) in
  mkSnapshot now alerts hosts.

(** src/collector/src/state.rs:157-167 (AppState::host_status). *)
Definition host_status (now : DateTime) (host_id : string) (s : AppState) :
    option HostStatus :=
  match app_hosts s !! host_id with
  | None => None
  | Some h =>
      Some {| st_host := hi_host h;
              st_host_id := hi_host_id h;
              st_online := is_online now (hi_last_seen h) (app_offline_after_s s);
              st_last_seen := hi_last_seen h;
              st_firing_count := hi_firing_count h |}
  end.

End views.

(** * Basic facts *)

Lemma bump_host_count_firing hid d s :
  app_firing (bump_host_count hid d s) = app_firing s.
Proof. unfold bump_host_count. cases. Qed.

Lemma bump_host_count_fanout hid d s :
  app_fanout (bump_host_count hid d s) = app_fanout s.
Proof. unfold bump_host_count. cases. Qed.

(** The counter as a map from host id: every update of the hosts other than
    [bump_host_count] leaves it alone, apart from creating hosts at zero. *)
Definition count_of (s : AppState) (hid : string) : option Z :=
  hi_firing_count <$> app_hosts s !! hid.

Lemma bump_host_count_of hid d s k :
  count_of (bump_host_count hid d s) k
  = if decide (k = hid) then (fun n => bump_count n d) <$> count_of s k
    else count_of s k.
Proof.
  unfold count_of, bump_host_count. destruct (app_hosts s !! hid) as [h|] eqn:E.
  - simpl. case_decide; subst.
    + by rewrite lookup_insert_eq, E.
    + by rewrite lookup_insert_ne by done.
  - case_decide; subst; [by rewrite E|done].
Qed.

Lemma touch_host_count_of h hid ts v s k :
  count_of (touch_host h hid ts v s) k
  = if decide (k = hid) then Some (default 0 (count_of s k)) else count_of s k.
Proof.
  unfold count_of, touch_host. simpl. case_decide; subst.
  - rewrite lookup_insert_eq. simpl. by destruct (app_hosts s !! hid).
  - by rewrite lookup_insert_ne by done.
Qed.

Lemma register_hello_count_of h s k :
  count_of (register_hello h s) k
  = if decide (k = hello_host_id h) then Some (default 0 (count_of s k))
    else count_of s k.
Proof.
  unfold count_of, register_hello. simpl. case_decide; subst.
  - rewrite lookup_insert_eq. simpl. by destruct (app_hosts s !! _).
  - by rewrite lookup_insert_ne by done.
Qed.

(** Within the range of an [i32] the counter arithmetic is exact and floors at
    zero. *)
Lemma bump_count_exact n d :
  0 <= n <= Int.i32_max -> Int.is_i32 (n + d) ->
  bump_count n d = Z.max 0 (n + d).
Proof.
  intros Hn Hd. unfold bump_count, Int.wrapping_add_i32.
  rewrite (Int.as_i32_id n) by (unfold Int.is_i32, Int.i32_min in *; lia).
  rewrite Int.as_i32_id by done.
  apply Int.as_u32_id. unfold Int.is_u32, Int.is_i32, Int.u32_max, Int.i32_max in *. lia.
Qed.

(** Bounds of the firing counter.  For any stored [u32] and a step of one,
    [bump_host_count] never leaves the range of a [u32]; it is the exact sum,
    floored at zero, for every count below [i32::MAX], and at [i32::MAX] an
    increment wraps to a negative [i32] and the stored count falls to zero. *)
Theorem bump_count_bounds (n d : Z) (Hd : d = 1 \/ d = -1) :
  Int.is_u32 (bump_count n d)
  /\ (0 <= n < Int.i32_max -> bump_count n d = Z.max 0 (n + d))
  /\ bump_count Int.i32_max 1 = 0.
Proof.
  split_and!; [apply Int.as_u32_range| |vm_compute; reflexivity].
  intros Hn. apply bump_count_exact; unfold Int.is_i32, Int.i32_min in *; lia.
Qed.

Lemma bump_count_bounds_witness : bump_count 0 (-1) = 0 /\ bump_count 3 1 = 4.
Proof.
  split.
  - rewrite (proj1 (proj2 (bump_count_bounds 0 (-1) ltac:(lia))));
      unfold Int.i32_max; lia.
  - rewrite (proj1 (proj2 (bump_count_bounds 3 1 ltac:(lia))));
      unfold Int.i32_max; lia.
Defined.

Lemma bump_host_count_hosts_ne hid d s k :
  k <> hid -> app_hosts (bump_host_count hid d s) !! k = app_hosts s !! k.
Proof.
  intros Hk. unfold bump_host_count. case_match; simpl; [|done].
  by rewrite lookup_insert_ne.
Qed.

Lemma apply_alert_firing a s :
  app_firing (fst (apply_alert a s))
  = match al_state a with
    | Firing => <[al_fingerprint a := a]> (app_firing s)
    | Resolved => delete (al_fingerprint a) (app_firing s)
    end.
Proof.
  unfold apply_alert. destruct (al_state a).
  - case_bool_decide; simpl; by rewrite ?bump_host_count_firing.
  - destruct (app_firing s !! al_fingerprint a) eqn:E; simpl;
      [by rewrite bump_host_count_firing|by rewrite delete_id].
Qed.

Lemma apply_alert_fanout a s : app_fanout (fst (apply_alert a s)) = app_fanout s.
Proof.
  unfold apply_alert. destruct (al_state a); repeat (case_match; simpl);
    by rewrite ?bump_host_count_fanout.
Qed.

Lemma apply_broadcast_fanout a e s :
  app_fanout (broadcast e (fst (apply_alert a s))) = app_fanout s ++ [e].
Proof. simpl. by rewrite apply_alert_fanout. Qed.

Lemma apply_alert_hosts_ne a s k :
  k <> al_host_id a -> app_hosts (fst (apply_alert a s)) !! k = app_hosts s !! k.
Proof.
  intros Hk. unfold apply_alert. destruct (al_state a); repeat (case_match; simpl);
    by rewrite ?bump_host_count_hosts_ne.
Qed.

(** Applying an alert.  A firing alert is stored under its fingerprint,
    replacing the previous copy, and is always reported as worth broadcasting,
    a repeat included; a resolved alert is reported exactly when its fingerprint
    was firing, and removes it.  No other fingerprint changes. *)
Theorem apply_alert_spec (a : Alert) (s : AppState) :
  let (s', changed) := apply_alert a s in
  app_firing s' = match al_state a with
                  | Firing => <[al_fingerprint a := a]> (app_firing s)
                  | Resolved => delete (al_fingerprint a) (app_firing s)
                  end
  /\ changed = match al_state a with
               | Firing => true
               | Resolved => bool_decide (is_Some (app_firing s !! al_fingerprint a))
               end
  /\ app_fanout s' = app_fanout s
  /\ (forall k, k <> al_host_id a -> app_hosts s' !! k = app_hosts s !! k).
Proof.
  pose proof (apply_alert_firing a s) as Hf.
  pose proof (apply_alert_fanout a s) as Hb.
  pose proof (fun k => apply_alert_hosts_ne a s k) as Hh.
  assert (Hc : snd (apply_alert a s) = match al_state a with
               | Firing => true
               | Resolved => bool_decide (is_Some (app_firing s !! al_fingerprint a))
               end).
  { unfold apply_alert. destruct (al_state a); [done|].
    destruct (app_firing s !! al_fingerprint a); symmetry;
      [apply bool_decide_true; by eexists|apply bool_decide_false; by intros [??]]. }
  by destruct (apply_alert a s).
Qed.

(** A host is reported online exactly while its last message is at most
    [offline_after_s] whole seconds old, for thresholds below 2^63. *)
Theorem online_iff_recent `{ChronoLaws} (now last_seen : DateTime) (after_s : Z)
    (Hafter : 0 <= after_s < 2 ^ 63) :
  is_online now last_seen after_s = true
  <-> now - last_seen < (after_s + 1) * nanos_per_sec.
Proof.
  unfold is_online. rewrite Int.as_i64_id by done.
  rewrite num_seconds_spec, Z.leb_le. unfold nanos_per_sec.
  assert (Hq := Z.quot_rem' (now - last_seen) 1000000000).
  destruct (Z_le_gt_dec 0 (now - last_seen)) as [Hp|Hp].
  - pose proof (Z.rem_bound_pos (now - last_seen) 1000000000 Hp ltac:(lia)). lia.
  - assert (Hr := Z.rem_nonpos (now - last_seen) 1000000000 ltac:(lia) ltac:(lia)).
    assert (Hr2 := Z.rem_bound_abs (now - last_seen) 1000000000 ltac:(lia)). lia.
Qed.

(** A concrete clock arithmetic, for the witnesses. *)
Definition ChronoRef : Chrono :=
  {| num_seconds d := Z.quot d nanos_per_sec; to_rfc3339 := show;
     datetime_min := from_secs (-8334601228800) |}.
Definition ChronoRef_laws : @ChronoLaws ChronoRef.
Proof. by split. Qed.

#[local] Existing Instance ChronoRef.
#[local] Existing Instance ChronoRef_laws.

Lemma online_iff_recent_witness :
  is_online (11 * nanos_per_sec - 1) 0 10 = true.
Proof.
  apply (proj2 (online_iff_recent (11 * nanos_per_sec - 1) 0 10 ltac:(lia))).
  unfold nanos_per_sec. lia.
Defined.
