(* ===== verification/Codec.v ===== *)
(** The JSON codec between the two programs and the history table.

    Encoding and decoding are the operations of the class [Codec], which the
    clients are proved against; [WireJson] implements it from the derived
    serialisers and an interface to [serde_json]'s text. *)
From S2P Require Import Prelude Text Schema.

Local Open Scope Z_scope.

(** [serde_json::to_string] and [serde_json::from_str] at [Envelope] and at
    [Alert]; [None] is the error result. *)
Class Codec : Type := {
  encode : Envelope -> option string;
  decode : string -> option Envelope;
  encode_alert : Alert -> option string;
  decode_alert : string -> option Alert
}.

(** The alert survives a trip through its JSON text. *)
Definition round_trips `{Codec} (a : Alert) : Prop :=
  exists body, encode_alert a = Some body /\ decode_alert body = Some a.

(** An alert and a codec that knows it, for the concrete runs. *)
Definition ref_alert : Alert :=
  build_firing (mkStamp 7 "01") (builder_new "h" "hid" cat.OS_HANG "kernel_bug" Critical).

Definition CodecRef : Codec :=
  {| encode e := match e with
                 | EnvAlert a => Some (al_id a)
                 | EnvSnapshot _ => Some "snapshot"
                 | _ => None
                 end;
     decode _ := None;
     encode_alert a := Some (al_id a);
     decode_alert s := if decide (s = "01") then Some ref_alert else None |}.
