(* ===== verification/Ingest.v ===== *)
(** Agent to collector ingest (src/collector/src/ws_ingest.rs): one WebSocket
    connection as a sequence of frames, each decoded and applied to the state.

    The JSON codec ([serde_json] on the derived schema) is a parameter. *)
From S2P Require Import Prelude Text Utf8 Schema Codec Channels CollectorState.

Local Open Scope Z_scope.

(** What the socket yields: a frame or a receive error. *)
Inductive Frame : Type :=
  | FText (t : string)
  | FBinary (b : string)
  | FPing
  | FPong
  | FClose
  | FError.

Section ingest.
Context {C : Type -> Type} `{!Mpsc C} `{!Codec}.

(** src/collector/src/ws_ingest.rs:21-25 (IngestState). *)
Record IngestState : Type := mkIngest {
  ig_app : AppState;
  ig_writer : C Alert
}.

(** src/collector/src/ws_ingest.rs:84-86 (the primary_ip stamp). *)
Definition stamp_ip (s : AppState) (a : Alert) : Alert :=
  if is_empty (al_primary_ip a)
  then set_primary_ip (host_primary_ip (al_host_id a) s) a else a.

(** src/collector/src/ws_ingest.rs:71-94 (the Alert arm of handle_socket). *)
Definition ingest_alert (a : Alert) (st : IngestState) : IngestState :=
  let s := ig_app st in
  if host_in_maintenance (al_host_id a) s then st
  else
    let s1 := touch_host (al_host a) (al_host_id a) (al_ts a) "" s in
    let a1 := stamp_ip s1 a in
    let r := apply_alert a1 s1 in
    let w := fst (try_send a1 (ig_writer st)) in
    mkIngest (if snd r then broadcast (EnvAlert a1) (fst r) else fst r) w.

(** The connection-local [current_host] and the shared state. *)
Definition Conn : Type := option (string * string) * IngestState.

(** src/collector/src/ws_ingest.rs:54-98 (the match on the envelope). *)
Definition handle_envelope (e : Envelope) (c : Conn) : Conn :=
  let (cur, st) := c in
  match e with
  | EnvHello h =>
      let s1 := register_hello h (ig_app st) in
      (Some (hello_host h, hello_host_id h),
       mkIngest (broadcast (EnvHello h) s1) (ig_writer st))
  | EnvHeartbeat hb =>
      let s1 := touch_host (hb_host hb) (hb_host_id hb) (hb_ts hb)
                  (hb_agent_version hb) (ig_app st) in
      (cur, mkIngest (broadcast (EnvHeartbeat hb) s1) (ig_writer st))
  | EnvAlert a => (cur, ingest_alert a st)
  | EnvSnapshot _ | EnvHostStatus _ => (cur, st)
  end.

Definition handle_text (t : string) (c : Conn) : Conn :=
  match decode t with Some e => handle_envelope e c | None => c end.

(** src/collector/src/ws_ingest.rs:36-53 (one turn of the receive loop); [None]
    leaves the loop. *)
Definition handle_frame (f : Frame) (c : Conn) : option Conn :=
  match f with
  | FText t => Some (handle_text t c)
  | FBinary b => Some (handle_text (from_utf8_lossy b) c)
  | FPing | FPong => Some c
  | FClose | FError => None
  end.

Fixpoint receive_loop (fs : list Frame) (c : Conn) : Conn :=
  match fs with
  | [] => c
  | f :: fs' => match handle_frame f c with
                | Some c' => receive_loop fs' c'
                | None => c
                end
  end.

(** src/collector/src/ws_ingest.rs:100-109 (the disconnect notice). *)
Definition disconnect (now : DateTime) (c : Conn) : IngestState :=
  match c with
  | (Some (host, host_id), st) =>
      mkIngest (broadcast (EnvHostStatus (mkHostStatus host host_id false now 0))
                  (ig_app st)) (ig_writer st)
  | (None, st) => st
  end.

(** src/collector/src/ws_ingest.rs:34-110 (handle_socket).  The end of the list
    is the end of the stream. *)
Definition handle_socket (fs : list Frame) (now : DateTime) (st : IngestState) :
    IngestState :=
  disconnect now (receive_loop fs (None, st)).

(** An alert of a host in maintenance has no effect: neither the state, the
    history queue nor the subscribers see it, and the host's last-seen time is
    not refreshed. *)
Theorem maintenance_alert_ignored (a : Alert) (st : IngestState)
    (cur : option (string * string)) (h : HostInfo)
    (Hhost : app_hosts (ig_app st) !! al_host_id a = Some h)
    (Hmaint : hi_maintenance h = true) :
  handle_envelope (EnvAlert a) (cur, st) = (cur, st).
Proof.
  simpl. unfold ingest_alert, host_in_maintenance. by rewrite Hhost; simpl; rewrite Hmaint.
Qed.

(** A frame that does not decode, a ping, a pong, and the envelope kinds an
    agent never sends leave the connection exactly as it was, and the loop goes
    on: a malformed message cannot disturb the state or drop the connection. *)
Theorem bad_frame_harmless (f : Frame) (c : Conn)
    (Hbad : match f with
            | FText t => match decode t with
                         | None | Some (EnvSnapshot _) | Some (EnvHostStatus _) => True
                         | _ => False end
            | FBinary b => decode (from_utf8_lossy b) = None
            | FPing | FPong => True
            | _ => False
            end) :
  handle_frame f c = Some c.
Proof.
  destruct c as [cur st]. destruct f; simpl; unfold handle_text; try done.
  - by destruct (decode t) as [[]|].
  - by rewrite Hbad.
Qed.

Context `{!MpscLaws C}.

(** An accepted alert.  Outside maintenance, a firing alert is stored under
    its fingerprint with the host's known address stamped in, its sender becomes
    a known host last seen at the alert's timestamp, the alert is queued for the
    history when the queue has room, and it is broadcast once, stamped the same
    way. *)
Theorem ingest_firing_spec (a : Alert) (st : IngestState)
    (Hmaint : host_in_maintenance (al_host_id a) (ig_app st) = false)
    (Hfire : al_state a = Firing) :
  let st' := ingest_alert a st in
  let a1 := stamp_ip (ig_app st) a in
  app_firing (ig_app st') = <[al_fingerprint a := a1]> (app_firing (ig_app st))
  /\ (exists h, app_hosts (ig_app st') !! al_host_id a = Some h
                /\ hi_last_seen h = al_ts a /\ hi_host h = al_host a)
  /\ queued (ig_writer st')
     = (if decide (length (queued (ig_writer st)) < capacity (ig_writer st))%nat
        then queued (ig_writer st) ++ [a1] else queued (ig_writer st))
  /\ app_fanout (ig_app st') = app_fanout (ig_app st) ++ [EnvAlert a1].
Proof.
  simpl. unfold ingest_alert. rewrite Hmaint.
  set (s1 := touch_host (al_host a) (al_host_id a) (al_ts a) "" (ig_app st)).
  assert (Hip : stamp_ip s1 a = stamp_ip (ig_app st) a).
  { unfold stamp_ip, host_primary_ip, s1, touch_host. simpl.
    rewrite lookup_insert_eq. by destruct (app_hosts (ig_app st) !! _). }
  rewrite Hip. set (a1 := stamp_ip (ig_app st) a).
  assert (Ha : al_state a1 = Firing /\ al_fingerprint a1 = al_fingerprint a
               /\ al_host_id a1 = al_host_id a).
  { subst a1. unfold stamp_ip. destruct a, (is_empty _); simpl in *; done. }
  destruct Ha as (Hs & Hf & Hh).
  assert (Hseen : exists h, app_hosts s1 !! al_host_id a = Some h
                  /\ hi_last_seen h = al_ts a /\ hi_host h = al_host a).
  { unfold s1, touch_host. simpl. rewrite lookup_insert_eq. by eexists. }
  assert (Hfi : app_firing s1 = app_firing (ig_app st)) by done.
  assert (Hfa : app_fanout s1 = app_fanout (ig_app st)) by done.
  clearbody s1 a1. unfold apply_alert. rewrite Hs, Hf, Hh. simpl.
  rewrite <- Hfi, <- Hfa. destruct Hseen as (h & Hh1 & Hh2 & Hh3).
  split_and!.
  - case_bool_decide; by rewrite ?bump_host_count_firing.
  - case_bool_decide; simpl; [|by exists h].
    unfold bump_host_count. simpl. rewrite Hh1. simpl. rewrite lookup_insert_eq.
    by eexists.
  - apply try_send_queued.
  - case_bool_decide; by rewrite ?bump_host_count_fanout.
Qed.

Lemma receive_loop_host fs c cur :
  fst (receive_loop fs c) = Some cur ->
  fst c = Some cur \/ exists h, cur = (hello_host h, hello_host_id h).
Proof.
  revert c. induction fs as [|f fs IH]; intros [c0 st] Hr; [by left|].
  simpl in Hr. destruct (handle_frame f (c0, st)) as [[c1 st1]|] eqn:E; [|by left].
  destruct (IH _ Hr) as [H1|]; [|by right]. simpl in H1. subst c1.
  destruct f; simpl in E; unfold handle_text in E; simplify_eq; try by left.
  all: destruct (decode _) as [[]|]; simpl in E; simplify_eq; try by left.
  all: right; by eexists.
Qed.

(** The disconnect notice.  Closing a connection broadcasts exactly one
    offline status, for the host of its last hello, and nothing when it never
    said hello; the firing alerts, the hosts and the history queue are as the
    received frames left them. *)
Theorem disconnect_notice (fs : list Frame) (now : DateTime) (st : IngestState) :
  let c := receive_loop fs (None, st) in
  let st' := handle_socket fs now st in
  app_firing (ig_app st') = app_firing (ig_app (snd c))
  /\ app_hosts (ig_app st') = app_hosts (ig_app (snd c))
  /\ ig_writer st' = ig_writer (snd c)
  /\ app_fanout (ig_app st')
     = app_fanout (ig_app (snd c))
       ++ match fst c with
          | Some (host, host_id) =>
              [EnvHostStatus (mkHostStatus host host_id false now 0)]
          | None => []
          end.
Proof.
  simpl. unfold handle_socket.
  destruct (receive_loop fs (None, st)) as [[[h hid]|] st1]; simpl; [done|].
  by rewrite app_nil_r.
Qed.

End ingest.
Arguments IngestState C : clear implicits.
Arguments mkIngest {C} ig_app ig_writer.
Arguments ig_app {C} i.
Arguments ig_writer {C} i.

(** * Witnesses *)

#[local] Existing Instance CodecRef.

Definition ref_hello (maintenance : bool) : Hello :=
  mkHello "h" "hid" "10.0.0.1" "4.3.0" 1 VendorInfo_default ∅ maintenance.
Definition ref_state (maintenance : bool) : IngestState BoundedQueue :=
  mkIngest (register_hello (ref_hello maintenance) (app_new 10)) (mkBounded 4 []).

Lemma maintenance_alert_ignored_witness :
  handle_envelope (EnvAlert ref_alert) (None, ref_state true)
  = (None, ref_state true).
Proof.
  eapply (maintenance_alert_ignored ref_alert (ref_state true) None).
  - vm_compute. reflexivity.
  - reflexivity.
Defined.

Lemma bad_frame_harmless_witness :
  handle_frame (FText "{") (None, ref_state false) = Some (None, ref_state false).
Proof. apply (bad_frame_harmless (FText "{")). exact I. Defined.

Lemma ingest_firing_spec_witness :
  app_fanout (ig_app (ingest_alert ref_alert (ref_state false)))
  = [EnvAlert (set_primary_ip "10.0.0.1" ref_alert)].
Proof.
  refine (proj2 (proj2 (proj2
    (ingest_firing_spec ref_alert (ref_state false) _ _)))).
  - vm_compute. reflexivity.
  - reflexivity.
Defined.
