(* ===== verification/Store.v ===== *)
(** The alert history (src/collector/src/store.rs): an SQLite table keyed by the
    alert id, its writer task, its retention task and its queries.

    SQLite is not part of this repository: the statements the program sends are
    the operations of the class [Sqlite], with their documented meaning as laws.
    The component's contract is that the table implements a finite map from
    alert id to alert. *)
From S2P Require Import Prelude Text Schema Codec CollectorState.
From stdpp Require Import sorting.

Local Open Scope Z_scope.

(** src/collector/src/store.rs:41-51 (the columns of the table). *)
Record Row : Type := mkRow {
  r_id : string;
  r_ts : string;
  r_host_id : string;
  r_host : string;
  r_severity : string;
  r_state : string;
  r_category : string;
  r_fingerprint : string;
  r_body : string
}.

(** The four statements; [None] is the error result. *)
Class Sqlite (D : Type) : Type := {
  rows : D -> list Row;
  insert_or_replace : Row -> D -> option D;
  select_body_ts_desc : Z -> D -> option (list string);
  delete_all : D -> option (D * Z);
  delete_ts_lt : string -> D -> option D;
  vacuum : D -> D
}.

(** [ORDER BY ts DESC] on a text column compares bytes. *)
Definition ts_desc (r1 r2 : Row) : Prop := String.le (r_ts r2) (r_ts r1).

Class SqliteLaws (D : Type) `{Sqlite D} : Prop := {
  insert_rows r d d' :
    insert_or_replace r d = Some d' ->
    rows d' ≡ₚ r :: filter (fun r' => r_id r' <> r_id r) (rows d);
  select_rows n d l :
    0 <= n -> select_body_ts_desc n d = Some l ->
    exists rs, rs ≡ₚ rows d /\ StronglySorted ts_desc rs
               /\ l = map r_body (take (Z.to_nat n) rs);
  delete_all_rows d d' n :
    delete_all d = Some (d', n) ->
    rows d' = [] /\ n = Z.of_nat (length (rows d));
  delete_lt_rows s d d' :
    delete_ts_lt s d = Some d' ->
    rows d' ≡ₚ filter (fun r => String.le s (r_ts r)) (rows d);
  vacuum_rows d : rows (vacuum d) = rows d
}.

Section store.
Context {D : Type} `{!Sqlite D} `{!Codec} `{!Chrono}.

(** src/collector/src/store.rs:138-138 (the state column). *)
Definition state_text (s : AlertState) : string :=
  to_lowercase (match s with Firing => "Firing" | Resolved => "Resolved" end).

(** src/collector/src/store.rs:128-145 (the bound row of insert). *)
Definition row_of (a : Alert) : option Row :=
  match encode_alert a with
  | None => None
  | Some body =>
      Some {| r_id := al_id a; r_ts := to_rfc3339 (al_ts a);
              r_host_id := al_host_id a; r_host := al_host a;
              r_severity := severity_as_str (al_severity a);
              r_state := state_text (al_state a);
              r_category := al_category a;
              r_fingerprint := al_fingerprint a; r_body := body |}
  end.

(** src/collector/src/store.rs:127-146 (insert). *)
Definition insert_alert (a : Alert) (d : D) : option D :=
  match row_of a with
  | None => None
  | Some r => insert_or_replace r d
  end.

(** src/collector/src/store.rs:68-79 (the task of spawn_writer).  A failed insert
    is logged and the next alert is taken. *)
Definition run_writer (queue : list Alert) (d : D) : D :=
  foldl (fun d a => default d (insert_alert a d)) d queue.

(** src/collector/src/store.rs:81-95 (Store::list_recent). *)
Definition list_recent (limit : Z) (d : D) : option (list Alert) :=
  match select_body_ts_desc limit d with
  | None => None
  | Some bodies => Some (omap decode_alert bodies)
  end.

(** src/collector/src/store.rs:99-105 (Store::clear_all). *)
Definition clear_all (d : D) : option (D * Z) :=
  match delete_all d with
  | None => None
  | Some (d', n) => Some (vacuum d', n)
  end.

(** src/collector/src/store.rs:114-114 (the subtraction of spawn_retention).  A cutoff
    before the first representable time panics, and the release profile aborts the
    process. *)
Definition retention_panics (now : DateTime) (days : Z) : bool :=
  now - from_secs (days * 86400) <? datetime_min.

(** src/collector/src/store.rs:113-122 (one tick of spawn_retention).  A tick that
    panics runs no statement. *)
Definition prune (now : DateTime) (days : Z) (d : D) : D :=
  let cutoff := now - from_secs (days * 86400) in
  if retention_panics now days then d
  else default d (delete_ts_lt (to_rfc3339 cutoff) d).

(** * The table implements a map from id to alert *)

Record Represents (d : D) (m : gmap string Alert) : Prop := {
  rep_nodup : NoDup (map r_id (rows d));
  rep_rows r : r ∈ rows d <-> exists a, m !! al_id a = Some a /\ row_of a = Some r;
  rep_alerts k a : m !! k = Some a -> al_id a = k /\ round_trips a
}.

Lemma row_of_id a r : row_of a = Some r -> r_id r = al_id a.
Proof. unfold row_of. destruct (encode_alert a); [by intros [= <-]|done]. Qed.

Lemma row_of_decode a r :
  round_trips a -> row_of a = Some r -> decode_alert (r_body r) = Some a.
Proof. intros (body & He & Hd). unfold row_of. rewrite He. by intros [= <-]. Qed.

Lemma round_trips_row a : round_trips a -> exists r, row_of a = Some r.
Proof. intros (body & He & _). unfold row_of. rewrite He. by eexists. Qed.

Lemma row_of_inj d m a1 a2 r :
  Represents d m -> m !! al_id a1 = Some a1 -> m !! al_id a2 = Some a2 ->
  row_of a1 = Some r -> row_of a2 = Some r -> a1 = a2.
Proof.
  intros Hrep H1 H2 Hr1 Hr2.
  pose proof (row_of_decode _ _ (proj2 (rep_alerts _ _ Hrep _ _ H1)) Hr1).
  pose proof (row_of_decode _ _ (proj2 (rep_alerts _ _ Hrep _ _ H2)) Hr2).
  congruence.
Qed.

(** Removing rows by a test on the row removes the matching alerts. *)
Lemma represents_filter d d' m (P : Row -> Prop) `{!forall r, Decision (P r)}
    (Q : string * Alert -> Prop) `{!forall ka, Decision (Q ka)} :
  Represents d m ->
  (forall a r, row_of a = Some r -> P r <-> Q (al_id a, a)) ->
  rows d' ≡ₚ filter P (rows d) -> Represents d' (filter Q m).
Proof.
  intros Hrep HPQ Hd'. split.
  - rewrite Hd'. apply NoDup_map_filter, (rep_nodup _ _ Hrep).
  - intros r. rewrite Hd', list_elem_of_filter, (rep_rows _ _ Hrep). split.
    + intros (HP & a & Ha & Hr). exists a. split; [|done].
      apply map_lookup_filter_Some. split; [done|]. by apply (HPQ a r).
    + intros (a & [Ha HQ]%map_lookup_filter_Some & Hr). split; [|by exists a].
      by apply (HPQ a r).
  - intros k a [Ha _]%map_lookup_filter_Some. by apply (rep_alerts _ _ Hrep).
Qed.

Context `{!SqliteLaws D}.

Lemma represents_insert d d' m a :
  Represents d m -> round_trips a -> insert_alert a d = Some d' ->
  Represents d' (<[al_id a := a]> m).
Proof.
  intros Hrep Ha Hi. unfold insert_alert in Hi.
  destruct (row_of a) as [r|] eqn:Hr; [|done].
  apply insert_rows in Hi. pose proof (row_of_id _ _ Hr) as Hid.
  split.
  - rewrite Hi. simpl. apply NoDup_cons. split.
    + by intros (r' & Hr' & [? _]%list_elem_of_filter)%list_elem_of_fmap.
    + apply NoDup_map_filter, (rep_nodup _ _ Hrep).
  - intros r'. rewrite Hi, elem_of_cons, list_elem_of_filter, (rep_rows _ _ Hrep).
    split.
    + intros [->|(Hne & a' & Ha' & Hr')].
      * exists a. by rewrite lookup_insert_eq.
      * exists a'. split; [|done]. rewrite lookup_insert_ne; [done|].
        rewrite (row_of_id _ _ Hr'), Hid in Hne. congruence.
    + intros (a' & Ha' & Hr'). apply lookup_insert_Some in Ha' as [[Hk <-]|[Hk Ha']].
      * left. congruence.
      * right. split; [|by exists a'].
        rewrite (row_of_id _ _ Hr'), Hid. congruence.
  - intros k a' [[<- <-]|[_ Hk]]%lookup_insert_Some; [done|].
    by apply (rep_alerts _ _ Hrep).
Qed.

(** The alert a row was made from. *)
Definition row_alert (m : gmap string Alert) (r : Row) (a : Alert) : Prop :=
  row_of a = Some r /\ m !! al_id a = Some a.

Lemma decode_rows d m rs al :
  Represents d m -> Forall2 (row_alert m) rs al ->
  omap decode_alert (map r_body rs) = al.
Proof.
  intros Hrep Hal. induction Hal as [|r a rs al [Hr Ha] _ IH]; [done|].
  simpl. rewrite (row_of_decode a r); [by f_equal| |done].
  by apply (rep_alerts _ _ Hrep) in Ha as [_ ?].
Qed.

Lemma rows_alerts d m rs :
  Represents d m -> Forall (fun r => r ∈ rows d) rs ->
  exists al, Forall2 (row_alert m) rs al.
Proof.
  intros Hrep Hrs. induction Hrs as [|r rs Hr _ [al IH]]; [by exists []|].
  apply (rep_rows _ _ Hrep) in Hr as (a & Ha & Hr). exists (a :: al).
  by constructor.
Qed.

Lemma row_alert_ids m rs al :
  Forall2 (row_alert m) rs al -> map al_id al = map r_id rs.
Proof.
  induction 1 as [|r a rs al [Hr _] _ IH]; [done|]. simpl.
  by rewrite IH, (row_of_id _ _ Hr).
Qed.

Definition newest_first (a1 a2 : Alert) : Prop :=
  String.le (to_rfc3339 (al_ts a2)) (to_rfc3339 (al_ts a1)).

Lemma row_alert_sorted m rs al :
  Forall2 (row_alert m) rs al -> StronglySorted ts_desc rs ->
  StronglySorted newest_first al.
Proof.
  assert (Hts : forall r a, row_alert m r a -> r_ts r = to_rfc3339 (al_ts a)).
  { intros r a [Hr _]. unfold row_of in Hr.
    destruct (encode_alert a); by simplify_eq. }
  induction 1 as [|r a rs al Hr Hal IH]; [constructor|].
  intros Hs. apply StronglySorted_inv in Hs as [Hs Hall].
  constructor; [by apply IH|]. clear IH Hs.
  induction Hal as [|r' a' rs al Hr' _ IH]; [constructor|].
  apply Forall_cons in Hall as [Hd Hall]. constructor; [|by apply IH].
  unfold ts_desc in Hd. unfold newest_first.
  by rewrite <- (Hts _ _ Hr), <- (Hts _ _ Hr').
Qed.

(** C32: the history query.  When the table holds the alerts [m], a query that
    succeeds returns the newest of them first (by the text of their timestamp, which
    is what SQLite compares), each exactly once, at most
    [limit] of them, and everything it leaves out is no newer than anything it
    returns. *)
Theorem list_recent_spec (d : D) (m : gmap string Alert) (limit : Z) (l : list Alert)
    (Hrep : Represents d m) (Hlimit : 0 <= limit)
    (Hq : list_recent limit d = Some l) :
  exists rest,
    NoDup (map al_id (l ++ rest))
    /\ (forall a, a ∈ l ++ rest <-> m !! al_id a = Some a)
    /\ StronglySorted newest_first (l ++ rest)
    /\ length l = Nat.min (Z.to_nat limit) (length (l ++ rest)).
Proof.
  unfold list_recent in Hq.
  destruct (select_body_ts_desc limit d) as [bodies|] eqn:Hs; [|done].
  apply select_rows in Hs as (rs & Hp & Hsort & ->); [|done].
  destruct (rows_alerts d m rs) as [al Hal]; [done| |].
  { apply Forall_forall. intros r Hr. by rewrite <- Hp. }
  set (n := Z.to_nat limit) in *.
  rewrite (decode_rows d m (take n rs) (take n al)) in Hq;
    [|done|by apply Forall2_take].
  injection Hq as <-. exists (drop n al). rewrite take_drop. split_and!.
  - rewrite (row_alert_ids _ _ _ Hal). pose proof (rep_nodup _ _ Hrep) as Hnd.
    by rewrite (Permutation_map r_id Hp).
  - intros a. split; intros Ha.
    + apply list_elem_of_lookup_1 in Ha as [i Ha].
      destruct (Forall2_lookup_r _ _ _ _ _ Hal Ha) as (r & _ & _ & ?). done.
    + destruct (round_trips_row a) as [r Hr].
      { by apply (rep_alerts _ _ Hrep) in Ha as [_ ?]. }
      assert (Hin : r ∈ rs) by (rewrite Hp; apply (rep_rows _ _ Hrep); by exists a).
      apply list_elem_of_lookup_1 in Hin as [i Hi].
      destruct (Forall2_lookup_l _ _ _ _ _ Hal Hi) as (a' & Ha' & Hr' & Hm').
      rewrite (row_of_inj d m a a' r) by done. by eapply list_elem_of_lookup_2.
  - by eapply row_alert_sorted.
  - by rewrite length_take.
Qed.

(** The operations on the history, and what each does to the map. *)
Inductive HistOp : Type :=
  | HInsert (a : Alert)
  | HClear
  | HPrune (now : DateTime) (days : Z).

Definition hist_exec (d : D) (op : HistOp) : option D :=
  match op with
  | HInsert a => insert_alert a d
  | HClear => fst <$> clear_all d
  | HPrune now days =>
      if retention_panics now days then None
      else delete_ts_lt (to_rfc3339 (now - from_secs (days * 86400))) d
  end.

Definition hist_step (d : D) (op : HistOp) : D :=
  match op with
  | HInsert a => run_writer [a] d
  | HClear => default d (fst <$> clear_all d)
  | HPrune now days => prune now days d
  end.

Definition hist_spec (m : gmap string Alert) (op : HistOp) : gmap string Alert :=
  match op with
  | HInsert a => <[al_id a := a]> m
  | HClear => ∅
  | HPrune now days =>
      filter (fun ka => String.le (to_rfc3339 (now - from_secs (days * 86400)))
                          (to_rfc3339 (al_ts ka.2))) m
  end.

(** C29: the history refines a finite map.  Inserting an alert binds its id to it,
    an alert with the same id replacing the earlier one; clearing empties the
    map; a retention tick keeps exactly the alerts whose timestamp text is not
    before the cutoff's; a statement that fails leaves the map as it was, and so does
    a tick whose cutoff is not representable (it panics before the statement). *)
Theorem store_refines_map (d : D) (m : gmap string Alert) (op : HistOp)
    (Hrep : Represents d m)
    (Hop : match op with HInsert a => round_trips a | _ => True end) :
  Represents (hist_step d op)
    (match hist_exec d op with Some _ => hist_spec m op | None => m end).
Proof.
  destruct op as [a| |now days]; simpl.
  - destruct (insert_alert a d) as [d'|] eqn:E; simpl; [|done].
    by eapply represents_insert.
  - unfold clear_all. destruct (delete_all d) as [[d' n]|] eqn:E; simpl; [|done].
    apply delete_all_rows in E as [E _]. split; rewrite ?vacuum_rows, ?E.
    + constructor.
    + intros r. split; [set_solver|]. intros (a & Ha & _). by rewrite lookup_empty in Ha.
    + intros k a Ha. by rewrite lookup_empty in Ha.
  - unfold prune. destruct (retention_panics now days); [done|].
    destruct (delete_ts_lt _ d) as [d'|] eqn:E; simpl; [|done].
    apply delete_lt_rows in E. eapply represents_filter; [done| |exact E].
    intros a r Hr. unfold row_of in Hr. destruct (encode_alert a); by simplify_eq.
Qed.

End store.

(** * The reference table and the witnesses *)

#[export] Instance ListTable : Sqlite (list Row) := {
  rows d := d;
  insert_or_replace r d := Some (r :: filter (fun r' => r_id r' <> r_id r) d);
  select_body_ts_desc n d :=
    Some (map r_body (take (Z.to_nat n) (merge_sort ts_desc d)));
  delete_all d := Some ([], Z.of_nat (length d));
  delete_ts_lt s d := Some (filter (fun r => String.le s (r_ts r)) d);
  vacuum d := d
}.

#[export] Instance ts_desc_total : Total ts_desc.
Proof. intros r1 r2. unfold ts_desc. destruct (total String.le (r_ts r1) (r_ts r2)); auto. Qed.
#[export] Instance ts_desc_trans : Transitive ts_desc.
Proof. intros r1 r2 r3 H1 H2. unfold ts_desc in *. by etrans. Qed.

#[export] Instance ListTable_laws : SqliteLaws (list Row).
Proof.
  split; simpl.
  - by intros r d d' [= <-].
  - intros n d l _ [= <-]. exists (merge_sort ts_desc d). split_and!.
    + apply merge_sort_Permutation.
    + apply (StronglySorted_merge_sort ts_desc).
    + done.
  - by intros d d' n [= <- <-].
  - by intros s d d' [= <-].
  - done.
Qed.

#[local] Existing Instance CodecRef.
#[local] Existing Instance ChronoRef.

Lemma represents_empty : Represents (D := list Row) [] ∅.
Proof.
  split; simpl; [constructor| |].
  - intros r. split; [set_solver|]. intros (a & Ha & _). by rewrite lookup_empty in Ha.
  - intros k a Ha. by rewrite lookup_empty in Ha.
Qed.

Lemma ref_round_trips : round_trips ref_alert.
Proof. by exists "01". Qed.

Lemma ref_represents :
  Represents (hist_step (D := list Row) [] (HInsert ref_alert))
    (<[al_id ref_alert := ref_alert]> ∅).
Proof.
  refine (represents_insert (D := list Row) [] _ ∅ ref_alert
    represents_empty ref_round_trips _). by vm_compute.
Qed.

Lemma store_refines_map_witness :
  Represents (hist_step (D := list Row) [] (HInsert ref_alert))
    (<[al_id ref_alert := ref_alert]> ∅).
Proof.
  pose proof (store_refines_map (D := list Row) [] ∅ (HInsert ref_alert)
    represents_empty ref_round_trips) as Hrep.
  cbv [hist_exec insert_alert row_of encode_alert CodecRef insert_or_replace
       ListTable] in Hrep. simpl in Hrep. exact Hrep.
Defined.

Lemma list_recent_spec_witness :
  let d := hist_step (D := list Row) [] (HInsert ref_alert) in
  list_recent 1 d = Some [ref_alert]
  /\ exists rest, NoDup (map al_id ([ref_alert] ++ rest)).
Proof.
  split; [vm_compute; reflexivity|].
  destruct (list_recent_spec
    (hist_step (D := list Row) [] (HInsert ref_alert))
    (<[al_id ref_alert := ref_alert]> ∅) 1 [ref_alert]
    ref_represents
    ltac:(lia) ltac:(vm_compute; reflexivity)) as (rest & Hn & _).
  exists rest. exact Hn.
Defined.
