(* ===== verification/SyslogIn.v ===== *)
(** BMC syslog ingest (src/collector/src/syslog_in.rs): from a received line to
    a firing alert in the collector's state. *)
From S2P Require Import Prelude Text Utf8 Schema CollectorState.
From Stdlib Require Import Ascii.

Local Open Scope Z_scope.

(** src/collector/src/syslog_in.rs:80-89 (the PRI field of parse_to_alert): the
    severity digit and the text after the header. *)
Definition parse_pri (line : string) : Z * string :=
  match strip_prefix "<" line with
  | Some stripped =>
      match split_once ">"%char stripped with
      | Some (digits, rest) =>
          (default 13 (parse_unsigned Int.u8_max digits) mod 8, rest)
      | None => (6, line)
      end
  | None => (6, line)
  end.

(** src/collector/src/syslog_in.rs:90-94 (the severity of parse_to_alert). *)
Definition pri_severity (pri : Z) : Severity :=
  if (0 <=? pri) && (pri <=? 2) then Critical
  else if (3 <=? pri) && (pri <=? 4) then Warning
  else Info.

(** src/collector/src/syslog_in.rs:96-103 (the category of parse_to_alert). *)
Definition syslog_category (body : string) : string :=
  let lower := to_lowercase body in
  if contains "ilo" lower || contains "iml" lower then cat.BMC_EVENTLOG
  else if contains "idrac" lower || contains "dell" lower then cat.BMC_EVENTLOG
  else cat.SYSLOG.

(** src/collector/src/syslog_in.rs:77-122 (parse_to_alert). [now] is the second
    reading of the wall clock.  The [tags] map is dropped by the code. *)
Definition parse_to_alert (st : Stamp) (now : DateTime) (line peer : string) : Alert :=
  let pb := parse_pri line in
  let body := snd pb in
  set_ts now (build_firing st
    (builder_new peer peer (syslog_category body) "syslog_event"
       (pri_severity (fst pb))
     |> with_title "BMC syslog event"
     |> with_message body
     |> raw_kv "peer" (VString peer)
     |> raw_kv "raw" (VString line))).

(** src/collector/src/syslog_in.rs:65-73 (handle_line). *)
Definition handle_line (st : Stamp) (now : DateTime) (bytes peer : string)
    (s : AppState) : AppState :=
  let line := trim (from_utf8_lossy bytes) in
  if is_empty line then s
  else
    let alert := parse_to_alert st now line peer in
    broadcast (EnvAlert alert) (fst (apply_alert alert s)).

(** One reading of the clocks per message. *)
Definition Clock : Type := Stamp * DateTime.

(** src/collector/src/syslog_in.rs:29-35 (the receive loop of spawn_udp); [None]
    is a receive error, which is logged and skipped. *)
Fixpoint udp_loop (evs : list (Clock * option (string * string))) (s : AppState) :
    AppState :=
  match evs with
  | [] => s
  | (_, None) :: evs' => udp_loop evs' s
  | (c, Some (bytes, src)) :: evs' =>
      udp_loop evs' (handle_line (fst c) (snd c) bytes src s)
  end.

(** src/collector/src/syslog_in.rs:52-60 (one connection of spawn_tcp_plain).  An
    entry is what [read_line] appends, [None] its error; an empty line is the end
    of the stream. *)
Fixpoint tcp_loop (evs : list (Clock * option string)) (peer : string)
    (s : AppState) : AppState :=
  match evs with
  | [] | (_, None) :: _ => s
  | (c, Some line) :: evs' =>
      if is_empty line then s
      else tcp_loop evs' peer (handle_line (fst c) (snd c) line peer s)
  end.

(** * The PRI header *)

(** The severity the syslog standard gives a priority value. *)
Lemma parse_pri_show n body :
  Int.is_u8 n -> parse_pri ("<" +:+ show n +:+ ">" +:+ body) = (n mod 8, body).
Proof.
  unfold Int.is_u8, Int.u8_max. intros Hn. unfold parse_pri. simpl.
  change (">" +:+ body) with (String ">"%char body).
  rewrite split_once_app by (apply show_no_sep; [lia|done]).
  by rewrite parse_unsigned_show by done.
Qed.

(** The syslog priority.  For a message with a priority below 256, the alert
    is critical exactly when the priority's severity digit is at most 2 and a
    warning exactly when it is 3 or 4; the message is the text after the header,
    whatever that text is, and the raw line is kept. *)
Theorem syslog_priority_severity (st : Stamp) (now : DateTime) (n : Z)
    (body peer : string) (Hn : Int.is_u8 n) :
  let a := parse_to_alert st now ("<" +:+ show n +:+ ">" +:+ body) peer in
  (al_severity a = Critical <-> n mod 8 <= 2)
  /\ (al_severity a = Warning <-> 3 <= n mod 8 <= 4)
  /\ al_message a = body
  /\ al_raw a !! "raw" = Some (VString ("<" +:+ show n +:+ ">" +:+ body)).
Proof.
  intros a. subst a. unfold parse_to_alert. rewrite parse_pri_show by done.
  pose proof (Z.mod_pos_bound n 8 ltac:(lia)). simpl.
  generalize dependent (n mod 8). intros p Hp. unfold pri_severity.
  split_and!; [| |done|by rewrite lookup_insert_eq].
  - destruct (Z.leb_spec 0 p), (Z.leb_spec p 2); simpl;
      [split; [lia|done]| |lia..].
    destruct (Z.leb_spec 3 p), (Z.leb_spec p 4); simpl; split; done || lia.
  - destruct (Z.leb_spec 0 p), (Z.leb_spec p 2); simpl; [split; done || lia| |lia..].
    destruct (Z.leb_spec 3 p), (Z.leb_spec p 4); simpl; split; done || lia.
Qed.

Lemma syslog_priority_severity_witness :
  al_message (parse_to_alert (mkStamp 0 "01") 0 "<34>su root failed" "10.0.0.9")
  = "su root failed".
Proof.
  refine (proj1 (proj2 (proj2 (syslog_priority_severity (mkStamp 0 "01") 0 34
    "su root failed" "10.0.0.9" _)))).
  unfold Int.is_u8, Int.u8_max. lia.
Defined.

(** Any received line, however malformed, either is blank and changes
    nothing, or stores and broadcasts exactly one firing alert under the
    sender's own fingerprint for its category; no other sender's alerts are
    touched. *)
Theorem syslog_line_effect (st : Stamp) (now : DateTime) (bytes peer : string)
    (s : AppState) :
  let s' := handle_line st now bytes peer s in
  (is_empty (trim (from_utf8_lossy bytes)) = true /\ s' = s)
  \/ exists a,
       al_state a = Firing /\ al_host a = peer /\ al_host_id a = peer
       /\ (al_category a = cat.SYSLOG \/ al_category a = cat.BMC_EVENTLOG)
       /\ al_fingerprint a = format_fingerprint peer (al_category a) None "syslog_event"
       /\ app_firing s' = <[al_fingerprint a := a]> (app_firing s)
       /\ app_fanout s' = app_fanout s ++ [EnvAlert a].
Proof.
  simpl. unfold handle_line. set (line := trim _).
  destruct (is_empty line); [by left|right].
  exists (parse_to_alert st now line peer). simpl.
  split_and!; try done.
  - simpl. unfold syslog_category. cases; auto.
  - exact (apply_alert_firing (parse_to_alert st now line peer) s).
  - exact (apply_broadcast_fanout (parse_to_alert st now line peer) _ s).
Qed.
