(* ===== verification/GuiApi.v ===== *)
(** The GUI's HTTP operations (src/collector/src/http.rs): resolving an alert,
    querying and clearing the history, and editing the configuration file.

    [GuiRouter] routes requests to them; JSON transport belongs to [axum].  The
    configuration file is a cell that a read or a write can fail on. *)
From S2P Require Import Prelude Text Utf8 Schema Codec Channels CollectorState Store.
From S2P Require Import Ingest.
From Stdlib Require Import Ascii.

Local Open Scope Z_scope.

(** The answers the handlers build: a status with a text, or a JSON body. *)
Inductive Response : Type :=
  | RStatus (code : Z) (text : string)
  | RText (text : string)
  | RAlerts (l : list Alert)
  | RDeleted (n : Z)
  | RError.

Section gui.
Context {C : Type -> Type} {D : Type}.
Context `{!Mpsc C} `{!Sqlite D} `{!Codec} `{!Chrono}.

(** src/collector/src/http.rs:32-39 (GuiState).  [gs_config] is the content of
    the file at [config_path], [None] when it cannot be read. *)
Record GuiState : Type := mkGui {
  gs_app : AppState;
  gs_store : D;
  gs_writer : C Alert;
  gs_config : option string
}.

(** src/collector/src/http.rs:82-91 (api_alerts), with clamp(1, 5000). *)
Definition api_alerts (limit : Z) (g : GuiState) : Response :=
  match list_recent (Z.max 1 (Z.min 5000 limit)) (gs_store g) with
  | Some l => RAlerts l
  | None => RError
  end.

(** src/collector/src/http.rs:121-127 (the count update of api_resolve). *)
Definition decrement_count (host_id : string) (s : AppState) : AppState :=
  match app_hosts s !! host_id with
  | Some h =>
      if 0 <? hi_firing_count h
      then set_hosts (<[host_id := set_count (hi_firing_count h - 1) h]> (app_hosts s)) s
      else s
  | None => s
  end.

(** src/collector/src/http.rs:129-148 (the resolved copy of api_resolve). *)
Definition resolved_copy (st : Stamp) (by_ : string) (alert : Alert) : Alert :=
  let now := stamp_utc st in
  {| al_id := stamp_ulid st;
     al_ts := now;
     al_host := al_host alert;
     al_host_id := al_host_id alert;
     al_primary_ip := al_primary_ip alert;
     al_category := al_category alert;
     al_subsystem := al_subsystem alert;
     al_severity := al_severity alert;
     al_state := Resolved;
     al_device := al_device alert;
     al_device_model := al_device_model alert;
     al_metric := al_metric alert;
     al_value := al_value alert;
     al_threshold := al_threshold alert;
     al_title := if starts_with "Resolved:" (al_title alert) then al_title alert
                 else "Resolved: " +:+ al_title alert;
     al_message := "Manually resolved by operator"
       +:+ (if is_empty by_ then "" else " '" +:+ by_ +:+ "'")
       +:+ ". Original alert had " +:+ show (al_occurrences alert)
       +:+ " occurrence(s) since " +:+ to_rfc3339 (al_first_seen alert) +:+ ".";
     al_fingerprint := al_fingerprint alert;
     al_first_seen := al_first_seen alert;
     al_last_seen := now;
     al_occurrences := al_occurrences alert;
     al_raw := <["resolved_via" := VString "gui"]>
       (<["resolved_by" := VString (if is_empty by_ then "operator" else by_)]>
          (al_raw alert));
     al_correlated := al_correlated alert |}.

(** src/collector/src/http.rs:110-157 (api_resolve). *)
Definition api_resolve (st : Stamp) (fp by_ : string) (g : GuiState) :
    GuiState * Response :=
  let s := gs_app g in
  match app_firing s !! fp with
  | None => (g, RStatus 404 "fingerprint not in firing map")
  | Some alert =>
      let s1 := set_firing (delete fp (app_firing s)) s in
      let s2 := decrement_count (al_host_id alert) s1 in
      let resolved := resolved_copy st by_ alert in
      let w := fst (try_send resolved (gs_writer g)) in
      (mkGui (broadcast (EnvAlert resolved) s2) (gs_store g) w (gs_config g),
       RStatus 204 "")
  end.

(** src/collector/src/http.rs:165-176 (api_clear_history). *)
Definition api_clear_history (now_of : string -> DateTime) (now : DateTime)
    (g : GuiState) : GuiState * Response :=
  match clear_all (gs_store g) with
  | Some (d, n) =>
      let snap := snapshot now_of now (gs_app g) in
      (mkGui (broadcast (EnvSnapshot snap) (gs_app g)) d (gs_writer g) (gs_config g),
       RDeleted n)
  | None => (g, RError)
  end.

(** src/collector/src/http.rs:182-190 (api_get_config). *)
Definition api_get_config (g : GuiState) : Response :=
  match gs_config g with Some text => RText text | None => RError end.

(** src/collector/src/http.rs:194-210 (api_post_config).  [write_ok] is whether
    the file can be written. *)
Definition api_post_config (write_ok : bool) (body : string) (g : GuiState) :
    GuiState * Response :=
  if negb (utf8_valid body) then (g, RStatus 400 "Body must be valid UTF-8")
  else if negb (contains_byte "="%char body)
  then (g, RStatus 400 "Does not look like a valid TOML config")
  else if write_ok
  then (mkGui (gs_app g) (gs_store g) (gs_writer g) (Some body), RStatus 204 "")
  else (g, RError).

(** The ingest handler's clones of the same state and queue. *)
Definition gui_ingest (g : GuiState) : IngestState C := mkIngest (gs_app g) (gs_writer g).
Definition with_ingest (i : IngestState C) (g : GuiState) : GuiState :=
  mkGui (ig_app i) (gs_store g) (ig_writer i) (gs_config g).

Context `{!MpscLaws C} `{!SqliteLaws D}.

(** Resolving from the GUI.  An unknown fingerprint answers 404 and changes
    nothing.  A firing one is removed and answers 204; the copy that is queued
    for the history and broadcast has the same fingerprint and is resolved; other
    fingerprints, the history and the configuration are untouched. *)
Theorem gui_resolve_spec (st : Stamp) (fp by_ : string) (g : GuiState) :
  match app_firing (gs_app g) !! fp with
  | None => api_resolve st fp by_ g = (g, RStatus 404 "fingerprint not in firing map")
  | Some a =>
      let g' := fst (api_resolve st fp by_ g) in
      let r := resolved_copy st by_ a in
      snd (api_resolve st fp by_ g) = RStatus 204 ""
      /\ app_firing (gs_app g') = delete fp (app_firing (gs_app g))
      /\ al_state r = Resolved /\ al_fingerprint r = al_fingerprint a
      /\ starts_with "Resolved:" (al_title r) = true
      /\ queued (gs_writer g')
         = (if decide (length (queued (gs_writer g)) < capacity (gs_writer g))%nat
            then queued (gs_writer g) ++ [r] else queued (gs_writer g))
      /\ app_fanout (gs_app g') = app_fanout (gs_app g) ++ [EnvAlert r]
      /\ gs_store g' = gs_store g /\ gs_config g' = gs_config g
  end.
Proof.
  unfold api_resolve. destruct (app_firing (gs_app g) !! fp) as [a|]; [|done].
  assert (Hd : forall s, app_firing (decrement_count (al_host_id a) s) = app_firing s
                         /\ app_fanout (decrement_count (al_host_id a) s) = app_fanout s).
  { intros s. unfold decrement_count. by repeat (case_match; simpl). }
  simpl. split_and!; try done.
  - by rewrite (proj1 (Hd _)).
  - destruct (starts_with "Resolved:" (al_title a)) eqn:E; [exact E|].
    apply (starts_with_app "Resolved:" (" " +:+ al_title a)).
  - apply try_send_queued.
  - by rewrite (proj2 (Hd _)).
Qed.

(** The history query is bounded.  Whatever limit a client asks for, zero,
    negative or huge, an answer carries at most 5000 alerts, and at most the
    limit when that is positive. *)
Theorem api_alerts_bounded (limit : Z) (g : GuiState) (l : list Alert)
    (Hr : api_alerts limit g = RAlerts l) :
  Z.of_nat (length l) <= 5000
  /\ (1 <= limit -> Z.of_nat (length l) <= limit).
Proof.
  unfold api_alerts, list_recent in Hr. set (n := Z.max 1 (Z.min 5000 limit)) in *.
  destruct (select_body_ts_desc n (gs_store g)) as [bodies|] eqn:E; [|done].
  injection Hr as <-. apply select_rows in E as (rs & _ & _ & ->); [|lia].
  pose proof (length_omap_le decode_alert (map r_body (take (Z.to_nat n) rs))) as Hle.
  rewrite length_map, length_take in Hle. lia.
Qed.

(** Saving the configuration.  The file changes only to a body that is valid
    UTF-8 and has an equals sign, and then to exactly that body, which reading it
    back returns; every refusal leaves everything as it was. *)
Theorem post_config_spec (write_ok : bool) (body : string) (g : GuiState) :
  let r := api_post_config write_ok body g in
  if utf8_valid body && contains_byte "="%char body && write_ok
  then snd r = RStatus 204 "" /\ api_get_config (fst r) = RText body
       /\ gs_app (fst r) = gs_app g /\ gs_store (fst r) = gs_store g
  else fst r = g /\ (snd r = RError <-> utf8_valid body && contains_byte "="%char body = true).
Proof.
  unfold api_post_config.
  destruct (utf8_valid body), (contains_byte _ body), write_ok; simpl; by split.
Qed.

End gui.
Arguments GuiState C D : clear implicits.
Arguments mkGui {C D} gs_app gs_store gs_writer gs_config.

#[local] Existing Instance CodecRef.
#[local] Existing Instance ChronoRef.

Lemma api_alerts_bounded_witness :
  let g := mkGui (C := BoundedQueue) (app_new 10)
             (hist_step (D := list Row) [] (HInsert ref_alert)) (mkBounded 4 []) None in
  api_alerts (-7) g = RAlerts [ref_alert] /\ Z.of_nat (length [ref_alert]) <= 5000.
Proof.
  split; [vm_compute; reflexivity|].
  refine (proj1 (api_alerts_bounded (C := BoundedQueue) (-7)
    (mkGui (app_new 10) (hist_step (D := list Row) [] (HInsert ref_alert))
       (mkBounded 4 []) None) [ref_alert] _)).
  vm_compute. reflexivity.
Defined.

Lemma gui_resolve_spec_witness :
  let g := mkGui (C := BoundedQueue) (D := list Row)
             (set_firing {[ al_fingerprint ref_alert := ref_alert ]} (app_new 10)) []
             (mkBounded 4 []) None in
  app_firing (gs_app (fst (api_resolve (mkStamp 9 "02") (al_fingerprint ref_alert) "ops" g)))
  = delete (al_fingerprint ref_alert) {[ al_fingerprint ref_alert := ref_alert ]}.
Proof.
  intros g.
  exact (proj1 (proj2 (gui_resolve_spec (C := BoundedQueue) (D := list Row)
    (mkStamp 9 "02") (al_fingerprint ref_alert) "ops" g))).
Defined.
