(* ===== verification/Counting.v ===== *)
(** The per-host firing counter is exact: over any run of agent messages and GUI
    resolutions it equals the number of alerts of that host in the firing map.

    The map and the counters sit behind two locks and are updated one after the
    other by every handler; the runs here are sequences of whole handlers. *)
From S2P Require Import Prelude Text Schema Codec Channels CollectorState Ingest.
From S2P Require Import Store GuiApi.

Local Open Scope Z_scope.

(** The number of alerts of a host in a firing map. *)
Definition hosted (k : string) (m : gmap string Alert) : nat :=
  size (filter (fun fa : string * Alert => al_host_id fa.2 = k) m).

Lemma hosted_insert_new k fp a m :
  m !! fp = None ->
  hosted k (<[fp := a]> m)
  = ((if decide (al_host_id a = k) then 1 else 0) + hosted k m)%nat.
Proof.
  intros Hm. unfold hosted. rewrite map_filter_insert. simpl. case_decide.
  - rewrite map_size_insert_None; [done|].
    apply map_lookup_filter_None. by left.
  - by rewrite delete_id.
Qed.

Lemma hosted_delete k fp a m :
  m !! fp = Some a ->
  hosted k m
  = ((if decide (al_host_id a = k) then 1 else 0) + hosted k (delete fp m))%nat.
Proof.
  intros Hm. rewrite <- (insert_delete_id m fp a) at 1 by done.
  by rewrite hosted_insert_new by apply lookup_delete_eq.
Qed.

Lemma hosted_replace k fp a a0 m :
  m !! fp = Some a0 -> al_host_id a0 = al_host_id a ->
  hosted k (<[fp := a]> m) = hosted k m.
Proof.
  intros Hm Ha. rewrite (hosted_delete k fp a0 m) by done.
  rewrite <- insert_delete_eq, hosted_insert_new by apply lookup_delete_eq.
  by rewrite Ha.
Qed.

Lemma hosted_size k m : (hosted k m <= size m)%nat.
Proof. apply map_subseteq_size, map_filter_subseteq. Qed.

Lemma hosted_none k m :
  (forall fp a, m !! fp = Some a -> al_host_id a <> k) -> hosted k m = 0%nat.
Proof.
  intros Hm. unfold hosted. apply map_size_empty_iff, map_empty_filter_2.
  intros fp a Ha. simpl. by apply (Hm fp).
Qed.

(** The fingerprint of an agent's alert starts with its host id. *)
Definition owned (a : Alert) : Prop :=
  pipe_free (al_host_id a)
  /\ exists c d m, al_fingerprint a = format_fingerprint (al_host_id a) c d m.

Lemma owned_host a1 a2 :
  owned a1 -> owned a2 -> al_fingerprint a1 = al_fingerprint a2 ->
  al_host_id a1 = al_host_id a2.
Proof.
  intros (Hp1 & c1 & d1 & m1 & H1) (Hp2 & c2 & d2 & m2 & H2) Heq.
  rewrite H1, H2 in Heq. by apply format_fingerprint_host in Heq.
Qed.

Lemma owned_stamp s a : owned a -> owned (stamp_ip s a).
Proof. unfold stamp_ip, owned. by destruct (is_empty _), a. Qed.

(** * The invariant *)

Record counted (n : nat) (s : AppState) : Prop := {
  cnt_size : (size (app_firing s) <= n)%nat;
  cnt_key fp a : app_firing s !! fp = Some a -> al_fingerprint a = fp /\ owned a;
  cnt_host fp a : app_firing s !! fp = Some a -> is_Some (count_of s (al_host_id a));
  cnt_count k c : count_of s k = Some c -> c = Z.of_nat (hosted k (app_firing s))
}.

(** An update that keeps the firing map and every counter, apart from creating
    hosts at zero, keeps the invariant. *)
Lemma counted_frame n s s' :
  counted n s -> app_firing s' = app_firing s ->
  (forall k, count_of s' k = count_of s k
             \/ count_of s k = None /\ count_of s' k = Some 0) ->
  counted n s'.
Proof.
  intros Hs Hf Hc. split; rewrite Hf.
  - apply (cnt_size _ _ Hs).
  - apply (cnt_key _ _ Hs).
  - intros fp a Ha. apply (cnt_host _ _ Hs) in Ha.
    destruct (Hc (al_host_id a)) as [->|[_ ->]]; [done|by eexists].
  - intros k c Hk. destruct (Hc k) as [E|[E1 E2]].
    + apply (cnt_count _ _ Hs). by rewrite <- E.
    + rewrite E2 in Hk. simplify_eq. rewrite hosted_none; [done|].
      intros fp a Ha Hak. apply (cnt_host _ _ Hs) in Ha as [? Ha]. congruence.
Qed.

Lemma counted_touch n h hid ts v s :
  counted n s -> counted n (touch_host h hid ts v s).
Proof.
  intros Hs. eapply counted_frame; [done|done|]. intros k.
  rewrite touch_host_count_of. case_decide; [|by left].
  destruct (count_of s k); [by left|by right].
Qed.

Lemma counted_hello n h s : counted n s -> counted n (register_hello h s).
Proof.
  intros Hs. eapply counted_frame; [done|done|]. intros k.
  rewrite register_hello_count_of. case_decide; [|by left].
  destruct (count_of s k); [by left|by right].
Qed.

Lemma counted_broadcast n e s : counted n s -> counted n (broadcast e s).
Proof. intros Hs. eapply counted_frame; [done|done|]. by left. Qed.

Lemma counted_weaken n n' s : (n <= n')%nat -> counted n s -> counted n' s.
Proof. intros Hn [????]. split; [lia|done..]. Qed.

(** Replacing or adding a binding, with the counter the map then has. *)
Lemma counted_insert n a s s' :
  counted n s -> owned a -> is_Some (count_of s (al_host_id a)) ->
  app_firing s' = <[al_fingerprint a := a]> (app_firing s) ->
  (forall k, is_Some (count_of s k) -> is_Some (count_of s' k)) ->
  (forall k c, count_of s' k = Some c ->
     c = Z.of_nat (hosted k (<[al_fingerprint a := a]> (app_firing s)))) ->
  counted (S n) s'.
Proof.
  intros Hs Ho Hh Hf Hk Hc. split; rewrite Hf.
  - pose proof (cnt_size _ _ Hs). rewrite map_size_insert.
    case_match; simpl; lia.
  - intros fp b [[<- <-]|[_ Hb]]%lookup_insert_Some; [done|by apply (cnt_key _ _ Hs)].
  - intros fp b [[<- <-]|[_ Hb]]%lookup_insert_Some; [by apply Hk|].
    apply Hk. by eapply (cnt_host _ _ Hs).
  - exact Hc.
Qed.

Lemma counted_delete n fp s s' :
  counted n s -> app_firing s' = delete fp (app_firing s) ->
  (forall k, is_Some (count_of s k) -> is_Some (count_of s' k)) ->
  (forall k c, count_of s' k = Some c ->
     c = Z.of_nat (hosted k (delete fp (app_firing s)))) ->
  counted n s'.
Proof.
  intros Hs Hf Hk Hc. split; rewrite Hf.
  - pose proof (cnt_size _ _ Hs). rewrite map_size_delete. case_match; simpl; lia.
  - intros fp' b [_ Hb]%lookup_delete_Some. by apply (cnt_key _ _ Hs).
  - intros fp' b [_ Hb]%lookup_delete_Some. apply Hk. by eapply (cnt_host _ _ Hs).
  - exact Hc.
Qed.

Lemma count_range n s k c :
  counted n s -> Z.of_nat n < Int.i32_max -> count_of s k = Some c ->
  0 <= c < Int.i32_max.
Proof.
  intros Hs Hn Hk. apply (cnt_count _ _ Hs) in Hk. subst c.
  pose proof (hosted_size k (app_firing s)). pose proof (cnt_size _ _ Hs). lia.
Qed.

Lemma bump_some hid d s k :
  is_Some (count_of s k) -> is_Some (count_of (bump_host_count hid d s) k).
Proof.
  intros [c Hc]. rewrite bump_host_count_of, Hc. case_decide; by eexists.
Qed.

Lemma counted_apply n a s :
  counted n s -> Z.of_nat n < Int.i32_max -> owned a ->
  is_Some (count_of s (al_host_id a)) -> counted (S n) (fst (apply_alert a s)).
Proof.
  intros Hs Hn Ho Hh. pose proof (apply_alert_firing a s) as Hf.
  unfold apply_alert in *. destruct (al_state a).
  - case_bool_decide as Hnew; simpl in *.
    + apply (counted_insert n a s); [done|done|done|exact Hf| |].
      { intros k Hk. by apply bump_some. }
      intros k c Hk. rewrite bump_host_count_of in Hk.
      rewrite hosted_insert_new by done. unfold count_of in Hk. simpl in Hk.
      fold (count_of s k) in Hk. destruct (decide (k = al_host_id a)) as [->|Hne].
      * rewrite decide_True by done. destruct (count_of s (al_host_id a)) eqn:Ec; [|done].
        simpl in Hk. simplify_eq. pose proof (count_range _ _ _ _ Hs Hn Ec).
        rewrite bump_count_exact by (unfold Int.is_i32, Int.i32_min in *; lia).
        apply (cnt_count _ _ Hs) in Ec. lia.
      * rewrite decide_False by done. by apply (cnt_count _ _ Hs) in Hk.
    + destruct (app_firing s !! al_fingerprint a) as [a0|] eqn:E; [|done].
      destruct (cnt_key _ _ Hs _ _ E) as [Hk0 Ho0].
      apply (counted_insert n a s); [done|done|done|exact Hf|done|].
      intros k c Hk. rewrite (hosted_replace k _ a a0);
        [by apply (cnt_count _ _ Hs)|done|by apply owned_host].
  - destruct (app_firing s !! al_fingerprint a) as [a0|] eqn:E; simpl in *;
      [|by eapply counted_weaken; [|exact Hs]; lia].
    destruct (cnt_key _ _ Hs _ _ E) as [Hk0 Ho0].
    assert (Hh0 : al_host_id a0 = al_host_id a) by by apply owned_host.
    apply (counted_weaken n); [lia|]. apply (counted_delete n (al_fingerprint a) s); [done|exact Hf| |].
    { intros k Hk. by apply bump_some. }
    intros k c Hk. rewrite bump_host_count_of in Hk.
    unfold count_of in Hk. simpl in Hk. fold (count_of s k) in Hk.
    pose proof (hosted_delete k _ _ _ E) as Hd. rewrite Hh0 in Hd.
    destruct (decide (k = al_host_id a)) as [->|Hne].
    * rewrite decide_True in Hd by done. destruct (count_of s (al_host_id a)) eqn:Ec; [|done].
      simpl in Hk. simplify_eq. pose proof (count_range _ _ _ _ Hs Hn Ec).
      rewrite bump_count_exact by (unfold Int.is_i32, Int.i32_min, Int.i32_max in *; lia).
      apply (cnt_count _ _ Hs) in Ec. lia.
    * rewrite decide_False in Hd by done. apply (cnt_count _ _ Hs) in Hk. lia.
Qed.

Lemma counted_delete_count n fp a s c k :
  counted n s -> app_firing s !! fp = Some a -> count_of s k = Some c ->
  (if decide (k = al_host_id a) then Z.max 0 (c - 1) else c)
  = Z.of_nat (hosted k (delete fp (app_firing s))).
Proof.
  intros Hs Ha Hc. apply (cnt_count _ _ Hs) in Hc.
  pose proof (hosted_delete k fp a _ Ha) as Hd.
  destruct (decide (k = al_host_id a)) as [->|Hne];
    [rewrite decide_True in Hd by done|rewrite decide_False in Hd by done]; lia.
Qed.

Lemma decrement_count_of hid s k :
  count_of (decrement_count hid s) k
  = if decide (k = hid)
    then (fun n => if 0 <? n then n - 1 else n) <$> count_of s k
    else count_of s k.
Proof.
  unfold count_of, decrement_count. destruct (app_hosts s !! hid) as [h|] eqn:E.
  - destruct (0 <? hi_firing_count h) eqn:Hp; simpl; case_decide; subst.
    + by rewrite lookup_insert_eq, E; simpl; rewrite Hp.
    + by rewrite lookup_insert_ne by done.
    + by rewrite E; simpl; rewrite Hp.
    + done.
  - case_decide; subst; [by rewrite E|done].
Qed.

(** * Runs of the collector *)

Section run.
Context {C : Type -> Type} {D : Type}.
Context `{!Mpsc C} `{!Sqlite D} `{!Codec} `{!Chrono}.

(** A message on some agent's connection, or an operator's resolution. *)
Inductive CollectorEvent : Type :=
  | CMsg (e : Envelope)
  | CResolve (st : Stamp) (fp by_ : string).

Definition collector_step (g : GuiState C D) (ev : CollectorEvent) : GuiState C D :=
  match ev with
  | CMsg e => with_ingest (snd (handle_envelope e (None, gui_ingest g))) g
  | CResolve st fp by_ => fst (api_resolve st fp by_ g)
  end.

Definition collector_run (evs : list CollectorEvent) (g : GuiState C D) : GuiState C D :=
  foldl collector_step g evs.

Definition event_owned (ev : CollectorEvent) : Prop :=
  match ev with CMsg (EnvAlert a) => owned a | _ => True end.

Lemma counted_ingest n a (st : IngestState C) :
  counted n (ig_app st) -> Z.of_nat n < Int.i32_max -> owned a ->
  counted (S n) (ig_app (ingest_alert a st)).
Proof.
  intros Hs Hn Ho. unfold ingest_alert.
  destruct (host_in_maintenance _ _); [eapply counted_weaken; [|done]; lia|].
  set (s1 := touch_host _ _ _ _ _).
  assert (Hc : counted (S n) (fst (apply_alert (stamp_ip s1 a) s1))).
  { apply counted_apply; [by apply counted_touch|done|by apply owned_stamp|].
    assert (Hid : al_host_id (stamp_ip s1 a) = al_host_id a)
      by (unfold stamp_ip; by destruct (is_empty _), a).
    rewrite Hid. subst s1. rewrite touch_host_count_of, decide_True by done.
    by eexists. }
  simpl. destruct (snd _); [by apply counted_broadcast|done].
Qed.

Lemma counted_resolve n st fp by_ (g : GuiState C D) :
  counted n (gs_app g) -> counted n (gs_app (fst (api_resolve st fp by_ g))).
Proof.
  intros Hs. unfold api_resolve.
  destruct (app_firing (gs_app g) !! fp) as [a|] eqn:Ha; [|done]. simpl.
  change (counted n (broadcast (EnvAlert (resolved_copy st by_ a))
    (decrement_count (al_host_id a)
       (set_firing (delete fp (app_firing (gs_app g))) (gs_app g))))).
  apply counted_broadcast. set (s1 := set_firing _ _).
  assert (Hf : app_firing (decrement_count (al_host_id a) s1)
               = delete fp (app_firing (gs_app g))).
  { unfold decrement_count. by repeat (case_match; simpl). }
  assert (Hc : forall k, count_of (decrement_count (al_host_id a) s1) k
    = if decide (k = al_host_id a)
      then (fun n => if 0 <? n then n - 1 else n) <$> count_of (gs_app g) k
      else count_of (gs_app g) k) by (intros k; by rewrite decrement_count_of).
  clearbody s1. apply (counted_delete n fp (gs_app g)); [done|done|..].
  - intros k [c Ec]. rewrite Hc, Ec. case_decide; by eexists.
  - intros k c Ec. rewrite Hc in Ec.
    destruct (count_of (gs_app g) k) as [c0|] eqn:E; [|by case_decide].
    rewrite <- (counted_delete_count n fp a (gs_app g) c0 k) by done.
    apply (cnt_count _ _ Hs) in E.
    case_decide; simpl in Ec; injection Ec as <-; [|done].
    destruct (Z.ltb_spec 0 c0); lia.
Qed.

Lemma counted_run evs n g :
  counted n (gs_app g) -> Z.of_nat (n + length evs) < Int.i32_max ->
  Forall event_owned evs ->
  counted (n + length evs) (gs_app (collector_run evs g)).
Proof.
  revert n g. induction evs as [|ev evs IH]; intros n g Hs Hn Hev; simpl in *.
  { by rewrite Nat.add_0_r. }
  apply Forall_cons in Hev as [Hev Hevs].
  replace (n + S (length evs))%nat with (S n + length evs)%nat by lia.
  apply IH; [|lia|done].
  destruct ev as [e|st fp by_].
  - destruct e; simpl.
    + apply counted_ingest; [done|lia|done].
    + by apply (counted_weaken n), counted_broadcast, counted_touch; [lia|].
    + by apply (counted_weaken n), counted_broadcast, counted_hello; [lia|].
    + by apply (counted_weaken n); [lia|].
    + by apply (counted_weaken n); [lia|].
  - apply (counted_weaken n); [lia|]. by apply counted_resolve.
Qed.

(** C17: the host counters are exact.  Over any run of fewer than [i32::MAX] hellos,
    heartbeats, alerts and GUI resolutions from an empty collector, in which every
    alert carries a fingerprint of its own host, each known host's [firing_count] is
    the number of alerts of that host in the firing map. *)
Theorem firing_count_exact (evs : list CollectorEvent) (g : GuiState C D) (after_s : Z)
    (Hnew : gs_app g = app_new after_s)
    (Hlen : Z.of_nat (length evs) < Int.i32_max)
    (Hown : Forall event_owned evs) :
  let s := gs_app (collector_run evs g) in
  forall k h, app_hosts s !! k = Some h ->
    hi_firing_count h = Z.of_nat (hosted k (app_firing s)).
Proof.
  intros s k h Hh.
  assert (Hs : counted (length evs) s).
  { apply (counted_run evs 0 g); [|done|done]. rewrite Hnew. split; simpl.
    - by rewrite map_size_empty.
    - intros ?? Hx. by rewrite lookup_empty in Hx.
    - intros ?? Hx. by rewrite lookup_empty in Hx.
    - intros ?? Hx. unfold count_of in Hx. simpl in Hx. by rewrite lookup_empty in Hx. }
  apply (cnt_count _ _ Hs). unfold count_of. by rewrite Hh.
Qed.

End run.

(** * The witness *)

#[local] Existing Instance CodecRef.
#[local] Existing Instance ChronoRef.

Lemma ref_owned : owned ref_alert.
Proof. split; [done|]. by exists cat.OS_HANG, None, "kernel_bug". Qed.

Lemma firing_count_exact_witness :
  let g := mkGui (C := BoundedQueue) (D := list Row) (app_new 10) [] (mkBounded 4 []) None in
  let s := gs_app (collector_run [CMsg (EnvAlert ref_alert); CMsg (EnvAlert ref_alert)] g) in
  hi_firing_count <$> app_hosts s !! "hid" = Some 1.
Proof.
  intros g s. destruct (app_hosts s !! "hid") as [h|] eqn:Hh;
    [|vm_compute in Hh; discriminate Hh].
  simpl. f_equal. transitivity (Z.of_nat (hosted "hid" (app_firing s))).
  - refine (firing_count_exact (C := BoundedQueue) (D := list Row)
      [CMsg (EnvAlert ref_alert); CMsg (EnvAlert ref_alert)] g 10 eq_refl _ _ "hid" h Hh).
    + simpl. unfold Int.i32_max. lia.
    + repeat constructor; apply ref_owned.
  - clear Hh. vm_compute. reflexivity.
Defined.
