(* ===== verification/Watcher.v ===== *)
(** The offline watcher (src/collector/src/main.rs, [spawn_offline_watcher]): on
    each tick it compares every host's last message with the threshold, reports
    changes, and raises or clears a synthetic [host_offline] alert. *)
From S2P Require Import Prelude Text Schema CollectorState.

Local Open Scope Z_scope.

Section watcher.
Context `{Chrono}.

(** The watcher's memory of each host's last reported status, and the state. *)
Definition Watch : Type := gmap string bool * AppState.

(** src/collector/src/main.rs:144-154 (the builder of the host_offline alert). *)
Definition offline_builder (after_s : Z) (h : HostInfo) : AlertBuilder :=
  builder_new (hi_host h) (hi_host_id h) cat.COLLECTOR "host_offline" Critical
  |> with_title "Host went offline"
  |> with_message ("No heartbeat from " +:+ hi_host h +:+ " for over " +:+ show after_s
       +:+ "s. Either the agent stopped, the network is gone, or the host crashed.").

(** src/collector/src/main.rs:143-157 (the branch of a host that went offline). *)
Definition raise_offline (after_s : Z) (now : DateTime) (st : Stamp) (h : HostInfo)
    (s : AppState) : AppState :=
  let a := set_ts now (build_firing st (offline_builder after_s h)) in
  broadcast (EnvAlert a) (fst (apply_alert a s)).

(** src/collector/src/main.rs:160-160 (the fingerprint of the host_offline alert). *)
Definition offline_fp (host_id : string) : string :=
  host_id +:+ "|" +:+ cat.COLLECTOR +:+ "|-|host_offline".

(** src/collector/src/main.rs:159-168 (the branch of a host that came back). *)
Definition clear_offline (now : DateTime) (h : HostInfo) (s : AppState) : AppState :=
  let fp := offline_fp (hi_host_id h) in
  match app_firing s !! fp with
  | Some a =>
      let a' := set_ts now (set_title ("Resolved: " +:+ al_title a) (set_state Resolved a)) in
      broadcast (EnvAlert a') (set_firing (delete fp (app_firing s)) s)
  | None => s
  end.

(** src/collector/src/main.rs:134-140 (the HostStatus of a change). *)
Definition change_status (online : bool) (h : HostInfo) : HostStatus :=
  mkHostStatus (hi_host h) (hi_host_id h) online (hi_last_seen h) (hi_firing_count h).

(** src/collector/src/main.rs:130-171 (the body of the loop over the hosts). *)
Definition watch_host (after_s : Z) (now : DateTime) (st : Stamp) (h : HostInfo)
    (w : Watch) : Watch :=
  let online := is_online now (hi_last_seen h) after_s in
  let prev := fst w !! hi_host_id h in
  let seen := <[hi_host_id h := online]> (fst w) in
  if decide (Some online = prev) then (seen, snd w)
  else
    let s1 := broadcast (EnvHostStatus (change_status online h)) (snd w) in
    (seen, if online then clear_offline now h s1 else raise_offline after_s now st h s1).

(** src/collector/src/main.rs:127-171 (one tick of spawn_offline_watcher).  The
    hosts are cloned before the loop; [stamp_of] is the clock and ULID reading
    made for a host. *)
Definition watch_tick (after_s : Z) (now : DateTime) (stamp_of : string -> Stamp)
    (w : Watch) : Watch :=
  let hosts := map snd (map_to_list (app_hosts (snd w))) in
  foldl (fun w h => watch_host after_s now (stamp_of (hi_host_id h)) h w) w hosts.

Lemma offline_fp_builder after_s h :
  fingerprint (offline_builder after_s h) = offline_fp (hi_host_id h).
Proof. done. Qed.

Lemma set_ts_fp x a : al_fingerprint (set_ts x a) = al_fingerprint a.
Proof. by destruct a. Qed.
Lemma set_ts_host_id x a : al_host_id (set_ts x a) = al_host_id a.
Proof. by destruct a. Qed.

(** The watcher reports changes only.  A host whose status is the one last
    reported leaves the state exactly as it was.  A host found offline for the
    first time gets one status and one critical [host_offline] alert, stored in
    the firing map; a host back online gets one status, and its [host_offline]
    alert, if it is firing, is removed and broadcast as resolved. *)
Theorem watcher_reports_changes (after_s : Z) (now : DateTime) (st : Stamp)
    (h : HostInfo) (seen : gmap string bool) (s : AppState) :
  let online := is_online now (hi_last_seen h) after_s in
  let w' := watch_host after_s now st h (seen, s) in
  let status := EnvHostStatus (change_status online h) in
  fst w' = <[hi_host_id h := online]> seen
  /\ (seen !! hi_host_id h = Some online -> snd w' = s)
  /\ (seen !! hi_host_id h <> Some online -> online = false ->
      exists a, al_fingerprint a = offline_fp (hi_host_id h) /\ al_severity a = Critical
        /\ al_state a = Firing
        /\ app_firing (snd w') = <[offline_fp (hi_host_id h) := a]> (app_firing s)
        /\ app_fanout (snd w') = app_fanout s ++ [status; EnvAlert a])
  /\ (seen !! hi_host_id h <> Some online -> online = true ->
      app_firing (snd w') = delete (offline_fp (hi_host_id h)) (app_firing s)
      /\ app_fanout (snd w') = app_fanout s ++ status ::
           match app_firing s !! offline_fp (hi_host_id h) with
           | Some a => [EnvAlert (set_ts now (set_title ("Resolved: " +:+ al_title a)
                                                (set_state Resolved a)))]
           | None => []
           end).
Proof.
  simpl. unfold watch_host. simpl. set (online := is_online _ _ _).
  split_and!.
  - by case_decide.
  - intros Hsame. by rewrite decide_True.
  - intros Hne Hoff. rewrite decide_False by done. rewrite Hoff. simpl.
    exists (set_ts now (build_firing st (offline_builder after_s h))).
    split_and!; try done; unfold raise_offline; set (a := set_ts _ _).
    + exact (apply_alert_firing a (broadcast _ s)).
    + etrans; [exact (apply_broadcast_fanout a _ (broadcast _ s))|].
      simpl. by rewrite <- app_assoc.
  - intros Hne Hon. rewrite decide_False by done. rewrite Hon. simpl.
    unfold clear_offline. simpl.
    destruct (app_firing s !! offline_fp (hi_host_id h)) eqn:E; simpl.
    + by rewrite <- app_assoc.
    + by rewrite delete_id.
Qed.

Lemma apply_fresh_count a s :
  al_state a = Firing -> app_firing s !! al_fingerprint a = None ->
  count_of (fst (apply_alert a s)) (al_host_id a)
  = (fun n => bump_count n 1) <$> count_of s (al_host_id a).
Proof.
  intros Hs Hf. unfold apply_alert. rewrite Hs, bool_decide_true by done. simpl.
  by rewrite bump_host_count_of, decide_True.
Qed.

Lemma clear_offline_firing now h s :
  app_firing (clear_offline now h s) = delete (offline_fp (hi_host_id h)) (app_firing s).
Proof.
  unfold clear_offline. destruct (app_firing s !! _) eqn:E; [done|by rewrite delete_id].
Qed.

Lemma clear_offline_count now h s k : count_of (clear_offline now h s) k = count_of s k.
Proof. unfold clear_offline. by destruct (app_firing s !! _). Qed.

(** C40: an outage leaks one count.  When a known host with no [host_offline]
    alert goes offline and comes back, the firing map is again what it was, but
    the host's [firing_count] is one higher than before the outage. *)
Theorem watcher_count_leak (after_s : Z) (now1 now2 : DateTime) (st : Stamp)
    (h h2 : HostInfo) (seen : gmap string bool) (s : AppState)
    (Hknown : app_hosts s !! hi_host_id h = Some h)
    (Hcount : 0 <= hi_firing_count h < Int.i32_max)
    (Hclean : app_firing s !! offline_fp (hi_host_id h) = None)
    (Hseen : seen !! hi_host_id h = Some true)
    (Hoff : is_online now1 (hi_last_seen h) after_s = false)
    (Hid : hi_host_id h2 = hi_host_id h)
    (Hon : is_online now2 (hi_last_seen h2) after_s = true) :
  let w' := watch_host after_s now2 st h2 (watch_host after_s now1 st h (seen, s)) in
  app_firing (snd w') = app_firing s
  /\ count_of (snd w') (hi_host_id h) = Some (hi_firing_count h + 1).
Proof.
  set (s1 := broadcast (EnvHostStatus (change_status false h)) s).
  set (a := set_ts now1 (build_firing st (offline_builder after_s h))).
  assert (Hw1 : watch_host after_s now1 st h (seen, s)
                = (<[hi_host_id h := false]> seen, raise_offline after_s now1 st h s1)).
  { unfold watch_host. simpl. by rewrite Hoff, Hseen, decide_False by done. }
  rewrite Hw1. unfold watch_host.
  rewrite Hid, Hon. cbn [fst snd]. rewrite lookup_insert_eq, decide_False by done.
  cbn [snd]. rewrite clear_offline_firing, clear_offline_count, Hid. split.
  - transitivity (delete (offline_fp (hi_host_id h))
      (app_firing (fst (apply_alert a s1)))); [done|].
    rewrite apply_alert_firing. by apply delete_insert_id.
  - transitivity (count_of (fst (apply_alert a s1)) (al_host_id a)); [done|].
    rewrite apply_fresh_count by done.
    unfold count_of. change (al_host_id a) with (hi_host_id h).
    change (app_hosts s1) with (app_hosts s). rewrite Hknown. simpl. f_equal.
    rewrite bump_count_exact by (unfold Int.is_i32, Int.i32_min in *; lia). lia.
Qed.

End watcher.

#[local] Existing Instance ChronoRef.

Definition ref_host (last_seen : DateTime) : HostInfo :=
  mkHostInfo "h" "hid" "10.0.0.1" last_seen ∅ VendorInfo_default 0 "4.3.0" false.

Lemma watcher_count_leak_witness :
  let s := set_hosts {[ "hid" := ref_host 0 ]} (app_new 10) in
  let st := mkStamp 7 "01" in
  let w' := watch_host 10 (from_secs 30) st (ref_host (from_secs 29))
              (watch_host 10 (from_secs 20) st (ref_host 0) ({[ "hid" := true ]}, s)) in
  app_firing (snd w') = ∅ /\ count_of (snd w') "hid" = Some 1.
Proof.
  refine (watcher_count_leak 10 (from_secs 20) (from_secs 30) (mkStamp 7 "01")
    (ref_host 0) (ref_host (from_secs 29)) {[ "hid" := true ]}
    (set_hosts {[ "hid" := ref_host 0 ]} (app_new 10)) _ _ _ _ _ _ _);
    try reflexivity.
  unfold Int.i32_max. simpl. lia.
Defined.
