(* ===== verification/Liveness.v ===== *)
(** Whose clock decides that a host is online: the ingest of heartbeats
    (src/collector/src/ws_ingest.rs) together with the online test of the state
    and of the watcher (src/collector/src/state.rs, src/collector/src/main.rs).

    The collector keeps as [last_seen] the time written in the message, read on
    the agent's clock, and compares it with its own. *)
From S2P Require Import Prelude Text Schema Codec Channels CollectorState Ingest.
From S2P Require Import Watcher.

Local Open Scope Z_scope.

Section liveness.
Context {C : Type -> Type} `{!Mpsc C} `{!Codec}.

(** The host a message refreshes: a hello refreshes none. *)
Definition refreshes (e : Envelope) : option string :=
  match e with
  | EnvAlert a => Some (al_host_id a)
  | EnvHeartbeat hb => Some (hb_host_id hb)
  | _ => None
  end.

Definition handle_all (es : list Envelope) (c : Conn) : Conn :=
  foldl (fun c e => handle_envelope (C := C) e c) c es.

(** The [last_seen] of a host. *)
Definition seen_at (hid : string) (s : AppState) : option DateTime :=
  hi_last_seen <$> app_hosts s !! hid.

Lemma bump_seen_at hid k d s : seen_at hid (bump_host_count k d s) = seen_at hid s.
Proof.
  unfold seen_at, bump_host_count. destruct (app_hosts s !! k) eqn:E; [|done]. simpl.
  destruct (decide (k = hid)) as [->|Hne].
  - by rewrite lookup_insert_eq, E.
  - by rewrite lookup_insert_ne.
Qed.

Lemma apply_alert_seen_at hid a s : seen_at hid (fst (apply_alert a s)) = seen_at hid s.
Proof.
  unfold apply_alert. destruct (al_state a).
  - simpl. case_match; [by rewrite bump_seen_at|done].
  - destruct (app_firing s !! al_fingerprint a); simpl; [by rewrite bump_seen_at|done].
Qed.

Lemma touch_seen_at hid host k ts v s :
  seen_at hid (touch_host host k ts v s) = if decide (k = hid) then Some ts else seen_at hid s.
Proof.
  unfold seen_at, touch_host. simpl. case_decide.
  - subst. by rewrite lookup_insert_eq.
  - by rewrite lookup_insert_ne.
Qed.

Lemma hello_seen_at hid h s :
  is_Some (seen_at hid s) -> seen_at hid (register_hello h s) = seen_at hid s.
Proof.
  unfold seen_at, register_hello. simpl. intros [t Ht].
  destruct (decide (hello_host_id h = hid)) as [<-|Hne].
  - rewrite lookup_insert_eq. destruct (app_hosts s !! hello_host_id h); done.
  - by rewrite lookup_insert_ne.
Qed.

(** A message that does not refresh a known host leaves its [last_seen]. *)
Lemma handle_seen_at hid (e : Envelope) (c : Conn) :
  refreshes e <> Some hid -> is_Some (seen_at hid (ig_app (snd c))) ->
  seen_at hid (ig_app (snd (handle_envelope e c))) = seen_at hid (ig_app (snd c)).
Proof.
  destruct c as [cur st]. destruct e; simpl; intros Hr Hs; try done.
  - unfold ingest_alert. destruct (host_in_maintenance _ _); [done|].
    cbv zeta. cbn [ig_app].
    transitivity (seen_at hid (fst (apply_alert
      (stamp_ip (touch_host (al_host a) (al_host_id a) (al_ts a) "" (ig_app st)) a)
      (touch_host (al_host a) (al_host_id a) (al_ts a) "" (ig_app st))))).
    { by destruct (snd _). }
    rewrite apply_alert_seen_at, touch_seen_at, decide_False; [done|congruence].
  - change (seen_at hid (touch_host (hb_host h) (hb_host_id h) (hb_ts h)
      (hb_agent_version h) (ig_app st)) = seen_at hid (ig_app st)).
    rewrite touch_seen_at, decide_False; [done|congruence].
  - change (seen_at hid (register_hello h (ig_app st)) = seen_at hid (ig_app st)).
    by apply hello_seen_at.
Qed.

Lemma heartbeat_seen_at hb (c : Conn) :
  seen_at (hb_host_id hb) (ig_app (snd (handle_envelope (EnvHeartbeat hb) c))) = Some (hb_ts hb).
Proof.
  destruct c as [cur st].
  change (seen_at (hb_host_id hb) (touch_host (hb_host hb) (hb_host_id hb) (hb_ts hb)
    (hb_agent_version hb) (ig_app st)) = Some (hb_ts hb)).
  by rewrite touch_seen_at, decide_True.
Qed.

Lemma handle_all_seen_at hid es (c : Conn) :
  Forall (fun e => refreshes e <> Some hid) es -> is_Some (seen_at hid (ig_app (snd c))) ->
  seen_at hid (ig_app (snd (handle_all es c))) = seen_at hid (ig_app (snd c)).
Proof.
  intros Hes. revert c. induction Hes as [|e es He Hes IH]; intros c Hc; [done|].
  simpl. rewrite IH by (by rewrite handle_seen_at). by apply handle_seen_at.
Qed.

Context `{ChronoLaws}.

(** C28: the agent's clock decides.  Let a heartbeat that arrives at [received] be
    stamped [skew] earlier by the agent's clock, and let any messages follow that
    are not heartbeats or alerts of that host, its hellos included.  Then the
    collector holds the host online at [now] exactly while [now - received] is
    below the threshold less the skew.  So an agent whose clock is at least the
    threshold behind is offline the moment its heartbeat arrives, and one whose
    clock is ahead stays online that much longer after it dies. *)
Theorem liveness_by_agent_clock (c : Conn) (hb : Heartbeat) (es : list Envelope)
    (received now skew : Z) (after_s : Z) (h : HostInfo)
    (Hafter : 0 <= after_s < 2 ^ 63)
    (Hstamp : hb_ts hb = received - skew)
    (Hes : Forall (fun e => refreshes e <> Some (hb_host_id hb)) es)
    (Hhost : app_hosts (ig_app (snd (handle_all (EnvHeartbeat hb :: es) c)))
               !! hb_host_id hb = Some h) :
  (is_online now (hi_last_seen h) after_s = true
   <-> now - received < (after_s + 1) * nanos_per_sec - skew)
  /\ ((after_s + 1) * nanos_per_sec <= skew -> received <= now ->
      forall st seen s, seen !! hi_host_id h <> Some false ->
        exists a, al_severity a = Critical /\ al_metric a = "host_offline"
          /\ app_firing (snd (watch_host after_s now st h (seen, s)))
             = <[offline_fp (hi_host_id h) := a]> (app_firing s)).
Proof.
  assert (Hseen : hi_last_seen h = received - skew).
  { enough (Some (hi_last_seen h) = Some (received - skew)) by congruence.
    transitivity (seen_at (hb_host_id hb)
      (ig_app (snd (handle_all (EnvHeartbeat hb :: es) c)))).
    { unfold seen_at. by rewrite Hhost. }
    simpl. rewrite handle_all_seen_at by (done || by rewrite heartbeat_seen_at).
    by rewrite heartbeat_seen_at, Hstamp. }
  assert (Honline : is_online now (hi_last_seen h) after_s = true
    <-> now - received < (after_s + 1) * nanos_per_sec - skew).
  { rewrite online_iff_recent by done. rewrite Hseen. lia. }
  split; [done|]. intros Hskew Hnow st seen s Hs.
  assert (Hoff : is_online now (hi_last_seen h) after_s = false).
  { apply not_true_is_false. rewrite Honline. lia. }
  unfold watch_host. cbn [fst snd]. rewrite Hoff, decide_False by congruence. cbn [snd].
  exists (set_ts now (build_firing st (offline_builder after_s h))).
  split_and!; [done|done|].
  exact (apply_alert_firing (set_ts now (build_firing st (offline_builder after_s h)))
    (broadcast _ s)).
Qed.

End liveness.

#[local] Existing Instance ChronoRef.
#[local] Existing Instance ChronoRef_laws.

(** A heartbeat that arrives at 100 s from an agent whose clock is a minute slow:
    the collector's own test, at the same instant, says offline. *)
Definition slow_beat : Heartbeat := mkHeartbeat "h" "hid" (from_secs 40) 0 0 "4.3.0".

Lemma liveness_by_agent_clock_witness :
  let c0 : Conn := (None, mkIngest (app_new 10) (mkBounded 8 [])) in
  exists h, app_hosts (ig_app (snd (handle_envelope (EnvHeartbeat slow_beat) c0))) !! "hid" = Some h
    /\ is_online (from_secs 100) (hi_last_seen h) 10 = false.
Proof.
  intros c0. eexists. split; [reflexivity|]. apply not_true_is_false. intros Hon.
  pose proof (proj1 (liveness_by_agent_clock c0 slow_beat [] (from_secs 100)
    (from_secs 100) (from_secs 60) 10 _ ltac:(lia) eq_refl ltac:(constructor) eq_refl)) as Hiff.
  apply Hiff in Hon. vm_compute in Hon. discriminate Hon.
Defined.
