(* ===== verification/Subscribe.v ===== *)
(** The GUI's live feed (src/collector/src/ws_subscribe.rs): a snapshot, then
    every broadcast from the moment of subscription. *)
From S2P Require Import Prelude Text Schema Codec Channels CollectorState.

Local Open Scope Z_scope.

(** What the select loop yields: something from the feed, with the outcome of the
    send it may lead to, or something from the client. *)
Inductive SubEvent : Type :=
  | SubFeed (r : BRecv Envelope) (sent : bool)
  | SubClose
  | SubOther
  | SubError.

Section subscribe.
Context `{!Codec} `{Chrono}.

(** src/collector/src/ws_subscribe.rs:32-60 (the loop of handle_socket): what it
    sends, in order; a value that does not serialise is skipped, a failed send, a
    lag or a close ends it. *)
Fixpoint feed_loop (evs : list SubEvent) : list string :=
  match evs with
  | [] => []
  | SubFeed (BOk env) sent :: evs' =>
      match encode env with
      | Some s => if sent then s :: feed_loop evs' else []
      | None => feed_loop evs'
      end
  | SubFeed (BLagged _) _ :: _ | SubFeed BClosed _ :: _ => []
  | SubClose :: _ | SubError :: _ => []
  | SubOther :: evs' => feed_loop evs'
  end.

(** src/collector/src/ws_subscribe.rs:22-61 (handle_socket), from the state the
    snapshot is taken of; the feed starts at the later subscription. *)
Definition gui_socket (now_of : string -> DateTime) (now : DateTime) (s : AppState)
    (sent : bool) (evs : list SubEvent) : list string :=
  match encode (EnvSnapshot (snapshot now_of now s)) with
  | Some initial => if sent then initial :: feed_loop evs else []
  | None => []
  end.

(** A client that keeps up is sent exactly the broadcasts since it subscribed. *)
Lemma gui_socket_sends now_of now s initial envs texts :
  encode (EnvSnapshot (snapshot now_of now s)) = Some initial ->
  Forall2 (fun e t => encode e = Some t) envs texts ->
  gui_socket now_of now s true (map (fun e => SubFeed (BOk e) true) envs) = initial :: texts.
Proof.
  intros Hi Hf. unfold gui_socket. rewrite Hi. f_equal.
  induction Hf as [|e t envs texts He Hf IH]; simpl; [done|]. by rewrite He, IH.
Qed.

End subscribe.
