(* ===== verification/CollectorSystem.v ===== *)
(** The collector as one transition system: the ingest connections
    (src/collector/src/ws_ingest.rs), the syslog listeners
    (src/collector/src/syslog_in.rs), the GUI's requests
    (src/collector/src/http.rs), the offline watcher
    (src/collector/src/main.rs), the history writer and its retention
    (src/collector/src/store.rs), in any order, on the state they share.

    A step here is one whole handler call: the system as it behaves when no two
    handlers overlap.  In the program a handler releases its locks between its
    sections, most of them before they broadcast; [Sections] interleaves the
    sections, shows that these steps are its uninterrupted runs, and has the theorem
    on the feed.  The invariant of this file says what the shared state always looks
    like. *)
From S2P Require Import Prelude Text Utf8 Schema Codec Channels CollectorState.
From S2P Require Import Ingest Store SyslogIn GuiApi Watcher.

Local Open Scope Z_scope.

(** * What the shared state always looks like *)

(** A firing alert is stored under its own fingerprint; a host under its own id,
    with a counter that fits its [u32]. *)
Record app_wf (s : AppState) : Prop := {
  wf_firing fp a : app_firing s !! fp = Some a -> al_fingerprint a = fp /\ al_state a = Firing;
  wf_hosts k h : app_hosts s !! k = Some h -> hi_host_id h = k /\ Int.is_u32 (hi_firing_count h)
}.

(** What a client that mirrors the firing alerts does with an envelope. *)
Definition feed_apply (m : gmap string Alert) (e : Envelope) : gmap string Alert :=
  match e with
  | EnvAlert a =>
      match al_state a with
      | Firing => <[al_fingerprint a := a]> m
      | Resolved => delete (al_fingerprint a) m
      end
  | EnvSnapshot sn => list_to_map (map (fun a => (al_fingerprint a, a)) (sn_alerts sn))
  | _ => m
  end.

Definition replay (m : gmap string Alert) (feed : list Envelope) : gmap string Alert :=
  foldl feed_apply m feed.

(** A change of the state that keeps it well formed, loses no host, and broadcasts
    what it does to the firing map. *)
Record feeds (s s' : AppState) : Prop := {
  feeds_wf : app_wf s -> app_wf s';
  feeds_hosts k : is_Some (app_hosts s !! k) -> is_Some (app_hosts s' !! k);
  feeds_replay : app_wf s ->
    exists feed, app_fanout s' = app_fanout s ++ feed
                 /\ replay (app_firing s) feed = app_firing s'
}.

#[export] Instance feeds_refl : Reflexive feeds.
Proof. intros s. split; [done|done|]. intros _. exists []. by rewrite app_nil_r. Qed.

#[export] Instance feeds_trans : Transitive feeds.
Proof.
  intros s1 s2 s3 H12 H23. split.
  - intros Hwf. by apply H23, H12.
  - intros k Hk. by apply H23, H12.
  - intros Hwf. destruct (feeds_replay _ _ H12 Hwf) as (f1 & Hf1 & Hr1).
    destruct (feeds_replay _ _ H23 (feeds_wf _ _ H12 Hwf)) as (f2 & Hf2 & Hr2).
    exists (f1 ++ f2). unfold replay in *.
    by rewrite Hf2, Hf1, <- app_assoc, foldl_app, Hr1.
Qed.

Lemma feeds_foldl {A} (f : AppState -> A -> AppState) l s :
  (forall s x, feeds s (f s x)) -> feeds s (foldl f s l).
Proof.
  intros Hf. revert s. induction l as [|x l IH]; intros s; simpl; [done|].
  by transitivity (f s x).
Qed.

(** A change of the hosts alone. *)
Lemma feeds_set_hosts m s :
  (forall k, is_Some (app_hosts s !! k) -> is_Some (m !! k)) ->
  (app_wf s -> forall k h, m !! k = Some h -> hi_host_id h = k /\ Int.is_u32 (hi_firing_count h)) ->
  feeds s (set_hosts m s).
Proof.
  intros Hk Hm. split.
  - intros Hwf. split; [apply Hwf|by apply Hm].
  - exact Hk.
  - intros _. exists []. by rewrite app_nil_r.
Qed.

Lemma feeds_insert_host k h s :
  (app_wf s -> hi_host_id h = k /\ Int.is_u32 (hi_firing_count h)) ->
  feeds s (set_hosts (<[k := h]> (app_hosts s)) s).
Proof.
  intros Hh. apply feeds_set_hosts.
  - intros k' [h' Hk']. destruct (decide (k = k')) as [->|];
      [rewrite lookup_insert_eq|rewrite lookup_insert_ne by done]; by eexists.
  - intros Hwf k' h' [[<- <-]|[_ Hl]]%lookup_insert_Some; [by apply Hh|by apply Hwf].
Qed.

Definition is_alert_env (e : Envelope) : bool :=
  match e with EnvAlert _ | EnvSnapshot _ => true | _ => false end.

(** A broadcast that says nothing of the alerts. *)
Lemma feeds_broadcast e s : is_alert_env e = false -> feeds s (broadcast e s).
Proof.
  intros He. split.
  - intros Hwf. split; apply Hwf.
  - done.
  - intros _. exists [e]. split; [done|]. by destruct e.
Qed.

Lemma u32_0 : Int.is_u32 0.
Proof. unfold Int.is_u32, Int.u32_max. lia. Qed.
#[local] Hint Resolve u32_0 : core.

Lemma feeds_touch h hid ts v s : feeds s (touch_host h hid ts v s).
Proof.
  apply feeds_insert_host. intros Hwf. simpl.
  destruct (app_hosts s !! hid) as [h0|] eqn:E; simpl; [|done].
  by apply (wf_hosts _ Hwf).
Qed.

Lemma feeds_hello h s : feeds s (register_hello h s).
Proof.
  apply feeds_insert_host. intros Hwf. simpl.
  destruct (app_hosts s !! hello_host_id h) as [h0|] eqn:E; simpl; [|done].
  by apply (wf_hosts _ Hwf).
Qed.

(** The counters of the hosts leave the rest alone. *)
Lemma bump_host_wf hid d s : app_wf s -> app_wf (bump_host_count hid d s).
Proof.
  intros Hwf. unfold bump_host_count. destruct (app_hosts s !! hid) as [h|] eqn:E; [|done].
  split; [apply Hwf|]. simpl. intros k h' [[<- <-]|[_ Hl]]%lookup_insert_Some; [|by apply Hwf].
  split; [exact (proj1 (wf_hosts _ Hwf _ _ E))|apply Int.as_u32_range].
Qed.

Lemma bump_host_hosts hid d s k :
  is_Some (app_hosts s !! k) -> is_Some (app_hosts (bump_host_count hid d s) !! k).
Proof.
  unfold bump_host_count. destruct (app_hosts s !! hid) as [h|] eqn:E; [|done]. simpl.
  intros [x Hx]. destruct (decide (hid = k)) as [->|];
    [rewrite lookup_insert_eq|rewrite lookup_insert_ne by done]; by eexists.
Qed.

Lemma apply_alert_wf a s : app_wf s -> app_wf (fst (apply_alert a s)).
Proof.
  intros Hwf. unfold apply_alert. destruct (al_state a) eqn:Ea.
  - assert (Hi : app_wf (set_firing (<[al_fingerprint a := a]> (app_firing s)) s)).
    { split; [|apply Hwf]. simpl.
      intros fp a' [[<- <-]|[_ Hl]]%lookup_insert_Some; [done|by apply Hwf]. }
    destruct (bool_decide _); simpl; [by apply bump_host_wf|done].
  - destruct (app_firing s !! al_fingerprint a); simpl; [|done].
    apply bump_host_wf. split; [|apply Hwf]. simpl.
    intros fp a' [_ Hl]%lookup_delete_Some. by apply Hwf.
Qed.

Lemma apply_alert_keeps_hosts a s k :
  is_Some (app_hosts s !! k) -> is_Some (app_hosts (fst (apply_alert a s)) !! k).
Proof.
  intros Hk. unfold apply_alert. destruct (al_state a); cases; by apply bump_host_hosts.
Qed.

(** Applying an alert and broadcasting it, as every path does. *)
Lemma feeds_apply_broadcast a s : feeds s (broadcast (EnvAlert a) (fst (apply_alert a s))).
Proof.
  split.
  - intros Hwf. destruct (apply_alert_wf a s Hwf) as [H1 H2]. by split.
  - intros k. apply apply_alert_keeps_hosts.
  - intros _. exists [EnvAlert a]. split; [apply apply_broadcast_fanout|].
    simpl. symmetry. apply apply_alert_firing.
Qed.

(** A resolution nobody was waiting for changes nothing and is not broadcast. *)
Lemma feeds_apply_unchanged a s :
  snd (apply_alert a s) = false -> feeds s (fst (apply_alert a s)).
Proof.
  unfold apply_alert. destruct (al_state a); [done|].
  by destruct (app_firing s !! al_fingerprint a).
Qed.

(** Removing an alert and broadcasting a resolved copy of it. *)
Lemma feeds_remove fp a a' s :
  app_firing s !! fp = Some a -> al_state a' = Resolved ->
  al_fingerprint a' = al_fingerprint a ->
  feeds s (broadcast (EnvAlert a') (set_firing (delete fp (app_firing s)) s)).
Proof.
  intros Ha Hr Hf. split.
  - intros Hwf. split; [|apply Hwf]. simpl. intros fp' b [_ Hl]%lookup_delete_Some.
    by apply Hwf.
  - done.
  - intros Hwf. exists [EnvAlert a']. split; [done|].
    destruct (wf_firing _ Hwf _ _ Ha) as [Hfp _]. simpl. by rewrite Hr, Hf, Hfp.
Qed.

(** The snapshot lists the firing map: replaying it gives the map back. *)
Lemma replay_snapshot `{Chrono} now_of now m s :
  app_wf s -> feed_apply m (EnvSnapshot (snapshot now_of now s)) = app_firing s.
Proof.
  intros Hwf. simpl. rewrite map_map.
  rewrite (map_ext_in _ id); [by rewrite map_id, list_to_map_to_list|].
  intros [fp a] Hin. simpl. f_equal.
  apply list_elem_of_In, elem_of_map_to_list in Hin. by apply (wf_firing _ Hwf).
Qed.

(** * Every handler feeds *)

Section handlers.
Context {C : Type -> Type} {D : Type}.
Context `{!Mpsc C} `{!Sqlite D} `{!Codec} `{!Chrono}.

Lemma feeds_ingest_alert a (st : IngestState C) :
  feeds (ig_app st) (ig_app (ingest_alert a st)).
Proof.
  unfold ingest_alert. destruct (host_in_maintenance _ _); [done|].
  set (s1 := touch_host _ _ _ _ _). set (a1 := stamp_ip s1 a).
  transitivity s1; [apply feeds_touch|].
  destruct (snd (apply_alert a1 s1)) eqn:E; simpl.
  - apply feeds_apply_broadcast.
  - by apply feeds_apply_unchanged.
Qed.

Lemma feeds_envelope e (c : Conn (C := C)) :
  feeds (ig_app (snd c)) (ig_app (snd (handle_envelope e c))).
Proof.
  destruct c as [cur st]. destruct e; simpl; try done.
  - apply feeds_ingest_alert.
  - etransitivity; [apply feeds_touch|by apply feeds_broadcast].
  - etransitivity; [apply feeds_hello|by apply feeds_broadcast].
Qed.

Lemma feeds_frame f (c c' : Conn (C := C)) :
  handle_frame f c = Some c' -> feeds (ig_app (snd c)) (ig_app (snd c')).
Proof.
  assert (Ht : forall t, feeds (ig_app (snd c)) (ig_app (snd (handle_text t c)))).
  { intros t. unfold handle_text. destruct (decode t); [apply feeds_envelope|done]. }
  destruct f; simpl; intros Hf; simplify_eq; auto; done.
Qed.

Lemma feeds_disconnect now (c : Conn (C := C)) :
  feeds (ig_app (snd c)) (ig_app (disconnect now c)).
Proof. destruct c as [[[h hid]|] st]; simpl; [by apply feeds_broadcast|done]. Qed.

Lemma feeds_line st now bytes peer s : feeds s (handle_line st now bytes peer s).
Proof. unfold handle_line. case_match; [done|apply feeds_apply_broadcast]. Qed.

Lemma feeds_decrement hid s : feeds s (decrement_count hid s).
Proof.
  unfold decrement_count. destruct (app_hosts s !! hid) as [h|] eqn:E; [|done].
  destruct (0 <? hi_firing_count h) eqn:Hn; [|done]. apply Z.ltb_lt in Hn.
  apply feeds_insert_host. intros Hwf. destruct (wf_hosts _ Hwf _ _ E) as [Hk Hc].
  split; [done|]. unfold Int.is_u32 in *. simpl. lia.
Qed.

(** A change of the hosts commutes with the removal before it. *)
Lemma feeds_resolve st fp by_ (g : GuiState C D) :
  feeds (gs_app g) (gs_app (fst (api_resolve st fp by_ g))).
Proof.
  unfold api_resolve. destruct (app_firing (gs_app g) !! fp) as [a|] eqn:E; [|done].
  simpl. set (r := resolved_copy st by_ a).
  transitivity (decrement_count (al_host_id a) (gs_app g)); [apply feeds_decrement|].
  assert (Hcomm : broadcast (EnvAlert r)
      (decrement_count (al_host_id a) (set_firing (delete fp (app_firing (gs_app g))) (gs_app g)))
    = broadcast (EnvAlert r) (set_firing
        (delete fp (app_firing (decrement_count (al_host_id a) (gs_app g))))
        (decrement_count (al_host_id a) (gs_app g)))).
  { unfold decrement_count. simpl. destruct (app_hosts (gs_app g) !! _); [|done].
    by destruct (0 <? _). }
  rewrite Hcomm. apply feeds_remove with a; [|done..].
  rewrite <- E. unfold decrement_count. cases.
Qed.

Lemma feeds_clear now_of now (g : GuiState C D) :
  feeds (gs_app g) (gs_app (fst (api_clear_history now_of now g))).
Proof.
  unfold api_clear_history. destruct (clear_all (gs_store g)) as [[d n]|]; [|done]. simpl.
  split; [by intros [H1 H2]; split|done|]. intros Hwf.
  exists [EnvSnapshot (snapshot now_of now (gs_app g))]. split; [done|].
  exact (replay_snapshot now_of now _ _ Hwf).
Qed.

Lemma feeds_config ok body (g : GuiState C D) :
  feeds (gs_app g) (gs_app (fst (api_post_config ok body g))).
Proof. unfold api_post_config. by repeat case_match. Qed.

Lemma feeds_raise after_s now st h s : feeds s (raise_offline after_s now st h s).
Proof. apply feeds_apply_broadcast. Qed.

Lemma feeds_clear_offline now h s : feeds s (clear_offline now h s).
Proof.
  unfold clear_offline. destruct (app_firing s !! _) as [a|] eqn:E; [|done].
  apply feeds_remove with a; [done|by destruct a..].
Qed.

Lemma feeds_watch_host after_s now st h w :
  feeds (snd w) (snd (watch_host after_s now st h w)).
Proof.
  unfold watch_host. case_decide; [done|]. simpl.
  transitivity (broadcast (EnvHostStatus
    (change_status (is_online now (hi_last_seen h) after_s) h)) (snd w));
    [by apply feeds_broadcast|].
  destruct (is_online _ _ _); [apply feeds_clear_offline|apply feeds_raise].
Qed.

Lemma feeds_watch_tick after_s now stamp_of w :
  feeds (snd w) (snd (watch_tick after_s now stamp_of w)).
Proof.
  unfold watch_tick. generalize (map snd (map_to_list (app_hosts (snd w)))). intros hosts.
  revert w. induction hosts as [|h hosts IH]; intros w; [done|]. simpl.
  etransitivity; [apply feeds_watch_host|apply IH].
Qed.

(** * The system *)

(** The shared state, the live ingest connections with what each knows of its
    host, and the watcher's memory. *)
Record Collector : Type := mkCollector {
  co_gui : GuiState C D;
  co_conns : gmap nat (option (string * string));
  co_seen : gmap string bool
}.

Definition co_app (c : Collector) : AppState := gs_app (co_gui c).

Definition with_app (s : AppState) (c : Collector) : Collector :=
  let g := co_gui c in
  mkCollector (mkGui s (gs_store g) (gs_writer g) (gs_config g)) (co_conns c) (co_seen c).

Context (after_s retention_days : Z).

(** One handler call from start to end: a connection, a frame on it, its end; a syslog line; a GUI
    request; a tick of the watcher; the history writer and its retention. *)
Inductive cstep : Collector -> Collector -> Prop :=
  | CConnect c i :
      co_conns c !! i = None ->
      cstep c (mkCollector (co_gui c) (<[i := None]> (co_conns c)) (co_seen c))
  | CFrame c i cur f cur' st' :
      co_conns c !! i = Some cur ->
      handle_frame f (cur, gui_ingest (co_gui c)) = Some (cur', st') ->
      cstep c (mkCollector (with_ingest st' (co_gui c)) (<[i := cur']> (co_conns c)) (co_seen c))
  | CDisconnect c i cur now :
      co_conns c !! i = Some cur ->
      cstep c (mkCollector (with_ingest (disconnect now (cur, gui_ingest (co_gui c))) (co_gui c))
                 (delete i (co_conns c)) (co_seen c))
  | CSyslog c st now bytes peer :
      cstep c (with_app (handle_line st now bytes peer (co_app c)) c)
  | CResolve c st fp by_ :
      cstep c (mkCollector (fst (api_resolve st fp by_ (co_gui c))) (co_conns c) (co_seen c))
  | CClear c now_of now :
      cstep c (mkCollector (fst (api_clear_history now_of now (co_gui c))) (co_conns c) (co_seen c))
  | CConfig c ok body :
      cstep c (mkCollector (fst (api_post_config ok body (co_gui c))) (co_conns c) (co_seen c))
  | CWatch c now stamp_of :
      let w := watch_tick after_s now stamp_of (co_seen c, co_app c) in
      cstep c (with_app (snd w) (mkCollector (co_gui c) (co_conns c) (fst w)))
  | CWrite c a q :
      recv (gs_writer (co_gui c)) = (Some a, q) ->
      cstep c (mkCollector (mkGui (co_app c) (run_writer [a] (gs_store (co_gui c))) q
                              (gs_config (co_gui c))) (co_conns c) (co_seen c))
  | CPrune c now :
      cstep c (mkCollector (mkGui (co_app c) (prune now retention_days (gs_store (co_gui c)))
                              (gs_writer (co_gui c)) (gs_config (co_gui c)))
                 (co_conns c) (co_seen c)).

(** The start of the collector: an empty state, the history as it was left. *)
Definition collector_start (store : D) (writer : C Alert) (config : option string) : Collector :=
  mkCollector (mkGui (app_new after_s) store writer config) ∅ ∅.

Lemma cstep_feeds c c' : cstep c c' -> feeds (co_app c) (co_app c').
Proof.
  intros Hs. destruct Hs; try done; unfold co_app; simpl.
  - by apply (feeds_frame f (cur, gui_ingest (co_gui c)) (cur', st')).
  - by apply (feeds_disconnect now (cur, gui_ingest (co_gui c))).
  - apply feeds_line.
  - apply feeds_resolve.
  - apply feeds_clear.
  - apply feeds_config.
  - apply (feeds_watch_tick after_s now stamp_of (co_seen c, co_app c)).
Qed.

Lemma steps_feed c c' : rtc cstep c c' -> feeds (co_app c) (co_app c').
Proof.
  induction 1 as [c|c1 c2 c3 H12 _ IH]; [done|].
  transitivity (co_app c2); [by apply cstep_feeds|exact IH].
Qed.

Lemma app_new_wf : app_wf (app_new after_s).
Proof. split; intros k x Hx; simpl in Hx; by rewrite lookup_empty in Hx. Qed.

(** The watcher remembers hosts of the state only. *)
Definition seen_known (c : Collector) : Prop :=
  forall k, is_Some (co_seen c !! k) -> is_Some (app_hosts (co_app c) !! k).

Lemma watch_host_seen after now st h w k :
  is_Some (fst (watch_host after now st h w) !! k) -> k = hi_host_id h \/ is_Some (fst w !! k).
Proof.
  assert (Hi : forall v, is_Some (<[hi_host_id h := v]> (fst w) !! k) ->
                         k = hi_host_id h \/ is_Some (fst w !! k)).
  { intros v. destruct (decide (hi_host_id h = k)) as [->|]; [by left|].
    rewrite lookup_insert_ne by done. by right. }
  unfold watch_host. case_decide; simpl; apply Hi.
Qed.

Lemma watch_hosts_seen after now stamp_of hosts w k :
  is_Some (fst (foldl (fun w h => watch_host after now (stamp_of (hi_host_id h)) h w) w hosts) !! k) ->
  (exists h, h ∈ hosts /\ hi_host_id h = k) \/ is_Some (fst w !! k).
Proof.
  revert w. induction hosts as [|h hosts IH]; intros w; simpl; [by right|].
  intros [(h' & Hin & <-)|Hk]%IH.
  - left. exists h'. set_solver.
  - apply watch_host_seen in Hk as [->|Hk]; [|by right]. left. exists h. set_solver.
Qed.

Lemma cstep_seen c c' : app_wf (co_app c) -> cstep c c' -> seen_known c -> seen_known c'.
Proof.
  intros Hwf Hs Hk. pose proof (feeds_hosts _ _ (cstep_feeds _ _ Hs)) as Hh.
  destruct Hs as [| | | | | | |c now stamp_of w| |]; try (intros k Hs; apply Hh, Hk, Hs).
  intros k Hseen. apply Hh. simpl in Hseen. apply watch_hosts_seen in Hseen as [Hin|Hin];
    [|by apply Hk].
  destruct Hin as (h & Hin & <-). simpl in Hin.
  apply list_elem_of_fmap in Hin as ([k' h'] & -> & Hin). apply elem_of_map_to_list in Hin.
  simpl. rewrite (proj1 (wf_hosts _ Hwf _ _ Hin)). by eexists.
Qed.

Lemma steps_seen c c' :
  app_wf (co_app c) -> rtc cstep c c' -> seen_known c -> seen_known c'.
Proof.
  intros Hwf Hs. revert Hwf. induction Hs as [c|c1 c2 c3 H12 _ IH]; intros Hwf Hk; [done|].
  apply IH; [by apply (feeds_wf _ _ (cstep_feeds _ _ H12))|by apply (cstep_seen c1)].
Qed.

(** C3: the collector's state is well typed at all times.  After any interleaving
    of handler calls from the start (frames of any content on any number of
    connections, syslog lines, GUI requests, watcher ticks, history writes), every
    firing alert is in state firing and stored under its own fingerprint, every
    host is stored under its own id with a counter that fits a [u32], and the
    watcher remembers only hosts that exist. *)
Theorem collector_typed (store : D) (writer : C Alert) (config : option string)
    (c : Collector) (Hreach : rtc cstep (collector_start store writer config) c) :
  (forall fp a, app_firing (co_app c) !! fp = Some a ->
     al_fingerprint a = fp /\ al_state a = Firing)
  /\ (forall k h, app_hosts (co_app c) !! k = Some h ->
        hi_host_id h = k /\ Int.is_u32 (hi_firing_count h))
  /\ (forall k, is_Some (co_seen c !! k) -> is_Some (app_hosts (co_app c) !! k)).
Proof.
  assert (Hwf : app_wf (co_app c))
    by (apply (feeds_wf _ _ (steps_feed _ _ Hreach)), app_new_wf).
  split_and!; [apply Hwf..|].
  apply (steps_seen (collector_start store writer config) c app_new_wf Hreach). intros k [x Hx].
  simpl in Hx. by rewrite lookup_empty in Hx.
Qed.

(** With whole handlers as steps, the broadcasts between two states, replayed on a
    snapshot of the first, give exactly the firing map of the second.  This is the
    case of [Sections.gui_feed_refines] without overlap. *)
Lemma atomic_feed_refines (store : D) (writer : C Alert) (config : option string)
    (c1 c2 : Collector) (now_of : string -> DateTime) (now : DateTime)
    (m : gmap string Alert)
    (Hreach : rtc cstep (collector_start store writer config) c1)
    (Hmore : rtc cstep c1 c2) :
  exists feed, app_fanout (co_app c2) = app_fanout (co_app c1) ++ feed
    /\ replay m (EnvSnapshot (snapshot now_of now (co_app c1)) :: feed) = app_firing (co_app c2).
Proof.
  assert (Hwf : app_wf (co_app c1))
    by (apply (feeds_wf _ _ (steps_feed _ _ Hreach)), app_new_wf).
  destruct (feeds_replay _ _ (steps_feed _ _ Hmore) Hwf) as (feed & Hf & Hr).
  exists feed. split; [done|]. unfold replay in *. cbn [foldl].
  by rewrite replay_snapshot.
Qed.

End handlers.
Arguments Collector C D : clear implicits.

(** * A concrete run *)

#[local] Existing Instances CodecRef ChronoRef.

Definition sys_start : Collector BoundedQueue (list Row) :=
  collector_start 10 [] (mkBounded 4 []) None.

(** A syslog line, then its resolution from the GUI. *)
Definition sys_line (c : Collector BoundedQueue (list Row)) : Collector BoundedQueue (list Row) :=
  with_app (handle_line (mkStamp 5 "01") 5 "<10>PSU failed" "10.0.0.9" (co_app c)) c.

Definition sys_resolve (c : Collector BoundedQueue (list Row)) : Collector BoundedQueue (list Row) :=
  mkCollector (fst (api_resolve (mkStamp 6 "02") "10.0.0.9|syslog|-|syslog_event" "ops" (co_gui c)))
    (co_conns c) (co_seen c).

Lemma sys_steps :
  rtc (cstep 10 30) sys_start (sys_line sys_start)
  /\ rtc (cstep 10 30) (sys_line sys_start) (sys_resolve (sys_line sys_start)).
Proof. split; apply rtc_once; constructor. Qed.

Lemma collector_typed_witness :
  exists a, app_firing (co_app (sys_line sys_start)) !! "10.0.0.9|syslog|-|syslog_event" = Some a
    /\ al_fingerprint a = "10.0.0.9|syslog|-|syslog_event"%string.
Proof.
  eexists. split; [vm_compute; reflexivity|].
  refine (proj1 (proj1 (collector_typed 10 30 [] (mkBounded 4 []) None (sys_line sys_start)
    (proj1 sys_steps)) "10.0.0.9|syslog|-|syslog_event" _ _)).
  vm_compute. reflexivity.
Defined.
