(* ===== verification/Sections.v ===== *)
(** The collector's handlers as the program runs them: each is a sequence of
    critical sections, and between two of them any other task may run
    (src/collector/src/ws_ingest.rs, syslog_in.rs, http.rs, main.rs, ws_subscribe.rs,
    on the locks of state.rs).

    A handler is a program of sections, a task runs one handler at a time, and
    the system interleaves the sections of all tasks.  [atomic_is_sections] shows
    that a handler nobody interrupts is the atomic step of [CollectorSystem].  The
    theorems say what a subscribed client shows. *)
From S2P Require Import Prelude Text Utf8 Schema Codec Channels CollectorState.
From S2P Require Import Ingest Store SyslogIn GuiApi Watcher CollectorSystem.

Local Open Scope Z_scope.

(** * Programs of critical sections *)

Section prog.
Context {G : Type}.

(** A program: finished, or a section that updates the shared state, with what it
    does next as a function of the state the section found. *)
Inductive Prog : Type :=
  | Done
  | Sec (f : G -> G) (k : G -> Prog).

(** A section with a result. *)
Definition section {B} (f : G -> G * B) (k : B -> Prog) : Prog :=
  Sec (fun g => fst (f g)) (fun g => k (snd (f g))).

(** The whole program with nothing in between. *)
Fixpoint run (p : Prog) (g : G) : G :=
  match p with
  | Done => g
  | Sec f k => run (k g) (f g)
  end.

End prog.
Arguments Prog G : clear implicits.

Notation "'let*' x := f 'in' p" := (section f (fun x => p))
  (at level 10, x name, f at level 100, p at level 200).

(** * The handlers *)

Section handlers.
Context {C : Type -> Type} {D : Type}.
Context `{!Mpsc C} `{!Sqlite D} `{!Codec} `{!Chrono}.

(** What a subscribed client was sent first, and where in the sequence of
    broadcasts its feed starts. *)
Record Subscription : Type := mkSub {
  sub_snapshot : Snapshot;
  sub_from : nat
}.

Record Shared : Type := mkShared {
  sh_col : Collector C D;
  sh_subs : gmap nat Subscription
}.

Definition sh_app (g : Shared) : AppState := co_app (sh_col g).
Definition sh_gui (g : Shared) : GuiState C D := co_gui (sh_col g).

Definition put_gui (u : GuiState C D) (g : Shared) : Shared :=
  mkShared (mkCollector u (co_conns (sh_col g)) (co_seen (sh_col g))) (sh_subs g).
Definition put_app (s : AppState) (g : Shared) : Shared :=
  put_gui (mkGui s (gs_store (sh_gui g)) (gs_writer (sh_gui g)) (gs_config (sh_gui g))) g.
Definition put_writer (w : C Alert) (g : Shared) : Shared :=
  put_gui (mkGui (sh_app g) (gs_store (sh_gui g)) w (gs_config (sh_gui g))) g.
Definition put_store (d : D) (g : Shared) : Shared :=
  put_gui (mkGui (sh_app g) d (gs_writer (sh_gui g)) (gs_config (sh_gui g))) g.
Definition put_conns (m : gmap nat (option (string * string))) (g : Shared) : Shared :=
  mkShared (mkCollector (sh_gui g) m (co_seen (sh_col g))) (sh_subs g).
Definition put_seen (m : gmap string bool) (g : Shared) : Shared :=
  mkShared (mkCollector (sh_gui g) (co_conns (sh_col g)) m) (sh_subs g).

(** The kinds of section: a read, an update, an update with a result, a broadcast,
    a [try_send] to the history writer. *)
Definition read {B} (f : AppState -> B) : Shared -> Shared * B := fun g => (g, f (sh_app g)).
Definition locked {B} (f : AppState -> AppState * B) : Shared -> Shared * B :=
  fun g => (put_app (fst (f (sh_app g))) g, snd (f (sh_app g))).
Definition update (f : AppState -> AppState) : Shared -> Shared * unit :=
  locked (fun s => (f s, tt)).
Definition tell (e : Envelope) : Shared -> Shared * unit := update (broadcast e).
Definition enqueue (a : Alert) : Shared -> Shared * unit :=
  fun g => (put_writer (fst (try_send a (gs_writer (sh_gui g)))) g, tt).

(** src/collector/src/ws_ingest.rs:87-93 (from apply_alert on in handle_socket). *)
Definition apply_sections (a : Alert) : Prog Shared :=
  let* changed := locked (apply_alert a) in
  let* _ := enqueue a in
  if changed then let* _ := tell (EnvAlert a) in Done else Done.

(** src/collector/src/ws_ingest.rs:71-94 (the sections of the Alert arm of handle_socket). *)
Definition alert_sections (a : Alert) : Prog Shared :=
  let* maintenance := read (host_in_maintenance (al_host_id a)) in
  if (maintenance : bool) then Done else
  let* _ := update (touch_host (al_host a) (al_host_id a) (al_ts a) "") in
  if is_empty (al_primary_ip a)
  then let* ip := read (host_primary_ip (al_host_id a)) in
       apply_sections (set_primary_ip ip a)
  else apply_sections a.

(** src/collector/src/ws_ingest.rs:54-98 (the sections of the match on the envelope).
    [current_host] is the connection's own. *)
Definition envelope_sections (i : nat) (e : Envelope) : Prog Shared :=
  match e with
  | EnvHello h =>
      let* _ := update (register_hello h) in
      let* _ := (fun g => (put_conns (<[i := Some (hello_host h, hello_host_id h)]>
                                        (co_conns (sh_col g))) g, tt)) in
      let* _ := tell (EnvHello h) in Done
  | EnvHeartbeat hb =>
      let* _ := update (touch_host (hb_host hb) (hb_host_id hb) (hb_ts hb) (hb_agent_version hb)) in
      let* _ := tell (EnvHeartbeat hb) in
      let* _ := read (fun s => app_hosts s !! hb_host_id hb) in Done
  | EnvAlert a => alert_sections a
  | EnvSnapshot _ | EnvHostStatus _ => Done
  end.

Definition frame_envelope (f : Frame) : option Envelope :=
  match f with
  | FText t => decode t
  | FBinary b => decode (from_utf8_lossy b)
  | _ => None
  end.

(** src/collector/src/ws_ingest.rs:36-99 (the sections of one turn of the receive loop). *)
Definition frame_sections (i : nat) (f : Frame) : Prog Shared :=
  match frame_envelope f with Some e => envelope_sections i e | None => Done end.

(** src/collector/src/ws_ingest.rs:100-109 (the sections of the end of handle_socket). *)
Definition disconnect_sections (i : nat) (now : DateTime) : Prog Shared :=
  let* cur := (fun g => (put_conns (delete i (co_conns (sh_col g))) g,
                         mjoin (co_conns (sh_col g) !! i))) in
  match cur with
  | Some (host, host_id) =>
      let* _ := tell (EnvHostStatus (mkHostStatus host host_id false now 0)) in Done
  | None => Done
  end.

(** src/collector/src/syslog_in.rs:65-73 (the sections of handle_line). *)
Definition line_sections (st : Stamp) (now : DateTime) (bytes peer : string) : Prog Shared :=
  let line := trim (from_utf8_lossy bytes) in
  if is_empty line then Done
  else
    let a := parse_to_alert st now line peer in
    let* _ := locked (apply_alert a) in
    let* _ := tell (EnvAlert a) in Done.

(** src/collector/src/http.rs:110-157 (the sections of api_resolve). *)
Definition resolve_sections (st : Stamp) (fp by_ : string) : Prog Shared :=
  let* removed := locked (fun s => (set_firing (delete fp (app_firing s)) s, app_firing s !! fp)) in
  match removed with
  | None => Done
  | Some a =>
      let* _ := update (decrement_count (al_host_id a)) in
      let r := resolved_copy st by_ a in
      let* _ := enqueue r in
      let* _ := tell (EnvAlert r) in Done
  end.

(** src/collector/src/state.rs:48-62 (the two sections of AppState::snapshot). *)
Definition snapshot_sections (now_of : string -> DateTime) (now : DateTime)
    (next : Snapshot -> Prog Shared) : Prog Shared :=
  let* alerts := read (fun s => map snd (map_to_list (app_firing s))) in
  let* hosts := read (fun s => sn_hosts (snapshot now_of now s)) in
  next (mkSnapshot now alerts hosts).

(** src/collector/src/http.rs:165-176 (the sections of api_clear_history). *)
Definition clear_sections (now_of : string -> DateTime) (now : DateTime) : Prog Shared :=
  let* cleared := (fun g => match clear_all (gs_store (sh_gui g)) with
                            | Some (d, _) => (put_store d g, true)
                            | None => (g, false)
                            end) in
  if (cleared : bool)
  then snapshot_sections now_of now (fun snap => let* _ := tell (EnvSnapshot snap) in Done)
  else Done.

(** src/collector/src/http.rs:194-210 (the section of api_post_config). *)
Definition config_sections (ok : bool) (body : string) : Prog Shared :=
  let* _ := (fun g => (put_gui (fst (api_post_config ok body (sh_gui g))) g, tt)) in Done.

(** src/collector/src/ws_subscribe.rs:23-32 (the sections of handle_socket up to its
    loop).  [sent] is whether the initial text was serialised and sent. *)
Definition subscribe_sections (n : nat) (now_of : string -> DateTime) (now : DateTime)
    (sent : bool) : Prog Shared :=
  snapshot_sections now_of now (fun snap =>
    if sent
    then let* _ := (fun g => (mkShared (sh_col g)
                       (<[n := mkSub snap (length (app_fanout (sh_app g)))]> (sh_subs g)), tt)) in
         Done
    else Done).

(** src/collector/src/main.rs:161-168 (the removal of clear_offline, under the lock). *)
Definition offline_remove (now : DateTime) (fp : string) (s : AppState) : AppState * option Alert :=
  match app_firing s !! fp with
  | Some a => (set_firing (delete fp (app_firing s)) s,
               Some (set_ts now (set_title ("Resolved: " +:+ al_title a) (set_state Resolved a))))
  | None => (s, None)
  end.

(** src/collector/src/main.rs:130-171 (the sections of the body of the loop over the
    hosts); [next] is the rest of the loop. *)
Definition host_sections (after_s : Z) (now : DateTime) (st : Stamp) (h : HostInfo)
    (next : Prog Shared) : Prog Shared :=
  let online := is_online now (hi_last_seen h) after_s in
  let* prev := (fun g => (put_seen (<[hi_host_id h := online]> (co_seen (sh_col g))) g,
                          co_seen (sh_col g) !! hi_host_id h)) in
  if decide (Some online = prev) then next else
  let* _ := tell (EnvHostStatus (change_status online h)) in
  if online
  then let* cleared := locked (offline_remove now (offline_fp (hi_host_id h))) in
       match cleared with
       | Some a => let* _ := tell (EnvAlert a) in next
       | None => next
       end
  else let a := set_ts now (build_firing st (offline_builder after_s h)) in
       let* _ := locked (apply_alert a) in
       let* _ := tell (EnvAlert a) in next.

(** src/collector/src/main.rs:127-171 (the sections of one tick of
    spawn_offline_watcher). *)
Definition watch_sections (after_s : Z) (now : DateTime) (stamp_of : string -> Stamp) : Prog Shared :=
  let* hosts := read (fun s => map snd (map_to_list (app_hosts s))) in
  foldr (fun h => host_sections after_s now (stamp_of (hi_host_id h)) h) Done hosts.

(** src/collector/src/store.rs:68-79 (the section of spawn_writer). *)
Definition write_sections : Prog Shared :=
  let* _ := (fun g => match recv (gs_writer (sh_gui g)) with
                      | (Some a, q) => (put_writer q (put_store (run_writer [a]
                                          (gs_store (sh_gui g))) g), tt)
                      | (None, q) => (g, tt)
                      end) in Done.

(** src/collector/src/store.rs:113-122 (the section of spawn_retention). *)
Definition prune_sections (now : DateTime) (days : Z) : Prog Shared :=
  let* _ := (fun g => (put_store (prune now days (gs_store (sh_gui g))) g, tt)) in Done.

(** * The interleaving of the tasks *)

(** The tasks: an ingest connection, a syslog listener, a request of the GUI (a
    POST or a subscription), the watcher, the history writer and the retention. *)
Inductive Task : Type :=
  | TConn (i : nat)
  | TSyslog (n : nat)
  | TRequest (n : nat)
  | TWatcher
  | TWriter
  | TRetention.

#[global] Instance Task_eq_dec : EqDecision Task.
Proof. solve_decision. Defined.

#[global] Instance Task_countable : Countable Task.
Proof.
  refine (inj_countable'
    (fun t => match t with TConn i => (0, i) | TSyslog n => (1, n) | TRequest n => (2, n)
                         | TWatcher => (3, 0) | TWriter => (4, 0) | TRetention => (5, 0) end%nat)
    (fun c : nat * nat => match c with (0, i) => TConn i | (1, n) => TSyslog n
                         | (2, n) => TRequest n | (3, _) => TWatcher | (4, _) => TWriter | _ => TRetention end%nat) _).
  by intros [].
Defined.

Inductive Handler : Type :=
  | HConnect (i : nat)
  | HFrame (i : nat) (f : Frame)
  | HDisconnect (i : nat) (now : DateTime)
  | HLine (n : nat) (st : Stamp) (now : DateTime) (bytes peer : string)
  | HResolve (n : nat) (st : Stamp) (fp by_ : string)
  | HClear (n : nat) (now_of : string -> DateTime) (now : DateTime)
  | HConfig (n : nat) (ok : bool) (body : string)
  | HSubscribe (n : nat) (now_of : string -> DateTime) (now : DateTime) (sent : bool)
  | HWatch (now : DateTime) (stamp_of : string -> Stamp)
  | HWrite
  | HPrune (now : DateTime) (days : Z).

(** The task a handler runs on. *)
Definition task_of (h : Handler) : Task :=
  match h with
  | HConnect i | HFrame i _ | HDisconnect i _ => TConn i
  | HLine n _ _ _ _ => TSyslog n
  | HResolve n _ _ _ | HClear n _ _ | HConfig n _ _ | HSubscribe n _ _ _ => TRequest n
  | HWatch _ _ => TWatcher
  | HWrite => TWriter
  | HPrune _ _ => TRetention
  end.

(** * A handler nobody interrupts is an atomic step *)

Definition put_ingest (st : IngestState C) (g : Shared) : Shared :=
  put_gui (with_ingest st (sh_gui g)) g.

Lemma put_ingest_id g : put_ingest (gui_ingest (sh_gui g)) g = g.
Proof. by destruct g as [[[] ? ?] ?]. Qed.

Lemma put_app_id g : put_app (sh_app g) g = g.
Proof. by destruct g as [[[] ? ?] ?]. Qed.

Lemma run_apply a g :
  run (apply_sections a) g
  = put_ingest (mkIngest (let r := apply_alert a (sh_app g) in
                          if snd r then broadcast (EnvAlert a) (fst r) else fst r)
                  (fst (try_send a (gs_writer (sh_gui g))))) g.
Proof. unfold apply_sections. simpl. by destruct (snd (apply_alert a (sh_app g))). Qed.

Lemma run_alert a g :
  run (alert_sections a) g = put_ingest (ingest_alert a (gui_ingest (sh_gui g))) g.
Proof.
  unfold alert_sections, ingest_alert. simpl. change (gs_app (sh_gui g)) with (sh_app g).
  destruct (host_in_maintenance _ _); [symmetry; exact (put_ingest_id g)|].
  set (s1 := touch_host _ _ _ _ _). unfold stamp_ip.
  destruct (is_empty (al_primary_ip a)); exact (run_apply _ (put_app s1 g)).
Qed.

Lemma run_frame i f g cur cur' st' :
  co_conns (sh_col g) !! i = Some cur ->
  handle_frame f (cur, gui_ingest (sh_gui g)) = Some (cur', st') ->
  run (frame_sections i f) g = put_conns (<[i := cur']> (co_conns (sh_col g))) (put_ingest st' g).
Proof.
  intros Hi Hf.
  assert (Hid : cur' = cur -> forall st, put_conns (<[i := cur']> (co_conns (sh_col g)))
                  (put_ingest st g) = put_ingest st g).
  { intros -> st. by rewrite insert_id. }
  assert (He : match frame_envelope f with
               | Some e => handle_envelope e (cur, gui_ingest (sh_gui g))
               | None => (cur, gui_ingest (sh_gui g))
               end = (cur', st')) by (destruct f; simpl in *; unfold handle_text in Hf; simplify_eq/=;
                 try done; by destruct (decode _); simplify_eq).
  clear Hf. unfold frame_sections.
  destruct (frame_envelope f) as [[a|hb|h|sn|hs]|]; simpl in He; simplify_eq;
    rewrite ?Hid by done; try (symmetry; apply put_ingest_id).
  - apply run_alert.
  - done.
  - done.
Qed.

Lemma run_host after_s now st h next g :
  let w := watch_host after_s now st h (co_seen (sh_col g), sh_app g) in
  run (host_sections after_s now st h next) g = run next (put_seen (fst w) (put_app (snd w) g)).
Proof.
  unfold watch_host, host_sections. cbn [run section fst snd].
  case_decide as Hd; [cbn [run fst snd]; by rewrite put_app_id|]. cbn [run section fst snd].
  destruct (is_online now (hi_last_seen h) after_s); [|done].
  unfold clear_offline, offline_remove. cbn [run section fst snd locked].
  destruct (app_firing (sh_app g) !! offline_fp (hi_host_id h)) eqn:E.
  - change (app_firing (sh_app _)) with (app_firing (sh_app g)).
    change (app_firing (broadcast _ _)) with (app_firing (sh_app g)). by rewrite E.
  - change (app_firing (sh_app _)) with (app_firing (sh_app g)).
    change (app_firing (broadcast _ _)) with (app_firing (sh_app g)). by rewrite E.
Qed.

Lemma run_hosts after_s now stamp_of hosts g :
  let w := foldl (fun w h => watch_host after_s now (stamp_of (hi_host_id h)) h w)
             (co_seen (sh_col g), sh_app g) hosts in
  run (foldr (fun h => host_sections after_s now (stamp_of (hi_host_id h)) h) Done hosts) g
  = put_seen (fst w) (put_app (snd w) g).
Proof.
  revert g. induction hosts as [|h hosts IH]; intros g; cbn [foldr foldl].
  { by destruct g as [[[] ? ?] ?]. }
  rewrite run_host, IH. set (w := watch_host _ _ _ _ _). by destruct w.
Qed.

Context (after_s : Z).

Definition sections (h : Handler) : Prog Shared :=
  match h with
  | HConnect i => let* _ := (fun g => (put_conns (<[i := None]> (co_conns (sh_col g))) g, tt)) in Done
  | HFrame i f => frame_sections i f
  | HDisconnect i now => disconnect_sections i now
  | HLine _ st now bytes peer => line_sections st now bytes peer
  | HResolve _ st fp by_ => resolve_sections st fp by_
  | HClear _ now_of now => clear_sections now_of now
  | HConfig _ ok body => config_sections ok body
  | HSubscribe n now_of now sent => subscribe_sections n now_of now sent
  | HWatch now stamp_of => watch_sections after_s now stamp_of
  | HWrite => write_sections
  | HPrune now days => prune_sections now days
  end.

(** The shared state, and for each busy task its handler and what is left of it. *)
Record Pool : Type := mkPool {
  po_shared : Shared;
  po_tasks : gmap Task (Handler * Prog Shared)
}.

Definition po_app (p : Pool) : AppState := sh_app (po_shared p).

(** An idle task begins a handler; a busy task runs its next section; a task at
    the end of its handler is idle again. *)
Inductive Move : Type := Begin (h : Handler) | Next (t : Task).

Definition move (m : Move) (p : Pool) : option Pool :=
  match m with
  | Begin h =>
      match po_tasks p !! task_of h with
      | None => Some (mkPool (po_shared p) (<[task_of h := (h, sections h)]> (po_tasks p)))
      | Some _ => None
      end
  | Next t =>
      match po_tasks p !! t with
      | None => None
      | Some (_, Done) => Some (mkPool (po_shared p) (delete t (po_tasks p)))
      | Some (h, Sec f k) =>
          Some (mkPool (f (po_shared p)) (<[t := (h, k (po_shared p))]> (po_tasks p)))
      end
  end.

Definition pstep (p p' : Pool) : Prop := exists m, move m p = Some p'.

Definition pool_start (store : D) (writer : C Alert) (config : option string) : Pool :=
  mkPool (mkShared (collector_start after_s store writer config) ∅) ∅.

(** Every step of [CollectorSystem] is a handler run from its first section to its
    last with nothing in between. *)
Lemma atomic_is_sections days c c' subs :
  cstep after_s days c c' ->
  exists h, run (sections h) (mkShared c subs) = mkShared c' subs.
Proof.
  intros Hs. destruct Hs as [c i Hi|c i cur f cur' st' Hi Hf|c i cur now Hi|c st now bytes peer
    |c st fp by_|c now_of now|c ok body|c now stamp_of w|c a q Hq|c now].
  - exists (HConnect i). by destruct c.
  - exists (HFrame i f). exact (run_frame i f (mkShared c subs) cur cur' st' Hi Hf).
  - exists (HDisconnect i now). simpl. rewrite Hi. by destruct cur as [[]|], c as [[] ? ?].
  - exists (HLine 0 st now bytes peer). simpl. unfold line_sections, handle_line.
    destruct (is_empty _); [by destruct c as [[] ? ?]|done].
  - exists (HResolve 0 st fp by_). simpl. unfold resolve_sections, api_resolve. simpl.
    change (sh_app (mkShared c subs)) with (gs_app (co_gui c)).
    destruct (app_firing (gs_app (co_gui c)) !! fp) eqn:E; [done|].
    simpl. rewrite delete_id by done. by destruct c as [[[] ? ?] ? ?].
  - exists (HClear 0 now_of now). simpl. unfold clear_sections, api_clear_history. simpl.
    change (sh_gui (mkShared c subs)) with (co_gui c).
    destruct (clear_all (gs_store (co_gui c))) as [[d n]|] eqn:E; simpl; [done|by destruct c].
  - by exists (HConfig 0 ok body).
  - exists (HWatch now stamp_of). simpl. exact (run_hosts after_s now stamp_of _ (mkShared c subs)).
  - exists HWrite. simpl. change (sh_gui (mkShared c subs)) with (co_gui c). by rewrite Hq.
  - by exists (HPrune now days).
Qed.

(** * What a section does to one fingerprint *)

Section fingerprint.
Context (fp : string).

Abbreviation firing_at g := (app_firing (sh_app g) !! fp).

(** The envelope says nothing of the fingerprint. *)
Definition neutral (e : Envelope) : Prop := forall m, feed_apply m e !! fp = m !! fp.

(** The section leaves the fingerprint alone, in the firing map and in the feed. *)
Definition quiet (g g' : Shared) : Prop :=
  firing_at g' = firing_at g
  /\ exists feed, app_fanout (sh_app g') = app_fanout (sh_app g) ++ feed
                  /\ forall m, replay m feed !! fp = m !! fp.

(** A program all of whose sections do. *)
Fixpoint untouched (p : Prog Shared) : Prop :=
  match p with
  | Done => True
  | Sec f k => forall g, app_wf (sh_app g) ->
      app_wf (sh_app (f g)) /\ quiet g (f g) /\ untouched (k g)
  end.

(** A program that owes a broadcast, [owed], of what the fingerprint now is, or
    owes none: it changes the fingerprint only when it owes nothing, it then owes
    the broadcast of the new value, and it ends without debts. *)
Fixpoint tidy (owed : option (option Alert)) (p : Prog Shared) : Prop :=
  match p with
  | Done => owed = None
  | Sec f k => forall g, app_wf (sh_app g) -> app_wf (sh_app (f g)) /\
      ( (quiet g (f g) /\ tidy owed (k g))
      \/ (owed = None /\ app_fanout (sh_app (f g)) = app_fanout (sh_app g)
          /\ tidy (Some (firing_at (f g))) (k g))
      \/ (exists v e, owed = Some v /\ firing_at (f g) = firing_at g
          /\ app_fanout (sh_app (f g)) = app_fanout (sh_app g) ++ [e]
          /\ (forall m, feed_apply m e !! fp = v) /\ tidy None (k g)))
  end.

(** A program that keeps the state well formed, whatever runs in between. *)
Fixpoint safe (p : Prog Shared) : Prop :=
  match p with
  | Done => True
  | Sec f k => forall g, app_wf (sh_app g) -> app_wf (sh_app (f g)) /\ safe (k g)
  end.

Lemma untouched_tidy p : untouched p -> tidy None p.
Proof.
  induction p as [|f k IH]; [done|]. intros Hu g Hwf.
  destruct (Hu g Hwf) as (Hwf' & Hq & Hk). split; [done|]. left. eauto.
Qed.

Lemma tidy_safe p owed : tidy owed p -> safe p.
Proof.
  revert owed. induction p as [|f k IH]; intros owed Ht; [done|]. intros g Hwf.
  destruct (Ht g Hwf) as (Hwf' & [[_ Hk]|[(_ & _ & Hk)|(v & e & _ & _ & _ & _ & Hk)]]);
    (split; [done|]; by eapply IH).
Qed.

Lemma quiet_same g g' :
  app_firing (sh_app g') = app_firing (sh_app g) ->
  app_fanout (sh_app g') = app_fanout (sh_app g) -> quiet g g'.
Proof.
  intros Hf Hb. split; [by rewrite Hf|]. exists []. by rewrite Hb, app_nil_r.
Qed.

Lemma quiet_tell e g : neutral e -> quiet g (fst (tell e g)).
Proof. intros He. split; [done|]. by exists [e]. Qed.

Lemma wf_tell e g : app_wf (sh_app g) -> app_wf (sh_app (fst (tell e g))).
Proof. intros [H1 H2]. by split. Qed.

(** The three kinds of section as rules. *)
Lemma tidy_quiet {B} owed (f : Shared -> Shared * B) k :
  (forall g, app_wf (sh_app g) -> app_wf (sh_app (fst (f g)))) ->
  (forall g, app_firing (sh_app (fst (f g))) = app_firing (sh_app g)
             /\ app_fanout (sh_app (fst (f g))) = app_fanout (sh_app g)) ->
  (forall g, app_wf (sh_app g) -> tidy owed (k (snd (f g)))) -> tidy owed (section f k).
Proof.
  intros Hwf Hq Hk g Hg. split; [by apply Hwf|]. left.
  split; [apply quiet_same; apply Hq|by apply Hk].
Qed.

Lemma untouched_quiet {B} (f : Shared -> Shared * B) k :
  (forall g, app_wf (sh_app g) -> app_wf (sh_app (fst (f g)))) ->
  (forall g, app_firing (sh_app (fst (f g))) = app_firing (sh_app g)
             /\ app_fanout (sh_app (fst (f g))) = app_fanout (sh_app g)) ->
  (forall b, untouched (k b)) -> untouched (section f k).
Proof.
  intros Hwf Hq Hk g Hg. split; [by apply Hwf|].
  split; [apply quiet_same; apply Hq|apply Hk].
Qed.

Lemma untouched_tell e k : neutral e -> untouched (k tt) -> untouched (section (tell e) k).
Proof. intros He Hk g Hg. split; [by apply wf_tell|]. split; [by apply quiet_tell|done]. Qed.

Lemma tidy_tell e k : neutral e -> tidy None (k tt) -> tidy None (section (tell e) k).
Proof. intros He Hk g Hg. split; [by apply wf_tell|]. left. split; [by apply quiet_tell|done]. Qed.

Lemma tidy_pay v e k :
  (forall m, feed_apply m e !! fp = v) -> tidy None (k tt) -> tidy (Some v) (section (tell e) k).
Proof.
  intros He Hk g Hg. split; [by apply wf_tell|]. right. right. exists v, e. by split_and!.
Qed.

(** ** The sections of the handlers *)

(** What the broadcast of an alert makes of its fingerprint. *)
Definition verdict (a : Alert) : option Alert :=
  match al_state a with Firing => Some a | Resolved => None end.

Lemma neutral_alert a : al_fingerprint a <> fp -> neutral (EnvAlert a).
Proof.
  intros Ha m. simpl. destruct (al_state a);
    [by rewrite lookup_insert_ne|by rewrite lookup_delete_ne].
Qed.

Lemma verdict_feed a m : al_fingerprint a = fp -> feed_apply m (EnvAlert a) !! fp = verdict a.
Proof.
  intros <-. unfold verdict. simpl.
  destruct (al_state a); [apply lookup_insert_eq|apply lookup_delete_eq].
Qed.

Lemma verdict_apply a s :
  al_fingerprint a = fp -> app_firing (fst (apply_alert a s)) !! fp = verdict a.
Proof.
  intros <-. rewrite apply_alert_firing. unfold verdict.
  destruct (al_state a); [apply lookup_insert_eq|apply lookup_delete_eq].
Qed.

Lemma apply_unchanged a s : snd (apply_alert a s) = false -> fst (apply_alert a s) = s.
Proof.
  unfold apply_alert. destruct (al_state a); [done|].
  by destruct (app_firing s !! al_fingerprint a).
Qed.

Lemma untouched_locked_apply a k :
  al_fingerprint a <> fp -> (forall b, untouched (k b)) ->
  untouched (section (locked (apply_alert a)) k).
Proof.
  intros Ha Hk g Hg. split; [by apply apply_alert_wf|]. split; [|apply Hk]. split.
  - change (app_firing (fst (apply_alert a (sh_app g))) !! fp = app_firing (sh_app g) !! fp).
    rewrite apply_alert_firing. destruct (al_state a);
      [by rewrite lookup_insert_ne|by rewrite lookup_delete_ne].
  - exists []. split; [|done]. rewrite app_nil_r. apply apply_alert_fanout.
Qed.

Lemma tidy_locked_other a k :
  al_fingerprint a <> fp -> (forall b, tidy None (k b)) ->
  tidy None (section (locked (apply_alert a)) k).
Proof.
  intros Ha Hk g Hg. destruct (untouched_locked_apply a (fun _ => Done) Ha (fun _ => I) g Hg)
    as (Hwf & Hq & _). split; [exact Hwf|]. left. split; [exact Hq|apply Hk].
Qed.

Lemma tidy_locked_apply a k :
  al_fingerprint a = fp -> tidy (Some (verdict a)) (k true) ->
  (al_state a = Resolved -> tidy None (k false)) ->
  tidy None (section (locked (apply_alert a)) k).
Proof.
  intros Ha Hk1 Hk0 g Hg. split; [by apply apply_alert_wf|].
  change (locked (apply_alert a) g) with (put_app (fst (apply_alert a (sh_app g))) g,
                                          snd (apply_alert a (sh_app g))). cbn [fst snd].
  destruct (snd (apply_alert a (sh_app g))) eqn:E.
  - right. left. split; [done|]. split; [apply apply_alert_fanout|].
    change (sh_app (put_app ?s g)) with s. by rewrite verdict_apply.
  - left. split.
    + rewrite apply_unchanged by done. by apply quiet_same.
    + apply Hk0. revert E. unfold apply_alert. by destruct (al_state a).
Qed.

#[local] Ltac quiet_section := first [apply tidy_quiet|apply untouched_quiet];
  [try done|by intros ?|].

Lemma untouched_apply a : al_fingerprint a <> fp -> untouched (apply_sections a).
Proof.
  intros Ha. apply untouched_locked_apply; [done|]. intros changed.
  quiet_section. intros _. destruct changed; [|done].
  apply untouched_tell; [by apply neutral_alert|done].
Qed.

Lemma tidy_apply a : al_fingerprint a = fp -> tidy None (apply_sections a).
Proof.
  intros Ha. apply tidy_locked_apply; [done| |].
  - quiet_section. intros _ _. apply tidy_pay; [|done]. intros m. by apply verdict_feed.
  - intros _. quiet_section. done.
Qed.

Lemma wf_touch h hid ts v s : app_wf s -> app_wf (touch_host h hid ts v s).
Proof. apply feeds_touch. Qed.

Lemma set_primary_ip_fp ip a : al_fingerprint (set_primary_ip ip a) = al_fingerprint a.
Proof. by destruct a. Qed.

Lemma untouched_alert a : al_fingerprint a <> fp -> untouched (alert_sections a).
Proof.
  intros Ha. quiet_section. intros []; [done|].
  quiet_section; [intros g; apply wf_touch|]. intros _.
  destruct (is_empty (al_primary_ip a)); [|by apply untouched_apply].
  quiet_section. intros ip. apply untouched_apply. by rewrite set_primary_ip_fp.
Qed.

Lemma tidy_alert a : al_fingerprint a = fp -> tidy None (alert_sections a).
Proof.
  intros Ha. quiet_section. intros g _. destruct (snd _); [done|].
  quiet_section; [intros g'; apply wf_touch|]. intros _ _.
  destruct (is_empty (al_primary_ip a)); [|by apply tidy_apply].
  quiet_section. intros g' _. apply tidy_apply. by rewrite set_primary_ip_fp.
Qed.

Lemma untouched_line st now bytes peer :
  al_fingerprint (parse_to_alert st now (trim (from_utf8_lossy bytes)) peer) <> fp ->
  untouched (line_sections st now bytes peer).
Proof.
  intros Ha. unfold line_sections. destruct (is_empty _); [done|].
  apply untouched_locked_apply; [done|]. intros _.
  apply untouched_tell; [by apply neutral_alert|done].
Qed.

Lemma tidy_line st now bytes peer :
  al_fingerprint (parse_to_alert st now (trim (from_utf8_lossy bytes)) peer) = fp ->
  tidy None (line_sections st now bytes peer).
Proof.
  intros Ha. unfold line_sections. destruct (is_empty _); [done|].
  apply tidy_locked_apply; [done| |done].
  apply tidy_pay; [|done]. intros m. by apply verdict_feed.
Qed.

(** A removal under the lock by a key, with the resolved copy it leaves. *)
Lemma wf_remove k s : app_wf s -> app_wf (set_firing (delete k (app_firing s)) s).
Proof.
  intros Hwf. split; [|apply Hwf]. simpl. intros k' b [_ Hl]%lookup_delete_Some. by apply Hwf.
Qed.

Lemma wf_decrement hid s : app_wf s -> app_wf (decrement_count hid s).
Proof. apply feeds_decrement. Qed.

Lemma decrement_same hid s :
  app_firing (decrement_count hid s) = app_firing s
  /\ app_fanout (decrement_count hid s) = app_fanout s.
Proof. unfold decrement_count. cases. Qed.

Lemma untouched_resolve st k by_ : k <> fp -> untouched (resolve_sections st k by_).
Proof.
  intros Hk g Hg. split; [by apply wf_remove|]. split; [split|].
  - by apply lookup_delete_ne.
  - exists []. by rewrite app_nil_r.
  - simpl. destruct (app_firing (sh_app g) !! k) as [a|] eqn:E; [|done].
    destruct (wf_firing _ Hg _ _ E) as [Ha _].
    apply untouched_quiet; [intros g'; apply wf_decrement|intros g'; apply decrement_same|].
    intros _. quiet_section. intros _. apply untouched_tell; [|done].
    apply neutral_alert. simpl. congruence.
Qed.

Lemma tidy_resolve st by_ : tidy None (resolve_sections st fp by_).
Proof.
  intros g Hg. split; [by apply wf_remove|]. simpl.
  destruct (app_firing (sh_app g) !! fp) as [a|] eqn:E.
  - destruct (wf_firing _ Hg _ _ E) as [Ha _].
    right. left. split_and!; [done..|].
    rewrite lookup_delete_eq.
    apply tidy_quiet; [intros g'; apply wf_decrement|intros g'; apply decrement_same|].
    intros _ _. quiet_section. intros _ _. apply tidy_pay; [|done].
    intros m. by apply (verdict_feed (resolved_copy st by_ a)).
  - left. split; [|done]. apply quiet_same; [|done]. by apply delete_id.
Qed.

(** The listed alerts of a well formed state are its firing map. *)
Lemma snapshot_firing m m0 now hosts s :
  app_wf s -> m0 = map snd (map_to_list (app_firing s)) ->
  feed_apply m (EnvSnapshot (mkSnapshot now m0 hosts)) = app_firing s.
Proof.
  intros Hwf ->. simpl. rewrite map_map.
  rewrite (map_ext_in _ id); [by rewrite map_id, list_to_map_to_list|].
  intros [k a] Hin. simpl. f_equal.
  apply list_elem_of_In, elem_of_map_to_list in Hin. by apply (wf_firing _ Hwf).
Qed.

Lemma tidy_clear now_of now : tidy None (clear_sections now_of now).
Proof.
  intros g Hg.
  assert (Hsame : sh_app (fst (match clear_all (gs_store (sh_gui g)) with
    | Some (d, _) => (put_store d g, true) | None => (g, false) end)) = sh_app g)
    by (by destruct (clear_all _) as [[]|]).
  cbn [clear_sections section]. cbv beta.
  split; [by rewrite Hsame|]. left. split; [by apply quiet_same; rewrite Hsame|].
  destruct (snd _); [|done]. intros g1 Hg1. split; [done|].
  right. left. split; [done|]. split; [done|].
  quiet_section. intros g2 _. apply tidy_pay; [|done].
  intros m. by rewrite (snapshot_firing m _ now _ (sh_app g1) Hg1 eq_refl).
Qed.

Lemma wf_offline_remove now k s : app_wf s -> app_wf (fst (offline_remove now k s)).
Proof.
  intros Hwf. unfold offline_remove. destruct (app_firing s !! k); [by apply wf_remove|done].
Qed.

(** What the removal of a [host_offline] alert leaves, and owes. *)
Lemma offline_remove_spec now k s :
  app_wf s ->
  app_firing (fst (offline_remove now k s)) = delete k (app_firing s)
  /\ app_fanout (fst (offline_remove now k s)) = app_fanout s
  /\ match snd (offline_remove now k s) with
     | Some a => al_fingerprint a = k /\ al_state a = Resolved
     | None => app_firing s !! k = None
     end.
Proof.
  intros Hwf. unfold offline_remove. destruct (app_firing s !! k) as [a|] eqn:E.
  - split_and!; [done..|]. simpl. destruct (wf_firing _ Hwf _ _ E) as [<- _]. by destruct a.
  - by rewrite delete_id.
Qed.

Lemma quiet_offline_remove now k g :
  k <> fp -> app_wf (sh_app g) -> quiet g (fst (locked (offline_remove now k) g)).
Proof.
  intros Hk Hg. destruct (offline_remove_spec now k (sh_app g) Hg) as (H1 & H2 & _).
  change (locked (offline_remove now k) g) with (put_app (fst (offline_remove now k (sh_app g))) g,
    snd (offline_remove now k (sh_app g))). split.
  - cbn [fst]. change (sh_app (put_app ?s g)) with s. rewrite H1. by apply lookup_delete_ne.
  - exists []. rewrite app_nil_r. by split.
Qed.

Lemma neutral_offline_remove now k s a :
  k <> fp -> app_wf s -> snd (offline_remove now k s) = Some a -> neutral (EnvAlert a).
Proof.
  intros Hk Hs Ha. destruct (offline_remove_spec now k s Hs) as (_ & _ & H3).
  rewrite Ha in H3. apply neutral_alert. destruct H3. congruence.
Qed.

Lemma untouched_host now st h next :
  offline_fp (hi_host_id h) <> fp -> untouched next ->
  untouched (host_sections after_s now st h next).
Proof.
  intros Hk Hn. quiet_section. intros prev. cbv beta. case_decide; [done|].
  apply untouched_tell; [done|]. destruct (is_online _ _ _).
  - intros g Hg. split; [by apply wf_offline_remove|]. split; [by apply quiet_offline_remove|].
    cbv beta. cbn [locked snd]. destruct (snd (offline_remove _ _ _)) as [a|] eqn:E; [|done].
    apply untouched_tell; [by eapply neutral_offline_remove|done].
  - apply untouched_locked_apply; [done|]. intros _.
    apply untouched_tell; [by apply neutral_alert|done].
Qed.

Lemma tidy_host now st h next :
  tidy None next -> tidy None (host_sections after_s now st h next).
Proof.
  intros Hn. quiet_section. intros g0 _. cbv beta. case_decide; [done|].
  apply tidy_tell; [done|].
  destruct (decide (offline_fp (hi_host_id h) = fp)) as [Hk|Hk]; destruct (is_online _ _ _).
  - intros g Hg. split; [by apply wf_offline_remove|].
    destruct (offline_remove_spec now (offline_fp (hi_host_id h)) (sh_app g) Hg) as (Hf & Hb & Hv).
    cbv beta. cbn [locked snd fst]. change (sh_app (put_app ?s g)) with s. rewrite Hf, Hk in *.
    revert Hv. destruct (snd (offline_remove _ _ _)) as [a|].
    + intros [Ha Hs]. right. left. split; [done|]. split; [exact Hb|].
      rewrite lookup_delete_eq. apply tidy_pay; [|done]. intros m.
      rewrite verdict_feed by done. unfold verdict. by rewrite Hs.
    + intros Hv. left. split; [|done]. apply quiet_same; [|exact Hb].
      change (sh_app (put_app ?s g)) with s. rewrite Hf. by apply delete_id.
  - apply tidy_locked_apply; [done| |done].
    apply tidy_pay; [|done]. intros m. by apply verdict_feed.
  - intros g Hg. split; [by apply wf_offline_remove|].
    left. split; [by apply quiet_offline_remove|].
    cbv beta. cbn [locked snd]. destruct (snd (offline_remove _ _ _)) as [a|] eqn:E; [|done].
    apply tidy_tell; [by eapply neutral_offline_remove|done].
  - apply tidy_locked_other; [done|]. intros _.
    apply tidy_tell; [by apply neutral_alert|done].
Qed.

Lemma tidy_watch now stamp_of : tidy None (watch_sections after_s now stamp_of).
Proof.
  quiet_section. intros g _. simpl.
  induction (map snd _) as [|h hosts IH]; [done|]. simpl. by apply tidy_host.
Qed.

(** The fingerprint of some host's [host_offline] alert. *)
Fixpoint is_offline_fp (s : string) : bool :=
  bool_decide (s = offline_fp "") || match s with String _ s' => is_offline_fp s' | EmptyString => false end.

Lemma is_offline_fp_spec hid : is_offline_fp (offline_fp hid) = true.
Proof.
  induction hid as [|c hid IH]; [reflexivity|].
  change (offline_fp (String c hid)) with (String c (offline_fp hid)). cbn [is_offline_fp].
  rewrite IH. apply orb_true_r.
Qed.

Lemma untouched_watch now stamp_of :
  is_offline_fp fp = false -> untouched (watch_sections after_s now stamp_of).
Proof.
  intros Hf. quiet_section. intros hosts.
  induction hosts as [|h hosts IH]; [done|]. cbn [foldr]. apply untouched_host; [|done].
  intros E. by rewrite <- E, is_offline_fp_spec in Hf.
Qed.

Lemma wf_hello h s : app_wf s -> app_wf (register_hello h s).
Proof. apply feeds_hello. Qed.

Lemma post_config_app ok body (u : GuiState C D) :
  gs_app (fst (api_post_config ok body u)) = gs_app u.
Proof. unfold api_post_config. by repeat case_match. Qed.

(** The handlers that can say something of the fingerprint: an alert, a syslog
    line or a resolution of it; the clearing of the history, which sends every
    client a snapshot; and for a [host_offline] alert the watcher. *)
Definition about (h : Handler) : bool :=
  match h with
  | HFrame _ f =>
      match frame_envelope f with
      | Some (EnvAlert a) => bool_decide (al_fingerprint a = fp)
      | _ => false
      end
  | HLine _ st now bytes peer =>
      bool_decide (al_fingerprint (parse_to_alert st now (trim (from_utf8_lossy bytes)) peer) = fp)
  | HResolve _ _ fp' _ => bool_decide (fp' = fp)
  | HClear _ _ _ => true
  | HWatch _ _ => is_offline_fp fp
  | HConnect _ | HDisconnect _ _ | HConfig _ _ _ | HSubscribe _ _ _ _ | HWrite | HPrune _ _ => false
  end.

Lemma sections_untouched h : about h = false -> untouched (sections h).
Proof.
  destruct h as [i|i f|i now|n st now bytes peer|n st k by_|n now_of now|n ok body
    |n now_of now sent|now stamp_of| |now days]; cbn [about sections]; intros Ha; try done.
  - by quiet_section.
  - unfold frame_sections. destruct (frame_envelope f) as [[a|hb|h|sn|hs]|]; [| | |done..].
    + apply bool_decide_eq_false in Ha. by apply untouched_alert.
    + quiet_section; [intros g; apply wf_touch|]. intros _. apply untouched_tell; [done|].
      by quiet_section.
    + quiet_section; [intros g; apply wf_hello|]. intros _. quiet_section. intros _.
      by apply untouched_tell.
  - quiet_section. intros [[]|]; [by apply untouched_tell|done].
  - apply bool_decide_eq_false in Ha. by apply untouched_line.
  - apply bool_decide_eq_false in Ha. by apply untouched_resolve.
  - intros g Hg. cbv beta. cbn [fst snd].
    assert (E : sh_app (put_gui (fst (api_post_config ok body (sh_gui g))) g) = sh_app g)
      by exact (post_config_app ok body (sh_gui g)).
    split; [by rewrite E|]. split; [by apply quiet_same; rewrite E|done].
  - quiet_section. intros alerts. quiet_section. intros hosts.
    destruct sent; [by quiet_section|done].
  - by apply untouched_watch.
  - intros g Hg. cbv beta.
    assert (E : sh_app (fst (match recv (gs_writer (sh_gui g)) with
      | (Some a, q) => (put_writer q (put_store (run_writer [a] (gs_store (sh_gui g))) g), tt)
      | (None, q) => (g, tt) end)) = sh_app g) by (by destruct (recv _) as [[] ?]).
    split; [by rewrite E|]. split; [by apply quiet_same; rewrite E|done].
  - by quiet_section.
Qed.

Lemma sections_tidy h : tidy None (sections h).
Proof.
  destruct (about h) eqn:Ha; [|by apply untouched_tidy, sections_untouched].
  destruct h as [i|i f|i now|n st now bytes peer|n st k by_|n now_of now|n ok body
    |n now_of now sent|now stamp_of| |now days]; cbn [about sections] in *; try done.
  - unfold frame_sections. destruct (frame_envelope f) as [[a|hb|h|sn|hs]|]; try done.
    apply bool_decide_eq_true in Ha. by apply tidy_alert.
  - apply bool_decide_eq_true in Ha. by apply tidy_line.
  - apply bool_decide_eq_true in Ha as ->. apply tidy_resolve.
  - apply tidy_clear.
  - apply tidy_watch.
Qed.

End fingerprint.

(** * Runs of the pool *)

(** The state is well formed; every task keeps it so, and leaves alone every
    fingerprint its handler is not about. *)
Record pool_ok (p : Pool) : Prop := {
  ok_wf : app_wf (po_app p);
  ok_safe t h q : po_tasks p !! t = Some (h, q) -> safe q;
  ok_untouched t h q fp : po_tasks p !! t = Some (h, q) -> about fp h = false -> untouched fp q
}.

Lemma pool_ok_start store writer config : pool_ok (pool_start store writer config).
Proof.
  split; [apply app_new_wf| |]; intros t h q; simpl; by rewrite lookup_empty.
Qed.

Lemma pool_ok_move m p p' : pool_ok p -> move m p = Some p' -> pool_ok p'.
Proof.
  intros [Hwf Hs Hu] Hm. destruct m as [h|t]; simpl in Hm.
  - destruct (po_tasks p !! task_of h); simplify_eq. split; [done| |]; simpl.
    + intros t h' q [[<- [= <- <-]]|[_ Hl]]%lookup_insert_Some; [|by eapply Hs].
      by apply (tidy_safe "" _ None), sections_tidy.
    + intros t h' q fp [[<- [= <- <-]]|[_ Hl]]%lookup_insert_Some; [|by eapply Hu].
      apply sections_untouched.
  - destruct (po_tasks p !! t) as [[h [|f k]]|] eqn:Et; simplify_eq.
    + split; [done| |]; simpl.
      * intros t' h' q [_ Hl]%lookup_delete_Some. by eapply Hs.
      * intros t' h' q fp [_ Hl]%lookup_delete_Some. by eapply Hu.
    + destruct (Hs _ _ _ Et _ Hwf) as [Hwf' Hk]. split; [done| |]; simpl.
      * intros t' h' q [[<- [= <- <-]]|[_ Hl]]%lookup_insert_Some; [done|by eapply Hs].
      * intros t' h' q fp [[<- [= <- <-]]|[_ Hl]]%lookup_insert_Some; [|by eapply Hu].
        intros Ha. by apply (Hu _ _ _ fp Et Ha).
Qed.

Lemma pool_ok_steps p p' : pool_ok p -> rtc pstep p p' -> pool_ok p'.
Proof.
  intros Hp Hs. induction Hs as [|p1 p2 p3 [m Hm] _ IH]; [done|].
  apply IH. by eapply pool_ok_move.
Qed.

(** * What a client shows *)

Section client.
Context (fp : string).

(** No task is inside a handler about the fingerprint. *)
Definition idle (p : Pool) : Prop :=
  map_Forall (fun _ hq => about fp (fst hq) = false) (po_tasks p).

(** At most one task is. *)
Definition alone (p : Pool) : Prop :=
  map_Forall (fun t hq => about fp (fst hq) = true ->
    map_Forall (fun t' hq' => about fp (fst hq') = true -> t' = t) (po_tasks p)) (po_tasks p).

#[global] Instance idle_dec p : Decision (idle p).
Proof. apply _. Defined.
#[global] Instance alone_dec p : Decision (alone p).
Proof. apply _. Defined.

(** A step after which handlers about the fingerprint still do not overlap. *)
Definition undisturbed (p p' : Pool) : Prop := pstep p p' /\ alone p'.

Lemma undisturbed_steps p p' : rtc undisturbed p p' -> rtc pstep p p'.
Proof. apply rtc_subrel. by intros ?? [? _]. Qed.

Lemma idle_alone p : idle p -> alone p.
Proof. intros Hi t hq Ht Ha. by rewrite (Hi t hq Ht) in Ha. Qed.

(** The client started from [m] when the broadcasts were [base]: one task owes it
    [owed] about the fingerprint, or it shows what the collector holds. *)
Definition follows (m : gmap string Alert) (base : list Envelope) (p : Pool) : Prop :=
  exists owed feed,
    app_fanout (po_app p) = base ++ feed
    /\ (forall t h q, po_tasks p !! t = Some (h, q) -> about fp h = true -> tidy fp owed q)
    /\ (idle p -> owed = None)
    /\ match owed with
       | None => replay m feed !! fp = app_firing (po_app p) !! fp
       | Some v => app_firing (po_app p) !! fp = v
       end.

Lemma replay_app m l1 l2 : replay m (l1 ++ l2) = replay (replay m l1) l2.
Proof. unfold replay. by rewrite foldl_app. Qed.

Lemma about_dec h : about fp h = true \/ about fp h = false.
Proof. destruct (about fp h); auto. Qed.

(** A task at work: the pool after its next section. *)
Definition at_work (t : Task) (h : Handler) (f : Shared -> Shared) (k : Shared -> Prog Shared)
    (p : Pool) : Pool :=
  mkPool (f (po_shared p)) (<[t := (h, k (po_shared p))]> (po_tasks p)).

Lemma idle_at_work t h f k p q :
  po_tasks p !! t = Some (h, q) -> idle (at_work t h f k p) -> about fp h = false /\ idle p.
Proof.
  intros Et Hidle. pose proof (Hidle t _ (lookup_insert_eq _ _ _)) as Ha. split; [done|].
  intros t' hq Hl. destruct (decide (t = t')) as [<-|Hne].
  - rewrite Et in Hl. by simplify_eq.
  - apply (Hidle t'). simpl. by rewrite lookup_insert_ne.
Qed.

Lemma follows_begin m base h p :
  po_tasks p !! task_of h = None ->
  let p' := mkPool (po_shared p) (<[task_of h := (h, sections h)]> (po_tasks p)) in
  alone p' -> follows m base p -> follows m base p'.
Proof.
  intros Eh p' Hal' (owed & feed & Hf & Ht & Hi & Hv). exists owed, feed.
  assert (Hother : forall t hq, po_tasks p !! t = Some hq -> task_of h <> t)
    by (intros t hq Hl <-; by rewrite Eh in Hl).
  assert (Ho : about fp h = true -> owed = None).
  { intros Ha. apply Hi. intros t [h' q'] Hl. simpl. pose proof (Hother _ _ Hl) as Hne.
    destruct (about_dec h') as [Ha'|]; [|done]. exfalso. apply Hne. symmetry.
    apply (Hal' _ _ (lookup_insert_eq _ _ _) Ha t (h', q')); [|done]. simpl.
    by rewrite lookup_insert_ne. }
  split; [done|]. split; [|split; [|done]]; simpl.
  - intros t h' q [[<- [= <- <-]]|[_ Hl]]%lookup_insert_Some Ha; [|by eapply Ht].
    rewrite (Ho Ha). apply sections_tidy.
  - intros Hidle. apply Hi. intros t hq Hl. apply (Hidle t). simpl.
    rewrite lookup_insert_ne; [done|by eapply Hother].
Qed.

Lemma follows_end m base t h p :
  po_tasks p !! t = Some (h, Done) -> follows m base p ->
  follows m base (mkPool (po_shared p) (delete t (po_tasks p))).
Proof.
  intros Et (owed & feed & Hf & Ht & Hi & Hv). exists owed, feed.
  split; [done|]. split; [|split; [|done]]; simpl.
  - intros t' h' q [_ Hl]%lookup_delete_Some. by eapply Ht.
  - intros Hidle. destruct (about_dec h) as [Ha|Ha]; [exact (Ht _ _ _ Et Ha)|].
    apply Hi. intros t' hq Hl. destruct (decide (t = t')) as [<-|Hne].
    + by rewrite Et in Hl; simplify_eq.
    + apply (Hidle t'). simpl. by rewrite lookup_delete_ne.
Qed.

Lemma follows_other m base t h f k p :
  pool_ok p -> po_tasks p !! t = Some (h, Sec f k) -> about fp h = false ->
  follows m base p -> follows m base (at_work t h f k p).
Proof.
  intros Hok Et Ha (owed & feed & Hf & Ht & Hi & Hv).
  destruct (ok_untouched _ Hok _ _ _ fp Et Ha _ (ok_wf _ Hok)) as (_ & [Hqf (fd & Hqb & Hqr)] & _).
  unfold follows, at_work, po_app in *. exists owed, (feed ++ fd). simpl. split; [|split; [|split]].
  - by rewrite Hqb, Hf, app_assoc.
  - intros t' h' q [[<- [= <- <-]]|[_ Hl]]%lookup_insert_Some Ha'; [by rewrite Ha in Ha'|].
    by eapply Ht.
  - intros Hidle. by apply Hi, (idle_at_work t h f k p _ Et).
  - rewrite Hqf. destruct owed; [done|]. by rewrite replay_app, Hqr.
Qed.

Lemma follows_about m base t h f k p :
  pool_ok p -> alone p -> po_tasks p !! t = Some (h, Sec f k) -> about fp h = true ->
  follows m base p -> follows m base (at_work t h f k p).
Proof.
  intros Hok Hal Et Ha (owed & feed & Hf & Ht & Hi & Hv).
  assert (Honly : forall o t' h' q, tidy fp o (k (po_shared p)) ->
            <[t:=(h, k (po_shared p))]> (po_tasks p) !! t' = Some (h', q) ->
            about fp h' = true -> tidy fp o q).
  { intros o t' h' q Hq [[<- [= <- <-]]|[Hne Hl]]%lookup_insert_Some Ha'; [done|].
    destruct Hne. symmetry. by apply (Hal t _ Et Ha t' (h', q)). }
  assert (Hbusy : forall P, idle (at_work t h f k p) -> P)
    by (intros P Hidle; apply (idle_at_work t h f k p _ Et) in Hidle as [Hc _]; by rewrite Ha in Hc).
  unfold follows, at_work, po_app in *.
  destruct (Ht _ _ _ Et Ha _ (ok_wf _ Hok)) as
    [_ [[[Hqf (fd & Hqb & Hqr)] Hk]|[(-> & Hb & Hk)|(v & e & -> & Hqf & Hb & He & Hk)]]].
  - exists owed, (feed ++ fd). split; [simpl; by rewrite Hqb, Hf, app_assoc|].
    split; [intros t' h' q; by apply Honly|]. split; [apply Hbusy|]. simpl.
    rewrite Hqf. destruct owed; [done|]. by rewrite replay_app, Hqr.
  - exists (Some (app_firing (sh_app (f (po_shared p))) !! fp)), feed.
    split; [simpl; by rewrite Hb|].
    split; [intros t' h' q; by apply Honly|]. split; [apply Hbusy|done].
  - exists None, (feed ++ [e]). split; [simpl; by rewrite Hb, Hf, app_assoc|].
    split; [intros t' h' q; by apply Honly|]. split; [done|]. simpl.
    rewrite replay_app. simpl. by rewrite He, Hqf.
Qed.

Lemma follows_move m base mv p p' :
  pool_ok p -> alone p -> alone p' -> move mv p = Some p' ->
  follows m base p -> follows m base p'.
Proof.
  intros Hok Hal Hal' Hm. destruct mv as [h|t]; simpl in Hm.
  - destruct (po_tasks p !! task_of h) eqn:Eh; simplify_eq. by apply follows_begin.
  - destruct (po_tasks p !! t) as [[h [|f k]]|] eqn:Et; simplify_eq.
    + by eapply follows_end.
    + destruct (about_dec h); [by apply follows_about|by apply follows_other].
Qed.


(** Where no handler about the fingerprint is running, any client state that has
    it right follows. *)
Lemma follows_idle m p :
  idle p -> m !! fp = app_firing (po_app p) !! fp -> follows m (app_fanout (po_app p)) p.
Proof.
  intros Hi Hm. exists None, []. rewrite app_nil_r. split; [done|].
  split; [|done]. intros t h q Hl Ha. specialize (Hi _ _ Hl). simpl in Hi. by rewrite Ha in Hi.
Qed.


(** If every handler about the fingerprint runs on one task, as all the alerts of one
    agent do on its connection, none overlap. *)
Definition on_task (t : Task) (p p' : Pool) : Prop :=
  exists mv, move mv p = Some p'
    /\ forall h, mv = Begin h -> about fp h = true -> task_of h = t.

Lemma on_task_undisturbed t p p' :
  (forall t' hq, po_tasks p !! t' = Some hq -> about fp (fst hq) = true -> t' = t) ->
  rtc (on_task t) p p' ->
  rtc undisturbed p p'
  /\ (forall t' hq, po_tasks p' !! t' = Some hq -> about fp (fst hq) = true -> t' = t).
Proof.
  intros Hp Hr. induction Hr as [p|p1 p2 p3 (mv & Hm & Hb) _ IH]; [by split|].
  assert (H2 : forall t' hq, po_tasks p2 !! t' = Some hq -> about fp (fst hq) = true -> t' = t).
  { destruct mv as [h|t0]; simpl in Hm.
    - destruct (po_tasks p1 !! task_of h); simplify_eq. simpl.
      intros t' hq [[<- <-]|[_ Hl]]%lookup_insert_Some Ha; [by apply Hb|by eapply Hp].
    - destruct (po_tasks p1 !! t0) as [[h [|f k]]|] eqn:E; simplify_eq; simpl.
      + intros t' hq [_ Hl]%lookup_delete_Some. by apply Hp.
      + intros t' hq [[<- <-]|[_ Hl]]%lookup_insert_Some Ha; [by eapply Hp|by eapply Hp]. }
  destruct (IH H2) as [Hu H3]. split; [|done]. eapply rtc_l; [|exact Hu].
  split; [by exists mv|]. intros t1 hq1 Hl1 Ha1 t2 hq2 Hl2 Ha2.
  by rewrite (H2 _ _ Hl1 Ha1), (H2 _ _ Hl2 Ha2).
Qed.

End client.

(** * The subscription of a client *)

(** The moves that run the rest of a task with nothing in between. *)
Definition play (ms : list Move) (p : Pool) : option Pool :=
  foldl (fun o mv => o ≫= move mv) (Some p) ms.

Lemma play_cons mv ms p : play (mv :: ms) p = move mv p ≫= play ms.
Proof.
  unfold play. simpl. destruct (move mv p) as [p'|]; [done|]. simpl. by induction ms.
Qed.

Lemma play_app ms1 ms2 p : play (ms1 ++ ms2) p = play ms1 p ≫= play ms2.
Proof.
  revert p. induction ms1 as [|mv ms1 IH]; intros p; [done|]. cbn [app].
  rewrite !play_cons. destruct (move mv p); simpl; [apply IH|done].
Qed.

Lemma play_rtc ms p p' : play ms p = Some p' -> rtc pstep p p'.
Proof.
  revert p. induction ms as [|mv ms IH]; intros p; [intros [= ->]; apply rtc_refl|].
  rewrite play_cons. destruct (move mv p) as [p1|] eqn:E; simpl; [|done].
  intros Hp. eapply rtc_l; [by exists mv|by apply IH].
Qed.

Lemma play_finish t h q p :
  po_tasks p !! t = Some (h, q) ->
  exists k, play (repeat (Next t) k) p
            = Some (mkPool (run q (po_shared p)) (delete t (po_tasks p))).
Proof.
  revert p. induction q as [|f q IH]; intros p Ht.
  - exists 1%nat. simpl. rewrite play_cons. simpl. by rewrite Ht.
  - destruct (IH (po_shared p) (mkPool (f (po_shared p)) (<[t := (h, q (po_shared p))]> (po_tasks p)))
                (lookup_insert_eq _ _ _)) as [k Hk].
    exists (S k). simpl. rewrite play_cons. simpl. rewrite Ht. simpl. rewrite Hk. simpl.
    by rewrite delete_insert_eq.
Qed.

Section subscriber.
Context (fp : string) (n : nat).

(** What client [n] shows: its snapshot, then everything broadcast since it
    subscribed. *)
Definition client_view (p : Pool) : option (gmap string Alert) :=
  (fun s => replay ∅ (EnvSnapshot (sub_snapshot s) :: drop (sub_from s) (app_fanout (po_app p))))
    <$> sh_subs (po_shared p) !! n.

Definition subscribing (p : Pool) : Prop :=
  exists now_of now sent q, po_tasks p !! TRequest n = Some (HSubscribe n now_of now sent, q).

(** A program that leaves the client's subscription alone. *)
Fixpoint keeps (q : Prog Shared) : Prop :=
  match q with
  | Done => True
  | Sec f k => forall g, sh_subs (f g) !! n = sh_subs g !! n /\ keeps (k g)
  end.

(** A program that subscribes the client, if at all, on a snapshot that has [v]. *)
Fixpoint catches (v : option Alert) (q : Prog Shared) : Prop :=
  match q with
  | Done => True
  | Sec f k => forall g, app_wf (sh_app g) -> app_firing (sh_app g) !! fp = v ->
      sh_app (f g) = sh_app g /\ catches v (k g)
      /\ (sh_subs (f g) = sh_subs g
          \/ exists sn, sh_subs (f g) = <[n := mkSub sn (length (app_fanout (sh_app g)))]> (sh_subs g)
               /\ forall m, feed_apply m (EnvSnapshot sn) !! fp = v)
  end.

Lemma catches_subscribe v now_of now sent : catches v (subscribe_sections n now_of now sent).
Proof.
  intros g Hg Hv. split; [done|]. split; [|by left]. cbv beta.
  intros g1 Hg1 Hv1. split; [done|]. split; [|by left]. cbv beta. destruct sent; [|done].
  intros g2 Hg2 Hv2. split; [done|]. split; [done|]. right. eexists. split; [done|].
  intros m. by rewrite (snapshot_firing m _ now _ (sh_app g) Hg eq_refl).
Qed.

Lemma keeps_apply a : keeps (apply_sections a).
Proof. split; [done|]. split; [done|]. by destruct (snd _). Qed.

Lemma keeps_host now st h next : keeps next -> keeps (host_sections after_s now st h next).
Proof.
  intros Hn. split; [done|]. cbv beta. case_decide; [done|]. split; [done|].
  destruct (is_online _ _ _); [|done]. split; [done|]. cbv beta.
  by destruct (snd (locked _ _)).
Qed.

Lemma keeps_sections h :
  (forall now_of now sent, h <> HSubscribe n now_of now sent) -> keeps (sections h).
Proof.
  intros Hh. destruct h as [i|i f|i now|j st now bytes peer|j st k by_|j now_of now|j ok body
    |j now_of now sent|now stamp_of| |now days]; cbn [sections].
  - done.
  - unfold frame_sections. destruct (frame_envelope f) as [[a|hb|h|sn|hs]|]; [|done..].
    split; [done|]. destruct (snd _); [done|]. split; [done|].
    destruct (is_empty _); [split; [done|]|]; apply keeps_apply.
  - intros g. cbv beta. split; [done|]. by destruct (snd _) as [[]|].
  - unfold line_sections. by destruct (is_empty _).
  - split; [done|]. by destruct (snd _).
  - intros g. cbv beta. split; [by destruct (clear_all _) as [[]|]|]. by destruct (snd _).
  - done.
  - split; [done|]. split; [done|]. cbv beta. destruct sent; [|done]. intros g'. split; [|done].
    simpl. apply lookup_insert_ne. intros ->. by eapply Hh.
  - split; [done|]. simpl. induction (map snd _); [done|]. by apply keeps_host.
  - intros g. cbv beta. by destruct (recv _) as [[] ?].
  - done.
Qed.

Definition is_sub (h : Handler) : bool :=
  match h with HSubscribe m _ _ _ => bool_decide (m = n) | _ => false end.

Lemma is_sub_keeps h : is_sub h = false -> keeps (sections h).
Proof.
  intros Hs. apply keeps_sections. intros now_of now sent ->. simpl in Hs.
  by rewrite bool_decide_true in Hs.
Qed.

Lemma is_sub_catches v h : is_sub h = true -> task_of h = TRequest n /\ catches v (sections h).
Proof.
  destruct h; try done. simpl. intros ->%bool_decide_eq_true. split; [done|].
  apply catches_subscribe.
Qed.

(** Every task runs its own handlers, and all but the client's own leave its
    subscription alone. *)
Definition pool_keeps (p : Pool) : Prop :=
  forall t h q, po_tasks p !! t = Some (h, q) -> task_of h = t /\ (is_sub h = false -> keeps q).

Lemma pool_keeps_move mv p p' : pool_keeps p -> move mv p = Some p' -> pool_keeps p'.
Proof.
  intros Hp Hm t' h' q'. destruct mv as [h|t]; simpl in Hm.
  - destruct (po_tasks p !! task_of h); simplify_eq. simpl.
    intros [[<- [= <- <-]]|[_ Hl]]%lookup_insert_Some; [|by apply Hp].
    split; [done|apply is_sub_keeps].
  - destruct (po_tasks p !! t) as [[h [|f k]]|] eqn:Et; simplify_eq; simpl.
    + intros [_ Hl]%lookup_delete_Some. by apply Hp.
    + intros [[<- [= <- <-]]|[_ Hl]]%lookup_insert_Some; [|by apply Hp].
      destruct (Hp _ _ _ Et) as [Ht Hk]. split; [done|]. intros Hs. by apply (Hk Hs (po_shared p)).
Qed.

Lemma pool_keeps_steps p p' : pool_keeps p -> rtc pstep p p' -> pool_keeps p'.
Proof.
  intros Hp Hs. induction Hs as [|p1 p2 p3 [m Hm] _ IH]; [done|].
  apply IH. by eapply pool_keeps_move.
Qed.

Lemma pool_keeps_start store writer config : pool_keeps (pool_start store writer config).
Proof. intros t h q. simpl. by rewrite lookup_empty. Qed.

(** A step in which no handler about the fingerprint runs while the client is
    subscribing, nor two at any time. *)
Definition watched (p p' : Pool) : Prop :=
  undisturbed fp p p' /\ (subscribing p' -> idle fp p').

(** The client follows from its subscription on, and a subscription in progress
    will be on a snapshot that agrees with the firing map. *)
Record attached (p : Pool) : Prop := {
  at_view s : sh_subs (po_shared p) !! n = Some s ->
    exists base, length base = sub_from s
      /\ follows fp (feed_apply ∅ (EnvSnapshot (sub_snapshot s))) base p;
  at_catches h q : po_tasks p !! TRequest n = Some (h, q) -> is_sub h = true ->
    idle fp p /\ catches (app_firing (po_app p) !! fp) q
}.

Lemma is_sub_subscribing p h q :
  po_tasks p !! TRequest n = Some (h, q) -> is_sub h = true -> subscribing p.
Proof.
  destruct h; try done. simpl. intros Ht ->%bool_decide_eq_true. by do 4 eexists.
Qed.

(** What a step of another task does to a subscription in progress. *)
Lemma untouched_firing p t h f k :
  pool_ok p -> idle fp p -> po_tasks p !! t = Some (h, Sec f k) ->
  app_firing (sh_app (f (po_shared p))) !! fp = app_firing (po_app p) !! fp.
Proof.
  intros Hok Hi Et.
  by destruct (ok_untouched _ Hok _ _ _ fp Et (Hi _ _ Et) _ (ok_wf _ Hok)) as (_ & [-> _] & _).
Qed.

(** The client's own section: it reads, or it subscribes. *)
Lemma attached_own h f k p :
  pool_ok p -> po_tasks p !! TRequest n = Some (h, Sec f k) -> is_sub h = true ->
  let p' := at_work (TRequest n) h f k p in
  idle fp p' ->
  (sh_subs (po_shared p') !! n = sh_subs (po_shared p) !! n ->
     forall s, sh_subs (po_shared p') !! n = Some s ->
       exists base, length base = sub_from s
         /\ follows fp (feed_apply ∅ (EnvSnapshot (sub_snapshot s))) base p') ->
  attached p -> attached p'.
Proof.
  intros Hok Et Eh p' Hi' Hsame [_ Hcatch]. destruct (Hcatch _ _ Et Eh) as [_ Hc].
  destruct (Hc _ (ok_wf _ Hok) eq_refl) as (Ha & Hck & Hsubs). split.
  - destruct Hsubs as [E|(sn & E & Hv)]; [apply Hsame; simpl; by rewrite E|].
    simpl. rewrite E. intros s. rewrite lookup_insert_eq. intros [= <-].
    exists (app_fanout (po_app p)). split; [done|]. simpl.
    replace (app_fanout (po_app p)) with (app_fanout (po_app p'))
      by (unfold p', at_work, po_app; simpl; by rewrite Ha).
    apply follows_idle; [exact Hi'|]. etransitivity; [apply (Hv ∅)|].
    unfold p', at_work, po_app. simpl. by rewrite Ha.
  - simpl. rewrite lookup_insert_eq. intros h' q [= <- <-] _. split; [exact Hi'|].
    unfold p', at_work, po_app. simpl. by rewrite Ha.
Qed.

Lemma attached_move mv p p' :
  pool_ok p -> pool_keeps p -> alone fp p -> alone fp p' -> (subscribing p' -> idle fp p') ->
  move mv p = Some p' -> attached p -> attached p'.
Proof.
  intros Hok Hkeep Hal Hal' Hsub Hm [Hview Hcatch].
  assert (Hfollow : forall m base, follows fp m base p -> follows fp m base p')
    by (intros m base; by eapply follows_move).
  assert (Hidle : forall h q, po_tasks p' !! TRequest n = Some (h, q) -> is_sub h = true -> idle fp p')
    by (intros h q Hl Hs; by eapply Hsub, is_sub_subscribing).
  assert (Hsame : sh_subs (po_shared p') !! n = sh_subs (po_shared p) !! n ->
            forall s, sh_subs (po_shared p') !! n = Some s ->
              exists base, length base = sub_from s
                /\ follows fp (feed_apply ∅ (EnvSnapshot (sub_snapshot s))) base p').
  { intros -> s Hs. destruct (Hview _ Hs) as (base & Hl & Hf). exists base. split; auto. }
  destruct mv as [h|t]; simpl in Hm.
  - destruct (po_tasks p !! task_of h); simplify_eq. split; [by apply Hsame|]. simpl in *.
    intros h' q Hl Hs. split; [by eapply Hidle|].
    apply lookup_insert_Some in Hl as [[_ [= <- <-]]|[_ Hl]]; [|by apply (Hcatch h')].
    by apply is_sub_catches.
  - destruct (po_tasks p !! t) as [[h [|f k]]|] eqn:Et; simplify_eq.
    + split; [by apply Hsame|]. simpl in *. intros h' q Hl Hs. split; [by eapply Hidle|].
      apply lookup_delete_Some in Hl as [_ Hl]. by apply (Hcatch h').
    + destruct (Hkeep _ _ _ Et) as [Ht Hk]. destruct (is_sub h) eqn:Eh.
      * destruct (is_sub_catches None h Eh) as [Ht' _]. rewrite <- Ht, Ht' in *.
        apply (attached_own h f k p); try done.
        exact (Hidle _ _ (lookup_insert_eq _ _ _) Eh).
      * destruct (Hk eq_refl (po_shared p)) as [E _]. split; [by apply Hsame|]. simpl.
        intros h' q Hl Hs. split; [by eapply Hidle|].
        apply lookup_insert_Some in Hl as [[_ [= <- <-]]|[_ Hl]]; [by rewrite Eh in Hs|].
        destruct (Hcatch _ _ Hl Hs) as [Hi Hc]. unfold po_app. simpl.
        by rewrite (untouched_firing p t h f k Hok Hi Et).
Qed.

Lemma attached_run p p' :
  pool_ok p -> pool_keeps p -> alone fp p -> rtc watched p p' -> attached p -> attached p'.
Proof.
  intros Hok Hk Hal Hr. induction Hr as [|p1 p2 p3 [[[mv Hm] Hal2] Hs] _ IH]; [done|].
  intros Ha. apply IH; [by eapply pool_ok_move|by eapply pool_keeps_move|done|].
  by eapply attached_move.
Qed.

Lemma ingest_fires a (st : IngestState C) :
  host_in_maintenance (al_host_id a) (ig_app st) = false -> al_state a = Firing ->
  is_Some (app_firing (ig_app (ingest_alert a st)) !! al_fingerprint a).
Proof.
  intros Hm Hs. unfold ingest_alert. rewrite Hm. cbn [ig_app].
  set (s1 := touch_host _ _ _ _ _). set (a1 := stamp_ip s1 a).
  assert (E : al_fingerprint a1 = al_fingerprint a /\ al_state a1 = Firing)
    by (unfold a1, stamp_ip; destruct (is_empty _), a; by split).
  destruct E as [<- Hs1].
  assert (Hl : app_firing (fst (apply_alert a1 s1)) !! al_fingerprint a1 = Some a1)
    by (rewrite apply_alert_firing, Hs1; apply lookup_insert_eq).
  destruct (snd (apply_alert a1 s1)); by eexists.
Qed.

(** The three sections of a subscription, with a whole frame of a connection between
    the first two. *)
Definition gap_moves (i : nat) (f : Frame) (now_of : string -> DateTime) (now : DateTime)
    (k : nat) : list Move :=
  Begin (HSubscribe n now_of now true) :: Next (TRequest n) :: Begin (HFrame i f)
    :: repeat (Next (TConn i)) k ++ repeat (Next (TRequest n)) 3.

Lemma play_gap i f now_of now p :
  po_tasks p !! TRequest n = None -> po_tasks p !! TConn i = None ->
  let g := run (frame_sections i f) (po_shared p) in
  exists k, play (gap_moves i f now_of now k) p
    = Some (mkPool (mkShared (sh_col g)
        (<[n := mkSub (mkSnapshot now (map snd (map_to_list (app_firing (po_app p))))
                         (sn_hosts (snapshot now_of now (sh_app g))))
                      (length (app_fanout (sh_app g)))]> (sh_subs g)))
        (po_tasks p)).
Proof.
  intros Hn Hi g. unfold gap_moves.
  set (q := match subscribe_sections n now_of now true with
            | Done => Done | Sec _ k => k (po_shared p) end).
  set (p1 := mkPool (po_shared p) (<[TConn i := (HFrame i f, frame_sections i f)]>
               (<[TRequest n := (HSubscribe n now_of now true, q)]> (po_tasks p)))).
  destruct (play_finish (TConn i) (HFrame i f) (frame_sections i f) p1) as [k Hk];
    [apply lookup_insert_eq|]. exists k.
  rewrite play_cons. simpl. rewrite Hn. simpl. rewrite play_cons. simpl.
  rewrite lookup_insert_eq. simpl. rewrite play_cons. simpl.
  rewrite !lookup_insert_ne, Hi by done. simpl. rewrite insert_insert_eq.
  change (play (repeat (Next (TConn i)) k ++ repeat (Next (TRequest n)) 3) p1 = Some
    (mkPool (mkShared (sh_col g)
        (<[n := mkSub (mkSnapshot now (map snd (map_to_list (app_firing (po_app p))))
                         (sn_hosts (snapshot now_of now (sh_app g))))
                      (length (app_fanout (sh_app g)))]> (sh_subs g)))
        (po_tasks p))).
  rewrite play_app, Hk. simpl. rewrite delete_insert_id by (by rewrite lookup_insert_ne).
  rewrite play_cons. simpl. rewrite lookup_insert_eq. simpl.
  rewrite play_cons. simpl. rewrite lookup_insert_eq. simpl.
  rewrite play_cons. simpl. rewrite lookup_insert_eq. simpl.
  rewrite !insert_insert_eq, delete_insert_id by done. done.
Qed.

(** C19: what the order of a subscription costs.  A client that connects is sent a
    snapshot and subscribes to the broadcasts afterwards.  If no handler about a
    fingerprint is in progress from the moment the snapshot reads the firing map to
    the subscription, and no two overlap later, then whenever none is in progress
    the client shows of the fingerprint exactly what the collector holds.  If
    instead an agent's alert, new to the collector, is ingested from start to end
    in between, the client does not show it although the collector holds it and
    nothing is in progress: it is in neither the snapshot nor the feed. *)
Theorem subscription_window (store : D) (writer : C Alert) (config : option string) (p1 : Pool)
    (Hreach : rtc pstep (pool_start store writer config) p1)
    (Hidle : idle fp p1) (Hnew : sh_subs (po_shared p1) !! n = None)
    (Hfree : po_tasks p1 !! TRequest n = None) :
  (forall p2 m, rtc watched p1 p2 -> idle fp p2 -> client_view p2 = Some m ->
     m !! fp = app_firing (po_app p2) !! fp)
  /\ (forall i f a now_of now, po_tasks p1 !! TConn i = None ->
       frame_envelope f = Some (EnvAlert a) -> al_fingerprint a = fp -> al_state a = Firing ->
       host_in_maintenance (al_host_id a) (po_app p1) = false ->
       app_firing (po_app p1) !! fp = None ->
       exists k p2 m, play (gap_moves i f now_of now k) p1 = Some p2 /\ idle fp p2
         /\ is_Some (app_firing (po_app p2) !! fp)
         /\ client_view p2 = Some m /\ m !! fp = None).
Proof.
  assert (Hok : pool_ok p1) by (eapply pool_ok_steps; [apply pool_ok_start|done]). split.
  - intros p2 m Hrun Hdone Hview.
    assert (Hat : attached p2).
    { eapply attached_run; [done| |by apply idle_alone|done|].
      - eapply pool_keeps_steps; [apply pool_keeps_start|done].
      - split; [by intros s; rewrite Hnew|by intros h q; rewrite Hfree]. }
    unfold client_view in Hview. destruct (sh_subs (po_shared p2) !! n) as [s|] eqn:Es; [|done].
    destruct (at_view _ Hat s Es) as (base & Hl & owed & feed & Hf & _ & Ho & Hv).
    rewrite (Ho Hdone) in Hv. simpl in Hview. injection Hview as <-.
    rewrite Hf, <- Hl, drop_app_length. exact Hv.
  - intros i f a now_of now Hi Hf <- Hs Hm Hnone.
    destruct (play_gap i f now_of now p1 Hfree Hi) as [k Hk].
    exists k. eexists _, _. split; [exact Hk|]. split; [exact Hidle|]. split; [|split; [|]].
    + unfold po_app. simpl.
      unfold frame_sections. rewrite Hf. cbn [envelope_sections]. rewrite run_alert.
      by apply (ingest_fires a (gui_ingest (sh_gui (po_shared p1)))).
    + unfold client_view. simpl. by rewrite lookup_insert_eq.
    + cbn [sub_snapshot sub_from].
      change (app_fanout (po_app _))
        with (app_fanout (sh_app (run (frame_sections i f) (po_shared p1)))).
      rewrite drop_all. unfold replay. cbn [foldl].
      rewrite (snapshot_firing ∅ _ now (sn_hosts (snapshot now_of now
        (sh_app (run (frame_sections i f) (po_shared p1))))) (po_app p1) (ok_wf _ Hok) eq_refl).
      exact Hnone.
Qed.

End subscriber.

End handlers.

(** * A concrete interleaving *)

(** A codec that knows one message. *)
Definition CodecOne : Codec :=
  {| encode _ := None;
     decode t := if decide (t = "alert") then Some (EnvAlert ref_alert) else None;
     encode_alert a := Some (al_id a);
     decode_alert _ := None |}.

#[local] Existing Instances CodecOne ChronoRef.

Abbreviation RefPool := (@Pool BoundedQueue (list Row)).



Definition ref_pool : RefPool := pool_start 10 [] (mkBounded 4 []) None.





Lemma subscription_window_witness :
  exists k p2 m, play 10 (gap_moves 0 0 (FText "alert") (fun _ => 7) 7 k) ref_pool = Some p2
    /\ idle (al_fingerprint ref_alert) p2
    /\ is_Some (app_firing (po_app p2) !! al_fingerprint ref_alert)
    /\ client_view 0 p2 = Some m /\ m !! al_fingerprint ref_alert = None.
Proof.
  refine (proj2 (subscription_window 10 (al_fingerprint ref_alert) 0 [] (mkBounded 4 []) None
    ref_pool (rtc_refl _ _) (map_Forall_empty _) eq_refl eq_refl)
    0%nat (FText "alert") ref_alert (fun _ => 7) 7 eq_refl _ eq_refl eq_refl _ _);
    vm_compute; reflexivity.
Defined.
