(* ===== verification/Races.v ===== *)
(** A window of the GUI's resolve: between the removal of an alert and the broadcast
    of its resolved copy (src/collector/src/http.rs) another task may ingest the
    same fingerprint.  [Sections] has every handler as its sections and the
    conditions under which the feed is right; this is the overlap they exclude. *)
From S2P Require Import Prelude Text Schema Codec Channels CollectorState.
From S2P Require Import Ingest Store GuiApi CollectorSystem.

Local Open Scope Z_scope.

Section races.
Context `{!Chrono}.

(** * The sections of api_resolve *)

(** src/collector/src/http.rs:114-119 (the removal under the firing lock). *)
Definition resolve_remove (fp : string) (s : AppState) : AppState * option Alert :=
  (set_firing (delete fp (app_firing s)) s, app_firing s !! fp).

(** src/collector/src/http.rs:121-127 (the count under the hosts lock). *)
Definition resolve_count (a : Alert) (s : AppState) : AppState :=
  decrement_count (al_host_id a) s.

(** src/collector/src/http.rs:154-154 (the broadcast).  The [try_send] to the history
    writer before it does not touch the state; [Sections.resolve_sections] has it. *)
Definition resolve_broadcast (st : Stamp) (by_ : string) (a : Alert) (s : AppState) : AppState :=
  broadcast (EnvAlert (resolved_copy st by_ a)) s.

(** Without interference, the handler. *)
Lemma resolve_sections {C D} `{!Mpsc C} `{!Sqlite D} st fp by_ (g : GuiState C D) :
  gs_app (fst (api_resolve st fp by_ g))
  = match resolve_remove fp (gs_app g) with
    | (s1, Some a) => resolve_broadcast st by_ a (resolve_count a s1)
    | (s1, None) => gs_app g
    end.
Proof. unfold api_resolve, resolve_remove. by destruct (app_firing (gs_app g) !! fp). Qed.

(** C18: a resolution can hide an alert that fires again.  If, between the moment an
    operator's resolve has removed a fingerprint from the firing map and the moment
    it broadcasts the resolved copy, the agent reports the same fingerprint again,
    then the collector holds it as firing while every client that has followed the
    whole feed shows it as resolved. *)
Theorem resolve_race (st : Stamp) (by_ fp : string) (a a' : Alert) (s : AppState)
    (Hwf : app_wf s) (Hfiring : app_firing s !! fp = Some a)
    (Hagain : al_fingerprint a' = fp /\ al_state a' = Firing) :
  let s1 := fst (resolve_remove fp s) in
  let s2 := broadcast (EnvAlert a') (fst (apply_alert a' s1)) in
  let s3 := resolve_broadcast st by_ a (resolve_count a s2) in
  app_firing s3 !! fp = Some a'
  /\ exists feed, app_fanout s3 = app_fanout s ++ feed
                  /\ replay (app_firing s) feed !! fp = None.
Proof.
  destruct Hagain as [<- Hs]. intros s1 s2 s3.
  assert (Hd : forall h s0, app_firing (decrement_count h s0) = app_firing s0
                            /\ app_fanout (decrement_count h s0) = app_fanout s0)
    by (intros h s0; unfold decrement_count; cases).
  assert (Hf2 : app_firing s2 = <[al_fingerprint a' := a']> (app_firing s1)).
  { change (app_firing s2) with (app_firing (fst (apply_alert a' s1))).
    by rewrite apply_alert_firing, Hs. }
  split.
  - change (app_firing s3) with (app_firing (decrement_count (al_host_id a) s2)).
    rewrite (proj1 (Hd _ _)), Hf2. apply lookup_insert_eq.
  - exists [EnvAlert a'; EnvAlert (resolved_copy st by_ a)]. split.
    + change (app_fanout s3)
        with (app_fanout (decrement_count (al_host_id a) s2) ++ [EnvAlert (resolved_copy st by_ a)]).
      rewrite (proj2 (Hd _ _)). unfold s2. rewrite apply_broadcast_fanout, <- app_assoc. done.
    + unfold replay. simpl. rewrite Hs.
      destruct (wf_firing _ Hwf _ _ Hfiring) as [-> _]. apply lookup_delete_eq.
Qed.

End races.

#[local] Existing Instances CodecRef ChronoRef.

Lemma resolve_race_witness :
  let a := build_firing (mkStamp 1 "01") (builder_new "h" "hid" cat.THERMAL "inlet" Warning) in
  let a' := build_firing (mkStamp 2 "02") (builder_new "h" "hid" cat.THERMAL "inlet" Warning) in
  let s := fst (apply_alert a (app_new 10)) in
  let s2 := broadcast (EnvAlert a') (fst (apply_alert a' (fst (resolve_remove (al_fingerprint a) s)))) in
  app_firing (resolve_broadcast (mkStamp 3 "03") "ops" a (resolve_count a s2)) !! al_fingerprint a
  = Some a'.
Proof.
  intros a a' s s2.
  refine (proj1 (resolve_race (mkStamp 3 "03") "ops" (al_fingerprint a) a a' s _ _ _)).
  - apply apply_alert_wf, app_new_wf.
  - vm_compute. reflexivity.
  - by split.
Defined.
