(* ===== verification/EndToEnd.v ===== *)
(** The two deduplication maps together: the agent's tracker
    (src/agent/src/state.rs) and the collector's firing map
    (src/collector/src/state.rs), joined by a transport that delivers the alerts
    in the order they were emitted. *)
From S2P Require Import Prelude Text Schema Tracker CollectorState.

Local Open Scope Z_scope.

(** The collector's state after a sequence of delivered alerts. *)
Definition apply_all (s : AppState) (l : list Alert) : AppState :=
  foldl (fun s a => fst (apply_alert a s)) s l.

Lemma apply_all_snoc s l a : apply_all s (l ++ [a]) = fst (apply_alert a (apply_all s l)).
Proof. unfold apply_all. by rewrite foldl_app. Qed.

(** The firing map is a function of the log.  After any sequence of alerts,
    a fingerprint is bound exactly when the last alert that carries it is
    firing, and then to that alert. *)
Theorem firing_map_is_last_event (s : AppState) (l : list Alert) (fp : string) :
  app_firing (apply_all s l) !! fp
  = match last (filter (fun a => al_fingerprint a = fp) l) with
    | None => app_firing s !! fp
    | Some a => if decide (al_state a = Firing) then Some a else None
    end.
Proof.
  induction l as [|a l IH] using rev_ind; [done|].
  rewrite apply_all_snoc, apply_alert_firing, filter_app, filter_cons, filter_nil.
  destruct (decide (al_fingerprint a = fp)) as [<-|Hne].
  - rewrite last_snoc. destruct (al_state a); simpl.
    + by rewrite lookup_insert_eq.
    + by rewrite lookup_delete_eq.
  - rewrite app_nil_r, <- IH. destruct (al_state a).
    + by rewrite lookup_insert_ne.
    + by rewrite lookup_delete_ne.
Qed.

(** The alerts a run of a tracker hands out, in order. *)
Fixpoint tracker_alerts (t : AlertTracker) (evs : list Event) : list Alert :=
  match evs with
  | [] => []
  | ev :: evs' =>
      let r := tracker_step t ev in
      match snd r with Some a => [a] | None => [] end ++ tracker_alerts (fst r) evs'
  end.

(** The collector holds a firing alert for exactly the tracked fingerprints. *)
Definition mirrors (t : AlertTracker) (s : AppState) : Prop :=
  forall fp, is_Some (app_firing s !! fp) <-> is_Some (t_inner t !! fp).

(** One operation and the delivery of its alert keep the two maps in step. *)
Lemma mirrors_step t ev s :
  tracker_wf t -> mirrors t s ->
  mirrors (fst (tracker_step t ev))
    (match snd (tracker_step t ev) with
     | Some a => fst (apply_alert a s)
     | None => s
     end).
Proof.
  intros Hwf Hm fp. destruct (tracker_step t ev) as [t' [a|]] eqn:E; simpl.
  - destruct (tracker_step_alert _ _ _ _ Hwf E) as [Hfp Hst]. rewrite apply_alert_firing.
    destruct (decide (event_fp ev = fp)) as [<-|Hne].
    + rewrite Hst, Hfp. destruct (al_state a).
      * by rewrite lookup_insert_eq.
      * rewrite lookup_delete_eq. by split; [intros [??]|].
    + pose proof (tracker_step_frame t ev fp Hne) as Hf. rewrite E in Hf. simpl in Hf.
      rewrite Hf, <- Hfp in *. destruct (al_state a).
      * by rewrite lookup_insert_ne.
      * by rewrite lookup_delete_ne.
  - by rewrite (tracker_step_silent _ _ _ fp E).
Qed.

Lemma mirrors_run t evs s :
  tracker_wf t -> mirrors t s ->
  mirrors (tracker_run t evs) (apply_all s (tracker_alerts t evs)).
Proof.
  revert t s. induction evs as [|ev evs IH]; intros t s Hwf Hm; [done|].
  pose proof (mirrors_step t ev s Hwf Hm) as Hstep.
  simpl. unfold apply_all. rewrite foldl_app.
  apply IH; [by apply tracker_step_wf|]. by destruct (snd (tracker_step t ev)).
Qed.

(** Agent and collector agree.  Whatever a module observes, clears or
    force-resolves, once the alerts its tracker handed out have been applied in
    order, the collector shows a firing alert for exactly the fingerprints the
    tracker is still tracking: nothing is lost by suppression, and no resolution
    misses its alert. *)
Theorem collector_mirrors_tracker (re_notify recovery : Duration)
    (evs : list Event) (after_s : Z) :
  mirrors (tracker_run (tracker_new re_notify recovery) evs)
    (apply_all (app_new after_s)
       (tracker_alerts (tracker_new re_notify recovery) evs)).
Proof.
  apply mirrors_run; [apply tracker_wf_new|]. intros fp. simpl. by rewrite !lookup_empty.
Qed.
