(* ===== verification/Regex.v ===== *)
(** The [regex] crate as an interface.

    Compiling a pattern can fail; a compiled pattern matches or does not, and
    gives the captured groups of its leftmost match ([None] for a group that
    took no part; group 0 is the whole match). *)
From S2P Require Import Prelude Text.

Class RegexEngine : Type := {
  Regex : Type;
  re_new : string -> option Regex;
  is_match : Regex -> string -> bool;
  captures : Regex -> string -> option (list (option string))
}.

(** [is_match] and [captures] agree on whether there is a match. *)
Class RegexLaws `{RegexEngine} : Prop := {
  is_match_captures re s : is_match re s = true <-> is_Some (captures re s)
}.

(** Group [i] of a match. *)
Definition group (i : nat) (gs : list (option string)) : option string :=
  mjoin (gs !! i).

(** The text of a group that takes part in every match of its pattern. *)
Definition grp (i : nat) (c : list (option string)) : string := default "" (group i c).

(** A literal-substring engine, for the concrete runs. *)
Definition LiteralRegex : RegexEngine :=
  {| Regex := string;
     re_new p := Some p;
     is_match p s := contains p s;
     captures p s := if contains p s then Some [Some p] else None |}.
Definition LiteralRegex_laws : @RegexLaws LiteralRegex.
Proof.
  split. intros p s. simpl. destruct (contains p s); split; try done; intros [? ?]; done.
Qed.

(** [RegexSet]: one bad pattern spoils the set; a text matches when any pattern
    does. *)
Section regex_set.
Context `{RegexEngine}.
Definition regex_set_new (ps : list string) : option (list Regex) := mapM re_new ps.
Definition set_is_match (set : list Regex) (s : string) : bool :=
  existsb (fun re => is_match re s) set.
End regex_set.
