(* ===== verification/Webhooks.v ===== *)
(** The outbound webhooks (src/collector/src/webhooks.rs): filtering, the
    sliding-window rate limit, delivery with its retry, and the message bodies.

    The HTTP client and the broadcast receiver are not part of this repository:
    what they answer is the input of the definitions. *)
From S2P Require Import Prelude Text Schema Channels CollectorState Regex.
From Stdlib Require Import Ascii.

Local Open Scope string_scope.
Local Open Scope Z_scope.

(** src/collector/src/webhooks.rs:27-56 (WebhookCfg). *)
Record WebhookCfg : Type := mkWebhook {
  wh_name : string;
  wh_kind : string;
  wh_url : string;
  wh_severity_min : string;
  wh_states : list string;
  wh_notify_on_resolved : bool;
  wh_host_filter : option string;
  wh_category_filter : option string;
  wh_rate_limit_per_min : Z;
  wh_gui_url : string;
  wh_insecure_tls : bool
}.

(** src/collector/src/webhooks.rs:58-60 (default_sev_min, default_states, default_rate). *)
Definition default_webhook (name kind url : string) : WebhookCfg :=
  mkWebhook name kind url "warning" ["firing"] false None None 60 "" false.

(** src/collector/src/webhooks.rs:62-71 (effective_delivery_states). *)
Definition effective_delivery_states (cfg : WebhookCfg) : list string :=
  let s := wh_states cfg in
  let s1 := if wh_notify_on_resolved cfg
               && negb (existsb (fun x => eq_ignore_ascii_case x "resolved") s)
            then (s ++ ["resolved"])%list else s in
  match s1 with [] => ["firing"] | _ => s1 end.

(** src/collector/src/webhooks.rs:151-157 (parse_sev). *)
Definition parse_sev (s : string) : Severity :=
  let l := to_lowercase s in
  if decide (l = "critical") then Critical
  else if decide (l = "warning") then Warning
  else Info.

Definition state_word (s : AlertState) : string :=
  match s with Firing => "firing" | Resolved => "resolved" end.

Section webhooks.
Context `{RegexEngine} `{Chrono}.

(** src/collector/src/webhooks.rs:159-168 (passes_filters). *)
Definition passes_filters (a : Alert) (sev_min : Severity) (states : list string)
    (host_re cat_re : option Regex) : bool :=
  if severity_lt (al_severity a) sev_min then false
  else if negb (existsb (fun s => eq_ignore_ascii_case s (state_word (al_state a))) states)
  then false
  else if match host_re with Some re => negb (is_match re (al_host a)) | None => false end
  then false
  else if match cat_re with Some re => negb (is_match re (al_category a)) | None => false end
  then false
  else true.

(** * Message bodies *)

(** src/collector/src/webhooks.rs:207-224 (the words of format_slack). *)
Definition slack_color (s : Severity) : string :=
  match s with Critical => "#e5484d" | Warning => "#ffba18" | Info => "#3e63dd" end.
Definition slack_icon (s : Severity) : string :=
  match s with
  | Critical => ":rotating_light:"
  | Warning => ":warning:"
  | Info => ":information_source:"
  end.
Definition slack_state_emoji (s : AlertState) : string :=
  match s with Firing => ":fire:" | Resolved => ":white_check_mark:" end.
Definition state_upper (s : AlertState) : string :=
  match s with Firing => "FIRING" | Resolved => "RESOLVED" end.

Definition severity_upper (s : Severity) : string :=
  to_ascii_uppercase (severity_as_str s).

Definition mrkdwn (text : string) : Value :=
  VObject [("type", VString "mrkdwn"); ("text", VString text)].

(** src/collector/src/webhooks.rs:206-273 (format_slack). *)
Definition format_slack (a : Alert) (gui_url : string) : Value :=
  let header :=
    VObject [("type", VString "header");
             ("text", VObject [("type", VString "plain_text");
                ("text", VString (slack_state_emoji (al_state a) +:+ " "
                           +:+ slack_icon (al_severity a) +:+ " " +:+ al_title a))])] in
  let message :=
    VObject [("type", VString "section");
             ("text", mrkdwn ("*" +:+ al_host a +:+ "*" +:+ nl +:+ al_message a))] in
  let fields :=
    VObject [("type", VString "section");
             ("fields", VArray [
                mrkdwn ("*Severity:*" +:+ nl +:+ severity_upper (al_severity a));
                mrkdwn ("*State:*" +:+ nl +:+ state_upper (al_state a));
                mrkdwn ("*Category:*" +:+ nl +:+ al_category a);
                mrkdwn ("*Device:*" +:+ nl +:+ default "-" (al_device a));
                mrkdwn ("*First seen:*" +:+ nl +:+ to_rfc3339 (al_first_seen a));
                mrkdwn ("*Occurrences:*" +:+ nl +:+ show (al_occurrences a))])] in
  let button :=
    VObject [("type", VString "actions");
             ("elements", VArray [
                VObject [("type", VString "button");
                         ("text", VObject [("type", VString "plain_text");
                                           ("text", VString "View in UMA")]);
                         ("url", VString gui_url);
                         ("style", VString (if decide (al_severity a = Critical)
                                            then "danger" else "primary"))]])] in
  let context :=
    VObject [("type", VString "context");
             ("elements", VArray [
                mrkdwn ("Fingerprint: `" +:+ al_fingerprint a +:+ "`")])] in
  let blocks := ([header; message; fields]
                 ++ (if is_empty gui_url then [] else [button]) ++ [context])%list in
  VObject [("attachments", VArray [
    VObject [("color", VString (slack_color (al_severity a)));
             ("blocks", VArray blocks);
             ("fallback", VString (state_upper (al_state a) +:+ " "
                +:+ severity_as_str (al_severity a) +:+ " on " +:+ al_host a
                +:+ ": " +:+ al_title a))]])].

Definition gchat_icon (s : Severity) : string :=
  match s with Critical => "🔴" | Warning => "🟡" | Info => "🔵" end.

Definition decorated (label text : string) : Value :=
  VObject [("decoratedText", VObject [("topLabel", VString label);
                                      ("text", VString text)])].

(** src/collector/src/webhooks.rs:275-331 (format_gchat). *)
Definition format_gchat (a : Alert) (gui_url : string) : Value :=
  let widgets :=
    [VObject [("textParagraph", VObject [("text", VString (al_message a))])];
     decorated "Host" (al_host a);
     decorated "Category / metric" (al_category a +:+ " / " +:+ al_metric a);
     decorated "Severity / State" (severity_upper (al_severity a) +:+ " / "
                                   +:+ state_upper (al_state a));
     decorated "First seen" (to_rfc3339 (al_first_seen a))] in
  let occurrences :=
    if 1 <? al_occurrences a
    then [decorated "Occurrences" (show (al_occurrences a))] else [] in
  let button :=
    if is_empty gui_url then []
    else [VObject [("buttonList", VObject [("buttons", VArray [
            VObject [("text", VString "View in UMA");
                     ("onClick", VObject [("openLink",
                        VObject [("url", VString gui_url)])])]])])]] in
  VObject [("cardsV2", VArray [
    VObject [("cardId", VString (al_fingerprint a));
             ("card", VObject [
                ("header", VObject [
                   ("title", VString (gchat_icon (al_severity a) +:+ " " +:+ al_title a));
                   ("subtitle", VString (al_host a +:+ " · "
                                         +:+ severity_upper (al_severity a)));
                   ("imageType", VString "CIRCLE")]);
                ("sections", VArray [VObject [("widgets",
                   VArray (widgets ++ occurrences ++ button)%list)]])])]])].

(** [format_generic] is the alert's own JSON form, which [serde] derives. *)
Context (alert_json : Alert -> Value).

(** src/collector/src/webhooks.rs:132-137 (the choice of a body in run_one). *)
Definition format_body (cfg : WebhookCfg) (a : Alert) : option Value :=
  if decide (wh_kind cfg = "slack") then Some (format_slack a (wh_gui_url cfg))
  else if decide (wh_kind cfg = "google_chat" \/ wh_kind cfg = "gchat")
  then Some (format_gchat a (wh_gui_url cfg))
  else if decide (wh_kind cfg = "generic_json") then Some (alert_json a)
  else None.

(** * The subscriber loop *)

Definition Received : Type := BRecv Envelope.

(** The filters run_one compiles once; a pattern that does not compile filters
    nothing. *)
Record Filters : Type := mkFilters {
  f_sev_min : Severity;
  f_states : list string;
  f_host_re : option Regex;
  f_cat_re : option Regex
}.

(** src/collector/src/webhooks.rs:87-90 (the set-up of run_one). *)
Definition compile_filters (cfg : WebhookCfg) : Filters :=
  mkFilters (parse_sev (wh_severity_min cfg)) (effective_delivery_states cfg)
    (s ← wh_host_filter cfg; re_new s) (s ← wh_category_filter cfg; re_new s).

Definition window_dur : Duration := from_secs 60.

(** src/collector/src/webhooks.rs:123-130 (the rate limit of run_one): whether the
    alert is let through, and the window. *)
Definition rate_limit (limit : Z) (now : Instant) (window : list Instant) :
    list Instant * bool :=
  let w := List.filter (fun t => duration_since now t <=? window_dur) window in
  if limit <=? Int.as_u32 (Z.of_nat (length w)) then (w, false) else ((w ++ [now])%list, true).

(** src/collector/src/webhooks.rs:101-140 (one turn of the loop of run_one):
    [None] ends the task; otherwise the window and the body to deliver. *)
Definition run_turn (cfg : WebhookCfg) (f : Filters) (now : Instant) (r : Received)
    (window : list Instant) : option (list Instant * option Value) :=
  match r with
  | BClosed => None
  | BLagged _ => Some (window, None)
  | BOk (EnvAlert a) =>
      if passes_filters a (f_sev_min f) (f_states f) (f_host_re f) (f_cat_re f) then
        let (w, ok) := rate_limit (wh_rate_limit_per_min cfg) now window in
        Some (w, if ok then format_body cfg a else None)
      else Some (window, None)
  | BOk _ => Some (window, None)
  end.

(** src/collector/src/webhooks.rs:97-141 (the loop of run_one): the bodies handed
    to [deliver], with the instant of each. *)
Fixpoint run_loop (cfg : WebhookCfg) (f : Filters) (evs : list (Instant * Received))
    (window : list Instant) : list (Instant * Value) :=
  match evs with
  | [] => []
  | (now, r) :: evs' =>
      match run_turn cfg f now r window with
      | None => []
      | Some (w, None) => run_loop cfg f evs' w
      | Some (w, Some v) => (now, v) :: run_loop cfg f evs' w
      end
  end.

(** src/collector/src/webhooks.rs:82-141 (run_one, after the client is built). *)
Definition run_one (cfg : WebhookCfg) (evs : list (Instant * Received)) :
    list (Instant * Value) :=
  run_loop cfg (compile_filters cfg) evs [].

(** * Delivery *)

(** The answer to one POST: a status with its [retry-after] header, or a
    transport error. *)
Inductive PostResult : Type :=
  | PostStatus (code : Z) (retry_after : option string)
  | PostError.

(** src/collector/src/webhooks.rs:173-199 (the loop of deliver), with [n] attempts
    left: the pauses taken and whether the message was accepted.  [post i] is the
    answer to attempt [i]. *)
Fixpoint deliver_loop (n : nat) (attempt : Z) (post : Z -> PostResult) :
    list Duration * bool :=
  match n with
  | O => ([], false)
  | S n' =>
      let retry (pause : Duration) :=
        let r := deliver_loop n' (attempt + 1) post in (pause :: fst r, snd r) in
      match post attempt with
      | PostStatus code after =>
          if (200 <=? code) && (code <? 300) then ([], true)
          else if code =? 429 then
            retry (from_secs (default 2 (s ← after; parse_unsigned Int.u64_max s)))
          else if negb ((500 <=? code) && (code <? 600)) then ([], false)
          else retry (from_millis 500)
      | PostError => retry (from_millis 500)
      end
  end.

(** src/collector/src/webhooks.rs:170-200 (deliver). *)
Definition deliver (post : Z -> PostResult) : list Duration * bool :=
  deliver_loop 2 1 post.

(** * The rate limit *)

(** How many instants of a list fall in the minute that ends at [t]. *)
Definition in_minute (t : Instant) (l : list Instant) : nat :=
  length (List.filter (fun x => (t - window_dur <=? x) && (x <=? t)) l).

Lemma in_minute_app t l1 l2 : in_minute t (l1 ++ l2)%list = (in_minute t l1 + in_minute t l2)%nat.
Proof. unfold in_minute. by rewrite List.filter_app, length_app. Qed.

Lemma in_minute_length t l : (in_minute t l <= length l)%nat.
Proof. apply List.filter_length_le. Qed.

Lemma in_minute_later t now l :
  t < now -> Forall (fun x => now <= x) l -> in_minute t l = 0%nat.
Proof.
  intros Ht. induction 1 as [|x l Hx _ IH]; [done|]. unfold in_minute in *. simpl.
  destruct (Z.leb_spec x t); [lia|]. by rewrite andb_false_r.
Qed.

(** Forgetting what is more than a minute old changes no count from now on. *)
Lemma in_minute_retain t now w :
  now <= t -> Forall (fun x => x <= now) w ->
  in_minute t (List.filter (fun x => duration_since now x <=? window_dur) w)
  = in_minute t w.
Proof.
  intros Ht. induction 1 as [|x w Hx _ IH]; [done|]. simpl.
  destruct (Z.leb_spec (duration_since now x) window_dur) as [Hd|Hd];
    unfold in_minute in *; simpl; unfold duration_since in Hd.
  - by destruct (_ && _); simpl; rewrite IH.
  - rewrite IH. destruct (Z.leb_spec (t - window_dur) x); [|done]. lia.
Qed.

Lemma run_loop_later cfg f evs w t0 :
  Forall (fun x => t0 <= x) (map fst evs) ->
  Forall (fun x => t0 <= x) (map fst (run_loop cfg f evs w)).
Proof.
  revert w. induction evs as [|[now r] evs IH]; intros w Hev; simpl in *; [done|].
  apply Forall_cons in Hev as [Hnow Hev].
  destruct (run_turn cfg f now r w) as [[w' [v|]]|]; simpl; [|by apply IH|done].
  constructor; [done|by apply IH].
Qed.

Definition rate_ok (cfg : WebhookCfg) : Prop := Int.is_u32 (wh_rate_limit_per_min cfg).

(** What the limiter leaves in the window. *)
Lemma rate_limit_window limit now w :
  Int.is_u32 limit -> Z.of_nat (length w) <= limit ->
  let w0 := List.filter (fun t => duration_since now t <=? window_dur) w in
  (rate_limit limit now w = (w0, false) /\ Z.of_nat (length w0) <= limit)
  \/ (rate_limit limit now w = ((w0 ++ [now])%list, true)
      /\ Z.of_nat (length w0) + 1 <= limit).
Proof.
  intros Hl Hw w0. unfold rate_limit. fold w0.
  assert (Hle : (length w0 <= length w)%nat) by apply List.filter_length_le.
  unfold Int.is_u32 in Hl. rewrite Int.as_u32_id by (unfold Int.is_u32; lia).
  destruct (Z.leb_spec limit (Z.of_nat (length w0))); [left|right];
    (split; [done|lia]).
Qed.

Lemma retained_before now w (P : Instant -> Prop) :
  Forall P w ->
  Forall P (List.filter (fun t => duration_since now t <=? window_dur) w).
Proof.
  intros Hw. induction Hw as [|x w Hx _ IH]; simpl; [done|].
  case_match; [by constructor|done].
Qed.

Lemma run_loop_rate cfg f evs w t :
  rate_ok cfg -> StronglySorted Z.le (map fst evs) ->
  Forall (fun x => Forall (fun y => x <= y) (map fst evs)) w ->
  Z.of_nat (length w) <= wh_rate_limit_per_min cfg ->
  Z.of_nat (in_minute t (w ++ map fst (run_loop cfg f evs w))%list)
  <= wh_rate_limit_per_min cfg.
Proof.
  intros Hr. revert w. induction evs as [|[now r] evs IH]; intros w Hs Hw Hl.
  { simpl. rewrite app_nil_r. pose proof (in_minute_length t w). lia. }
  simpl in Hs. apply StronglySorted_inv in Hs as [Hs Hnow].
  destruct (Z_lt_le_dec t now) as [Hlt|Hge].
  { rewrite in_minute_app, (in_minute_later t now (map fst _)); [|done|].
    - pose proof (in_minute_length t w). lia.
    - apply run_loop_later. by constructor. }
  assert (Hle : Forall (fun x => x <= now) w).
  { eapply Forall_impl; [exact Hw|]. intros x Hx. by apply Forall_cons in Hx as [? _]. }
  assert (Hw' : Forall (fun x => Forall (fun y => x <= y) (map fst evs)) w).
  { eapply Forall_impl; [exact Hw|]. intros x Hx. by apply Forall_cons in Hx as [_ ?]. }
  pose proof (IH w Hs Hw' Hl) as Hsame.
  destruct r as [e|n|]; simpl;
    [|done|rewrite app_nil_r; pose proof (in_minute_length t w); lia].
  destruct e as [a|?|?|?|?]; simpl; try done.
  destruct (passes_filters _ _ _ _ _); [|done].
  pose proof (retained_before now w _ Hw') as Hw0.
  pose proof (in_minute_retain t now w Hge Hle) as Hcount.
  destruct (rate_limit_window (wh_rate_limit_per_min cfg) now w Hr Hl) as [[Hrl Hn]|[Hrl Hn]];
    rewrite Hrl; set (w0 := List.filter _ w) in *.
  - rewrite in_minute_app, <- Hcount, <- in_minute_app. by apply IH.
  - assert (Hnext : Z.of_nat (in_minute t ((w0 ++ [now]) ++
        map fst (run_loop cfg f evs (w0 ++ [now])))%list) <= wh_rate_limit_per_min cfg).
    { apply IH; [done| |rewrite length_app; simpl; lia].
      apply Forall_app; split; [done|by repeat constructor]. }
    rewrite !in_minute_app in Hnext. rewrite in_minute_app.
    destruct (format_body cfg a); simpl; [|lia].
    change (now :: map fst (run_loop cfg f evs (w0 ++ [now])%list))
      with ([now] ++ map fst (run_loop cfg f evs (w0 ++ [now])%list))%list.
    rewrite in_minute_app. lia.
Qed.

(** C31: the rate limit holds over every sliding minute.  With the clock readings
    in order, the number of messages a webhook hands to delivery in any interval
    of sixty seconds is at most [rate_limit_per_min]; a limit of zero sends
    nothing. *)
Theorem webhook_rate_bound (cfg : WebhookCfg) (evs : list (Instant * Received)) (t : Instant)
    (Hrate : rate_ok cfg) (Hclock : StronglySorted Z.le (map fst evs)) :
  Z.of_nat (in_minute t (map fst (run_one cfg evs))) <= wh_rate_limit_per_min cfg.
Proof.
  apply (run_loop_rate cfg (compile_filters cfg) evs [] t); [done|done|done|].
  unfold rate_ok, Int.is_u32 in Hrate. simpl. lia.
Qed.

(** * Filters and delivery *)

Lemma existsb_states l w :
  existsb (fun s => eq_ignore_ascii_case s w) l = true
  <-> exists s, s ∈ l /\ eq_ignore_ascii_case s w = true.
Proof. rewrite existsb_exists. by setoid_rewrite list_elem_of_In. Qed.

(** Clears reach a chat channel only on request.  A resolved alert that
    passes a webhook's other filters is delivered exactly when the configuration
    sets [notify_on_resolved] or lists the state "resolved", in any case. *)
Theorem resolved_delivery_opt_in (cfg : WebhookCfg) (a : Alert) (host_re cat_re : option Regex)
    (Hres : al_state a = Resolved)
    (Hsev : severity_lt (al_severity a) (parse_sev (wh_severity_min cfg)) = false)
    (Hhost : forall re, host_re = Some re -> is_match re (al_host a) = true)
    (Hcat : forall re, cat_re = Some re -> is_match re (al_category a) = true) :
  passes_filters a (parse_sev (wh_severity_min cfg)) (effective_delivery_states cfg)
    host_re cat_re = true
  <-> wh_notify_on_resolved cfg = true
      \/ exists s, s ∈ wh_states cfg /\ eq_ignore_ascii_case s "resolved" = true.
Proof.
  unfold passes_filters. rewrite Hsev, Hres. simpl state_word.
  assert (Hh : match host_re with
               | Some re => negb (is_match re (al_host a)) | None => false end = false).
  { destruct host_re as [re|]; [by rewrite (Hhost re)|done]. }
  assert (Hc : match cat_re with
               | Some re => negb (is_match re (al_category a)) | None => false end = false).
  { destruct cat_re as [re|]; [by rewrite (Hcat re)|done]. }
  rewrite Hh, Hc. rewrite <- existsb_states. unfold effective_delivery_states.
  destruct (existsb (fun s => eq_ignore_ascii_case s "resolved") (wh_states cfg)) eqn:E.
  - rewrite andb_false_r. destruct (wh_states cfg) as [|s l]; [done|].
    rewrite E. simpl. split; auto.
  - rewrite andb_true_r. destruct (wh_notify_on_resolved cfg).
    + assert (Hx : existsb (fun s => eq_ignore_ascii_case s "resolved")
                     (wh_states cfg ++ ["resolved"])%list = true).
      { rewrite existsb_app. simpl. by rewrite orb_true_r. }
      destruct (wh_states cfg ++ ["resolved"])%list eqn:El;
        [by apply app_eq_nil in El as [_ ?]|]. rewrite Hx. simpl. split; auto.
    + destruct (wh_states cfg) as [|s l] eqn:El.
      * simpl. split; [done|]. intros [?|?]; done.
      * rewrite E. simpl. split; [done|]. intros [?|?]; done.
Qed.

(** What makes [deliver] try again. *)
Definition retryable (r : PostResult) : bool :=
  match r with
  | PostStatus code _ => (code =? 429) || ((500 <=? code) && (code <? 600))
  | PostError => true
  end.
Definition accepted (r : PostResult) : bool :=
  match r with PostStatus code _ => (200 <=? code) && (code <? 300) | PostError => false end.

Lemma deliver_loop_step n i post :
  let r := deliver_loop (S n) i post in
  (accepted (post i) = true -> r = ([], true))
  /\ (accepted (post i) = false -> retryable (post i) = false -> r = ([], false))
  /\ (accepted (post i) = false -> retryable (post i) = true ->
      exists pause, r = (pause :: fst (deliver_loop n (i + 1) post),
                         snd (deliver_loop n (i + 1) post))).
Proof.
  simpl. destruct (post i) as [code after|]; simpl; [|split_and!; by eauto].
  destruct ((200 <=? code) && (code <? 300)); [by split_and!|].
  destruct (code =? 429); simpl; [split_and!; by eauto|].
  destruct ((500 <=? code) && (code <? 600)); simpl; split_and!; by eauto.
Qed.

(** A delivery ends.  It takes at most two attempts and two pauses; it
    succeeds exactly when the first attempt is accepted, or it failed with a
    server error, a 429 or a transport error and the second is accepted; a
    client error is never retried. *)
Theorem deliver_two_attempts (post : Z -> PostResult) :
  (length (fst (deliver post)) <= 2)%nat
  /\ snd (deliver post)
     = accepted (post 1) || (retryable (post 1) && accepted (post 2))
  /\ (retryable (post 1) = false -> fst (deliver post) = []).
Proof.
  unfold deliver.
  destruct (deliver_loop_step 1 1 post) as (A1 & B1 & C1).
  destruct (deliver_loop_step 0 2 post) as (A2 & B2 & C2).
  destruct (accepted (post 1)) eqn:E1; [rewrite A1 by done; simpl; split_and!; auto with lia|].
  destruct (retryable (post 1)) eqn:R1; [|rewrite B1 by done; simpl; split_and!; auto with lia].
  destruct (C1 eq_refl eq_refl) as [p1 ->]. change (1 + 1) with 2. cbn [fst snd].
  destruct (accepted (post 2)) eqn:E2; [rewrite A2 by done; simpl; split_and!; auto with lia|].
  destruct (retryable (post 2)) eqn:R2; [|rewrite B2 by done; simpl; split_and!; auto with lia].
  destruct (C2 eq_refl eq_refl) as [p2 ->]. simpl. split_and!; auto with lia.
Qed.

End webhooks.

(** * Witnesses *)

#[local] Existing Instance ChronoRef.
#[local] Existing Instance LiteralRegex.

Definition ref_webhook (limit : Z) : WebhookCfg :=
  mkWebhook "ops" "slack" "https://hooks.example" "warning" ["firing"] false
    None None limit "" false.
Definition ref_firing : Alert :=
  build_firing (mkStamp 7 "01") (builder_new "h" "hid" cat.NVME "smart_failed" Critical).

Lemma webhook_rate_bound_witness :
  let evs := [(1, BOk (EnvAlert ref_firing)); (2, BOk (EnvAlert ref_firing))] in
  let json (_ : Alert) := VNull in
  length (run_one json (ref_webhook 1) evs) = 1%nat
  /\ Z.of_nat (in_minute 2 (map fst (run_one json (ref_webhook 1) evs))) <= 1.
Proof.
  split; [vm_compute; reflexivity|].
  refine (webhook_rate_bound (fun _ => VNull) (ref_webhook 1)
    [(1, BOk (EnvAlert ref_firing)); (2, BOk (EnvAlert ref_firing))] 2 _ _).
  - unfold rate_ok, Int.is_u32, Int.u32_max. simpl. lia.
  - simpl. repeat constructor; lia.
Defined.

Lemma resolved_delivery_opt_in_witness :
  passes_filters (set_state Resolved ref_firing) (parse_sev "warning")
    (effective_delivery_states (ref_webhook 1)) None None = true
  <-> false = true \/ exists s, s ∈ ["firing"] /\ eq_ignore_ascii_case s "resolved" = true.
Proof.
  apply (resolved_delivery_opt_in (ref_webhook 1) (set_state Resolved ref_firing) None None);
    try done; reflexivity.
Defined.
