(* ===== verification/CollectorConfig.v ===== *)
(** The collector's configuration (src/collector/src/config.rs): the record and the
    value of an absent field.  Reading the TOML text is the [toml] crate's. *)
From S2P Require Import Prelude Text Schema CollectorState Webhooks.

Local Open Scope Z_scope.

(** src/collector/src/config.rs:42-50 (TlsBlock). *)
Record ServerTls : Type := mkServerTls {
  tls_ca_cert : string;
  tls_server_cert : string;
  tls_server_key : string;
  tls_require_client_cert : bool
}.

(** [TlsBlock::default()], the value of an absent block: the derived default, in
    which client certificates are not required although an absent field of a
    present block means they are. *)
Definition ServerTls_default : ServerTls := mkServerTls "" "" "" false.

(** src/collector/src/config.rs:11-40 (CollectorConfig). *)
Record CollectorConfig : Type := mkCollectorConfig {
  bind_ingest : string;
  bind_gui : string;
  bind_syslog_tls : option string;
  bind_syslog_udp : option string;
  server_tls : ServerTls;
  db_path : string;
  retention_days : Z;
  offline_after_s : Z;
  log_level : string;
  webhooks : list WebhookCfg
}.

(** src/collector/src/config.rs:52-59 (the defaults of the fields): the value of an
    empty file. *)
Definition CollectorConfig_default : CollectorConfig :=
  {| bind_ingest := "0.0.0.0:9443"; bind_gui := "0.0.0.0:8443";
     bind_syslog_tls := None; bind_syslog_udp := None; server_tls := ServerTls_default;
     db_path := "/var/lib/monitor-collector/collector.sqlite"; retention_days := 30;
     offline_after_s := 10; log_level := "info"; webhooks := [] |}.
