(* ===== verification/Transport.v ===== *)
(** The agent's connection to the collector (src/agent/src/transport.rs): the
    two-lane pump, and the reconnect loop with exponential backoff.

    Sockets, TLS and the WebSocket are not part of this repository: whether a
    connection, a send or a flush succeeds and what arrives is the input of each
    step.  The queues of the alert sink live across connections. *)
From S2P Require Import Prelude Text Utf8 Schema Codec Channels Bus.

Local Open Scope Z_scope.

(** What is written on the socket. *)
Inductive WsFrame : Type :=
  | WText (payload : string)
  | WPing
  | WFlush.

(** What [ws.next()] yields when it is ready. *)
Inductive Incoming : Type := InClose | InErr | InEnd | InOther.

(** The environment of one turn of the pump. *)
Record Poll : Type := mkPoll {
  ping_due : bool;
  incoming : option Incoming;
  ws_ok : bool;
  flush_ok : bool
}.

Section transport.
Context {C : Type -> Type} `{!Mpsc C} `{!Codec}.

(** src/agent/src/transport.rs:101-113 (ship): the frames written, and whether it
    returned [Ok]. *)
Definition ship (p : Poll) (out : Outbound) (critical : bool) : list WsFrame * bool :=
  match encode (into_envelope out) with
  | None => ([], false)
  | Some payload =>
      if negb (utf8_valid payload) then ([], false)
      else if negb (ws_ok p) then ([], false)
      else if critical then
        if flush_ok p then ([WText payload; WFlush], true) else ([WText payload], false)
      else ([WText payload], true)
  end.

(** What a turn of the pump does: the lane and message it took, if any, the
    frames it wrote, and whether the pump goes on. *)
Record Turn : Type := mkTurn {
  tn_taken : option (bool * Outbound);
  tn_frames : list WsFrame;
  tn_ok : bool
}.

(** src/agent/src/transport.rs:75-98 (one turn of the loop of pump).  The select
    is biased: critical lane, normal lane, ping, incoming frame. *)
Definition pump_turn (p : Poll) (k : AlertSink C) : AlertSink C * Turn :=
  match recv (sink_critical k) with
  | (Some out, critical') =>
      let r := ship p out true in
      (mkSink (sink_normal k) critical' (sink_fanout k) (sink_suppress_alerts k),
       mkTurn (Some (true, out)) (fst r) (snd r))
  | (None, _) =>
      match recv (sink_normal k) with
      | (Some out, normal') =>
          let r := ship p out false in
          (mkSink normal' (sink_critical k) (sink_fanout k) (sink_suppress_alerts k),
           mkTurn (Some (false, out)) (fst r) (snd r))
      | (None, _) =>
          if ping_due p then (k, mkTurn None (if ws_ok p then [WPing] else []) (ws_ok p))
          else match incoming p with
               | Some InClose | Some InErr | Some InEnd => (k, mkTurn None [] false)
               | Some InOther | None => (k, mkTurn None [] true)
               end
      end
  end.

(** * The reconnect loop as a transition system *)

Record Backoff : Type := mkBackoff { reconnect_min_ms : Z; reconnect_max_ms : Z }.

(** The sink is shared with the modules.  [ts_accepted] lists the messages the
    lanes accepted (lane first), [ts_taken] those the pump took, with whether
    their text was written. *)
Record TState : Type := mkTState {
  ts_sink : AlertSink C;
  ts_connected : bool;
  ts_backoff : Z;
  ts_sleeps : list Z;
  ts_wire : list WsFrame;
  ts_taken : list (bool * Outbound * bool);
  ts_accepted : list (bool * Outbound)
}.

(** A module's send, the answer to a connection attempt, a turn of the pump. *)
Inductive TEvent : Type :=
  | TSend (m : Outbound)
  | TConnect (ok : bool)
  | TPoll (p : Poll).

(** src/agent/src/transport.rs:61-62 (the pause of run and the next backoff). *)
Definition pause (cfg : Backoff) (st : TState) : TState :=
  mkTState (ts_sink st) false
    (Z.min (Int.saturating_mul_u64 (ts_backoff st) 2) (reconnect_max_ms cfg))
    (ts_sleeps st ++ [ts_backoff st]) (ts_wire st) (ts_taken st) (ts_accepted st).

Definition accepts (m : Outbound) (k : AlertSink C) : bool :=
  negb (sink_suppress_alerts k && is_alert m)
  && snd (try_send m (if critical_lane m then sink_critical k else sink_normal k)).

(** src/agent/src/transport.rs:38-64 (run): the effect of each event on the loop. *)
Definition transport_step (cfg : Backoff) (st : TState) (ev : TEvent) : TState :=
  match ev with
  | TSend m =>
      mkTState (send m (ts_sink st)) (ts_connected st) (ts_backoff st) (ts_sleeps st)
        (ts_wire st) (ts_taken st)
        (if accepts m (ts_sink st) then ts_accepted st ++ [(critical_lane m, m)]
         else ts_accepted st)
  | TConnect ok =>
      if ts_connected st then st
      else if ok
      then mkTState (ts_sink st) true (reconnect_min_ms cfg) (ts_sleeps st)
             (ts_wire st) (ts_taken st) (ts_accepted st)
      else pause cfg st
  | TPoll p =>
      if negb (ts_connected st) then st
      else
        let r := pump_turn p (ts_sink st) in
        let t := snd r in
        let st' := mkTState (fst r) true (ts_backoff st) (ts_sleeps st)
          (ts_wire st ++ tn_frames t)
          (ts_taken st ++ match tn_taken t with
                          | Some lo => [(lo, bool_decide (tn_frames t <> []))]
                          | None => []
                          end)
          (ts_accepted st) in
        if tn_ok t then st' else pause cfg st'
  end.

Definition transport_run (cfg : Backoff) (st : TState) (evs : list TEvent) : TState :=
  foldl (transport_step cfg) st evs.

(** src/agent/src/transport.rs:43-46 (the start of run). *)
Definition transport_init (cfg : Backoff) (k : AlertSink C) : TState :=
  mkTState k false (reconnect_min_ms cfg) [] [] [] [].

(** * Backoff *)

Definition backoff_ok (cfg : Backoff) : Prop :=
  0 <= reconnect_min_ms cfg <= reconnect_max_ms cfg /\ reconnect_max_ms cfg <= Int.u64_max.

Lemma next_backoff b hi i :
  0 <= b -> 0 <= hi <= Int.u64_max ->
  Z.min (Int.saturating_mul_u64 (Z.min (b * 2 ^ i) hi) 2) hi
  = Z.min (b * 2 ^ i * 2) hi.
Proof.
  unfold Int.saturating_mul_u64. intros.
  assert (0 <= b * 2 ^ i) by (apply Z.mul_nonneg_nonneg; [done|apply Z.pow_nonneg; lia]).
  lia.
Qed.

Lemma failures_sleeps cfg st n :
  ts_connected st = false -> reconnect_max_ms cfg <= Int.u64_max ->
  0 <= ts_backoff st <= reconnect_max_ms cfg ->
  let st' := transport_run cfg st (replicate n (TConnect false)) in
  ts_connected st' = false
  /\ ts_backoff st' = Z.min (ts_backoff st * 2 ^ Z.of_nat n) (reconnect_max_ms cfg)
  /\ ts_sleeps st' = ts_sleeps st ++
       map (fun i => Z.min (ts_backoff st * 2 ^ Z.of_nat i) (reconnect_max_ms cfg)) (seq 0 n).
Proof.
  intros Hc Hm Hb. induction n as [|n (IHc & IHb & IHs)].
  - simpl. rewrite app_nil_r, Z.mul_1_r. split_and!; [done|lia|done].
  - rewrite replicate_S_end, seq_S, map_app. unfold transport_run in *.
    rewrite foldl_app. set (st1 := foldl _ _ _) in *. simpl. rewrite IHc. simpl.
    rewrite IHb, IHs. split_and!; [done| |by rewrite <- app_assoc].
    rewrite next_backoff by lia. f_equal.
    rewrite Nat2Z.inj_succ, Z.pow_succ_r by lia. lia.
Qed.

(** C30: exponential backoff.  Once a connection has been made and lost, each
    following pause is the minimum doubled once per failed attempt since,
    capped at the maximum: after [n] failures in a row the pauses are exactly
    [min(min_ms * 2^i, max_ms)] for i = 0 .. n, starting from [min_ms]. *)
Theorem backoff_after_disconnect (cfg : Backoff) (st : TState) (p : Poll) (n : nat)
    (Hcfg : backoff_ok cfg) (Hdown : ts_connected st = false)
    (Hlost : tn_ok (snd (pump_turn p (ts_sink st))) = false) :
  ts_sleeps (transport_run cfg st (TConnect true :: TPoll p :: replicate n (TConnect false)))
  = ts_sleeps st ++
      map (fun i => Z.min (reconnect_min_ms cfg * 2 ^ Z.of_nat i) (reconnect_max_ms cfg))
        (seq 0 (S n)).
Proof.
  destruct Hcfg as [Hmin Hmax]. unfold transport_run. simpl. rewrite Hdown. simpl.
  rewrite Hlost. simpl. set (st1 := pause _ _).
  destruct (failures_sleeps cfg st1 n) as (_ & _ & Hs); simpl in *; [done|done| |].
  { unfold Int.saturating_mul_u64. lia. }
  unfold transport_run in Hs. rewrite Hs, <- app_assoc. simpl. f_equal. f_equal; [lia|].
  rewrite <- seq_shift, map_map. apply map_ext. intros i.
  rewrite Nat2Z.inj_succ, Z.pow_succ_r by lia. unfold Int.saturating_mul_u64.
  pose proof (Z.pow_pos_nonneg 2 (Z.of_nat i) ltac:(lia) ltac:(lia)). nia.
Qed.

(** * Ordering and conservation *)

Context `{!MpscLaws C}.

Definition lane_of (b : bool) (l : list (bool * Outbound)) : list Outbound :=
  map snd (List.filter (fun lo => Bool.eqb (fst lo) b) l).

Definition lane_queue (b : bool) (k : AlertSink C) : list Outbound :=
  queued (if b then sink_critical k else sink_normal k).

(** On each lane: what was accepted is what was taken, then what still waits. *)
Definition lane_inv (st : TState) : Prop :=
  forall b, lane_of b (ts_accepted st)
            = lane_of b (map fst (ts_taken st)) ++ lane_queue b (ts_sink st).

Definition frame_texts (l : list WsFrame) : list string :=
  omap (fun f => match f with WText s => Some s | _ => None end) l.

(** The text of a taken message, when it was written. *)
Definition taken_text (t : bool * Outbound * bool) : option string :=
  if snd t then encode (into_envelope (snd (fst t))) else None.

Definition wire_inv (st : TState) : Prop :=
  frame_texts (ts_wire st) = omap taken_text (ts_taken st).

Lemma lane_of_app b l1 l2 : lane_of b (l1 ++ l2) = lane_of b l1 ++ lane_of b l2.
Proof. unfold lane_of. by rewrite List.filter_app, map_app. Qed.

Lemma lane_inv_send st m :
  lane_inv st ->
  forall b, lane_of b (if accepts m (ts_sink st)
                       then ts_accepted st ++ [(critical_lane m, m)]
                       else ts_accepted st)
            = lane_of b (map fst (ts_taken st)) ++ lane_queue b (send m (ts_sink st)).
Proof.
  intros Hi b. specialize (Hi b). unfold accepts, send, lane_queue in *.
  destruct (sink_suppress_alerts (ts_sink st) && is_alert m); simpl; [done|].
  set (q := if critical_lane m then _ else _).
  assert (Hq : snd (try_send m q) = bool_decide (length (queued q) < capacity q)%nat).
  { case_bool_decide as Hl; [by apply try_send_room|apply try_send_full; lia]. }
  rewrite Hq. destruct (critical_lane m) eqn:El, b; simpl; subst q;
    rewrite ?try_send_queued; case_decide as Hl;
    rewrite ?bool_decide_true, ?bool_decide_false by done;
    rewrite ?lane_of_app, ?Hi; unfold lane_of; simpl; by rewrite ?app_nil_r, <- ?app_assoc.
Qed.

Lemma pump_turn_lane p k b :
  let r := pump_turn p k in
  lane_queue b k
  = lane_of b (match tn_taken (snd r) with Some lo => [lo] | None => [] end)
    ++ lane_queue b (fst r).
Proof.
  unfold pump_turn, lane_queue, lane_of.
  destruct (queued (sink_critical k)) as [|x l] eqn:Ec.
  - rewrite (recv_empty _ Ec).
    destruct (queued (sink_normal k)) as [|y l] eqn:En.
    + rewrite (recv_empty _ En). by cases.
    + destruct (recv_head _ _ _ En) as [H1 H2].
      destruct (recv (sink_normal k)) as [o q]; simpl in *; subst o.
      by destruct b; simpl; rewrite ?Ec, ?En, ?H2.
  - destruct (recv_head _ _ _ Ec) as [H1 H2].
    destruct (recv (sink_critical k)) as [o q]; simpl in *; subst o.
    by destruct b; simpl; rewrite ?Ec, ?H2.
Qed.

Lemma ship_text p out c :
  frame_texts (fst (ship p out c))
  = omap taken_text [((c, out), bool_decide (fst (ship p out c) <> []))].
Proof.
  unfold ship, taken_text. destruct (encode (into_envelope out)) as [s|] eqn:E; simpl.
  - destruct (utf8_valid s), (ws_ok p), c, (flush_ok p); simpl; by rewrite ?E.
  - done.
Qed.

Lemma pump_turn_text p k :
  let r := snd (pump_turn p k) in
  frame_texts (tn_frames r)
  = omap taken_text (match tn_taken r with
                     | Some lo => [(lo, bool_decide (tn_frames r <> []))]
                     | None => []
                     end).
Proof.
  unfold pump_turn.
  destruct (recv (sink_critical k)) as [[o|] q]; [apply ship_text|].
  destruct (recv (sink_normal k)) as [[o|] q']; [apply ship_text|].
  by cases; destruct (ws_ok p).
Qed.

Lemma transport_step_inv cfg st ev :
  lane_inv st /\ wire_inv st -> lane_inv (transport_step cfg st ev)
                              /\ wire_inv (transport_step cfg st ev).
Proof.
  intros [Hl Hw]. destruct ev as [m|ok|p]; simpl.
  - split; [intros b; by apply lane_inv_send|done].
  - destruct (ts_connected st); [done|]. by destruct ok.
  - destruct (ts_connected st); simpl; [|done].
    set (r := pump_turn p (ts_sink st)).
    assert (Hpause : forall s, (lane_inv (pause cfg s) <-> lane_inv s)
                               /\ (wire_inv (pause cfg s) <-> wire_inv s)) by done.
    match goal with |- context [pause cfg ?s] => set (st' := s) end.
    assert (Hst' : lane_inv st' /\ wire_inv st').
    { split.
      - intros b. unfold st'. simpl. rewrite (Hl b), (pump_turn_lane p (ts_sink st) b).
        fold r. rewrite map_app, lane_of_app, <- app_assoc. f_equal. f_equal.
        by destruct (tn_taken (snd r)).
      - unfold wire_inv, st' in *. simpl. unfold frame_texts in *.
        rewrite !omap_app, Hw. f_equal. apply pump_turn_text. }
    destruct (tn_ok (snd r)); [done|]. by rewrite !(proj1 (Hpause _)), (proj2 (Hpause _)).
Qed.

Lemma transport_inv_init cfg k :
  queued (sink_critical k) = [] -> queued (sink_normal k) = [] ->
  lane_inv (transport_init cfg k) /\ wire_inv (transport_init cfg k).
Proof.
  intros Hcrit Hnorm. split; [|done].
  intros []; unfold lane_queue; simpl; by rewrite ?Hcrit, ?Hnorm.
Qed.

Lemma transport_inv_run cfg k evs :
  queued (sink_critical k) = [] -> queued (sink_normal k) = [] ->
  let st := transport_run cfg (transport_init cfg k) evs in lane_inv st /\ wire_inv st.
Proof.
  intros Hcrit Hnorm. induction evs as [|ev evs IH] using rev_ind.
  - by apply transport_inv_init.
  - unfold transport_run in *. rewrite foldl_app. by apply transport_step_inv.
Qed.

(** C14: delivery order.  Over any interleaving of module sends, connections,
    pump turns and failures, starting with empty lanes: on each lane the
    messages accepted are exactly those the pump took, in order, followed by
    those still queued, so nothing is reordered, duplicated or lost in a lane
    across reconnects; and the texts on the wire are, in order, the encodings of
    the taken messages whose send succeeded. *)
Theorem lanes_fifo (cfg : Backoff) (k : AlertSink C) (evs : list TEvent)
    (Hcrit : queued (sink_critical k) = []) (Hnorm : queued (sink_normal k) = []) :
  let st := transport_run cfg (transport_init cfg k) evs in
  (forall b, lane_of b (ts_accepted st)
             = lane_of b (map fst (ts_taken st)) ++ lane_queue b (ts_sink st))
  /\ frame_texts (ts_wire st) = omap taken_text (ts_taken st).
Proof. exact (transport_inv_run cfg k evs Hcrit Hnorm). Qed.

(** C15: the critical lane goes first.  A turn of the pump takes a normal message
    only when no critical message is waiting, takes the oldest message of the
    lane, and sends a ping or reads the socket only when both lanes are empty. *)
Theorem critical_first (p : Poll) (k : AlertSink C) :
  let t := snd (pump_turn p k) in
  match queued (sink_critical k), queued (sink_normal k) with
  | m :: _, _ => tn_taken t = Some (true, m)
  | [], m :: _ => tn_taken t = Some (false, m)
  | [], [] => tn_taken t = None
  end.
Proof.
  unfold pump_turn. destruct (queued (sink_critical k)) as [|m l] eqn:Ec.
  - rewrite (recv_empty _ Ec). destruct (queued (sink_normal k)) as [|m l] eqn:En.
    + rewrite (recv_empty _ En). by cases.
    + destruct (recv_head _ _ _ En) as [H1 _].
      destruct (recv (sink_normal k)) as [o q]. simpl in H1. by subst o.
  - destruct (recv_head _ _ _ Ec) as [H1 _].
    destruct (recv (sink_critical k)) as [o q]. simpl in H1. by subst o.
Qed.

End transport.

(** * Witnesses *)

#[local] Existing Instance CodecRef.

Definition ref_backoff : Backoff := mkBackoff 250 30000.
Definition closed_poll : Poll := mkPoll false (Some InClose) true true.

Lemma backoff_after_disconnect_witness :
  ts_sleeps (transport_run ref_backoff
    (transport_init (C := BoundedQueue) ref_backoff (demo_sink false))
    (TConnect true :: TPoll closed_poll :: replicate 8 (TConnect false)))
  = [250; 500; 1000; 2000; 4000; 8000; 16000; 30000; 30000].
Proof.
  etransitivity.
  - apply (backoff_after_disconnect ref_backoff
      (transport_init (C := BoundedQueue) ref_backoff (demo_sink false)) closed_poll 8).
    + unfold backoff_ok, Int.u64_max. simpl. lia.
    + reflexivity.
    + reflexivity.
  - vm_compute. reflexivity.
Defined.

Lemma lanes_fifo_witness :
  let st := transport_run (C := BoundedQueue) ref_backoff
              (transport_init ref_backoff (demo_sink false))
              [TSend (OutAlert ref_alert); TConnect true;
               TPoll (mkPoll false None true true)] in
  frame_texts (ts_wire st) = omap taken_text (ts_taken st)
  /\ ts_wire st = [WText "01"; WFlush].
Proof.
  split.
  - refine (proj2 (lanes_fifo (C := BoundedQueue) ref_backoff (demo_sink false)
      [TSend (OutAlert ref_alert); TConnect true;
       TPoll (mkPoll false None true true)] _ _)); reflexivity.
  - vm_compute. reflexivity.
Defined.

Lemma critical_first_witness :
  let k := mkSink (C := BoundedQueue) (mkBounded 4 [OutHello (mkHello "h" "hid" "" "4.3.0" 0
             VendorInfo_default ∅ false)]) (mkBounded 4 [OutAlert ref_alert]) [] false in
  tn_taken (snd (pump_turn closed_poll k)) = Some (true, OutAlert ref_alert).
Proof. intros k. exact (critical_first closed_poll k). Defined.
