(* ===== verification/Drain.v ===== *)
(** The pump empties its lanes (src/agent/src/transport.rs, [pump]): while the
    socket accepts what is written, a backlog of any size and age is on the wire
    after as many turns as it has messages, critical ones first. *)
From S2P Require Import Prelude Text Utf8 Schema Codec Channels Bus Transport.

Local Open Scope Z_scope.

Section drain.
Context {C : Type -> Type} `{!Mpsc C} `{!MpscLaws C} `{!Codec}.
Context (cfg : Backoff).

(** A turn whose writes succeed; a message the encoder accepts. *)
Definition writes_ok (p : Poll) : Prop := ws_ok p = true /\ flush_ok p = true.

Definition sendable (m : Outbound) : Prop :=
  exists t, encode (into_envelope m) = Some t /\ utf8_valid t = true.

(** The frames of a message, by lane. *)
Definition frames_of (critical : bool) (m : Outbound) : list WsFrame :=
  match encode (into_envelope m) with
  | Some t => if critical then [WText t; WFlush] else [WText t]
  | None => []
  end.

Lemma ship_sendable p m c :
  writes_ok p -> sendable m -> ship p m c = (frames_of c m, true).
Proof.
  intros [Hw Hf] (t & He & Hu). unfold ship, frames_of. rewrite He, Hu, Hw, Hf. by destruct c.
Qed.

(** What is still to be written, in the order it will be. *)
Definition backlog (k : AlertSink C) : list WsFrame :=
  concat (map (frames_of true) (lane_queue true k))
  ++ concat (map (frames_of false) (lane_queue false k)).

Definition waiting (k : AlertSink C) : nat :=
  (length (lane_queue true k) + length (lane_queue false k))%nat.

Definition all_sendable (k : AlertSink C) : Prop :=
  forall b, Forall sendable (lane_queue b k).

(** One turn on a backlog writes its first message and keeps the connection. *)
Lemma drain_turn st p :
  ts_connected st = true -> writes_ok p -> all_sendable (ts_sink st) ->
  (0 < waiting (ts_sink st))%nat ->
  let st' := transport_step cfg st (TPoll p) in
  ts_connected st' = true /\ all_sendable (ts_sink st')
  /\ waiting (ts_sink st) = S (waiting (ts_sink st'))
  /\ ts_wire st ++ backlog (ts_sink st) = ts_wire st' ++ backlog (ts_sink st').
Proof.
  intros Hc Hp Hs Hw. pose proof (Hs true) as Hst. pose proof (Hs false) as Hsf.
  unfold waiting, backlog, all_sendable, lane_queue in *.
  simpl transport_step. rewrite Hc. cbn [negb]. unfold pump_turn.
  destruct (queued (sink_critical (ts_sink st))) as [|m l] eqn:Ec.
  - rewrite (recv_empty _ Ec).
    destruct (queued (sink_normal (ts_sink st))) as [|m l] eqn:En; [simpl in Hw; lia|].
    destruct (recv_head _ _ _ En) as [H1 H2].
    destruct (recv (sink_normal (ts_sink st))) as [o q]. simpl in H1, H2. subst o.
    apply Forall_cons in Hsf as [Hm Hl]. rewrite (ship_sendable p m false Hp Hm). simpl.
    rewrite Ec, H2. split_and!; [done| |done|].
    + intros []; by rewrite ?Ec, ?H2.
    + by rewrite <- app_assoc.
  - destruct (recv_head _ _ _ Ec) as [H1 H2].
    destruct (recv (sink_critical (ts_sink st))) as [o q]. simpl in H1, H2. subst o.
    apply Forall_cons in Hst as [Hm Hl]. rewrite (ship_sendable p m true Hp Hm). simpl.
    rewrite H2. split_and!; [done| |done|].
    + intros []; by rewrite ?H2.
    + by rewrite <- !app_assoc.
Qed.

(** With both lanes empty a turn takes nothing and writes no text. *)
Lemma idle_turn st p :
  waiting (ts_sink st) = 0%nat ->
  let st' := transport_step cfg st (TPoll p) in
  waiting (ts_sink st') = 0%nat
  /\ exists rest, ts_wire st' = ts_wire st ++ rest /\ frame_texts rest = [].
Proof.
  intros Hw. unfold waiting in *.
  assert (Hq : forall b, lane_queue b (ts_sink st) = []).
  { intros b. apply nil_length_inv. destruct b; lia. }
  simpl transport_step. destruct (ts_connected st); cbn [negb];
    [|split; [done|]; exists []; by rewrite app_nil_r].
  pose proof (Hq true) as Ht. pose proof (Hq false) as Hf. unfold lane_queue in Ht, Hf.
  unfold pump_turn. rewrite (recv_empty _ Ht), (recv_empty _ Hf).
  assert (Hsame : forall st'', ts_sink st'' = ts_sink st ->
    (length (lane_queue true (ts_sink st'')) + length (lane_queue false (ts_sink st'')))%nat = 0%nat)
    by (by intros ? ->).
  destruct (ping_due p), (ws_ok p), (incoming p) as [[]|]; simpl;
    (split; [by apply Hsame|]); eexists; (split; [reflexivity|done]).
Qed.

(** A run of turns that only finds empty lanes. *)
Lemma idle_run st ps :
  waiting (ts_sink st) = 0%nat ->
  let st' := transport_run cfg st (map TPoll ps) in
  waiting (ts_sink st') = 0%nat
  /\ exists rest, ts_wire st' = ts_wire st ++ rest /\ frame_texts rest = [].
Proof.
  revert st. induction ps as [|p ps IH]; intros st Hw.
  { split; [done|]. exists []. by rewrite app_nil_r. }
  destruct (idle_turn st p Hw) as (Hw1 & r1 & Hr1 & Hf1).
  destruct (IH _ Hw1) as (Hw2 & r2 & Hr2 & Hf2).
  split; [exact Hw2|]. exists (r1 ++ r2). unfold transport_run in *. cbn [map foldl].
  rewrite Hr2, Hr1, <- app_assoc. split; [done|].
  unfold frame_texts in *. by rewrite omap_app, Hf1, Hf2.
Qed.

(** C5: the pump terminates its backlog.  However many messages wait in the two
    lanes, and whatever else is due (pings, incoming frames, a server close), once
    connected the pump needs at most one turn per message: after that many
    successful turns both lanes are empty and the wire holds exactly the encoding
    of every waiting message, the critical lane in order and flushed one by one,
    then the normal lane in order; further turns add no text. *)
Theorem pump_drains (st : TState) (ps : list Poll)
    (Hconn : ts_connected st = true) (Hok : Forall writes_ok ps)
    (Hsend : all_sendable (ts_sink st))
    (Hlen : (waiting (ts_sink st) <= length ps)%nat) :
  let st' := transport_run cfg st (map TPoll ps) in
  lane_queue true (ts_sink st') = [] /\ lane_queue false (ts_sink st') = []
  /\ exists rest, ts_wire st' = ts_wire st ++ backlog (ts_sink st) ++ rest
                  /\ frame_texts rest = [].
Proof.
  assert (Hrun : waiting (ts_sink (transport_run cfg st (map TPoll ps))) = 0%nat
    /\ exists rest, ts_wire (transport_run cfg st (map TPoll ps))
                    = ts_wire st ++ backlog (ts_sink st) ++ rest /\ frame_texts rest = []).
  { revert st Hconn Hsend Hlen. induction Hok as [|p ps Hp Hok IH]; intros st Hconn Hsend Hlen.
    - simpl in *. assert (Hw : waiting (ts_sink st) = 0%nat) by lia. split; [done|].
      exists []. unfold backlog, waiting in *.
      rewrite (nil_length_inv (lane_queue true (ts_sink st))) by lia.
      rewrite (nil_length_inv (lane_queue false (ts_sink st))) by lia.
      by rewrite app_nil_r.
    - destruct (decide (waiting (ts_sink st) = 0%nat)) as [Hw|Hw].
      + destruct (idle_run st (p :: ps) Hw) as (H1 & rest & H2 & H3). split; [done|].
        exists rest. rewrite H2. split; [|done]. unfold backlog, waiting in *.
        rewrite (nil_length_inv (lane_queue true (ts_sink st))) by lia.
        by rewrite (nil_length_inv (lane_queue false (ts_sink st))) by lia.
      + destruct (drain_turn st p Hconn Hp Hsend ltac:(lia)) as (Hc1 & Hs1 & Hw1 & Hb1).
        simpl in Hlen. destruct (IH _ Hc1 Hs1 ltac:(lia)) as (H1 & rest & H2 & H3).
        split; [exact H1|]. exists rest. split; [|done].
        unfold transport_run in *. cbn [map foldl]. by rewrite H2, !app_assoc, Hb1. }
  destruct Hrun as [Hw Hr]. unfold waiting in Hw.
  split_and!; [apply nil_length_inv; lia..|exact Hr].
Qed.

End drain.

(** Two alerts and a message in the normal lane, with a ping due all along. *)
#[local] Existing Instance CodecRef.

Lemma pump_drains_witness :
  let k := mkSink (C := BoundedQueue) (mkBounded 4 [OutAlert ref_alert])
             (mkBounded 4 [OutAlert ref_alert; OutAlert ref_alert]) [] false in
  let st := mkTState k true 250 [] [] [] [] in
  lane_queue true (ts_sink (transport_run ref_backoff st
    (map TPoll (replicate 3 (mkPoll true (Some InClose) true true))))) = [].
Proof.
  intros k st.
  apply (pump_drains ref_backoff st (replicate 3 (mkPoll true (Some InClose) true true))).
  - reflexivity.
  - by repeat constructor.
  - intros []; repeat constructor; by exists "01"%string.
  - simpl. unfold waiting, lane_queue. simpl. lia.
Defined.
