(* ===== verification/Float.v ===== *)
(** [f32] as an IEEE 754 binary32 number ([SpecFloat] at precision 24), with the
    operations of the standard library the program uses: parsing a decimal,
    comparing, and printing with a fixed number of decimals. *)
From S2P Require Import Prelude Text.
From Stdlib Require Import SpecFloat Ascii.

Local Open Scope Z_scope.

Definition f32 : Type := spec_float.

Definition f32_prec : Z := 24.
Definition f32_emax : Z := 128.

(** The binary32 number nearest to [n / d], for [d > 0]. *)
Definition f32_ratio (n d : Z) : f32 :=
  match n, d with
  | Z0, _ => S754_zero false
  | Zpos p, Zpos q =>
      SFdiv f32_prec f32_emax (S754_finite false p 0) (S754_finite false q 0)
  | Zneg p, Zpos q =>
      SFdiv f32_prec f32_emax (S754_finite true p 0) (S754_finite false q 0)
  | _, _ => S754_nan
  end.

Definition f32_of_Z (n : Z) : f32 := f32_ratio n 1.

(** Comparison: false as soon as one side is not a number. *)
Definition f32_leb (x y : f32) : bool :=
  match SFcompare x y with Some Lt | Some Eq => true | _ => false end.
Definition f32_ltb (x y : f32) : bool :=
  match SFcompare x y with Some Lt => true | _ => false end.
Definition f32_geb (x y : f32) : bool := f32_leb y x.

Definition f32_add (x y : f32) : f32 := SFadd f32_prec f32_emax x y.
Definition f32_sub (x y : f32) : f32 := SFsub f32_prec f32_emax x y.
Definition f32_neg (x : f32) : f32 := SFopp x.
Definition f32_mul (x y : f32) : f32 := SFmul f32_prec f32_emax x y.
Definition f32_div (x y : f32) : f32 := SFdiv f32_prec f32_emax x y.

(** [f32::max]: the other operand when one is not a number. *)
Definition f32_max (x y : f32) : f32 :=
  match SFcompare x y with
  | Some Lt => y
  | Some _ => x
  | None => match x with S754_nan => y | _ => x end
  end.

(** [Duration::as_secs_f32]: the whole seconds and the nanoseconds over 10^9, each
    converted, then added. *)
Definition as_secs_f32 (d : Duration) : f32 :=
  f32_add (f32_of_Z (as_secs d))
    (f32_div (f32_of_Z (d mod nanos_per_sec)) (f32_of_Z nanos_per_sec)).

(** * Parsing *)

(** A run of digits: its value, its length and the rest of the text. *)
Fixpoint digits (acc : Z) (n : nat) (s : string) : Z * nat * string :=
  match s with
  | String c s' =>
      if is_digit c then digits (acc * 10 + (byte_val c - 48)) (S n) s' else (acc, n, s)
  | EmptyString => (acc, n, s)
  end.

Definition pow10 (n : Z) : Z := 10 ^ n.

(** [m * 10^e] for a signed exponent. *)
Definition f32_decimal (neg : bool) (m e : Z) : f32 :=
  let r := if 0 <=? e then f32_ratio (m * pow10 e) 1 else f32_ratio m (pow10 (- e)) in
  if neg then f32_neg r else r.

(** The exponent part: nothing, or [e], a sign and at least one digit. *)
Definition parse_exp (s : string) : option Z :=
  match s with
  | EmptyString => Some 0
  | String c s' =>
      if (byte_val c =? 101) || (byte_val c =? 69) then
        let (neg, s2) :=
          match s' with
          | String d s2 =>
              if byte_val d =? 45 then (true, s2)
              else if byte_val d =? 43 then (false, s2) else (false, s')
          | EmptyString => (false, s')
          end in
        match digits 0 0 s2 with
        | (e, S _, EmptyString) => Some (if neg : bool then - e else e)
        | _ => None
        end
      else None
  end.

(** [str::parse::<f32>] of an unsigned text. *)
Definition parse_f32_abs (neg : bool) (s : string) : option f32 :=
  let l := to_ascii_lowercase s in
  if decide (l = "inf" \/ l = "infinity") then Some (S754_infinity neg)
  else if decide (l = "nan") then Some S754_nan
  else
    match digits 0 0 s with
    | (m1, n1, rest) =>
        match rest with
        | String c r =>
            if byte_val c =? 46 then
              match digits m1 0 r with
              | (m2, n2, r2) =>
                  if (n1 + n2 =? 0)%nat then None
                  else e ← parse_exp r2; Some (f32_decimal neg m2 (e - Z.of_nat n2))
              end
            else if (n1 =? 0)%nat then None
            else e ← parse_exp rest; Some (f32_decimal neg m1 e)
        | EmptyString => if (n1 =? 0)%nat then None else Some (f32_decimal neg m1 0)
        end
    end.

Definition parse_f32 (s : string) : option f32 :=
  match s with
  | String c r =>
      if byte_val c =? 45 then parse_f32_abs true r
      else if byte_val c =? 43 then parse_f32_abs false r
      else parse_f32_abs false s
  | EmptyString => None
  end.

(** * Printing with a fixed number of decimals *)

(** [n / d] rounded to an integer, ties to even. *)
Definition round_even (n d : Z) : Z :=
  let q := n / d in
  let r := n mod d in
  if (2 * r <? d) || ((2 * r =? d) && Z.even q) then q else q + 1.

(** [m * 2^e * 10^k] rounded to an integer. *)
Definition scaled (k : Z) (m : positive) (e : Z) : Z :=
  if 0 <=? e then Zpos m * 2 ^ e * pow10 k
  else round_even (Zpos m * pow10 k) (2 ^ (- e)).

Fixpoint zeros (n : nat) : string :=
  match n with O => "" | S n' => String "0"%char (zeros n') end.

(** [n] written with at least [k] digits. *)
Definition pad_left (k : nat) (n : Z) : string :=
  let s := show n in zeros (k - String.length s) +:+ s.

(** [{:.k}] of a value of any precision. *)
Definition show_fixed (k : nat) (x : spec_float) : string :=
  match x with
  | S754_infinity s => (if s then "-" else "") +:+ "inf"
  | S754_nan => "NaN"
  | S754_zero s =>
      (if s then "-" else "") +:+ "0" +:+ (if (k =? 0)%nat then "" else "." +:+ zeros k)
  | S754_finite s m e =>
      let t := scaled (Z.of_nat k) m e in
      let p := pow10 (Z.of_nat k) in
      (if s then "-" else "") +:+ show (t / p)
      +:+ (if (k =? 0)%nat then "" else "." +:+ pad_left k (t mod p))
  end.

Definition show_f1 : f32 -> string := show_fixed 1.

(** * Printing with the fewest digits *)

(** The decimal exponent [t] with [10^(t-1) <= n/d < 10^t], found by search. *)
Fixpoint magnitude (fuel : nat) (n d t : Z) : Z :=
  match fuel with
  | O => t
  | S fuel' =>
      let ge_hi := if 0 <=? t then pow10 t * d <=? n else d <=? n * pow10 (- t) in
      let lt_lo := if 0 <=? t - 1 then n <? pow10 (t - 1) * d
                   else n * pow10 (1 - t) <? d in
      if ge_hi then magnitude fuel' n d (t + 1)
      else if lt_lo then magnitude fuel' n d (t - 1)
      else t
  end.

(** The nearest [k]-digit decimals below and above that read back as the value. *)
Definition candidate (m : positive) (e t : Z) (k : nat) : option Z :=
  let n := if 0 <=? e then Zpos m * 2 ^ e else Zpos m in
  let d := if 0 <=? e then 1 else 2 ^ (- e) in
  let sc := Z.of_nat k - t in
  let n' := if 0 <=? sc then n * pow10 sc else n in
  let d' := if 0 <=? sc then d else d * pow10 (- sc) in
  let lo := n' / d' in
  let back q := f32_decimal false q (- sc) in
  let ok q := match SFcompare (back q) (S754_finite false m e) with
              | Some Eq => true | _ => false end in
  let near := round_even n' d' in
  let far := if near =? lo then lo + 1 else lo in
  if ok near then Some near else if ok far then Some far else None.

Fixpoint shortest (fuel k : nat) (m : positive) (e t : Z) : Z * Z :=
  match fuel with
  | O => (0, 0)
  | S fuel' =>
      match candidate m e t k with
      | Some q => (q, t - Z.of_nat k)
      | None => shortest fuel' (S k) m e t
      end
  end.

(** [q * 10^x] in positional notation. *)
Definition show_scaled (q x : Z) : string :=
  if 0 <=? x then show (q * pow10 x)
  else let p := pow10 (- x) in
       show (q / p) +:+ "." +:+ pad_left (Z.to_nat (- x)) (q mod p).

(** [{}] of an [f32]: the fewest digits that read back as the same value.  Nine
    digits always do. *)
Definition show_f32 (x : f32) : string :=
  match x with
  | S754_zero s => (if s then "-" else "") +:+ "0"
  | S754_infinity s => (if s then "-" else "") +:+ "inf"
  | S754_nan => "NaN"
  | S754_finite s m e =>
      let n := if 0 <=? e then Zpos m * 2 ^ e else Zpos m in
      let d := if 0 <=? e then 1 else 2 ^ (- e) in
      let t := magnitude 100 n d 1 in
      let r := shortest 9 1 m e t in
      (if s then "-" else "") +:+ show_scaled (fst r) (snd r)
  end.

(** * [f64] *)

Definition f64 : Type := spec_float.

Definition f64_ratio (n d : Z) : f64 :=
  match n, d with
  | Z0, _ => S754_zero false
  | Zpos p, Zpos q => SFdiv 53 1024 (S754_finite false p 0) (S754_finite false q 0)
  | Zneg p, Zpos q => SFdiv 53 1024 (S754_finite true p 0) (S754_finite false q 0)
  | _, _ => S754_nan
  end.

(** [x as f64] of an integer. *)
Definition f64_of_Z (n : Z) : f64 := f64_ratio n 1.
Definition f64_mul (x y : f64) : f64 := SFmul 53 1024 x y.
Definition f64_div (x y : f64) : f64 := SFdiv 53 1024 x y.

(** [x as u64] of a float: truncation, saturating, zero for not-a-number. *)
Definition f64_to_u64 (x : f64) : Z :=
  match x with
  | S754_infinity false => Int.u64_max
  | S754_finite false m e =>
      Z.min Int.u64_max (if 0 <=? e then Zpos m * 2 ^ e else Zpos m / 2 ^ (- e))
  | _ => 0
  end.

Example show_f32_ex : show_f32 (f32_of_Z 32) = "32"
  /\ option_map show_f32 (parse_f32 "36.6") = Some "36.6"
  /\ option_map show_f32 (parse_f32 "0.001") = Some "0.001".
Proof. vm_compute. split_and!; reflexivity. Qed.
Example show_fixed_ex : option_map (show_fixed 2) (parse_f32 "3.14159") = Some "3.14"
  /\ option_map (show_fixed 0) (parse_f32 "2.5") = Some "2".
Proof. vm_compute. split; reflexivity. Qed.
Example f64_ex : f64_to_u64 (f64_mul (f64_div (f64_of_Z 1) (f64_of_Z 5)) (f64_of_Z 3600)) = 720.
Proof. vm_compute. reflexivity. Qed.
Example parse_f32_ex1 : parse_f32 "32.0" = Some (f32_of_Z 32).
Proof. vm_compute. reflexivity. Qed.
Example parse_f32_ex2 : option_map show_f1 (parse_f32 "12.34") = Some "12.3".
Proof. vm_compute. reflexivity. Qed.
Example parse_f32_ex3 : parse_f32 "1e2" = Some (f32_of_Z 100) /\ parse_f32 "." = None.
Proof. vm_compute. split; reflexivity. Qed.
Example f32_geb_ex : f32_geb (f32_ratio 501 10) (f32_of_Z 50) = true.
Proof. vm_compute. reflexivity. Qed.
