(* ===== verification/Config.v ===== *)
(** The agent's configuration (src/agent/src/config.rs): one record per TOML
    block with the default of each field, and the maintenance switch.

    An absent field takes the value of the default record; [ConfigLoad] decodes a
    document. *)
From S2P Require Import Prelude Text Schema Float.

Local Open Scope Z_scope.

(** src/agent/src/config.rs:30-42 (AgentBlock). *)
Record AgentBlock : Type := mkAgentBlock {
  cfg_log_level : string;
  cfg_maintenance : bool;
  cfg_debug_listen : option string
}.
(** src/agent/src/config.rs:43-52 (AgentBlock::default). *)
Definition AgentBlock_default : AgentBlock := mkAgentBlock "info" false None.

(** src/agent/src/config.rs:54-69 (CollectorBlock). *)
Record CollectorBlock : Type := mkCollectorBlock {
  cfg_url : string;
  cfg_send_queue_size : Z;
  cfg_critical_queue_size : Z;
  cfg_reconnect_min_ms : Z;
  cfg_reconnect_max_ms : Z;
  cfg_keepalive_s : Z
}.
(** src/agent/src/config.rs:70-87 (CollectorBlock::default). *)
Definition CollectorBlock_default : CollectorBlock :=
  mkCollectorBlock "wss://collector.local:9443/v1/ingest" 4096 1024 250 30000 5.

(** src/agent/src/config.rs:89-100 (TlsBlock). *)
Record TlsBlock : Type := mkTlsBlock {
  cfg_ca_cert : string;
  cfg_client_cert : string;
  cfg_client_key : string;
  cfg_insecure_skip_verify : bool
}.
(** src/agent/src/config.rs:101-113 (TlsBlock::default). *)
Definition TlsBlock_default : TlsBlock :=
  mkTlsBlock "/etc/monitor-agent/ca.crt" "/etc/monitor-agent/client.crt"
    "/etc/monitor-agent/client.key" false.

(** src/agent/src/config.rs:115-123 (HeartbeatBlock and its default). *)
Record HeartbeatBlock : Type := mkHeartbeatBlock { cfg_interval_s : Z }.
Definition HeartbeatBlock_default : HeartbeatBlock := mkHeartbeatBlock 5.

(** src/agent/src/config.rs:125-133 (DedupBlock). *)
Record DedupBlock : Type := mkDedupBlock {
  cfg_re_notify_after_s : Z;
  cfg_recovery_window_s : Z
}.
(** src/agent/src/config.rs:134-143 (DedupBlock::default). *)
Definition DedupBlock_default : DedupBlock := mkDedupBlock (30 * 60) 60.

(** src/agent/src/config.rs:187-195 (SimpleEnable and its default). *)
Record SimpleEnable : Type := mkSimpleEnable { se_enabled : bool }.
Definition SimpleEnable_default : SimpleEnable := mkSimpleEnable true.

(** src/agent/src/config.rs:197-211 (NvmeCfg). *)
Record NvmeCfg : Type := mkNvmeCfg {
  nvme_enabled : bool;
  nvme_poll_s : Z;
  wear_warn_pct : Z;
  wear_critical_pct : Z;
  temp_warn_c : Z;
  temp_critical_c : Z
}.
(** src/agent/src/config.rs:212-228 (NvmeCfg::default). *)
Definition NvmeCfg_default : NvmeCfg := mkNvmeCfg true 60 80 90 70 80.

(** src/agent/src/config.rs:230-240 (DiskSmartCfg and its default). *)
Record DiskSmartCfg : Type := mkDiskSmartCfg { smart_enabled : bool; smart_poll_s : Z }.
Definition DiskSmartCfg_default : DiskSmartCfg := mkDiskSmartCfg true 300.

(** src/agent/src/config.rs:242-262 (MemoryEccCfg). *)
Record MemoryEccCfg : Type := mkMemoryEccCfg {
  ecc_enabled : bool;
  ecc_poll_s : Z;
  ce_per_hour_warn : Z;
  edac_sysfs_enable : bool;
  ipmi_sdr_enable : bool
}.
(** src/agent/src/config.rs:263-275 (MemoryEccCfg::default). *)
Definition MemoryEccCfg_default : MemoryEccCfg := mkMemoryEccCfg true 5 50 false true.

(** src/agent/src/config.rs:277-289 (PcieAerCfg and its default). *)
Record PcieAerCfg : Type := mkPcieAerCfg { aer_enabled : bool; corrected_per_min_warn : Z }.
Definition PcieAerCfg_default : PcieAerCfg := mkPcieAerCfg true 100.

(** src/agent/src/config.rs:291-303 (ThermalCfg). *)
Record ThermalCfg : Type := mkThermalCfg {
  thermal_enabled : bool;
  thermal_poll_s : Z;
  inlet_warn_c : f32;
  inlet_critical_c : f32;
  inlet_emergency_c : f32
}.
(** src/agent/src/config.rs:304-318 (ThermalCfg::default). *)
Definition ThermalCfg_default : ThermalCfg :=
  mkThermalCfg true 5 (f32_of_Z 32) (f32_of_Z 36) (f32_of_Z 38).

(** src/agent/src/config.rs:320-336 (NetworkNicCfg). *)
Record NetworkNicCfg : Type := mkNetworkNicCfg {
  nic_enabled : bool;
  flap_window_s : Z;
  flap_threshold : Z;
  counter_poll_s : Z;
  ignore_regex : list string
}.
(** src/agent/src/config.rs:337-353 (NetworkNicCfg::default). *)
Definition NetworkNicCfg_default : NetworkNicCfg :=
  mkNetworkNicCfg true 10 2 5
    ["^lo$"; "^docker.*"; "^veth.*"; "^br-.*"; "^cali.*"; "^cni.*"; "^tun.*";
     "^tap.*"; "^virbr.*"].

(** src/agent/src/config.rs:355-365 (StorageControllerCfg and its default). *)
Record StorageControllerCfg : Type := mkStorageControllerCfg {
  ctrl_enabled : bool;
  ctrl_poll_s : Z
}.
Definition StorageControllerCfg_default : StorageControllerCfg :=
  mkStorageControllerCfg true 15.

(** src/agent/src/config.rs:367-377 (StorageIoCfg). *)
Record StorageIoCfg : Type := mkStorageIoCfg {
  sio_enabled : bool;
  watch_ceph_osd : bool;
  correlate_window_s : Z
}.
(** src/agent/src/config.rs:378-387 (StorageIoCfg::default). *)
Definition StorageIoCfg_default : StorageIoCfg := mkStorageIoCfg true true 30.

(** src/agent/src/config.rs:389-406 (MemPressureCfg). *)
Record MemPressureCfg : Type := mkMemPressureCfg {
  mp_enabled : bool;
  mp_poll_s : Z;
  psi_some_avg10_warn : f32;
  sustain_s : Z;
  oom_storm_count : Z;
  oom_storm_window_s : Z
}.
(** src/agent/src/config.rs:407-423 (MemPressureCfg::default). *)
Definition MemPressureCfg_default : MemPressureCfg :=
  mkMemPressureCfg true 2 (f32_of_Z 50) 30 3 300.

(** src/agent/src/config.rs:425-443 (BmcCfg). *)
Record BmcCfg : Type := mkBmcCfg {
  bmc_enabled : bool;
  bmc_poll_s : Z;
  ipmi_device : string;
  redfish_url : string;
  redfish_username : string;
  redfish_password : string;
  redfish_insecure : bool
}.
(** src/agent/src/config.rs:444-458 (BmcCfg::default). *)
Definition BmcCfg_default : BmcCfg := mkBmcCfg false 10 "/dev/ipmi0" "" "" "" false.

(** src/agent/src/config.rs:475-483 (SyslogRule). *)
Record SyslogRule : Type := mkSyslogRule {
  sr_name : string;
  sr_regex : string;
  sr_severity : string;
  sr_category : string;
  sr_title : string;
  sr_message : string
}.

(** src/agent/src/config.rs:460-468 (SyslogRulesCfg). *)
Record SyslogRulesCfg : Type := mkSyslogRulesCfg {
  rules_enabled : bool;
  rules : list SyslogRule
}.

(** src/agent/src/config.rs:488-537 (default_syslog_rules). *)
Definition default_syslog_rules : list SyslogRule :=
  [mkSyslogRule "scsi_command_timeout"
     "sd \d+:\d+:\d+:\d+:.*timing out|ata\d+\.\d+: exception Emask"
     "warning" "storage_io" "Storage controller command timeout"
     "Kernel reported a SCSI/SATA command timeout. Drive is unresponsive; if it persists the disk will be marked offline. Trace: {match}";
   mkSyslogRule "pcie_link_recovery"
     "PCIe Bus Error|pciehp.*Link (Down|Up)|pci_bus.*recovery"
     "warning" "pcie_aer" "PCIe link instability"
     "Kernel logged a PCIe link/bus event. Often precedes an uncorrectable AER. Trace: {match}";
   mkSyslogRule "nic_driver_reset"
     "(ixgbe|i40e|ice|mlx5_core|bnxt_en|ena).*(reset|recovery)|NIC Reset"
     "warning" "network_nic" "NIC driver reset"
     "Network driver issued a reset/recovery event. Brief packet loss expected; investigate if recurring. Trace: {match}";
   mkSyslogRule "watchdog_warning"
     "hardware watchdog|iTCO_wdt|softdog: WDIOC"
     "info" "syslog" "Hardware watchdog message"
     "Kernel logged a hardware-watchdog event. Trace: {match}";
   mkSyslogRule "acpi_power_event"
     "ACPI.*power|ACPI.*thermal|ACPI: Critical|chassis intrusion"
     "warning" "thermal" "ACPI power/thermal event"
     "ACPI subsystem reported a power or thermal event. Trace: {match}"].

(** src/agent/src/config.rs:469-473 (SyslogRulesCfg::default). *)
Definition SyslogRulesCfg_default : SyslogRulesCfg :=
  mkSyslogRulesCfg true default_syslog_rules.

(** src/agent/src/config.rs:147-185 (ModulesBlock). *)
Record ModulesBlock : Type := mkModulesBlock {
  m_nvme : NvmeCfg;
  m_disk_smart : DiskSmartCfg;
  m_memory_ecc : MemoryEccCfg;
  m_cpu_mce : SimpleEnable;
  m_pcie_aer : PcieAerCfg;
  m_thermal : ThermalCfg;
  m_gpu_nvidia : SimpleEnable;
  m_gpu_amd : SimpleEnable;
  m_network_nic : NetworkNicCfg;
  m_storage_controller : StorageControllerCfg;
  m_storage_io : StorageIoCfg;
  m_mempressure : MemPressureCfg;
  m_oshang : SimpleEnable;
  m_bmc_redfish : BmcCfg;
  m_bmc_eventlog : BmcCfg;
  m_syslog_rules : SyslogRulesCfg;
  m_boot : SimpleEnable;
  m_lifecycle : SimpleEnable
}.
Definition ModulesBlock_default : ModulesBlock :=
  mkModulesBlock NvmeCfg_default DiskSmartCfg_default MemoryEccCfg_default
    SimpleEnable_default PcieAerCfg_default ThermalCfg_default SimpleEnable_default
    SimpleEnable_default NetworkNicCfg_default StorageControllerCfg_default
    StorageIoCfg_default MemPressureCfg_default SimpleEnable_default BmcCfg_default
    BmcCfg_default SyslogRulesCfg_default SimpleEnable_default SimpleEnable_default.

(** src/agent/src/config.rs:12-28 (AgentConfig). *)
Record AgentConfig : Type := mkAgentConfig {
  c_agent : AgentBlock;
  c_collector : CollectorBlock;
  c_tls : TlsBlock;
  c_heartbeat : HeartbeatBlock;
  c_dedup : DedupBlock;
  c_modules : ModulesBlock;
  c_tags : gmap string string
}.

(** src/agent/src/config.rs:540-551 (AgentConfig::default_fallback). *)
Definition default_fallback : AgentConfig :=
  mkAgentConfig AgentBlock_default CollectorBlock_default TlsBlock_default
    HeartbeatBlock_default DedupBlock_default ModulesBlock_default ∅.

Definition maintenance_word (s : string) : bool :=
  bool_decide (to_lowercase s = "maintainance" \/ to_lowercase s = "maintenance").

(** src/agent/src/config.rs:561-570 (AgentConfig::maintenance_mode). *)
Definition maintenance_mode (c : AgentConfig) : bool :=
  if cfg_maintenance (c_agent c) then true
  else maintenance_word (cfg_log_level (c_agent c)).

(** src/agent/src/config.rs:572-578 (AgentConfig::tracing_log_filter). *)
Definition tracing_log_filter (c : AgentConfig) : string :=
  if maintenance_word (cfg_log_level (c_agent c)) then "info"
  else cfg_log_level (c_agent c).

(** src/agent/src/config.rs:580-581 (AgentConfig::re_notify, AgentConfig::recovery). *)
Definition re_notify (c : AgentConfig) : Duration :=
  from_secs (cfg_re_notify_after_s (c_dedup c)).
Definition recovery (c : AgentConfig) : Duration :=
  from_secs (cfg_recovery_window_s (c_dedup c)).

(** The tracing filter is never a maintenance word. *)
Lemma tracing_filter_plain c : maintenance_word (tracing_log_filter c) = false.
Proof.
  unfold tracing_log_filter. destruct (maintenance_word (cfg_log_level (c_agent c))) eqn:E;
    [by vm_compute|done].
Qed.
