(* ===== verification/Connect.v ===== *)
(** Opening the connection to the collector (src/agent/src/transport.rs, [connect],
    [build_tls_client], [set_keepalive]): the order of the steps, what each one
    reads of the configuration, and the error of the first that fails.

    URL parsing, PEM parsing, rustls and tungstenite are not part of this
    repository: they are the operations of the class [Net], and [NetLaws] is what
    rustls documents of them.  [RefNet] is an instance with a small certificate
    authority. *)
From Stdlib Require Import Ascii.
From S2P Require Import Prelude Text Config.

Local Open Scope Z_scope.

(** The libraries [connect] calls; [None] is their error result. *)
Class Net : Type := {
  Uri : Type; Stream : Type; Cert : Type; Key : Type; Roots : Type;
  ClientConfig : Type; ServerName : Type; Tls : Type; Ws : Type;
  into_client_request : string -> option Uri;
  uri_host : Uri -> option string;
  uri_port : Uri -> option Z;
  tcp_connect : string -> Z -> option Stream;
  pem_certs : string -> list (option Cert);
  pem_private_key : string -> option (option Key);
  roots_empty : Roots;
  roots_add : Cert -> Roots -> option Roots;
  with_client_auth_cert : Roots -> list Cert -> Key -> option ClientConfig;
  server_name : string -> option ServerName;
  tls_connect : ClientConfig -> ServerName -> Stream -> option Tls;
  ws_handshake : Uri -> Tls -> option Ws;
  (* what can be observed of the values above *)
  trusted : Roots -> list Cert;
  config_anchors : ClientConfig -> list Cert;
  config_identity : ClientConfig -> list Cert * Key;
  server_chain : Stream -> list Cert;
  chain_verifies : list Cert -> ServerName -> list Cert -> bool;
  peer_chain : Tls -> list Cert;
  client_identity : Tls -> list Cert * Key
}.

(** The documented behaviour of rustls: a [RootCertStore] holds what was added to
    it; a client configuration built from one verifies servers against it and offers
    the given chain; a handshake that succeeds has verified the chain of the server
    at the other end of the stream, for the server name, against the configuration's
    anchors. *)
Class NetLaws `{Net} : Prop := {
  trusted_empty : trusted roots_empty = [];
  trusted_add c r r' : roots_add c r = Some r' -> trusted r' = trusted r ++ [c];
  config_built r chain key cc :
    with_client_auth_cert r chain key = Some cc ->
    config_anchors cc = trusted r /\ config_identity cc = (chain, key);
  tls_verified cc sni stream tls :
    tls_connect cc sni stream = Some tls ->
    chain_verifies (config_anchors cc) sni (server_chain stream) = true
    /\ peer_chain tls = server_chain stream
    /\ client_identity tls = config_identity cc
}.

(** The contexts the code attaches to an error. *)
Inductive ConnectError : Type :=
  | ParsingUrl | MissingHost | TcpConnect (host : string) (port : Z)
  | ReadingCa (path : string) | ParsingCa | AddingCa
  | ReadingClientCert (path : string) | ParsingClientCert
  | ReadingClientKey (path : string) | ParsingClientKey | NoPrivateKey (path : string)
  | InstallingClientCert | InvalidSni (host : string) | TlsHandshake | WsHandshake.

Definition ok_or {A} (e : ConnectError) (o : option A) : A + ConnectError :=
  match o with Some x => inl x | None => inr e end.

Definition and_then {A B} (r : A + ConnectError) (f : A -> B + ConnectError) : B + ConnectError :=
  match r with inl x => f x | inr e => inr e end.

Notation "x <-? m ; k" := (and_then m (fun x => k))
  (at level 20, m at level 100, k at level 200, right associativity).

Lemma and_then_ok {A B} (r : A + ConnectError) (f : A -> B + ConnectError) y :
  and_then r f = inl y <-> exists x, r = inl x /\ f x = inl y.
Proof. destruct r as [x|e]; simpl; naive_solver. Qed.

Lemma ok_or_ok {A} e (o : option A) x : ok_or e o = inl x <-> o = Some x.
Proof. destruct o; simpl; naive_solver. Qed.

Section connect.
Context `{Net} (read : string -> option string) (cfg : AgentConfig).

(** src/agent/src/transport.rs:153-156 (the loop over the CA certificates). *)
Fixpoint add_roots (certs : list (option Cert)) (roots : Roots) : Roots + ConnectError :=
  match certs with
  | [] => inl roots
  | c :: certs' =>
      cert <-? ok_or ParsingCa c;
      roots' <-? ok_or AddingCa (roots_add cert roots);
      add_roots certs' roots'
  end.

(** src/agent/src/transport.rs:146-180 (build_tls_client). *)
Definition build_tls_client : ClientConfig + ConnectError :=
  let tls := c_tls cfg in
  ca_pem <-? ok_or (ReadingCa (cfg_ca_cert tls)) (read (cfg_ca_cert tls));
  roots <-? add_roots (pem_certs ca_pem) roots_empty;
  pem <-? ok_or (ReadingClientCert (cfg_client_cert tls)) (read (cfg_client_cert tls));
  client_certs <-? ok_or ParsingClientCert (mapM id (pem_certs pem));
  kpem <-? ok_or (ReadingClientKey (cfg_client_key tls)) (read (cfg_client_key tls));
  key_opt <-? ok_or ParsingClientKey (pem_private_key kpem);
  key <-? ok_or (NoPrivateKey (cfg_client_key tls)) key_opt;
  ok_or InstallingClientCert (with_client_auth_cert roots client_certs key).

(** src/agent/src/transport.rs:115-144 (connect).  The socket options do not enter
    the result. *)
Definition connect : Ws + ConnectError :=
  request <-? ok_or ParsingUrl (into_client_request (cfg_url (c_collector cfg)));
  host <-? ok_or MissingHost (uri_host request);
  let port := default 9443 (uri_port request) in
  stream <-? ok_or (TcpConnect host port) (tcp_connect host port);
  tls_cfg <-? build_tls_client;
  sni <-? ok_or (InvalidSni host) (server_name host);
  tls <-? ok_or TlsHandshake (tls_connect tls_cfg sni stream);
  ok_or WsHandshake (ws_handshake request tls).

(** A level, an option and the value it is set to. *)
Inductive SockOpt : Type := SoKeepalive | TcpKeepIdle | TcpKeepIntvl | TcpKeepCnt.

(** src/agent/src/transport.rs:182-204 (set_keepalive): the options set, in order;
    their failures are ignored. *)
Definition set_keepalive (interval : Duration) : list (SockOpt * Z) :=
  let secs := Int.as_i32 (Z.min (as_secs interval) Int.i32_max) in
  [(SoKeepalive, 1); (TcpKeepIdle, secs); (TcpKeepIntvl, secs); (TcpKeepCnt, 3)].

(** The keepalive of any configured delay fits the C integer it is written to. *)
Lemma keepalive_exact s :
  Int.is_u64 s ->
  set_keepalive (from_secs s)
  = [(SoKeepalive, 1); (TcpKeepIdle, Z.min s Int.i32_max);
     (TcpKeepIntvl, Z.min s Int.i32_max); (TcpKeepCnt, 3)].
Proof.
  intros Hs. unfold set_keepalive, as_secs, from_secs.
  rewrite Z.div_mul by done. rewrite Int.as_i32_id; [done|].
  unfold Int.is_u64, Int.u64_max, Int.is_i32, Int.i32_min, Int.i32_max in *. lia.
Qed.

End connect.

Section authentication.
Context `{Net} (read : string -> option string).

(** The trust anchors are every certificate of the CA file, in order. *)
Lemma add_roots_ok certs roots roots' :
  add_roots certs roots = inl roots' <->
  exists cs, mapM id certs = Some cs
             /\ foldl (fun r c => r ≫= roots_add c) (Some roots) cs = Some roots'.
Proof.
  assert (Hnone : forall cs, foldl (fun r c => r ≫= roots_add c) None cs = None)
    by (induction cs; auto).
  revert roots. induction certs as [|[c|] certs IH]; intros roots; simpl.
  - split; [intros [= <-]; by exists []|]. by intros (cs & [= <-] & [= <-]).
  - destruct (roots_add c roots) as [r|] eqn:E; simpl.
    + rewrite IH. split.
      * intros (cs & -> & Hf). exists (c :: cs). simpl. by rewrite E.
      * intros (cs & Hm & Hf). apply bind_Some in Hm as (cs' & Hm & [= <-]).
        exists cs'. simpl in Hf. by rewrite E in Hf.
    + split; [done|]. intros (cs & Hm & Hf). apply bind_Some in Hm as (cs' & Hm & [= <-]).
      simpl in Hf. by rewrite E, Hnone in Hf.
  - split; [done|]. by intros (cs & Hm & _).
Qed.

(** [connect] succeeds exactly when every step does. *)
Lemma connect_steps (cfg : AgentConfig) (ws : Ws) :
  connect read cfg = inl ws <->
  exists uri host stream cfg_tls sni session ca roots certs chain_pem chain key_pem key,
    into_client_request (cfg_url (c_collector cfg)) = Some uri
    /\ uri_host uri = Some host
    /\ tcp_connect host (default 9443 (uri_port uri)) = Some stream
    /\ read (cfg_ca_cert (c_tls cfg)) = Some ca
    /\ mapM id (pem_certs ca) = Some certs
    /\ foldl (fun r c => r ≫= roots_add c) (Some roots_empty) certs = Some roots
    /\ read (cfg_client_cert (c_tls cfg)) = Some chain_pem
    /\ mapM id (pem_certs chain_pem) = Some chain
    /\ read (cfg_client_key (c_tls cfg)) = Some key_pem
    /\ pem_private_key key_pem = Some (Some key)
    /\ with_client_auth_cert roots chain key = Some cfg_tls
    /\ server_name host = Some sni
    /\ tls_connect cfg_tls sni stream = Some session
    /\ ws_handshake uri session = Some ws.
Proof.
  unfold connect, build_tls_client. cbv zeta.
  repeat setoid_rewrite and_then_ok. repeat setoid_rewrite ok_or_ok.
  setoid_rewrite add_roots_ok. naive_solver.
Qed.

Context `{!NetLaws}.

(** The store after the loop holds the certificates it was given, all of them and
    nothing else. *)
Lemma anchors_exact cs roots r :
  foldl (fun r c => r ≫= roots_add c) (Some roots) cs = Some r -> trusted r = trusted roots ++ cs.
Proof.
  revert roots. induction cs as [|c cs IH]; intros roots; simpl.
  - intros [= <-]. by rewrite app_nil_r.
  - destruct (roots_add c roots) as [r1|] eqn:E.
    + intros Hr. by rewrite (IH r1 Hr), (trusted_add _ _ _ E), <- app_assoc.
    + assert (Hn : foldl (fun r c => r ≫= roots_add c) None cs = None)
        by (clear; induction cs; auto).
      by rewrite Hn.
Qed.

(** The connection [ws] runs over a TLS session with the server the configured URL
    leads to, whose chain verifies against the configured CA file, and in which the
    agent's identity is that of the configured files. *)
Definition authenticated (cfg : AgentConfig) (ws : Ws) : Prop :=
  exists uri host sni stream session ca anchors chain_pem chain key_pem key,
    into_client_request (cfg_url (c_collector cfg)) = Some uri
    /\ uri_host uri = Some host /\ server_name host = Some sni
    /\ tcp_connect host (default 9443 (uri_port uri)) = Some stream
    /\ read (cfg_ca_cert (c_tls cfg)) = Some ca /\ mapM id (pem_certs ca) = Some anchors
    /\ chain_verifies anchors sni (server_chain stream) = true
    /\ peer_chain session = server_chain stream
    /\ read (cfg_client_cert (c_tls cfg)) = Some chain_pem
    /\ mapM id (pem_certs chain_pem) = Some chain
    /\ read (cfg_client_key (c_tls cfg)) = Some key_pem
    /\ pem_private_key key_pem = Some (Some key)
    /\ client_identity session = (chain, key)
    /\ ws_handshake uri session = Some ws.

Lemma connect_ok_authenticated (cfg : AgentConfig) (ws : Ws) :
  connect read cfg = inl ws -> authenticated cfg ws.
Proof.
  intros Hc. apply connect_steps in Hc as (uri & host & stream & cc & sni & session & ca
    & roots & certs & cp & chain & kp & key & H1 & H2 & H3 & H4 & H5 & H6 & H7 & H8 & H9 & H10
    & H11 & H12 & H13 & H14).
  apply anchors_exact in H6. rewrite trusted_empty in H6. simpl in H6.
  destruct (config_built _ _ _ _ H11) as [Ha Hi].
  destruct (tls_verified _ _ _ _ H13) as (Hv & Hp & Hci).
  exists uri, host, sni, stream, session, ca, certs, cp, chain, kp, key.
  rewrite Ha, H6 in Hv. rewrite Hi in Hci. by split_and!.
Qed.

Definition set_skip_verify (b : bool) (cfg : AgentConfig) : AgentConfig :=
  let t := c_tls cfg in
  mkAgentConfig (c_agent cfg) (c_collector cfg)
    (mkTlsBlock (cfg_ca_cert t) (cfg_client_cert t) (cfg_client_key t) b)
    (c_heartbeat cfg) (c_dedup cfg) (c_modules cfg) (c_tags cfg).

(** C4: the agent speaks only to a collector the configured authority vouches for.
    If [connect] returns a WebSocket, it runs over a TLS session with the server that
    the host and port of the configured URL (9443 unless it names one) lead to, that
    server's chain verifies for that host against exactly the certificates of the
    configured CA file, and the identity the agent offers is the configured chain and
    key (to present if the server asks; this collector never does).  A server whose
    chain does not verify against them is never connected to, whatever
    [insecure_skip_verify] says. *)
Theorem connect_authenticated (cfg : AgentConfig) :
  (forall ws, connect read cfg = inl ws -> authenticated cfg ws)
  /\ (forall uri host sni stream ca anchors skip,
       into_client_request (cfg_url (c_collector cfg)) = Some uri ->
       uri_host uri = Some host -> server_name host = Some sni ->
       tcp_connect host (default 9443 (uri_port uri)) = Some stream ->
       read (cfg_ca_cert (c_tls cfg)) = Some ca -> mapM id (pem_certs ca) = Some anchors ->
       chain_verifies anchors sni (server_chain stream) = false ->
       exists e, connect read (set_skip_verify skip cfg) = inr e).
Proof.
  split; [apply connect_ok_authenticated|].
  intros uri host sni stream ca anchors skip H1 H2 H3 H4 H5 H6 Hv.
  destruct (connect read (set_skip_verify skip cfg)) as [ws|e] eqn:E; [|by exists e]. exfalso.
  apply connect_ok_authenticated in E as (uri' & host' & sni' & stream' & session & ca' & anchors'
    & cp & chain & kp & key & G1 & G2 & G3 & G4 & G5 & G6 & Gv & _).
  simpl in *. simplify_eq. congruence.
Qed.

End authentication.

(** * A small certificate authority *)

(** A certificate is its subject and issuer; a PEM file holds one; a chain verifies for a name when its first certificate is for that name
    and issued by an anchor. *)
Definition ref_pem (s : string) : list (option (string * string)) :=
  match split_once ","%char s with Some c => [Some c] | None => [] end.

Definition RefNet : Net :=
  {| Uri := string * option Z; Stream := list (string * string); Cert := string * string;
     Key := string; Roots := list (string * string);
     ClientConfig := list (string * string) * (list (string * string) * string);
     ServerName := string;
     Tls := list (string * string) * (list (string * string) * string);
     Ws := list (string * string) * (list (string * string) * string);
     into_client_request u := (fun h => (h, None)) <$> strip_prefix "wss://" u;
     uri_host u := Some (fst u); uri_port u := snd u;
     tcp_connect h p := if bool_decide (p = 9443) then Some [(h, "ca")] else None;
     pem_certs := ref_pem;
     pem_private_key s := Some (Some s);
     roots_empty := []; roots_add c r := Some (r ++ [c]);
     with_client_auth_cert r chain key := Some (r, (chain, key));
     server_name h := Some h;
     tls_connect cc sni s :=
       match s with
       | (subject, issuer) :: _ =>
           if bool_decide (subject = sni /\ issuer ∈ map fst (fst cc)) then Some (s, snd cc) else None
       | [] => None
       end;
     ws_handshake _ t := Some t;
     trusted r := r; config_anchors := fst; config_identity := snd;
     server_chain s := s;
     chain_verifies anchors sni chain :=
       match chain with
       | (subject, issuer) :: _ => bool_decide (subject = sni /\ issuer ∈ map fst anchors)
       | [] => false
       end;
     peer_chain := fst; client_identity := snd |}.

Lemma RefNet_laws : @NetLaws RefNet.
Proof.
  split; simpl; try (by intros; simplify_eq).
  intros [r i] sni [|[subject issuer] s] tls; simpl; [done|].
  destruct (bool_decide _) eqn:E; [|done]. by intros [= <-].
Qed.

Definition ref_files (path : string) : option string :=
  if decide (path = "/etc/monitor-agent/ca.crt") then Some "ca,ca"
  else if decide (path = "/etc/monitor-agent/client.crt") then Some "agent,ca"
  else if decide (path = "/etc/monitor-agent/client.key") then Some "key" else None.

Definition ref_connect_config : AgentConfig :=
  mkAgentConfig AgentBlock_default
    (mkCollectorBlock "wss://collector.local" 4096 1024 250 30000 5)
    TlsBlock_default HeartbeatBlock_default DedupBlock_default ModulesBlock_default ∅.

(** The agent connects to a collector of the authority, and to none once the CA file
    is another's. *)
Lemma connect_authenticated_witness :
  (exists ws, @authenticated RefNet ref_files ref_connect_config ws)
  /\ exists e, @connect RefNet (fun p => if decide (p = "/etc/monitor-agent/ca.crt")
                                         then Some "other,other" else ref_files p)
                 (set_skip_verify true ref_connect_config) = inr e.
Proof.
  split.
  - eexists. refine (proj1 (@connect_authenticated RefNet ref_files RefNet_laws ref_connect_config) _ _).
    vm_compute. reflexivity.
  - refine (proj2 (@connect_authenticated RefNet _ RefNet_laws ref_connect_config)
      ("collector.local", None) "collector.local" "collector.local"
      [("collector.local", "ca")] "other,other" [("other", "other")] true _ _ _ _ _ _ _);
      vm_compute; reflexivity.
Defined.
