(* ===== verification/Pipeline.v ===== *)
(** The whole alert path: the modules' trackers (src/agent/src/main.rs hands each
    module one of its own), the shared sink (src/agent/src/bus.rs), the
    connection (src/agent/src/transport.rs) and the collector's ingest
    (src/collector/src/ws_ingest.rs), interleaved in any order.

    The collector's side is computed from the texts written on the wire: a frame
    whose write succeeded is taken to arrive, in order. *)
From stdpp Require Import functions.
From S2P Require Import Prelude Text Utf8 Schema Codec Channels.
From S2P Require Import Tracker Bus Transport CollectorState Ingest.

Local Open Scope Z_scope.

Section pipeline.
Context {C : Type -> Type} `{!Mpsc C} `{!MpscLaws C} `{!Codec}.
Context (cfg : Backoff).

(** The agent: a tracker per module and the connection loop with its lanes. *)
Record Pipeline : Type := mkPipeline {
  pl_trackers : nat -> AlertTracker;
  pl_net : TState (C := C)
}.

(** A tracker operation of module [i]; a message sent past the trackers
    (heartbeat, hello, the notices of lifecycle.rs and main.rs); the answer to a
    connection attempt; a turn of the pump. *)
Inductive PEvent : Type :=
  | PTrack (i : nat) (ev : Event)
  | PSend (m : Outbound)
  | PConnect (ok : bool)
  | PPoll (p : Poll).

(** The messages an event hands to the sink. *)
Definition handed (s : Pipeline) (e : PEvent) : list Outbound :=
  match e with
  | PTrack i ev =>
      match snd (tracker_step (pl_trackers s i) ev) with
      | Some a => [OutAlert a]
      | None => []
      end
  | PSend m => [m]
  | PConnect _ | PPoll _ => []
  end.

Definition net_events (s : Pipeline) (e : PEvent) : list TEvent :=
  match e with
  | PTrack _ _ | PSend _ => map TSend (handed s e)
  | PConnect ok => [TConnect ok]
  | PPoll p => [TPoll p]
  end.

Definition pipeline_step (s : Pipeline) (e : PEvent) : Pipeline :=
  mkPipeline
    (match e with
     | PTrack i ev => <[i := fst (tracker_step (pl_trackers s i) ev)]> (pl_trackers s)
     | _ => pl_trackers s
     end)
    (transport_run cfg (pl_net s) (net_events s e)).

(** A run, with the messages handed to the sink, in order. *)
Definition pipeline_run (s : Pipeline) (evs : list PEvent) : Pipeline * list Outbound :=
  foldl (fun acc e => (pipeline_step (fst acc) e, (snd acc ++ handed (fst acc) e)%list))
    (s, []) evs.

(** The collector after the frames of the wire. *)
Definition collector_of (s : Pipeline) (st : IngestState C) : IngestState C :=
  snd (receive_loop (map FText (frame_texts (ts_wire (pl_net s)))) (None, st)).

Lemma pipeline_run_snoc s evs e :
  pipeline_run s (evs ++ [e])
  = (pipeline_step (fst (pipeline_run s evs)) e,
     (snd (pipeline_run s evs) ++ handed (fst (pipeline_run s evs)) e)%list).
Proof. unfold pipeline_run. by rewrite foldl_app. Qed.

(** * The agent's side *)

(** The alerts of a fingerprint among some messages, in order. *)
Definition alerts_of (fp : string) (l : list Outbound) : list Alert :=
  omap (fun m => match m with
                 | OutAlert a => if decide (al_fingerprint a = fp) then Some a else None
                 | _ => None
                 end) l.

Lemma alerts_of_app fp l1 l2 :
  alerts_of fp (l1 ++ l2) = (alerts_of fp l1 ++ alerts_of fp l2)%list.
Proof. apply omap_app. Qed.

(** Whether a fingerprint is firing according to its alerts. *)
Definition firing_last (l : list Alert) : Prop :=
  exists a, last l = Some a /\ al_state a = Firing.

Definition all_firing (l : list Alert) : Prop := Forall (fun a => al_state a = Firing) l.

Lemma alerts_of_one fp a :
  alerts_of fp [OutAlert a] = if decide (al_fingerprint a = fp) then [a] else [].
Proof. unfold alerts_of. simpl. by case_decide. Qed.

Lemma firing_last_all l : all_firing l -> firing_last l <-> l <> [].
Proof.
  intros Hl. unfold firing_last. destruct l as [|a l _] using rev_ind.
  - split; [by intros (? & ? & _)|done].
  - rewrite last_snoc. apply Forall_app in Hl as [_ Ha].
    rewrite Forall_singleton in Ha. split; [by destruct l|by exists a].
Qed.

(** The messages tagged with their lane. *)
Definition tagged (m : Outbound) : bool * Outbound := (critical_lane m, m).

Lemma transport_step_accepted (st : TState (C := C)) ev :
  ts_accepted (transport_step cfg st ev)
  = (ts_accepted st ++ match ev with
                       | TSend m => if accepts m (ts_sink st) then [tagged m] else []
                       | _ => []
                       end)%list.
Proof.
  destruct ev as [m|ok|p]; simpl; rewrite ?app_nil_r.
  - case_match; by rewrite ?app_nil_r.
  - cases.
  - cases.
Qed.

Section run.
Context (k : AlertSink C) (re_notify recovery : Duration).

(** src/agent/src/main.rs:154-154 (make_tracker: every module starts with an empty tracker). *)
Definition pipeline_init : Pipeline :=
  mkPipeline (fun _ => tracker_new re_notify recovery) (transport_init cfg k).

Lemma pipeline_trackers_wf evs i : tracker_wf (pl_trackers (fst (pipeline_run pipeline_init evs)) i).
Proof.
  induction evs as [|e evs IH] using rev_ind; [apply tracker_wf_new|].
  rewrite pipeline_run_snoc. destruct e as [j ev| | |]; simpl; try done.
  destruct (decide (j = i)) as [->|Hne].
  - rewrite fn_lookup_insert. by apply tracker_step_wf.
  - by rewrite fn_lookup_insert_ne.
Qed.

Lemma pipeline_net evs :
  exists tevs, pl_net (fst (pipeline_run pipeline_init evs)) = transport_run cfg (transport_init cfg k) tevs.
Proof.
  induction evs as [|e evs [tevs IH]] using rev_ind; [by exists []|].
  rewrite pipeline_run_snoc. simpl. rewrite IH. unfold transport_run.
  eexists (tevs ++ _)%list. by rewrite foldl_app.
Qed.

(** Unless a send was refused, the accepted messages are those handed over. *)
Lemma pipeline_accepted evs :
  ts_accepted (pl_net (fst (pipeline_run pipeline_init evs))) = map tagged (snd (pipeline_run pipeline_init evs))
  \/ (length (ts_accepted (pl_net (fst (pipeline_run pipeline_init evs)))) < length (snd (pipeline_run pipeline_init evs)))%nat.
Proof.
  induction evs as [|e evs IH] using rev_ind; [by left|].
  rewrite pipeline_run_snoc. simpl. rewrite map_app, length_app.
  set (s := fst (pipeline_run pipeline_init evs)) in *.
  assert (Hcase : (exists m, net_events s e = [TSend m] /\ handed s e = [m])
    \/ (exists ev, net_events s e = ev /\ handed s e = []
          /\ Forall (fun x => match x with TSend _ => False | _ => True end) ev)).
  { destruct e as [i ev|m|ok|p]; simpl.
    - destruct (snd (tracker_step _ _)) as [a|]; [left; by eexists|right; by exists []].
    - left. by eexists.
    - right. eexists. split_and!; [done|done|by repeat constructor].
    - right. eexists. split_and!; [done|done|by repeat constructor]. }
  destruct Hcase as [(m & -> & ->)|(ev & -> & -> & Hev)].
  - unfold transport_run. cbn [map foldl]. rewrite transport_step_accepted, length_app.
    destruct (accepts m _); simpl; rewrite ?app_nil_r.
    + destruct IH as [->|IH]; [by left|right; lia].
    + right. destruct IH as [->|IH]; [rewrite length_map|]; lia.
  - simpl. rewrite app_nil_r, Nat.add_0_r.
    assert (Hsame : ts_accepted (transport_run cfg (pl_net s) ev) = ts_accepted (pl_net s)).
    { clear IH. generalize (pl_net s). induction Hev as [|x l Hx _ IHl]; [done|].
      intros st. unfold transport_run in *. cbn [foldl]. rewrite IHl, transport_step_accepted.
      destruct x; by rewrite ?app_nil_r. }
    by rewrite Hsame.
Qed.

(** The tracker that owns a fingerprint tracks it exactly when the last alert
    handed to the sink for it is firing. *)
Lemma pipeline_tracked evs fp o :
  (forall i ev, PTrack i ev ∈ evs -> event_fp ev = fp -> i = o) ->
  (forall a, PSend (OutAlert a) ∈ evs -> al_fingerprint a <> fp) ->
  let r := pipeline_run pipeline_init evs in
  is_Some (t_inner (pl_trackers (fst r) o) !! fp) <-> firing_last (alerts_of fp (snd r)).
Proof.
  intros Hown Hdir. induction evs as [|e evs IH] using rev_ind.
  { simpl. rewrite lookup_empty. split; [by intros [??]|by intros (? & ? & ?)]. }
  cbn zeta in IH |- *. rewrite pipeline_run_snoc. cbn [fst snd]. rewrite alerts_of_app.
  pose proof (fun i => pipeline_trackers_wf evs i) as Hwf.
  set (s := fst (pipeline_run pipeline_init evs)) in *.
  assert (IH' := IH ltac:(set_solver) ltac:(set_solver)). clear IH.
  assert (Hin : e ∈ evs ++ [e]) by set_solver.
  destruct e as [i ev|m|ok|p]; cbn [pipeline_step pl_trackers handed];
    rewrite ?app_nil_r; try done.
  - destruct (tracker_step (pl_trackers s i) ev) as [t' oa] eqn:E. cbn [fst snd].
    destruct (decide (event_fp ev = fp)) as [Hfp|Hfp].
    + rewrite <- (Hown i ev Hin Hfp) in *. rewrite fn_lookup_insert.
      destruct oa as [a|].
      * destruct (tracker_step_alert _ _ _ _ (Hwf i) E) as [Ha Hst].
        rewrite <- Hfp, Hst, alerts_of_one, decide_True by done.
        unfold firing_last. rewrite last_snoc.
        split; [by exists a|by intros (? & [= <-] & ?)].
      * rewrite (tracker_step_silent _ _ _ fp E). simpl. by rewrite app_nil_r.
    + assert (Hlook : is_Some (t_inner ((<[i:=t']> (pl_trackers s)) o) !! fp)
                      <-> is_Some (t_inner (pl_trackers s o) !! fp)).
      { destruct (decide (i = o)) as [->|Hne]; [|by rewrite fn_lookup_insert_ne].
        rewrite fn_lookup_insert. pose proof (tracker_step_frame (pl_trackers s o) ev fp Hfp)
          as Hf. rewrite E in Hf. simpl in Hf. by rewrite Hf. }
      rewrite Hlook. destruct oa as [a|]; [|by rewrite app_nil_r].
      destruct (tracker_step_alert _ _ _ _ (Hwf i) E) as [Ha _].
      rewrite alerts_of_one, decide_False by congruence. by rewrite app_nil_r.
  - destruct m as [a| |]; try by rewrite app_nil_r.
    rewrite alerts_of_one, decide_False by (by apply Hdir). by rewrite app_nil_r.
Qed.

(** An alert handed to the sink carries the fingerprint of a tracker operation, or
    was sent directly. *)
Lemma pipeline_handed evs a :
  OutAlert a ∈ snd (pipeline_run pipeline_init evs) ->
  (exists i ev, PTrack i ev ∈ evs /\ event_fp ev = al_fingerprint a)
  \/ PSend (OutAlert a) ∈ evs.
Proof.
  induction evs as [|e evs IH] using rev_ind; [by intros ?%elem_of_nil|].
  rewrite pipeline_run_snoc. cbn [snd]. intros [Hin|Hin]%elem_of_app; [set_solver|].
  pose proof (fun i => pipeline_trackers_wf evs i) as Hwf.
  destruct e as [i ev|m|ok|p]; cbn [handed] in Hin; try by apply elem_of_nil in Hin.
  - destruct (tracker_step _ ev) as [t' [b|]] eqn:E; [|by apply elem_of_nil in Hin].
    apply list_elem_of_singleton in Hin as [= ->].
    destruct (tracker_step_alert _ _ _ _ (Hwf i) E) as [Hf _]. left. exists i, ev. set_solver.
  - apply list_elem_of_singleton in Hin as <-. right. set_solver.
Qed.

(** A fingerprint observed at one severity has alerts of that severity only. *)
Lemma pipeline_severity evs fp sv :
  (forall i now s b, PTrack i (EvObserve now s b) ∈ evs -> fingerprint b = fp ->
     b_severity b = sv) ->
  (forall a, PSend (OutAlert a) ∈ evs -> al_fingerprint a <> fp) ->
  let r := pipeline_run pipeline_init evs in
  (forall i e, t_inner (pl_trackers (fst r) i) !! fp = Some e -> e_severity e = sv)
  /\ Forall (fun a => al_severity a = sv) (alerts_of fp (snd r)).
Proof.
  intros Hsev Hdir. induction evs as [|e evs IH] using rev_ind.
  { split; [|done]. intros i e. simpl. by rewrite lookup_empty. }
  cbn zeta in IH |- *. rewrite pipeline_run_snoc. cbn [fst snd]. rewrite alerts_of_app.
  pose proof (fun i => pipeline_trackers_wf evs i) as Hwf.
  set (s := fst (pipeline_run pipeline_init evs)) in *.
  destruct IH as [IHt IHa]; [set_solver|set_solver|].
  assert (Hin : e ∈ evs ++ [e]) by set_solver.
  destruct e as [i ev|m|ok|p]; cbn [pipeline_step pl_trackers handed];
    rewrite ?app_nil_r; try done.
  - destruct (tracker_step_severity (pl_trackers s i) ev fp sv (IHt i)) as [Ht Ha].
    { intros now st b ->. by apply (Hsev i now st b). }
    split.
    + intros j e. destruct (decide (i = j)) as [<-|Hne];
        [rewrite fn_lookup_insert|rewrite fn_lookup_insert_ne by done]; eauto.
    + apply Forall_app. split; [done|].
      destruct (tracker_step (pl_trackers s i) ev) as [t' [a|]] eqn:E; [|done]. cbn [fst snd] in *.
      destruct (tracker_step_alert _ _ _ _ (Hwf i) E) as [Hf _].
      rewrite alerts_of_one. case_decide; [|done]. constructor; [|done].
      apply Ha; [congruence|done].
  - split; [done|]. apply Forall_app. split; [done|].
    destruct m as [a| |]; try done.
    by rewrite alerts_of_one, decide_False by (by apply Hdir).
Qed.

(** A fingerprint never offered for resolution has firing alerts only. *)
Lemma pipeline_unresolved evs fp :
  (forall i ev, PTrack i ev ∈ evs -> event_fp ev = fp ->
     exists now s b, ev = EvObserve now s b) ->
  (forall a, PSend (OutAlert a) ∈ evs -> al_fingerprint a <> fp) ->
  all_firing (alerts_of fp (snd (pipeline_run pipeline_init evs))).
Proof.
  intros Hobs Hdir. induction evs as [|e evs IH] using rev_ind; [constructor|].
  rewrite pipeline_run_snoc. cbn [fst snd]. rewrite alerts_of_app.
  pose proof (fun i => pipeline_trackers_wf evs i) as Hwf.
  set (s := fst (pipeline_run pipeline_init evs)) in *.
  apply Forall_app. split; [apply IH; set_solver|].
  assert (Hin : e ∈ evs ++ [e]) by set_solver.
  destruct e as [i ev|m|ok|p]; cbn [handed]; try by constructor.
  - destruct (tracker_step (pl_trackers s i) ev) as [t' [a|]] eqn:E; [|by constructor].
    destruct (tracker_step_alert _ _ _ _ (Hwf i) E) as [Hf Hst].
    cbn [snd]. rewrite alerts_of_one. case_decide as Hd; [|by constructor].
    constructor; [|constructor].
    destruct (Hobs i ev Hin ltac:(congruence)) as (now & st & b & ->).
    simpl in E. unfold observe in E. cases.
  - destruct m as [a| |]; try by constructor.
    rewrite alerts_of_one, decide_False by (by apply Hdir). constructor.
Qed.

End run.

(** * The lanes *)

Lemma lane_of_tagged_filter b l :
  lane_of b (map tagged l) = filter (fun m => critical_lane m = b) l.
Proof.
  induction l as [|m l IH]; [done|]. unfold lane_of in *. simpl.
  rewrite filter_cons. destruct (Bool.eqb_spec (critical_lane m) b) as [Hb|Hb]; simpl.
  - by rewrite decide_True, IH.
  - by rewrite decide_False, IH.
Qed.

Lemma elem_of_lane b (l : list (bool * Outbound)) m : m ∈ lane_of b l <-> (b, m) ∈ l.
Proof.
  unfold lane_of. rewrite !list_elem_of_In, in_map_iff. setoid_rewrite filter_In.
  split.
  - intros ([b' m'] & Hm & Hin & Hb). simpl in *. apply Bool.eqb_prop in Hb. by subst.
  - intros Hin. exists (b, m). by rewrite Bool.eqb_reflx.
Qed.

(** A sequence whose lanes are those of tagged messages is tagged itself. *)
Lemma lanes_tagged l L :
  (forall b, lane_of b (map tagged l) = lane_of b L) -> L = map tagged (map snd L).
Proof.
  intros Hl. rewrite map_map.
  rewrite <- (map_id L) at 1. apply map_ext_in. intros [b m] Hin. unfold tagged. simpl.
  f_equal. apply list_elem_of_In, elem_of_lane in Hin. rewrite <- Hl in Hin.
  rewrite lane_of_tagged_filter in Hin. by apply list_elem_of_filter in Hin as [-> _].
Qed.

(** Alerts that share a lane can be read off that lane. *)
Lemma alerts_of_lane fp b l :
  Forall (fun a => critical_lane (OutAlert a) = b) (alerts_of fp l) ->
  alerts_of fp (lane_of b (map tagged l)) = alerts_of fp l.
Proof.
  rewrite lane_of_tagged_filter. induction l as [|m l IH]; [done|].
  rewrite filter_cons, (alerts_of_app fp [m] l : alerts_of fp (m :: l) = _).
  intros [Hm Hl]%Forall_app. specialize (IH Hl). case_decide as Hb.
  - by rewrite (alerts_of_app fp [m] _ : alerts_of fp (m :: _) = _), IH.
  - rewrite IH. destruct m as [a| |]; [|done|done]. rewrite alerts_of_one in *.
    case_decide; [|done]. by apply Forall_cons in Hm as [? _].
Qed.

Lemma lanes_permutation l :
  l ≡ₚ (lane_of true (map tagged l) ++ lane_of false (map tagged l))%list.
Proof.
  rewrite !lane_of_tagged_filter. induction l as [|m l IH]; [done|].
  rewrite !filter_cons. destruct (critical_lane m); simpl; rewrite IH at 1; [done|].
  by rewrite Permutation_middle.
Qed.

(** Two orders of the same messages, each lane in the same order, agree on a
    fingerprint that keeps to one lane, and on one that only ever fires. *)
Lemma lanes_firing_last fp l1 l2 :
  (forall b, lane_of b (map tagged l1) = lane_of b (map tagged l2)) ->
  all_firing (alerts_of fp l1)
  \/ (exists b, Forall (fun a => critical_lane (OutAlert a) = b) (alerts_of fp l1)) ->
  firing_last (alerts_of fp l1) <-> firing_last (alerts_of fp l2).
Proof.
  intros Hl Hfp.
  assert (Hp : alerts_of fp l1 ≡ₚ alerts_of fp l2).
  { unfold alerts_of. apply omap_Permutation.
    by rewrite (lanes_permutation l1), (lanes_permutation l2), !Hl. }
  destruct Hfp as [Hf|[b Hb]].
  - assert (Hf2 : all_firing (alerts_of fp l2)) by (unfold all_firing; by rewrite <- Hp).
    rewrite !firing_last_all by done. split; intros Hne Heq; apply Hne;
      rewrite Heq in Hp; by apply Permutation_nil_r in Hp || by symmetry in Hp; apply Permutation_nil_r in Hp.
  - assert (Hb2 : Forall (fun a => critical_lane (OutAlert a) = b) (alerts_of fp l2))
      by (by rewrite <- Hp).
    by rewrite <- (alerts_of_lane fp b l1), <- (alerts_of_lane fp b l2), Hl.
Qed.

(** * The collector's side *)

(** A message the collector decodes to what was encoded, and that does not put
    its host in maintenance. *)
Definition deliverable (m : Outbound) : Prop :=
  (exists t, encode (into_envelope m) = Some t /\ decode t = Some (into_envelope m))
  /\ match m with OutHello h => hello_maintenance h = false | _ => True end.

Definition no_maintenance (s : AppState) : Prop :=
  forall hid, host_in_maintenance hid s = false.

Lemma touch_host_maintenance h hid ts v s k :
  host_in_maintenance k (touch_host h hid ts v s) = host_in_maintenance k s.
Proof.
  unfold host_in_maintenance, touch_host. simpl. destruct (decide (hid = k)) as [<-|Hne].
  - rewrite lookup_insert_eq. simpl. by destruct (app_hosts s !! hid).
  - by rewrite lookup_insert_ne.
Qed.

Lemma apply_alert_maintenance a s k :
  host_in_maintenance k (fst (apply_alert a s)) = host_in_maintenance k s.
Proof.
  assert (Hb : forall hid d s',
    host_in_maintenance k (bump_host_count hid d s') = host_in_maintenance k s').
  { intros hid d s'. unfold host_in_maintenance, bump_host_count.
    destruct (app_hosts s' !! hid) as [h|] eqn:E; [|done]. simpl.
    destruct (decide (hid = k)) as [<-|Hne].
    - by rewrite lookup_insert_eq, E.
    - by rewrite lookup_insert_ne. }
  unfold apply_alert. cases; by rewrite ?Hb.
Qed.

Lemma stamp_ip_spec s a :
  al_state (stamp_ip s a) = al_state a /\ al_fingerprint (stamp_ip s a) = al_fingerprint a
  /\ al_host_id (stamp_ip s a) = al_host_id a.
Proof. unfold stamp_ip. destruct a. simpl. by case_match. Qed.

(** The effect of a delivered message on the firing map. *)
Lemma handle_envelope_firing m cur st :
  deliverable m -> no_maintenance (ig_app st) ->
  let st' := snd (handle_envelope (into_envelope m) (cur, st)) in
  no_maintenance (ig_app st')
  /\ forall fp, is_Some (app_firing (ig_app st') !! fp)
                <-> match last (alerts_of fp [m]) with
                    | Some a => al_state a = Firing
                    | None => is_Some (app_firing (ig_app st) !! fp)
                    end.
Proof.
  intros [_ Hh] Hm. destruct m as [a|hb|h]; cbn [into_envelope handle_envelope fst snd].
  - unfold ingest_alert. rewrite (Hm (al_host_id a)).
    set (s1 := touch_host _ _ _ _ _).
    assert (Hm1 : no_maintenance s1) by (intros k; unfold s1; by rewrite touch_host_maintenance).
    assert (Hf1 : app_firing s1 = app_firing (ig_app st)) by done.
    clearbody s1. destruct (stamp_ip_spec s1 a) as (Hs & Hf & _).
    set (a1 := stamp_ip s1 a) in *.
    pose proof (apply_alert_firing a1 s1) as Hap.
    pose proof (apply_alert_maintenance a1 s1) as Ham.
    destruct (apply_alert a1 s1) as [s2 ch]. simpl in Hap, Ham.
    cbn [fst snd ig_app]. split.
    + intros k. transitivity (host_in_maintenance k s2); [by destruct ch|]. by rewrite Ham.
    + intros fp. transitivity (is_Some (app_firing s2 !! fp)); [by destruct ch|].
      rewrite Hap, Hs, Hf, Hf1, alerts_of_one.
      destruct (decide (al_fingerprint a = fp)) as [<-|Hne]; simpl.
      * destruct (al_state a); [by rewrite lookup_insert_eq|].
        rewrite lookup_delete_eq. by split; [intros [??]|].
      * destruct (al_state a); by rewrite ?lookup_insert_ne, ?lookup_delete_ne.
  - split; [|done]. intros k. rewrite <- (Hm k). apply touch_host_maintenance.
  - split; [|done]. intros k. unfold host_in_maintenance. simpl.
    destruct (decide (hello_host_id h = k)) as [<-|Hne].
    + by rewrite lookup_insert_eq.
    + rewrite lookup_insert_ne by done. apply (Hm k).
Qed.

(** Delivering messages: a fingerprint fires exactly when its last alert does. *)
Lemma deliver_firing l texts st fp :
  Forall deliverable l -> no_maintenance (ig_app st) -> app_firing (ig_app st) = ∅ ->
  texts = omap (fun m => encode (into_envelope m)) l ->
  is_Some (app_firing (ig_app (snd (receive_loop (map FText texts) (None, st)))) !! fp)
  <-> firing_last (alerts_of fp l).
Proof.
  intros Hd Hm He ->.
  assert (Hloop : forall ts c, receive_loop (map FText ts) c
                     = foldl (fun c t => handle_text t c) c ts).
  { induction ts as [|t ts IH]; [done|]. intros c. simpl. apply IH. }
  rewrite Hloop. clear Hloop.
  set (c := foldl _ _ _).
  assert (Hc : no_maintenance (ig_app (snd c))
    /\ (is_Some (app_firing (ig_app (snd c)) !! fp) <-> firing_last (alerts_of fp l))).
  { subst c. induction l as [|m l IH] using rev_ind.
    - simpl. rewrite He, lookup_empty. split; [done|].
      by split; [intros [??]|intros (? & ? & ?)].
    - apply Forall_app in Hd as [Hl Hdm]. rewrite Forall_singleton in Hdm.
      specialize (IH Hl) as [IHm IHf]. rewrite omap_app, foldl_app.
      set (c := foldl _ _ (omap _ l)) in *. destruct c as [cur st1]. simpl in *.
      destruct (proj1 Hdm) as (t & Ht & Hdec). rewrite Ht. simpl. unfold handle_text.
      rewrite Hdec. destruct (handle_envelope_firing m cur st1 Hdm IHm) as [H1 H2].
      split; [done|]. rewrite H2, alerts_of_app. unfold firing_last.
      destruct (last (alerts_of fp [m])) as [a|] eqn:E.
      + assert (Hlast : last (alerts_of fp l ++ alerts_of fp [m]) = Some a)
          by (apply last_app_Some; by left).
        rewrite Hlast. split; [by exists a|by intros (? & [= <-] & ?)].
      + apply last_None in E. by rewrite E, app_nil_r. }
  apply Hc.
Qed.

(** * Agreement *)

(** Nothing was lost on the way: no send was refused, the lanes are drained, and
    every message the pump took was written. *)
Definition lossless (r : Pipeline * list Outbound) : Prop :=
  let net := pl_net (fst r) in
  length (ts_accepted net) = length (snd r)
  /\ (forall b, lane_queue b (ts_sink net) = [])
  /\ Forall (fun t => snd t = true) (ts_taken net).

Lemma taken_texts (l : list (bool * Outbound * bool)) :
  Forall (fun t => snd t = true) l ->
  omap taken_text l = omap (fun m => encode (into_envelope m)) (map snd (map fst l)).
Proof.
  induction 1 as [|[[b m] w] l Hw _ IH]; [done|]. simpl in Hw. subst w.
  transitivity (omap taken_text [(b, m, true)] ++ omap taken_text l)%list;
    [by apply (omap_app taken_text [_])|].
  rewrite IH. symmetry.
  exact (omap_app (fun m => encode (into_envelope m)) [m] (map snd (map fst l))).
Qed.

Lemma lossless_wire k re_notify recovery evs :
  queued (sink_critical k) = [] -> queued (sink_normal k) = [] ->
  let r := pipeline_run (pipeline_init k re_notify recovery) evs in
  lossless r ->
  exists taken,
    (forall b, lane_of b (map tagged (snd r)) = lane_of b (map tagged taken))
    /\ frame_texts (ts_wire (pl_net (fst r)))
       = omap (fun m => encode (into_envelope m)) taken.
Proof.
  intros Hc Hn r (Hacc & Hq & Hw). destruct (pipeline_net k re_notify recovery evs) as [tevs Hnet].
  destruct (transport_inv_run cfg k tevs Hc Hn) as [Hl Hwire]. rewrite <- Hnet in *.
  fold r in Hl, Hwire.
  destruct (pipeline_accepted k re_notify recovery evs) as [Ha|Ha]; fold r in Ha; [|lia].
  set (net := pl_net (fst r)) in *.
  assert (Htag : map fst (ts_taken net) = map tagged (map snd (map fst (ts_taken net)))).
  { apply (lanes_tagged (snd r)). intros b. specialize (Hl b).
    by rewrite Ha, Hq, app_nil_r in Hl. }
  exists (map snd (map fst (ts_taken net))). split.
  - intros b. rewrite <- Htag. specialize (Hl b). by rewrite Ha, Hq, app_nil_r in Hl.
  - unfold wire_inv in Hwire. by rewrite Hwire, taken_texts.
Qed.

(** The agreement, for one fingerprint. *)
Lemma pipeline_agree (k : AlertSink C) (re_notify recovery : Duration)
    (evs : list PEvent) (st : IngestState C) (fp : string) (o : nat)
    (Hempty : queued (sink_critical k) = [] /\ queued (sink_normal k) = [])
    (Hfresh : app_firing (ig_app st) = ∅ /\ no_maintenance (ig_app st))
    (Hloss : lossless (pipeline_run (pipeline_init k re_notify recovery) evs))
    (Hcodec : Forall deliverable (snd (pipeline_run (pipeline_init k re_notify recovery) evs)))
    (Hown : forall i ev, PTrack i ev ∈ evs -> event_fp ev = fp -> i = o)
    (Hdirect : forall a, PSend (OutAlert a) ∈ evs -> al_fingerprint a <> fp)
    (Hlane : (forall i ev, PTrack i ev ∈ evs -> event_fp ev = fp ->
                exists now s b, ev = EvObserve now s b)
             \/ exists sv, forall i now s b, PTrack i (EvObserve now s b) ∈ evs ->
                  fingerprint b = fp -> b_severity b = sv) :
  let s := fst (pipeline_run (pipeline_init k re_notify recovery) evs) in
  is_Some (app_firing (ig_app (collector_of s st)) !! fp)
  <-> is_Some (t_inner (pl_trackers s o) !! fp).
Proof.
  cbn zeta. destruct Hempty as [Hc Hn], Hfresh as [Hf Hm].
  destruct (lossless_wire k re_notify recovery evs Hc Hn Hloss) as (taken & Hl & Hw).
  rewrite (pipeline_tracked k re_notify recovery evs fp o Hown Hdirect).
  set (r := pipeline_run _ _) in *.
  assert (Hp : snd r ≡ₚ taken)
    by (by rewrite (lanes_permutation (snd r)), (lanes_permutation taken), !Hl).
  unfold collector_of. rewrite (deliver_firing taken _ st fp); try done;
    [|by rewrite <- Hp].
  symmetry. apply lanes_firing_last; [done|]. destruct Hlane as [Hobs|[sv Hsv]].
  - left. by apply pipeline_unresolved.
  - right. exists (bool_decide (sv = Critical)).
    destruct (pipeline_severity k re_notify recovery evs fp sv Hsv Hdirect) as [_ Hs].
    eapply Forall_impl; [exact Hs|]. intros a <-. done.
Qed.

(** End to end, the collector shows what the modules track.  Over any
    interleaving of tracker operations of any number of modules, of direct sends,
    connections, lost connections and turns of the pump, that loses nothing: a
    fingerprint owned by one module, and not sent past its tracker, is firing on
    the collector exactly when that module's tracker tracks it, provided the
    fingerprint is never offered for resolution or is always observed at one
    severity, so that its alerts stay in one lane. *)
Theorem pipeline_mirrors (k : AlertSink C) (re_notify recovery : Duration)
    (evs : list PEvent) (st : IngestState C) (fp : string) (o : nat)
    (Hempty : queued (sink_critical k) = [] /\ queued (sink_normal k) = [])
    (Hfresh : app_firing (ig_app st) = ∅ /\ no_maintenance (ig_app st))
    (Hloss : lossless (pipeline_run (pipeline_init k re_notify recovery) evs))
    (Hcodec : Forall deliverable (snd (pipeline_run (pipeline_init k re_notify recovery) evs)))
    (Hown : forall i ev, PTrack i ev ∈ evs -> event_fp ev = fp -> i = o)
    (Hdirect : forall a, PSend (OutAlert a) ∈ evs -> al_fingerprint a <> fp)
    (Hlane : (forall i ev, PTrack i ev ∈ evs -> event_fp ev = fp ->
                exists now s b, ev = EvObserve now s b)
             \/ exists sv, forall i now s b, PTrack i (EvObserve now s b) ∈ evs ->
                  fingerprint b = fp -> b_severity b = sv) :
  let s := fst (pipeline_run (pipeline_init k re_notify recovery) evs) in
  is_Some (app_firing (ig_app (collector_of s st)) !! fp)
  <-> is_Some (t_inner (pl_trackers s o) !! fp).
Proof. by apply pipeline_agree. Qed.

End pipeline.

(** * Concrete runs *)

(** A codec that knows some alerts, by their id. *)
Definition codec_of (l : list Alert) : Codec :=
  {| encode e := match e with EnvAlert a => Some (al_id a) | _ => None end;
     decode s := EnvAlert <$> List.find (fun a => bool_decide (al_id a = s)) l;
     encode_alert a := Some (al_id a);
     decode_alert s := List.find (fun a => bool_decide (al_id a = s)) l |}.

Definition run_builder (metric : string) (sev : Severity) : AlertBuilder :=
  builder_new "h" "hid" cat.NVME metric sev.

Definition run_sink : AlertSink BoundedQueue :=
  mkSink (mkBounded 8 []) (mkBounded 8 []) [] false.

Definition run_collector : IngestState BoundedQueue :=
  mkIngest (app_new 10) (mkBounded 8 []).

Definition good_poll : PEvent := PPoll (mkPoll false None true true).

(** Two modules: the first one's critical alert recovers while the connection is
    down, the second one's warning stays. *)
Definition run_events : list PEvent :=
  [PTrack 0 (EvObserve 0 (mkStamp 0 "01") (run_builder "wear" Critical));
   PConnect true; good_poll; PPoll (mkPoll false (Some InClose) true true);
   PTrack 1 (EvObserve 1 (mkStamp 1 "02") (run_builder "temp" Warning));
   PTrack 0 (EvOk 2 (mkStamp 2 "03") (fingerprint (run_builder "wear" Critical)));
   PTrack 0 (EvOk 9 (mkStamp 9 "03") (fingerprint (run_builder "wear" Critical)));
   PConnect true; good_poll; good_poll].

Definition run_backoff : Backoff := mkBackoff 250 30000.

(** The run of some events, and the alerts it hands out (with any codec). *)
Definition run_of `{Codec} (evs : list PEvent) : Pipeline (C := BoundedQueue) * list Outbound :=
  pipeline_run run_backoff (pipeline_init run_backoff run_sink 30 5) evs.
Definition run_codec (evs : list PEvent) : Codec :=
  codec_of (omap (fun m => match m with OutAlert a => Some a | _ => None end)
              (snd (run_of (H := CodecRef) evs))).

Lemma run_lossless (C := run_codec run_events) : lossless (run_of (H := C) run_events).
Proof.
  split; [vm_compute; reflexivity|]. split; [by intros []; vm_compute|].
  vm_compute. repeat constructor.
Qed.

Lemma run_deliverable (C := run_codec run_events) :
  Forall (deliverable (H := C)) (snd (run_of (H := C) run_events)).
Proof.
  repeat (apply Forall_cons; split); [..|apply Forall_nil; exact I];
    (split; [eexists; split; vm_compute; reflexivity|exact I]).
Qed.

(** Case analysis on the membership of an explicit list. *)
Ltac in_cases H :=
  repeat (apply elem_of_cons in H as [H|H]; [simplify_eq|]);
  try by apply elem_of_nil in H.

Lemma run_owned i ev :
  PTrack i ev ∈ run_events -> event_fp ev = fingerprint (run_builder "temp" Warning) ->
  i = 1%nat.
Proof. unfold run_events. intros Hin. by in_cases Hin. Qed.

Lemma run_severity i now s b :
  PTrack i (EvObserve now s b) ∈ run_events ->
  fingerprint b = fingerprint (run_builder "temp" Warning) -> b_severity b = Warning.
Proof. unfold run_events. intros Hin. by in_cases Hin. Qed.

Lemma pipeline_mirrors_witness :
  is_Some (app_firing (ig_app (collector_of (H := run_codec run_events)
    (fst (run_of (H := run_codec run_events) run_events)) run_collector))
    !! fingerprint (run_builder "temp" Warning)).
Proof.
  apply (pipeline_mirrors (H := run_codec run_events) run_backoff run_sink 30 5 run_events
    run_collector (fingerprint (run_builder "temp" Warning)) 1).
  - by split.
  - by split.
  - exact run_lossless.
  - exact run_deliverable.
  - exact run_owned.
  - unfold run_events. intros a Hin. by in_cases Hin.
  - right. exists Warning. exact run_severity.
  - vm_compute. by eexists.
Defined.

(** Why the lanes matter.  One fingerprint observed first as critical, emitted
    again as a warning and then resolved: the resolution overtakes the warning in
    the critical lane, and the collector keeps an alert nobody tracks. *)
Definition reorder_events : list PEvent :=
  [PTrack 0 (EvObserve 0 (mkStamp 0 "01") (run_builder "wear" Critical));
   PTrack 0 (EvObserve 40 (mkStamp 40 "02") (run_builder "wear" Warning));
   PTrack 0 (EvForce (mkStamp 41 "03") (fingerprint (run_builder "wear" Warning)));
   PConnect true; good_poll; good_poll; good_poll].

Lemma lane_reordering_keeps_stale (D := run_codec reorder_events) :
  let r := run_of (H := D) reorder_events in
  let fp := fingerprint (run_builder "wear" Warning) in
  lossless r /\ t_inner (pl_trackers (fst r) 0) !! fp = None
  /\ is_Some (app_firing (ig_app (collector_of (H := D) (fst r) run_collector)) !! fp).
Proof.
  split; [split; [vm_compute; reflexivity|]; split; [by intros []; vm_compute|]|split].
  - vm_compute. repeat constructor.
  - vm_compute. reflexivity.
  - vm_compute. by eexists.
Qed.
