(* ===== verification/Json.v ===== *)
(** Reading a [serde_json::Value]: the accessors of that crate the program uses,
    on the documented variants. *)
From S2P Require Import Prelude Text Schema.

Local Open Scope Z_scope.

Fixpoint assoc (k : string) (l : list (string * Value)) : option Value :=
  match l with
  | [] => None
  | (k', v) :: l' => if decide (k = k') then Some v else assoc k l'
  end.

(** [Value::get] with a key. *)
Definition get (k : string) (v : Value) : option Value :=
  match v with VObject l => assoc k l | _ => None end.

Definition as_str (v : Value) : option string :=
  match v with VString s => Some s | _ => None end.
Definition as_array (v : Value) : option (list Value) :=
  match v with VArray l => Some l | _ => None end.
Definition as_bool (v : Value) : option bool :=
  match v with VBool b => Some b | _ => None end.
Definition as_u64 (v : Value) : option Z :=
  match v with
  | VInt n => if (0 <=? n) && (n <=? Int.u64_max) then Some n else None
  | _ => None
  end.
Definition as_i64 (v : Value) : option Z :=
  match v with
  | VInt n => if (- 2 ^ 63 <=? n) && (n <? 2 ^ 63) then Some n else None
  | _ => None
  end.

(** [v.get(k).and_then(|x| x.as_str()).unwrap_or(d)]. *)
Definition get_str_or (d k : string) (v : Value) : string :=
  default d (get k v ≫= as_str).

(** [Iterator::find_map]. *)
Fixpoint find_map {A B} (f : A -> option B) (l : list A) : option B :=
  match l with
  | [] => None
  | x :: l' => match f x with Some y => Some y | None => find_map f l' end
  end.
