(* ===== verification/Host.v ===== *)
(** Host identity (src/agent/src/host.rs).  Reading the hostname, the machine id
    and the outputs of [ip] and [hostname] is I/O ([HostEnv]); what [detect] makes of
    them is not. *)
From S2P Require Import Prelude Text Utf8 Schema Json.
From Stdlib Require Import Ascii.

Local Open Scope Z_scope.

(** src/agent/src/host.rs:6-11 (HostId). *)
Record HostId : Type := mkHostId {
  hostname : string;
  machine_id : string;
  primary_ip : string
}.

(** src/agent/src/host.rs:62-62 (the skipped prefixes of detect_ip_via_ip_cmd). *)
Definition skip_prefixes : list string :=
  ["lo"; "docker"; "cni"; "veth"; "br-"; "tun"; "tap"; "virbr"; "uma-test"].

(** src/agent/src/host.rs:68-76 (the address of one interface). *)
Definition iface_ip (iface : Value) : option string :=
  match get "addr_info" iface ≫= as_array with
  | Some addrs =>
      find_map (fun a =>
        if decide (get "family" a ≫= as_str = Some "inet")
        then get "local" a ≫= as_str else None) addrs
  | None => None
  end.

(** src/agent/src/host.rs:61-79 (detect_ip_via_ip_cmd, on the parsed output). *)
Definition pick_ip (v : Value) : option string :=
  match as_array v with
  | None => None
  | Some arr =>
      find_map (fun iface =>
        let name := get_str_or "" "ifname" iface in
        if existsb (fun p => starts_with p name) skip_prefixes then None
        else
          let oper := get_str_or "" "operstate" iface in
          if bool_decide (oper <> "UP") && bool_decide (oper <> "UNKNOWN") then None
          else iface_ip iface) arr
  end.

(** src/agent/src/host.rs:81-93 (detect_ip_via_hostname, on the output). *)
Definition pick_hostname_ip (stdout : string) : option string :=
  List.find (fun ip => negb (starts_with "127." ip) && negb (starts_with "169.254." ip)
                       && negb (contains_byte ":"%char ip))
    (split_whitespace (from_utf8_lossy stdout)).

(** src/agent/src/host.rs:49-51 (detect_primary_ip); an input is [None] when the
    command fails or its output does not parse. *)
Definition detect_primary_ip (ip_json : option Value) (hostname_out : option string) :
    option string :=
  match ip_json ≫= pick_ip with
  | Some ip => Some ip
  | None => hostname_out ≫= pick_hostname_ip
  end.

(** * Detection *)

(** What [detect] reads: the system's host name, the two places of the machine id,
    [ip -4 -j addr show] (whether it succeeded, and its output) and
    [hostname -I]. *)
Record HostEnv : Type := mkHostEnv {
  he_hostname : option string;
  he_machine_id : option string;
  he_dbus_id : option string;
  he_ip : option (bool * string);
  he_hostname_i : option string
}.

(** [std::fs::read_to_string]: the file must be UTF-8. *)
Definition read_to_string (file : option string) : option string :=
  bytes ← file; if utf8_valid bytes then Some bytes else None.

(** [{:016x}] of a [u64]. *)
Definition hex_char (n : Z) : ascii :=
  ascii_of_nat (Z.to_nat (if n <? 10 then 48 + n else 87 + n)).
Fixpoint hex_digits (n : nat) (x : Z) : string :=
  match n with
  | O => ""
  | S n' => hex_digits n' (x / 16) +:+ String (hex_char (x mod 16)) ""
  end.

Section detect.
(** [default_hash] is the standard library's [DefaultHasher] on a string, whose
    algorithm is not specified. *)
Context (from_slice : string -> option Value) (default_hash : string -> Z).

(** src/agent/src/host.rs:53-60 (the command of detect_ip_via_ip_cmd). *)
Definition ip_output (env : HostEnv) : option Value :=
  '(success, stdout) ← he_ip env; if (success : bool) then from_slice stdout else None.

(** src/agent/src/host.rs:20-30 (the machine id of detect). *)
Definition detect_machine_id (env : HostEnv) (name : string) : string :=
  match (match read_to_string (he_machine_id env) with
         | Some s => Some s
         | None => read_to_string (he_dbus_id env)
         end) with
  | Some s => trim s
  | None => "hn-" +:+ hex_digits 16 (default_hash name)
  end.

(** src/agent/src/host.rs:14-38 (HostId::detect); only the host name is required. *)
Definition host_detect (env : HostEnv) : option HostId :=
  bytes ← he_hostname env;
  let name := from_utf8_lossy bytes in
  Some (mkHostId name (detect_machine_id env name)
          (default "" (detect_primary_ip (ip_output env) (he_hostname_i env)))).

(** The identity of a machine with an id file does not depend on its name, its
    network or the hash. *)
Lemma machine_id_stable env name name' bytes :
  he_machine_id env = Some bytes -> utf8_valid bytes = true ->
  detect_machine_id env name = detect_machine_id env name' /\ detect_machine_id env name = trim bytes.
Proof. intros He Hu. unfold detect_machine_id, read_to_string. by rewrite He; simpl; rewrite Hu. Qed.

End detect.

Example hex_deadbeef : hex_digits 16 3735928559 = "00000000deadbeef".
Proof. reflexivity. Qed.

(** [AlertBuilder::new(host.host(), host.host_id(), ..)], which every module
    starts from. *)
Definition new_alert (h : HostId) (category metric : string) (sev : Severity) : AlertBuilder :=
  builder_new (hostname h) (machine_id h) category metric sev.
