(* ===== verification/Command.v ===== *)
(** Subprocesses (src/agent/src/priv_cmd.rs): privilege, time-outs and what a run
    returns.

    The process itself is an input: the modules that read a tool take the answer
    of the run, or a function from the command line to it. *)
From S2P Require Import Prelude Text Utf8.

Local Open Scope string_scope.
Local Open Scope Z_scope.

(** src/agent/src/priv_cmd.rs:43-48 (CmdOutput); the status is the exit code, [None]
    when a signal ended the process. *)
Record Output : Type := mkOutput { o_code : option Z; o_stdout : string; o_stderr : string }.
Definition o_success (o : Output) : bool := bool_decide (o_code o = Some 0).

(** src/agent/src/priv_cmd.rs:18-23 (the time-outs, in seconds). *)
Definition TIMEOUT_STORAGE : Z := 20.
Definition TIMEOUT_IPMI : Z := 15.
Definition TIMEOUT_NET : Z := 10.
Definition TIMEOUT_GPU : Z := 15.
Definition TIMEOUT_GENERAL : Z := 15.

(** src/agent/src/priv_cmd.rs:33-41 (priv_command): the command line it starts
    from, with the answer of [is_root]. *)
Definition priv_command (is_root : bool) (bin : string) : list string :=
  if is_root then [bin] else ["sudo"; "-n"; bin].

(** How a process ends: it could not start, it was waited for, or waiting failed. *)
Inductive Process : Type :=
  | SpawnError (e : string)
  | Ended (after : Duration) (o : Output)
  | WaitError (after : Duration) (e : string).

(** src/agent/src/priv_cmd.rs:50-95 (run_cmd): the output, or the error's text. *)
Definition run_cmd (p : Process) (label : string) (t : Duration) : Output + string :=
  match p with
  | SpawnError e => inr ("spawn `" +:+ label +:+ "`: " +:+ e)
  | Ended d o =>
      if d <? t then inl o
      else inr ("`" +:+ label +:+ "` timed out after " +:+ show (as_secs t)
                +:+ "s — hardware may be unresponsive")
  | WaitError d e =>
      if d <? t then inr ("`" +:+ label +:+ "` wait error: " +:+ e)
      else inr ("`" +:+ label +:+ "` timed out after " +:+ show (as_secs t)
                +:+ "s — hardware may be unresponsive")
  end.

(** src/agent/src/priv_cmd.rs:97-102 (run), on a machine that answers a command
    line; [None] is an error. *)
Definition run (machine : list string -> Process) (bin : string) (args : list string)
    (t : Z) : option Output :=
  match run_cmd (machine (bin :: args)) bin (from_secs t) with
  | inl o => Some o
  | inr _ => None
  end.

(** A run that comes back is a process that ended within its time. *)
Lemma run_Some machine bin args t o :
  run machine bin args t = Some o <->
  exists d, machine (bin :: args) = Ended d o /\ d < from_secs t.
Proof.
  unfold run, run_cmd. split.
  - case_match; [|done]. intros [= ->]. repeat case_match; simplify_eq.
    eexists; split; [done|]; zbool.
  - intros (d & -> & Hd). by rewrite (proj2 (Z.ltb_lt _ _) Hd).
Qed.

(** * Hash maps

    The order in which a [HashMap] or [HashSet] is iterated is unspecified: an
    instance of [HashOrder] picks one, a permutation of the entries. *)
Class HashOrder : Type := {
  hash_iter : forall {A : Type}, gmap string A -> list (string * A);
  hash_iter_perm {A : Type} (m : gmap string A) : hash_iter m ≡ₚ map_to_list m
}.

Section hash_order.
Context `{HashOrder}.

Lemma elem_of_hash_iter {A} (m : gmap string A) k x :
  (k, x) ∈ hash_iter m <-> m !! k = Some x.
Proof. by rewrite hash_iter_perm, elem_of_map_to_list. Qed.

(** [a.difference(&b)] on the key sets. *)
Definition key_difference {A B} (a : gmap string A) (b : gmap string B) : list string :=
  map fst (hash_iter (filter (fun kx => b !! kx.1 = None) a)).

Lemma elem_of_key_difference {A B} (a : gmap string A) (b : gmap string B) k :
  k ∈ key_difference a b <-> is_Some (a !! k) /\ b !! k = None.
Proof.
  unfold key_difference. rewrite list_elem_of_fmap. split.
  - intros ([k' x] & -> & Hk). apply elem_of_hash_iter, map_lookup_filter_Some in Hk.
    simpl in *. destruct Hk. eauto.
  - intros ([x Hx] & Hb). exists (k, x). split; [done|].
    apply elem_of_hash_iter, map_lookup_filter_Some. done.
Qed.

Lemma NoDup_key_difference {A B} (a : gmap string A) (b : gmap string B) :
  NoDup (key_difference a b).
Proof. unfold key_difference. rewrite hash_iter_perm. apply NoDup_fst_map_to_list. Qed.

End hash_order.

#[export] Hint Rewrite @elem_of_hash_iter @elem_of_key_difference : uma.

(** The order of the model's own maps. *)
Definition CanonicalOrder : HashOrder :=
  {| hash_iter A m := map_to_list m; hash_iter_perm A m := reflexivity _ |}.
