(* ===== verification/VendorDetect.v ===== *)
(** Vendor detection (src/agent/src/vendor_detect.rs): what the files and tools
    read once at start-up say about the machine. *)
From S2P Require Import Prelude Text Utf8 Schema Command Json.
From Stdlib Require Import Ascii.

Local Open Scope string_scope.
Local Open Scope Z_scope.

(** src/agent/src/vendor_detect.rs:9-23 (VendorProfile). *)
Record VendorProfile : Type := mkVendorProfile {
  vendor_info : VendorInfo;
  has_smartctl : bool;
  has_nvme_cli : bool;
  has_ipmitool : bool;
  has_ssacli : bool;
  has_perccli : bool;
  has_storcli : bool;
  has_megacli : bool;
  has_nvml : bool;
  has_rocm_smi : bool;
  has_ethtool : bool
}.

(** What detection reads: files, the output of a command that ran, whether a path
    is a file or exists, and the [PATH]. *)
Record Machine : Type := mkMachine {
  m_read : string -> option string;
  m_output : list string -> option Output;
  m_is_file : string -> bool;
  m_exists : string -> bool;
  m_path : option string
}.

Section detect.
Context (m : Machine).

(** src/agent/src/vendor_detect.rs:54-58 (read_dmi). *)
Definition read_dmi (field : string) : string :=
  default "" (trim <$> m_read m ("/sys/class/dmi/id/" +:+ field)).

(** src/agent/src/vendor_detect.rs:60-64 (read_kernel). *)
Definition read_kernel : string :=
  default "" (trim <$> m_read m "/proc/sys/kernel/osrelease").

(** [trim_matches] with the double quote. *)
Fixpoint strip_quotes (s : string) : string :=
  match s with
  | String c s' => if (byte_val c =? 34)%Z then strip_quotes s' else s
  | EmptyString => EmptyString
  end.
Definition trim_quotes (s : string) : string :=
  rev_string (strip_quotes (rev_string (strip_quotes s))).

(** src/agent/src/vendor_detect.rs:66-75 (read_os_release). *)
Definition read_os_release : string :=
  default ""
    (s ← m_read m "/etc/os-release";
     v ← find_map (strip_prefix "PRETTY_NAME=") (lines s);
     Some (trim_quotes v)).

(** src/agent/src/vendor_detect.rs:77-96 (detect_bmc_vendor). *)
Definition detect_bmc_vendor : string :=
  let mfr := to_lowercase (read_dmi "sys_vendor") in
  if contains "hpe" mfr || contains "hewlett" mfr then "hpe"
  else if contains "dell" mfr then "dell"
  else if contains "supermicro" mfr then "supermicro"
  else if contains "lenovo" mfr then "lenovo"
  else
    match m_output m ["ipmitool"; "mc"; "info"] with
    | Some out =>
        if o_success out then
          let s := to_lowercase (from_utf8_lossy (o_stdout out)) in
          if contains "hewlett" s || contains "hpe" s then "hpe"
          else if contains "dell" s then "dell"
          else if contains "supermicro" s then "supermicro"
          else if contains "lenovo" s then "lenovo"
          else "unknown"
        else "unknown"
    | None => "unknown"
    end.

(** src/agent/src/vendor_detect.rs:98-111 (detect_gpu_vendors). *)
Definition detect_gpu_vendors : list string :=
  match m_output m ["lspci"; "-nn"] with
  | None => []
  | Some out =>
      let s := to_lowercase (from_utf8_lossy (o_stdout out)) in
      ((if contains "nvidia" s then ["nvidia"] else [])
       ++ (if contains "amd/ati" s || contains "advanced micro devices" s && contains "vga" s
           then ["amd"] else [])
       ++ (if contains "intel" s && (contains "vga" s || contains "display" s)
           then ["intel"] else []))%list
  end.

(** [Path::join]: an absolute second part replaces the first. *)
Definition path_join (p q : string) : string :=
  if starts_with "/" q then q
  else if is_empty p then q
  else if starts_with "/" (rev_string p) then p +:+ q
  else p +:+ "/" +:+ q.

(** src/agent/src/vendor_detect.rs:113-122 (which). *)
Definition which (bin : string) : bool :=
  match m_path m with
  | Some path => existsb (fun p => m_is_file m (path_join p bin)) (split ":"%char path)
  | None => false
  end.

(** src/agent/src/vendor_detect.rs:26-52 (VendorProfile::detect). *)
Definition detect : VendorProfile :=
  {| vendor_info :=
       {| system_manufacturer := read_dmi "sys_vendor";
          system_product_name := read_dmi "product_name";
          bios_version := read_dmi "bios_version";
          bmc_vendor := detect_bmc_vendor;
          gpu_vendors := detect_gpu_vendors;
          kernel := read_kernel;
          os_release := read_os_release |};
     has_smartctl := which "smartctl";
     has_nvme_cli := which "nvme";
     has_ipmitool := which "ipmitool";
     has_ssacli := which "ssacli";
     has_perccli := which "perccli64" || which "perccli";
     has_storcli := which "storcli64" || which "storcli";
     has_megacli := which "megacli" || which "MegaCli64";
     has_nvml := m_exists m "/usr/lib/x86_64-linux-gnu/libnvidia-ml.so.1"
                 || m_exists m "/usr/lib64/libnvidia-ml.so.1"
                 || m_exists m "/lib/x86_64-linux-gnu/libnvidia-ml.so.1";
     has_rocm_smi := which "rocm-smi";
     has_ethtool := which "ethtool" |}.

End detect.
