(* ===== verification/ConfigLoad.v ===== *)
(** Loading the agent's configuration (src/agent/src/config.rs,
    [AgentConfig::load]; src/agent/src/main.rs): what [derive(Deserialize)] with its
    field defaults makes of a parsed TOML document, and the fallback of [main].

    Parsing TOML text is the [toml] crate's: [toml_parse] gives the document as a
    value.  Unknown keys are ignored, as the derived code does; an array where a
    block is expected, which it would read by position, is not modelled. *)
From Stdlib Require Import SpecFloat.
From S2P Require Import Prelude Text Utf8 Schema Json Float Config.

Local Open Scope string_scope.
Local Open Scope Z_scope.

(** * Decoding a value *)

Definition dec_uint (hi : Z) (v : Value) : option Z :=
  match v with VInt n => if (0 <=? n) && (n <=? hi) then Some n else None | _ => None end.
Definition dec_u64 : Value -> option Z := dec_uint Int.u64_max.
Definition dec_u32 : Value -> option Z := dec_uint Int.u32_max.
Definition dec_u8 : Value -> option Z := dec_uint Int.u8_max.
Definition dec_i32 (v : Value) : option Z :=
  match v with
  | VInt n => if (Int.i32_min <=? n) && (n <=? Int.i32_max) then Some n else None
  | _ => None
  end.

(** [x as f32] of an [f64]. *)
Definition f64_as_f32 (x : spec_float) : f32 := SFmul f32_prec f32_emax x (S754_finite false 1 0).

Definition dec_f32 (v : Value) : option f32 :=
  match v with
  | VFloat x => Some (f64_as_f32 x)
  | VInt n => Some (f32_of_Z n)
  | _ => None
  end.

Definition dec_list {A} (dec : Value -> option A) (v : Value) : option (list A) :=
  match v with VArray l => mapM dec l | _ => None end.

Definition dec_map (v : Value) : option (gmap string string) :=
  match v with
  | VObject l => list_to_map <$> mapM (fun kx => s ← as_str (snd kx); Some (fst kx, s)) l
  | _ => None
  end.

(** The fields of a block. *)
Definition fields (v : Value) : option (list (string * Value)) :=
  match v with VObject l => Some l | _ => None end.

(** [#[serde(default = ..)]]: an absent field takes its default, a present one must
    decode. *)
Definition field {A} (dec : Value -> option A) (dflt : A) (k : string)
    (l : list (string * Value)) : option A :=
  match assoc k l with Some x => dec x | None => Some dflt end.

(** A field without a default must be present. *)
Definition required {A} (dec : Value -> option A) (k : string) (l : list (string * Value)) :
    option A := x ← assoc k l; dec x.

(** An [Option] field: absent or null is [None]. *)
Definition optional {A} (dec : Value -> option A) (k : string) (l : list (string * Value)) :
    option (option A) :=
  match assoc k l with
  | None | Some VNull => Some None
  | Some x => Some <$> dec x
  end.

(** The derived decoder of a structure refuses a field given twice.  (A TOML parser
    refuses the document already.) *)
Definition occurrences_of (k : string) (l : list (string * Value)) : nat :=
  length (List.filter (fun kx => String.eqb (fst kx) k) l).
Definition unique (keys : list string) (l : list (string * Value)) : bool :=
  forallb (fun k => (occurrences_of k l <=? 1)%nat) keys.

Definition dec_struct {A} (keys : list string) (dec : list (string * Value) -> option A)
    (v : Value) : option A :=
  l ← fields v; if unique keys l then dec l else None.

(** * The blocks *)

(** src/agent/src/config.rs:30-42 (AgentBlock, derive(Deserialize)). *)
Definition dec_agent (v : Value) : option AgentBlock :=
  l ← fields v;
  a ← field as_str "info" "log_level" l;
  b ← field as_bool false "maintenance" l;
  c ← field (fun x => Some <$> as_str x) None "debug_listen" l;
  Some (mkAgentBlock a b c).

(** src/agent/src/config.rs:54-88 (CollectorBlock, derive(Deserialize), and the
    defaults of its fields). *)
Definition dec_collector (v : Value) : option CollectorBlock :=
  l ← fields v;
  a ← field as_str "wss://collector.local:9443/v1/ingest" "url" l;
  b ← field dec_u64 4096 "send_queue_size" l;
  c ← field dec_u64 1024 "critical_queue_size" l;
  d ← field dec_u64 250 "reconnect_min_ms" l;
  e ← field dec_u64 30000 "reconnect_max_ms" l;
  f ← field dec_u64 5 "keepalive_s" l;
  Some (mkCollectorBlock a b c d e f).

(** src/agent/src/config.rs:89-113 (TlsBlock, derive(Deserialize), and the defaults
    of its fields). *)
Definition dec_tls (v : Value) : option TlsBlock :=
  l ← fields v;
  a ← field as_str "/etc/monitor-agent/ca.crt" "ca_cert" l;
  b ← field as_str "/etc/monitor-agent/client.crt" "client_cert" l;
  c ← field as_str "/etc/monitor-agent/client.key" "client_key" l;
  d ← field as_bool false "insecure_skip_verify" l;
  Some (mkTlsBlock a b c d).

(** src/agent/src/config.rs:115-123 (HeartbeatBlock, derive(Deserialize)). *)
Definition dec_heartbeat (v : Value) : option HeartbeatBlock :=
  l ← fields v; a ← field dec_u64 5 "interval_s" l; Some (mkHeartbeatBlock a).

(** src/agent/src/config.rs:125-143 (DedupBlock, derive(Deserialize), and the
    defaults of its fields). *)
Definition dec_dedup (v : Value) : option DedupBlock :=
  l ← fields v;
  a ← field dec_u64 (30 * 60) "re_notify_after_s" l;
  b ← field dec_u64 60 "recovery_window_s" l;
  Some (mkDedupBlock a b).

(** src/agent/src/config.rs:187-195 (SimpleEnable, derive(Deserialize)). *)
Definition dec_simple (v : Value) : option SimpleEnable :=
  l ← fields v; a ← field as_bool true "enabled" l; Some (mkSimpleEnable a).

(** src/agent/src/config.rs:197-228 (NvmeCfg, derive(Deserialize), and the defaults
    of its fields). *)
Definition dec_nvme (v : Value) : option NvmeCfg :=
  l ← fields v;
  a ← field as_bool true "enabled" l;
  b ← field dec_u64 60 "poll_s" l;
  c ← field dec_u8 80 "wear_warn_pct" l;
  d ← field dec_u8 90 "wear_critical_pct" l;
  e ← field dec_i32 70 "temp_warn_c" l;
  f ← field dec_i32 80 "temp_critical_c" l;
  Some (mkNvmeCfg a b c d e f).

(** src/agent/src/config.rs:230-240 (DiskSmartCfg, derive(Deserialize)). *)
Definition dec_smart (v : Value) : option DiskSmartCfg :=
  l ← fields v;
  a ← field as_bool true "enabled" l; b ← field dec_u64 300 "poll_s" l;
  Some (mkDiskSmartCfg a b).

(** src/agent/src/config.rs:242-275 (MemoryEccCfg, derive(Deserialize), and the
    defaults of its fields). *)
Definition dec_ecc (v : Value) : option MemoryEccCfg :=
  l ← fields v;
  a ← field as_bool true "enabled" l;
  b ← field dec_u64 5 "poll_s" l;
  c ← field dec_u64 50 "ce_per_hour_warn" l;
  d ← field as_bool false "edac_sysfs_enable" l;
  e ← field as_bool true "ipmi_sdr_enable" l;
  Some (mkMemoryEccCfg a b c d e).

(** src/agent/src/config.rs:277-289 (PcieAerCfg, derive(Deserialize)). *)
Definition dec_aer (v : Value) : option PcieAerCfg :=
  l ← fields v;
  a ← field as_bool true "enabled" l; b ← field dec_u64 100 "corrected_per_min_warn" l;
  Some (mkPcieAerCfg a b).

(** src/agent/src/config.rs:291-318 (ThermalCfg, derive(Deserialize), and the
    defaults of its fields). *)
Definition dec_thermal (v : Value) : option ThermalCfg :=
  l ← fields v;
  a ← field as_bool true "enabled" l;
  b ← field dec_u64 5 "poll_s" l;
  c ← field dec_f32 (f32_of_Z 32) "inlet_warn_c" l;
  d ← field dec_f32 (f32_of_Z 36) "inlet_critical_c" l;
  e ← field dec_f32 (f32_of_Z 38) "inlet_emergency_c" l;
  Some (mkThermalCfg a b c d e).

Definition default_nic_ignore : list string :=
  ["^lo$"; "^docker.*"; "^veth.*"; "^br-.*"; "^cali.*"; "^cni.*"; "^tun.*"; "^tap.*"; "^virbr.*"].

(** src/agent/src/config.rs:320-353 (NetworkNicCfg, derive(Deserialize), and the
    defaults of its fields). *)
Definition dec_nic (v : Value) : option NetworkNicCfg :=
  l ← fields v;
  a ← field as_bool true "enabled" l;
  b ← field dec_u64 10 "flap_window_s" l;
  c ← field dec_u32 2 "flap_threshold" l;
  d ← field dec_u64 5 "counter_poll_s" l;
  e ← field (dec_list as_str) default_nic_ignore "ignore_regex" l;
  Some (mkNetworkNicCfg a b c d e).

(** src/agent/src/config.rs:355-365 (StorageControllerCfg, derive(Deserialize)). *)
Definition dec_ctrl (v : Value) : option StorageControllerCfg :=
  l ← fields v;
  a ← field as_bool true "enabled" l; b ← field dec_u64 15 "poll_s" l;
  Some (mkStorageControllerCfg a b).

(** src/agent/src/config.rs:367-387 (StorageIoCfg, derive(Deserialize), and the
    defaults of its fields). *)
Definition dec_io (v : Value) : option StorageIoCfg :=
  l ← fields v;
  a ← field as_bool true "enabled" l;
  b ← field as_bool true "watch_ceph_osd" l;
  c ← field dec_u64 30 "correlate_window_s" l;
  Some (mkStorageIoCfg a b c).

(** src/agent/src/config.rs:389-423 (MemPressureCfg, derive(Deserialize), and the
    defaults of its fields). *)
Definition dec_mem (v : Value) : option MemPressureCfg :=
  l ← fields v;
  a ← field as_bool true "enabled" l;
  b ← field dec_u64 2 "poll_s" l;
  c ← field dec_f32 (f32_of_Z 50) "psi_some_avg10_warn" l;
  d ← field dec_u64 30 "sustain_s" l;
  e ← field dec_u32 3 "oom_storm_count" l;
  f ← field dec_u64 300 "oom_storm_window_s" l;
  Some (mkMemPressureCfg a b c d e f).

(** src/agent/src/config.rs:425-458 (BmcCfg, derive(Deserialize), and the defaults
    of its fields). *)
Definition dec_bmc (v : Value) : option BmcCfg :=
  l ← fields v;
  a ← field as_bool false "enabled" l;
  b ← field dec_u64 10 "poll_s" l;
  c ← field as_str "/dev/ipmi0" "ipmi_device" l;
  d ← field as_str "" "redfish_url" l;
  e ← field as_str "" "redfish_username" l;
  f ← field as_str "" "redfish_password" l;
  g ← field as_bool false "redfish_insecure" l;
  Some (mkBmcCfg a b c d e f g).

(** src/agent/src/config.rs:475-483 (SyslogRule, derive(Deserialize)). *)
Definition dec_rule (v : Value) : option SyslogRule :=
  l ← fields v;
  a ← required as_str "name" l; b ← required as_str "regex" l;
  c ← required as_str "severity" l; d ← required as_str "category" l;
  e ← required as_str "title" l; f ← required as_str "message" l;
  Some (mkSyslogRule a b c d e f).

(** src/agent/src/config.rs:460-473 (SyslogRulesCfg, derive(Deserialize)). *)
Definition dec_rules (v : Value) : option SyslogRulesCfg :=
  l ← fields v;
  a ← field as_bool true "enabled" l;
  b ← field (dec_list dec_rule) default_syslog_rules "rules" l;
  Some (mkSyslogRulesCfg a b).

(** src/agent/src/config.rs:145-185 (ModulesBlock, derive(Deserialize)). *)
Definition dec_modules (v : Value) : option ModulesBlock :=
  l ← fields v;
  nvme ← field dec_nvme NvmeCfg_default "nvme" l;
  smart ← field dec_smart DiskSmartCfg_default "disk_smart" l;
  ecc ← field dec_ecc MemoryEccCfg_default "memory_ecc" l;
  mce ← field dec_simple SimpleEnable_default "cpu_mce" l;
  aer ← field dec_aer PcieAerCfg_default "pcie_aer" l;
  thermal ← field dec_thermal ThermalCfg_default "thermal" l;
  nvidia ← field dec_simple SimpleEnable_default "gpu_nvidia" l;
  amd ← field dec_simple SimpleEnable_default "gpu_amd" l;
  nic ← field dec_nic NetworkNicCfg_default "network_nic" l;
  ctrl ← field dec_ctrl StorageControllerCfg_default "storage_controller" l;
  io ← field dec_io StorageIoCfg_default "storage_io" l;
  mem ← field dec_mem MemPressureCfg_default "mempressure" l;
  hang ← field dec_simple SimpleEnable_default "oshang" l;
  redfish ← field dec_bmc BmcCfg_default "bmc_redfish" l;
  eventlog ← field dec_bmc BmcCfg_default "bmc_eventlog" l;
  rules ← field dec_rules SyslogRulesCfg_default "syslog_rules" l;
  boot ← field dec_simple SimpleEnable_default "boot" l;
  lifecycle ← field dec_simple SimpleEnable_default "lifecycle" l;
  Some (mkModulesBlock nvme smart ecc mce aer thermal nvidia amd nic ctrl io mem hang
          redfish eventlog rules boot lifecycle).

(** src/agent/src/config.rs:12-28 (AgentConfig, derive(Deserialize)). *)
Definition dec_config (v : Value) : option AgentConfig :=
  l ← fields v;
  agent ← field dec_agent AgentBlock_default "agent" l;
  collector ← field dec_collector CollectorBlock_default "collector" l;
  tls ← field dec_tls TlsBlock_default "tls" l;
  heartbeat ← field dec_heartbeat HeartbeatBlock_default "heartbeat" l;
  dedup ← field dec_dedup DedupBlock_default "dedup" l;
  modules ← field dec_modules ModulesBlock_default "modules" l;
  tags ← field dec_map ∅ "tags" l;
  Some (mkAgentConfig agent collector tls heartbeat dedup modules tags).

(** * Ranges of decoded numbers *)

Lemma field_holds {A} (P : A -> Prop) (dec : Value -> option A) dflt k l x :
  field dec dflt k l = Some x -> P dflt -> (forall v y, dec v = Some y -> P y) -> P x.
Proof. unfold field. destruct (assoc k l); [by eauto|by intros [= ->]]. Qed.

Lemma dec_uint_range hi v x : dec_uint hi v = Some x -> 0 <= x <= hi.
Proof.
  destruct v; try done. simpl. destruct (_ && _) eqn:E; [|done]. intros [= ->]. zbool.
Qed.

Lemma dec_i32_range v x : dec_i32 v = Some x -> Int.is_i32 x.
Proof.
  destruct v; try done. simpl. destruct (_ && _) eqn:E; [|done]. intros [= ->].
  unfold Int.is_i32. zbool.
Qed.

(** Open a decoder into its fields. *)
Ltac open_fields H :=
  repeat (let E := fresh "E" in apply bind_Some in H as (? & E & H)); simplify_eq/=.

(** A number that a field gave. *)
Ltac in_range :=
  match goal with
  | E : field dec_u64 _ _ _ = Some ?x |- Int.is_u64 ?x =>
      apply (field_holds Int.is_u64 _ _ _ _ _ E); [by unfold Int.is_u64, Int.u64_max; lia|apply dec_uint_range]
  | E : field dec_u32 _ _ _ = Some ?x |- Int.is_u32 ?x =>
      apply (field_holds Int.is_u32 _ _ _ _ _ E); [by unfold Int.is_u32, Int.u32_max; lia|apply dec_uint_range]
  | E : field dec_u8 _ _ _ = Some ?x |- Int.is_u8 ?x =>
      apply (field_holds Int.is_u8 _ _ _ _ _ E); [by unfold Int.is_u8, Int.u8_max; lia|apply dec_uint_range]
  | E : field dec_i32 _ _ _ = Some ?x |- Int.is_i32 ?x =>
      apply (field_holds Int.is_i32 _ _ _ _ _ E);
        [by unfold Int.is_i32, Int.i32_min, Int.i32_max; lia|apply dec_i32_range]
  end.

(** * Loading *)

Section load.
Context (toml_parse : string -> option Value).

(** src/agent/src/config.rs:553-559 (AgentConfig::load), on the content of the
    file, [None] when it cannot be read. *)
Definition load (file : option string) : option AgentConfig :=
  text ← file;
  if utf8_valid text then v ← toml_parse text; dec_config v else None.

(** src/agent/src/main.rs:87-91 (cfg in main): the fallback of a failed load. *)
Definition agent_config (file : option string) : AgentConfig :=
  default default_fallback (load file).

(** An empty table and an absent one are the same block. *)
Definition block_default {A} (dec : Value -> option A) (dflt : A) : Prop :=
  dec (VObject []) = Some dflt.

Lemma field_empty {A} (dec : Value -> option A) dflt k k' l :
  assoc k' l = None -> (k = k' -> block_default dec dflt) ->
  field dec dflt k ((k', VObject []) :: l) = field dec dflt k l.
Proof.
  intros Hk Hd. unfold field. simpl. case_decide as Heq; [|done].
  subst k'. rewrite Hk. by apply Hd.
Qed.

(** C22: every block is optional.  Leaving a block out of the configuration is the
    same as giving it empty, for every block and whatever the rest of the file
    says, valid or not: the defaults of the fields, given one by one, agree with
    the default of the whole block.  In particular an empty file is the built-in
    fallback. *)
Theorem absent_block_is_empty (k : string) (l : list (string * Value))
    (Habsent : assoc k l = None) :
  dec_config (VObject ((k, VObject []) :: l)) = dec_config (VObject l)
  /\ dec_modules (VObject ((k, VObject []) :: l)) = dec_modules (VObject l)
  /\ dec_config (VObject []) = Some default_fallback.
Proof.
  split_and!.
  - unfold dec_config. simpl.
    by rewrite !(field_empty _ _ _ k l Habsent) by (intros _; vm_compute; reflexivity).
  - unfold dec_modules. simpl.
    by rewrite !(field_empty _ _ _ k l Habsent) by (intros _; vm_compute; reflexivity).
  - vm_compute. reflexivity.
Qed.

(** * Machine integers *)

(** The numbers of a configuration, by machine type. *)
Definition u64_fields (c : AgentConfig) : list Z :=
  let o := c_collector c in
  let m := c_modules c in
  [cfg_send_queue_size o; cfg_critical_queue_size o; cfg_reconnect_min_ms o;
   cfg_reconnect_max_ms o; cfg_keepalive_s o; cfg_interval_s (c_heartbeat c);
   cfg_re_notify_after_s (c_dedup c); cfg_recovery_window_s (c_dedup c);
   nvme_poll_s (m_nvme m); smart_poll_s (m_disk_smart m); ecc_poll_s (m_memory_ecc m);
   ce_per_hour_warn (m_memory_ecc m); corrected_per_min_warn (m_pcie_aer m);
   thermal_poll_s (m_thermal m); flap_window_s (m_network_nic m);
   counter_poll_s (m_network_nic m); ctrl_poll_s (m_storage_controller m);
   correlate_window_s (m_storage_io m); mp_poll_s (m_mempressure m);
   sustain_s (m_mempressure m); oom_storm_window_s (m_mempressure m);
   bmc_poll_s (m_bmc_redfish m); bmc_poll_s (m_bmc_eventlog m)].

Definition u32_fields (c : AgentConfig) : list Z :=
  [flap_threshold (m_network_nic (c_modules c)); oom_storm_count (m_mempressure (c_modules c))].
Definition u8_fields (c : AgentConfig) : list Z :=
  [wear_warn_pct (m_nvme (c_modules c)); wear_critical_pct (m_nvme (c_modules c))].
Definition i32_fields (c : AgentConfig) : list Z :=
  [temp_warn_c (m_nvme (c_modules c)); temp_critical_c (m_nvme (c_modules c))].

Definition config_typed (c : AgentConfig) : Prop :=
  Forall Int.is_u64 (u64_fields c) /\ Forall Int.is_u32 (u32_fields c)
  /\ Forall Int.is_u8 (u8_fields c) /\ Forall Int.is_i32 (i32_fields c).

Ltac block_range d :=
  let v := fresh "v" in let c := fresh "c" in let H := fresh "H" in
  intros v c H; unfold d in H; open_fields H; split_and?;
  repeat (apply Forall_cons; split); first [by apply Forall_nil|in_range].

Lemma collector_range v c :
  dec_collector v = Some c ->
  Forall Int.is_u64 [cfg_send_queue_size c; cfg_critical_queue_size c; cfg_reconnect_min_ms c;
                     cfg_reconnect_max_ms c; cfg_keepalive_s c].
Proof. revert v c. block_range dec_collector. Qed.

Lemma dedup_range v c :
  dec_dedup v = Some c ->
  Forall Int.is_u64 [cfg_re_notify_after_s c; cfg_recovery_window_s c].
Proof. revert v c. block_range dec_dedup. Qed.

Lemma heartbeat_range v c : dec_heartbeat v = Some c -> Forall Int.is_u64 [cfg_interval_s c].
Proof. revert v c. block_range dec_heartbeat. Qed.

Lemma nvme_range v c :
  dec_nvme v = Some c ->
  Forall Int.is_u64 [nvme_poll_s c] /\ Forall Int.is_u8 [wear_warn_pct c; wear_critical_pct c]
  /\ Forall Int.is_i32 [temp_warn_c c; temp_critical_c c].
Proof. revert v c. block_range dec_nvme. Qed.

Lemma smart_range v c : dec_smart v = Some c -> Forall Int.is_u64 [smart_poll_s c].
Proof. revert v c. block_range dec_smart. Qed.

Lemma ecc_range v c : dec_ecc v = Some c -> Forall Int.is_u64 [ecc_poll_s c; ce_per_hour_warn c].
Proof. revert v c. block_range dec_ecc. Qed.

Lemma aer_range v c : dec_aer v = Some c -> Forall Int.is_u64 [corrected_per_min_warn c].
Proof. revert v c. block_range dec_aer. Qed.

Lemma thermal_range v c : dec_thermal v = Some c -> Forall Int.is_u64 [thermal_poll_s c].
Proof. revert v c. block_range dec_thermal. Qed.

Lemma nic_range v c :
  dec_nic v = Some c ->
  Forall Int.is_u64 [flap_window_s c; counter_poll_s c] /\ Forall Int.is_u32 [flap_threshold c].
Proof. revert v c. block_range dec_nic. Qed.

Lemma ctrl_range v c : dec_ctrl v = Some c -> Forall Int.is_u64 [ctrl_poll_s c].
Proof. revert v c. block_range dec_ctrl. Qed.

Lemma io_range v c : dec_io v = Some c -> Forall Int.is_u64 [correlate_window_s c].
Proof. revert v c. block_range dec_io. Qed.

Lemma mem_range v c :
  dec_mem v = Some c ->
  Forall Int.is_u64 [mp_poll_s c; sustain_s c; oom_storm_window_s c]
  /\ Forall Int.is_u32 [oom_storm_count c].
Proof. revert v c. block_range dec_mem. Qed.

Lemma bmc_range v c : dec_bmc v = Some c -> Forall Int.is_u64 [bmc_poll_s c].
Proof. revert v c. block_range dec_bmc. Qed.

(** What a block's decoder guarantees holds of a field that holds the block. *)
Ltac in_block d lem :=
  match goal with
  | E : field d _ _ _ = Some _ |- _ =>
      let F := fresh "F" in
      pose proof (fun dflt => field_holds _ _ _ _ _ _ E dflt lem) as F; cbn beta in F;
      clear E;
      specialize (F ltac:(split_and?; repeat (apply Forall_cons; split);
        first [by apply Forall_nil
              |unfold Int.is_u64, Int.is_u32, Int.is_u8, Int.is_i32, Int.u64_max, Int.u32_max,
                 Int.u8_max, Int.i32_min, Int.i32_max; simpl; lia]))
  end.

(** The numbers of the modules, and of the whole. *)
Definition modules_typed (m : ModulesBlock) : Prop :=
  config_typed (mkAgentConfig AgentBlock_default CollectorBlock_default TlsBlock_default
    HeartbeatBlock_default DedupBlock_default m ∅).

(** Every number in range, from the hypotheses or by computation. *)
Ltac numbers :=
  unfold modules_typed, config_typed, u64_fields, u32_fields, u8_fields, i32_fields; cbn;
  decompose_Forall_hyps; destruct_and?; decompose_Forall_hyps; split_and!;
  repeat (apply Forall_cons; split);
  first [by apply Forall_nil|assumption
        |unfold Int.is_u64, Int.is_u32, Int.is_u8, Int.is_i32, Int.u64_max, Int.u32_max,
           Int.u8_max, Int.i32_min, Int.i32_max; simpl; lia].

Lemma modules_range v m : dec_modules v = Some m -> modules_typed m.
Proof.
  intros H. unfold dec_modules in H. open_fields H.
  in_block dec_nvme nvme_range. in_block dec_smart smart_range. in_block dec_ecc ecc_range.
  in_block dec_aer aer_range. in_block dec_thermal thermal_range. in_block dec_nic nic_range.
  in_block dec_ctrl ctrl_range. in_block dec_io io_range. in_block dec_mem mem_range.
  in_block dec_bmc bmc_range. in_block dec_bmc bmc_range.
  numbers.
Qed.

Lemma modules_default : modules_typed ModulesBlock_default.
Proof. numbers. Qed.

Lemma config_range v c : dec_config v = Some c -> config_typed c.
Proof.
  intros H. unfold dec_config in H. open_fields H.
  in_block dec_collector collector_range. in_block dec_heartbeat heartbeat_range.
  in_block dec_dedup dedup_range.
  match goal with
  | E : field dec_modules _ _ _ = Some _ |- _ =>
      pose proof (field_holds modules_typed _ _ _ _ _ E modules_default modules_range) as Hm
  end.
  unfold modules_typed, config_typed, u64_fields, u32_fields, u8_fields, i32_fields in Hm.
  cbn in Hm. numbers.
Qed.

(** The blocks of the file, with whether a value decodes as the block. *)
Definition decodes {A} (dec : Value -> option A) (v : Value) : bool :=
  match dec v with Some _ => true | None => false end.

Definition config_blocks : list (string * (Value -> bool)) :=
  [("agent", decodes dec_agent); ("collector", decodes dec_collector); ("tls", decodes dec_tls);
   ("heartbeat", decodes dec_heartbeat); ("dedup", decodes dec_dedup);
   ("modules", decodes dec_modules); ("tags", decodes dec_map)].

Definition module_blocks : list (string * (Value -> bool)) :=
  [("nvme", decodes dec_nvme); ("disk_smart", decodes dec_smart); ("memory_ecc", decodes dec_ecc);
   ("cpu_mce", decodes dec_simple); ("pcie_aer", decodes dec_aer); ("thermal", decodes dec_thermal);
   ("gpu_nvidia", decodes dec_simple); ("gpu_amd", decodes dec_simple);
   ("network_nic", decodes dec_nic); ("storage_controller", decodes dec_ctrl);
   ("storage_io", decodes dec_io); ("mempressure", decodes dec_mem);
   ("oshang", decodes dec_simple); ("bmc_redfish", decodes dec_bmc);
   ("bmc_eventlog", decodes dec_bmc); ("syslog_rules", decodes dec_rules);
   ("boot", decodes dec_simple); ("lifecycle", decodes dec_simple)].

(** A block of the table is present and does not decode. *)
Definition bad_block (blocks : list (string * (Value -> bool))) (l : list (string * Value)) : Prop :=
  exists k ok v, (k, ok) ∈ blocks /\ assoc k l = Some v /\ ok v = false.

Lemma bad_block_nil l : ~ bad_block [] l.
Proof. by intros (k & ok & v & H & _); apply elem_of_nil in H. Qed.

Lemma bad_block_cons k ok blocks l :
  bad_block ((k, ok) :: blocks) l
  <-> (exists v, assoc k l = Some v /\ ok v = false) \/ bad_block blocks l.
Proof.
  unfold bad_block. split.
  - intros (k' & ok' & v & [[= -> ->]|H]%elem_of_cons & Ha & Hv); [left|right]; naive_solver.
  - intros [(v & Ha & Hv)|(k' & ok' & v & H & Ha & Hv)]; [exists k, ok, v|exists k', ok', v]; set_solver.
Qed.

Lemma field_none {A} (dec : Value -> option A) dflt k l :
  field dec dflt k l = None <-> exists v, assoc k l = Some v /\ decodes dec v = false.
Proof.
  unfold field, decodes. destruct (assoc k l) as [v|]; [|naive_solver].
  split; [intros E; exists v; by rewrite E|]. intros (v' & [= <-] & Hv). by destruct (dec v).
Qed.

Lemma bind_none {A B} (o : option A) (f : A -> option B) :
  (o ≫= f) = None <-> o = None \/ (exists x, o = Some x /\ f x = None).
Proof. destruct o; simpl; naive_solver. Qed.

(** One more field of a block: it fails there, or in the rest. *)
Lemma bad_field {A B} (dec : Value -> option A) dflt k l (f : A -> option B) blocks :
  (forall x, f x = None <-> bad_block blocks l) ->
  (field dec dflt k l ≫= f) = None <-> bad_block ((k, decodes dec) :: blocks) l.
Proof.
  intros Hf. rewrite bind_none, field_none, bad_block_cons. split.
  - intros [H|(x & _ & H)]; [by left|right; by apply (Hf x)].
  - intros [H|H]; [by left|]. destruct (field dec dflt k l) as [x|] eqn:E.
    + right. exists x. by rewrite Hf.
    + left. by apply field_none in E.
Qed.

Lemma bad_end {A} (x : A) l : Some x = None <-> bad_block [] l.
Proof. split; [done|]. by intros H%bad_block_nil. Qed.

(** A document decodes unless a block of it does not; so does the modules block. *)
Lemma config_decodes l : dec_config (VObject l) = None <-> bad_block config_blocks l.
Proof.
  unfold dec_config. simpl fields. cbn [mbind option_bind].
  repeat (apply bad_field; intros ?). apply bad_end.
Qed.

Lemma modules_decode l : dec_modules (VObject l) = None <-> bad_block module_blocks l.
Proof.
  unfold dec_modules. simpl fields. cbn [mbind option_bind].
  repeat (apply bad_field; intros ?). apply bad_end.
Qed.

(** C21: a configuration is loaded whole or not at all, and is well typed.  A file that
    reads as UTF-8 and TOML, all of whose blocks decode, is the configuration, exactly
    as decoded.  If it cannot be read, is not UTF-8 or not TOML, or if one block of it
    does not decode (a module's block included), the agent runs on the complete
    built-in defaults: nothing of the good blocks is kept.  Either way every number
    fits its machine type. *)
Theorem config_load_typed (file : option string) :
  config_typed (agent_config file)
  /\ match file with
     | None => agent_config file = default_fallback
     | Some text =>
         (utf8_valid text = false \/ toml_parse text = None -> agent_config file = default_fallback)
         /\ (forall l, utf8_valid text = true -> toml_parse text = Some (VObject l) ->
              (~ bad_block config_blocks l -> dec_config (VObject l) = Some (agent_config file))
              /\ (bad_block config_blocks l -> agent_config file = default_fallback)
              /\ (forall ml, assoc "modules" l = Some (VObject ml) -> bad_block module_blocks ml ->
                    agent_config file = default_fallback))
     end.
Proof.
  unfold agent_config, load. split.
  - assert (Hd : config_typed default_fallback) by numbers.
    destruct file as [text|]; simpl; [|done]. destruct (utf8_valid text); simpl; [|done].
    destruct (toml_parse text) as [v|]; simpl; [|done].
    destruct (dec_config v) as [c|] eqn:Ec; simpl; [by apply (config_range v)|done].
  - destruct file as [text|]; [|done]. split.
    + cbn [mbind option_bind]. intros [-> | ->]; [done|by destruct (utf8_valid text)].
    + intros l Hu Hp. cbn [mbind option_bind]. rewrite Hu, Hp. cbn [mbind option_bind].
      assert (Hbad : bad_block config_blocks l -> default default_fallback (dec_config (VObject l))
                                                  = default_fallback)
        by (intros Hb; by rewrite (proj2 (config_decodes l) Hb)).
      split; [|split; [done|]].
      * intros Hok. destruct (dec_config (VObject l)) eqn:E; [done|]. by apply config_decodes in E.
      * intros ml Hml Hb. apply Hbad. exists "modules", (decodes dec_modules), (VObject ml).
        unfold decodes. rewrite (proj2 (modules_decode ml) Hb). split; [|done].
        unfold config_blocks. set_solver.
Qed.

End load.

Lemma absent_block_is_empty_witness :
  dec_config (VObject [("modules", VObject []); ("heartbeat", VObject [("interval_s", VInt 1)])])
  = dec_config (VObject [("heartbeat", VObject [("interval_s", VInt 1)])]).
Proof.
  exact (proj1 (absent_block_is_empty "modules"
    [("heartbeat", VObject [("interval_s", VInt 1)])] eq_refl)).
Defined.
