(* ===== verification/Agent.v ===== *)
(** The agent process (src/agent/src/main.rs) and its log files
    (src/agent/src/logging.rs): what it sends by itself, how its channels are set
    up, and which old logs it removes at start. *)
From S2P Require Import Prelude Text Schema Channels Bus Host Config VendorDetect.

Local Open Scope string_scope.
Local Open Scope Z_scope.

(** What the build fixes: the version and whether the maintenance feature is on. *)
Record Build : Type := mkBuild { build_version : string; build_maintenance : bool }.

Section agent.
Context {C : Type -> Type} `{!Mpsc C}.
Context (build : Build) (host : HostId) (cfg : AgentConfig).

(** src/agent/src/main.rs:114-117 (maintenance). *)
Definition maintenance : bool := build_maintenance build && maintenance_mode cfg.

(** src/agent/src/main.rs:140-150 (the hello). *)
Definition hello_of (vendor : VendorProfile) (started_at : DateTime) : Hello :=
  {| hello_host := hostname host;
     hello_host_id := machine_id host;
     hello_primary_ip := primary_ip host;
     hello_agent_version := build_version build;
     hello_started_at := started_at;
     hello_vendor := vendor_info vendor;
     hello_tags := c_tags cfg;
     hello_maintenance := maintenance |}.

(** src/agent/src/main.rs:111-151 (the sink and the hello), with a constructor of
    bounded channels. *)
Definition startup (channel : Z -> C Outbound) (vendor : VendorProfile)
    (started_at : DateTime) : AlertSink C :=
  send (OutHello (hello_of vendor started_at))
    (sink_new (channel (cfg_send_queue_size (c_collector cfg)))
              (channel (cfg_critical_queue_size (c_collector cfg))) maintenance).

(** src/agent/src/main.rs:277-277 (the period of spawn_heartbeat, in seconds). *)
Definition heartbeat_period : Z := Z.max (cfg_interval_s (c_heartbeat cfg)) 1.

(** src/agent/src/main.rs:281-288 (the heartbeat of a tick). *)
Definition heartbeat (now : DateTime) (elapsed : Duration) : Heartbeat :=
  mkHeartbeat (hostname host) (machine_id host) now (as_secs elapsed) 0 (build_version build).

(** src/agent/src/main.rs:279-289 (one tick of spawn_heartbeat). *)
Definition heartbeat_tick (now : DateTime) (elapsed : Duration) (k : AlertSink C) :
    AlertSink C := send (OutHeartbeat (heartbeat now elapsed)) k.

(** src/agent/src/main.rs:249-251 (the agent_stopping alert). *)
Definition stopping_builder : AlertBuilder :=
  new_alert host cat.AGENT "agent_stopping" Info
  |> with_title "Agent stopping"
  |> with_message "monitor-agent received a termination signal.".

(** src/agent/src/main.rs:245-252 (a termination signal): the alert goes straight
    to the sink, past any tracker, so nothing resolves it later. *)
Definition on_termination (s : Stamp) (k : AlertSink C) : AlertSink C :=
  send (OutAlert (build_firing s stopping_builder)) k.

(** src/agent/src/main.rs:262-272 (dummy_kmsg and dummy_journal): a receiver that
    yields only the end. *)
Definition dummy_receiver {A : Type} : BRecv A := BClosed.

End agent.

(** * Log files *)

(** A directory entry: its name, whether its metadata can be read, whether it is a
    file, and its modification time. *)
Record LogEntry : Type := mkLogEntry {
  le_name : string; le_meta : bool; le_is_file : bool; le_modified : option Z
}.

(** src/agent/src/logging.rs:33-39 (the retentions, in seconds). *)
Definition error_log_retention : Z := 7 * 24 * 3600.
Definition exec_log_retention : Z := 3 * 24 * 3600.

(** src/agent/src/logging.rs:145-165 (purge_old_logs): what is left.  [now] is the
    time since the epoch; [checked_sub] falls back to the epoch. *)
Definition purge_old_logs (basename : string) (now max_age : Z) (entries : list LogEntry) :
    list LogEntry :=
  let cutoff := if (max_age <=? now)%Z then now - max_age else 0 in
  List.filter (fun e =>
    negb (starts_with basename (le_name e) && le_meta e && le_is_file e
          && match le_modified e with Some m => m <? cutoff | None => false end)) entries.

(** Only files of that log, older than its retention, are removed. *)
Lemma purge_old_logs_kept basename now max_age entries e :
  e ∈ purge_old_logs basename now max_age entries
  <-> e ∈ entries
      /\ ~ (starts_with basename (le_name e) = true /\ le_meta e = true /\ le_is_file e = true
            /\ exists m, le_modified e = Some m
                 /\ m < if (max_age <=? now)%Z then now - max_age else 0).
Proof.
  unfold purge_old_logs. rewrite !list_elem_of_In, filter_In, negb_true_iff.
  split; intros [Hin Hb]; (split; [done|]).
  - intros (H1 & H2 & H3 & m & Hm & Hlt). rewrite H1, H2, H3, Hm in Hb. simpl in Hb. zbool.
  - apply not_true_is_false. intros Ht. apply Hb.
    apply andb_true_iff in Ht as [Ht Hm]. apply andb_true_iff in Ht as [Ht Hf].
    apply andb_true_iff in Ht as [Hs Hme]. split_and!; [done..|].
    destruct (le_modified e) as [m|]; [|done]. exists m. split; [done|]. by apply Z.ltb_lt.
Qed.
