(* ===== verification/Windows.v ===== *)
(** Sliding windows of timestamps: the queue several modules keep, pushed at the
    back and popped from the front while too old, holds exactly the events of the
    last [width]. *)
From S2P Require Import Prelude.

Local Open Scope Z_scope.

Section windows.
Context {A : Type} (time : A -> Instant) (width : Duration).

Definition stale (now : Instant) (x : A) : bool := time x <? now - width.

(** Push an event, then pop stale ones. *)
Definition push_window (now : Instant) (x : A) (w : list A) : list A :=
  drop_while (stale now) (w ++ [x]).

(** The events of a log that are at most [width] old. *)
Definition recent (now : Instant) (log : list A) : list A :=
  List.filter (fun x => negb (stale now x)) log.

Definition earlier (x y : A) : Prop := time x <= time y.

(** The queue [w] is the recent part of an ordered log that ends by [now]. *)
Record window_of (now : Instant) (log w : list A) : Prop := {
  win_sorted : StronglySorted earlier log;
  win_past : Forall (fun x => time x <= now) log;
  win_exact : w = recent now log
}.

Lemma window_of_empty now : window_of now [] [].
Proof. split; [constructor|constructor|done]. Qed.

Lemma sorted_snoc (R : A -> A -> Prop) l x :
  StronglySorted R l -> Forall (fun y => R y x) l -> StronglySorted R (l ++ [x]).
Proof.
  induction 1 as [|y l Hs IH Hall]; intros Hx; simpl; [by repeat constructor|].
  apply Forall_cons in Hx as [Hyx Hx]. constructor; [by apply IH|].
  apply Forall_app; split; [done|by repeat constructor].
Qed.

Lemma recent_app now l1 l2 : recent now (l1 ++ l2) = recent now l1 ++ recent now l2.
Proof. apply List.filter_app. Qed.

Lemma recent_recent t now log :
  t <= now -> recent now (recent t log) = recent now log.
Proof.
  intros Ht. unfold recent. induction log as [|x log IH]; simpl; [done|].
  unfold stale in *. destruct (Z.ltb_spec (time x) (t - width)); simpl.
  - destruct (Z.ltb_spec (time x) (now - width)); simpl; [done|lia].
  - destruct (time x <? now - width); simpl; by rewrite IH.
Qed.

Lemma recent_sorted now log : StronglySorted earlier log -> StronglySorted earlier (recent now log).
Proof.
  induction 1 as [|x log Hs IH Hall]; simpl; [constructor|].
  destruct (negb (stale now x)); [|done]. constructor; [done|].
  apply Forall_forall. intros y Hy. apply list_elem_of_In, List.filter_In in Hy as [Hy _].
  apply list_elem_of_In in Hy. by apply (proj1 (Forall_forall _ _) Hall).
Qed.

(** Popping stale entries keeps the queue exact. *)
Lemma prune_window_exact t now log w :
  t <= now -> window_of t log w -> window_of now log (drop_while (stale now) w).
Proof.
  intros Ht [Hs Hp ->]. split; [done| |].
  - eapply Forall_impl; [exact Hp|]. simpl. intros y Hy. lia.
  - rewrite (drop_while_filter _ earlier).
    + by apply recent_recent.
    + unfold stale, earlier. intros y z Hyz Hy. zbool.
    + by apply recent_sorted.
Qed.

(** So does appending an event of the present. *)
Lemma snoc_window_exact now log w x :
  0 <= width -> time x = now -> window_of now log w -> window_of now (log ++ [x]) (w ++ [x]).
Proof.
  intros Hw Hx [Hs Hp ->]. split.
  - apply sorted_snoc; [done|]. eapply Forall_impl; [exact Hp|].
    unfold earlier. simpl. intros y Hy. lia.
  - apply Forall_app; split; [done|]. repeat constructor. lia.
  - rewrite recent_app. f_equal. unfold recent, stale. simpl.
    destruct (Z.ltb_spec (time x) (now - width)); [lia|done].
Qed.

(** Pushing keeps the queue exact. *)
Lemma push_window_exact t now log w x :
  t <= now -> time x = now -> window_of t log w ->
  window_of now (log ++ [x]) (push_window now x w).
Proof.
  intros Ht Hx [Hs Hp ->].
  assert (Hpast : Forall (fun y => time y <= time x) log).
  { eapply Forall_impl; [exact Hp|]. simpl. intros y Hy. lia. }
  split.
  - by apply sorted_snoc.
  - apply Forall_app; split; [|repeat constructor; lia].
    eapply Forall_impl; [exact Hp|]. simpl. intros y Hy. lia.
  - unfold push_window. rewrite (drop_while_filter _ earlier).
    + change (recent now (recent t log ++ [x]) = recent now (log ++ [x])).
      by rewrite !recent_app, recent_recent.
    + unfold stale, earlier. intros y z Hyz Hy. zbool.
    + apply sorted_snoc; [by apply recent_sorted|].
      apply Forall_forall. intros y Hy. apply list_elem_of_In, List.filter_In in Hy as [Hy _].
      apply list_elem_of_In in Hy. by apply (proj1 (Forall_forall _ _) Hpast).
Qed.

End windows.
