(* ===== verification/Kmsg.v ===== *)
(** The kernel log reader (src/agent/src/kmsg.rs): one record per read, parsed
    and handed to the broadcast sender.  The channel behind it is bounded: what a
    module receives, and by how much it may lag, is the input of that module's loop
    ([Channels.BRecv]). *)
From S2P Require Import Prelude Text Utf8.
From Stdlib Require Import Ascii.

Local Open Scope Z_scope.

(** src/agent/src/kmsg.rs:20-27 (KmsgLine). *)
Record KmsgLine : Type := mkKmsg {
  k_level : Z;
  k_seq : Z;
  k_ts_us : Z;
  k_text : string
}.

(** src/agent/src/kmsg.rs:32-41 (KmsgLine::severity_str). *)
Definition severity_str (l : KmsgLine) : string :=
  if (0 <=? k_level l) && (k_level l <=? 2) then "critical"
  else if k_level l =? 3 then "error"
  else if k_level l =? 4 then "warning"
  else if k_level l =? 5 then "notice"
  else if k_level l =? 6 then "info"
  else "debug".

(** The text up to the first newline. *)
Definition first_line (s : string) : string :=
  match split_once LF s with Some (l, _) => l | None => s end.

(** src/agent/src/kmsg.rs:121-133 (parse). *)
Definition parse (bytes : string) : option KmsgLine :=
  s ← from_utf8 bytes;
  '(prefix, rest) ← split_once ";"%char s;
  match split ","%char prefix with
  | p0 :: p1 :: p2 :: _ =>
      level ← parse_unsigned Int.u8_max p0;
      seq ← parse_unsigned Int.u64_max p1;
      ts_us ← parse_unsigned Int.u64_max p2;
      Some (mkKmsg level seq ts_us (first_line rest))
  | _ => None
  end.

(** What [read] answers on the non-blocking descriptor. *)
Inductive ReadResult : Type :=
  | RdData (bytes : string)
  | RdAgain
  | RdPipe
  | RdError
  | RdEof.

(** src/agent/src/kmsg.rs:79-115 (the inner loop of the reader task): the records
    one drain of the descriptor hands to [tx.send], and the reads that follow it. *)
Fixpoint drain (reads : list ReadResult) : list KmsgLine * list ReadResult :=
  match reads with
  | [] => ([], [])
  | RdAgain :: rs | RdError :: rs | RdEof :: rs => ([], rs)
  | RdPipe :: rs => drain rs
  | RdData b :: rs =>
      let r := drain rs in
      (match parse b with Some l => l :: fst r | None => fst r end, snd r)
  end.

(** src/agent/src/kmsg.rs:67-117 (the reader task): every drain in turn. *)
Fixpoint read_all (fuel : nat) (reads : list ReadResult) : list KmsgLine :=
  match fuel with
  | O => []
  | S n => match reads with
           | [] => []
           | _ => let r := drain reads in fst r ++ read_all n (snd r)
           end
  end.

Definition kmsg_reader (reads : list ReadResult) : list KmsgLine :=
  read_all (length reads) reads.

(** * Correctness *)

Lemma drain_length reads : (length (snd (drain reads)) <= length reads)%nat.
Proof. induction reads as [|[] rs IH]; simpl in *; lia. Qed.

Lemma drain_shrinks r rs : (length (snd (drain (r :: rs))) <= length rs)%nat.
Proof. destruct r; simpl; try apply drain_length; lia. Qed.

Definition read_lines (reads : list ReadResult) : list KmsgLine :=
  omap (fun r => match r with RdData b => parse b | _ => None end) reads.

Lemma drain_lines reads :
  read_lines reads = fst (drain reads) ++ read_lines (snd (drain reads)).
Proof.
  induction reads as [|[b| | | |] rs IH]; simpl; try done.
  unfold read_lines in *. simpl. destruct (parse b); simpl; by rewrite IH.
Qed.

Lemma read_all_lines n reads :
  (length reads <= n)%nat -> read_all n reads = read_lines reads.
Proof.
  revert reads. induction n as [|n IH]; intros reads Hn.
  - by destruct reads; [|simpl in Hn; lia].
  - destruct reads as [|r rs]; [done|]. simpl read_all. rewrite IH.
    + symmetry. apply (drain_lines (r :: rs)).
    + etrans; [apply (drain_shrinks r rs)|]. simpl in Hn. lia.
Qed.

(** Whatever mixture of records, empty reads, overruns and errors the descriptor
    yields, [tx.send] is called with exactly the records that parse, in order. *)
Lemma kmsg_reader_complete (reads : list ReadResult) :
  kmsg_reader reads
  = omap (fun r => match r with RdData b => parse b | _ => None end) reads.
Proof. by apply read_all_lines. Qed.

(** The kernel's rendering of a record, with its flag field and any
    continuation lines. *)
Definition print_record (l : KmsgLine) (flags continuation : string) : string :=
  show (k_level l) +:+ "," +:+ show (k_seq l) +:+ "," +:+ show (k_ts_us l)
  +:+ "," +:+ flags +:+ ";" +:+ k_text l +:+ String LF continuation.

Definition kmsg_wf (l : KmsgLine) : Prop :=
  Int.is_u8 (k_level l) /\ Int.is_u64 (k_seq l) /\ Int.is_u64 (k_ts_us l)
  /\ contains_byte LF (k_text l) = false.

(** C33: a kernel record round-trips.  For any level, sequence number and
    timestamp in range, any flag field without separators, any text without a
    newline and any continuation lines, parsing the kernel's rendering gives the
    record back; the flags and the continuation lines are ignored. *)
Theorem kmsg_round_trip (l : KmsgLine) (flags continuation : string)
    (Hwf : kmsg_wf l) (Hflags : contains_byte ";"%char flags = false)
    (Hutf8 : utf8_valid (print_record l flags continuation) = true) :
  parse (print_record l flags continuation) = Some l.
Proof.
  destruct Hwf as (Hl & Hs & Ht & Htext). unfold parse, from_utf8. rewrite Hutf8. simpl.
  assert (Hpos : 0 <= k_level l /\ 0 <= k_seq l /\ 0 <= k_ts_us l)
    by (unfold Int.is_u8, Int.is_u64 in *; lia).
  set (prefix := show (k_level l) +:+ "," +:+ show (k_seq l) +:+ ","
                 +:+ show (k_ts_us l) +:+ "," +:+ flags).
  assert (Hprefix : contains_byte ";"%char prefix = false).
  { unfold prefix. rewrite !contains_byte_app, !show_no_sep by (lia || done).
    simpl. exact Hflags. }
  assert (Hsplit : print_record l flags continuation
    = prefix +:+ String ";"%char (k_text l +:+ String LF continuation)).
  { unfold print_record, prefix. by rewrite !string_app_assoc. }
  rewrite Hsplit, split_once_app by done. simpl. unfold prefix.
  change ("," +:+ show (k_seq l) +:+ "," +:+ show (k_ts_us l) +:+ "," +:+ flags)
    with (String ","%char (show (k_seq l) +:+ String ","%char
            (show (k_ts_us l) +:+ String ","%char flags))).
  rewrite !split_app by (apply show_no_sep; [lia|done]).
  rewrite !parse_unsigned_show by (unfold Int.is_u8, Int.is_u64 in *; lia). simpl.
  unfold first_line. rewrite split_once_app by done. by destruct l.
Qed.

Lemma kmsg_round_trip_witness :
  parse (print_record (mkKmsg 6 339 5140900 "NET: Registered protocol family 10")
           "-" " SUBSYSTEM=acpi")
  = Some (mkKmsg 6 339 5140900 "NET: Registered protocol family 10").
Proof.
  apply kmsg_round_trip.
  - unfold kmsg_wf, Int.is_u8, Int.is_u64, Int.u8_max, Int.u64_max. simpl.
    split_and!; done || lia.
  - reflexivity.
  - vm_compute. reflexivity.
Defined.
