(* ===== verification/NetworkNic.v ===== *)
(** NIC monitoring (src/agent/src/modules/network_nic.rs): link transitions with
    flap detection, and error-counter deltas.

    Netlink messages, the interface list, /proc/net/dev and the output of ethtool
    are inputs; the rest of both loops is modelled. *)
From S2P Require Import Prelude Text Utf8 Schema Tracker Channels Bus Runtime Host.
From S2P Require Import Command Regex Config Windows.
From Stdlib Require Import Ascii.

Local Open Scope string_scope.
Local Open Scope Z_scope.

(** A link message: the index and the attributes, the operational state as its
    [Debug] text. *)
Inductive LinkAttribute : Type :=
  | IfName (n : string)
  | OperState (debug : string)
  | OtherAttr.
Record LinkMessage : Type := mkLink { lm_index : Z; lm_attributes : list LinkAttribute }.

(** src/agent/src/modules/network_nic.rs:111-116 (the local state of run_rtnetlink). *)
Record NicState : Type := mkNic {
  nic_history : gmap Z (list (Instant * bool));
  nic_names : gmap Z string;
  nic_last_state : gmap Z string
}.

(** src/agent/src/modules/network_nic.rs:129-137 (the attributes of a message). *)
Definition link_attrs (m : LinkMessage) : option string * option string :=
  foldl (fun acc attr =>
    match attr with
    | IfName n => (Some n, snd acc)
    | OperState s => (fst acc, Some (to_lowercase s))
    | OtherAttr => acc
    end) (None, None) (lm_attributes m).

Section nic.
Context `{RegexEngine}.
Context (host : HostId) (cfg : NetworkNicCfg) (ignore : list Regex).

(** src/agent/src/modules/network_nic.rs:162-162 (down_fp). *)
Definition down_fp (iface : string) : string :=
  format_fingerprint (machine_id host) cat.NETWORK_NIC (Some iface) "link_down".

(** src/agent/src/modules/network_nic.rs:164-179 (the link_down alert). *)
Definition link_down_builder (iface : string) (prev : option string) : AlertBuilder :=
  new_alert host cat.NETWORK_NIC "link_down" Warning
  |> with_device iface |> with_value "down" |> with_threshold "up"
  |> with_title ("Network interface '" +:+ iface +:+ "' went DOWN")
  |> with_message ("Interface " +:+ iface +:+ " transitioned to operstate=down (was "
       +:+ default "(unknown)" prev +:+ "). Check cable, SFP, switch port, LACP partner, or driver state.").

(** [{:03}] of a number below a thousand. *)
Definition pad3 (n : Z) : string :=
  (if n <? 10 then "00" else if n <? 100 then "0" else "") +:+ show n.

(** src/agent/src/modules/network_nic.rs:205-212 (the timeline of a flap alert). *)
Definition timeline (now : Instant) (win : list (Instant * bool)) : string :=
  join ", " (map (fun tu : Instant * bool =>
    let dt := duration_since now (fst tu) in
    (if snd tu then "up" else "down") +:+ "@T-" +:+ show (as_secs dt) +:+ "."
    +:+ pad3 (subsec_millis dt) +:+ "s") win).

(** src/agent/src/modules/network_nic.rs:214-235 (the link_flapping alert). *)
Definition flap_builder (now : Instant) (iface : string) (win : list (Instant * bool)) :
    AlertBuilder :=
  let transitions := Z.of_nat (length win) in
  let tl := timeline now win in
  new_alert host cat.NETWORK_NIC "link_flapping" Warning
  |> with_device iface
  |> with_value (show transitions +:+ " transitions")
  |> with_threshold (show (flap_threshold cfg) +:+ " per " +:+ show (flap_window_s cfg) +:+ "s")
  |> with_title "Network interface flapping"
  |> with_message ("Interface " +:+ iface +:+ " flapped " +:+ show transitions
       +:+ " times in the last " +:+ show (flap_window_s cfg)
       +:+ "s window. Recent transitions: " +:+ tl
       +:+ ". Check cable, SFP, switch port, or LACP partner.")
  |> raw_kv "transitions" (VInt transitions)
  |> raw_kv "timeline" (VString tl).

Definition window_width : Duration := from_secs (flap_window_s cfg).

(** src/agent/src/modules/network_nic.rs:157-239 (a transition of one interface):
    the actions and the new window. *)
Definition on_transition (now : Instant) (iface state : string) (prev : option string)
    (win : list (Instant * bool)) : list (Instant * bool) * list Action :=
  let up := bool_decide (state = "up") in
  let link :=
    if negb up then [ActObserve (link_down_builder iface prev)]
    else match prev with
         | Some _ => [ActForceResolve (down_fp iface)]
         | None => []
         end in
  let win' := push_window fst window_width now (now, up) win in
  let flap :=
    if flap_threshold cfg <=? Int.as_u32 (Z.of_nat (length win'))
    then [ActObserve (flap_builder now iface win')] else [] in
  (win', (link ++ flap)%list).

(** src/agent/src/modules/network_nic.rs:118-240 (the loop body of run_rtnetlink). *)
Definition on_link (now : Instant) (m : LinkMessage) (st : NicState) :
    NicState * list Action :=
  let idx := lm_index m in
  let attrs := link_attrs m in
  let names := match fst attrs with
               | Some n => <[idx := n]> (nic_names st)
               | None => nic_names st
               end in
  let st1 := mkNic (nic_history st) names (nic_last_state st) in
  match names !! idx with
  | None => (st1, [])
  | Some iface =>
      if set_is_match ignore iface then (st1, [])
      else
        match snd attrs with
        | None => (st1, [])
        | Some state =>
            let prev := nic_last_state st !! idx in
            let last' := <[idx := state]> (nic_last_state st) in
            if decide (prev = Some state)
            then (mkNic (nic_history st) names last', [])
            else
              let r := on_transition now iface state prev
                         (default [] (nic_history st !! idx)) in
              (mkNic (<[idx := fst r]> (nic_history st)) names last', snd r)
        end
  end.

(** * Counters *)

(** src/agent/src/modules/network_nic.rs:31-38 (CounterSnapshot). *)
Record CounterSnapshot : Type := mkCounters {
  crc_errors : Z;
  fec_corrected : Z;
  fec_uncorrected : Z;
  rx_errors : Z;
  tx_errors : Z
}.
Definition CounterSnapshot_default : CounterSnapshot := mkCounters 0 0 0 0 0.

Definition parse_u64_or0 (s : string) : Z := default 0 (parse_unsigned Int.u64_max s).

(** src/agent/src/modules/network_nic.rs:357-368 (the /proc/net/dev columns). *)
Definition proc_net_dev (iface : string) (text : option string) (s : CounterSnapshot) :
    CounterSnapshot :=
  match text with
  | None => s
  | Some t =>
      foldl (fun s line =>
        match strip_prefix (iface +:+ ":") (trim_start line) with
        | Some rest =>
            let cols := split_whitespace rest in
            if (16 <=? length cols)%nat
            then mkCounters (crc_errors s) (fec_corrected s) (fec_uncorrected s)
                   (parse_u64_or0 (default "" (cols !! 2%nat)))
                   (parse_u64_or0 (default "" (cols !! 10%nat)))
            else s
        | None => s
        end) s (lines t)
  end.

(** src/agent/src/modules/network_nic.rs:381-395 (one line of ethtool -S). *)
Definition ethtool_line (s : CounterSnapshot) (raw : string) : CounterSnapshot :=
  match split_once ":"%char (trim raw) with
  | None => s
  | Some (k0, v0) =>
      let k := trim k0 in
      let v := parse_u64_or0 (trim v0) in
      if bool_decide (k = "rx_crc_errors") || bool_decide (k = "crc_errors")
      then mkCounters v (fec_corrected s) (fec_uncorrected s) (rx_errors s) (tx_errors s)
      else if bool_decide (k = "fec_corrected_blocks") || bool_decide (k = "rx_fec_corrected")
      then mkCounters (crc_errors s) v (fec_uncorrected s) (rx_errors s) (tx_errors s)
      else if bool_decide (k = "fec_uncorrectable_blocks")
              || bool_decide (k = "rx_fec_uncorrectable")
      then mkCounters (crc_errors s) (fec_corrected s) v (rx_errors s) (tx_errors s)
      else s
  end.

(** src/agent/src/modules/network_nic.rs:353-399 (read_counters); the error is its
    text. *)
Definition read_counters (iface : string) (proc : option string) (out : option Output) :
    CounterSnapshot + string :=
  let snap := proc_net_dev iface proc CounterSnapshot_default in
  match out with
  | None => inl snap
  | Some o =>
      if bool_decide (o_code o = Some 94)
         || contains "no stats available" (from_utf8_lossy (o_stderr o))
      then inr "ethtool: no stats (exit 94)"
      else if o_success o
      then inl (foldl ethtool_line snap (lines (from_utf8_lossy (o_stdout o))))
      else inl snap
  end.

(** src/agent/src/modules/network_nic.rs:293-337 (check_delta). *)
Definition check_delta (iface : string) (prev cur : CounterSnapshot) : list Action :=
  let crc_d := Int.saturating_sub (crc_errors cur) (crc_errors prev) in
  let fec_u_d := Int.saturating_sub (fec_uncorrected cur) (fec_uncorrected prev) in
  ((if (0 <? crc_d)%Z
    then [ActObserve (new_alert host cat.NETWORK_NIC "crc_errors" Warning
            |> with_device iface |> with_value (show crc_d)
            |> with_title "NIC reporting new CRC errors"
            |> with_message ("Interface " +:+ iface +:+ " accumulated " +:+ show crc_d
                 +:+ " new CRC errors since the last poll. Likely cable, transceiver, or upstream port issue."))]
    else [])
   ++ (if (0 <? fec_u_d)%Z
       then [ActObserve (new_alert host cat.NETWORK_NIC "fec_uncorrected" Critical
               |> with_device iface |> with_value (show fec_u_d)
               |> with_title "NIC FEC uncorrected errors"
               |> with_message ("Interface " +:+ iface +:+ " reported " +:+ show fec_u_d
                    +:+ " new uncorrectable FEC errors. Link integrity is degraded; expect packet loss."))]
       else []))%list.

(** The state of counter_loop: the last counters and the interfaces given up on. *)
Record CounterState : Type := mkCounterState {
  cs_last : gmap string CounterSnapshot;
  cs_unsupported : gset string
}.

(** src/agent/src/modules/network_nic.rs:268-289 (one interface of counter_loop);
    [read] is the answer of read_counters for it. *)
Definition poll_iface (read : string -> CounterSnapshot + string) (iface : string)
    (st : CounterState) : CounterState * list Action :=
  if set_is_match ignore iface then (st, [])
  else if decide (iface ∈ cs_unsupported st) then (st, [])
  else
    match read iface with
    | inr msg =>
        if contains "no stats" msg || contains "94" msg
           || contains "Operation not supported" msg
        then (mkCounterState (cs_last st) ({[iface]} ∪ cs_unsupported st), [])
        else (st, [])
    | inl snap =>
        let prev := default CounterSnapshot_default (cs_last st !! iface) in
        (mkCounterState (<[iface := snap]> (cs_last st)) (cs_unsupported st),
         check_delta iface prev snap)
    end.

(** src/agent/src/modules/network_nic.rs:259-290 (one tick of counter_loop); [None]
    is a failed interface listing. *)
Definition counter_tick (read : string -> CounterSnapshot + string)
    (ifaces : option (list string)) (st : CounterState) : CounterState * list Action :=
  match ifaces with
  | None => (st, [])
  | Some l =>
      foldl (fun acc iface =>
        let r := poll_iface read iface (fst acc) in (fst r, (snd acc ++ snd r)%list))
        (st, []) l
  end.

(** * Flap detection *)

(** The transitions of an interface, oldest first, as the state keeps them. *)
Definition history_exact (idx : Z) (t : Instant) (log : list (Instant * bool))
    (st : NicState) : Prop :=
  window_of fst window_width t log (default [] (nic_history st !! idx)).

Definition is_flap (act : Action) : bool :=
  match act with
  | ActObserve b => bool_decide (b_metric b = "link_flapping")
  | _ => false
  end.

Lemma flap_builder_metric now iface win :
  b_metric (flap_builder now iface win) = "link_flapping".
Proof. done. Qed.
Lemma link_down_metric iface prev :
  b_metric (link_down_builder iface prev) = "link_down".
Proof. done. Qed.

Lemma on_transition_flap now iface state prev win :
  existsb is_flap (snd (on_transition now iface state prev win)) = true
  <-> flap_threshold cfg
      <= Int.as_u32 (Z.of_nat (length (fst (on_transition now iface state prev win)))).
Proof.
  unfold on_transition. simpl. rewrite existsb_app.
  assert (Hl : existsb is_flap
    (if negb (bool_decide (state = "up")) then [ActObserve (link_down_builder iface prev)]
     else match prev with Some _ => [ActForceResolve (down_fp iface)] | None => [] end)
    = false) by by destruct (negb _); [|destruct prev].
  rewrite Hl. simpl. destruct (Z.leb_spec (flap_threshold cfg)
    (Int.as_u32 (Z.of_nat (length (push_window fst window_width now
      (now, bool_decide (state = "up")) win))))); simpl; split; intros; done || lia.
Qed.

(** C34: flap detection counts exactly the recent transitions.  If the window kept
    for an interface is the recent part of its transition log, then after a
    message that changes its operational state it is the recent part of the
    extended log, and the flap alert is reported exactly when at least
    [flap_threshold] of the logged transitions, this one included, are at most
    [flap_window_s] old; a message that changes nothing reports nothing. *)
Theorem nic_flap_window (now t : Instant) (m : LinkMessage) (st : NicState)
    (log : list (Instant * bool)) (iface state : string)
    (Hname : nic_names (fst (on_link now m st)) !! lm_index m = Some iface)
    (Hwatched : set_is_match ignore iface = false)
    (Hstate : snd (link_attrs m) = Some state)
    (Htime : t <= now) (Hlog : history_exact (lm_index m) t log st)
    (Hlen : Z.of_nat (length log) < Int.u32_max) :
  let r := on_link now m st in
  if decide (nic_last_state st !! lm_index m = Some state)
  then snd r = [] /\ history_exact (lm_index m) t log (fst r)
  else
    let log' := (log ++ [(now, bool_decide (state = "up"))])%list in
    history_exact (lm_index m) now log' (fst r)
    /\ (existsb is_flap (snd r) = true
        <-> flap_threshold cfg
            <= Z.of_nat (length (recent fst window_width now log'))).
Proof.
  unfold on_link in *.
  destruct (match fst (link_attrs m) with Some n => <[lm_index m := n]> (nic_names st)
            | None => nic_names st end !! lm_index m) as [i|] eqn:Hn;
    [|simpl in Hname; congruence].
  assert (i = iface) as ->.
  { destruct (set_is_match ignore i); [simpl in Hname; congruence|].
    rewrite Hstate in Hname. by case_decide; simpl in Hname; congruence. }
  cbv beta iota zeta. rewrite Hwatched, Hstate.
  destruct (decide (nic_last_state st !! lm_index m = Some state)); [done|].
  unfold history_exact in *. cbn [fst snd nic_history].
  rewrite lookup_insert_eq. cbn [default]. split.
  - by eapply push_window_exact.
  - rewrite on_transition_flap. cbn [on_transition fst].
    destruct (push_window_exact fst window_width t now log _
      (now, bool_decide (state = "up")) Htime eq_refl Hlog) as [_ _ Hx].
    rewrite Hx, Int.as_u32_id; [done|].
    pose proof (List.filter_length_le (fun x => negb (stale fst window_width now x))
      (log ++ [(now, bool_decide (state = "up"))])%list) as Hle.
    unfold recent, Int.is_u32. rewrite length_app in Hle. simpl in Hle. lia.
Qed.

(** * Link state *)

Lemma app_cancel_l (p a b : string) : p +:+ a = p +:+ b -> a = b.
Proof. induction p as [|c p IH]; simpl; [done|]. intros [= ?]. auto. Qed.

Lemma fp_metric_ne hid c d m1 m2 :
  m1 <> m2 -> format_fingerprint hid c d m1 <> format_fingerprint hid c d m2.
Proof.
  intros Hne Heq. unfold format_fingerprint in Heq.
  by repeat apply app_cancel_l in Heq.
Qed.

(** Whether a tracker has an entry after an observation of its fingerprint. *)
Lemma observe_tracks now s b t : is_Some (t_inner (fst (observe now s b t)) !! fingerprint b).
Proof.
  unfold observe. destruct (t_inner t !! fingerprint b); [case_match|]; simpl;
    rewrite lookup_insert_eq; by eexists.
Qed.

Lemma force_resolve_untracks s fp t : t_inner (fst (force_resolve s fp t)) !! fp = None.
Proof.
  unfold force_resolve. destruct (t_inner t !! fp) eqn:E; simpl; [|done].
  by rewrite lookup_delete_eq.
Qed.

Lemma observe_flap_frame now s t0 iface win t :
  t_inner (fst (observe now s (flap_builder t0 iface win) t)) !! down_fp iface
  = t_inner t !! down_fp iface.
Proof.
  apply (tracker_step_frame t (EvObserve now s (flap_builder t0 iface win))).
  by apply fp_metric_ne.
Qed.

Context {C : Type -> Type} `{!Mpsc C}.

(** The link_down alert follows the link.  After the actions of any
    transition of a known interface have been executed, whatever the clock and
    the flap detection do, the tracker has a link_down entry for the interface
    exactly when the new state is not "up". *)
Theorem nic_link_down_tracks_state (now : Instant) (iface state p : string)
    (win : list (Instant * bool)) (samples : nat -> Sample) (w : World C) :
  let acts := snd (on_transition now iface state (Some p) win) in
  let w' := exec (imap (fun i act => (samples i, act)) acts) w in
  is_Some (t_inner (w_tracker w') !! down_fp iface) <-> state <> "up".
Proof.
  unfold on_transition. cbn [snd].
  destruct (bool_decide_reflect (state = "up")) as [Hup|Hup]; cbn [negb].
  - split; [|done]. intros [e He]. exfalso. revert He.
    destruct (flap_threshold cfg <=? _); simpl; rewrite ?observe_flap_frame;
      by rewrite force_resolve_untracks.
  - split; [done|]. intros _.
    destruct (flap_threshold cfg <=? _); simpl; rewrite ?observe_flap_frame;
      apply (observe_tracks _ _ (link_down_builder iface (Some p))).
Qed.

(** The first counter poll reports lifetime totals.  The first successful
    poll of an interface compares with zero, so errors counted since boot, before
    the agent started, are reported as new errors since the last poll. *)
Theorem nic_first_poll_reports_lifetime (read : string -> CounterSnapshot + string)
    (iface : string) (snap : CounterSnapshot) (st : CounterState)
    (Hwatched : set_is_match ignore iface = false)
    (Hsupported : iface ∉ cs_unsupported st)
    (Hfirst : cs_last st !! iface = None)
    (Hread : read iface = inl snap) (Hpast : 0 < crc_errors snap) :
  exists b rest, snd (poll_iface read iface st) = ActObserve b :: rest
    /\ b_metric b = "crc_errors" /\ b_value b = Some (show (crc_errors snap)).
Proof.
  unfold poll_iface. rewrite Hwatched, decide_False, Hread, Hfirst by done. simpl.
  unfold check_delta, Int.saturating_sub. simpl. rewrite Z.sub_0_r, Z.max_r by lia.
  rewrite (proj2 (Z.ltb_lt _ _) Hpast). simpl. by eexists _, _.
Qed.

End nic.

(** * Witnesses *)

#[local] Existing Instance LiteralRegex.

Definition ref_hostid : HostId := mkHostId "h" "hid" "10.0.0.1".
Definition ref_ignore : list (Regex (RegexEngine := LiteralRegex)) := ["lo"].
Definition ref_link (state : string) : LinkMessage :=
  mkLink 2 [IfName "eth0"; OperState state].

Definition ref_nic : NicState := mkNic ∅ ∅ {[ 2 := "up" ]}.

Lemma nic_flap_window_witness :
  let r := on_link ref_hostid NetworkNicCfg_default ref_ignore 100 (ref_link "Down") ref_nic in
  history_exact NetworkNicCfg_default 2 100 [(100, false)] (fst r)
  /\ (existsb is_flap (snd r) = true
      <-> 2 <= Z.of_nat (length (recent fst (window_width NetworkNicCfg_default) 100
                                   [(100, false)]))).
Proof.
  pose proof (nic_flap_window ref_hostid NetworkNicCfg_default ref_ignore 100 0
    (ref_link "Down") ref_nic [] "eth0" "down"
    ltac:(vm_compute; reflexivity) ltac:(reflexivity) ltac:(reflexivity) ltac:(lia)
    (window_of_empty fst (window_width NetworkNicCfg_default) 0)
    ltac:(simpl; unfold Int.u32_max; lia)) as Hflap.
  cbv zeta in Hflap. rewrite decide_False in Hflap by (vm_compute; congruence).
  exact Hflap.
Defined.

Lemma nic_first_poll_reports_lifetime_witness :
  exists b rest,
    snd (poll_iface ref_hostid ref_ignore (fun _ => inl (mkCounters 7 0 0 0 0)) "eth0"
           (mkCounterState ∅ ∅)) = ActObserve b :: rest
    /\ b_metric b = "crc_errors" /\ b_value b = Some (show 7).
Proof.
  apply (nic_first_poll_reports_lifetime ref_hostid ref_ignore
    (fun _ => inl (mkCounters 7 0 0 0 0)) "eth0" (mkCounters 7 0 0 0 0)
    (mkCounterState ∅ ∅)).
  - reflexivity.
  - simpl. set_solver.
  - simpl. by rewrite lookup_empty.
  - reflexivity.
  - simpl. lia.
Defined.
