(* ===== verification/MemPressure.v ===== *)
(** Memory pressure (src/agent/src/modules/mempressure.rs): the sustained-PSI
    alarm, and OOM kills with storm detection. *)
From S2P Require Import Prelude Text Schema Channels Tracker Bus Runtime Host Regex.
From S2P Require Import Config Float Json Kmsg Windows.

Local Open Scope string_scope.
Local Open Scope Z_scope.

Section mempressure.
Context `{RegexEngine}.
Context (host : HostId) (cfg : MemPressureCfg).

(** * Pressure stall information *)

(** src/agent/src/modules/mempressure.rs:97-112 (read_psi, on the file's text). *)
Definition psi_of_text (s : string) : f32 :=
  default (f32_of_Z 0)
    (find_map (fun line =>
       match strip_prefix "some " line with
       | Some rest =>
           find_map (fun tok =>
             match strip_prefix "avg10=" tok with
             | Some v => Some (default (f32_of_Z 0) (parse_f32 v))
             | None => None
             end) (split_whitespace rest)
       | None => None
       end) (lines s)).

(** src/agent/src/modules/mempressure.rs:66-81 (the psi_high alert). *)
Definition psi_builder (v : f32) : AlertBuilder :=
  new_alert host cat.MEMORY_PRESSURE "psi_high" Warning
  |> with_value (show_f1 v +:+ "%")
  |> with_threshold (show_f1 (psi_some_avg10_warn cfg) +:+ "% for "
       +:+ show (sustain_s cfg) +:+ "s")
  |> with_title "Sustained memory pressure"
  |> with_message ("PSI memory `some avg10` has been " +:+ show_f1 v
       +:+ "% for at least " +:+ show (sustain_s cfg)
       +:+ "s. The kernel is repeatedly stalling tasks waiting on memory; the OOM killer is likely to fire soon.").

(** src/agent/src/modules/mempressure.rs:89-89 (the fingerprint of psi_high). *)
Definition psi_fp : string :=
  format_fingerprint (machine_id host) cat.MEMORY_PRESSURE None "psi_high".

(** One tick: the reading ([None] when the file cannot be read) and the two
    clock readings, of [get_or_insert_with] and of [elapsed]. *)
Record PsiTick : Type := mkPsi { psi_value : option f32; psi_t1 : Instant; psi_t2 : Instant }.

(** src/agent/src/modules/mempressure.rs:55-93 (the loop body of psi_loop). *)
Definition psi_tick (x : PsiTick) (breach_since : option Instant) :
    option Instant * list Action :=
  match psi_value x with
  | None => (breach_since, [])
  | Some v =>
      if f32_geb v (psi_some_avg10_warn cfg) then
        let t0 := default (psi_t1 x) breach_since in
        (Some t0,
         if from_secs (sustain_s cfg) <=? duration_since (psi_t2 x) t0
         then [ActObserve (psi_builder v)] else [])
      else (None, [ActObserveOk psi_fp])
  end.

Definition psi_run (xs : list PsiTick) : option Instant :=
  foldl (fun b x => fst (psi_tick x b)) None xs.

(** A tick that shows the pressure below the threshold, or above it. *)
Definition psi_calm (x : PsiTick) : bool :=
  match psi_value x with
  | Some v => negb (f32_geb v (psi_some_avg10_warn cfg))
  | None => false
  end.
Definition psi_breach (x : PsiTick) : bool :=
  match psi_value x with
  | Some v => f32_geb v (psi_some_avg10_warn cfg)
  | None => false
  end.

(** What [breach_since] remembers: the start of the current episode. *)
Definition episode (xs : list PsiTick) (t0 : Instant) : Prop :=
  exists before x after,
    xs = (before ++ x :: after)%list /\ psi_t1 x = t0 /\ psi_breach x = true
    /\ forallb (fun y => negb (psi_calm y)) after = true.

Lemma psi_run_snoc xs x : psi_run (xs ++ [x])%list = fst (psi_tick x (psi_run xs)).
Proof. unfold psi_run. by rewrite foldl_app. Qed.

Lemma psi_run_episode xs t0 : psi_run xs = Some t0 -> episode xs t0.
Proof.
  revert t0. induction xs as [|x xs IH] using rev_ind; intros t0; [done|].
  rewrite psi_run_snoc. unfold psi_tick. destruct (psi_value x) as [v|] eqn:Ev.
  - destruct (f32_geb v (psi_some_avg10_warn cfg)) eqn:Hb; [|done]. simpl.
    destruct (psi_run xs) as [t|]; simpl; intros [= <-].
    + destruct (IH _ eq_refl) as (bf & y & af & -> & Hy & Hyb & Haf).
      exists bf, y, (af ++ [x])%list. split_and!; [by rewrite <- app_assoc|done|done|].
      rewrite forallb_app, Haf. simpl. unfold psi_calm. by rewrite Ev, Hb.
    + exists xs, x, []. split_and!; try done. unfold psi_breach. by rewrite Ev.
  - simpl. intros Ht. destruct (IH _ Ht) as (bf & y & af & -> & Hy & Hyb & Haf).
    exists bf, y, (af ++ [x])%list. split_and!; [by rewrite <- app_assoc|done|done|].
    rewrite forallb_app, Haf. simpl. unfold psi_calm. by rewrite Ev.
Qed.

(** A pressure alert means sustained pressure.  When a tick of a run reports
    psi_high, there is an earlier tick, or this one, that breached the threshold
    at least [sustain_s] before, with no tick below the threshold since; and
    every tick below the threshold offers the alert for resolution. *)
Theorem psi_alert_sustained (xs : list PsiTick) (x : PsiTick) (b : AlertBuilder)
    (Hsustain : 0 < sustain_s cfg)
    (Hact : ActObserve b ∈ snd (psi_tick x (psi_run xs))) :
  fingerprint b = psi_fp
  /\ (exists t0, episode (xs ++ [x])%list t0
        /\ t0 + from_secs (sustain_s cfg) <= psi_t2 x)
  /\ (forall y ys, psi_calm y = true ->
        snd (psi_tick y (psi_run ys)) = [ActObserveOk psi_fp]).
Proof.
  assert (Hcalm : forall y ys, psi_calm y = true ->
    snd (psi_tick y (psi_run ys)) = [ActObserveOk psi_fp]).
  { intros y ys Hy. unfold psi_calm in Hy. unfold psi_tick.
    destruct (psi_value y); [|done]. by destruct (f32_geb _ _). }
  split_and!; [| |done].
  - unfold psi_tick in Hact. destruct (psi_value x); [|set_solver].
    destruct (f32_geb _ _); [|set_solver]. cbn [snd] in Hact.
    case_match; [|set_solver]. apply list_elem_of_singleton in Hact. by simplify_eq.
  - exists (default (psi_t1 x) (psi_run xs)).
    assert (Hrun : psi_run (xs ++ [x])%list = Some (default (psi_t1 x) (psi_run xs))
      /\ (from_secs (sustain_s cfg)
          <=? duration_since (psi_t2 x) (default (psi_t1 x) (psi_run xs))) = true).
    { rewrite psi_run_snoc. unfold psi_tick in *.
      destruct (psi_value x); [|set_solver].
      destruct (f32_geb _ _); [|set_solver]. cbn [fst snd] in *.
      split; [done|]. case_match; [done|set_solver]. }
    destruct Hrun as [Hrun Hd]. split; [by apply psi_run_episode|].
    apply duration_since_le; [unfold from_secs, nanos_per_sec; lia|]. lia.
Qed.

(** * OOM kills *)

(** src/agent/src/modules/mempressure.rs:124-126 (killed_re). *)
Definition killed_re : string :=
  "Out of memory: Killed process (\d+) \(([^)]+)\)(.*total-vm:(\d+)kB)?".

(** src/agent/src/modules/mempressure.rs:133-158 (the oom_kill alert). *)
Definition oom_kill_builder (c : list (option string)) (text : string) : AlertBuilder :=
  let pid := default "?" (group 1 c) in
  let comm := default "?" (group 2 c) in
  let total_vm_kb := s ← group 4 c; parse_unsigned Int.u64_max s in
  new_alert host cat.MEMORY_PRESSURE "oom_kill" Critical
  |> with_device comm
  |> with_value ("PID " +:+ pid)
  |> with_title "OOM killer fired"
  |> with_message ("Kernel OOM killer terminated process " +:+ pid +:+ " (" +:+ comm +:+ ")"
       +:+ match total_vm_kb with
           | Some kb => " with total-vm=" +:+ show (kb / 1024) +:+ "MB"
           | None => ""
           end
       +:+ ". The host is under heavy memory pressure; investigate the workload that grew unbounded.")
  |> raw_kv "pid" (VString pid)
  |> raw_kv "comm" (VString comm)
  |> raw_kv "kmsg" (VString text).

(** src/agent/src/modules/mempressure.rs:174-190 (the oom_storm alert). *)
Definition oom_storm_builder (kills : Z) : AlertBuilder :=
  new_alert host cat.MEMORY_PRESSURE "oom_storm" Critical
  |> with_value (show kills +:+ " kills / " +:+ show (oom_storm_window_s cfg) +:+ "s")
  |> with_threshold (show (oom_storm_count cfg) +:+ " / "
       +:+ show (oom_storm_window_s cfg) +:+ "s")
  |> with_title "OOM kill storm"
  |> with_message (show kills +:+ " processes killed by OOM in the last "
       +:+ show (oom_storm_window_s cfg)
       +:+ "s — the host is in a memory-thrashing loop. Cordoning the node from the orchestrator is recommended.").

(** src/agent/src/modules/mempressure.rs:163-172 (the storm window). *)
Definition push_storm (now : Instant) (storm : list Instant) : list Instant :=
  let win := from_secs (oom_storm_window_s cfg) in
  drop_while (fun t => win <? duration_since now t) (storm ++ [now])%list.

(** src/agent/src/modules/mempressure.rs:130-201 (the loop body of oom_loop), with
    the compiled pattern; [None] ends the task. *)
Definition oom_step (re : Regex) (now : Instant) (r : BRecv KmsgLine)
    (storm : list Instant) : option (list Instant * list Action) :=
  match r with
  | BClosed => None
  | BLagged _ => Some (storm, [])
  | BOk line =>
      match captures re (k_text line) with
      | None => Some (storm, [])
      | Some c =>
          let storm' := push_storm now storm in
          Some (storm',
            (ActObserve (oom_kill_builder c (k_text line)) ::
             if oom_storm_count cfg <=? Int.as_u32 (Z.of_nat (length storm'))
             then [ActObserve (oom_storm_builder (Z.of_nat (length storm')))] else [])%list)
      end
  end.

(** The storm window is the shared sliding window. *)
Lemma push_storm_window now storm :
  0 <= oom_storm_window_s cfg ->
  push_storm now storm
  = push_window id (from_secs (oom_storm_window_s cfg)) now now storm.
Proof.
  intros Hw. unfold push_storm, push_window.
  assert (Hext : forall l, drop_while
      (fun t => from_secs (oom_storm_window_s cfg) <? duration_since now t) l
    = drop_while (stale id (from_secs (oom_storm_window_s cfg)) now) l).
  { induction l as [|t l IH]; simpl; [done|].
    assert (E : (from_secs (oom_storm_window_s cfg) <? duration_since now t)
                = stale id (from_secs (oom_storm_window_s cfg)) now t).
    { unfold stale, duration_since, from_secs, nanos_per_sec. simpl.
      destruct (Z.ltb_spec (oom_storm_window_s cfg * 1000000000) (Z.max 0 (now - t))),
        (Z.ltb_spec t (now - oom_storm_window_s cfg * 1000000000)); lia. }
    rewrite E. by destruct (stale _ _ _ _). }
  apply Hext.
Qed.

(** C35: an OOM storm is a count over the window.  If the queue holds the kills of
    the log that are recent, then after one more matching line it holds the
    recent part of the extended log; the kill itself is always reported, first,
    and the storm exactly when at least [oom_storm_count] kills, this one
    included, are at most [oom_storm_window_s] old. *)
Theorem oom_storm_exact (re : Regex) (now t : Instant) (line : KmsgLine)
    (log storm : list Instant) (c : list (option string))
    (Hcfg : 0 <= oom_storm_window_s cfg) (Hmatch : captures re (k_text line) = Some c)
    (Htime : t <= now)
    (Hlog : window_of id (from_secs (oom_storm_window_s cfg)) t log storm)
    (Hlen : Z.of_nat (length log) < Int.u32_max) :
  let kills := recent id (from_secs (oom_storm_window_s cfg)) now (log ++ [now])%list in
  exists storm',
    oom_step re now (BOk line) storm
    = Some (storm',
        (ActObserve (oom_kill_builder c (k_text line)) ::
         if oom_storm_count cfg <=? Z.of_nat (length kills)
         then [ActObserve (oom_storm_builder (Z.of_nat (length kills)))] else [])%list)
    /\ window_of id (from_secs (oom_storm_window_s cfg)) now (log ++ [now])%list storm'.
Proof.
  intros kills.
  destruct (push_window_exact id (from_secs (oom_storm_window_s cfg)) t now log storm now
    Htime eq_refl Hlog) as [Hs Hp Hx].
  exists (push_storm now storm). unfold oom_step. rewrite Hmatch.
  rewrite push_storm_window by done. rewrite Hx. fold kills. split.
  - rewrite Int.as_u32_id; [done|].
    pose proof (List.filter_length_le (fun x => negb (stale id
      (from_secs (oom_storm_window_s cfg)) now x)) (log ++ [now])%list) as Hle.
    unfold kills, recent, Int.is_u32. rewrite length_app in Hle. simpl in Hle. lia.
  - by split.
Qed.

End mempressure.

(** * Witnesses *)

#[local] Existing Instance LiteralRegex.

Definition ref_mp_host : HostId := mkHostId "h" "hid" "10.0.0.1".
Definition high_psi (t : Instant) : PsiTick := mkPsi (Some (f32_of_Z 60)) t t.

Lemma psi_alert_sustained_witness :
  let xs := [high_psi 0] in
  let x := high_psi (from_secs 31) in
  exists t0, episode MemPressureCfg_default (xs ++ [x])%list t0
             /\ t0 + from_secs 30 <= psi_t2 x.
Proof.
  refine (proj1 (proj2 (psi_alert_sustained ref_mp_host MemPressureCfg_default
    [high_psi 0] (high_psi (from_secs 31)) (psi_builder ref_mp_host MemPressureCfg_default
      (f32_of_Z 60)) _ _))).
  - simpl. lia.
  - vm_compute. apply list_elem_of_here.
Defined.

Lemma oom_storm_exact_witness :
  exists storm' acts,
    oom_step ref_mp_host MemPressureCfg_default
      ("Out of memory" : Regex (RegexEngine := LiteralRegex)) 100
      (BOk (mkKmsg 3 1 1 "Out of memory: Killed process 1 (a)")) []
    = Some (storm', acts) /\ length acts = 1%nat.
Proof.
  destruct (oom_storm_exact ref_mp_host MemPressureCfg_default
    ("Out of memory" : Regex (RegexEngine := LiteralRegex)) 100 0
    (mkKmsg 3 1 1 "Out of memory: Killed process 1 (a)") [] [] [Some "Out of memory"]
    ltac:(simpl; lia) ltac:(reflexivity) ltac:(lia)
    (window_of_empty id _ 0) ltac:(simpl; unfold Int.u32_max; lia))
    as (storm' & Hstep & _).
  eexists storm', _. split; [exact Hstep|]. reflexivity.
Defined.
