(* ===== verification/Nvme.v ===== *)
(** NVMe SMART monitoring (src/agent/src/modules/nvme.rs): the checks made on one
    smart-log of one drive, and the drive enumeration.

    The smart-log is the parsed output of the nvme CLI; [ToolJson] runs and parses
    it. *)
From S2P Require Import Prelude Text Schema Tracker Channels Bus Runtime Host Config.
From Stdlib Require Import Ascii.

Local Open Scope string_scope.
Local Open Scope Z_scope.

(** src/agent/src/modules/nvme.rs:291-308 (NvmeSmartLog). *)
Record NvmeSmartLog : Type := mkSmartLog {
  critical_warning : Z;
  composite_temperature : Z;
  percentage_used : Z;
  media_errors : Z;
  num_err_log_entries : Z;
  available_spare : Z;
  available_spare_threshold : Z
}.

Fixpoint count_digits (s : string) : nat :=
  match s with
  | EmptyString => O
  | String c s' => ((if is_digit c then 1 else 0) + count_digits s')%nat
  end.

(** src/agent/src/modules/nvme.rs:77-80 (the device-name test of enumerate_drives). *)
Definition is_drive_name (s : string) : bool :=
  starts_with "nvme" s && contains_byte "n"%char s
  && negb (contains_byte "p"%char s) && (2 <=? count_digits s)%nat.

(** src/agent/src/modules/nvme.rs:280-289 (decode_critical_warning). *)
Definition decode_critical_warning (b : Z) : string :=
  let bit (m : Z) (name : string) := if Z.land b m =? 0 then [] else [name] in
  let bits := (bit 1 "spare-below-threshold"
    ++ bit 2 "temperature-threshold-exceeded"
    ++ bit 4 "reliability-degraded"
    ++ bit 8 "read-only"
    ++ bit 16 "volatile-backup-failed"
    ++ bit 32 "persistent-memory-region-readonly")%list in
  match bits with [] => "unknown" | _ => join ", " bits end.

(** One lower-case hexadecimal digit. *)
Definition hex_char (d : Z) : ascii :=
  byte_of (if d <? 10 then 48 + d else 87 + d).
(** [{:02x}] of a byte. *)
Definition hex2 (b : Z) : string :=
  String (hex_char (b / 16)) (String (hex_char (b mod 16)) EmptyString).

Section nvme.
Context (host : HostId) (cfg : NvmeCfg).

Definition drive_alert (metric : string) (sev : Severity) (dev model : string) : AlertBuilder :=
  new_alert host cat.NVME metric sev |> with_device dev |> with_device_model model.

Definition drive_fp (dev metric : string) : string :=
  format_fingerprint (machine_id host) cat.NVME (Some dev) metric.

(** src/agent/src/modules/nvme.rs:100-137 (the critical_warning check of poll_one). *)
Definition check_critical_warning (dev model : string) (s : NvmeSmartLog) : list Action :=
  if negb (critical_warning s =? 0) then
    let code := "0x" +:+ hex2 (critical_warning s) in
    [ActObserve (drive_alert "critical_warning" Critical dev model
       |> with_value code |> with_threshold "0x00"
       |> with_title "NVMe drive reporting reliability degradation"
       |> with_message ("NVMe drive " +:+ dev +:+ " (" +:+ model
            +:+ ") raised critical_warning " +:+ code +:+ " ("
            +:+ decode_critical_warning (critical_warning s) +:+ "). Wear level is "
            +:+ show (percentage_used s) +:+ "%. " +:+ show (media_errors s)
            +:+ " media errors logged. Recommend replacement during the next maintenance window.")
       |> raw_kv "critical_warning" (VInt (critical_warning s))
       |> raw_kv "percentage_used" (VInt (percentage_used s))
       |> raw_kv "media_errors" (VInt (media_errors s)))]
  else [ActObserveOk (drive_fp dev "critical_warning")].

(** src/agent/src/modules/nvme.rs:139-169 (the wear check of poll_one). *)
Definition check_wear (dev model : string) (s : NvmeSmartLog) : list Action :=
  let wear := Int.as_u8 (percentage_used s) in
  let sev := if wear_critical_pct cfg <=? wear then Some Critical
             else if wear_warn_pct cfg <=? wear then Some Warning else None in
  match sev with
  | Some sv =>
      [ActObserve (drive_alert "percentage_used" sv dev model
         |> with_value (show wear)
         |> with_threshold ("warn=" +:+ show (wear_warn_pct cfg) +:+ "%, critical="
              +:+ show (wear_critical_pct cfg) +:+ "%")
         |> with_title "NVMe drive wear approaching end-of-life"
         |> with_message ("NVMe drive " +:+ dev +:+ " (" +:+ model +:+ ") reports "
              +:+ show wear
              +:+ "% of rated write endurance consumed. Plan replacement before it crosses 100%."))]
  | None => []
  end.

(** src/agent/src/modules/nvme.rs:171-192 (the media-error check of poll_one). *)
Definition check_media (dev model : string) (s : NvmeSmartLog) : list Action :=
  if 0 <? media_errors s then
    [ActObserve (drive_alert "media_errors" Warning dev model
       |> with_value (show (media_errors s)) |> with_threshold "0"
       |> with_title "NVMe drive reporting media errors"
       |> with_message ("NVMe drive " +:+ dev +:+ " (" +:+ model +:+ ") has "
            +:+ show (media_errors s)
            +:+ " cumulative media errors. Watch for further growth — this is a leading indicator of failure."))]
  else [].

(** src/agent/src/modules/nvme.rs:194-216 (the error-log check of poll_one). *)
Definition check_err_log (dev model : string) (s : NvmeSmartLog)
    (last : gmap string Z) : gmap string Z * list Action :=
  let cur := num_err_log_entries s in
  let prev := default cur (last !! dev) in
  (<[dev := cur]> last,
   if prev <? cur then
     [ActObserve (drive_alert "err_log_entries" Warning dev model
        |> with_value (show cur)
        |> with_title "NVMe controller logged new error entries"
        |> with_message ("NVMe drive " +:+ dev +:+ " (" +:+ model +:+ ") added "
             +:+ show (cur - prev) +:+ " new error log entry(ies); total now " +:+ show cur
             +:+ ". Run `nvme error-log " +:+ dev +:+ "` for details."))]
   else []).

(** src/agent/src/modules/nvme.rs:218-256 (the temperature check of poll_one). *)
Definition check_temperature (dev model : string) (s : NvmeSmartLog) : list Action :=
  let temp_c := Int.saturating_sub_i32 (Int.as_i32 (composite_temperature s)) 273 in
  if temp_critical_c cfg <=? temp_c then
    [ActObserve (drive_alert "temperature" Critical dev model
       |> with_value (show temp_c +:+ "°C")
       |> with_threshold (show (temp_critical_c cfg) +:+ "°C")
       |> with_title "NVMe drive critically hot"
       |> with_message ("NVMe drive " +:+ dev +:+ " (" +:+ model
            +:+ ") reports composite temperature " +:+ show temp_c
            +:+ "°C. Verify chassis airflow and inlet temperature."))]
  else if temp_warn_c cfg <=? temp_c then
    [ActObserve (drive_alert "temperature" Warning dev model
       |> with_value (show temp_c +:+ "°C")
       |> with_threshold (show (temp_warn_c cfg) +:+ "°C")
       |> with_title "NVMe drive running hot"
       |> with_message ("NVMe drive " +:+ dev +:+ " (" +:+ model +:+ ") is at "
            +:+ show temp_c +:+ "°C — above the configured warning threshold."))]
  else [].

(** src/agent/src/modules/nvme.rs:88-272 (poll_one, on the parsed smart-log). *)
Definition poll_one (dev : string) (model : option string) (s : NvmeSmartLog)
    (last : gmap string Z) : gmap string Z * list Action :=
  let m := default "unknown" model in
  let e := check_err_log dev m s last in
  (fst e, (check_critical_warning dev m s ++ check_wear dev m s ++ check_media dev m s
           ++ snd e ++ check_temperature dev m s)%list).

(** src/agent/src/modules/nvme.rs:59-65 (the loop over the drives of one tick); a
    drive whose smart-log cannot be read is skipped. *)
Definition poll_drives (drives : list (string * option string * option NvmeSmartLog))
    (last : gmap string Z) : gmap string Z * list Action :=
  foldl (fun acc d =>
    match d with
    | (_, _, None) => acc
    | (dev, model, Some s) =>
        let r := poll_one dev model s (fst acc) in (fst r, (snd acc ++ snd r)%list)
    end) (last, []) drives.

(** * What a poll reports *)

Definition smart_ok (s : NvmeSmartLog) : Prop :=
  Int.is_u8 (critical_warning s) /\ Int.is_u8 (percentage_used s)
  /\ 0 <= composite_temperature s <= Int.i32_max.

(** The NVMe checks.  On a smart-log in range, one poll reports: the critical
    warning exactly when a bit is set, and otherwise offers it for resolution;
    wear and temperature at the severity of the highest threshold reached, the
    temperature in degrees Celsius; media errors when there are any, on the first
    poll too; and the error log exactly when it grew since the last poll of the
    same drive. *)
Theorem nvme_poll_reports (dev : string) (model : option string) (s : NvmeSmartLog)
    (last : gmap string Z) (Hs : smart_ok s) :
  let r := poll_one dev model s last in
  let temp := composite_temperature s - 273 in
  observed (snd r)
  = ((if decide (critical_warning s <> 0) then [("critical_warning", Critical)] else [])
     ++ (if decide (wear_critical_pct cfg <= percentage_used s)
         then [("percentage_used", Critical)]
         else if decide (wear_warn_pct cfg <= percentage_used s)
              then [("percentage_used", Warning)] else [])
     ++ (if decide (0 < media_errors s) then [("media_errors", Warning)] else [])
     ++ (if match last !! dev with Some p => p <? num_err_log_entries s | None => false end
         then [("err_log_entries", Warning)] else [])
     ++ (if decide (temp_critical_c cfg <= temp) then [("temperature", Critical)]
         else if decide (temp_warn_c cfg <= temp) then [("temperature", Warning)] else []))%list
  /\ (critical_warning s = 0 <->
      ActObserveOk (drive_fp dev "critical_warning") ∈ snd r)
  /\ fst r = <[dev := num_err_log_entries s]> last.
Proof.
  destruct Hs as (Hw & Hp & Ht). simpl. split_and!.
  - rewrite !observed_app. unfold check_critical_warning, check_wear, check_media,
      check_temperature.
    rewrite Int.as_u8_id by done.
    rewrite Int.as_i32_id by (unfold Int.is_i32, Int.i32_min; lia).
    unfold Int.saturating_sub_i32. rewrite Z.min_r, Z.max_r
      by (unfold Int.i32_min, Int.i32_max in *; lia).
    repeat f_equal.
    + destruct (Z.eqb_spec (critical_warning s) 0); decide_all; done || lia.
    + destruct (Z.leb_spec (wear_critical_pct cfg) (percentage_used s)),
        (Z.leb_spec (wear_warn_pct cfg) (percentage_used s)); decide_all; done || lia.
    + destruct (Z.ltb_spec 0 (media_errors s)); decide_all; done || lia.
    + destruct (last !! dev) as [p|]; simpl; [|by rewrite Z.ltb_irrefl].
      by destruct (p <? num_err_log_entries s).
    + destruct (Z.leb_spec (temp_critical_c cfg) (composite_temperature s - 273)),
        (Z.leb_spec (temp_warn_c cfg) (composite_temperature s - 273));
        decide_all; done || lia.
  - split.
    + intros H0. apply elem_of_app. left. unfold check_critical_warning. rewrite H0.
      simpl. by apply list_elem_of_singleton.
    + rewrite !elem_of_app. unfold check_critical_warning, check_wear, check_media,
        check_temperature. intros Hin. destruct_or! Hin.
      * destruct (Z.eqb_spec (critical_warning s) 0); [done|]. set_solver.
      * exfalso. repeat case_match; set_solver.
      * exfalso. repeat case_match; set_solver.
      * exfalso. repeat case_match; set_solver.
      * exfalso. repeat case_match; set_solver.
  - done.
Qed.

End nvme.

Definition ref_nvme_host : HostId := mkHostId "h" "hid" "10.0.0.1".
Definition hot_drive : NvmeSmartLog := mkSmartLog 5 (273 + 75) 85 1 3 100 10.

Lemma nvme_poll_reports_witness :
  observed (snd (poll_one ref_nvme_host NvmeCfg_default "/dev/nvme0n1" None hot_drive
                   {[ "/dev/nvme0n1" := 2 ]}))
  = [("critical_warning", Critical); ("percentage_used", Warning);
     ("media_errors", Warning); ("err_log_entries", Warning); ("temperature", Warning)].
Proof.
  etransitivity.
  - refine (proj1 (nvme_poll_reports ref_nvme_host NvmeCfg_default "/dev/nvme0n1" None
      hot_drive {[ "/dev/nvme0n1" := 2 ]} _)).
    unfold smart_ok, Int.is_u8, Int.u8_max, Int.i32_max. simpl. lia.
  - vm_compute. reflexivity.
Defined.
