(* ===== verification/DiskSmart.v ===== *)
(** SATA and SAS drives (src/agent/src/modules/disk_smart.rs): the checks made on
    one smartctl report, and the drive enumeration.

    The report is the parsed JSON of [smartctl -a -j]; [ToolJson] runs and parses
    it. *)
From S2P Require Import Prelude Text Schema Tracker Channels Bus Runtime Host.
From stdpp Require Import sorting.

Local Open Scope string_scope.
Local Open Scope Z_scope.

(** src/agent/src/modules/disk_smart.rs:92-106 (AtaAttr and AttrRaw). *)
Record AtaAttr : Type := mkAttr {
  attr_id : Z;
  attr_name : string;
  attr_raw_value : Z;
  attr_raw_string : string;
  when_failed : option string
}.

(** src/agent/src/modules/disk_smart.rs:78-107 (SmartReport and its blocks). *)
Record SmartReport : Type := mkReport {
  smart_status : option (option bool);
  temperature : option (option Z);
  ata_smart_attributes : option (option (list AtaAttr));
  model_name : option string;
  device_type : option (option string)
}.

(** src/agent/src/modules/disk_smart.rs:64-64 (the name filter of enumerate). *)
Definition is_disk_name (n : string) : bool :=
  (starts_with "sd" n || starts_with "hd" n) && negb (contains "boot" n).

(** src/agent/src/modules/disk_smart.rs:58-76 (enumerate), on the names in
    /sys/block and the test that a device node exists. *)
Definition enumerate_disks (names : list string) (exists_ : string -> bool) : list string :=
  List.filter exists_
    (map (fun n => "/dev/" +:+ n)
       (merge_sort (fun a b => Is_true (String.leb a b)) (List.filter is_disk_name names))).

Section disk_smart.
Context (host : HostId).

(** src/agent/src/modules/disk_smart.rs:126-146 (the overall check of poll_one). *)
Definition check_overall (dev model : string) (r : SmartReport) : list Action :=
  match smart_status r with
  | Some (Some false) =>
      [ActObserve
        (new_alert host cat.DISK_SMART "smart_overall" Critical
         |> with_device dev |> with_device_model model
         |> with_value "FAILED" |> with_threshold "PASSED"
         |> with_title "SMART overall health FAILED"
         |> with_message ("Drive " +:+ dev +:+ " (" +:+ model
              +:+ ") reports SMART overall health FAILED. Replace this drive ASAP."))]
  | _ => []
  end.

(** src/agent/src/modules/disk_smart.rs:152-158 (interesting). *)
Definition interesting (a : AtaAttr) : bool :=
  (attr_id a =? 5) || (attr_id a =? 197) || (attr_id a =? 198) || (attr_id a =? 187).

(** src/agent/src/modules/disk_smart.rs:159-159 (failing). *)
Definition failing (a : AtaAttr) : bool :=
  bool_decide (default "-" (when_failed a) <> "-").

(** src/agent/src/modules/disk_smart.rs:151-180 (one attribute of poll_one). *)
Definition check_attr (dev model : string) (a : AtaAttr) : list Action :=
  if interesting a && (0 <? attr_raw_value a) || failing a then
    [ActObserve
      (new_alert host cat.DISK_SMART ("attr_" +:+ to_lowercase (attr_name a))
         (if failing a then Critical else Warning)
       |> with_device dev |> with_device_model model
       |> with_value (show (attr_raw_value a))
       |> with_title ("SMART attribute " +:+ attr_name a +:+ " non-zero")
       |> with_message ("Drive " +:+ dev +:+ " (" +:+ model +:+ ") attribute "
            +:+ attr_name a +:+ " = " +:+ show (attr_raw_value a)
            +:+ (if failing a then " (FAILING_NOW)" else "") +:+ "."))]
  else [].

(** src/agent/src/modules/disk_smart.rs:109-199 (poll_one, on the parsed report);
    nothing is ever resolved. *)
Definition smart_poll_one (dev : string) (r : SmartReport) : list Action :=
  let model := default "unknown" (model_name r) in
  (check_overall dev model r
   ++ concat (map (check_attr dev model)
        (default [] (mjoin (ata_smart_attributes r)))))%list.

(** src/agent/src/modules/disk_smart.rs:47-52 (one tick of spawn); a drive whose
    report cannot be read is skipped. *)
Definition smart_tick (drives : list (string * option SmartReport)) : list Action :=
  concat (map (fun d => match snd d with
                        | Some r => smart_poll_one (fst d) r
                        | None => []
                        end) drives).

(** The table of a report. *)
Definition attrs_of (r : SmartReport) : list AtaAttr :=
  default [] (mjoin (ata_smart_attributes r)).

(** What an attribute is reported as. *)
Definition attr_report (a : AtaAttr) : option (string * Severity) :=
  let metric := "attr_" +:+ to_lowercase (attr_name a) in
  if decide (is_Some (when_failed a) /\ when_failed a <> Some "-") then Some (metric, Critical)
  else if decide (attr_id a ∈ [5; 187; 197; 198] /\ 0 < attr_raw_value a)
       then Some (metric, Warning) else None.

Lemma failing_spec a :
  failing a = bool_decide (is_Some (when_failed a) /\ when_failed a <> Some "-").
Proof.
  unfold failing. apply bool_decide_ext. destruct (when_failed a) as [w|]; simpl.
  - split; [intros Hw; split; [done|congruence]|intros [_ Hw]; congruence].
  - split; [done|]. by intros [[? ?] _].
Qed.

Lemma interesting_spec a : interesting a = bool_decide (attr_id a ∈ [5; 187; 197; 198]).
Proof.
  unfold interesting. destruct (bool_decide_reflect (attr_id a ∈ [5; 187; 197; 198])) as [Hin|Hn].
  - repeat (apply elem_of_cons in Hin as [->|Hin]; [done|]). by apply elem_of_nil in Hin.
  - rewrite !not_elem_of_cons in Hn. destruct Hn as (H1 & H2 & H3 & H4 & _).
    by rewrite !(proj2 (Z.eqb_neq _ _)).
Qed.

Lemma check_attr_observed dev model a :
  observed (check_attr dev model a) = option_list (attr_report a).
Proof.
  unfold check_attr, attr_report. rewrite interesting_spec, failing_spec.
  destruct (decide (is_Some _ /\ _)) as [Hf|Hf].
  - rewrite (bool_decide_eq_true_2 _ Hf), orb_true_r. done.
  - rewrite (bool_decide_eq_false_2 _ Hf), orb_false_r.
    destruct (decide (_ /\ _)) as [[Hi Hr]|Hn].
    + rewrite (bool_decide_eq_true_2 _ Hi), (proj2 (Z.ltb_lt _ _) Hr). done.
    + destruct (bool_decide_reflect (attr_id a ∈ [5; 187; 197; 198])); [|done].
      destruct (Z.ltb_spec 0 (attr_raw_value a)); [tauto|done].
Qed.

Lemma concat_option_list {A B} (f : A -> option B) (l : list A) :
  concat (map (fun x => option_list (f x)) l) = omap f l.
Proof.
  induction l as [|x l IH]; [done|]. simpl. rewrite IH. by destruct (f x).
Qed.

(** The SMART checks.  A poll reports the overall status exactly when the
    drive says it failed, and each attribute that is one of the four counters
    with a non-zero raw value, or whose when_failed is present and not a dash,
    in the order of the table and critical exactly in the second case.  The
    value smartctl gives for an attribute that never failed is the empty string,
    so on such a report every attribute of a healthy drive is reported, as
    critical. *)
Theorem smart_poll_reports (dev : string) (r : SmartReport) :
  observed (smart_poll_one dev r)
  = ((if decide (smart_status r = Some (Some false)) then [("smart_overall", Critical)] else [])
     ++ omap attr_report (attrs_of r))%list
  /\ (Forall (fun a => when_failed a = Some "") (attrs_of r) ->
      smart_status r = Some (Some true) ->
      observed (smart_poll_one dev r)
      = map (fun a => ("attr_" +:+ to_lowercase (attr_name a), Critical)) (attrs_of r)).
Proof.
  assert (Hmain : observed (smart_poll_one dev r)
    = ((if decide (smart_status r = Some (Some false)) then [("smart_overall", Critical)] else [])
       ++ omap attr_report (attrs_of r))%list).
  { unfold smart_poll_one. rewrite observed_app, observed_concat_map.
    rewrite (map_ext _ _ (check_attr_observed dev _)), concat_option_list. f_equal.
    unfold check_overall. destruct (smart_status r) as [[[]|]|]; done. }
  split; [done|]. intros Ha Hs. rewrite Hmain, Hs. simpl.
  clear Hmain. induction Ha as [|a l Hw Hl IH]; [done|]. simpl. unfold attr_report at 1. rewrite Hw.
  rewrite decide_True by (split; [by eexists|done]). simpl. f_equal. exact IH.
Qed.

End disk_smart.

(** A healthy drive, its two attributes never failed and both zero. *)
Definition healthy_report : SmartReport :=
  mkReport (Some (Some true)) None
    (Some (Some [mkAttr 5 "Reallocated_Sector_Ct" 0 "0" (Some "");
                 mkAttr 9 "Power_On_Hours" 12000 "12000" (Some "")])) (Some "ST4000") None.

Lemma smart_poll_reports_witness :
  observed (smart_poll_one (mkHostId "h" "hid" "10.0.0.1") "/dev/sda" healthy_report)
  = [("attr_reallocated_sector_ct", Critical); ("attr_power_on_hours", Critical)].
Proof.
  etransitivity.
  - apply (proj2 (smart_poll_reports (mkHostId "h" "hid" "10.0.0.1") "/dev/sda" healthy_report)).
    + repeat constructor.
    + reflexivity.
  - vm_compute. reflexivity.
Defined.
