(* ===== verification/OsHang.v ===== *)
(** Hang and lockup detection from the kernel log
    (src/agent/src/modules/oshang.rs). *)
From S2P Require Import Prelude Text Schema Tracker Channels Bus Runtime Host Regex.
From S2P Require Import Kmsg.

Local Open Scope string_scope.
Local Open Scope Z_scope.

(** src/agent/src/modules/oshang.rs:34-37 (the patterns of spawn). *)
Definition task_pat : string := "INFO: task (\S+):(\d+) blocked for more than (\d+) seconds".
Definition soft_pat : string := "watchdog: BUG: soft lockup - CPU#(\d+) stuck for (\d+s)".
Definition hard_pat : string := "NMI watchdog: BUG: hard LOCKUP on CPU (\d+)".
Definition bug_pat : string := "^(BUG:|Oops:|general protection fault|kernel BUG at)".

Section oshang.
Context `{RegexEngine}.
Context (host : HostId).

Record HangRes : Type := mkHangRes {
  task_re : Regex; soft_re : Regex; hard_re : Regex; bug_re : Regex
}.

(** The four [unwrap]s: [None] is a panic. *)
Definition hang_compile : option HangRes :=
  a ← re_new task_pat; b ← re_new soft_pat; c ← re_new hard_pat; d ← re_new bug_pat;
  Some (mkHangRes a b c d).

(** src/agent/src/modules/oshang.rs:44-62 (the task_hang alert). *)
Definition task_hang_builder (c : list (option string)) (t : string) : AlertBuilder :=
  new_alert host cat.OS_HANG "task_hang" Warning
  |> with_device ("pid=" +:+ grp 2 c) |> with_value (grp 3 c +:+ "s")
  |> with_title "Hung task detected"
  |> with_message ("Task " +:+ grp 1 c +:+ " (pid " +:+ grp 2 c
       +:+ ") has been blocked for over " +:+ grp 3 c
       +:+ " seconds. Common causes: stuck I/O on a wedged storage controller, deadlock, paging on a swap-starved host.")
  |> raw_kv "kmsg" (VString t).

(** src/agent/src/modules/oshang.rs:65-81 (the cpu_softlockup alert). *)
Definition softlockup_builder (c : list (option string)) (t : string) : AlertBuilder :=
  new_alert host cat.OS_HANG "cpu_softlockup" Critical
  |> with_device ("cpu" +:+ grp 1 c) |> with_value (grp 2 c)
  |> with_title "CPU soft lockup"
  |> with_message ("watchdog reported a soft lockup on CPU " +:+ grp 1 c +:+ " for "
       +:+ grp 2 c
       +:+ ". The kernel may panic shortly. Investigate via `kdump` if enabled.")
  |> raw_kv "kmsg" (VString t).

(** src/agent/src/modules/oshang.rs:84-98 (the cpu_hardlockup alert). *)
Definition hardlockup_builder (c : list (option string)) (t : string) : AlertBuilder :=
  new_alert host cat.OS_HANG "cpu_hardlockup" Critical
  |> with_device ("cpu" +:+ grp 1 c)
  |> with_title "CPU hard lockup (NMI watchdog)"
  |> with_message ("NMI watchdog fired for CPU " +:+ grp 1 c
       +:+ " — hard lockup. Host is almost certainly going to panic.")
  |> raw_kv "kmsg" (VString t).

(** src/agent/src/modules/oshang.rs:101-110 (the kernel_bug alert). *)
Definition kernel_bug_builder (t : string) : AlertBuilder :=
  new_alert host cat.OS_HANG "kernel_bug" Critical
  |> with_title "Kernel BUG / oops"
  |> with_message ("Kernel logged: " +:+ dq +:+ t +:+ dq +:+ ". Capture vmcore via kdump.")
  |> raw_kv "kmsg" (VString t).

(** src/agent/src/modules/oshang.rs:42-112 (what one kernel line gives). *)
Definition hang_line (re : HangRes) (t : string) : list Action :=
  match captures (task_re re) t with
  | Some c => [ActObserve (task_hang_builder c t)]
  | None =>
      match captures (soft_re re) t with
      | Some c => [ActObserve (softlockup_builder c t)]
      | None =>
          match captures (hard_re re) t with
          | Some c => [ActObserve (hardlockup_builder c t)]
          | None => if is_match (bug_re re) t then [ActObserve (kernel_bug_builder t)] else []
          end
      end
  end.

(** src/agent/src/modules/oshang.rs:39-119 (the loop of spawn); [None] ends it. *)
Definition hang_step (re : HangRes) (r : BRecv KmsgLine) : option (list Action) :=
  match r with
  | BOk line => Some (hang_line re (k_text line))
  | BLagged _ => Some []
  | BClosed => None
  end.

End oshang.
