(* ===== verification/PcieAer.v ===== *)
(** PCIe error reporting from the kernel log
    (src/agent/src/modules/pcie_aer.rs): uncorrectable errors, and the rate of
    corrected ones over a sliding minute. *)
From S2P Require Import Prelude Text Utf8 Schema Tracker Channels Bus Runtime Host.
From S2P Require Import Regex Config Kmsg Windows.

Local Open Scope string_scope.
Local Open Scope Z_scope.

(** src/agent/src/modules/pcie_aer.rs:35-37 (the patterns of spawn). *)
Definition bdf_pat : string := "([0-9a-fA-F]{4}:[0-9a-fA-F]{2}:[0-9a-fA-F]{2}\.[0-9a-fA-F])".
Definition uncorr_pat : string := "(?i)AER:.*Uncorrected".
Definition corr_pat : string := "(?i)AER:.*Corrected".

(** src/agent/src/modules/pcie_aer.rs:113-131 (describe_pci, on the output of a
    successful lspci). *)
Definition describe_pci (stdout : option string) : option string :=
  match stdout with
  | None => None
  | Some out =>
      let '(vendor, device) :=
        foldl (fun acc line =>
          let v := match strip_prefix "Vendor:" line with
                   | Some v => trim v | None => fst acc end in
          let d := match strip_prefix "Device:" line with
                   | Some d => trim d | None => snd acc end in
          (v, d)) ("", "") (lines (from_utf8_lossy out)) in
      if is_empty vendor && is_empty device then None
      else Some (trim (vendor +:+ " " +:+ device))
  end.

Section aer.
Context `{RegexEngine}.
Context (host : HostId) (cfg : PcieAerCfg).

Record AerRes : Type := mkAerRes { bdf_re : Regex; uncorr_re : Regex; corr_re : Regex }.

(** src/agent/src/modules/pcie_aer.rs:56-70 (the uncorrectable alert). *)
Definition uncorrectable_builder (bdf : option string) (label t : string) : AlertBuilder :=
  new_alert host cat.PCIE_AER "uncorrectable" Critical
  |> with_device (default "" bdf) |> with_device_model label
  |> with_title "PCIe uncorrectable AER error"
  |> with_message ("PCIe device " +:+ label +:+ " reported an uncorrectable AER error. Raw: "
       +:+ dq +:+ t +:+ dq +:+ ". This often forces a reset of the device or the host.")
  |> raw_kv "kmsg" (VString t).

(** src/agent/src/modules/pcie_aer.rs:82-99 (the corrected_rate_high alert). *)
Definition corrected_builder (bdf : option string) (label : string) (n : Z) : AlertBuilder :=
  new_alert host cat.PCIE_AER "corrected_rate_high" Warning
  |> with_device (default "" bdf) |> with_device_model label
  |> with_value (show n +:+ "/min")
  |> with_threshold (show (corrected_per_min_warn cfg) +:+ "/min")
  |> with_title "PCIe corrected AER rate high"
  |> with_message ("Sustained PCIe corrected errors on " +:+ label +:+ " (~" +:+ show n
       +:+ "/min). Worth replacing the riser or device before it escalates to uncorrectable.").

Definition aer_width : Duration := from_secs 60.

(** src/agent/src/modules/pcie_aer.rs:44-104 (what one kernel line gives); [lspci]
    is the answer for an address. *)
Definition aer_line (re : AerRes) (lspci : string -> option string) (now : Instant)
    (t : string) (w : list Instant) : list Instant * list Action :=
  let is_uncorr := is_match (uncorr_re re) t in
  let is_corr := is_match (corr_re re) t in
  if negb is_uncorr && negb is_corr then (w, [])
  else
    let bdf := match captures (bdf_re re) t with Some c => Some (default "" (group 1 c))
               | None => None end in
    let label := match bdf with
                 | Some b => default b (describe_pci (lspci b))
                 | None => "unknown"
                 end in
    if is_uncorr then (w, [ActObserve (uncorrectable_builder bdf label t)])
    else
      let w' := push_window id aer_width now now w in
      (w', if corrected_per_min_warn cfg <=? Int.as_u64 (Z.of_nat (length w'))
           then [ActObserve (corrected_builder bdf label (Z.of_nat (length w')))] else []).

(** src/agent/src/modules/pcie_aer.rs:41-109 (the loop of spawn); [None] ends it. *)
Definition aer_step (re : AerRes) (lspci : string -> option string) (now : Instant)
    (r : BRecv KmsgLine) (w : list Instant) : option (list Instant * list Action) :=
  match r with
  | BOk line => Some (aer_line re lspci now (k_text line) w)
  | BLagged _ => Some (w, [])
  | BClosed => None
  end.

(** An uncorrectable error is always reported, whatever the window holds, and
    leaves the window alone. *)
Lemma aer_uncorrectable re lspci now t w :
  is_match (uncorr_re re) t = true ->
  exists b, aer_line re lspci now t w = (w, [ActObserve b])
            /\ b_metric b = "uncorrectable" /\ b_severity b = Critical.
Proof. intros Hu. unfold aer_line. rewrite Hu. simpl. by eexists. Qed.

(** The corrected-error window is exact. *)
Lemma aer_window re lspci now t0 t log w :
  is_match (uncorr_re re) t = false -> is_match (corr_re re) t = true ->
  t0 <= now -> window_of id aer_width t0 log w ->
  window_of id aer_width now (log ++ [now])%list (fst (aer_line re lspci now t w)).
Proof.
  intros Hu Hc Ht Hw. unfold aer_line. rewrite Hu, Hc. simpl.
  by eapply push_window_exact.
Qed.

End aer.
