(* ===== verification/CpuMce.v ===== *)
(** Machine-check events from the kernel log (src/agent/src/modules/cpu_mce.rs):
    classification, decoding, and the lazily compiled patterns.

    A [LazyLock] whose initialiser panics takes the process down with it
    ([panic = "abort"]), so a line is [None] when a pattern it needs does not
    compile. *)
From S2P Require Import Prelude Text Schema Tracker Channels Bus Runtime Host Regex.
From S2P Require Import Kmsg.

Local Open Scope string_scope.
Local Open Scope Z_scope.

(** src/agent/src/modules/cpu_mce.rs:32-35 (the patterns of spawn). *)
Definition mce_pat : string := "(?i)\b(mce|machine check|hardware error)\b".
Definition bank_pat : string := "(?i)bank[: ]+(\d+)".
Definition cpu_pat : string := "(?i)CPU[: ]?(\d+)".
Definition status_pat : string := "(?i)STATUS[: ]+([0-9A-Fa-fx]+)".

(** src/agent/src/modules/cpu_mce.rs:78-87 (CE_PIPE_MARKER, EXPLICIT_UNCORR,
    MEMORY_GEO_HINT). *)
Definition ce_pipe_pat : string := "\|CE\|".
Definition explicit_uncorr_pat : string :=
  "(?i)\buncorrect(ed|able)\b|\|UCE\||\|UC(?=[\|\]])|\bseverity:\s*fatal\b|\bmca:\s*fatal\b".
Definition memory_geo_pat : string :=
  "(?i)\b(rank|bank|row|column|slice|dram)\b|\bnode:\s*\d+|\bcard:\s*\d+\s+.*\bmodule:\s*\d+".

(** src/agent/src/modules/cpu_mce.rs:122-133 (advice_for). *)
Definition advice_for (metric : string) : string :=
  if decide (metric = "corrected_cmci_kmsg") then
    "`|CE|` in the MCA status means the hardware reported a corrected error — do not panic-page as UE; watch for escalating uncorrected MCA lines or DIMM swaps."
  else if decide (metric = "hardware_error_summary") then
    "APEI generic summaries omit per-bank MCA detail; correlate with SEL/IML and nearby MCA printks for UE."
  else "If this is uncorrected, replace the CPU/socket if it recurs; single bursts can be transient.".

(** src/agent/src/modules/cpu_mce.rs:137-156 (decode). *)
Definition mce_decode (text : string) : string :=
  let t := to_lowercase text in
  if contains "dram" t || contains "memory controller" t
  then "DRAM ECC / memory controller error"
  else if contains "l2" t then "L2 cache error"
  else if contains "l3" t then "L3 cache / LLC error"
  else if contains "bus" t then "Bus / interconnect error"
  else if contains "tlb" t then "TLB error"
  else if contains "uncorrected" t then "Uncorrected error"
  else if contains "corrected" t then "Corrected error"
  else "see raw".

Section mce.
Context `{RegexEngine}.
Context (host : HostId).

(** [P.is_match(text)] for a [LazyLock] pattern: [None] is the panic of its
    initialiser. *)
Definition lazy_match (pat text : string) : option bool :=
  re ← re_new pat; Some (is_match re text).

(** [a && b], [a || b] and [!a] on conditions that may panic. *)
Definition and_then (a b : option bool) : option bool :=
  match a with Some true => b | _ => a end.
Definition or_else (a b : option bool) : option bool :=
  match a with Some false => b | _ => a end.
Definition not_ (a : option bool) : option bool := negb <$> a.

(** src/agent/src/modules/cpu_mce.rs:90-120 (mce_alert_severity_and_copy). *)
Definition mce_classify (text : string) : option (Severity * string * string) :=
  let tl := to_lowercase text in
  let uncorr := lazy_match explicit_uncorr_pat text in
  corr_only_ce ← and_then (lazy_match ce_pipe_pat text) (not_ uncorr);
  if corr_only_ce : bool
  then Some (Warning, "Corrected machine check / CMCI", "corrected_cmci_kmsg")
  else
    let apei_generic := contains "apei generic hardware error source" tl in
    fragment ←
      and_then (lazy_match memory_geo_pat text)
        (and_then (Some (contains "[hardware error]" tl))
           (and_then (not_ uncorr) (Some (negb (contains "mce:" tl)))));
    vague ← and_then (Some (apei_generic || fragment)) (not_ uncorr);
    if vague : bool
    then Some (Warning, "APEI / hardware RAS summary logged", "hardware_error_summary")
    else Some (Critical, "CPU Machine Check Exception", "mce_event").

Record MceRes : Type := mkMceRes {
  mce_re : Regex; bank_re : Regex; cpu_re : Regex; status_re : Regex
}.

Definition first_group (re : Regex) (t : string) : option string :=
  match captures re t with Some c => Some (default "" (group 1 c)) | None => None end.

(** src/agent/src/modules/cpu_mce.rs:39-69 (what one kernel line gives). *)
Definition mce_line (re : MceRes) (t : string) : option (list Action) :=
  if negb (is_match (mce_re re) t) then Some []
  else
    let bank := first_group (bank_re re) t in
    let cpu := first_group (cpu_re re) t in
    let status := first_group (status_re re) t in
    '(severity, title, metric) ← mce_classify t;
    Some [ActObserve
      (new_alert host cat.CPU_MCE metric severity
       |> with_device ("cpu=" +:+ default "?" cpu +:+ ", bank=" +:+ default "?" bank)
       |> with_value (default "" status)
       |> with_title title
       |> with_message ("CPU " +:+ default "?" cpu +:+ " hardware check on bank "
            +:+ default "?" bank +:+ " (decoded hint: " +:+ mce_decode t +:+ "). Raw: "
            +:+ dq +:+ t +:+ dq +:+ ". " +:+ advice_for metric)
       |> raw_kv "kmsg" (VString t)
       |> raw_kv "status" (match status with Some s => VString s | None => VNull end))].

(** C37: a corrected-error line takes the agent down.  The [regex] crate rejects
    look-ahead, so when the pattern of EXPLICIT_UNCORR does not compile, every
    machine-check line with a |CE| marker, every one with a memory-geometry word
    and a "[Hardware Error]" tag, and every APEI summary makes the classifier
    panic instead of reporting. *)
Theorem mce_lookahead_panics (re : MceRes) (t : string) (ce geo : Regex)
    (Hunsupported : re_new explicit_uncorr_pat = None)
    (Hce : re_new ce_pipe_pat = Some ce) (Hgeo : re_new memory_geo_pat = Some geo)
    (Hmce : is_match (mce_re re) t = true)
    (Hline : is_match ce t = true
             \/ contains "apei generic hardware error source" (to_lowercase t) = true
             \/ (is_match geo t = true
                 /\ contains "[hardware error]" (to_lowercase t) = true)) :
  mce_line re t = None.
Proof.
  unfold mce_line. rewrite Hmce. simpl. unfold mce_classify, lazy_match.
  rewrite Hunsupported, Hce, Hgeo. simpl.
  destruct (is_match ce t) eqn:E1; simpl; [done|].
  destruct Hline as [?|[Hl|[Hg Hh]]]; [done| |].
  - rewrite Hl. destruct (is_match geo t); simpl; [|done].
    by destruct (contains "[hardware error]" (to_lowercase t)).
  - rewrite Hg. simpl. by rewrite Hh.
Qed.

End mce.

(** A literal engine that, like the crate, rejects look-ahead. *)
Definition NoLookahead : RegexEngine :=
  {| Regex := string;
     re_new p := if contains "(?=" p then None else Some p;
     is_match p s := if decide (p = ce_pipe_pat) then contains "|CE|" s
                     else if decide (p = mce_pat) then contains "mce" s else contains p s;
     captures p s := None |}.
#[local] Existing Instance NoLookahead.

Lemma mce_lookahead_panics_witness :
  mce_line (mkHostId "h" "hid" "")
    (mkMceRes (H := NoLookahead) mce_pat bank_pat cpu_pat status_pat)
    "mce: [Hardware Error]: CPU 1 Bank 7: |CE|" = None.
Proof.
  apply (mce_lookahead_panics (mkHostId "h" "hid" "")
    (mkMceRes (H := NoLookahead) mce_pat bank_pat cpu_pat status_pat)
    "mce: [Hardware Error]: CPU 1 Bank 7: |CE|"
    (ce_pipe_pat : Regex (RegexEngine := NoLookahead))
    (memory_geo_pat : Regex (RegexEngine := NoLookahead))).
  - vm_compute. reflexivity.
  - vm_compute. reflexivity.
  - vm_compute. reflexivity.
  - vm_compute. reflexivity.
  - left. vm_compute. reflexivity.
Defined.
