(* ===== verification/StorageController.v ===== *)
(** Storage controllers (src/agent/src/modules/storage_controller.rs): kernel
    lockup messages, and the enumeration that notices a controller that went away
    or reports a bad status. *)
From S2P Require Import Prelude Text Utf8 Schema Tracker Channels Bus Runtime Host.
From S2P Require Import Command VendorDetect Json Regex Kmsg.

Local Open Scope string_scope.
Local Open Scope Z_scope.

(** src/agent/src/modules/storage_controller.rs:37-45 (ControllerView). *)
Record ControllerView : Type := mkView {
  v_slot : string;
  v_model : string;
  v_status : string;
  v_pci_bdf : string;
  v_attached_disks : list string
}.
Definition ControllerView_default : ControllerView := mkView "" "" "" "" [].

(** src/agent/src/modules/storage_controller.rs:78-83 (the patterns of kmsg_tailer). *)
Definition lockup_pat : string :=
  "(?i)(hpsa|smartpqi).*(controller\s+(lockup\s+detected|(?:is\s+)?offline)|no\s+controller\s+heartbeat|hard\s+reset|fatal\s+error|reason\s+code\s+0x)".
Definition reset_pat : string := "(?i)(scsi|hpsa|smartpqi).*(resetting host|abort)\b".

(** src/agent/src/modules/storage_controller.rs:235-236 (the patterns of
    enumerate_hpe). *)
Definition slot_pat : string := "in Slot ([\dA-Za-z\-]+)".
Definition model_pat : string := "^(.*?)\s+in Slot".

(** src/agent/src/modules/storage_controller.rs:291-291 (the pattern of
    enumerate_perccli). *)
Definition count_pat : string := "Controller Count\s*=\s*(\d+)".

Section storage_controller.
Context `{RegexEngine} `{HashOrder}.
Context (host : HostId).

(** * Kernel lines *)

(** src/agent/src/modules/storage_controller.rs:88-104 (what a kernel line gives); a
    reset is only logged. *)
Definition lockup_line (lockup_re : Regex) (t : string) : list Action :=
  if is_match lockup_re t then
    [ActObserve
      (new_alert host cat.STORAGE_CONTROLLER "controller_lockup_kmsg" Critical
       |> with_title "Storage controller lockup (kernel)"
       |> with_message ("Kernel logged a SmartArray controller lockup: " +:+ dq +:+ t +:+ dq
            +:+ ". Disks behind this controller will be unreachable; Ceph OSDs on those disks will go down. Issue a hot-reset (`echo 1 > /sys/class/scsi_host/hostX/eh_deadline`) or schedule a power cycle.")
       |> raw_kv "kmsg" (VString t))]
  else [].

(** src/agent/src/modules/storage_controller.rs:85-116 (the loop of kmsg_tailer);
    [None] ends it. *)
Definition lockup_step (lockup_re : Regex) (r : BRecv KmsgLine) : option (list Action) :=
  match r with
  | BOk line => Some (lockup_line lockup_re (k_text line))
  | BLagged _ => Some []
  | BClosed => None
  end.

(** * Enumeration *)

(** The scan of the ssacli output. *)
Record HpeScan : Type := mkScan {
  sc_out : gmap string ControllerView;
  sc_slot : option string;
  sc_model : string;
  sc_status : string
}.

Definition hpe_view (slot model status : string) : ControllerView :=
  mkView slot model status "" [].

Definition flush (s : HpeScan) : HpeScan :=
  match sc_slot s with
  | Some slot =>
      mkScan (<[slot := hpe_view slot (sc_model s) (sc_status s)]> (sc_out s)) None "" ""
  | None => s
  end.

(** src/agent/src/modules/storage_controller.rs:240-265 (the line loop of
    enumerate_hpe). *)
Definition hpe_line (slot_re model_re : Regex) (s : HpeScan) (raw : string) : HpeScan :=
  let line := trim raw in
  if is_empty line then s
  else if contains "in Slot" line then
    let s1 := flush s in
    let slot := match captures slot_re line with
                | Some c => Some (grp 1 c)
                | None => sc_slot s1
                end in
    let model := match captures model_re line with
                 | Some c => grp 1 c
                 | None => sc_model s1
                 end in
    mkScan (sc_out s1) slot model (sc_status s1)
  else
    match strip_prefix "Controller Status:" line with
    | Some rest => mkScan (sc_out s) (sc_slot s) (sc_model s) (trim rest)
    | None => s
    end.

(** src/agent/src/modules/storage_controller.rs:230-278 (enumerate_hpe, on the
    text of ssacli). *)
Definition parse_hpe (slot_re model_re : Regex) (text : string) :
    gmap string ControllerView :=
  sc_out (flush (foldl (hpe_line slot_re model_re) (mkScan ∅ None "" "") (lines text))).

Record CtrlRes : Type := mkCtrlRes {
  slot_re : Regex; model_re : Regex; count_re : Regex
}.

(** The [unwrap]s: [None] is a panic. *)
Definition ctrl_compile : option CtrlRes :=
  a ← re_new slot_pat; b ← re_new model_pat; c ← re_new count_pat;
  Some (mkCtrlRes a b c).

Section enumerate.
Context (re : CtrlRes) (machine : list string -> Process).

(** src/agent/src/modules/storage_controller.rs:224-279 (enumerate_hpe); [None] is
    an error. *)
Definition enumerate_hpe : option (gmap string ControllerView) :=
  o ← run machine "ssacli" ["ctrl"; "all"; "show"; "status"] TIMEOUT_STORAGE;
  if o_success o
  then Some (parse_hpe (slot_re re) (model_re re) (from_utf8_lossy (o_stdout o)))
  else Some ∅.

(** src/agent/src/modules/storage_controller.rs:302-321 (the view of one PERC
    controller). *)
Definition perc_view (i body : string) : ControllerView :=
  mkView i (default "PERC" (find_map (strip_prefix "Product Name = ") (lines body)))
    (default "Unknown" (find_map (strip_prefix "Controller Status = ") (lines body))) "" [].

(** src/agent/src/modules/storage_controller.rs:297-322 (the loop over the PERC
    controllers); [None] is the early return of an error. *)
Fixpoint perc_loop (ids : list Z) (out : gmap string ControllerView) :
    option (gmap string ControllerView) :=
  match ids with
  | [] => Some out
  | i :: ids' =>
      oo ← run machine "perccli64" ["/c" +:+ show i; "show"; "all"] TIMEOUT_STORAGE;
      if o_success oo
      then perc_loop ids'
             (<[show i := perc_view (show i) (from_utf8_lossy (o_stdout oo))]> out)
      else perc_loop ids' out
  end.

(** src/agent/src/modules/storage_controller.rs:281-328 (enumerate_perccli and
    enumerate_storcli). *)
Definition enumerate_perccli : option (gmap string ControllerView) :=
  match run machine "perccli64" ["show"; "ctrlcount"] TIMEOUT_STORAGE with
  | None => Some ∅
  | Some o =>
      if o_success o then
        let count := default 0
          (c ← captures (count_re re) (from_utf8_lossy (o_stdout o));
           parse_unsigned Int.u64_max (grp 1 c)) in
        perc_loop (seqZ 0 count) ∅
      else Some ∅
  end.
Definition enumerate_storcli : option (gmap string ControllerView) := enumerate_perccli.

(** src/agent/src/modules/storage_controller.rs:204-222 (enumerate). *)
Definition enumerate (vendor : VendorProfile) : gmap string ControllerView :=
  let out1 := if has_ssacli vendor then default ∅ enumerate_hpe else ∅ in
  let out2 := if has_perccli vendor then default ∅ enumerate_perccli ∪ out1 else out1 in
  if has_storcli vendor && bool_decide (out2 = ∅)
  then default ∅ enumerate_storcli ∪ out2 else out2.

End enumerate.

(** * The poll loop *)

(** src/agent/src/modules/storage_controller.rs:141-166 (the controller_lockup
    alert). *)
Definition lockup_builder (last : gmap string ControllerView) (slot : string) :
    AlertBuilder :=
  let prev := default ControllerView_default (last !! slot) in
  let disks := match v_attached_disks prev with
               | [] => "unknown"
               | l => join ", " l
               end in
  new_alert host cat.STORAGE_CONTROLLER "controller_lockup" Critical
  |> with_device ("slot=" +:+ slot)
  |> with_device_model (v_model prev)
  |> with_title "Storage controller no longer enumerable"
  |> with_message ("Controller in slot " +:+ slot +:+ " (" +:+ v_model prev
       +:+ ") disappeared from enumeration. Disks lost: " +:+ disks
       +:+ ". This typically means the controller is wedged. Disks will return only after a controller reset or power cycle.")
  |> raw_kv "slot" (VString slot)
  |> raw_kv "attached_disks" (VArray (map VString (v_attached_disks prev)))
  |> raw_kv "pci_bdf" (VString (v_pci_bdf prev)).

(** src/agent/src/modules/storage_controller.rs:176-193 (the controller_status
    alert). *)
Definition status_builder (slot : string) (ctrl : ControllerView) : AlertBuilder :=
  new_alert host cat.STORAGE_CONTROLLER "controller_status" Critical
  |> with_device ("slot=" +:+ slot)
  |> with_device_model (v_model ctrl)
  |> with_value (v_status ctrl)
  |> with_threshold "OK"
  |> with_title "Storage controller reporting unhealthy status"
  |> with_message ("Controller in slot " +:+ slot +:+ " (" +:+ v_model ctrl
       +:+ ") status = '" +:+ v_status ctrl
       +:+ "'. Inspect `ssacli ctrl all show config` (HPE) or `perccli64 /c0 show all` (Dell) for details.").

(** src/agent/src/modules/storage_controller.rs:174-174 (ok). *)
Definition status_ok (c : ControllerView) : bool :=
  eq_ignore_ascii_case (v_status c) "ok" || is_empty (v_status c).

(** src/agent/src/modules/storage_controller.rs:130-201 (the loop body of
    poll_loop). *)
Definition poll_view (view last : gmap string ControllerView) :
    gmap string ControllerView * list Action :=
  if decide (view = ∅) then (last, [])
  else
    (view,
     (map (fun slot => ActObserve (lockup_builder last slot)) (key_difference last view)
      ++ omap (fun kc : string * ControllerView =>
                 if status_ok kc.2 then None
                 else Some (ActObserve (status_builder kc.1 kc.2))) (hash_iter view))%list).

(** The state after a run of ticks. *)
Definition poll_views (views : list (gmap string ControllerView)) :
    gmap string ControllerView :=
  foldl (fun last view => fst (poll_view view last)) ∅ views.

(** The last enumeration that saw a controller. *)
Fixpoint last_seen_view (views : list (gmap string ControllerView)) :
    gmap string ControllerView :=
  match views with
  | [] => ∅
  | v :: vs => let later := last_seen_view vs in
               if decide (later = ∅) then v else later
  end.

Lemma last_seen_view_snoc views v :
  last_seen_view (views ++ [v])%list = if decide (v = ∅) then last_seen_view views else v.
Proof.
  induction views as [|u views IH]; simpl.
  - decide_all; congruence.
  - rewrite IH. destruct (decide (v = ∅)); [done|]. by destruct (decide (v = ∅)).
Qed.

Lemma poll_views_spec views : poll_views views = last_seen_view views.
Proof.
  induction views as [|v views IH] using rev_ind; [done|].
  unfold poll_views in *. rewrite foldl_app, last_seen_view_snoc. simpl.
  rewrite IH. unfold poll_view. by destruct (decide (v = ∅)).
Qed.

(** C38: a lost controller is reported, unless it was the last one.  After any run
    of enumerations, the next one that sees at least one controller reports a
    lockup for exactly the slots of the last enumeration that saw any which it no
    longer sees, each once, and a bad status for exactly the controllers whose
    status is neither empty nor OK in any case; an enumeration that sees no
    controller, as when the only one of the host disappears, reports nothing and
    changes nothing. *)
Theorem controller_loss_exact (views : list (gmap string ControllerView))
    (view : gmap string ControllerView) :
  let last := last_seen_view views in
  let r := poll_view view (poll_views views) in
  (view <> ∅ ->
     (exists lost bad,
        snd r = (map (fun s => ActObserve (lockup_builder last s)) lost
                 ++ map (fun sc => ActObserve (status_builder sc.1 sc.2)) bad)%list
        /\ NoDup lost /\ NoDup bad
        /\ (forall s, s ∈ lost <-> is_Some (last !! s) /\ view !! s = None)
        /\ (forall s c, (s, c) ∈ bad <-> view !! s = Some c /\ status_ok c = false)))
  /\ (view = ∅ -> r = (last, [])).
Proof.
  simpl. rewrite poll_views_spec. unfold poll_view.
  destruct (decide (view = ∅)) as [->|Hne]; split; try done.
  intros _. exists (key_difference (last_seen_view views) view),
    (filter (fun kc => status_ok kc.2 = false) (hash_iter view)).
  split_and!.
  - simpl. f_equal. induction (hash_iter view) as [|kc l IH]; [done|].
    rewrite filter_cons. simpl. destruct (status_ok kc.2); simpl; [done|]. by rewrite <- IH.
  - apply NoDup_key_difference.
  - apply NoDup_filter. rewrite hash_iter_perm. apply NoDup_map_to_list.
  - intros s. apply elem_of_key_difference.
  - intros s c. rewrite list_elem_of_filter, elem_of_hash_iter. simpl. tauto.
Qed.

End storage_controller.

Lemma controller_loss_exact_witness :
  let host := mkHostId "h" "hid" "10.0.0.1" in
  let p408 := mkView "0" "Smart Array P408i-a" "OK" "" [] in
  let e208 := mkView "3" "HPE E208e-p" "Failed" "" [] in
  snd (@poll_view CanonicalOrder host ∅ (@poll_views CanonicalOrder host [{["0" := p408]}])) = []
  /\ exists lost bad,
      snd (@poll_view CanonicalOrder host {["3" := e208]}
             (@poll_views CanonicalOrder host [{["0" := p408]}]))
      = (map (fun s => ActObserve (lockup_builder host {["0" := p408]} s)) lost
         ++ map (fun sc => ActObserve (status_builder host sc.1 sc.2)) bad)%list
      /\ "0" ∈ lost /\ ("3", e208) ∈ bad.
Proof.
  intros host p408 e208. split.
  - pose proof (proj2 (@controller_loss_exact CanonicalOrder host [{["0" := p408]}] ∅) eq_refl)
      as Hr. by rewrite Hr.
  - destruct (proj1 (@controller_loss_exact CanonicalOrder host [{["0" := p408]}]
                {["3" := e208]}) ltac:(by apply map_non_empty_singleton))
      as (lost & bad & Hr & _ & _ & Hl & Hb).
    exists lost, bad. split; [exact Hr|]. split.
    + apply Hl. split; [by eexists|]. by vm_compute.
    + apply Hb. split; [by apply lookup_singleton_eq|]. by vm_compute.
Defined.
