(* ===== verification/StorageIo.v ===== *)
(** Storage I/O (src/agent/src/modules/storage_io.rs): vanished block devices,
    I/O errors in the kernel log, Ceph OSD units leaving the active state, and the
    window of recent controller lockups. *)
From S2P Require Import Prelude Text Schema Tracker Channels Bus Runtime Host.
From S2P Require Import Command Regex Kmsg Windows.
From Stdlib Require Import Ascii.

Local Open Scope string_scope.
Local Open Scope Z_scope.

(** The last character's test [is_some_and(|c| !c.is_ascii_digit())]; a byte of a
    longer character is not a digit. *)
Definition last_not_digit (s : string) : bool :=
  match rev_string s with
  | EmptyString => false
  | String c _ => negb (is_digit c)
  end.

(** src/agent/src/modules/storage_io.rs:99-100 (the whole-disk test). *)
Definition is_whole_disk (name : string) : bool :=
  last_not_digit name || starts_with "nvme" name && negb (contains_byte "p"%char name).

(** src/agent/src/modules/storage_io.rs:91-107 (read_block_devices, on the text of
    /proc/partitions; [None] when it cannot be read). *)
Definition read_block_devices (text : option string) : gmap string () :=
  match text with
  | None => ∅
  | Some t =>
      foldl (fun out line =>
        let cols := split_whitespace line in
        match cols !! 3%nat with
        | Some name => if is_whole_disk name then <[name := ()]> out else out
        | None => out
        end) ∅ (drop 2 (lines t))
  end.

(** src/agent/src/modules/storage_io.rs:115-117 (the pattern of kmsg_loop). *)
Definition io_pat : string :=
  "(?i)(Buffer I/O error|rejecting I/O to offline device|EXT4-fs error|XFS.*Internal error|blk_update_request: I/O error|FAILED Result: hostbyte)".

Section storage_io.
Context `{RegexEngine} `{HashOrder}.
Context (host : HostId).

(** * Block devices *)

(** src/agent/src/modules/storage_io.rs:70-82 (the disk_lost alert). *)
Definition disk_lost_builder (gone : string) : AlertBuilder :=
  new_alert host cat.STORAGE_IO "disk_lost" Critical
  |> with_device ("/dev/" +:+ gone)
  |> with_title "Block device disappeared"
  |> with_message ("Block device /dev/" +:+ gone
       +:+ " is no longer enumerable. If many disks vanished simultaneously, look for a `controller_lockup` alert.").

(** src/agent/src/modules/storage_io.rs:60-88 (the loop body of
    block_device_loop). *)
Definition block_tick (now last : gmap string ()) : gmap string () * list Action :=
  if decide (last = ∅) then (now, [])
  else (now, map (fun gone => ActObserve (disk_lost_builder gone)) (key_difference last now)).

(** * Kernel lines *)

(** src/agent/src/modules/storage_io.rs:121-135 (what a kernel line gives). *)
Definition io_line (io_re : Regex) (t : string) : list Action :=
  if is_match io_re t then
    [ActObserve
      (new_alert host cat.STORAGE_IO "fs_io_error" Critical
       |> with_title "Storage I/O error"
       |> with_message ("Kernel reported a storage I/O error: " +:+ dq +:+ t +:+ dq)
       |> raw_kv "kmsg" (VString t))]
  else [].

(** src/agent/src/modules/storage_io.rs:109-143 (kmsg_loop); [None] ends it. *)
Definition io_step (io_re : Regex) (r : BRecv KmsgLine) : option (list Action) :=
  match r with
  | BOk line => Some (io_line io_re (k_text line))
  | BLagged _ => Some []
  | BClosed => None
  end.

(** * Ceph OSDs *)

(** src/agent/src/modules/storage_io.rs:195-211 (the ceph_osd_down alert). *)
Definition osd_builder (name active : string) : AlertBuilder :=
  new_alert host cat.STORAGE_IO "ceph_osd_down" Critical
  |> with_device name |> with_value active |> with_threshold "active"
  |> with_title "Ceph OSD transitioned out of active"
  |> with_message (name +:+ " went from active → " +:+ active
       +:+ ". Check `journalctl -u " +:+ name
       +:+ "` for the cause; if a `controller_lockup` alert fired in the last 30s the lost disks are the root cause.").

(** src/agent/src/modules/storage_io.rs:187-217 (one unit of ceph_osd_watch): its
    name and active state. *)
Definition osd_unit (last_active : gmap string string) (u : string * string) :
    gmap string string * list Action :=
  let (name, active) := u in
  if negb (starts_with "ceph-osd@" name) then (last_active, [])
  else
    (<[name := active]> last_active,
     match last_active !! name with
     | Some old =>
         if bool_decide (old = "active") && bool_decide (active <> "active")
         then [ActObserve (osd_builder name active)] else []
     | None => []
     end).

(** src/agent/src/modules/storage_io.rs:178-218 (one tick of ceph_osd_watch);
    [None] is a failed list_units. *)
Definition osd_tick (units : option (list (string * string)))
    (last_active : gmap string string) : gmap string string * list Action :=
  match units with
  | None => (last_active, [])
  | Some us => fold_actions osd_unit us last_active
  end.

(** * Correlation *)

Definition corr_width : Duration := from_secs 30.

(** src/agent/src/modules/storage_io.rs:236-248 (an alert seen by
    correlation_loop, which only keeps its window). *)
Definition correlate_step (now : Instant) (a : Alert) (w : list (Instant * string)) :
    list (Instant * string) :=
  let w' := drop_while (stale fst corr_width now) w in
  if bool_decide (al_category a = cat.STORAGE_CONTROLLER)
     && bool_decide (al_metric a = "controller_lockup")
  then (w' ++ [(now, al_fingerprint a)])%list else w'.

Definition is_lockup (a : Alert) : Prop :=
  al_category a = cat.STORAGE_CONTROLLER /\ al_metric a = "controller_lockup".
#[export] Instance is_lockup_dec a : base.Decision (is_lockup a) := _.

(** The lockups of a run of alerts. *)
Definition lockups (l : list (Instant * Alert)) : list (Instant * string) :=
  omap (fun na => if decide (is_lockup na.2) then Some (na.1, al_fingerprint na.2) else None) l.

Lemma correlate_exact t now a l w :
  t <= now -> window_of fst corr_width t (lockups l) w ->
  window_of fst corr_width now (lockups (l ++ [(now, a)])%list) (correlate_step now a w).
Proof.
  intros Ht Hw. apply (prune_window_exact _ _ t now) in Hw; [|done].
  unfold lockups in *. rewrite omap_app. unfold correlate_step. simpl.
  destruct (decide (is_lockup a)) as [[Hc Hm]|Hn].
  - rewrite (bool_decide_eq_true_2 _ Hc), (bool_decide_eq_true_2 _ Hm). simpl.
    apply snoc_window_exact; done.
  - rewrite app_nil_r. destruct (_ && _) eqn:E; [|done].
    exfalso. apply Hn. apply andb_true_iff in E as [Hc Hm].
    split; by eapply bool_decide_eq_true_1.
Qed.

(** * What the watchers report *)

Definition block_run (samples : list (gmap string ())) : gmap string () :=
  foldl (fun l s => fst (block_tick s l)) ∅ samples.

Lemma block_run_last samples s : block_run (samples ++ [s])%list = s.
Proof.
  unfold block_run. rewrite foldl_app. simpl. unfold block_tick. by case_decide.
Qed.

(** A sample reports the disks of the sample before it that it no longer lists. *)
Lemma disk_lost_exact samples prev now name :
  ActObserve (disk_lost_builder name) ∈ snd (block_tick now (block_run (samples ++ [prev])%list))
  <-> is_Some (prev !! name) /\ now !! name = None.
Proof.
  rewrite block_run_last. unfold block_tick. destruct (decide (prev = ∅)) as [->|Hne]; simpl.
  - split; [by intros ?%elem_of_nil|]. intros [[? Hp] _]. by rewrite lookup_empty in Hp.
  - rewrite list_elem_of_fmap. split.
    + intros (g & [= Hg] & Hin). apply elem_of_key_difference. by rewrite Hg.
    + intros Hin. exists name. split; [done|]. by apply elem_of_key_difference.
Qed.

(** The state of a unit in the last listing that has it. *)
Definition last_state (us : list (string * string)) (name : string) : option string :=
  foldl (fun acc u => if decide (u.1 = name) then Some u.2 else acc) None us.

Definition listed (ticks : list (option (list (string * string)))) : list (string * string) :=
  concat (omap id ticks).

Lemma last_state_snoc us u name :
  last_state (us ++ [u])%list name
  = if decide (u.1 = name) then Some u.2 else last_state us name.
Proof. unfold last_state. by rewrite foldl_app. Qed.

Definition osd_state_of (us : list (string * string)) (m : gmap string string) : Prop :=
  forall name, starts_with "ceph-osd@" name = true -> m !! name = last_state us name.

Lemma osd_unit_state us m u :
  osd_state_of us m -> osd_state_of (us ++ [u])%list (fst (osd_unit m u)).
Proof.
  intros Hm name Hn. rewrite last_state_snoc. destruct u as [n st]. simpl.
  destruct (starts_with "ceph-osd@" n) eqn:E; simpl.
  - case_decide as Hd; [subst; by rewrite lookup_insert_eq|].
    rewrite lookup_insert_ne by done. by apply Hm.
  - case_decide; [congruence|]. by apply Hm.
Qed.

Lemma osd_fold_state us m seen :
  osd_state_of seen m -> osd_state_of (seen ++ us)%list (fst (fold_actions osd_unit us m)).
Proof.
  intros Hm. induction us as [|u us IH] using rev_ind; [by rewrite app_nil_r|].
  rewrite fold_actions_snoc, app_assoc. by apply osd_unit_state.
Qed.

Definition osd_run (ticks : list (option (list (string * string)))) : gmap string string :=
  foldl (fun m u => fst (osd_tick u m)) ∅ ticks.

Lemma osd_run_state ticks : osd_state_of (listed ticks) (osd_run ticks).
Proof.
  induction ticks as [|u ticks IH] using rev_ind; [by intros name _|].
  unfold osd_run, listed in *. rewrite foldl_app, omap_app, concat_app. simpl.
  destruct u as [us|]; simpl; rewrite ?app_nil_r; [|done]. by apply osd_fold_state.
Qed.

(** One unit is reported exactly when it leaves the active state. *)
Lemma osd_unit_reports m u name state :
  ActObserve (osd_builder name state) ∈ snd (osd_unit m u)
  <-> u = (name, state) /\ starts_with "ceph-osd@" name = true /\ state <> "active"
      /\ m !! name = Some "active".
Proof.
  destruct u as [n st]. unfold osd_unit. split.
  - destruct (starts_with "ceph-osd@" n) eqn:E; simpl; [|set_solver].
    destruct (m !! n) as [old|] eqn:El; [|set_solver].
    destruct (_ && _) eqn:Eb; [|set_solver].
    apply andb_true_iff in Eb as [Ho%bool_decide_eq_true_1 Ha%bool_decide_eq_true_1].
    intros Hin%list_elem_of_singleton. injection Hin as [= -> -> _]. by subst old.
  - intros ([= -> ->] & Hn & Hs & Hl). rewrite Hn. simpl. rewrite Hl.
    rewrite !bool_decide_eq_true_2 by done. simpl. by apply list_elem_of_singleton.
Qed.

(** An OSD alert is a transition out of active.  Over any run of unit
    listings, failed ones included, a listing reports ceph_osd_down for a unit
    exactly when it is an OSD unit, the listing shows it in a state other than
    active, and the previous mention of that unit, in this listing or an earlier
    one, showed it active; a unit first seen inactive, or still inactive, is not
    reported. *)
Theorem ceph_osd_down_exact (ticks : list (option (list (string * string))))
    (us : list (string * string)) (name state : string) :
  ActObserve (osd_builder name state) ∈ snd (osd_tick (Some us) (osd_run ticks))
  <-> starts_with "ceph-osd@" name = true /\ state <> "active"
      /\ exists us1 us2, us = (us1 ++ (name, state) :: us2)%list
         /\ last_state (listed ticks ++ us1)%list name = Some "active".
Proof.
  cbn [osd_tick]. rewrite elem_of_fold_actions.
  pose proof (fun us1 => osd_fold_state us1 _ _ (osd_run_state ticks)) as Hst.
  split.
  - intros (us1 & u & us2 & -> & Hin).
    apply osd_unit_reports in Hin as (-> & Hn & Hs & Hl).
    rewrite (Hst us1 name Hn) in Hl. split_and!; [done|done|]. by exists us1, us2.
  - intros (Hn & Hs & us1 & us2 & -> & Hl). exists us1, (name, state), us2.
    split; [done|]. apply osd_unit_reports. split_and!; [done..|].
    by rewrite (Hst us1 name Hn).
Qed.

End storage_io.
