(* ===== verification/MemoryEcc.v ===== *)
(** Memory ECC counters (src/agent/src/modules/memory_ecc.rs): the sensors of
    ipmitool, the EDAC counters of sysfs, and the alerts on their increments.

    The text of ipmitool and the files of sysfs are inputs.  The sensors of one
    listing pass through two hash maps, whose order is [HashOrder]. *)
From S2P Require Import Prelude Text Utf8 Schema Tracker Channels Bus Runtime Host.
From S2P Require Import Command Config Float.
From Stdlib Require Import Ascii.

Local Open Scope string_scope.
Local Open Scope Z_scope.

(** * Parsing *)

Fixpoint drop_h (s : string) : string :=
  match s with
  | String c s' => if (byte_val c =? 104)%Z then drop_h s' else s
  | EmptyString => EmptyString
  end.
(** [trim_end_matches('h')]. *)
Definition trim_end_h (s : string) : string := rev_string (drop_h (rev_string s)).

(** src/agent/src/modules/memory_ecc.rs:227-237 (value). *)
Definition sdr_value (s : string) : Z :=
  match parse_unsigned Int.u64_max s with
  | Some v => v
  | None =>
      match parse_unsigned Int.u64_max (trim_end_h s) with
      | Some v => v
      | None => default 0 (u64_from_hex (trim_start_0x s))
      end
  end.

(** The three accumulators of parse_ipmi_sdr_output. *)
Record SdrScan : Type := mkSdr {
  sdr_ce : gmap string Z;
  sdr_ue : gmap string Z;
  sdr_standalone : list (string * Z * Z)
}.

(** src/agent/src/modules/memory_ecc.rs:215-256 (the line loop of
    parse_ipmi_sdr_output). *)
Definition sdr_line (s : SdrScan) (raw : string) : SdrScan :=
  let line := trim raw in
  if is_empty line || starts_with "#" line then s
  else
    match map trim (splitn 5 "|"%char line) with
    | name :: value_str :: status0 :: _ =>
        let status := to_lowercase status0 in
        let value := sdr_value value_str in
        if contains "ns" status || contains "na" status || contains "disabled" status then s
        else
          let n := to_lowercase name in
          if contains "ue" n || contains "uncorrect" n
          then mkSdr (sdr_ce s) (<[name := value]> (sdr_ue s)) (sdr_standalone s)
          else if contains "ce" n || contains "correct" n
          then mkSdr (<[name := value]> (sdr_ce s)) (sdr_ue s) (sdr_standalone s)
          else if contains "ecc" n || contains "error" n
          then if 0 <? value
               then mkSdr (sdr_ce s) (sdr_ue s) (sdr_standalone s ++ [(name, value, 0)])%list
               else s
          else s
    | _ => s
    end.

(** src/agent/src/modules/memory_ecc.rs:263-267 (the prefix of a CE sensor). *)
Definition ce_prefix (name : string) : string :=
  trim (replace "_correctable" "" (replace " correctable" ""
    (replace "ce_count" "" (replace "ce count" "" (to_lowercase name))))).
(** src/agent/src/modules/memory_ecc.rs:276-280 (the prefix of a UE sensor). *)
Definition ue_prefix (name : string) : string :=
  trim (replace "_uncorrectable" "" (replace " uncorrectable" ""
    (replace "ue_count" "" (replace "ue count" "" (to_lowercase name))))).

Section parse.
Context `{HashOrder}.

(** src/agent/src/modules/memory_ecc.rs:268-271 (the UE value a CE sensor is paired
    with): the first in iteration order whose name has the prefix. *)
Definition paired_ue (ue : gmap string Z) (ce_name : string) : Z :=
  match List.find (fun kv : string * Z => contains (ce_prefix ce_name) (to_lowercase kv.1))
          (hash_iter ue) with
  | Some kv => kv.2
  | None => 0
  end.

(** src/agent/src/modules/memory_ecc.rs:203-289 (parse_ipmi_sdr_output): name,
    corrected count, uncorrected count. *)
Definition parse_ipmi_sdr_output (text : string) : list (string * Z * Z) :=
  let s := foldl sdr_line (mkSdr ∅ ∅ []) (lines text) in
  (sdr_standalone s
   ++ map (fun kv : string * Z => (kv.1, kv.2, paired_ue (sdr_ue s) kv.1)) (hash_iter (sdr_ce s))
   ++ omap (fun kv : string * Z =>
        if existsb (fun k => contains (ue_prefix kv.1) (to_lowercase k))
             (map fst (hash_iter (sdr_ce s)))
        then None else Some (kv.1, 0, kv.2)) (hash_iter (sdr_ue s)))%list.

(** src/agent/src/modules/memory_ecc.rs:179-201 (read_ipmi_sdr_memory); [None] when
    ipmitool cannot be started. *)
Definition read_ipmi_sdr_memory (out : option Output) : list (string * Z * Z) :=
  match out with
  | Some o => if o_success o then parse_ipmi_sdr_output (from_utf8_lossy (o_stdout o)) else []
  | None => []
  end.

End parse.

(** * Alerts on increments *)

Section alerts.
Context (host : HostId) (cfg : MemoryEccCfg).

(** [cfg.poll_s.max(1) as f64]. *)
Definition poll_f64 : f64 := f64_of_Z (Z.max (ecc_poll_s cfg) 1).

(** src/agent/src/modules/memory_ecc.rs:125-140 (the uncorrectable_ecc_ipmi
    alert). *)
Definition ue_ipmi_builder (name : string) (new_ue : Z) : AlertBuilder :=
  new_alert host cat.MEMORY_ECC "uncorrectable_ecc_ipmi" Critical
  |> with_device name |> with_value (show new_ue) |> with_threshold "0"
  |> with_title "Memory uncorrectable ECC error (IPMI)"
  |> with_message ("BMC sensor '" +:+ name +:+ "' reports " +:+ show new_ue
       +:+ " new uncorrectable ECC error(s). This typically causes a host reboot or panic. Identify and replace the affected DIMM. Check iLO/iDRAC IML/SEL for DIMM slot details.").

(** src/agent/src/modules/memory_ecc.rs:146-150 (the rate test of the IPMI loop). *)
Definition ce_rate_exceeded (new_ce : Z) : bool :=
  let rate_per_hr := f64_div (f64_of_Z new_ce) (f64_div poll_f64 (f64_of_Z 3600)) in
  (Z.max (ce_per_hour_warn cfg / 12) 1 <=? new_ce)
  || (ce_per_hour_warn cfg <=? f64_to_u64 rate_per_hr).

(** src/agent/src/modules/memory_ecc.rs:151-166 (the ce_rate_high_ipmi alert). *)
Definition ce_ipmi_builder (name : string) (new_ce : Z) : AlertBuilder :=
  new_alert host cat.MEMORY_ECC "ce_rate_high_ipmi" Warning
  |> with_device name |> with_value (show new_ce +:+ " new")
  |> with_threshold (show (ce_per_hour_warn cfg) +:+ "/hr threshold")
  |> with_title "Correctable ECC rate elevated (IPMI)"
  |> with_message ("BMC sensor '" +:+ name +:+ "' logged " +:+ show new_ce
       +:+ " new correctable ECC error(s) in the last " +:+ show (ecc_poll_s cfg)
       +:+ " seconds. Elevated CE rate is a leading indicator of a failing DIMM. Monitor and plan replacement during next maintenance window.").

(** src/agent/src/modules/memory_ecc.rs:119-171 (one sensor of the IPMI loop). *)
Definition ipmi_sensor (prev_counts : gmap string (Z * Z)) (x : string * Z * Z) :
    gmap string (Z * Z) * list Action :=
  let '(name, ce, ue) := x in
  let prev := default (ce, ue) (prev_counts !! name) in
  let new_ce := Int.saturating_sub ce (fst prev) in
  let new_ue := Int.saturating_sub ue (snd prev) in
  (<[name := (ce, ue)]> prev_counts,
   ((if 0 <? new_ue then [ActObserve (ue_ipmi_builder name new_ue)] else [])
    ++ (if (0 <? new_ce) && ce_rate_exceeded new_ce
        then [ActObserve (ce_ipmi_builder name new_ce)] else []))%list).

(** src/agent/src/modules/memory_ecc.rs:115-176 (one tick of ipmi_sdr_poll_loop). *)
Definition ipmi_tick : list (string * Z * Z) -> gmap string (Z * Z) ->
    gmap string (Z * Z) * list Action := fold_actions ipmi_sensor.

(** src/agent/src/modules/memory_ecc.rs:352-366 (read_edac_sysfs), on the entries
    of the directory with the texts of their two counters. *)
Definition read_edac_sysfs (entries : list (string * option string * option string)) :
    list (string * Z * Z) :=
  let num (o : option string) :=
    default 0 (s ← o; parse_unsigned Int.u64_max (trim s)) in
  omap (fun e : string * option string * option string =>
    let '(n, ce, ue) := e in
    if starts_with "mc" n then Some (n, num ce, num ue) else None) entries.

(** src/agent/src/modules/memory_ecc.rs:306-348 (one controller of
    edac_poll_loop). *)
Definition edac_controller (last : gmap string (Z * Z)) (x : string * Z * Z) :
    gmap string (Z * Z) * list Action :=
  let '(mc, ce, ue) := x in
  let prev := default (ce, ue) (last !! mc) in
  let dce := Int.saturating_sub ce (fst prev) in
  let due := Int.saturating_sub ue (snd prev) in
  let per_hour := f64_mul (f64_div (f64_of_Z dce) poll_f64) (f64_of_Z 3600) in
  (<[mc := (ce, ue)]> last,
   ((if 0 <? due then
       [ActObserve
         (new_alert host cat.MEMORY_ECC "uncorrectable_ecc" Critical
          |> with_device mc |> with_value (show due) |> with_threshold "0"
          |> with_title "Memory uncorrectable ECC error (EDAC)"
          |> with_message ("EDAC reports " +:+ show due
               +:+ " new uncorrectable ECC error(s) on " +:+ mc
               +:+ ". This usually causes the host to reboot. Replace the affected DIMM."))]
     else [])
    ++ (if (0 <? dce) && (ce_per_hour_warn cfg <=? f64_to_u64 per_hour) then
          [ActObserve
            (new_alert host cat.MEMORY_ECC "ce_rate_high" Warning
             |> with_device mc |> with_value (show_fixed 0 per_hour +:+ "/hr")
             |> with_threshold (show (ce_per_hour_warn cfg) +:+ "/hr")
             |> with_title "Correctable ECC rate elevated (EDAC)"
             |> with_message (mc +:+ " is logging correctable ECC at ~" +:+ show_fixed 0 per_hour
                  +:+ "/hr — a leading indicator that this DIMM is failing."))]
        else []))%list).

(** src/agent/src/modules/memory_ecc.rs:304-349 (one tick of edac_poll_loop). *)
Definition edac_tick : list (string * Z * Z) -> gmap string (Z * Z) ->
    gmap string (Z * Z) * list Action := fold_actions edac_controller.

(** * What the loops report *)

(** The last counters a run of listings gave for a name. *)
Definition last_counts (xs : list (string * Z * Z)) (name : string) : option (Z * Z) :=
  foldl (fun acc x => if decide (x.1.1 = name) then Some (x.1.2, x.2) else acc) None xs.

Definition ipmi_run (ticks : list (list (string * Z * Z))) : gmap string (Z * Z) :=
  foldl (fun prev t => fst (ipmi_tick t prev)) ∅ ticks.

Lemma last_counts_snoc xs x name :
  last_counts (xs ++ [x])%list name
  = if decide (x.1.1 = name) then Some (x.1.2, x.2) else last_counts xs name.
Proof. unfold last_counts. by rewrite foldl_app. Qed.

(** The state of a tick, from the counters seen before. *)
Lemma ipmi_tick_state sensors seen prev :
  (forall n, prev !! n = last_counts seen n) ->
  forall n, fst (ipmi_tick sensors prev) !! n = last_counts (seen ++ sensors)%list n.
Proof.
  intros Hp. unfold ipmi_tick.
  induction sensors as [|[[name ce] ue] sensors IH] using rev_ind; intros n.
  - by rewrite app_nil_r.
  - rewrite fold_actions_snoc, app_assoc, last_counts_snoc. simpl. case_decide.
    + subst. by rewrite lookup_insert_eq.
    + by rewrite lookup_insert_ne.
Qed.

Lemma ipmi_run_state ticks n : ipmi_run ticks !! n = last_counts (concat ticks) n.
Proof.
  revert n. induction ticks as [|t ticks IH] using rev_ind; intros n; [done|].
  unfold ipmi_run in *. rewrite foldl_app, concat_app. simpl. rewrite app_nil_r.
  by apply ipmi_tick_state.
Qed.

(** What one sensor reports. *)
Lemma ipmi_sensor_reports prev x act :
  act ∈ snd (ipmi_sensor prev x)
  <-> exists ce0 ue0, prev !! x.1.1 = Some (ce0, ue0)
      /\ (ue0 < x.2 /\ act = ActObserve (ue_ipmi_builder x.1.1 (x.2 - ue0))
          \/ ce0 < x.1.2 /\ ce_rate_exceeded (x.1.2 - ce0) = true
             /\ act = ActObserve (ce_ipmi_builder x.1.1 (x.1.2 - ce0))).
Proof.
  destruct x as [[name ce] ue]. unfold ipmi_sensor, Int.saturating_sub. cbn [fst snd].
  destruct (prev !! name) as [[ce0 ue0]|]; simpl.
  - rewrite elem_of_app. split.
    + intros Hin. exists ce0, ue0. split; [done|]. destruct Hin as [Hin|Hin].
      * left. case_match eqn:E; [|set_solver]. zbool.
        apply list_elem_of_singleton in Hin. rewrite Z.max_r in Hin by lia. split; [lia|done].
      * right. case_match eqn:E; [|set_solver]. apply andb_true_iff in E as [E1 E2]. zbool.
        apply list_elem_of_singleton in Hin. rewrite Z.max_r in Hin, E2 by lia.
        split_and!; [lia|done|done].
    + intros (? & ? & [= <- <-] & [(Hlt & ->)|(Hlt & Hr & ->)]).
      * left. rewrite Z.max_r by lia. rewrite (proj2 (Z.ltb_lt _ _)) by lia.
        by apply list_elem_of_singleton.
      * right. rewrite Z.max_r by lia. rewrite (proj2 (Z.ltb_lt _ _)), Hr by lia.
        by apply list_elem_of_singleton.
  - rewrite !Z.sub_diag. simpl. split; [by intros ?%elem_of_nil|]. by intros (? & ? & ? & _).
Qed.

(** The ECC alerts.  After any run of listings, a new listing reports an
    uncorrectable error for a sensor exactly when the count it shows is greater
    than the last count shown for that sensor, in this listing or an earlier one,
    with the increment as the value; a corrected-error rate likewise, when the
    increment also passes the rate test; a sensor seen for the first time is only
    a baseline, whatever it shows. *)
Theorem ecc_increments_exact (ticks : list (list (string * Z * Z)))
    (sensors : list (string * Z * Z)) (act : Action) :
  act ∈ snd (ipmi_tick sensors (ipmi_run ticks))
  <-> exists before name ce ue after ce0 ue0,
        sensors = (before ++ (name, ce, ue) :: after)%list
        /\ last_counts (concat ticks ++ before)%list name = Some (ce0, ue0)
        /\ (ue0 < ue /\ act = ActObserve (ue_ipmi_builder name (ue - ue0))
            \/ ce0 < ce /\ ce_rate_exceeded (ce - ce0) = true
               /\ act = ActObserve (ce_ipmi_builder name (ce - ce0))).
Proof.
  unfold ipmi_tick. rewrite elem_of_fold_actions.
  pose proof (fun before => ipmi_tick_state before _ _ (ipmi_run_state ticks)) as Hst.
  split.
  - intros (before & [[name ce] ue] & after & -> & Hin).
    apply ipmi_sensor_reports in Hin as (ce0 & ue0 & Hp & Hcase). rewrite Hst in Hp.
    by exists before, name, ce, ue, after, ce0, ue0.
  - intros (before & name & ce & ue & after & ce0 & ue0 & -> & Hp & Hcase).
    exists before, (name, ce, ue), after. split; [done|].
    apply ipmi_sensor_reports. exists ce0, ue0. split; [by rewrite Hst|done].
Qed.

End alerts.

(** With the default configuration the rate test always passes: one corrected
    error is an "elevated rate".  The rate divides by the configured five seconds
    while the loop ticks every thirty. *)
Lemma ce_rate_default n : 0 < n -> ce_rate_exceeded MemoryEccCfg_default n = true.
Proof.
  intros Hn. destruct (decide (n < 4)).
  - assert (n = 1 \/ n = 2 \/ n = 3) as [-> | [-> | ->]] by lia; vm_compute; reflexivity.
  - unfold ce_rate_exceeded. apply orb_true_iff. left.
    change (Z.max (ce_per_hour_warn MemoryEccCfg_default / 12) 1) with 4. apply Z.leb_le. lia.
Qed.

(** * The order of the sensors *)

(** The order that starts with the key [k]. *)
Definition FrontOrder (k : string) : HashOrder.
Proof.
  refine {| hash_iter A m := match m !! k with
                             | Some x => (k, x) :: map_to_list (delete k m)
                             | None => map_to_list m
                             end |}.
  intros A m. destruct (m !! k) as [x|] eqn:E; [|done]. by apply map_to_list_delete.
Defined.

Lemma paired_ue_some `{HashOrder} ue c v :
  paired_ue ue c = v ->
  (exists u, ue !! u = Some v /\ contains (ce_prefix c) (to_lowercase u) = true)
  \/ v = 0 /\ forall u v', ue !! u = Some v' ->
                 contains (ce_prefix c) (to_lowercase u) = false.
Proof.
  unfold paired_ue. destruct (List.find _ _) as [[u w]|] eqn:E; intros <-.
  - left. apply find_some in E as [Hin Hc]. exists u. split; [|done].
    by apply elem_of_hash_iter, list_elem_of_In.
  - right. split; [done|]. intros u v' Hu.
    apply (find_none _ _ E (u, v')). by apply list_elem_of_In, elem_of_hash_iter.
Qed.

Lemma paired_ue_front ue c u v :
  ue !! u = Some v -> contains (ce_prefix c) (to_lowercase u) = true ->
  @paired_ue (FrontOrder u) ue c = v.
Proof.
  intros Hu Hc. unfold paired_ue. simpl. rewrite Hu. simpl. by rewrite Hc.
Qed.

(** A listing with two DIMMs whose names share a prefix; nothing in it changes. *)
Definition two_dimms : string :=
  "DIMM_A1 CE Count  | 0 | ok | 12.3 | 0" +:+ nl +:+
  "DIMM_A1 UE Count  | 0 | ok | 12.3 | 0" +:+ nl +:+
  "DIMM_A10 UE Count | 3 | ok | 12.4 | 3" +:+ nl.

(** Pairing depends on the iteration order.  A corrected-error sensor is given
    the count of any uncorrected-error sensor whose name contains its prefix, the
    choice being the iteration order of a hash map, which changes from poll to
    poll; only when all of them agree, or there is none, is the result determined.
    So two polls of one unchanged listing can report new uncorrectable errors,
    which is a critical alert. *)
Theorem ecc_pairing_order_dependent :
  (forall ue c v,
     (exists o : HashOrder, @paired_ue o ue c = v)
     <-> (exists u, ue !! u = Some v /\ contains (ce_prefix c) (to_lowercase u) = true)
         \/ v = 0 /\ forall u v', ue !! u = Some v' ->
                        contains (ce_prefix c) (to_lowercase u) = false)
  /\ (exists o1 o2 : HashOrder, forall host cfg,
        snd (ipmi_tick host cfg (@parse_ipmi_sdr_output o2 two_dimms)
               (fst (ipmi_tick host cfg (@parse_ipmi_sdr_output o1 two_dimms) ∅)))
        = [ActObserve (ue_ipmi_builder host "DIMM_A1 CE Count" 3)]).
Proof.
  split.
  - intros ue c v. split.
    + intros (o & Hv). by eapply paired_ue_some.
    + intros [(u & Hu & Hc)|[-> Hn]].
      * exists (FrontOrder u). by apply paired_ue_front.
      * exists CanonicalOrder. unfold paired_ue.
        destruct (List.find _ _) as [[u w]|] eqn:E; [|done].
        apply find_some in E as [Hin Hc]. apply list_elem_of_In, elem_of_hash_iter in Hin.
        simpl in Hc. by rewrite (Hn _ _ Hin) in Hc.
  - exists (FrontOrder "DIMM_A1 UE Count"), (FrontOrder "DIMM_A10 UE Count").
    intros host cfg.
    assert (H1 : @parse_ipmi_sdr_output (FrontOrder "DIMM_A1 UE Count") two_dimms
      = [("DIMM_A1 CE Count", 0, 0); ("DIMM_A10 UE Count", 0, 3)]) by (vm_compute; reflexivity).
    assert (H2 : @parse_ipmi_sdr_output (FrontOrder "DIMM_A10 UE Count") two_dimms
      = [("DIMM_A1 CE Count", 0, 3); ("DIMM_A10 UE Count", 0, 3)]) by (vm_compute; reflexivity).
    rewrite H1, H2. reflexivity.
Qed.
