(* ===== verification/Thermal.v ===== *)
(** Thermal monitoring (src/agent/src/modules/thermal.rs): throttle counters, the
    choice of the inlet sensor, and the tiered inlet alerts with their rate of
    rise.

    sysfs and the output of ipmitool are inputs. *)
From S2P Require Import Prelude Text Utf8 Schema Tracker Channels Bus Runtime Host.
From S2P Require Import Command Regex Config Float.
From Stdlib Require Import SpecFloat Ascii.

Local Open Scope string_scope.
Local Open Scope Z_scope.

(** src/agent/src/modules/thermal.rs:182-192 (TEMP_DEG_RE, RE_DIG_INLET_PREFIX,
    RE_PSU_INLET). *)
Definition temp_deg_pat : string := "(?i)(\d+(?:\.\d+)?)\s*degrees?\s*c\b".
Definition dig_inlet_pat : string := "(?i)^\s*\d+-inlet\b".
Definition psu_inlet_pat : string := "(?i)p\s*/\s*s|power\s+supply|\bpsu\b".

(** A row of the sensor listing: priority, PSU flag, temperature. *)
Definition Row : Type := Z * bool * f32.

(** [sort_by_key(|r| Reverse(r.0))]: a stable sort, highest priority first. *)
Fixpoint insert_row (r : Row) (l : list Row) : list Row :=
  match l with
  | [] => [r]
  | x :: l' => if (x.1.1 <? r.1.1)%Z then r :: x :: l' else x :: insert_row r l'
  end.
Definition sort_rows (rows : list Row) : list Row := foldl (fun l r => insert_row r l) [] rows.

(** src/agent/src/modules/thermal.rs:258-271 (the loop over the sorted rows). *)
Fixpoint pick_row (has_true_ambient : bool) (first : option f32) (rows : list Row) :
    option f32 :=
  match rows with
  | [] => first
  | (prio, psu_fallback, t) :: rows' =>
      if 850 <=? prio then Some t
      else if has_true_ambient && psu_fallback then pick_row has_true_ambient first rows'
      else if 300 <=? prio then Some t
      else pick_row has_true_ambient first rows'
  end.

(** src/agent/src/modules/thermal.rs:255-271 (the choice of read_inlet_temp). *)
Definition choose_inlet (rows0 : list Row) : option f32 :=
  let rows := sort_rows rows0 in
  pick_row (existsb (fun r => 850 <=? r.1.1) rows) (snd <$> head rows) rows.

Section thermal.
Context `{RegexEngine} (captures_iter : Regex -> string -> list (list (option string))).
Context (host : HostId) (cfg : ThermalCfg).

Record ThermalRes : Type := mkThermalRes {
  temp_deg : Regex; dig_inlet : Regex; psu_inlet : Regex
}.
(** The [expect]s of the lazy patterns: [None] is a panic. *)
Definition thermal_compile : option ThermalRes :=
  a ← re_new temp_deg_pat; b ← re_new dig_inlet_pat; c ← re_new psu_inlet_pat;
  Some (mkThermalRes a b c).
Context (re : ThermalRes).

(** src/agent/src/modules/thermal.rs:194-200 (parse_degrees_columns). *)
Definition parse_degrees_columns (line : string) : list f32 :=
  List.filter (fun t => f32_leb (f32_of_Z (-5)) t && f32_ltb t (f32_of_Z 125))
    (omap (fun c => parse_f32 (grp 1 c)) (captures_iter (temp_deg re) line)).

(** src/agent/src/modules/thermal.rs:229-231 (is_psu_inlet_like). *)
Definition is_psu_inlet_like (n : string) : bool := is_match (psu_inlet re) n.

(** src/agent/src/modules/thermal.rs:204-227 (inlet_sensor_priority). *)
Definition inlet_sensor_priority (name : string) : option (Z * bool) :=
  let n := trim (to_lowercase name) in
  if contains "ambient" n || contains "ambient temp" n || contains "ambient temperature" n
  then Some (1000, false)
  else if contains "room" n || contains "air inlet" n then Some (900, false)
  else if (contains "inlet temp" n || contains "-inlet" n || is_match (dig_inlet re) n)
          && negb (is_psu_inlet_like n)
  then Some (850, false)
  else if contains "inlet" n && is_psu_inlet_like n then Some (100, true)
  else if contains "inlet" n then Some (300, false)
  else None.

(** src/agent/src/modules/thermal.rs:241-253 (one line of the listing). *)
Definition inlet_row (raw : string) : option Row :=
  let line := trim raw in
  sensor_name ← trim <$> head (split "|"%char line);
  pf ← inlet_sensor_priority (to_lowercase sensor_name);
  t ← last (parse_degrees_columns line);
  Some (pf.1, pf.2, t).

(** src/agent/src/modules/thermal.rs:233-272 (read_inlet_temp); the outer [None] is
    an error. *)
Definition read_inlet_temp (machine : list string -> Process) : option (option f32) :=
  o ← run machine "ipmitool" ["sdr"; "type"; "Temperature"] TIMEOUT_IPMI;
  if o_success o
  then Some (choose_inlet (omap inlet_row (lines (from_utf8_lossy (o_stdout o)))))
  else Some None.

(** src/agent/src/modules/thermal.rs:158-177 (read_throttle_counters), on the
    CPU names and the texts of their counter files. *)
Definition read_throttle_counters (entries : list (string * option string)) :
    list (string * Z) :=
  omap (fun e : string * option string =>
    t ← e.2; n ← parse_unsigned Int.u64_max (trim t); Some (e.1, n)) entries.

(** src/agent/src/modules/thermal.rs:59-81 (one CPU of a tick). *)
Definition throttle_cpu (last_throttle : gmap string Z) (x : string * Z) :
    gmap string Z * list Action :=
  let (cpu, count) := x in
  let prev := default count (last_throttle !! cpu) in
  (<[cpu := count]> last_throttle,
   if prev <? count then
     [ActObserve
       (new_alert host cat.THERMAL "cpu_throttle" Warning
        |> with_device cpu |> with_value (show (count - prev))
        |> with_title "CPU thermal throttling"
        |> with_message (cpu +:+ " throttled " +:+ show (count - prev)
             +:+ " more time(s) since the last poll (cumulative " +:+ show count
             +:+ "). Check airflow and inlet temperature."))]
   else []).

(** A JSON number of an [f32]: null when it is not finite. *)
Definition json_f32 (x : f32) : Value :=
  match x with
  | S754_infinity _ | S754_nan => VNull
  | _ => VFloat x
  end.

(** src/agent/src/modules/thermal.rs:88-90 (rate). *)
Definition inlet_rate (now : Instant) (last_inlet : option (Instant * f32)) (t : f32) : f32 :=
  match last_inlet with
  | Some (t0, v0) =>
      f32_mul (f32_div (f32_sub t v0)
                 (f32_max (as_secs_f32 (duration_since now t0)) (f32_of_Z 1))) (f32_of_Z 60)
  | None => f32_of_Z 0
  end.

(** src/agent/src/modules/thermal.rs:93-118 (severity, label and metric of a
    temperature). *)
Definition inlet_tier (t : f32) : option (Severity * string * string) :=
  if f32_geb t (inlet_emergency_c cfg) then Some (Critical, "EMERGENCY", "inlet_temp_emergency")
  else if f32_geb t (inlet_critical_c cfg) then Some (Critical, "critical", "inlet_temp_critical")
  else if f32_geb t (inlet_warn_c cfg) then Some (Warning, "warning", "inlet_temp_warning")
  else None.

(** src/agent/src/modules/thermal.rs:119-144 (the inlet alert). *)
Definition inlet_builder (t rate : f32) (sev : Severity) (label metric : string) :
    AlertBuilder :=
  let est :=
    if f32_ltb (f32_of_Z 0) rate then
      let to := f32_max (f32_mul (f32_div (f32_sub (f32_of_Z 42) t) rate) (f32_of_Z 60))
                  (f32_of_Z 0) in
      "ETA to vendor shutdown (~42°C): " +:+ show_fixed 0 to +:+ "s at +"
      +:+ show_fixed 2 rate +:+ "°C/min"
    else "Stable or cooling." in
  new_alert host cat.THERMAL metric sev
  |> with_device "inlet" |> with_value (show_f1 t +:+ "°C")
  |> with_threshold ("warn=" +:+ show_f32 (inlet_warn_c cfg) +:+ ", crit="
       +:+ show_f32 (inlet_critical_c cfg) +:+ ", emerg=" +:+ show_f32 (inlet_emergency_c cfg))
  |> with_title ("Inlet temperature " +:+ label)
  |> with_message ("BMC inlet ambient sensor reads " +:+ show_f1 t +:+ "°C. " +:+ est
       +:+ ". Consider migrating workloads off this host before the BMC forces an emergency shutdown.")
  |> raw_kv "rate_c_per_min" (json_f32 rate).

(** src/agent/src/modules/thermal.rs:83-152 (the inlet part of a tick): the answer
    of read_inlet_temp and the clock. *)
Definition inlet_step (now : Instant) (reading : option (option f32))
    (last_inlet : option (Instant * f32)) : option (Instant * f32) * list Action :=
  match reading with
  | Some (Some t) =>
      let rate := inlet_rate now last_inlet t in
      (Some (now, t),
       match inlet_tier t with
       | Some (sev, label, metric) => [ActObserve (inlet_builder t rate sev label metric)]
       | None => []
       end)
  | _ => (last_inlet, [])
  end.

Record ThermalState : Type := mkThermalState {
  th_throttle : gmap string Z;
  th_inlet : option (Instant * f32)
}.

(** src/agent/src/modules/thermal.rs:55-154 (one tick of spawn). *)
Definition thermal_tick (ipmi_available : bool) (now : Instant)
    (counters : list (string * Z)) (reading : option (option f32)) (st : ThermalState) :
    ThermalState * list Action :=
  let r := fold_actions throttle_cpu counters (th_throttle st) in
  if ipmi_available then
    let i := inlet_step now reading (th_inlet st) in
    (mkThermalState (fst r) (fst i), (snd r ++ snd i)%list)
  else (mkThermalState (fst r) (th_inlet st), snd r).

End thermal.

(** * The inlet sensor *)

(** The first row of the greatest priority. *)
Fixpoint best_row (rows : list Row) : option Row :=
  match rows with
  | [] => None
  | r :: rows' =>
      match best_row rows' with
      | Some b => if r.1.1 <? b.1.1 then Some b else Some r
      | None => Some r
      end
  end.

Lemma best_row_None rows : best_row rows = None <-> rows = [].
Proof.
  destruct rows as [|x rows]; [done|]. simpl. split; [|done].
  destruct (best_row rows) as [c|]; [|done]. by destruct (_ <? _).
Qed.

(** It is one of the rows, and no row has a greater priority. *)
Lemma best_row_spec rows r :
  best_row rows = Some r -> r ∈ rows /\ Forall (fun s => s.1.1 <= r.1.1) rows.
Proof.
  revert r. induction rows as [|x rows IH]; intros r; [done|]. simpl.
  destruct (best_row rows) as [c|] eqn:E.
  - destruct (IH _ eq_refl) as [Hin Hle].
    destruct (Z.ltb_spec x.1.1 c.1.1); intros [= <-].
    + split; [by right|]. constructor; [lia|done].
    + split; [by left|]. constructor; [lia|].
      eapply Forall_impl; [exact Hle|]. simpl. lia.
  - intros [= <-]. apply best_row_None in E as ->. split; [by left|by repeat constructor].
Qed.

Lemma insert_row_head r l :
  head (insert_row r l)
  = match head l with
    | Some x => if x.1.1 <? r.1.1 then Some r else Some x
    | None => Some r
    end.
Proof. destruct l as [|x l]; simpl; [done|]. by destruct (x.1.1 <? r.1.1). Qed.

Lemma best_row_snoc rows r :
  best_row (rows ++ [r])%list
  = match best_row rows with
    | Some b => if b.1.1 <? r.1.1 then Some r else Some b
    | None => Some r
    end.
Proof.
  induction rows as [|x rows IH]; [done|]. simpl. rewrite IH.
  destruct (best_row rows) as [b|]; [|done].
  destruct (Z.ltb_spec b.1.1 r.1.1), (Z.ltb_spec x.1.1 b.1.1); simpl;
    repeat match goal with |- context [?a <? ?b] => destruct (Z.ltb_spec a b) end;
    done || lia.
Qed.

Lemma sort_rows_head rows : head (sort_rows rows) = best_row rows.
Proof.
  induction rows as [|r rows IH] using rev_ind; [done|].
  unfold sort_rows in *. rewrite foldl_app. simpl.
  by rewrite insert_row_head, IH, best_row_snoc.
Qed.

Lemma insert_row_perm r l : insert_row r l ≡ₚ r :: l.
Proof.
  induction l as [|y l IH]; simpl; [done|].
  destruct (y.1.1 <? r.1.1); [done|]. rewrite IH. constructor.
Qed.

Lemma sort_rows_perm rows : sort_rows rows ≡ₚ rows.
Proof.
  induction rows as [|r rows IH] using rev_ind; [done|].
  unfold sort_rows in *. rewrite foldl_app. simpl.
  rewrite insert_row_perm, IH. by rewrite Permutation_app_comm.
Qed.

(** The rows [inlet_sensor_priority] gives. *)
Definition inlet_kind (r : Row) : Prop :=
  (r.1.1 ∈ [1000; 900; 850; 300] /\ r.1.2 = false) \/ (r.1.1 = 100 /\ r.1.2 = true).

Lemma inlet_sensor_priority_kind `{RegexEngine} re n p b t :
  inlet_sensor_priority re n = Some (p, b) -> inlet_kind (p, b, t).
Proof.
  unfold inlet_sensor_priority, inlet_kind. intros Hp.
  repeat case_match; simplify_eq; simpl; (left; split; [|done]; set_solver) || by right.
Qed.

Lemma pick_row_psu first rows :
  Forall (fun r => r.1.1 < 300) rows -> pick_row false first rows = first.
Proof.
  induction 1 as [|[[p b] t] rows Hp Hall IH]; [done|]. simpl in *.
  destruct (Z.leb_spec 850 p), (Z.leb_spec 300 p); done || lia.
Qed.

Lemma choose_inlet_best rows :
  Forall inlet_kind rows -> choose_inlet rows = snd <$> best_row rows.
Proof.
  intros Hk. unfold choose_inlet.
  pose proof (sort_rows_head rows) as Hh. pose proof (sort_rows_perm rows) as Hperm.
  destruct (best_row rows) as [r|] eqn:Eb.
  2: { by destruct (sort_rows rows). }
  destruct (best_row_spec _ _ Eb) as [Hin Hle]. rewrite <- Hperm in Hle.
  pose proof (proj1 (Forall_forall _ _) Hk r Hin) as Hr. clear Hperm Hin Eb.
  destruct (sort_rows rows) as [|x l]; [done|]. injection Hh as ->.
  apply Forall_cons in Hle as [_ Hle]. destruct r as [[p b] t]. simpl in *.
  destruct (Z.leb_spec 850 p) as [Hp|Hp]; [done|].
  assert (Hamb : existsb (fun r : Row => 850 <=? r.1.1) l = false).
  { apply not_true_is_false. intros (r & Hrl & Hpr)%existsb_exists.
    apply list_elem_of_In, (proj1 (Forall_forall _ _) Hle) in Hrl. zbool. }
  unfold Row in Hamb. rewrite Hamb. simpl. destruct (Z.leb_spec 300 p) as [H3|H3]; [done|].
  apply pick_row_psu. eapply Forall_impl; [exact Hle|]. simpl. lia.
Qed.

(** The inlet reading.  Of the rows of a listing that name an inlet or ambient
    sensor and show a temperature between -5 and 125 degrees, the reading is that
    of the first row of the highest priority; in particular a power-supply inlet
    is read only when every other row is one too, and there is no reading only
    when there is no row.  The loop's own test for power-supply rows decides
    nothing that the order has not. *)
Theorem inlet_reading_spec `{RegexEngine}
    (captures_iter : Regex -> string -> list (list (option string))) (re : ThermalRes)
    (text : string) :
  let rows := omap (inlet_row captures_iter re) (lines text) in
  choose_inlet rows = snd <$> best_row rows
  /\ (choose_inlet rows = None <-> rows = [])
  /\ (forall r, best_row rows = Some r ->
        r ∈ rows /\ Forall (fun s => s.1.1 <= r.1.1) rows
        /\ f32_leb (f32_of_Z (-5)) r.2 = true /\ f32_ltb r.2 (f32_of_Z 125) = true
        /\ (r.1.2 = true -> Forall (fun s => s.1.2 = true) rows)).
Proof.
  intros rows.
  assert (Hrow : forall r, r ∈ rows -> inlet_kind r
    /\ f32_leb (f32_of_Z (-5)) r.2 = true /\ f32_ltb r.2 (f32_of_Z 125) = true).
  { intros [[p b] t] (line & _ & Hr)%list_elem_of_omap. unfold inlet_row in Hr.
    apply bind_Some in Hr as (nm & _ & Hr).
    apply bind_Some in Hr as ([p' b'] & Hpf & Hr). apply bind_Some in Hr as (u & Hu & [= -> -> ->]).
    split; [by eapply inlet_sensor_priority_kind|].
    apply last_Some_elem_of, list_elem_of_In, filter_In in Hu as [_ Hu].
    by apply andb_true_iff in Hu. }
  rewrite choose_inlet_best by (apply Forall_forall; intros r Hr; by apply Hrow).
  split_and!; [done|by rewrite fmap_None, best_row_None|].
  intros r Hr. destruct (best_row_spec _ _ Hr) as [Hin Hle]. destruct (Hrow _ Hin) as (Hk & Hlo & Hhi).
  split_and!; [done..|]. intros Hpsu. apply Forall_forall. intros s Hs.
  pose proof (proj1 (Forall_forall _ _) Hle s Hs) as Hsle. simpl in Hsle.
  destruct Hk as [[_ Hf]|[H100 _]]; [congruence|].
  destruct (Hrow _ Hs) as ([[Hsp _]|[_ ?]] & _ & _); [|done].
  exfalso. rewrite H100 in Hsle.
  repeat (apply elem_of_cons in Hsp as [Hsp|Hsp]; [lia|]). by apply elem_of_nil in Hsp.
Qed.
