(* ===== verification/Bmc.v ===== *)
(** The BMC modules: Redfish sensors (src/agent/src/modules/bmc_redfish.rs) and
    event logs (src/agent/src/modules/bmc_eventlog.rs).

    The HTTP client is an input: what each URL answers during one poll. *)
From S2P Require Import Prelude Text Utf8 Schema Tracker Channels Bus Runtime Host.
From S2P Require Import Command Json Config.
From Stdlib Require Import Ascii.

Local Open Scope string_scope.
Local Open Scope Z_scope.

(** [Value::pointer] on object keys. *)
Fixpoint pointer (path : list string) (v : Value) : option Value :=
  match path with
  | [] => Some v
  | k :: path' => x ← get k v; pointer path' x
  end.

(** [trim_end_matches('/')]. *)
Fixpoint drop_slashes (s : string) : string :=
  match s with
  | String c s' => if (byte_val c =? 47)%Z then drop_slashes s' else s
  | EmptyString => EmptyString
  end.
Definition trim_end_slashes (s : string) : string :=
  rev_string (drop_slashes (rev_string s)).

(** [v.get("Members").and_then(|m| m.as_array()).cloned().unwrap_or_default()]. *)
Definition members_at (k : string) (v : Value) : list Value :=
  default [] (get k v ≫= as_array).

(** * Redfish sensors *)

(** src/agent/src/modules/bmc_redfish.rs:88-96 (redfish_severity). *)
Definition redfish_severity (health : string) : option Severity :=
  let h := to_ascii_lowercase health in
  if decide (h = "critical") then Some Critical
  else if decide (h = "warning") then Some Warning else None.

(** src/agent/src/modules/bmc_redfish.rs:98-106 (is_present). *)
Definition is_present (state : string) : bool :=
  negb (existsb (fun s => bool_decide (to_ascii_lowercase state = s))
          ["absent"; "unavailable"; "deferring"; "standby"]).

(** src/agent/src/modules/bmc_redfish.rs:108-122 (entry_name). *)
Definition entry_name (entry : Value) (fallback : string) : string :=
  let by_bay :=
    match pointer ["Oem"; "Hpe"; "BayNumber"] entry ≫= as_u64 with
    | Some bay => fallback +:+ " bay " +:+ show bay
    | None =>
        match get "MemberId" entry ≫= as_str with
        | Some mid => fallback +:+ " " +:+ mid
        | None => fallback
        end
    end in
  match get "Name" entry ≫= as_str with
  | Some n =>
      if negb (is_empty n) && bool_decide (n <> "HpeServerPowerSupply")
         && bool_decide (n <> "HpeServerFan")
      then n else by_bay
  | None => by_bay
  end.

Definition entry_state (e : Value) : string :=
  default "" (pointer ["Status"; "State"] e ≫= as_str).
Definition entry_health (e : Value) : string :=
  default "OK" (pointer ["Status"; "Health"] e ≫= as_str).

Section redfish.
Context (host : HostId).

(** src/agent/src/modules/bmc_redfish.rs:124-151 (check_fans, one fan). *)
Definition check_fan (f : Value) : list Action :=
  let state := entry_state f in
  if negb (is_present state) then []
  else
    let name := entry_name f "Fan" in
    let rpm := default 0 (get "Reading" f ≫= as_u64) in
    let health := entry_health f in
    let sev := redfish_severity health in
    let stalled := (rpm =? 0) && eq_ignore_ascii_case state "enabled"
                   && bool_decide (is_Some sev) in
    match (match sev with Some s => Some s | None => if stalled then Some Critical else None end) with
    | Some sv =>
        [ActObserve
          (new_alert host cat.BMC_REDFISH "fan_unhealthy" sv
           |> with_device name
           |> with_value ("rpm=" +:+ show rpm +:+ ", state=" +:+ state +:+ ", health=" +:+ health)
           |> with_title "BMC reports unhealthy fan"
           |> with_message ("Fan " +:+ name +:+ ": RPM=" +:+ show rpm +:+ ", state=" +:+ state
                +:+ ", health=" +:+ health
                +:+ ". Replace promptly to avoid thermal escalation."))]
    | None => []
    end.
Definition check_fans (j : Value) : list Action := concat (map check_fan (members_at "Fans" j)).

(** src/agent/src/modules/bmc_redfish.rs:153-179 (check_psus, one supply). *)
Definition check_psu (p : Value) : list Action :=
  let state := entry_state p in
  if negb (is_present state) then []
  else
    let name := entry_name p "PSU" in
    let health := entry_health p in
    match redfish_severity health with
    | Some sev =>
        [ActObserve
          (new_alert host cat.BMC_REDFISH "psu_unhealthy" sev
           |> with_device name
           |> with_value ("state=" +:+ state +:+ ", health=" +:+ health)
           |> with_title "BMC reports unhealthy PSU"
           |> with_message ("Power supply " +:+ name +:+ ": state=" +:+ state
                +:+ ", health=" +:+ health
                +:+ ". Replace and verify the redundant feed."))]
    | None => []
    end.
Definition check_psus (j : Value) : list Action :=
  concat (map check_psu (members_at "PowerSupplies" j)).

(** src/agent/src/modules/bmc_redfish.rs:49-86 (poll_redfish), with the JSON each
    URL answers, if any; [None] is an error. *)
Definition poll_redfish (cfg : BmcCfg) (fetch : string -> option Value) : option (list Action) :=
  let base := trim_end_slashes (redfish_url cfg) in
  resp ← fetch (base +:+ "/redfish/v1/Chassis");
  Some (concat (map (fun m =>
    match get "@odata.id" m ≫= as_str with
    | Some rel =>
        (match fetch (base +:+ rel +:+ "/Thermal") with Some j => check_fans j | None => [] end
         ++ match fetch (base +:+ rel +:+ "/Power") with Some j => check_psus j | None => [] end)%list
    | None => []
    end) (members_at "Members" resp))).

(** src/agent/src/modules/bmc_redfish.rs:28-35 (one tick of spawn): there is no
    fallback. *)
Definition redfish_tick (cfg : BmcCfg) (fetch : string -> option Value) : list Action :=
  if is_empty (redfish_url cfg) then [] else default [] (poll_redfish cfg fetch).

(** A fan is judged by its health alone: the stalled test adds nothing, because it
    requires the severity it would replace. *)
Lemma check_fan_observed f :
  observed (check_fan f)
  = if is_present (entry_state f)
    then option_list ((fun sv => ("fan_unhealthy", sv)) <$> redfish_severity (entry_health f))
    else [].
Proof.
  unfold check_fan. destruct (is_present (entry_state f)); [|done]. simpl.
  destruct (redfish_severity (entry_health f)); [done|].
  rewrite bool_decide_eq_false_2, andb_false_r; [done|]. by intros [? ?].
Qed.

Lemma check_psu_observed p :
  observed (check_psu p)
  = if is_present (entry_state p)
    then option_list ((fun sv => ("psu_unhealthy", sv)) <$> redfish_severity (entry_health p))
    else [].
Proof.
  unfold check_psu. destruct (is_present (entry_state p)); [|done]. simpl.
  by destruct (redfish_severity (entry_health p)).
Qed.

End redfish.

(** * Event logs *)

(** What a GET gives: no answer, or its success flag and its JSON if it parses. *)
Abbreviation Response := (option (bool * option Value)) (only parsing).

Section eventlog.
Context (host : HostId).

(** src/agent/src/modules/bmc_eventlog.rs:93-97 (the severity of an entry). *)
Definition entry_severity (sev_str : string) : option Severity :=
  let s := to_lowercase sev_str in
  if decide (s ∈ ["critical"; "severe"; "fatal"]) then Some Critical
  else if decide (s ∈ ["warning"; "caution"]) then Some Warning else None.

(** src/agent/src/modules/bmc_eventlog.rs:90-105 (what one entry is reported as). *)
Definition entry_action (log : string) (m : Value) : option Action :=
  let id := get_str_or "" "Id" m in
  let sev_str := get_str_or "OK" "Severity" m in
  let msg := get_str_or "" "Message" m in
  let created := get_str_or "" "Created" m in
  sev ← entry_severity sev_str;
  Some (ActObserve
    (new_alert host cat.BMC_EVENTLOG "bmc_log_entry" sev
     |> with_device (default "log" (last (split "/"%char log)))
     |> with_value sev_str
     |> with_title "BMC event log entry"
     |> with_message ("BMC logged " +:+ sev_str +:+ " event at " +:+ created +:+ ": " +:+ msg)
     |> raw_kv "entry_id" (VString id)
     |> raw_kv "log" (VString log))).

(** src/agent/src/modules/bmc_eventlog.rs:86-106 (one entry of a log); ids are
    compared as strings. *)
Definition log_entry (log prev : string) (acc : string * list Action) (m : Value) :
    string * list Action :=
  let id := get_str_or "" "Id" m in
  if String.leb id prev then acc
  else
    (if String.ltb (fst acc) id then id else fst acc,
     (snd acc ++ option_list (entry_action log m))%list).

(** The members a log answers, when it does. *)
Definition listing (fetch : string -> Response) (log : string) : option (list Value) :=
  match fetch log with
  | Some (true, Some j) => Some (members_at "Members" j)
  | _ => None
  end.

(** src/agent/src/modules/bmc_eventlog.rs:72-107 (one log of poll). *)
Definition poll_log (fetch : string -> Response) (acc : gmap string string * list Action)
    (log : string) : gmap string string * list Action :=
  match listing fetch log with
  | None => acc
  | Some members =>
      let prev := default "" (fst acc !! log) in
      let r := foldl (log_entry log prev) (prev, snd acc) members in
      (<[log := fst r]> (fst acc), snd r)
  end.

(** src/agent/src/modules/bmc_eventlog.rs:66-71 (the logs of poll). *)
Definition log_urls (cfg : BmcCfg) : list string :=
  let base := trim_end_slashes (redfish_url cfg) in
  [base +:+ "/redfish/v1/Systems/1/LogServices/IEL/Entries";
   base +:+ "/redfish/v1/Systems/1/LogServices/SEL/Entries";
   base +:+ "/redfish/v1/Managers/1/LogServices/IML/Entries"].

(** src/agent/src/modules/bmc_eventlog.rs:58-110 (poll): the new state, the actions,
    and whether it returned [Ok], which is on every path. *)
Definition eventlog_poll (cfg : BmcCfg) (fetch : string -> Response)
    (last_seen : gmap string string) : gmap string string * list Action * bool :=
  (foldl (poll_log fetch) (last_seen, []) (log_urls cfg), true).

(** src/agent/src/modules/bmc_eventlog.rs:112-128 (poll_ipmi). *)
Definition poll_ipmi (machine : list string -> Process) : list Action :=
  match run machine "ipmitool" ["sel"; "elist"] TIMEOUT_IPMI with
  | None => []
  | Some o =>
      if negb (o_success o) then []
      else
        let count := Z.of_nat (length (lines (from_utf8_lossy (o_stdout o)))) in
        if 0 <? count then
          [ActObserve
            (new_alert host cat.BMC_EVENTLOG "ipmi_sel_count" Info
             |> with_value (show count)
             |> with_title "IPMI SEL has entries"
             |> with_message ("ipmitool sel elist returned " +:+ show count
                  +:+ " entries. Configure Redfish for full parsing."))]
        else []
  end.

(** src/agent/src/modules/bmc_eventlog.rs:36-45 (one tick of spawn). *)
Definition eventlog_tick (cfg : BmcCfg) (fetch : string -> Response)
    (machine : list string -> Process) (last_seen : gmap string string) :
    gmap string string * list Action :=
  if negb (is_empty (redfish_url cfg)) then
    let '(st, acts, ok) := eventlog_poll cfg fetch last_seen in
    (st, if ok : bool then acts else (acts ++ poll_ipmi machine)%list)
  else (last_seen, poll_ipmi machine).

(** * What the event log reports *)

Definition entry_id (m : Value) : string := get_str_or "" "Id" m.

(** An id no smaller than nothing and greater than every id of a history. *)
Definition fresh (seen : list string) (id : string) : bool :=
  forallb (fun x => String.ltb x id) ("" :: seen).

Definition answers (fetch : string -> Response) (log : string) : list Value :=
  default [] (listing fetch log).

(** The ids a log listed over a run of polls. *)
Definition ids_seen (fetches : list (string -> Response)) (log : string) : list string :=
  concat (map (fun f => map entry_id (answers f log)) fetches).

Definition new_entries (prev : string) (ms : list Value) : list Value :=
  List.filter (fun m => String.ltb prev (entry_id m)) ms.

Lemma log_entry_fold log prev newest acts ms :
  String.leb prev newest = true ->
  foldl (log_entry log prev) (newest, acts) ms
  = (string_max newest (map entry_id ms),
     (acts ++ omap (entry_action log) (new_entries prev ms))%list).
Proof.
  revert newest acts. induction ms as [|m ms IH]; intros newest acts Hle; simpl.
  - by rewrite app_nil_r.
  - unfold log_entry at 2. fold (entry_id m). rewrite (string_ltb_leb prev).
    destruct (String.leb (entry_id m) prev) eqn:E; simpl.
    + rewrite IH by done.
      assert (Hlt : String.ltb newest (entry_id m) = false); [|by rewrite Hlt].
      destruct (String.ltb newest (entry_id m)) eqn:Hlt; [|done].
      pose proof (string_leb_ltb_trans _ _ _ Hle Hlt) as Hp.
      by rewrite string_ltb_leb, E in Hp.
    + rewrite IH.
      * f_equal. rewrite <- app_assoc. f_equal. by destruct (entry_action log m).
      * destruct (String.ltb newest (entry_id m)) eqn:E2; [|done].
        apply string_ltb_lt in E2. unfold String.leb.
        destruct (String.compare prev (entry_id m)) eqn:Ec; try done.
        unfold String.leb in E. rewrite String.compare_antisym, Ec in E. done.
Qed.

Lemma poll_log_spec fetch st acts log :
  poll_log fetch (st, acts) log
  = match listing fetch log with
    | None => (st, acts)
    | Some ms =>
        (<[log := string_max (default "" (st !! log)) (map entry_id ms)]> st,
         (acts ++ omap (entry_action log) (new_entries (default "" (st !! log)) ms))%list)
    end.
Proof.
  unfold poll_log. destruct (listing fetch log) as [ms|]; [|done]. simpl.
  rewrite log_entry_fold; [done|].
  unfold String.leb. destruct (String.compare _ _) eqn:E; try done.
  pose proof (String.compare_antisym (default "" (st !! log)) (default "" (st !! log))) as Ha.
  rewrite E in Ha. done.
Qed.

(** A poll of distinct logs, log by log. *)
Lemma poll_logs_spec fetch logs st acts :
  NoDup logs ->
  let r := foldl (poll_log fetch) (st, acts) logs in
  (forall log, log ∈ logs ->
     default "" (fst r !! log)
     = string_max (default "" (st !! log)) (map entry_id (answers fetch log)))
  /\ (forall log, log ∉ logs -> fst r !! log = st !! log)
  /\ snd r = (acts ++ concat (map (fun log => omap (entry_action log)
        (new_entries (default "" (st !! log)) (answers fetch log))) logs))%list.
Proof.
  revert st acts. induction logs as [|log logs IH]; intros st acts Hnd.
  - split_and!; [set_solver|done|by rewrite app_nil_r].
  - apply NoDup_cons in Hnd as [Hn Hnd]. cbn [foldl]. rewrite poll_log_spec.
    unfold answers. destruct (listing fetch log) as [ms|] eqn:El.
    + destruct (IH (<[log := string_max (default "" (st !! log)) (map entry_id ms)]> st)
        (acts ++ omap (entry_action log) (new_entries (default "" (st !! log)) ms))%list Hnd)
        as (Hin & Hout & Hacts).
      split_and!.
      * intros l [->|Hl]%elem_of_cons.
        -- rewrite Hout, lookup_insert_eq, El by done. done.
        -- rewrite Hin, lookup_insert_ne by set_solver. done.
      * intros l [? Hl]%not_elem_of_cons. by rewrite Hout, lookup_insert_ne.
      * rewrite Hacts. simpl. rewrite El. simpl. rewrite <- app_assoc. do 2 f_equal.
        f_equal. apply map_ext_in. intros l Hl%list_elem_of_In.
        by rewrite lookup_insert_ne by set_solver.
    + destruct (IH st acts Hnd) as (Hin & Hout & Hacts). split_and!.
      * intros l [->|Hl]%elem_of_cons; [|by apply Hin]. by rewrite Hout, El.
      * intros l [? Hl]%not_elem_of_cons. by apply Hout.
      * rewrite Hacts. simpl. by rewrite El.
Qed.

Lemma log_urls_NoDup cfg : NoDup (log_urls cfg).
Proof.
  unfold log_urls. generalize (trim_end_slashes (redfish_url cfg)). intros base.
  rewrite !NoDup_cons. split_and!; try apply NoDup_nil_2; rewrite ?not_elem_of_cons;
    split_and?; try apply not_elem_of_nil; intros E%(inj (String.append base)); done.
Qed.

Lemma last_segment cfg log : log ∈ log_urls cfg -> last (split "/"%char log) = Some "Entries".
Proof.
  unfold log_urls. generalize (trim_end_slashes (redfish_url cfg)). intros base.
  assert (Hl : forall p, last (split "/"%char (base +:+ p +:+ "/Entries")) = Some "Entries").
  { intros p. rewrite <- string_app_assoc.
    apply (last_split_app "/"%char _ "Entries"). done. }
  intros Hin. repeat apply elem_of_cons in Hin as [->|Hin]; [..|by apply elem_of_nil in Hin].
  - apply (Hl "/redfish/v1/Systems/1/LogServices/IEL").
  - apply (Hl "/redfish/v1/Systems/1/LogServices/SEL").
  - apply (Hl "/redfish/v1/Managers/1/LogServices/IML").
Qed.

(** A run of polls from the start. *)
Definition eventlog_run (cfg : BmcCfg) (fetches : list (string -> Response)) :
    gmap string string :=
  foldl (fun st f => fst (fst (eventlog_poll cfg f st))) ∅ fetches.

Lemma eventlog_run_snoc cfg fetches f :
  eventlog_run cfg (fetches ++ [f])%list
  = fst (foldl (poll_log f) (eventlog_run cfg fetches, []) (log_urls cfg)).
Proof. unfold eventlog_run. by rewrite foldl_app. Qed.

Lemma eventlog_run_watermark cfg fetches log :
  log ∈ log_urls cfg ->
  default "" (eventlog_run cfg fetches !! log) = string_max "" (ids_seen fetches log).
Proof.
  intros Hlog. induction fetches as [|f fetches IH] using rev_ind; [done|].
  unfold ids_seen in *. rewrite eventlog_run_snoc, map_app, concat_app, string_max_app.
  rewrite (proj1 (poll_logs_spec f (log_urls cfg) _ [] (log_urls_NoDup cfg)) log Hlog), IH.
  simpl. by rewrite app_nil_r.
Qed.

Lemma entry_action_fp cfg log m act :
  log ∈ log_urls cfg -> entry_action log m = Some act ->
  exists b, act = ActObserve b
    /\ fingerprint b = format_fingerprint (machine_id host) cat.BMC_EVENTLOG
         (Some "Entries") "bmc_log_entry".
Proof.
  unfold entry_action. intros Hlog%last_segment.
  destruct (entry_severity _); [|done]. intros [= <-]. eexists. split; [done|].
  unfold fingerprint. simpl. by rewrite Hlog.
Qed.

(** A Redfish URL rules the fallback out. *)
Lemma eventlog_tick_redfish cfg fetch machine st :
  is_empty (redfish_url cfg) = false ->
  eventlog_tick cfg fetch machine st = foldl (poll_log fetch) (st, []) (log_urls cfg).
Proof.
  intros Hurl. unfold eventlog_tick, eventlog_poll. rewrite Hurl.
  by destruct (foldl _ _ _).
Qed.

(** C39: the event-log reader.  After any run of polls, the next poll reports, log
    by log and in the order the BMC lists them, exactly the entries of an
    alerting severity whose id is greater, as text, than every id that log has
    listed in an earlier poll; so once "9" has been seen, entry "10" is never
    reported.  Every entry of every log is reported under the same
    fingerprint, so the tracker takes them for one alert; and a poll never
    fails, so the ipmitool fallback is not taken when a Redfish URL is set. *)
Theorem eventlog_reports_exact (cfg : BmcCfg) (fetches : list (string -> Response))
    (fetch : string -> Response) (machine : list string -> Process)
    (Hurl : is_empty (redfish_url cfg) = false) :
  let r := eventlog_tick cfg fetch machine (eventlog_run cfg fetches) in
  snd r = concat (map (fun log =>
            omap (entry_action log)
              (List.filter (fun m => fresh (ids_seen fetches log) (entry_id m))
                 (answers fetch log))) (log_urls cfg))
  /\ (forall log x id, x ∈ ids_seen fetches log -> String.leb id x = true ->
        fresh (ids_seen fetches log) id = false)
  /\ (forall act, act ∈ snd r -> exists b, act = ActObserve b
        /\ fingerprint b = format_fingerprint (machine_id host) cat.BMC_EVENTLOG
             (Some "Entries") "bmc_log_entry").
Proof.
  cbv zeta. rewrite eventlog_tick_redfish by done.
  destruct (poll_logs_spec fetch (log_urls cfg) (eventlog_run cfg fetches) []
    (log_urls_NoDup cfg)) as (_ & _ & Hacts).
  assert (Hexact : snd (foldl (poll_log fetch) (eventlog_run cfg fetches, []) (log_urls cfg))
    = concat (map (fun log => omap (entry_action log)
        (List.filter (fun m => fresh (ids_seen fetches log) (entry_id m))
           (answers fetch log))) (log_urls cfg))).
  { rewrite Hacts, app_nil_l. f_equal. apply map_ext_in. intros log Hlog%list_elem_of_In.
    f_equal. unfold new_entries. apply filter_ext. intros m. unfold fresh.
    by rewrite eventlog_run_watermark, string_max_lt. }
  split_and!; [done| |].
  - intros log x id Hx Hle. unfold fresh. apply not_true_is_false. intros Hall.
    rewrite List.forallb_forall in Hall. specialize (Hall x).
    rewrite string_ltb_leb, Hle in Hall. apply diff_false_true, Hall. right.
    by apply list_elem_of_In.
  - rewrite Hexact. intros act Hin.
    apply list_elem_of_In, in_concat in Hin as (l & (log & <- & Hlog)%in_map_iff & Hin).
    apply list_elem_of_In in Hin. apply list_elem_of_omap in Hin as (m & _ & Hm).
    apply list_elem_of_In in Hlog. by eapply entry_action_fp.
Qed.

End eventlog.

(** A system event log with two critical entries, "9" and then "10". *)
Definition sel_entry (id : string) : Value :=
  VObject [("Id", VString id); ("Severity", VString "Critical"); ("Message", VString "fault")].
Definition sel_fetch (ids : list string) : string -> Response :=
  fun url => if contains "/SEL/" url
             then Some (true, Some (VObject [("Members", VArray (map sel_entry ids))]))
             else None.
Definition sel_cfg : BmcCfg := mkBmcCfg true 10 "/dev/ipmi0" "https://bmc" "u" "p" true.

Lemma eventlog_reports_exact_witness :
  let host := mkHostId "h" "hid" "10.0.0.1" in
  let quiet := fun _ : list string => SpawnError "no ipmitool" in
  snd (eventlog_tick host sel_cfg (sel_fetch ["9"; "10"]) quiet
         (eventlog_run host sel_cfg [sel_fetch ["9"]])) = []
  /\ observed (snd (eventlog_tick host sel_cfg (sel_fetch ["9"]) quiet
                      (eventlog_run host sel_cfg [])))
     = [("bmc_log_entry", Critical)].
Proof.
  intros host quiet. split.
  - etransitivity.
    + exact (proj1 (eventlog_reports_exact host sel_cfg [sel_fetch ["9"]]
        (sel_fetch ["9"; "10"]) quiet eq_refl)).
    + vm_compute. reflexivity.
  - etransitivity.
    + apply f_equal. exact (proj1 (eventlog_reports_exact host sel_cfg []
        (sel_fetch ["9"]) quiet eq_refl)).
    + vm_compute. reflexivity.
Defined.
