(* ===== verification/Gpu.v ===== *)
(** GPU monitoring: nvidia-smi (src/agent/src/modules/gpu_nvidia.rs), and rocm-smi
    or sysfs (src/agent/src/modules/gpu_amd.rs).  The tools' outputs are inputs. *)
From S2P Require Import Prelude Text Utf8 Schema Tracker Channels Bus Runtime Host.
From S2P Require Import Command Json Float.
From Stdlib Require Import Ascii.

Local Open Scope string_scope.
Local Open Scope Z_scope.

Section gpu.
Context (host : HostId).

(** * NVIDIA *)

(** src/agent/src/modules/gpu_nvidia.rs:50-60 (GpuRow). *)
Record GpuRow : Type := mkGpuRow {
  g_index : string;
  g_name : string;
  g_temp_c : Z;
  g_power_w : f32;
  g_power_limit_w : f32;
  g_util : Z;
  g_ecc_uncorr : Z;
  g_throttle_reasons : string
}.

(** src/agent/src/modules/gpu_nvidia.rs:72-85 (one line of read_gpus). *)
Definition gpu_row (line : string) : option GpuRow :=
  match map trim (split ","%char line) with
  | c0 :: c1 :: c2 :: c3 :: c4 :: c5 :: c6 :: c7 :: _ =>
      Some {| g_index := c0; g_name := c1;
              g_temp_c := default 0 (parse_i32 c2);
              g_power_w := default (f32_of_Z 0) (parse_f32 c3);
              g_power_limit_w := default (f32_of_Z 0) (parse_f32 c4);
              g_util := default 0 (parse_unsigned Int.u32_max c5);
              g_ecc_uncorr := default 0 (parse_unsigned Int.u64_max c6);
              g_throttle_reasons := c7 |}
  | _ => None
  end.

(** src/agent/src/modules/gpu_nvidia.rs:62-87 (read_gpus); [None] is an error. *)
Definition read_gpus (machine : list string -> Process) : option (list GpuRow) :=
  o ← run machine "nvidia-smi"
        ["--query-gpu=index,name,temperature.gpu,power.draw,power.limit,utilization.gpu,ecc.errors.uncorrected.volatile.total,clocks_throttle_reasons.active";
         "--format=csv,noheader,nounits"] TIMEOUT_GPU;
  if o_success o then Some (omap gpu_row (lines (from_utf8_lossy (o_stdout o)))) else None.

(** src/agent/src/modules/gpu_nvidia.rs:107-109 (the throttle test). *)
Definition parsed_throttle (r : GpuRow) : Z :=
  default 0 (u64_from_hex (trim_start_0x (g_throttle_reasons r))).
Definition throttling (r : GpuRow) : bool :=
  negb (Z.land (parsed_throttle r) (Z.lxor Int.u64_max 1) =? 0).

(** src/agent/src/modules/gpu_nvidia.rs:117-117 (the power test). *)
Definition at_power_limit (r : GpuRow) : bool :=
  f32_ltb (f32_of_Z 0) (g_power_limit_w r)
  && f32_ltb (f32_mul (g_power_limit_w r) (f32_ratio 98 100)) (g_power_w r).

(** src/agent/src/modules/gpu_nvidia.rs:89-125 (check). *)
Definition check_gpu (r : GpuRow) : list Action :=
  let dev := "gpu" +:+ g_index r in
  let alert metric sev :=
    new_alert host cat.GPU_NVIDIA metric sev |> with_device dev |> with_device_model (g_name r) in
  ((if 0 <? g_ecc_uncorr r then
      [ActObserve (alert "ecc_uncorrected" Critical
         |> with_value (show (g_ecc_uncorr r))
         |> with_title "NVIDIA GPU uncorrectable ECC"
         |> with_message ("GPU " +:+ g_index r +:+ " (" +:+ g_name r +:+ ") has "
              +:+ show (g_ecc_uncorr r) +:+ " uncorrectable ECC errors. Replace this GPU."))]
    else [])
   ++ (if 85 <=? g_temp_c r then
         [ActObserve (alert "temperature" Critical
            |> with_value (show (g_temp_c r) +:+ "°C") |> with_threshold "85°C"
            |> with_title "NVIDIA GPU critical temperature"
            |> with_message ("GPU " +:+ g_index r +:+ " (" +:+ g_name r +:+ ") at "
                 +:+ show (g_temp_c r) +:+ "°C — at or above thermal slowdown threshold."))]
       else [])
   ++ (if throttling r then
         [ActObserve (alert "throttling" Warning
            |> with_value (g_throttle_reasons r)
            |> with_title "NVIDIA GPU throttling"
            |> with_message ("GPU " +:+ g_index r +:+ " (" +:+ g_name r
                 +:+ ") actively throttling: clocks_throttle_reasons.active = "
                 +:+ g_throttle_reasons r +:+ "."))]
       else [])
   ++ (if at_power_limit r then
         [ActObserve (alert "power_at_limit" Info
            |> with_value (show_fixed 0 (g_power_w r) +:+ "W / "
                 +:+ show_fixed 0 (g_power_limit_w r) +:+ "W")
            |> with_title "NVIDIA GPU at power limit"
            |> with_message ("GPU " +:+ g_index r +:+ " drawing " +:+ show_fixed 0 (g_power_w r)
                 +:+ "W (98% of " +:+ show_fixed 0 (g_power_limit_w r) +:+ "W cap). Util "
                 +:+ show (g_util r) +:+ "%."))]
       else []))%list.

(** src/agent/src/modules/gpu_nvidia.rs:36-46 (one tick of spawn). *)
Definition nvidia_tick (machine : list string -> Process) : list Action :=
  match read_gpus machine with
  | Some rows => concat (map check_gpu rows)
  | None => []
  end.

(** The throttle test ignores bit 0, "GPU idle", and only that: it holds when some
    reason other than it is active. *)
Lemma throttling_spec r :
  0 <= parsed_throttle r <= Int.u64_max ->
  throttling r = true <-> 2 <= parsed_throttle r.
Proof.
  unfold throttling. generalize (parsed_throttle r). intros v Hv.
  change (Z.lxor Int.u64_max 1) with (2 * Z.ones 63).
  assert (Hl : Z.land v (2 * Z.ones 63) = 2 * (v / 2)).
  { replace (2 * (v / 2)) with (Z.shiftl (Z.land (Z.shiftr v 1) (Z.ones 63)) 1).
    - apply Z.bits_inj'. intros n Hn.
      rewrite Z.land_spec. change 2 with (2 ^ 1) at 1.
      rewrite Z.mul_comm, <- Z.shiftl_mul_pow2 by lia.
      destruct (Z.eq_dec n 0) as [->|Hn0].
      + rewrite !Z.shiftl_spec_low by lia. apply andb_false_r.
      + rewrite !Z.shiftl_spec by lia. rewrite Z.land_spec, Z.shiftr_spec by lia.
        by replace (n - 1 + 1) with n by lia.
    - rewrite Z.shiftl_mul_pow2, Z.land_ones, Z.shiftr_div_pow2 by lia.
      change (2 ^ 1) with 2. rewrite Z.mod_small; [lia|].
      unfold Int.u64_max in Hv. split; [apply Z.div_pos; lia|].
      apply Z.div_lt_upper_bound; lia. }
  rewrite Hl. rewrite negb_true_iff, Z.eqb_neq.
  pose proof (Z.div_mod v 2 ltac:(lia)). pose proof (Z.mod_pos_bound v 2 ltac:(lia)). lia.
Qed.

(** * AMD *)

(** src/agent/src/modules/gpu_amd.rs:57-81 (one card of poll_rocm). *)
Definition rocm_card (kv : string * Value) : list Action :=
  let (card, body) := kv in
  if negb (starts_with "card" card) then []
  else
    let temp := v ← get "Temperature (Sensor edge) (C)" body; s ← as_str v; parse_f32 s in
    match temp with
    | Some t =>
        if f32_geb t (f32_of_Z 95) then
          [ActObserve
            (new_alert host cat.GPU_AMD "temperature" Critical
             |> with_device card |> with_value (show_f1 t +:+ "°C") |> with_threshold "95°C"
             |> with_title "AMD GPU critical temperature"
             |> with_message ("AMD " +:+ card +:+ " edge temp " +:+ show_f1 t
                  +:+ "°C — investigate cooling."))]
        else []
    | None => []
    end.

(** src/agent/src/modules/gpu_amd.rs:49-85 (poll_rocm), with the JSON reading of a
    text; [None] is an error. *)
Definition poll_rocm (from_slice : string -> option Value) (machine : list string -> Process) :
    option (list Action) :=
  o ← run machine "rocm-smi" ["-a"; "--json"] TIMEOUT_GPU;
  if o_success o then
    v ← from_slice (o_stdout o);
    match v with
    | VObject fields => Some (concat (map rocm_card fields))
    | _ => None
    end
  else None.

(** src/agent/src/modules/gpu_amd.rs:87-115 (poll_sysfs), on the entries of
    /sys/class/drm with the texts of their sensors. *)
Definition poll_sysfs (cards : list (string * list (option string))) : list Action :=
  concat (map (fun nc : string * list (option string) =>
    let (n, sensors) := nc in
    if negb (starts_with "card" n) || contains_byte "-"%char n then []
    else
      omap (fun o =>
        s ← o;
        milli_c ← parse_i32 (trim s);
        let c := f32_div (f32_of_Z milli_c) (f32_of_Z 1000) in
        if f32_geb c (f32_of_Z 95) then
          Some (ActObserve
            (new_alert host cat.GPU_AMD "temperature" Critical
             |> with_device n |> with_value (show_f1 c +:+ "°C")
             |> with_title "AMD GPU critical temperature (sysfs)"
             |> with_message (n +:+ " edge temp " +:+ show_f1 c +:+ "°C.")))
        else None) sensors) cards).

(** src/agent/src/modules/gpu_amd.rs:36-45 (one tick of spawn). *)
Definition amd_tick (has_rocm_smi : bool) (from_slice : string -> option Value)
    (machine : list string -> Process) (cards : list (string * list (option string))) :
    list Action :=
  if has_rocm_smi then default [] (poll_rocm from_slice machine) else poll_sysfs cards.

End gpu.
