(* ===== verification/Lifecycle.v ===== *)
(** Host lifecycle: shutdown notices (src/agent/src/modules/lifecycle.rs) and the
    detection of a reboot (src/agent/src/modules/boot.rs).

    D-Bus and the files read are inputs. *)
From S2P Require Import Prelude Text Schema Tracker Channels Bus Runtime Host.

Local Open Scope string_scope.
Local Open Scope Z_scope.

(** * Shutdown notices *)

(** src/agent/src/modules/lifecycle.rs:168-190 (guess_kind_from_scheduled_path): the
    text of the scheduled file, if it can be read, and the file name the default
    target links to. *)
Definition guess_kind (scheduled : option string) (target : option string) :
    string * string :=
  let reboot := ("host_rebooting", "Host reboot initiated") in
  let shutdown := ("host_shutting_down", "Host shutdown initiated") in
  let by_target :=
    let t := default "" target in
    if contains "reboot" t then reboot
    else if contains "poweroff" t || contains "halt" t then shutdown
    else reboot in
  match scheduled with
  | Some s =>
      if contains "MODE=reboot" s then reboot
      else if contains "MODE=poweroff" s then shutdown
      else by_target
  | None => by_target
  end.

Section lifecycle.
Context (host : HostId).

(** src/agent/src/modules/lifecycle.rs:138-166 (lifecycle_alert_builder). *)
Definition lifecycle_alert_builder (metric title source : string) : AlertBuilder :=
  let init :=
    if decide (source = "logind.PrepareForShutdown") then "by systemd-logind"
    else if decide (source = "shutdown.scheduled_file")
    then "from /run/systemd/shutdown/scheduled (PrepareForShutdown may lag)"
    else "by lifecycle monitor" in
  let motion := if decide (metric = "host_rebooting") then "a controlled reboot sequence"
                else "a controlled shutdown sequence" in
  new_alert host cat.LIFECYCLE metric Warning
  |> with_title title
  |> with_message ("Host " +:+ hostname host +:+ " is entering " +:+ motion +:+ " (" +:+ init
       +:+ "). Agent will stop in ~5 s.")
  |> raw_kv "source" (VString source).

(** A tick of the poll: whether the scheduled file exists, its text if it can be
    read, and the default target. *)
Record SchedTick : Type := mkSched {
  st_exists : bool; st_text : option string; st_target : option string
}.

(** src/agent/src/modules/lifecycle.rs:76-91 (the loop body of
    scheduled_file_poll). *)
Definition scheduled_tick (x : SchedTick) (alerted : bool) : bool * list Action :=
  if st_exists x then
    (true,
     if alerted then []
     else let k := guess_kind (st_text x) (st_target x) in
          [ActObserve (lifecycle_alert_builder k.1 k.2 "shutdown.scheduled_file")])
  else (false, []).

(** src/agent/src/modules/lifecycle.rs:117-135 (the signal loop of
    logind_shutdown_loop): a signal is its flag, [None] for a bad payload.  The
    result is true for [Ok], false for the error of an ended stream. *)
Fixpoint logind_signals (scheduled target : option string) (signals : list (option bool)) :
    list Action * bool :=
  match signals with
  | [] => ([], false)
  | Some true :: _ =>
      let k := guess_kind scheduled target in
      ([ActObserve (lifecycle_alert_builder k.1 k.2 "logind.PrepareForShutdown")], true)
  | _ :: signals' => logind_signals scheduled target signals'
  end.

(** src/agent/src/modules/lifecycle.rs:94-136 (logind_shutdown_loop); [None] when
    D-Bus, the inhibitor or the subscription fails. *)
Definition logind_shutdown_loop (scheduled target : option string)
    (session : option (list (option bool))) : list Action * bool :=
  match session with
  | None => ([], false)
  | Some signals => logind_signals scheduled target signals
  end.

(** src/agent/src/modules/lifecycle.rs:55-66 (the retry pause of spawn, in
    seconds). *)
Definition logind_pause (ok : bool) : Z := if ok then 1 else 5.

(** The scheduled file is reported once for each time it appears. *)
Lemma scheduled_edge xs x :
  let alerted := foldl (fun b y => fst (scheduled_tick y b)) false xs in
  snd (scheduled_tick x alerted) <> []
  <-> st_exists x = true /\ match last xs with Some y => st_exists y = false | None => True end.
Proof.
  cbv zeta.
  assert (Ha : foldl (fun b y => fst (scheduled_tick y b)) false xs
    = match last xs with Some y => st_exists y | None => false end).
  { induction xs as [|y xs _] using rev_ind; [done|].
    rewrite foldl_app, last_snoc. simpl. unfold scheduled_tick. by destruct (st_exists y). }
  rewrite Ha. unfold scheduled_tick. destruct (st_exists x); simpl.
  - destruct (last xs) as [y|]; [destruct (st_exists y)|]; naive_solver.
  - naive_solver.
Qed.

(** * Reboot detection *)

(** src/agent/src/modules/boot.rs:54-65 (suggested_cause). *)
Definition suggested_cause (tainted : Z) : string :=
  let bit (m : Z) (name : string) := if Z.land tainted m =? 0 then [] else [name] in
  let hints := (bit 128 "machine check (MCE)" ++ bit 512 "warning"
    ++ bit 1024 "crap module loaded" ++ bit 2048 "bad page reference"
    ++ bit 16384 "kernel hard / soft lockup")%list in
  match hints with
  | [] => "no taint bits set — might have been a clean reboot we missed, or a hard power event"
  | _ => join ", " hints
  end.

(** src/agent/src/modules/boot.rs:69-84 (the unclean_reboot_check alert). *)
Definition reboot_builder (prev_id cur_id : string) (tainted : Z) : AlertBuilder :=
  new_alert host cat.BOOT "unclean_reboot_check" Warning
  |> with_title "Host rebooted since last agent run"
  |> with_message ("Boot id changed (" +:+ prev_id +:+ " → " +:+ cur_id
       +:+ ") since the agent last ran. Likely cause: " +:+ suggested_cause tainted
       +:+ ". Check `journalctl -b -1` for the tail of the previous boot.")
  |> raw_kv "tainted" (VInt tainted)
  |> raw_kv "prev_boot_id" (VString prev_id)
  |> raw_kv "cur_boot_id" (VString cur_id).

(** A start of the agent: the boot id, whether the state file can be written, and
    the taint flags; [None] when a file cannot be read. *)
Record BootStart : Type := mkBoot {
  bs_boot_id : option string; bs_write_ok : bool; bs_tainted : option string; bs_stamp : Stamp
}.

(** src/agent/src/modules/boot.rs:31-88 (run, on the content of the state file): its
    new content and the actions. *)
Definition boot_run (x : BootStart) (state_file : option string) :
    option string * list Action :=
  let cur := trim <$> bs_boot_id x in
  let prev := trim <$> state_file in
  let state_file' := match cur with
                     | Some b => if bs_write_ok x then Some b else state_file
                     | None => state_file
                     end in
  match prev, cur with
  | Some p, Some c =>
      if decide (p <> c) then
        let tainted := default 0 (s ← bs_tainted x; parse_unsigned Int.u64_max (trim s)) in
        (state_file', [ActSend (OutAlert (build_firing (bs_stamp x) (reboot_builder p c tainted)))])
      else (state_file', [])
  | _, _ => (state_file', [])
  end.

(** The last boot id a run of starts recorded. *)
Fixpoint last_boot (xs : list BootStart) : option string :=
  match xs with
  | [] => None
  | x :: xs' =>
      match last_boot xs' with
      | Some b => Some b
      | None => if bs_write_ok x then trim <$> bs_boot_id x else None
      end
  end.

Definition boot_runs (xs : list BootStart) : option string :=
  foldl (fun f x => fst (boot_run x f)) None xs.

Lemma last_boot_snoc xs x :
  last_boot (xs ++ [x]) = if bs_write_ok x
                          then match bs_boot_id x with
                               | Some b => Some (trim b)
                               | None => last_boot xs
                               end
                          else last_boot xs.
Proof.
  induction xs as [|y xs IH]; simpl.
  - destruct (bs_write_ok x); [|done]. by destruct (bs_boot_id x).
  - rewrite IH. destruct (bs_write_ok x); [|done]. by destruct (bs_boot_id x).
Qed.

Lemma boot_runs_spec xs : boot_runs xs = last_boot xs.
Proof.
  induction xs as [|x xs IH] using rev_ind; [done|].
  unfold boot_runs in *. rewrite foldl_app, last_boot_snoc, <- IH. simpl.
  unfold boot_run. destruct (bs_boot_id x) as [b|]; simpl; [|by destruct (bs_write_ok x), (foldl _ _ _)].
  destruct (foldl _ _ _) as [f|]; simpl; [case_decide|]; by destruct (bs_write_ok x).
Qed.

(** A start reports a reboot exactly when its boot id differs from the last one a
    start could record; the very first start reports nothing. *)
Lemma reboot_reported xs x :
  snd (boot_run x (boot_runs xs)) <> []
  <-> exists p c, last_boot xs = Some p /\ bs_boot_id x = Some c /\ trim p <> trim c.
Proof.
  rewrite boot_runs_spec. unfold boot_run.
  destruct (last_boot xs) as [p|], (bs_boot_id x) as [c|]; simpl; [|naive_solver..].
  case_decide as Hd; simpl; [naive_solver|]. split; [done|].
  intros (p' & c' & [= <-] & [= <-] & Hne). done.
Qed.

End lifecycle.
