(* ===== verification/SyslogRules.v ===== *)
(** Journal rules: the line filter of the reader (src/agent/src/journal.rs) and the
    configured rules applied to each line (src/agent/src/modules/syslog_rules.rs). *)
From S2P Require Import Prelude Text Schema Tracker Channels Bus Runtime Host Regex.
From S2P Require Import Config.
From Stdlib Require Import Ascii.

Local Open Scope string_scope.
Local Open Scope Z_scope.

(** * The journal *)

(** src/agent/src/journal.rs:23-26 (JournalLine). *)
Record JournalLine : Type := mkJournalLine { j_text : string }.

Fixpoint drop_eol (s : string) : string :=
  match s with
  | String c s' => if Ascii.eqb c LF || Ascii.eqb c CR then drop_eol s' else s
  | EmptyString => EmptyString
  end.
(** [trim_end_matches] of line feeds and carriage returns. *)
Definition trim_eol (s : string) : string := rev_string (drop_eol (rev_string s)).

(** What [read_line] gives: the end, a line, or an error. *)
Inductive ReadLine : Type := RlEof | RlLine (s : string) | RlError.

(** src/agent/src/journal.rs:71-89 (the read loop of one journalctl): the lines
    broadcast until it ends. *)
Fixpoint journal_session (reads : list ReadLine) : list JournalLine :=
  match reads with
  | RlLine s :: reads' =>
      let trimmed := trim_eol s in
      if is_empty trimmed then journal_session reads'
      else mkJournalLine trimmed :: journal_session reads'
  | _ => []
  end.

(** src/agent/src/journal.rs:43-92 (the restart loop of spawn): a round is the reads
    of a journalctl that started, or [None]. *)
Definition journal_spawn (rounds : list (option (list ReadLine))) : list JournalLine :=
  concat (map (fun r => match r with Some reads => journal_session reads | None => [] end) rounds).

(** * The rules *)

(** src/agent/src/modules/syslog_rules.rs:37-40 (JOURNAL_LINK_IFACE). *)
Definition journal_link_iface : string :=
  "(?i)([\w.@+:~/-]{2,80}):\s+(?:Link\s+(?:DOWN|UP)|lost\s+carrier|NO-CARRIER)\b".

Section rules.
Context `{RegexEngine}.
Context (host : HostId).

(** src/agent/src/modules/syslog_rules.rs:26-33 (Compiled). *)
Record Compiled : Type := mkCompiled {
  c_name : string;
  c_re : Regex;
  c_severity : Severity;
  c_category : string;
  c_title : string;
  c_message : string
}.

(** src/agent/src/modules/syslog_rules.rs:110-114 (severity). *)
Definition rule_severity (s : string) : Severity :=
  let l := to_lowercase s in
  if decide (l = "critical") then Critical
  else if decide (l = "warning") then Warning else Info.

(** src/agent/src/modules/syslog_rules.rs:107-122 (one rule of compile_rules). *)
Definition compile_rule (r : SyslogRule) : option Compiled :=
  re ← re_new (sr_regex r);
  Some (mkCompiled (sr_name r) re (rule_severity (sr_severity r)) (sr_category r)
          (sr_title r) (sr_message r)).

(** src/agent/src/modules/syslog_rules.rs:105-125 (compile_rules); [None] is an
    error, on the first pattern that does not compile. *)
Definition compile_rules (cfg : SyslogRulesCfg) : option (list Compiled) :=
  mapM compile_rule (rules cfg).

Section lines.
Context (link_re : Regex) (nic_ignore : list Regex).

(** src/agent/src/modules/syslog_rules.rs:42-44 (iface_kernel_link_journal). *)
Definition iface_kernel_link_journal (text : string) : option string :=
  match captures link_re text with Some c => Some (grp 1 c) | None => None end.

(** src/agent/src/modules/syslog_rules.rs:82-92 (the alert of a rule). *)
Definition rule_builder (r : Compiled) (text : string) : AlertBuilder :=
  new_alert host (c_category r) (c_name r) (c_severity r)
  |> with_title (c_title r)
  |> with_message (replace "{match}" text (c_message r))
  |> raw_kv "journal" (VString text).

(** src/agent/src/modules/syslog_rules.rs:72-95 (one rule on one line). *)
Definition rule_line (text : string) (r : Compiled) : list Action :=
  if negb (is_match (c_re r) text) then []
  else if eq_ignore_ascii_case (c_category r) "network_nic"
          && match iface_kernel_link_journal text with
             | Some iface => set_is_match nic_ignore iface
             | None => false
             end
  then []
  else [ActObserve (rule_builder r text)].

(** src/agent/src/modules/syslog_rules.rs:68-101 (the loop of spawn); [None] ends
    it. *)
Definition rules_step (rs : list Compiled) (x : BRecv JournalLine) : option (list Action) :=
  match x with
  | BOk line => Some (concat (map (rule_line (j_text line)) rs))
  | BLagged _ => Some []
  | BClosed => None
  end.

(** src/agent/src/modules/syslog_rules.rs:54-65 (the start of spawn): the rules in
    force, none when the module is off or a pattern is bad. *)
Definition rules_in_force (cfg : SyslogRulesCfg) : list Compiled :=
  if rules_enabled cfg then default [] (compile_rules cfg) else [].

(** One bad pattern turns every rule off. *)
Lemma rules_all_or_nothing cfg r :
  r ∈ rules cfg -> re_new (sr_regex r) = None -> rules_in_force cfg = [].
Proof.
  intros Hin Hr. unfold rules_in_force. destruct (rules_enabled cfg); [|done].
  unfold compile_rules. destruct (mapM compile_rule (rules cfg)) as [l|] eqn:E; [|done].
  exfalso. apply mapM_Some in E. apply list_elem_of_lookup_1 in Hin as [i Hi].
  destruct (Forall2_lookup_l _ _ _ _ _ E Hi) as (c & _ & Hc).
  unfold compile_rule in Hc. by rewrite Hr in Hc.
Qed.

(** The alerts of a rule carry no device: all its lines share one fingerprint. *)
Lemma rule_fingerprint r t1 t2 :
  fingerprint (rule_builder r t1) = fingerprint (rule_builder r t2).
Proof. done. Qed.

End lines.
End rules.
