(* ===== verification/ModuleSpecs.v ===== *)
(** What every detection module promises about its reports: the host and category
    they carry, and which of them it may resolve.

    The interface is [meets]: a module's handler only performs actions that meet
    the module's specification.  [Pipeline]'s agreement between agent and
    collector is proved for the whole agent from these specifications alone. *)
From S2P Require Import Prelude Text Schema Channels Tracker Bus Runtime Host Regex.
From S2P Require Command Config Float.
From S2P Require Nvme DiskSmart Thermal NetworkNic StorageController StorageIo.
From S2P Require MemPressure OsHang MemoryEcc CpuMce PcieAer Gpu Bmc Lifecycle.

Local Open Scope Z_scope.

(** A category, and the metric the module may resolve with its one severity. *)
Record Spec : Type := mkSpec {
  sp_category : string;
  sp_resolves : option (string * Severity)
}.

Definition meets (host_id : string) (sp : Spec) (a : Action) : Prop :=
  match a with
  | ActObserve b =>
      b_host_id b = host_id /\ b_category b = sp_category sp
      /\ match sp_resolves sp with
         | Some (m, sv) => pipe_free (b_metric b) /\ (b_metric b = m -> b_severity b = sv)
         | None => True
         end
  | ActObserveOk fp | ActForceResolve fp =>
      match sp_resolves sp with
      | Some (m, _) =>
          exists device, fp = format_fingerprint host_id (sp_category sp) device m
      | None => False
      end
  | ActSend _ => False
  end.

Abbreviation all_meet hid sp := (Forall (meets hid sp)).

(** * Composing reports *)

Lemma meet_concat {A} hid sp (f : A -> list Action) l :
  (forall x, all_meet hid sp (f x)) -> all_meet hid sp (concat (map f l)).
Proof. intros Hf. induction l as [|x l IH]; simpl; [done|]. by apply Forall_app. Qed.

Lemma meet_map {A} hid sp (f : A -> AlertBuilder) l :
  (forall x, meets hid sp (ActObserve (f x))) ->
  all_meet hid sp (map (fun x => ActObserve (f x)) l).
Proof. intros Hf. induction l; simpl; by constructor. Qed.

Lemma meet_omap {A} hid sp (f : A -> option Action) l :
  (forall x a, f x = Some a -> meets hid sp a) -> all_meet hid sp (omap f l).
Proof.
  intros Hf. apply Forall_forall. intros a Ha.
  apply list_elem_of_omap in Ha as (x & _ & Hx). by eapply Hf.
Qed.

Lemma meet_fold {St X} hid sp (f : St -> X -> St * list Action) xs st :
  (forall s x, all_meet hid sp (snd (f s x))) -> all_meet hid sp (snd (fold_actions f xs st)).
Proof.
  intros Hf. apply Forall_forall. intros a Ha.
  apply elem_of_fold_actions in Ha as (b & x & c & _ & Ha).
  exact (proj1 (Forall_forall _ _) (Hf _ _) a Ha).
Qed.

(** A fold that carries the actions so far. *)
Lemma meet_foldl {St X} hid sp (f : St * list Action -> X -> St * list Action) xs st l :
  (forall s l x, all_meet hid sp l -> all_meet hid sp (snd (f (s, l) x))) ->
  all_meet hid sp l -> all_meet hid sp (snd (foldl f (st, l) xs)).
Proof.
  intros Hf. revert st l. induction xs as [|x xs IH]; intros st l Hl; [done|].
  simpl. pose proof (Hf st l x Hl) as Hx. destruct (f (st, l) x) as [st' l']. by apply IH.
Qed.

(** An action list put together by case analysis and concatenation. *)
Ltac meet :=
  repeat first
    [ apply Forall_nil; exact I
    | apply Forall_cons; split
    | apply Forall_app; split
    | case_match; simplify_eq/= ];
  try done.

(** * The specifications *)

Definition nvme_spec : Spec := mkSpec cat.NVME (Some ("critical_warning", Critical)).
Definition smart_spec : Spec := mkSpec cat.DISK_SMART None.
Definition thermal_spec : Spec := mkSpec cat.THERMAL None.
Definition nic_spec : Spec := mkSpec cat.NETWORK_NIC (Some ("link_down", Warning)).
Definition controller_spec : Spec := mkSpec cat.STORAGE_CONTROLLER None.
Definition storage_io_spec : Spec := mkSpec cat.STORAGE_IO None.
Definition mempressure_spec : Spec := mkSpec cat.MEMORY_PRESSURE (Some ("psi_high", Warning)).
Definition oshang_spec : Spec := mkSpec cat.OS_HANG None.
Definition ecc_spec : Spec := mkSpec cat.MEMORY_ECC None.
Definition mce_spec : Spec := mkSpec cat.CPU_MCE None.
Definition aer_spec : Spec := mkSpec cat.PCIE_AER None.
Definition nvidia_spec : Spec := mkSpec cat.GPU_NVIDIA None.
Definition amd_spec : Spec := mkSpec cat.GPU_AMD None.
Definition redfish_spec : Spec := mkSpec cat.BMC_REDFISH None.
Definition eventlog_spec : Spec := mkSpec cat.BMC_EVENTLOG None.
Definition lifecycle_spec : Spec := mkSpec cat.LIFECYCLE None.

Section modules.
Context (host : HostId).

Lemma nvme_meets cfg drives last :
  all_meet (machine_id host) nvme_spec (snd (Nvme.poll_drives host cfg drives last)).
Proof.
  unfold Nvme.poll_drives. apply meet_foldl; [|done].
  intros s l [[dev model] [log|]] Hl; [|done]. cbn [snd fst].
  apply Forall_app. split; [done|].
  unfold Nvme.poll_one, Nvme.check_critical_warning, Nvme.check_wear, Nvme.check_media,
    Nvme.check_err_log, Nvme.check_temperature. cbn [snd fst].
  meet; by eexists.
Qed.

Lemma smart_meets drives :
  all_meet (machine_id host) smart_spec (DiskSmart.smart_tick host drives).
Proof.
  apply meet_concat. intros [dev [r|]]; [|done]. cbn [snd fst].
  unfold DiskSmart.smart_poll_one. apply Forall_app. split.
  - unfold DiskSmart.check_overall. meet.
  - apply meet_concat. intros a. unfold DiskSmart.check_attr. meet.
Qed.

Lemma thermal_meets cfg ipmi now counters reading st :
  all_meet (machine_id host) thermal_spec
    (snd (Thermal.thermal_tick host cfg ipmi now counters reading st)).
Proof.
  assert (Hc : all_meet (machine_id host) thermal_spec
    (snd (fold_actions (Thermal.throttle_cpu host) counters (Thermal.th_throttle st)))).
  { apply meet_fold. intros s [cpu n]. unfold Thermal.throttle_cpu. cbn [snd]. meet. }
  unfold Thermal.thermal_tick. destruct ipmi; cbn [snd]; [|done].
  apply Forall_app. split; [done|]. unfold Thermal.inlet_step. meet.
Qed.

Lemma nic_transition_meets cfg now iface state prev win :
  all_meet (machine_id host) nic_spec
    (snd (NetworkNic.on_transition host cfg now iface state prev win)).
Proof.
  unfold NetworkNic.on_transition. cbn [snd]. apply Forall_app. split.
  - destruct (negb _), prev; meet. by exists (Some iface).
  - meet.
Qed.

Lemma nic_link_meets `{RegexEngine} cfg ignore now m st :
  all_meet (machine_id host) nic_spec (snd (NetworkNic.on_link host cfg ignore now m st)).
Proof.
  unfold NetworkNic.on_link. cbv zeta. destruct (_ !! NetworkNic.lm_index m) as [iface|]; [|done].
  destruct (set_is_match _ _); [done|].
  destruct (snd (NetworkNic.link_attrs m)) as [state|]; [|done].
  case_decide; [done|]. apply nic_transition_meets.
Qed.

Lemma nic_counter_meets `{RegexEngine} ignore read ifaces st :
  all_meet (machine_id host) nic_spec
    (snd (NetworkNic.counter_tick host ignore read ifaces st)).
Proof.
  unfold NetworkNic.counter_tick. destruct ifaces as [l|]; [|done].
  apply meet_foldl; [|done]. intros s acts iface Hl. cbn [fst snd].
  apply Forall_app. split; [done|]. unfold NetworkNic.poll_iface.
  repeat (case_match; simplify_eq/=); try done. unfold NetworkNic.check_delta. meet.
Qed.

Lemma lockup_meets `{RegexEngine} re t :
  all_meet (machine_id host) controller_spec (StorageController.lockup_line host re t).
Proof. unfold StorageController.lockup_line. meet. Qed.

Lemma controller_poll_meets `{Command.HashOrder} view last :
  all_meet (machine_id host) controller_spec
    (snd (StorageController.poll_view host view last)).
Proof.
  unfold StorageController.poll_view. case_decide; [done|]. cbn [snd].
  apply Forall_app. split; [by apply meet_map|].
  apply meet_omap. intros [slot c] a. simpl. case_match; [done|]. by intros [= <-].
Qed.

Lemma block_meets `{Command.HashOrder} now last :
  all_meet (machine_id host) storage_io_spec (snd (StorageIo.block_tick host now last)).
Proof. unfold StorageIo.block_tick. case_decide; [done|]. by apply meet_map. Qed.

Lemma io_meets `{RegexEngine} re t :
  all_meet (machine_id host) storage_io_spec (StorageIo.io_line host re t).
Proof. unfold StorageIo.io_line. meet. Qed.

Lemma osd_meets units last :
  all_meet (machine_id host) storage_io_spec (snd (StorageIo.osd_tick host units last)).
Proof.
  unfold StorageIo.osd_tick. destruct units as [us|]; [|done].
  apply meet_fold. intros s [name active]. unfold StorageIo.osd_unit. meet.
Qed.

Lemma psi_meets cfg x since :
  all_meet (machine_id host) mempressure_spec (snd (MemPressure.psi_tick host cfg x since)).
Proof. unfold MemPressure.psi_tick. meet. by exists None. Qed.

Lemma oom_meets `{RegexEngine} cfg re now r storm storm' acts :
  MemPressure.oom_step host cfg re now r storm = Some (storm', acts) ->
  all_meet (machine_id host) mempressure_spec acts.
Proof. unfold MemPressure.oom_step. intros ?. cases; meet. Qed.

Lemma hang_meets `{RegexEngine} re t :
  all_meet (machine_id host) oshang_spec (OsHang.hang_line host re t).
Proof. unfold OsHang.hang_line. meet. Qed.

Lemma ecc_ipmi_meets cfg sensors prev :
  all_meet (machine_id host) ecc_spec (snd (MemoryEcc.ipmi_tick host cfg sensors prev)).
Proof.
  apply meet_fold. intros s [[name ce] ue]. unfold MemoryEcc.ipmi_sensor. cbn [snd]. meet.
Qed.

Lemma ecc_edac_meets cfg counters last :
  all_meet (machine_id host) ecc_spec (snd (MemoryEcc.edac_tick host cfg counters last)).
Proof.
  apply meet_fold. intros s [[name ce] ue]. unfold MemoryEcc.edac_controller. cbn [snd]. meet.
Qed.

Lemma mce_meets `{RegexEngine} re t acts :
  CpuMce.mce_line host re t = Some acts -> all_meet (machine_id host) mce_spec acts.
Proof.
  unfold CpuMce.mce_line. case_match; [by intros [= <-]|].
  intros ([[sev title] metric] & _ & [= <-])%bind_Some. meet.
Qed.

Lemma aer_meets `{RegexEngine} cfg re lspci now t w :
  all_meet (machine_id host) aer_spec (snd (PcieAer.aer_line host cfg re lspci now t w)).
Proof. unfold PcieAer.aer_line. meet. Qed.

Lemma nvidia_meets machine :
  all_meet (machine_id host) nvidia_spec (Gpu.nvidia_tick host machine).
Proof.
  unfold Gpu.nvidia_tick. case_match; [|done]. apply meet_concat. intros r.
  unfold Gpu.check_gpu. meet.
Qed.

Lemma amd_meets rocm from_slice machine cards :
  all_meet (machine_id host) amd_spec (Gpu.amd_tick host rocm from_slice machine cards).
Proof.
  unfold Gpu.amd_tick. destruct rocm.
  - unfold Gpu.poll_rocm. destruct (Command.run _ _ _ _) as [o|]; [|done]. simpl.
    destruct (Command.o_success o); [|done].
    destruct (from_slice _) as [[]|]; try done. simpl. apply meet_concat.
    intros [card body]. unfold Gpu.rocm_card. meet.
  - apply meet_concat. intros [n sensors]. case_match; [done|].
    apply meet_omap. intros o a Ha.
    apply bind_Some in Ha as (s & _ & Ha). apply bind_Some in Ha as (c & _ & Ha).
    cbv zeta in Ha. destruct (Float.f32_geb _ _); [by injection Ha as <-|done].
Qed.

Lemma redfish_meets cfg fetch :
  all_meet (machine_id host) redfish_spec (Bmc.redfish_tick host cfg fetch).
Proof.
  unfold Bmc.redfish_tick. case_match; [done|]. unfold Bmc.poll_redfish.
  destruct (fetch _) as [resp|]; [|done]. simpl. apply meet_concat. intros m.
  assert (Hf : forall j, all_meet (machine_id host) redfish_spec (Bmc.check_fans host j))
    by (intros j; apply meet_concat; intros f; unfold Bmc.check_fan; meet).
  assert (Hp : forall j, all_meet (machine_id host) redfish_spec (Bmc.check_psus host j))
    by (intros j; apply meet_concat; intros f; unfold Bmc.check_psu; meet).
  meet.
Qed.

Lemma eventlog_meets cfg fetch machine last :
  all_meet (machine_id host) eventlog_spec
    (snd (Bmc.eventlog_tick host cfg fetch machine last)).
Proof.
  assert (Hi : all_meet (machine_id host) eventlog_spec (Bmc.poll_ipmi host machine))
    by (unfold Bmc.poll_ipmi; meet).
  unfold Bmc.eventlog_tick. destruct (negb _); [|done].
  unfold Bmc.eventlog_poll. destruct (foldl _ _ _) as [st acts] eqn:E. cbn [snd].
  change acts with (snd (st, acts)). rewrite <- E. apply meet_foldl; [|done].
  intros s l log Hl. unfold Bmc.poll_log. destruct (Bmc.listing _ _) as [ms|]; [|done].
  cbn [fst snd]. apply meet_foldl; [|done]. intros newest l' m Hl'.
  unfold Bmc.log_entry. case_match; [done|]. cbn [fst snd].
  apply Forall_app. split; [done|]. unfold Bmc.entry_action.
  destruct (Bmc.entry_severity _); simpl; meet.
Qed.

Lemma scheduled_meets x alerted :
  all_meet (machine_id host) lifecycle_spec (snd (Lifecycle.scheduled_tick host x alerted)).
Proof. unfold Lifecycle.scheduled_tick. meet. Qed.

Lemma logind_meets scheduled target session :
  all_meet (machine_id host) lifecycle_spec
    (fst (Lifecycle.logind_shutdown_loop host scheduled target session)).
Proof.
  unfold Lifecycle.logind_shutdown_loop. destruct session as [l|]; [|done].
  induction l as [|[[]|] l IH]; try done. simpl. meet.
Qed.

End modules.

Create HintDb specs.
#[export] Hint Resolve nvme_meets smart_meets thermal_meets nic_link_meets nic_counter_meets
  lockup_meets controller_poll_meets block_meets io_meets osd_meets psi_meets hang_meets
  ecc_ipmi_meets ecc_edac_meets aer_meets nvidia_meets amd_meets redfish_meets eventlog_meets
  scheduled_meets logind_meets : specs.
