(* ===== verification/AgentModules.v ===== *)
(** The detection modules as the agent runs them: the order in which
    src/agent/src/main.rs spawns them, the gate and the poll period of each task
    ([spawn] in src/agent/src/modules/), and one step of every task.

    A task is a state and a handler; its state type depends on the task.  The
    answers of the machine (files, commands, kernel lines) are the inputs. *)
From S2P Require Import Prelude Text Utf8 Schema Json Channels Tracker Bus Runtime Host Regex.
From S2P Require Import Command Config Float VendorDetect Kmsg ModuleSpecs.
From S2P Require Nvme DiskSmart Thermal NetworkNic StorageController StorageIo.
From S2P Require MemPressure OsHang MemoryEcc CpuMce PcieAer Gpu Bmc Lifecycle SyslogRules.

Local Open Scope string_scope.
Local Open Scope Z_scope.

(** * Modules and their trackers *)

Inductive ModuleId : Type :=
  | MNvme | MDiskSmart | MThermal | MNetworkNic | MStorageController | MStorageIo
  | MMemPressure | MOsHang | MMemoryEcc | MCpuMce | MPcieAer | MSyslogRules
  | MGpuNvidia | MGpuAmd | MBmcRedfish | MBmcEventlog | MLifecycle | MBoot.

#[export] Instance module_eq_dec : EqDecision ModuleId.
Proof. solve_decision. Defined.

(** src/agent/src/main.rs:164-216 (the module spawns, in program order). *)
Definition spawn_order : list ModuleId :=
  [MNvme; MDiskSmart; MThermal; MNetworkNic; MStorageController; MStorageIo;
   MMemPressure; MOsHang; MMemoryEcc; MCpuMce; MPcieAer; MSyslogRules;
   MGpuNvidia; MGpuAmd; MBmcRedfish; MBmcEventlog; MLifecycle; MBoot].

(** The tracker a module got: the result of that call of [make_tracker]. *)
Definition module_index (m : ModuleId) : nat :=
  match list_find (fun x => x = m) spawn_order with Some (i, _) => i | None => 0%nat end.

Lemma module_index_order m : spawn_order !! module_index m = Some m.
Proof. by destruct m. Qed.

#[export] Instance module_index_inj : Inj (=) (=) module_index.
Proof.
  intros m1 m2 Heq. pose proof (module_index_order m1) as H1.
  rewrite Heq, module_index_order in H1. by injection H1.
Qed.

(** The tasks that report: a module spawns one task or several, which share its
    tracker. *)
Inductive Task : Type :=
  | TNvme | TSmart | TThermal | TNicLink | TNicCounter | TCtrlKmsg | TCtrlPoll
  | TIoKmsg | TIoBlock | TIoCeph | TPsi | TOom | THang | TEccEdac | TEccIpmi
  | TMce | TAer | TRules | TNvidia | TAmd | TRedfish | TEventlog | TScheduled | TLogind.

#[export] Instance task_eq_dec : EqDecision Task.
Proof. solve_decision. Defined.

Definition module_of (t : Task) : ModuleId :=
  match t with
  | TNvme => MNvme
  | TSmart => MDiskSmart
  | TThermal => MThermal
  | TNicLink | TNicCounter => MNetworkNic
  | TCtrlKmsg | TCtrlPoll => MStorageController
  | TIoKmsg | TIoBlock | TIoCeph => MStorageIo
  | TPsi | TOom => MMemPressure
  | THang => MOsHang
  | TEccEdac | TEccIpmi => MMemoryEcc
  | TMce => MCpuMce
  | TAer => MPcieAer
  | TRules => MSyslogRules
  | TNvidia => MGpuNvidia
  | TAmd => MGpuAmd
  | TRedfish => MBmcRedfish
  | TEventlog => MBmcEventlog
  | TScheduled | TLogind => MLifecycle
  end.

(** What a module promises; the journal rules promise nothing, their categories and
    names are the configuration's. *)
Definition module_spec (m : ModuleId) : option Spec :=
  match m with
  | MNvme => Some nvme_spec
  | MDiskSmart => Some smart_spec
  | MThermal => Some thermal_spec
  | MNetworkNic => Some nic_spec
  | MStorageController => Some controller_spec
  | MStorageIo => Some storage_io_spec
  | MMemPressure => Some mempressure_spec
  | MOsHang => Some oshang_spec
  | MMemoryEcc => Some ecc_spec
  | MCpuMce => Some mce_spec
  | MPcieAer => Some aer_spec
  | MSyslogRules => None
  | MGpuNvidia => Some nvidia_spec
  | MGpuAmd => Some amd_spec
  | MBmcRedfish => Some redfish_spec
  | MBmcEventlog => Some eventlog_spec
  | MLifecycle => Some lifecycle_spec
  | MBoot => None
  end.

(** A category belongs to one module. *)
Lemma module_spec_inj m1 m2 sp1 sp2 :
  module_spec m1 = Some sp1 -> module_spec m2 = Some sp2 ->
  sp_category sp1 = sp_category sp2 -> m1 = m2.
Proof. destruct m1, m2; intros [= <-] [= <-]; try done; by intros ?%(f_equal String.length). Qed.

(** * Which tasks run *)

(** What the spawned tasks ask of the machine before their first tick: the detected
    profile, whether a path exists, whether a command is found. *)
Record SpawnEnv : Type := mkSpawnEnv {
  env_vendor : VendorProfile;
  env_path_exists : string -> bool;
  env_cmd_exists : string -> bool
}.

Section spawn.
Context (ms : ModulesBlock) (env : SpawnEnv).

Definition ipmi_device_exists : bool :=
  env_path_exists env "/dev/ipmi0" || env_path_exists env "/dev/ipmi/0"
  || env_path_exists env "/dev/ipmidev/0".

(** src/agent/src/modules/nvme.rs:34-43 (the gate of spawn). *)
Definition nvme_spawned : bool := nvme_enabled (m_nvme ms) && env_cmd_exists env "nvme".

(** src/agent/src/modules/disk_smart.rs:27-42 (the gate of spawn). *)
Definition smart_spawned : bool :=
  smart_enabled (m_disk_smart ms) && has_smartctl (env_vendor env).

(** src/agent/src/modules/thermal.rs:29-40 (the gate of spawn). *)
Definition thermal_spawned : bool := thermal_enabled (m_thermal ms).

(** src/agent/src/modules/thermal.rs:46-54 (ipmi_available). *)
Definition ipmi_available : bool := has_ipmitool (env_vendor env) && ipmi_device_exists.

(** src/agent/src/modules/network_nic.rs:40-49 (the gate of spawn). *)
Definition nic_spawned : bool := nic_enabled (m_network_nic ms).

(** src/agent/src/modules/storage_controller.rs:47-64 (spawn: both tasks). *)
Definition ctrl_spawned : bool := ctrl_enabled (m_storage_controller ms).

(** src/agent/src/modules/storage_io.rs:28-54 (spawn: the two loops, and the Ceph watch). *)
Definition io_spawned : bool := sio_enabled (m_storage_io ms).
Definition ceph_spawned : bool := sio_enabled (m_storage_io ms) && watch_ceph_osd (m_storage_io ms).

(** src/agent/src/modules/mempressure.rs:27-49 (spawn, and the gate of psi_loop). *)
Definition oom_spawned : bool := mp_enabled (m_mempressure ms).
Definition psi_spawned : bool :=
  mp_enabled (m_mempressure ms) && env_path_exists env "/proc/pressure/memory".

(** src/agent/src/modules/oshang.rs:22-33 (the gate of spawn). *)
Definition hang_spawned : bool := se_enabled (m_oshang ms).

(** src/agent/src/modules/memory_ecc.rs:38-108 (spawn, and the gates of
    ipmi_sdr_poll_loop). *)
Definition edac_spawned : bool := ecc_enabled (m_memory_ecc ms) && edac_sysfs_enable (m_memory_ecc ms).
Definition ecc_ipmi_spawned : bool :=
  ecc_enabled (m_memory_ecc ms) && ipmi_sdr_enable (m_memory_ecc ms)
  && ipmi_device_exists && env_cmd_exists env "ipmitool".

(** src/agent/src/modules/cpu_mce.rs:20-31 (the gate of spawn). *)
Definition mce_spawned : bool := se_enabled (m_cpu_mce ms).

(** src/agent/src/modules/pcie_aer.rs:23-34 (the gate of spawn). *)
Definition aer_spawned : bool := aer_enabled (m_pcie_aer ms).

(** src/agent/src/modules/gpu_nvidia.rs:22-33 (the gate of spawn). *)
Definition nvidia_spawned : bool :=
  se_enabled (m_gpu_nvidia ms)
  && existsb (String.eqb "nvidia") (gpu_vendors (vendor_info (env_vendor env))).

(** src/agent/src/modules/gpu_amd.rs:22-33 (the gate of spawn). *)
Definition amd_spawned : bool :=
  se_enabled (m_gpu_amd ms)
  && existsb (String.eqb "amd") (gpu_vendors (vendor_info (env_vendor env))).

(** src/agent/src/modules/bmc_redfish.rs:19-24 (the gate of spawn). *)
Definition redfish_spawned : bool := bmc_enabled (m_bmc_redfish ms).

(** src/agent/src/modules/bmc_eventlog.rs:26-31 (the gate of spawn). *)
Definition eventlog_spawned : bool := bmc_enabled (m_bmc_eventlog ms).

(** src/agent/src/modules/lifecycle.rs:42-53 (the gate of spawn). *)
Definition lifecycle_spawned : bool := se_enabled (m_lifecycle ms).

(** src/agent/src/modules/boot.rs:19-29 (spawn). *)
Definition boot_spawned : bool := se_enabled (m_boot ms).

(** Whether main's spawns lead to a running task. *)
Definition task_spawned (t : Task) : bool :=
  match t with
  | TNvme => nvme_spawned
  | TSmart => smart_spawned
  | TThermal => thermal_spawned
  | TNicLink | TNicCounter => nic_spawned
  | TCtrlKmsg | TCtrlPoll => ctrl_spawned
  | TIoKmsg | TIoBlock => io_spawned
  | TIoCeph => ceph_spawned
  | TPsi => psi_spawned
  | TOom => oom_spawned
  | THang => hang_spawned
  | TEccEdac => edac_spawned
  | TEccIpmi => ecc_ipmi_spawned
  | TMce => mce_spawned
  | TAer => aer_spawned
  | TRules => rules_enabled (m_syslog_rules ms)
  | TNvidia => nvidia_spawned
  | TAmd => amd_spawned
  | TRedfish => redfish_spawned
  | TEventlog => eventlog_spawned
  | TScheduled | TLogind => lifecycle_spawned
  end.

(** The configuration switch of a task's module. *)
Definition task_enabled (t : Task) : bool :=
  match module_of t with
  | MNvme => nvme_enabled (m_nvme ms)
  | MDiskSmart => smart_enabled (m_disk_smart ms)
  | MThermal => thermal_enabled (m_thermal ms)
  | MNetworkNic => nic_enabled (m_network_nic ms)
  | MStorageController => ctrl_enabled (m_storage_controller ms)
  | MStorageIo => sio_enabled (m_storage_io ms)
  | MMemPressure => mp_enabled (m_mempressure ms)
  | MOsHang => se_enabled (m_oshang ms)
  | MMemoryEcc => ecc_enabled (m_memory_ecc ms)
  | MCpuMce => se_enabled (m_cpu_mce ms)
  | MPcieAer => aer_enabled (m_pcie_aer ms)
  | MSyslogRules => rules_enabled (m_syslog_rules ms)
  | MGpuNvidia => se_enabled (m_gpu_nvidia ms)
  | MGpuAmd => se_enabled (m_gpu_amd ms)
  | MBmcRedfish => bmc_enabled (m_bmc_redfish ms)
  | MBmcEventlog => bmc_enabled (m_bmc_eventlog ms)
  | MLifecycle => se_enabled (m_lifecycle ms)
  | MBoot => se_enabled (m_boot ms)
  end.

(** A task of a module switched off never runs. *)
Lemma spawned_enabled t : task_spawned t = true -> task_enabled t = true.
Proof.
  destruct t; simpl; try done; unfold nvme_spawned, smart_spawned, ceph_spawned, psi_spawned,
    edac_spawned, ecc_ipmi_spawned, nvidia_spawned, amd_spawned;
    intros H; repeat (apply andb_true_iff in H as [H ?]); done.
Qed.

(** * Poll periods *)

(** src/agent/src/modules/nvme.rs:45-46 (the ticker of spawn). *)
Definition nvme_period : Duration := from_secs (Z.max (nvme_poll_s (m_nvme ms)) 5).

(** src/agent/src/modules/disk_smart.rs:43-46 (the ticker of spawn). *)
Definition smart_period : Duration := from_secs (Z.max (smart_poll_s (m_disk_smart ms)) 60).

(** src/agent/src/modules/thermal.rs:41-42 (the ticker of spawn). *)
Definition thermal_period : Duration := from_secs (Z.max (thermal_poll_s (m_thermal ms)) 2).

(** src/agent/src/modules/network_nic.rs:251-252 (the ticker of counter_loop). *)
Definition counter_period : Duration := from_secs (Z.max (counter_poll_s (m_network_nic ms)) 1).

(** src/agent/src/modules/storage_controller.rs:126-127 (the ticker of poll_loop). *)
Definition ctrl_period : Duration := from_secs (Z.max (ctrl_poll_s (m_storage_controller ms)) 5).

(** src/agent/src/modules/storage_io.rs:57-59 (the ticker of block_device_loop). *)
Definition block_period : Duration := from_secs 5.

(** src/agent/src/modules/storage_io.rs:175-176 (the ticker of ceph_osd_watch). *)
Definition ceph_period : Duration := from_secs 5.

(** src/agent/src/modules/mempressure.rs:50-51 (the ticker of psi_loop). *)
Definition psi_period : Duration := from_secs (Z.max (mp_poll_s (m_mempressure ms)) 1).

(** src/agent/src/modules/memory_ecc.rs:301-302 (the ticker of edac_poll_loop). *)
Definition edac_period : Duration := from_secs (Z.max (ecc_poll_s (m_memory_ecc ms)) 2).

(** src/agent/src/modules/memory_ecc.rs:111-112 (the ticker of ipmi_sdr_poll_loop). *)
Definition ecc_ipmi_period : Duration := from_secs (Z.max (ecc_poll_s (m_memory_ecc ms)) 30).

(** src/agent/src/modules/gpu_nvidia.rs:34-35 (the ticker of spawn). *)
Definition nvidia_period : Duration := from_secs 5.

(** src/agent/src/modules/gpu_amd.rs:34-35 (the ticker of spawn). *)
Definition amd_period : Duration := from_secs 5.

(** src/agent/src/modules/bmc_redfish.rs:25-27 (the ticker of spawn). *)
Definition redfish_period : Duration := from_secs (Z.max (bmc_poll_s (m_bmc_redfish ms)) 5).

(** src/agent/src/modules/bmc_eventlog.rs:32-35 (the ticker of spawn). *)
Definition eventlog_period : Duration := from_secs (Z.max (bmc_poll_s (m_bmc_eventlog ms)) 5).

(** src/agent/src/modules/lifecycle.rs:71-73 (the ticker of scheduled_file_poll). *)
Definition scheduled_period : Duration := from_millis 500.

(** The period of a task's ticker; [None] for a task that waits for events. *)
Definition task_period (t : Task) : option Duration :=
  match t with
  | TNvme => Some nvme_period
  | TSmart => Some smart_period
  | TThermal => Some thermal_period
  | TNicCounter => Some counter_period
  | TCtrlPoll => Some ctrl_period
  | TIoBlock => Some block_period
  | TIoCeph => Some ceph_period
  | TPsi => Some psi_period
  | TEccEdac => Some edac_period
  | TEccIpmi => Some ecc_ipmi_period
  | TNvidia => Some nvidia_period
  | TAmd => Some amd_period
  | TRedfish => Some redfish_period
  | TEventlog => Some eventlog_period
  | TScheduled => Some scheduled_period
  | TNicLink | TCtrlKmsg | TIoKmsg | TOom | THang | TMce | TAer | TRules | TLogind => None
  end.

(** Whatever the configuration says, no module's ticker has period zero (which
    [tokio::time::interval] answers with a panic) nor one under half a second, so
    a poll interval of 0 in the TOML neither stops the agent nor makes it spin. *)
Theorem tickers_positive (t : Task) (d : Duration) (Hd : task_period t = Some d) :
  from_millis 500 <= d.
Proof.
  unfold from_millis.
  destruct t; simpl in Hd; try done; injection Hd as <-;
    unfold nvme_period, smart_period, thermal_period, counter_period, ctrl_period, block_period,
      ceph_period, psi_period, edac_period, ecc_ipmi_period, nvidia_period, amd_period,
      redfish_period, eventlog_period, scheduled_period, from_secs, nanos_per_sec, from_millis; lia.
Qed.

End spawn.

Lemma tickers_positive_witness :
  from_millis 500 <= scheduled_period /\ from_millis 500 <= from_secs 60.
Proof.
  split.
  - by apply (tickers_positive ModulesBlock_default TScheduled).
  - by apply (tickers_positive ModulesBlock_default TNvme).
Defined.

(** * One step of every task *)

(** A task's step: it goes on in a new state with its actions, or it ends, or it
    panics, which aborts the process ([panic = "abort"] in src/Cargo.toml). *)
Inductive Outcome (S : Type) : Type :=
  | Running (st : S) (acts : list Action)
  | Ended
  | Aborted.
Arguments Running {S}.
Arguments Ended {S}.
Arguments Aborted {S}.

Definition of_pair {S} (r : S * list Action) : Outcome S := Running (fst r) (snd r).

(** The loops on a kernel or journal line end on [None]. *)
Definition of_step {S} (r : option (S * list Action)) : Outcome S :=
  match r with Some r => of_pair r | None => Ended end.
Definition of_acts (r : option (list Action)) : Outcome () :=
  of_step ((fun acts => ((), acts)) <$> r).

(** The variables a task keeps between its steps. *)
Definition TaskState (t : Task) : Type :=
  match t with
  | TNvme => gmap string Z
  | TThermal => Thermal.ThermalState
  | TNicLink => NetworkNic.NicState
  | TNicCounter => NetworkNic.CounterState
  | TCtrlPoll => gmap string StorageController.ControllerView
  | TIoBlock => gmap string ()
  | TIoCeph => gmap string string
  | TPsi => option Instant
  | TOom => list Instant
  | TEccEdac | TEccIpmi => gmap string (Z * Z)
  | TAer => list Instant
  | TEventlog => gmap string string
  | TScheduled => bool
  | TSmart | TCtrlKmsg | TIoKmsg | THang | TMce | TRules | TNvidia | TAmd | TRedfish | TLogind => ()
  end.

(** Their values when the task starts. *)
Definition task_init (t : Task) : TaskState t :=
  match t with
  | TNvme => ∅
  | TThermal => Thermal.mkThermalState ∅ None
  | TNicLink => NetworkNic.mkNic ∅ ∅ ∅
  | TNicCounter => NetworkNic.mkCounterState ∅ ∅
  | TCtrlPoll => ∅
  | TIoBlock => ∅
  | TIoCeph => ∅
  | TPsi => None
  | TOom => []
  | TEccEdac => ∅
  | TEccIpmi => ∅
  | TAer => []
  | TEventlog => ∅
  | TScheduled => false
  | TSmart | TCtrlKmsg | TIoKmsg | THang | TMce | TRules | TNvidia | TAmd | TRedfish | TLogind => ()
  end.

(** What the machine answers to a step of a task.  A command's answers are the
    [Process] its command line starts; [None] is a failed read. *)
Definition TaskInput (t : Task) : Type :=
  match t with
  | TNvme => option (list (string * option string * option Nvme.NvmeSmartLog))
  | TSmart => list (string * option DiskSmart.SmartReport)
  | TThermal => Instant * list (string * option string) * (list string -> Process)
  | TNicLink => option (Instant * NetworkNic.LinkMessage)
  | TNicCounter => (string -> NetworkNic.CounterSnapshot + string) * option (list string)
  | TCtrlPoll => list string -> Process
  | TIoBlock => option string
  | TIoCeph => option (list (string * string))
  | TPsi => MemPressure.PsiTick
  | TOom => Instant * BRecv KmsgLine
  | TEccEdac => list (string * option string * option string)
  | TEccIpmi => option Output
  | TAer => (string -> option string) * Instant * BRecv KmsgLine
  | TRules => BRecv SyslogRules.JournalLine
  | TNvidia => list string -> Process
  | TAmd => (list string -> Process) * list (string * list (option string))
  | TRedfish => string -> option Value
  | TEventlog => (string -> option (bool * option Value)) * (list string -> Process)
  | TScheduled => Lifecycle.SchedTick
  | TLogind => option string * option string * option (list (option bool))
  | TCtrlKmsg | TIoKmsg | THang | TMce => BRecv KmsgLine
  end.

Section step.
Context `{RegexEngine} `{HashOrder}.
Context (captures_iter : Regex -> string -> list (list (option string))).
Context (from_slice : string -> option Value).
Context (host : HostId) (ms : ModulesBlock) (env : SpawnEnv).

(** The patterns the tasks compile when they start. *)
Record AgentRes : Type := mkAgentRes {
  res_thermal : Thermal.ThermalRes;
  res_lockup : Regex;
  res_ctrl : StorageController.CtrlRes;
  res_io : Regex;
  res_killed : Regex;
  res_hang : OsHang.HangRes;
  res_mce : CpuMce.MceRes;
  res_aer : PcieAer.AerRes;
  res_link : Regex
}.

Definition agent_compile : option AgentRes :=
  thermal ← Thermal.thermal_compile;
  lockup ← re_new StorageController.lockup_pat;
  ctrl ← StorageController.ctrl_compile;
  io ← re_new StorageIo.io_pat;
  killed ← re_new MemPressure.killed_re;
  hang ← OsHang.hang_compile;
  mce ← re_new CpuMce.mce_pat;
  bank ← re_new CpuMce.bank_pat;
  cpu ← re_new CpuMce.cpu_pat;
  status ← re_new CpuMce.status_pat;
  bdf ← re_new PcieAer.bdf_pat;
  uncorr ← re_new PcieAer.uncorr_pat;
  corr ← re_new PcieAer.corr_pat;
  link ← re_new SyslogRules.journal_link_iface;
  Some (mkAgentRes thermal lockup ctrl io killed hang (CpuMce.mkMceRes mce bank cpu status)
          (PcieAer.mkAerRes bdf uncorr corr) link).

Context (res : AgentRes).

(** src/agent/src/modules/network_nic.rs:44-50 (ignore in spawn).  One bad pattern
    empties the set. *)
Definition nic_ignore : list Regex :=
  default [] (regex_set_new (ignore_regex (m_network_nic ms))).

(** src/agent/src/main.rs:155-162 (syslog_nic_ignore). *)
Definition syslog_nic_ignore : list Regex :=
  default [] (regex_set_new (ignore_regex (m_network_nic ms))).

(** src/agent/src/modules/cpu_mce.rs:36-74 (the loop of spawn).  A failed
    [mce_line] is a panic. *)
Definition mce_step (r : BRecv KmsgLine) : Outcome () :=
  match r with
  | BOk line =>
      match CpuMce.mce_line host (res_mce res) (k_text line) with
      | Some acts => Running () acts
      | None => Aborted
      end
  | BLagged _ => Running () []
  | BClosed => Ended
  end.

(** src/agent/src/modules/network_nic.rs:76-90 (rtnetlink_loop): a session that
    ends is followed by a fresh one. *)
Definition rtnetlink_step (x : option (Instant * NetworkNic.LinkMessage))
    (st : NetworkNic.NicState) : Outcome NetworkNic.NicState :=
  match x with
  | Some (now, m) => of_pair (NetworkNic.on_link host (m_network_nic ms) nic_ignore now m st)
  | None => Running (task_init TNicLink) []
  end.

Definition task_step (t : Task) : TaskInput t -> TaskState t -> Outcome (TaskState t) :=
  match t with
  | TNvme => fun x st =>
      match x with
      | Some drives => of_pair (Nvme.poll_drives host (m_nvme ms) drives st)
      | None => Running st []
      end
  | TSmart => fun x _ => Running () (DiskSmart.smart_tick host x)
  | TThermal => fun x st =>
      of_pair (Thermal.thermal_tick host (m_thermal ms) (ipmi_available env) x.1.1
                 (Thermal.read_throttle_counters x.1.2)
                 (Thermal.read_inlet_temp captures_iter (res_thermal res) x.2) st)
  | TNicLink => rtnetlink_step
  | TNicCounter => fun x st =>
      of_pair (NetworkNic.counter_tick host nic_ignore x.1 x.2 st)
  | TCtrlKmsg => fun x _ => of_acts (StorageController.lockup_step host (res_lockup res) x)
  | TCtrlPoll => fun x st =>
      of_pair (StorageController.poll_view host
                 (StorageController.enumerate (res_ctrl res) x (env_vendor env)) st)
  | TIoKmsg => fun x _ => of_acts (StorageIo.io_step host (res_io res) x)
  | TIoBlock => fun x st => of_pair (StorageIo.block_tick host (StorageIo.read_block_devices x) st)
  | TIoCeph => fun x st => of_pair (StorageIo.osd_tick host x st)
  | TPsi => fun x st => of_pair (MemPressure.psi_tick host (m_mempressure ms) x st)
  | TOom => fun x st =>
      of_step (MemPressure.oom_step host (m_mempressure ms) (res_killed res) x.1 x.2 st)
  | THang => fun x _ => of_acts (OsHang.hang_step host (res_hang res) x)
  | TEccEdac => fun x st =>
      of_pair (MemoryEcc.edac_tick host (m_memory_ecc ms) (MemoryEcc.read_edac_sysfs x) st)
  | TEccIpmi => fun x st =>
      of_pair (MemoryEcc.ipmi_tick host (m_memory_ecc ms) (MemoryEcc.read_ipmi_sdr_memory x) st)
  | TMce => fun x _ => mce_step x
  | TAer => fun x st =>
      of_step (PcieAer.aer_step host (m_pcie_aer ms) (res_aer res) x.1.1 x.1.2 x.2 st)
  | TRules => fun x _ =>
      of_acts (SyslogRules.rules_step host (res_link res) syslog_nic_ignore
                 (SyslogRules.rules_in_force (m_syslog_rules ms)) x)
  | TNvidia => fun x _ => Running () (Gpu.nvidia_tick host x)
  | TAmd => fun x _ =>
      Running () (Gpu.amd_tick host (has_rocm_smi (env_vendor env)) from_slice x.1 x.2)
  | TRedfish => fun x _ => Running () (Bmc.redfish_tick host (m_bmc_redfish ms) x)
  | TEventlog => fun x st => of_pair (Bmc.eventlog_tick host (m_bmc_eventlog ms) x.1 x.2 st)
  | TScheduled => fun x st =>
      let r := Lifecycle.scheduled_tick host x st in of_pair r
  | TLogind => fun x _ =>
      Running () (fst (Lifecycle.logind_shutdown_loop host x.1.1 x.1.2 x.2))
  end.

(** * What a task's step reports *)

Definition outcome_meets {S} (sp : Spec) (o : Outcome S) : Prop :=
  match o with
  | Running _ acts => all_meet (machine_id host) sp acts
  | Ended | Aborted => True
  end.

Lemma of_acts_meets sp o :
  (forall acts, o = Some acts -> all_meet (machine_id host) sp acts) ->
  outcome_meets sp (of_acts o).
Proof. destruct o as [acts|]; [|done]. intros Hf. by apply Hf. Qed.

Lemma of_step_meets {S} sp (o : option (S * list Action)) :
  (forall st acts, o = Some (st, acts) -> all_meet (machine_id host) sp acts) ->
  outcome_meets sp (of_step o).
Proof. destruct o as [[st acts]|]; [|done]. intros Hf. by eapply Hf. Qed.

(** Every task keeps its module's promise. *)
Lemma task_step_meets t x st sp :
  module_spec (module_of t) = Some sp -> outcome_meets sp (task_step t x st).
Proof.
  destruct t; intros [= <-]; simpl in x, st; cbn [task_step];
    try (simpl; by auto with specs).
  - destruct x as [drives|]; [|constructor]. simpl. auto with specs.
  - unfold rtnetlink_step. destruct x as [[now m]|]; [|constructor]. simpl. auto with specs.
  - apply of_acts_meets. intros acts. destruct x; intros [= <-]; auto with specs.
  - apply of_acts_meets. intros acts. destruct x; intros [= <-]; auto with specs.
  - apply of_step_meets. intros st' acts Ho. by eapply oom_meets.
  - apply of_acts_meets. intros acts. destruct x; intros [= <-]; auto with specs.
  - unfold mce_step. destruct x as [line| |]; try by constructor.
    destruct (CpuMce.mce_line _ _ _) as [acts|] eqn:E; [|done]. by eapply mce_meets.
  - apply of_step_meets. intros st' acts. destruct x as [[lspci now] [line| |]];
      intros [= Ha]; [|by subst].
    pose proof (aer_meets host (m_pcie_aer ms) (res_aer res) lspci now (k_text line) st) as Hm.
    by rewrite Ha in Hm.
Qed.

End step.
