(* ===== verification/AgentPipeline.v ===== *)
(** The whole agent on the wire: the module tasks of [AgentModules], the heartbeat
    task, the start and stop notices, one shared sink and one connection
    (src/agent/src/main.rs), as a run of [Pipeline].

    The agreement with the collector is derived from the modules' specifications
    of [ModuleSpecs]; nothing is assumed of who owns a fingerprint. *)
From stdpp Require Import functions.
From Stdlib Require Import Ascii.
From S2P Require Import Prelude Text Schema Codec Channels Tracker Bus Runtime Host Regex.
From S2P Require Import Command Config VendorDetect Json Transport CollectorState Ingest.
From S2P Require Import Agent ModuleSpecs AgentModules Pipeline.
From S2P Require SyslogRules Lifecycle.

Local Open Scope Z_scope.

(** * From a task's actions to the run *)

(** The event an action of module [m] amounts to. *)
Definition action_pevent (m : ModuleId) (x : Sample) (a : Action) : PEvent :=
  match a with
  | ActObserve b => PTrack (module_index m) (EvObserve (smp_now x) (smp_stamp x) b)
  | ActObserveOk fp => PTrack (module_index m) (EvOk (smp_now x) (smp_stamp x) fp)
  | ActForceResolve fp => PTrack (module_index m) (EvForce (smp_stamp x) fp)
  | ActSend o => PSend o
  end.

(** The actions of a step in program order, the [i]-th with the [i]-th sample. *)
Definition action_pevents (m : ModuleId) (smp : nat -> Sample) (acts : list Action) :
    list PEvent := imap (fun i => action_pevent m (smp i)) acts.

Section agent_pipeline.
Context `{RegexEngine} `{HashOrder}.
Context (captures_iter : Regex -> string -> list (list (option string))).
Context (from_slice : string -> option Value).
Context (build : Build) (host : HostId) (cfg : AgentConfig) (env : SpawnEnv) (res : AgentRes).

Abbreviation ms := (c_modules cfg).

(** The agent between two steps: whether the process lives, and for each running
    task its variables. *)
Record AgentRun : Type := mkAgentRun {
  ag_alive : bool;
  ag_tasks : forall t, option (TaskState t)
}.

Definition set_task (ts : forall t, option (TaskState t)) (t : Task) (v : option (TaskState t)) :
    forall t, option (TaskState t) :=
  fun t' => match decide (t = t') with
            | left e => eq_rect t (fun t => option (TaskState t)) v t' e
            | right _ => ts t'
            end.

(** What happens in the process: a step of a task, a tick of the heartbeat, a
    termination signal; and to the connection: the answer to an attempt, a turn of
    the pump. *)
Inductive AEvent : Type :=
  | ATask (t : Task) (x : TaskInput t) (smp : nat -> Sample)
  | AHeartbeat (now : DateTime) (elapsed : Duration)
  | ATerminate (s : Stamp)
  | AConnect (ok : bool)
  | APoll (p : Poll).

Definition agent_step (r : AgentRun) (e : AEvent) : AgentRun * list PEvent :=
  if negb (ag_alive r) then (r, [])
  else
    match e with
    | ATask t x smp =>
        match ag_tasks r t with
        | None => (r, [])
        | Some st =>
            match task_step captures_iter from_slice host ms env res t x st with
            | Running st' acts =>
                (mkAgentRun true (set_task (ag_tasks r) t (Some st')),
                 action_pevents (module_of t) smp acts)
            | Ended => (mkAgentRun true (set_task (ag_tasks r) t None), [])
            | Aborted => (mkAgentRun false (ag_tasks r), [])
            end
        end
    | AHeartbeat now elapsed => (r, [PSend (OutHeartbeat (heartbeat build host now elapsed))])
    | ATerminate s => (r, [PSend (OutAlert (build_firing s (stopping_builder host)))])
    | AConnect ok => (r, [PConnect ok])
    | APoll p => (r, [PPoll p])
    end.

(** A start: the detected profile's hello, and the boot module's one run. *)
Record AgentStart : Type := mkAgentStart {
  ast_time : DateTime;
  ast_boot : Lifecycle.BootStart;
  ast_boot_file : option string
}.

(** src/agent/src/main.rs:140-221 (the hello, then the modules): the tasks that pass
    their gates, and the messages of the start. *)
Definition agent_start (s : AgentStart) : AgentRun * list PEvent :=
  (mkAgentRun true (fun t => if task_spawned ms env t then Some (task_init t) else None),
   PSend (OutHello (hello_of build host cfg (env_vendor env) (ast_time s)))
   :: (if boot_spawned ms
       then action_pevents MBoot (fun _ => mkSample 0 (mkStamp 0 ""))
              (snd (Lifecycle.boot_run host (ast_boot s) (ast_boot_file s)))
       else [])).

Definition agent_run (s : AgentStart) (evs : list AEvent) : AgentRun * list PEvent :=
  foldl (fun acc e => let r := agent_step (fst acc) e in (fst r, (snd acc ++ snd r)%list))
    (agent_start s) evs.

Lemma agent_run_snoc s evs e :
  agent_run s (evs ++ [e])
  = (fst (agent_step (fst (agent_run s evs)) e),
     (snd (agent_run s evs) ++ snd (agent_step (fst (agent_run s evs)) e))%list).
Proof. unfold agent_run. by rewrite foldl_app. Qed.

(** * Where an event of the run comes from *)

(** A task that is not spawned never runs. *)
Lemma agent_task_spawned s evs t st :
  ag_tasks (fst (agent_run s evs)) t = Some st -> task_spawned ms env t = true.
Proof.
  revert st. induction evs as [|e evs IH] using rev_ind; intros st.
  { simpl. by destruct (task_spawned ms env t). }
  rewrite agent_run_snoc. cbn [fst]. unfold agent_step.
  destruct (negb _); [apply IH|]. destruct e as [t' x smp| | | |]; try apply IH.
  destruct (ag_tasks (fst (agent_run s evs)) t') as [st0|] eqn:E; [|apply IH].
  assert (Hs : forall v, set_task (ag_tasks (fst (agent_run s evs))) t' v t = Some st ->
                         task_spawned ms env t = true).
  { intros v. unfold set_task. destruct (decide (t' = t)) as [<-|]; [|apply IH].
    intros _. revert E. destruct evs as [|e' evs _] using rev_ind.
    - simpl. by destruct (task_spawned ms env t').
    - intros E. by apply (IH st0). }
  destruct (task_step _ _ _ _ _ _ _ _ _); simpl; [apply Hs..|apply IH].
Qed.

(** An event that amounts to an action of a step of task [t]. *)
Definition from_task (t : Task) (e : PEvent) : Prop :=
  exists x st st' acts smp a,
    task_step captures_iter from_slice host ms env res t x st = Running st' acts
    /\ a ∈ acts /\ e = action_pevent (module_of t) smp a.

(** The fingerprints sent past the trackers. *)
Definition direct_fps : list string :=
  [format_fingerprint (machine_id host) cat.AGENT None "agent_stopping";
   format_fingerprint (machine_id host) cat.BOOT None "unclean_reboot_check"].

Definition from_process (e : PEvent) : Prop :=
  match e with
  | PTrack _ _ => False
  | PSend (OutAlert a) => al_fingerprint a ∈ direct_fps
  | PSend _ | PConnect _ | PPoll _ => True
  end.

Lemma elem_of_action_pevents m smp acts e :
  e ∈ action_pevents m smp acts -> exists i a, a ∈ acts /\ e = action_pevent m (smp i) a.
Proof.
  unfold action_pevents. intros Hin. apply elem_of_lookup_imap in Hin as (i & a & -> & Ha).
  exists i, a. split; [by eapply list_elem_of_lookup_2|done].
Qed.

Lemma boot_event s e :
  e ∈ snd (agent_start s) -> from_process e.
Proof.
  simpl. intros [->|Hin]%elem_of_cons; [done|].
  destruct (boot_spawned ms); [|by apply elem_of_nil in Hin].
  apply elem_of_action_pevents in Hin as (i & a & Ha & ->).
  unfold Lifecycle.boot_run in Ha.
  destruct (trim <$> ast_boot_file s) as [p|], (trim <$> Lifecycle.bs_boot_id (ast_boot s)) as [c|];
    try by apply elem_of_nil in Ha.
  case_decide; [|by apply elem_of_nil in Ha].
  apply list_elem_of_singleton in Ha as ->. simpl. unfold direct_fps. set_solver.
Qed.

(** Every event of the run comes from a spawned task or from the process itself. *)
Lemma agent_event_source s evs e :
  e ∈ snd (agent_run s evs) ->
  (exists t, task_spawned ms env t = true /\ from_task t e) \/ from_process e.
Proof.
  induction evs as [|ev evs IH] using rev_ind.
  { intros Hin. right. by eapply boot_event. }
  rewrite agent_run_snoc. cbn [snd]. intros [Hin|Hin]%elem_of_app; [by apply IH|]. clear IH.
  pose proof (agent_task_spawned s evs) as Hsp. set (r := fst (agent_run s evs)) in *.
  unfold agent_step in Hin. destruct (negb (ag_alive r)); [by apply elem_of_nil in Hin|].
  destruct ev as [t x smp|now el|st|ok|p];
    try (apply list_elem_of_singleton in Hin as ->; right; unfold direct_fps; simpl; set_solver).
  destruct (ag_tasks r t) as [st|] eqn:E; [|by apply elem_of_nil in Hin].
  destruct (task_step _ _ _ _ _ _ _ _ _) as [st' acts| |] eqn:Es;
    simpl in Hin; try by apply elem_of_nil in Hin.
  apply elem_of_action_pevents in Hin as (i & a & Ha & ->).
  left. exists t. split; [by eapply Hsp|]. by exists x, st, st', acts, (smp i), a.
Qed.

(** * Fingerprints of the modules *)

(** Fingerprints of one host with plain categories agree on the category. *)
Lemma fp_category hid c1 d1 m1 c2 d2 m2 :
  pipe_free c1 -> pipe_free c2 ->
  format_fingerprint hid c1 d1 m1 = format_fingerprint hid c2 d2 m2 -> c1 = c2.
Proof.
  unfold format_fingerprint. intros H1 H2 Heq.
  apply (inj (String.append hid)) in Heq. apply (inj (String.append "|")) in Heq.
  by apply app_bar_inj in Heq as [-> _].
Qed.

(** And with plain metrics, on the metric. *)
Lemma fp_metric hid c d1 m1 d2 m2 :
  pipe_free m1 -> pipe_free m2 ->
  format_fingerprint hid c d1 m1 = format_fingerprint hid c d2 m2 -> m1 = m2.
Proof.
  intros H1 H2 Heq. apply (f_equal (fun s => last (split "|"%char s))) in Heq.
  unfold format_fingerprint in Heq. rewrite <- !string_app_assoc in Heq.
  rewrite !string_app_assoc in Heq.
  assert (Hs : forall a b c e, a +:+ "|" +:+ b +:+ "|" +:+ c +:+ "|" +:+ e
               = (a +:+ "|" +:+ b +:+ "|" +:+ c) +:+ String "|"%char e).
  { intros. by rewrite !string_app_assoc. }
  rewrite !Hs, !last_split_app in Heq by done. by injection Heq.
Qed.

Lemma spec_category_plain m sp :
  module_spec m = Some sp -> pipe_free (sp_category sp).
Proof. by destruct m; intros [= <-]. Qed.

Lemma spec_category_own m sp :
  module_spec m = Some sp -> sp_category sp <> cat.AGENT /\ sp_category sp <> cat.BOOT.
Proof. by destruct m; intros [= <-]. Qed.

Lemma spec_metric_plain m sp mt sv :
  module_spec m = Some sp -> sp_resolves sp = Some (mt, sv) -> pipe_free mt.
Proof. destruct m; intros [= <-]; intros [= <- <-] || intros ?; done. Qed.

(** * Who acts on a module's fingerprint *)

(** An action of the journal rules reports a rule in force. *)
Lemma rules_action x st st' acts a :
  task_step captures_iter from_slice host ms env res TRules x st = Running st' acts ->
  a ∈ acts ->
  exists r text, r ∈ SyslogRules.rules_in_force (m_syslog_rules ms)
                 /\ a = ActObserve (SyslogRules.rule_builder host r text).
Proof.
  intros Hs Ha. destruct x as [line| |]; simpl in Hs; try done.
  - injection Hs as ? <-. apply list_elem_of_In, in_concat in Ha as (l & Hl & Ha).
    apply in_map_iff in Hl as (r & <- & Hr). apply list_elem_of_In in Hr, Ha.
    exists r, (SyslogRules.j_text line). split; [done|].
    unfold SyslogRules.rule_line in Ha.
    destruct (negb _); [by apply elem_of_nil in Ha|].
    destruct (_ && _); [by apply elem_of_nil in Ha|]. by apply list_elem_of_singleton in Ha.
  - injection Hs as ? <-. by apply elem_of_nil in Ha.
Qed.

(** The fingerprint of an action that keeps a promise. *)
Lemma meets_fp hid sp smp i a ev m :
  meets hid sp a -> action_pevent m smp a = PTrack i ev ->
  exists d mt, event_fp ev = format_fingerprint hid (sp_category sp) d mt.
Proof.
  destruct a as [b|fp|fp|o]; intros Hm; simpl; intros [= <- <-]; simpl in *; try done.
  - destruct Hm as (<- & <- & _). unfold fingerprint. eauto.
  - destruct (sp_resolves sp) as [[mt sv]|]; [|done]. destruct Hm as [d ->]. eauto.
  - destruct (sp_resolves sp) as [[mt sv]|]; [|done]. destruct Hm as [d ->]. eauto.
Qed.

Section owner.
Context (s : AgentStart) (evs : list AEvent).
Context (m : ModuleId) (sp : Spec) (Hspec : module_spec m = Some sp).
Context (device : option string) (metric : string) (Hmetric : pipe_free metric).

Abbreviation fp := (format_fingerprint (machine_id host) (sp_category sp) device metric).

Context (Hrules : forall r, r ∈ SyslogRules.rules_in_force (m_syslog_rules ms) ->
  format_fingerprint (machine_id host) (SyslogRules.c_category r) None (SyslogRules.c_name r) <> fp).

(** An event on the fingerprint is an action of the module that keeps its promise. *)
Lemma agent_owner i ev :
  PTrack i ev ∈ snd (agent_run s evs) -> event_fp ev = fp ->
  i = module_index m
  /\ (exists t, module_of t = m /\ task_spawned ms env t = true)
  /\ exists smp a, meets (machine_id host) sp a /\ PTrack i ev = action_pevent m smp a.
Proof.
  intros Hin Hfp. apply agent_event_source in Hin as [(t & Hsp & Ht)|[]].
  destruct Ht as (x & st & st' & acts & smp & a & Hstep & Ha & He).
  destruct (module_spec (module_of t)) as [sp'|] eqn:Hms.
  - pose proof (task_step_meets captures_iter from_slice host ms env res t x st sp' Hms) as Hm.
    rewrite Hstep in Hm. simpl in Hm. rewrite Forall_forall in Hm. specialize (Hm a Ha).
    destruct (meets_fp _ _ _ _ _ _ _ Hm (eq_sym He)) as (d & mt & Hfp').
    rewrite Hfp' in Hfp. apply fp_category in Hfp;
      [|by eapply spec_category_plain..].
    pose proof (module_spec_inj _ _ _ _ Hms Hspec Hfp) as Hmt. rewrite Hmt in Hms, He.
    assert (sp' = sp) as -> by congruence. split_and!; [|by exists t|by eexists _, _].
    destruct a; simplify_eq/=; done.
  - destruct t; try done. exfalso.
    destruct (rules_action _ _ _ _ _ Hstep Ha) as (r & text & Hr & ->).
    simpl in He. simplify_eq/=. by apply (Hrules r).
Qed.

(** Nothing is sent past the tracker under the fingerprint. *)
Lemma agent_direct a : PSend (OutAlert a) ∈ snd (agent_run s evs) -> al_fingerprint a <> fp.
Proof.
  intros Hin Hfp. apply agent_event_source in Hin as [(t & _ & Ht)|Hp].
  - destruct Ht as (x & st & st' & acts & smp & act & Hstep & Ha & He).
    destruct (module_spec (module_of t)) as [sp'|] eqn:Hsp.
    + pose proof (task_step_meets captures_iter from_slice host ms env res t x st sp' Hsp) as Hm.
      rewrite Hstep in Hm. simpl in Hm. rewrite Forall_forall in Hm. specialize (Hm act Ha).
      by destruct act.
    + destruct t; try done.
      by destruct (rules_action _ _ _ _ _ Hstep Ha) as (r & text & Hr & ->).
  - simpl in Hp. rewrite Hfp in Hp. unfold direct_fps in Hp.
    destruct (spec_category_own _ _ Hspec) as [Ha Hb].
    pose proof (spec_category_plain _ _ Hspec).
    apply elem_of_cons in Hp as [Hp|Hp]; [|apply list_elem_of_singleton in Hp];
      by apply fp_category in Hp.
Qed.

(** The alerts of the fingerprint keep to one lane. *)
Lemma agent_lane :
  (forall i ev, PTrack i ev ∈ snd (agent_run s evs) -> event_fp ev = fp ->
     exists now st b, ev = EvObserve now st b)
  \/ exists sv, forall i now st b, PTrack i (EvObserve now st b) ∈ snd (agent_run s evs) ->
       fingerprint b = fp -> b_severity b = sv.
Proof.
  destruct (sp_resolves sp) as [[mt sv]|] eqn:Hres.
  - pose proof (spec_metric_plain _ _ _ _ Hspec Hres) as Hmt.
    destruct (decide (metric = mt)) as [<-|Hne].
    + right. exists sv. intros i now st b Hin Hfp.
      destruct (agent_owner _ _ Hin Hfp) as (-> & _ & smp & a & Hm & He).
      destruct a; simplify_eq/=. rewrite Hres in Hm. destruct Hm as (Hh & Hc & Hp & Hsv).
      apply Hsv. unfold fingerprint in Hfp. rewrite Hh, Hc in Hfp. by apply fp_metric in Hfp.
    + left. intros i ev Hin Hfp.
      destruct (agent_owner _ _ Hin Hfp) as (-> & _ & smp & a & Hm & He).
      destruct a as [b|f|f|o]; simplify_eq/=; [by eauto|..];
        rewrite Hres in Hm; destruct Hm as [d Hd]; by apply fp_metric in Hd.
  - left. intros i ev Hin Hfp.
    destruct (agent_owner _ _ Hin Hfp) as (-> & _ & smp & a & Hm & He).
    destruct a as [b|f|f|o]; simplify_eq/=; [by eauto|..]; by rewrite Hres in Hm.
Qed.

End owner.

(** * The agent and the collector *)

Section collector.
Context {C : Type -> Type} `{!Mpsc C} `{!MpscLaws C} `{!Codec}.
Context (backoff : Backoff) (k : AlertSink C).

(** The run of the agent's events, from empty trackers with the configured
    re-notification and recovery delays. *)
Definition agent_pipeline (s : AgentStart) (evs : list AEvent) :
    Pipeline (C := C) * list Outbound :=
  pipeline_run backoff (pipeline_init backoff k (re_notify cfg) (recovery cfg))
    (snd (agent_run s evs)).

(** C1: the collector mirrors the agent.  Take any configuration and host and any
    interleaving of steps of the module tasks (whatever the machine answers),
    heartbeats, termination signals, connections, lost connections and turns of
    the pump, that loses no message.  Then for every module but the journal
    rules and boot, a fingerprint of the module's category is firing on the
    collector exactly when that module's tracker tracks it, unless a configured
    journal rule was given that same fingerprint. *)
Theorem agent_mirrors (s : AgentStart) (evs : list AEvent) (st : IngestState C)
    (m : ModuleId) (sp : Spec) (device : option string) (metric : string)
    (Hspec : module_spec m = Some sp) (Hmetric : pipe_free metric)
    (Hrules : forall r, r ∈ SyslogRules.rules_in_force (m_syslog_rules ms) ->
       format_fingerprint (machine_id host) (SyslogRules.c_category r) None
         (SyslogRules.c_name r)
       <> format_fingerprint (machine_id host) (sp_category sp) device metric)
    (Hempty : queued (sink_critical k) = [] /\ queued (sink_normal k) = [])
    (Hfresh : app_firing (ig_app st) = ∅ /\ no_maintenance (ig_app st))
    (Hloss : lossless (agent_pipeline s evs))
    (Hcodec : Forall deliverable (snd (agent_pipeline s evs))) :
  let fp := format_fingerprint (machine_id host) (sp_category sp) device metric in
  is_Some (app_firing (ig_app (collector_of (fst (agent_pipeline s evs)) st)) !! fp)
  <-> is_Some (t_inner (pl_trackers (fst (agent_pipeline s evs)) (module_index m)) !! fp).
Proof.
  apply pipeline_agree; try done.
  - intros i ev Hin Hfp. by eapply agent_owner.
  - intros a. by eapply agent_direct.
  - by eapply agent_lane.
Qed.


End collector.
End agent_pipeline.

(** * A concrete agent *)

#[local] Existing Instances LiteralRegex CanonicalOrder.

Definition demo_host : HostId := mkHostId "h" "hid" "10.0.0.1".

Definition demo_vendor : VendorProfile :=
  {| vendor_info := VendorInfo_default;
     has_smartctl := false; has_nvme_cli := true; has_ipmitool := false; has_ssacli := false;
     has_perccli := false; has_storcli := false; has_megacli := false; has_nvml := false;
     has_rocm_smi := false; has_ethtool := true |}.

Definition demo_env : SpawnEnv :=
  mkSpawnEnv demo_vendor (fun _ => false) (fun c => bool_decide (c = "nvme"%string)).

Definition demo_res : AgentRes := default (mkAgentRes (Thermal.mkThermalRes "" "" "") ""
  (StorageController.mkCtrlRes "" "" "") "" "" (OsHang.mkHangRes "" "" "" "")
  (CpuMce.mkMceRes "" "" "" "") (PcieAer.mkAerRes "" "" "") "") agent_compile.

Definition demo_build : Build := mkBuild "3.0.0" true.
Definition demo_start : AgentStart := mkAgentStart 0 (Lifecycle.mkBoot None true None (mkStamp 0 "")) None.

(** A drive whose critical warning is raised and then cleared, with a lost
    connection in between and a heartbeat. *)
Definition demo_drive (cw : Z) : TaskInput TNvme :=
  Some [("/dev/nvme0n1"%string, Some "X1"%string, Some (Nvme.mkSmartLog cw 310 10 0 0 100 10))].

Definition demo_sample (n : Z) (i : nat) : Sample :=
  mkSample (from_secs n) (mkStamp (from_secs n) (show n +:+ "-" +:+ show (Z.of_nat i))).

Definition demo_poll : AEvent := APoll (mkPoll false None true true).

Definition demo_events : list AEvent :=
  [ATask TNvme (demo_drive 4) (demo_sample 1); AConnect true; demo_poll; demo_poll;
   APoll (mkPoll false (Some InClose) true true);
   AHeartbeat 5 (from_secs 5);
   ATask TNvme (demo_drive 0) (demo_sample 61); AConnect true; demo_poll;
   ATask TNvme (demo_drive 0) (demo_sample 122); demo_poll;
   ATask TNvme (demo_drive 4) (demo_sample 181); demo_poll; demo_poll].

Definition demo_fp : string :=
  format_fingerprint "hid" cat.NVME (Some "/dev/nvme0n1"%string) "critical_warning".

(** A codec that knows the messages of a run. *)
Definition codec_of_msgs (l : list Outbound) : Codec :=
  {| encode e :=
       match e with
       | EnvAlert a => Some ("a" +:+ al_id a)
       | EnvHello _ => Some "hello"%string
       | EnvHeartbeat _ => Some "beat"%string
       | _ => None
       end;
     decode s :=
       find_map (fun m => match m with
         | OutAlert a => if decide (s = "a" +:+ al_id a) then Some (EnvAlert a) else None
         | OutHello h => if decide (s = "hello"%string) then Some (EnvHello h) else None
         | OutHeartbeat b => if decide (s = "beat"%string) then Some (EnvHeartbeat b) else None
         end) l;
     encode_alert a := Some (al_id a);
     decode_alert s := None |}.

Abbreviation demo_run c :=
  (agent_pipeline (H1 := c) (C := BoundedQueue) (fun _ _ => []) (fun _ => None) demo_build
    demo_host default_fallback demo_env demo_res run_backoff run_sink demo_start demo_events).

(** The messages of the run, and the codec that knows them. *)
Definition demo_messages : list Outbound :=
  Eval vm_compute in snd (demo_run CodecRef).

Definition demo_codec : Codec := codec_of_msgs demo_messages.

(** The default journal rules have no fingerprint in common with the drive. *)
Lemma demo_rules r :
  r ∈ SyslogRules.rules_in_force (m_syslog_rules (c_modules default_fallback)) ->
  format_fingerprint "hid" (SyslogRules.c_category r) None (SyslogRules.c_name r) <> demo_fp.
Proof.
  revert r. apply Forall_forall. vm_compute. repeat constructor; discriminate.
Qed.

Lemma demo_lossless : lossless (demo_run demo_codec).
Proof.
  split; [vm_compute; reflexivity|]. split; [by intros []; vm_compute|].
  vm_compute. repeat constructor.
Qed.

Lemma demo_deliverable : Forall (deliverable (H := demo_codec)) (snd (demo_run demo_codec)).
Proof.
  assert (Hm : snd (demo_run demo_codec) = demo_messages) by (vm_compute; reflexivity).
  rewrite Hm. unfold demo_messages.
  repeat (apply Forall_cons; split); [..|apply Forall_nil; exact I];
    (split; [eexists; split; vm_compute; reflexivity|by vm_compute]).
Qed.

Lemma agent_mirrors_witness :
  is_Some (app_firing (ig_app (collector_of (H := demo_codec) (fst (demo_run demo_codec))
    run_collector)) !! demo_fp).
Proof.
  apply (proj2 (agent_mirrors (H1 := demo_codec) (fun _ _ => []) (fun _ => None) demo_build
    demo_host default_fallback demo_env demo_res run_backoff run_sink demo_start demo_events
    run_collector MNvme nvme_spec (Some "/dev/nvme0n1"%string) "critical_warning"
    eq_refl eq_refl demo_rules ltac:(by split) ltac:(by split)
    demo_lossless demo_deliverable)).
  vm_compute. by eexists.
Defined.



