(* ===== verification/DebugHttp.v ===== *)
(** The agent's local debug server (src/agent/src/debug_http.rs): the address guard,
    the routing of a request, the redaction of secrets and the truncation of probe
    outputs.

    The snapshot and the page are inputs here; [DebugProbes] builds the snapshot. *)
From S2P Require Import Prelude Text Utf8 Schema Json Regex.
From stdpp Require Import sorting.
From Stdlib Require Import Ascii.

Local Open Scope string_scope.
Local Open Scope Z_scope.

(** src/agent/src/debug_http.rs:20-20 (MAX_BODY_CHARS). *)
Definition MAX_BODY_CHARS : nat := Z.to_nat (48 * 1024).

(** * The server *)

(** src/agent/src/debug_http.rs:25-44 (the address guard of spawn), with the parser
    of socket addresses: an address and whether it is a loopback one.  [None] when
    nothing is served. *)
Definition debug_bind {Addr : Type} (parse_addr : string -> option Addr)
    (is_loopback : Addr -> bool) (bind : string) : option Addr :=
  let b := trim bind in
  if is_empty b then None
  else addr ← parse_addr b; if is_loopback addr then Some addr else None.

(** src/agent/src/debug_http.rs:45-72 (the bind and the accept loop of spawn): the
    connections served, among the accepted ones with whether the peer is a loopback
    address; a failed accept is retried. *)
Definition debug_served {Stream : Type} (bound : bool)
    (accepts : list (option (bool * Stream))) : list Stream :=
  if bound
  then omap (fun a => match a with Some (true, s) => Some s | _ => None end) accepts
  else [].

(** src/agent/src/debug_http.rs:79-89 (the path of a request). *)
Definition request_path (bytes : string) : string :=
  let req := from_utf8_lossy bytes in
  let first := default "" (head (lines req)) in
  let target := default "/" (split_whitespace first !! 1%nat) in
  default "/" (head (Text.split "?"%char target)).

Definition crlf : string := String CR (String LF EmptyString).

(** src/agent/src/debug_http.rs:91-104 (the answer to a path). *)
Definition debug_route (html snapshot path : string) : string * string * string :=
  if bool_decide (path ∈ ["/"; "/v1/debug"; "/v1/debug/"])
  then ("200 OK", "text/html; charset=utf-8", html)
  else if bool_decide (path ∈ ["/v1/debug/snapshot"; "/debug/snapshot"])
  then ("200 OK", "application/json; charset=utf-8", snapshot)
  else ("404 Not Found", "text/plain; charset=utf-8",
        "Not found: " +:+ path +:+ nl +:+ nl +:+ "Available:" +:+ nl +:+ "  GET /" +:+ nl
        +:+ "  GET /v1/debug/snapshot").

(** src/agent/src/debug_http.rs:73-119 (serve_connection), on the bytes of the one
    read; [None] when there are none. *)
Definition serve_connection (html snapshot bytes : string) : option string :=
  if is_empty bytes then None
  else
    let '(status, content_type, body) := debug_route html snapshot (request_path bytes) in
    Some ("HTTP/1.1 " +:+ status +:+ crlf
          +:+ "Content-Type: " +:+ content_type +:+ crlf
          +:+ "Content-Length: " +:+ show (Z.of_nat (String.length body)) +:+ crlf
          +:+ "Connection: close" +:+ crlf
          +:+ "Cache-Control: no-cache" +:+ crlf
          +:+ crlf +:+ body).

(** * Secrets *)

(** src/agent/src/debug_http.rs:270-288 (redact_secrets). *)
Fixpoint redact_secrets (v : Value) : Value :=
  match v with
  | VObject l =>
      VObject (map (fun kx : string * Value =>
        let (k, x) := kx in
        (k, if decide (k = "redfish_password") then VString "***" else redact_secrets x)) l)
  | VArray l => VArray (map redact_secrets l)
  | _ => v
  end.

(** * Truncation *)

(** src/agent/src/debug_http.rs:412-415 (the loop that finds the boundary). *)
Fixpoint floor_boundary (n : nat) (s : string) : nat :=
  match n with
  | O => O
  | S n' => if is_char_boundary (S n') s then S n' else floor_boundary n' s
  end.

(** src/agent/src/debug_http.rs:408-418 (truncate). *)
Definition truncate (s : string) : string :=
  if (String.length s <=? MAX_BODY_CHARS)%nat then s
  else
    let end_ := floor_boundary MAX_BODY_CHARS s in
    take_bytes end_ s +:+ "…[truncated " +:+ show (Z.of_nat (String.length s - end_))
    +:+ " bytes]".

(** * Choice of the probed devices *)

(** [sort] on texts. *)
Definition sort_texts : list string -> list string :=
  merge_sort (fun a b => Is_true (String.leb a b)).

(** src/agent/src/debug_http.rs:437-451 (first_block_dev), on the names in
    /sys/block and the test that a device node exists. *)
Definition first_block_dev (kind_prefix : string) (names : list string)
    (exists_ : string -> bool) : option string :=
  List.find (fun n => exists_ ("/dev/" +:+ n))
    (sort_texts (List.filter (fun n => starts_with kind_prefix n && negb (contains "boot" n)) names)).

(** src/agent/src/debug_http.rs:420-435 (first_glob_dev), on the matches of the
    pattern; [None] for a bad pattern. *)
Definition first_glob_dev (matches : option (list string)) (exists_ : string -> bool) :
    option string :=
  ms ← matches; head (sort_texts (List.filter exists_ ms)).

(** src/agent/src/debug_http.rs:453-472 (first_monitorable_iface), on the names in
    /sys/class/net. *)
Definition first_monitorable_iface `{RegexEngine} (ignore_patterns : list string)
    (names : option (list string)) : option string :=
  set ← regex_set_new ignore_patterns;
  ns ← names;
  List.find (fun n => negb (set_is_match set n))
    (sort_texts (List.filter (fun n => negb (bool_decide (n = "lo"))) ns)).

(** * What the snapshot shows *)

(** A place in a JSON value. *)
Inductive Step : Type := Key (k : string) | Index (i : nat).

Fixpoint at_path (p : list Step) (v : Value) : option Value :=
  match p with
  | [] => Some v
  | Key k :: p' => x ← get k v; at_path p' x
  | Index i :: p' => l ← as_array v; x ← l !! i; at_path p' x
  end.

Lemma at_path_app p q v : at_path (p ++ q)%list v = at_path p v ≫= at_path q.
Proof.
  revert v. induction p as [|[k|i] p IH]; intros v; simpl; [done| |].
  - destruct (get k v); simpl; [apply IH|done].
  - destruct (as_array v) as [l|]; simpl; [|done]. destruct (l !! i); simpl; [apply IH|done].
Qed.

Lemma get_redact k v :
  get k (redact_secrets v)
  = if decide (k = "redfish_password") then (fun _ => VString "***") <$> get k v
    else redact_secrets <$> get k v.
Proof.
  destruct v as [| | | | |l|l]; simpl; try by case_decide.
  induction l as [|[k' x] l IH]; simpl; [by case_decide|].
  destruct (decide (k = k')) as [->|Hne]; [by case_decide|]. exact IH.
Qed.

Lemma as_array_redact v :
  as_array (redact_secrets v) = (fun l => map redact_secrets l) <$> as_array v.
Proof. by destruct v. Qed.

Lemma at_path_redact p v :
  Key "redfish_password" ∉ p -> at_path p (redact_secrets v) = redact_secrets <$> at_path p v.
Proof.
  revert v. induction p as [|[k|i] p IH]; intros v Hp; [done| |];
    apply not_elem_of_cons in Hp as [Hk Hp]; cbn [at_path].
  - rewrite get_redact, decide_False by congruence.
    destruct (get k v); simpl; [by apply IH|done].
  - rewrite as_array_redact. destruct (as_array v) as [l|]; simpl; [|done].
    change (map redact_secrets l) with (redact_secrets <$> l). rewrite list_lookup_fmap.
    destruct (l !! i); simpl; [by apply IH|done].
Qed.

(** The snapshot does not show the password.  Wherever a value of the
    configuration lies under the key "redfish_password", however deep in objects
    and arrays, the redacted value there is three stars and has nothing inside;
    everywhere else the value is the same, redacted in its turn, so a scalar is
    unchanged. *)
Theorem redact_hides_password (v : Value) (p q : list Step)
    (Hp : Key "redfish_password" ∉ p) :
  at_path (p ++ Key "redfish_password" :: q)%list (redact_secrets v)
  = (match q with
     | [] => (fun _ => VString "***") <$> at_path (p ++ [Key "redfish_password"])%list v
     | _ => None
     end)
  /\ at_path p (redact_secrets v) = redact_secrets <$> at_path p v.
Proof.
  split; [|by apply at_path_redact].
  rewrite at_path_app, at_path_redact by done.
  destruct q as [|s q].
  - rewrite at_path_app. destruct (at_path p v) as [x|]; simpl; [|done].
    rewrite get_redact, decide_True by done. by destruct (get _ x).
  - destruct (at_path p v) as [x|]; simpl; [|done].
    rewrite get_redact, decide_True by done.
    destruct (get _ x); simpl; [|done]. by destruct s.
Qed.

Lemma floor_boundary_le n s : (floor_boundary n s <= n)%nat.
Proof. induction n as [|n IH]; simpl; [done|]. case_match; lia. Qed.

Lemma floor_boundary_ok n s : is_char_boundary (floor_boundary n s) s = true.
Proof. induction n as [|n IH]; [done|]. simpl. by destruct (is_char_boundary (S n) s) eqn:E. Qed.

Lemma floor_boundary_max n s d :
  (d <= n)%nat -> is_char_boundary (n - d) s = true -> (n - d <= floor_boundary n s)%nat.
Proof.
  revert d. induction n as [|n IH]; intros d Hd Hb; [lia|].
  cbn [floor_boundary]. destruct (is_char_boundary (S n) s) eqn:E; [lia|].
  destruct d as [|d]; [rewrite Nat.sub_0_r in Hb; congruence|].
  change (S n - S d)%nat with (n - d)%nat in *. apply IH; [lia|done].
Qed.

Lemma show_ascii_well_formed n : (0 <= n)%Z -> well_formed (show n).
Proof. intros Hn. by apply utf8_valid_spec, all_ascii_valid, show_ascii. Qed.

Lemma well_formed_app s t : well_formed s -> well_formed t -> well_formed (s +:+ t).
Proof.
  intros Hs Ht. induction Hs as [|c s k Hh Hw IH]; [done|].
  rewrite <- (take_drop_bytes k (String c s)), string_app_assoc.
  by apply well_formed_char.
Qed.

(** Truncation keeps the text well formed.  The output of a probe, decoded, is
    shown whole when it has at most 48 KiB; otherwise what is shown is its first
    [e] bytes and the exact number of bytes left out, where [e] is at most three
    below 48 KiB and no character is cut, so the shown text is well-formed UTF-8. *)
Theorem truncate_spec (bytes : string) :
  let s := from_utf8_lossy bytes in
  ((String.length s <= MAX_BODY_CHARS)%nat -> truncate s = s)
  /\ ((MAX_BODY_CHARS < String.length s)%nat ->
      exists e, (MAX_BODY_CHARS - 3 <= e <= MAX_BODY_CHARS)%nat
        /\ is_char_boundary e s = true
        /\ truncate s = take_bytes e s +:+ "…[truncated "
             +:+ show (Z.of_nat (String.length s - e)) +:+ " bytes]")
  /\ well_formed (truncate s).
Proof.
  intros s. pose proof (from_utf8_lossy_well_formed bytes : well_formed s) as Hs.
  unfold truncate. destruct (Nat.leb_spec (String.length s) MAX_BODY_CHARS) as [Hl|Hl].
  - split_and!; [done|lia|done].
  - split_and!; [lia| |].
    + intros _. exists (floor_boundary MAX_BODY_CHARS s).
      destruct (near_boundary MAX_BODY_CHARS s Hs ltac:(lia)) as (d & Hd & Hdm & Hb).
      pose proof (floor_boundary_le MAX_BODY_CHARS s).
      pose proof (floor_boundary_max _ _ _ Hdm Hb).
      split_and!; [lia|done|apply floor_boundary_ok|done].
    + apply well_formed_app; [apply well_formed_take; [done|apply floor_boundary_ok]|].
      apply well_formed_app; [by apply utf8_valid_spec|].
      apply well_formed_app; [apply show_ascii_well_formed; lia|by apply utf8_valid_spec].
Qed.

(** A configuration with the password in two blocks. *)
Definition modules_sample : Value :=
  VObject [("nvme", VObject [("enabled", VBool true)]);
           ("bmc_redfish", VObject [("redfish_username", VString "root");
                                    ("redfish_password", VString "hunter2")]);
           ("bmc_eventlog", VObject [("redfish_password", VString "hunter2")])].

Lemma redact_hides_password_witness :
  at_path [Key "bmc_redfish"; Key "redfish_password"] (redact_secrets modules_sample)
  = Some (VString "***")
  /\ at_path [Key "bmc_redfish"; Key "redfish_username"] (redact_secrets modules_sample)
     = Some (VString "root").
Proof.
  split.
  - refine (proj1 (redact_hides_password modules_sample [Key "bmc_redfish"] [] _)). set_solver.
  - refine (proj2 (redact_hides_password modules_sample
      [Key "bmc_redfish"; Key "redfish_username"] [] _)). set_solver.
Defined.
