(* ===== verification/DebugProbes.v ===== *)
(** The debug snapshot (src/agent/src/debug_http.rs, [build_debug_snapshot]): which
    commands are run, what each probe shows, and the configuration the snapshot
    carries.

    An object lists its fields in the order of the source; [serde_json] keeps them
    sorted by key, which nothing here depends on.  The processes, the file system
    and the clock are inputs. *)
From stdpp Require Import sorting.
From S2P Require Import Prelude Text Utf8 Schema Json Float Regex Host Config Command DebugHttp.
From S2P Require Thermal.

Local Open Scope string_scope.
Local Open Scope Z_scope.

(** * The configuration as JSON *)

(** What [derive(Serialize)] makes of the blocks, field by field. *)
Definition strings_value (l : list string) : Value := VArray (map VString l).

(** src/agent/src/config.rs:187-191 (SimpleEnable, derive(Serialize)). *)
Definition simple_value (c : SimpleEnable) : Value := VObject [("enabled", VBool (se_enabled c))].

(** src/agent/src/config.rs:197-211 (NvmeCfg, derive(Serialize)). *)
Definition nvme_value (c : NvmeCfg) : Value :=
  VObject [("enabled", VBool (nvme_enabled c)); ("poll_s", VInt (nvme_poll_s c));
           ("wear_warn_pct", VInt (wear_warn_pct c));
           ("wear_critical_pct", VInt (wear_critical_pct c));
           ("temp_warn_c", VInt (temp_warn_c c)); ("temp_critical_c", VInt (temp_critical_c c))].

(** src/agent/src/config.rs:230-236 (DiskSmartCfg, derive(Serialize)). *)
Definition smart_value (c : DiskSmartCfg) : Value :=
  VObject [("enabled", VBool (smart_enabled c)); ("poll_s", VInt (smart_poll_s c))].

(** src/agent/src/config.rs:242-262 (MemoryEccCfg, derive(Serialize)). *)
Definition ecc_value (c : MemoryEccCfg) : Value :=
  VObject [("enabled", VBool (ecc_enabled c)); ("poll_s", VInt (ecc_poll_s c));
           ("ce_per_hour_warn", VInt (ce_per_hour_warn c));
           ("edac_sysfs_enable", VBool (edac_sysfs_enable c));
           ("ipmi_sdr_enable", VBool (ipmi_sdr_enable c))].

(** src/agent/src/config.rs:277-283 (PcieAerCfg, derive(Serialize)). *)
Definition aer_value (c : PcieAerCfg) : Value :=
  VObject [("enabled", VBool (aer_enabled c));
           ("corrected_per_min_warn", VInt (corrected_per_min_warn c))].

(** src/agent/src/config.rs:291-303 (ThermalCfg, derive(Serialize)). *)
Definition thermal_value (c : ThermalCfg) : Value :=
  VObject [("enabled", VBool (thermal_enabled c)); ("poll_s", VInt (thermal_poll_s c));
           ("inlet_warn_c", Thermal.json_f32 (inlet_warn_c c));
           ("inlet_critical_c", Thermal.json_f32 (inlet_critical_c c));
           ("inlet_emergency_c", Thermal.json_f32 (inlet_emergency_c c))].

(** src/agent/src/config.rs:320-336 (NetworkNicCfg, derive(Serialize)). *)
Definition nic_value (c : NetworkNicCfg) : Value :=
  VObject [("enabled", VBool (nic_enabled c)); ("flap_window_s", VInt (flap_window_s c));
           ("flap_threshold", VInt (flap_threshold c));
           ("counter_poll_s", VInt (counter_poll_s c));
           ("ignore_regex", strings_value (ignore_regex c))].

(** src/agent/src/config.rs:355-361 (StorageControllerCfg, derive(Serialize)). *)
Definition ctrl_value (c : StorageControllerCfg) : Value :=
  VObject [("enabled", VBool (ctrl_enabled c)); ("poll_s", VInt (ctrl_poll_s c))].

(** src/agent/src/config.rs:367-377 (StorageIoCfg, derive(Serialize)). *)
Definition io_value (c : StorageIoCfg) : Value :=
  VObject [("enabled", VBool (sio_enabled c)); ("watch_ceph_osd", VBool (watch_ceph_osd c));
           ("correlate_window_s", VInt (correlate_window_s c))].

(** src/agent/src/config.rs:389-406 (MemPressureCfg, derive(Serialize)). *)
Definition mem_value (c : MemPressureCfg) : Value :=
  VObject [("enabled", VBool (mp_enabled c)); ("poll_s", VInt (mp_poll_s c));
           ("psi_some_avg10_warn", Thermal.json_f32 (psi_some_avg10_warn c));
           ("sustain_s", VInt (sustain_s c)); ("oom_storm_count", VInt (oom_storm_count c));
           ("oom_storm_window_s", VInt (oom_storm_window_s c))].

(** src/agent/src/config.rs:425-443 (BmcCfg, derive(Serialize)). *)
Definition bmc_value (c : BmcCfg) : Value :=
  VObject [("enabled", VBool (bmc_enabled c)); ("poll_s", VInt (bmc_poll_s c));
           ("ipmi_device", VString (ipmi_device c)); ("redfish_url", VString (redfish_url c));
           ("redfish_username", VString (redfish_username c));
           ("redfish_password", VString (redfish_password c));
           ("redfish_insecure", VBool (redfish_insecure c))].

(** src/agent/src/config.rs:475-483 (SyslogRule, derive(Serialize)). *)
Definition rule_value (r : SyslogRule) : Value :=
  VObject [("name", VString (sr_name r)); ("regex", VString (sr_regex r));
           ("severity", VString (sr_severity r)); ("category", VString (sr_category r));
           ("title", VString (sr_title r)); ("message", VString (sr_message r))].

(** src/agent/src/config.rs:460-468 (SyslogRulesCfg, derive(Serialize)). *)
Definition rules_value (c : SyslogRulesCfg) : Value :=
  VObject [("enabled", VBool (rules_enabled c)); ("rules", VArray (map rule_value (rules c)))].

(** src/agent/src/config.rs:147-185 (ModulesBlock, derive(Serialize)). *)
Definition modules_value (m : ModulesBlock) : Value :=
  VObject [("nvme", nvme_value (m_nvme m)); ("disk_smart", smart_value (m_disk_smart m));
           ("memory_ecc", ecc_value (m_memory_ecc m)); ("cpu_mce", simple_value (m_cpu_mce m));
           ("pcie_aer", aer_value (m_pcie_aer m)); ("thermal", thermal_value (m_thermal m));
           ("gpu_nvidia", simple_value (m_gpu_nvidia m)); ("gpu_amd", simple_value (m_gpu_amd m));
           ("network_nic", nic_value (m_network_nic m));
           ("storage_controller", ctrl_value (m_storage_controller m));
           ("storage_io", io_value (m_storage_io m)); ("mempressure", mem_value (m_mempressure m));
           ("oshang", simple_value (m_oshang m)); ("bmc_redfish", bmc_value (m_bmc_redfish m));
           ("bmc_eventlog", bmc_value (m_bmc_eventlog m));
           ("syslog_rules", rules_value (m_syslog_rules m)); ("boot", simple_value (m_boot m));
           ("lifecycle", simple_value (m_lifecycle m))].

(** * The commands *)

(** What the snapshot reads of the machine: whether it runs as root, which paths
    exist, the matches of the NVMe pattern, the names in /sys/block and in
    /sys/class/net, and the answer to a command line. *)
Record ProbeEnv : Type := mkProbeEnv {
  pe_root : bool;
  pe_exists : string -> bool;
  pe_nvme : option (list string);
  pe_blocks : list string;
  pe_ifaces : option (list string);
  pe_run : list string -> Process
}.

Inductive Probe : Type :=
  | CmdProbe (name : string) (argv : list string)
  | ShellProbe (name shell : string) (argv : list string).

Definition probe_argv (p : Probe) : list string :=
  match p with CmdProbe _ argv => argv | ShellProbe _ sh argv => sh :: argv end.

Section snapshot.
Context `{RegexEngine} (cfg : AgentConfig) (host : HostId) (env : ProbeEnv).

Definition sudo : list string := if pe_root env then [] else ["sudo"; "-n"].

Definition when (b : bool) (l : list Probe) : list Probe := if b then l else [].

(** src/agent/src/debug_http.rs:138-152 (the NVMe probes). *)
Definition nvme_probes : list Probe :=
  when (pe_exists env "/usr/bin/nvme" || pe_exists env "/bin/nvme")
    (let bin := if pe_exists env "/usr/bin/nvme" then "/usr/bin/nvme" else "/bin/nvme" in
     CmdProbe "nvme_list" (sudo ++ [bin; "list"])
     :: match first_glob_dev (pe_nvme env) (pe_exists env) with
        | Some dev =>
            [CmdProbe "nvme_smart_log_json" (sudo ++ [bin; "smart-log"; "-o"; "json"; dev])]
        | None => []
        end).

(** src/agent/src/debug_http.rs:154-172 (the smartctl probes). *)
Definition smartctl_probes : list Probe :=
  match first_block_dev "sd" (pe_blocks env) (pe_exists env) with
  | Some sd =>
      when (pe_exists env "/usr/sbin/smartctl")
        (let dev := "/dev/" +:+ sd in
         [CmdProbe "smartctl_info" (sudo ++ ["/usr/sbin/smartctl"; "-i"; "-j"; dev]);
          CmdProbe "smartctl_full" (sudo ++ ["/usr/sbin/smartctl"; "-a"; "-j"; dev])])
  | None => []
  end.

(** src/agent/src/debug_http.rs:174-186 (the ipmitool probes). *)
Definition ipmi_probes : list Probe :=
  when (pe_exists env "/usr/bin/ipmitool")
    (let make (args : list string) := (sudo ++ "/usr/bin/ipmitool" :: args)%list in
     [CmdProbe "ipmitool_sdr_temperature" (make ["sdr"; "type"; "Temperature"]);
      CmdProbe "ipmitool_sdr_memory" (make ["sdr"; "type"; "Memory"]);
      CmdProbe "ipmitool_sel_last20" (make ["sel"; "elist"; "last"; "20"])]).

(** src/agent/src/debug_http.rs:188-197 (the lspci probe). *)
Definition lspci_probes : list Probe :=
  when (pe_exists env "/usr/bin/lspci")
    [ShellProbe "lspci_nn_head" "/usr/bin/sh"
       ["-c"; "LC_ALL=C /usr/bin/lspci -nn 2>/dev/null | head -n 30"]].

(** src/agent/src/debug_http.rs:199-213 (the ethtool probe). *)
Definition ethtool_probes : list Probe :=
  match first_monitorable_iface (ignore_regex (m_network_nic (c_modules cfg))) (pe_ifaces env) with
  | Some iface =>
      when (pe_exists env "/usr/sbin/ethtool")
        [CmdProbe "ethtool_S" ["/usr/sbin/ethtool"; "-S"; iface]]
  | None => []
  end.

(** src/agent/src/debug_http.rs:215-234 (the journal probe). *)
Definition journal_probes : list Probe :=
  when (pe_exists env "/usr/bin/journalctl")
    [CmdProbe "journalctl_kernel_tail"
       ["/usr/bin/journalctl"; "-k"; "-n"; "8"; "--no-pager"; "-o"; "short-precise"]].

(** src/agent/src/debug_http.rs:236-248 (the EDAC probes). *)
Definition edac_probes : list Probe :=
  concat (map (fun mc : Z =>
    let p := "/sys/devices/system/edac/mc/mc" +:+ show mc +:+ "/ce_count" in
    when (pe_exists env p)
      [CmdProbe ("edac_mc" +:+ show mc +:+ "_ce_count") ["/bin/cat"; p]]) [0; 1; 2; 3]).

(** src/agent/src/debug_http.rs:121-248 (the probes of build_debug_snapshot, in
    order). *)
Definition probe_list : list Probe :=
  (CmdProbe "uname" ["/bin/uname"; "-a"]
   :: CmdProbe "proc_pressure_memory" ["/bin/cat"; "/proc/pressure/memory"]
   :: nvme_probes ++ smartctl_probes ++ ipmi_probes ++ lspci_probes ++ ethtool_probes
   ++ journal_probes ++ edac_probes)%list.

(** * What a probe can run *)

(** A command without its device: whether it is run through [sudo] by an
    unprivileged agent, and whether a device or interface follows. *)
Definition allowed : list (list string * bool * bool) :=
  [(["/bin/uname"; "-a"], false, false);
   (["/bin/cat"; "/proc/pressure/memory"], false, false);
   (["/usr/bin/nvme"; "list"], true, false); (["/bin/nvme"; "list"], true, false);
   (["/usr/bin/nvme"; "smart-log"; "-o"; "json"], true, true);
   (["/bin/nvme"; "smart-log"; "-o"; "json"], true, true);
   (["/usr/sbin/smartctl"; "-i"; "-j"], true, true);
   (["/usr/sbin/smartctl"; "-a"; "-j"], true, true);
   (["/usr/bin/ipmitool"; "sdr"; "type"; "Temperature"], true, false);
   (["/usr/bin/ipmitool"; "sdr"; "type"; "Memory"], true, false);
   (["/usr/bin/ipmitool"; "sel"; "elist"; "last"; "20"], true, false);
   (["/usr/bin/sh"; "-c"; "LC_ALL=C /usr/bin/lspci -nn 2>/dev/null | head -n 30"], false, false);
   (["/usr/sbin/ethtool"; "-S"], false, true);
   (["/usr/bin/journalctl"; "-k"; "-n"; "8"; "--no-pager"; "-o"; "short-precise"], false, false);
   (["/bin/cat"], false, true)].

(** A path that exists, or an interface the configuration does not ignore. *)
Definition present (d : string) : Prop :=
  pe_exists env d = true
  \/ exists set, regex_set_new (ignore_regex (m_network_nic (c_modules cfg))) = Some set
                 /\ set_is_match set d = false.

Definition command_ok (p : Probe) : Prop :=
  exists (cmd : list string) (su : bool) (dev : option string),
    (cmd, su, bool_decide (is_Some dev)) ∈ allowed
    /\ probe_argv p = ((if su then sudo else []) ++ cmd ++ option_list dev)%list
    /\ match dev with Some d => present d | None => True end.

Lemma ok_plain cmd (su : bool) p :
  (cmd, su, false) ∈ allowed -> probe_argv p = ((if su then sudo else []) ++ cmd)%list ->
  command_ok p.
Proof. intros Ha Hp. exists cmd, su, None. simpl. by rewrite app_nil_r. Qed.

Lemma ok_device cmd (su : bool) d p :
  (cmd, su, true) ∈ allowed -> probe_argv p = ((if su then sudo else []) ++ cmd ++ [d])%list ->
  present d -> command_ok p.
Proof. intros Ha Hp Hd. by exists cmd, su, (Some d). Qed.

Lemma glob_exists ms d : first_glob_dev ms (pe_exists env) = Some d -> pe_exists env d = true.
Proof.
  unfold first_glob_dev. intros (l & -> & Hh)%bind_Some.
  assert (Hin : d ∈ sort_texts (List.filter (pe_exists env) l))
    by (destruct (sort_texts _); simplify_eq/=; set_solver).
  unfold sort_texts in Hin. rewrite merge_sort_Permutation in Hin.
  by apply list_elem_of_In, filter_In in Hin as [_ ?].
Qed.

Lemma block_exists names sd :
  first_block_dev "sd" names (pe_exists env) = Some sd -> pe_exists env ("/dev/" +:+ sd) = true.
Proof. unfold first_block_dev. by intros [_ ?]%find_some. Qed.

Lemma iface_present iface :
  first_monitorable_iface (ignore_regex (m_network_nic (c_modules cfg))) (pe_ifaces env) = Some iface ->
  present iface.
Proof.
  unfold first_monitorable_iface. intros (set & Hset & Hf)%bind_Some.
  apply bind_Some in Hf as (ns & _ & Hf). apply find_some in Hf as [_ Hm].
  right. exists set. split; [done|]. by apply negb_true_iff.
Qed.

Lemma when_elem b l p : p ∈ when b l -> b = true /\ p ∈ l.
Proof. destruct b; simpl; [done|]. by intros ?%elem_of_nil. Qed.

(** The membership of an explicit list of probes. *)
Ltac each_probe H :=
  repeat (apply elem_of_cons in H as [->|H]); [..|by apply elem_of_nil in H].

(** The entry of the table. *)
Ltac entry := unfold allowed; set_solver.

(** The debug server runs nothing but its fixed, read-only commands.  Whatever
    the request, the configuration and the machine, every probe's command line is
    one of the table, run through [sudo -n] only for nvme, smartctl and ipmitool
    and only when the agent is not root, completed by at most one argument: a path
    that exists, or an interface the configuration does not ignore. *)
Theorem debug_commands_fixed (p : Probe) (Hp : p ∈ probe_list) :
  command_ok p.
Proof.
  unfold probe_list in Hp.
  apply elem_of_cons in Hp as [->|Hp]; [eapply (ok_plain _ false); [|reflexivity]; entry|].
  apply elem_of_cons in Hp as [->|Hp]; [eapply (ok_plain _ false); [|reflexivity]; entry|].
  rewrite !elem_of_app in Hp. destruct Hp as [Hp|[Hp|[Hp|[Hp|[Hp|[Hp|Hp]]]]]].
  - apply when_elem in Hp as [_ Hp].
    apply elem_of_cons in Hp as [->|Hp].
    + destruct (pe_exists env "/usr/bin/nvme"); (eapply (ok_plain _ true); [|reflexivity]; entry).
    + destruct (first_glob_dev _ _) as [d|] eqn:E; [|by apply elem_of_nil in Hp].
      apply list_elem_of_singleton in Hp as ->. apply glob_exists in E.
      destruct (pe_exists env "/usr/bin/nvme");
        [apply (ok_device ["/usr/bin/nvme"; "smart-log"; "-o"; "json"] true d)
        |apply (ok_device ["/bin/nvme"; "smart-log"; "-o"; "json"] true d)];
        [entry|done|by left|entry|done|by left].
  - unfold smartctl_probes in Hp.
    destruct (first_block_dev _ _ _) as [sd|] eqn:E; [|by apply elem_of_nil in Hp].
    apply when_elem in Hp as [_ Hp]. apply block_exists in E.
    each_probe Hp;
      [apply (ok_device ["/usr/sbin/smartctl"; "-i"; "-j"] true ("/dev/" +:+ sd))
      |apply (ok_device ["/usr/sbin/smartctl"; "-a"; "-j"] true ("/dev/" +:+ sd))];
      [entry|done|by left|entry|done|by left].
  - apply when_elem in Hp as [_ Hp].
    each_probe Hp; (eapply (ok_plain _ true); [|reflexivity]; entry).
  - apply when_elem in Hp as [_ Hp]. each_probe Hp. (eapply (ok_plain _ false); [|reflexivity]; entry).
  - unfold ethtool_probes in Hp.
    destruct (first_monitorable_iface _ _) as [i|] eqn:E; [|by apply elem_of_nil in Hp].
    apply when_elem in Hp as [_ Hp]. each_probe Hp.
    apply (ok_device ["/usr/sbin/ethtool"; "-S"] false i); [entry|done|by apply iface_present].
  - apply when_elem in Hp as [_ Hp]. each_probe Hp. (eapply (ok_plain _ false); [|reflexivity]; entry).
  - unfold edac_probes in Hp. apply list_elem_of_In, in_concat in Hp as (l & Hl & Hp).
    apply in_map_iff in Hl as (mc & <- & _). apply list_elem_of_In, when_elem in Hp as [He Hp].
    each_probe Hp.
    by eapply (ok_device ["/bin/cat"] false); [entry|done|left].
Qed.

(** * What a probe shows *)

(** src/agent/src/debug_http.rs:21-21 (CMD_TIMEOUT). *)
Definition CMD_TIMEOUT : Duration := from_secs 12.

(** Rust's [Debug] text of a list of arguments, which needs the Unicode tables. *)
Context (debug_text : list string -> string).

Definition what_text (argv : list string) : string :=
  match argv with
  | [] => ""
  | exe :: args => "Ran `" +:+ exe +:+ "` " +:+ debug_text args
  end.

Definition code_value (o : Output) : Value :=
  match o_code o with Some c => VInt c | None => VNull end.

Definition out_fields (o : Output) : list (string * Value) :=
  [("exit_code", code_value o);
   ("stdout", VString (truncate (from_utf8_lossy (o_stdout o))));
   ("stderr", VString (truncate (from_utf8_lossy (o_stderr o))))].

(** What is shown of a process: started or not, in time or not, waited for or not.
    The two probes differ in the fields of a time-out. *)
Definition process_fields (p : Process) (on_timeout : list (string * Value)) :
    list (string * Value) :=
  match p with
  | SpawnError e => [("error", VString ("spawn: " +:+ e))]
  | Ended d o => if d <? CMD_TIMEOUT then out_fields o else on_timeout
  | WaitError d e =>
      if d <? CMD_TIMEOUT then [("error", VString ("wait: " +:+ e))] else on_timeout
  end.

(** src/agent/src/debug_http.rs:289-361 (run_cmd_probe).  Its callers always give a
    non-empty argv of texts. *)
Definition run_cmd_probe (name : string) (argv : list string) : Value :=
  match argv with
  | [] => VObject [("name", VString name); ("error", VString "empty argv")]
  | _ =>
      VObject ([("name", VString name); ("what", VString (what_text argv))]
        ++ process_fields (pe_run env argv)
             [("exit_code", VNull); ("error", VString "timeout")]
        ++ [("argv", strings_value argv)])%list
  end.

(** src/agent/src/debug_http.rs:363-405 (run_shell_probe). *)
Definition run_shell_probe (name shell : string) (shell_argv : list string) : Value :=
  VObject ([("name", VString name); ("what", VString (what_text (shell :: shell_argv)))]
    ++ process_fields (pe_run env (shell :: shell_argv)) [("error", VString "timeout")])%list.

Definition run_probe (p : Probe) : Value :=
  match p with
  | CmdProbe name argv => run_cmd_probe name argv
  | ShellProbe name sh argv => run_shell_probe name sh argv
  end.

(** The tags, a [BTreeMap]. *)
Definition tags_value (tags : gmap string string) : Value :=
  VObject (map (fun kv => (fst kv, VString (snd kv))) (map_to_list tags)).

(** src/agent/src/debug_http.rs:250-268 (the snapshot).  Serialising the blocks
    cannot fail. *)
Definition build_debug_snapshot (generated_at : string) : Value :=
  VObject
    [("schema_version", VInt 1);
     ("generated_at", VString generated_at);
     ("maintenance_mode", VBool (maintenance_mode cfg));
     ("host", VObject [("hostname", VString (hostname host)); ("host_id", VString (machine_id host));
                       ("primary_ip", VString (primary_ip host))]);
     ("tags", tags_value (c_tags cfg));
     ("modules_effective", redact_secrets (modules_value (c_modules cfg)));
     ("network_nic_ignore_regex", strings_value (ignore_regex (m_network_nic (c_modules cfg))));
     ("syslog_rules", rules_value (m_syslog_rules (c_modules cfg)));
     ("probes", VArray (map run_probe probe_list));
     ("note", VString "Each probe shows what the OS returned for common agent inputs. Truncated; bind debug_listen to 127.0.0.1 only.")].

End snapshot.

(** * The password *)

Definition set_password (p : string) (b : BmcCfg) : BmcCfg :=
  mkBmcCfg (bmc_enabled b) (bmc_poll_s b) (ipmi_device b) (redfish_url b)
    (redfish_username b) p (redfish_insecure b).

(** The configuration with other passwords in its two BMC blocks. *)
Definition with_passwords (p q : string) (c : AgentConfig) : AgentConfig :=
  let m := c_modules c in
  mkAgentConfig (c_agent c) (c_collector c) (c_tls c) (c_heartbeat c) (c_dedup c)
    (mkModulesBlock (m_nvme m) (m_disk_smart m) (m_memory_ecc m) (m_cpu_mce m) (m_pcie_aer m)
       (m_thermal m) (m_gpu_nvidia m) (m_gpu_amd m) (m_network_nic m) (m_storage_controller m)
       (m_storage_io m) (m_mempressure m) (m_oshang m) (set_password p (m_bmc_redfish m))
       (set_password q (m_bmc_eventlog m)) (m_syslog_rules m) (m_boot m) (m_lifecycle m))
    (c_tags c).

(** C26: the snapshot does not depend on the BMC passwords.  Two configurations that
    differ only in them give the same snapshot, whatever the machine answers: no
    part of it, probes and derived fields included, lets one learn anything of a
    password, not even whether it is set. *)
Theorem snapshot_password_free `{RegexEngine} (cfg : AgentConfig) (host : HostId)
    (env : ProbeEnv) (debug_text : list string -> string) (generated_at p q : string) :
  build_debug_snapshot (with_passwords p q cfg) host env debug_text generated_at
  = build_debug_snapshot cfg host env debug_text generated_at.
Proof. reflexivity. Qed.

(** A machine with a drive and a block device, not root. *)
Definition demo_probe_env : ProbeEnv :=
  mkProbeEnv false (fun _ => true) (Some ["/dev/nvme0n1"]) ["sda"] (Some ["lo"; "eth0"])
    (fun _ => SpawnError "no").

Lemma debug_commands_fixed_witness :
  command_ok (H := LiteralRegex) default_fallback demo_probe_env
    (CmdProbe "nvme_smart_log_json"
       ["sudo"; "-n"; "/usr/bin/nvme"; "smart-log"; "-o"; "json"; "/dev/nvme0n1"]).
Proof.
  apply (debug_commands_fixed (H := LiteralRegex) default_fallback demo_probe_env).
  apply list_elem_of_lookup_2 with 3%nat. vm_compute. reflexivity.
Defined.
