(* ===== verification/CollectorMain.v ===== *)
(** Starting the collector: what [derive(Deserialize)] makes of its TOML document
    (src/collector/src/config.rs and the webhook entries of
    src/collector/src/webhooks.rs), opening the history
    (src/collector/src/store.rs) and [main] (src/collector/src/main.rs) down to the
    tasks it spawns and the state they share.

    TOML text, socket addresses in it, PEM files and the SQLite driver are not part
    of this repository: they are parameters.  The default features are on, so
    webhooks are compiled in. *)
From S2P Require Import Prelude Text Utf8 Schema Json Channels Codec CollectorState.
From S2P Require Import Ingest Store GuiApi CollectorSystem Regex Webhooks CollectorConfig.
From S2P Require Import ConfigLoad.

Local Open Scope string_scope.
Local Open Scope Z_scope.

(** * The configuration *)

Section load.
Context (toml_parse : string -> option Value) (socket_addr : string -> bool).

Definition dec_addr (v : Value) : option string :=
  s ← as_str v; if socket_addr s then Some s else None.

(** src/collector/src/webhooks.rs:26-60 (WebhookCfg, derive(Deserialize), and the
    defaults of its fields). *)
Definition dec_webhook (v : Value) : option WebhookCfg :=
  l ← fields v;
  name ← required as_str "name" l;
  kind ← required as_str "kind" l;
  url ← required as_str "url" l;
  sev ← field as_str "warning" "severity_min" l;
  states ← field (dec_list as_str) ["firing"] "states" l;
  resolved ← field as_bool false "notify_on_resolved" l;
  hosts ← field (fun x => Some <$> as_str x) None "host_filter" l;
  cats ← field (fun x => Some <$> as_str x) None "category_filter" l;
  rate ← field dec_u32 60 "rate_limit_per_min" l;
  gui ← field as_str "" "gui_url" l;
  insecure ← field as_bool false "insecure_tls" l;
  Some (mkWebhook name kind url sev states resolved hosts cats rate gui insecure).

(** src/collector/src/config.rs:42-52 (TlsBlock, derive(Deserialize)): the paths
    have no default. *)
Definition dec_server_tls (v : Value) : option ServerTls :=
  l ← fields v;
  ca ← required as_str "ca_cert" l;
  cert ← required as_str "server_cert" l;
  key ← required as_str "server_key" l;
  client ← field as_bool true "require_client_cert" l;
  Some (mkServerTls ca cert key client).

(** src/collector/src/config.rs:11-40 (CollectorConfig, derive(Deserialize)). *)
Definition dec_collector_config (v : Value) : option CollectorConfig :=
  l ← fields v;
  ingest ← field dec_addr "0.0.0.0:9443" "bind_ingest" l;
  gui ← field dec_addr "0.0.0.0:8443" "bind_gui" l;
  tcp ← field (fun x => Some <$> dec_addr x) None "bind_syslog_tls" l;
  udp ← field (fun x => Some <$> dec_addr x) None "bind_syslog_udp" l;
  tls ← field dec_server_tls ServerTls_default "tls" l;
  db ← field as_str "/var/lib/monitor-collector/collector.sqlite" "db_path" l;
  days ← field dec_u32 30 "retention_days" l;
  after ← field dec_u64 10 "offline_after_s" l;
  level ← field as_str "info" "log_level" l;
  hooks ← field (dec_list dec_webhook) [] "webhooks" l;
  Some (mkCollectorConfig ingest gui tcp udp tls db days after level hooks).

(** src/collector/src/config.rs:61-69 (CollectorConfig::load), on the content of
    the file, [None] when it cannot be read. *)
Definition load_collector (file : option string) : option CollectorConfig :=
  text ← file;
  if utf8_valid text then v ← toml_parse text; dec_collector_config v else None.

(** An empty file is the built-in configuration. *)
Lemma empty_file_defaults :
  dec_collector_config (VObject []) = Some CollectorConfig_default.
Proof. reflexivity. Qed.

(** Numbers fit their machine types. *)
Definition collector_typed_config (c : CollectorConfig) : Prop :=
  Int.is_u32 (retention_days c) /\ Int.is_u64 (offline_after_s c)
  /\ Forall (fun w => Int.is_u32 (wh_rate_limit_per_min w)) (webhooks c).

End load.

(** * Opening the history *)

(** The driver: opening (or creating) the database of a URL, and executing a
    statement. *)
Class SqliteDb (D : Type) : Type := {
  db_connect : string -> option D;
  db_execute : string -> D -> option D
}.

(** src/collector/src/store.rs:40-60 (the statements of Store::open), with their
    line breaks collapsed. *)
Definition create_table : string :=
  "CREATE TABLE IF NOT EXISTS alerts (id TEXT PRIMARY KEY, ts TEXT NOT NULL, host_id TEXT NOT NULL, host TEXT NOT NULL, severity TEXT NOT NULL, state TEXT NOT NULL, category TEXT NOT NULL, fingerprint TEXT NOT NULL, body TEXT NOT NULL);".
Definition create_indexes : list string :=
  ["CREATE INDEX IF NOT EXISTS alerts_ts ON alerts(ts);";
   "CREATE INDEX IF NOT EXISTS alerts_fp ON alerts(fingerprint);";
   "CREATE INDEX IF NOT EXISTS alerts_host ON alerts(host_id);"].

Definition if_not_exists (sql : string) : bool :=
  starts_with "CREATE TABLE IF NOT EXISTS " sql || starts_with "CREATE INDEX IF NOT EXISTS " sql.

(** A statement that creates only what is missing keeps the rows. *)
Class SqliteDbLaws (D : Type) `{Sqlite D} `{SqliteDb D} : Prop := {
  execute_rows sql d d' :
    if_not_exists sql = true -> db_execute sql d = Some d' -> rows d' = rows d
}.

(** The tasks [main] spawns; a server with the routes it serves. *)
Inductive Routes : Type := IngestRoutes | GuiRoutes.

Inductive CTask : Type :=
  | TRetention (days : Z)
  | TWriter
  | TWatcher (after_s : Z)
  | TSyslogUdp (addr : string)
  | TSyslogTcp (addr : string)
  | TWebhook (cfg : WebhookCfg)
  | TTlsServer (addr cert key : string) (routes : Routes).

Section main.
Context {C : Type -> Type} {D : Type}.
Context `{!Mpsc C} `{!Sqlite D} `{!SqliteDb D} `{!Codec} `{!Chrono}.
Context (toml_parse : string -> option Value) (socket_addr : string -> bool).

(** src/collector/src/store.rs:25-67 (Store::open), with the retention task it
    spawns.  A failure to create the parent directory is ignored. *)
Definition store_open (path : string) (days : Z) : option (D * CTask) :=
  d ← db_connect ("sqlite://" +:+ path);
  d1 ← db_execute create_table d;
  d2 ← foldl (fun acc sql => x ← acc; db_execute sql x) (Some d1) create_indexes;
  Some (d2, TRetention days).

(** src/collector/src/webhooks.rs:75-80 (spawn_all). *)
Definition spawn_all (cfgs : list WebhookCfg) : list CTask := map TWebhook cfgs.

(** What [main] is given: the command line, the content of the configuration file,
    a constructor of bounded channels, and whether a certificate and its key
    load. *)
Record StartEnv : Type := mkStartEnv {
  se_print_default : bool;
  se_config : option string;
  se_channel : Z -> C Alert;
  se_pem : string -> string -> bool
}.

(** src/collector/src/main.rs:101-119 (spawn_tls_server); [None] is the error. *)
Definition spawn_tls_server (e : StartEnv) (addr cert key : string) (r : Routes) :
    option CTask :=
  if se_pem e cert key then Some (TTlsServer addr cert key r) else None.

(** src/collector/src/main.rs:187-204 (DEFAULT_CONFIG). *)
Definition quoted (s : string) : string := dq +:+ s +:+ dq.
Definition DEFAULT_CONFIG : string :=
  let nl := String (Ascii.ascii_of_nat 10) "" in
  String.concat nl
    [""; "bind_ingest = " +:+ quoted "0.0.0.0:9443";
     "bind_gui    = " +:+ quoted "0.0.0.0:8443";
     "# Optional BMC syslog ingest:";
     "# bind_syslog_udp = " +:+ quoted "0.0.0.0:514";
     "# bind_syslog_tls = " +:+ quoted "0.0.0.0:6514"; "";
     "db_path = " +:+ quoted "/var/lib/monitor-collector/collector.sqlite";
     "retention_days = 30"; "offline_after_s = 10";
     "log_level = " +:+ quoted "info"; ""; "[tls]";
     "ca_cert     = " +:+ quoted "/etc/monitor-collector/ca.crt";
     "server_cert = " +:+ quoted "/etc/monitor-collector/server.crt";
     "server_key  = " +:+ quoted "/etc/monitor-collector/server.key";
     "require_client_cert = true"; ""].

(** src/collector/src/main.rs:61-77 (the tasks spawned before the servers). *)
Definition spawned_tasks (cfg : CollectorConfig) : list CTask :=
  (TWriter :: TWatcher (offline_after_s cfg)
   :: from_option (fun a => [TSyslogUdp a]) [] (bind_syslog_udp cfg)
   ++ from_option (fun a => [TSyslogTcp a]) [] (bind_syslog_tls cfg)
   ++ (if bool_decide (webhooks cfg = []) then [] else spawn_all (webhooks cfg)))%list.

(** A printed text, the process gone with an error, or serving with its tasks, in
    the order they were spawned, and the shared state. *)
Inductive Outcome : Type :=
  | Printed (text : string)
  | Exited
  | Serving (tasks : list CTask) (c : Collector C D).

(** src/collector/src/main.rs:48-99 (main). *)
Definition collector_main (e : StartEnv) : Outcome :=
  if se_print_default e then Printed DEFAULT_CONFIG
  else
    match load_collector toml_parse socket_addr (se_config e) with
    | None => Exited
    | Some cfg =>
        let after_s := offline_after_s cfg in
        match store_open (db_path cfg) (retention_days cfg) with
        | None => Exited
        | Some (store, retention) =>
            let writer := se_channel e 8192 in
            let tls := server_tls cfg in
            match spawn_tls_server e (bind_ingest cfg) (tls_server_cert tls)
                    (tls_server_key tls) IngestRoutes with
            | None => Exited
            | Some ingest =>
                match spawn_tls_server e (bind_gui cfg) (tls_server_cert tls)
                        (tls_server_key tls) GuiRoutes with
                | None => Exited
                | Some gui =>
                    Serving (retention :: spawned_tasks cfg ++ [ingest; gui])
                      (collector_start after_s store writer (se_config e))
                end
            end
        end
    end.

End main.

(** * What a start guarantees *)

Lemma dec_webhook_typed v w : dec_webhook v = Some w -> Int.is_u32 (wh_rate_limit_per_min w).
Proof. unfold dec_webhook. intros Hw. open_fields Hw. in_range. Qed.

Lemma dec_webhooks_typed v l :
  dec_list dec_webhook v = Some l -> Forall (fun w => Int.is_u32 (wh_rate_limit_per_min w)) l.
Proof.
  destruct v; try done. simpl. intros Hm%mapM_Some.
  induction Hm; constructor; [by eapply dec_webhook_typed|done].
Qed.

Lemma collector_config_typed socket_addr v c :
  dec_collector_config socket_addr v = Some c -> collector_typed_config c.
Proof.
  unfold dec_collector_config. intros Hc. open_fields Hc.
  split_and!; simpl; [in_range..|]. eapply field_holds; [eassumption|done|].
  apply dec_webhooks_typed.
Qed.

(** An absent block leaves the paths empty. *)
Lemma absent_tls socket_addr l c :
  dec_collector_config socket_addr (VObject l) = Some c -> assoc "tls" l = None ->
  server_tls c = ServerTls_default.
Proof.
  unfold dec_collector_config. intros Hc Ha. open_fields Hc.
  match goal with H : field _ ServerTls_default _ _ = _ |- _ => unfold field in H; rewrite Ha in H end.
  by simplify_eq.
Qed.

Section start.
Context {C : Type -> Type} {D : Type}.
Context `{!Mpsc C} `{!Sqlite D} `{!SqliteDb D} `{!SqliteDbLaws D} `{!Codec} `{!Chrono}.
Context (toml_parse : string -> option Value) (socket_addr : string -> bool).

Lemma execute_all_rows sqls (d d' : D) :
  Forall (fun sql => if_not_exists sql = true) sqls ->
  foldl (fun acc sql => x ← acc; db_execute sql x) (Some d) sqls = Some d' -> rows d' = rows d.
Proof.
  revert d. induction sqls as [|sql sqls IH]; intros d; simpl; [by intros _ [= ->]|].
  intros [Hs Hss]%Forall_cons He. destruct (db_execute sql d) as [d1|] eqn:E.
  - rewrite (IH d1 Hss He). by apply execute_rows in E.
  - exfalso. clear -He. by induction sqls.
Qed.

(** Opening the history keeps it. *)
Lemma store_open_rows path days (d : D) t :
  store_open path days = Some (d, t) ->
  t = TRetention days
  /\ exists d0 : D, db_connect ("sqlite://" +:+ path) = Some d0 /\ rows d = rows d0.
Proof.
  unfold store_open. intros Ho.
  apply bind_Some in Ho as (d0 & Hc & (d1 & H1 & (d2 & H2 & [= -> <-])%bind_Some)%bind_Some).
  split; [done|]. exists d0. split; [done|].
  apply execute_all_rows in H2; [|by repeat constructor].
  rewrite H2. by apply execute_rows in H1.
Qed.

#[local] Arguments spawned_tasks : simpl never.

Definition is_server (t : CTask) : bool :=
  match t with TTlsServer _ _ _ _ => true | _ => false end.

Lemma spawned_no_server cfg t : t ∈ spawned_tasks cfg -> is_server t = false.
Proof.
  revert t. apply Forall_forall. unfold spawned_tasks, spawn_all.
  destruct (bind_syslog_udp cfg), (bind_syslog_tls cfg); case_bool_decide; simpl;
    repeat first [apply Forall_cons; split; [done|] | apply Forall_nil; done
                 | by apply Forall_fmap, Forall_true].
Qed.

Lemma serving_inj (ts1 ts2 : list CTask) (c1 c2 : Collector C D) :
  Serving ts1 c1 = Serving ts2 c2 -> ts1 = ts2 /\ c1 = c2.
Proof. by intros [= -> ->]. Qed.

(** C24: the collector serves a complete configuration or not at all.  Unlike the
    agent it has no fallback: it runs only if the file is read, is TOML, decodes,
    and names the server's certificate and key, which an absent [tls] block does
    not.  It then spawns a server task for exactly the two configured addresses, both
    with that certificate, holds no firing alert and no host, and has the history of its
    previous runs as it was left. *)
Theorem collector_serves_configured (e : StartEnv) (ts : list CTask) (c : Collector C D)
    (Hempty : se_pem e "" "" = false)
    (Hserve : collector_main toml_parse socket_addr e = Serving ts c) :
  exists text v cfg (d : D),
    se_config e = Some text /\ toml_parse text = Some v
    /\ dec_collector_config socket_addr v = Some cfg /\ collector_typed_config cfg
    /\ (exists l x, v = VObject l /\ assoc "tls" l = Some x)
    /\ (forall addr cert key r, TTlsServer addr cert key r ∈ ts <->
          cert = tls_server_cert (server_tls cfg) /\ key = tls_server_key (server_tls cfg)
          /\ ((addr, r) = (bind_ingest cfg, IngestRoutes) \/ (addr, r) = (bind_gui cfg, GuiRoutes)))
    /\ app_firing (co_app c) = ∅ /\ app_hosts (co_app c) = ∅
    /\ db_connect ("sqlite://" +:+ db_path cfg) = Some d
    /\ rows (gs_store (co_gui c)) = rows d.
Proof.
  unfold collector_main, spawn_tls_server in Hserve.
  destruct (se_print_default e); [done|].
  destruct (load_collector _ _ _) as [cfg|] eqn:Hl; [|done].
  destruct (store_open _ _) as [[d t]|] eqn:Ho; [|done].
  destruct (se_pem e (tls_server_cert (server_tls cfg)) _) eqn:Hp; [|done].
  apply serving_inj in Hserve as [<- <-].
  apply store_open_rows in Ho as (-> & d0 & Hd0 & Hrows).
  apply bind_Some in Hl as (text & Ht & Hl). destruct (utf8_valid text); [|done].
  apply bind_Some in Hl as (v & Hv & Hdec).
  exists text, v, cfg, d0. split_and!; try done.
  - by apply (collector_config_typed socket_addr v).
  - destruct v as [| | | | | |l]; try done. exists l.
    destruct (assoc "tls" l) as [x|] eqn:Habs; [by exists x|].
    rewrite (absent_tls _ _ _ Hdec Habs) in Hp. simpl in Hp. congruence.
  - intros addr cert key r. 
    rewrite elem_of_cons, elem_of_app, elem_of_cons, list_elem_of_singleton. split.
    + intros [|[?%spawned_no_server|[[= -> -> -> ->]|[= -> -> -> ->]]]]; by auto.
    + intros (-> & -> & [[= -> ->]|[= -> ->]]); auto.
Qed.

End start.

(** * A concrete start *)

#[local] Existing Instance CodecRef.
#[local] Existing Instance ChronoRef.

(** A database that opens with one alert of an earlier run. *)
#[local] Instance rows_db : SqliteDb (list Row) := {
  db_connect _ := Some (hist_step (D := list Row) [] (HInsert ref_alert));
  db_execute _ d := Some d
}.

#[local] Instance rows_db_laws : SqliteDbLaws (list Row).
Proof. split. by intros sql d d' _ [= ->]. Qed.

(** The value of [DEFAULT_CONFIG] as a TOML document. *)
Definition default_document : Value :=
  VObject [("bind_ingest", VString "0.0.0.0:9443"); ("bind_gui", VString "0.0.0.0:8443");
           ("db_path", VString "/var/lib/monitor-collector/collector.sqlite");
           ("retention_days", VInt 30); ("offline_after_s", VInt 10);
           ("log_level", VString "info");
           ("tls", VObject [("ca_cert", VString "/etc/monitor-collector/ca.crt");
                            ("server_cert", VString "/etc/monitor-collector/server.crt");
                            ("server_key", VString "/etc/monitor-collector/server.key");
                            ("require_client_cert", VBool true)])].

(** The printed configuration and the built-in one differ in the [tls] block only. *)
Lemma default_document_fields :
  dec_collector_config (fun _ => true) default_document
  = Some (mkCollectorConfig (bind_ingest CollectorConfig_default)
            (bind_gui CollectorConfig_default) None None
            (mkServerTls "/etc/monitor-collector/ca.crt" "/etc/monitor-collector/server.crt"
               "/etc/monitor-collector/server.key" true)
            (db_path CollectorConfig_default) (retention_days CollectorConfig_default)
            (offline_after_s CollectorConfig_default) (log_level CollectorConfig_default) []).
Proof. reflexivity. Qed.

Abbreviation demo_start_env :=
  (mkStartEnv false (Some DEFAULT_CONFIG) (fun _ => mkBounded 4 [])
     (fun cert key => negb (is_empty cert) && negb (is_empty key))).
Abbreviation demo_tasks :=
  [TRetention 30; TWriter; TWatcher 10;
   TTlsServer "0.0.0.0:9443" "/etc/monitor-collector/server.crt"
     "/etc/monitor-collector/server.key" IngestRoutes;
   TTlsServer "0.0.0.0:8443" "/etc/monitor-collector/server.crt"
     "/etc/monitor-collector/server.key" GuiRoutes].

Abbreviation demo_collector :=
  (collector_start 10 (hist_step (D := list Row) [] (HInsert ref_alert)) (mkBounded 4 [])
     (Some DEFAULT_CONFIG)).

Lemma demo_serves :
  collector_main (C := BoundedQueue) (D := list Row) (fun _ => Some default_document)
    (fun _ => true) demo_start_env = Serving demo_tasks demo_collector.
Proof. vm_compute. reflexivity. Qed.

Lemma collector_serves_configured_witness :
  exists text v cfg (d : list Row),
    Some DEFAULT_CONFIG = Some text /\ Some default_document = Some v
    /\ dec_collector_config (fun _ => true) v = Some cfg /\ d <> [].
Proof.
  destruct (collector_serves_configured (fun _ => Some default_document) (fun _ => true)
    demo_start_env demo_tasks demo_collector eq_refl demo_serves)
    as (text & v & cfg & d & Ht & Hv & Hc & _ & _ & _ & _ & _ & Hd & _).
  exists text, v, cfg, d. split; [exact Ht|]. split; [exact Hv|]. split; [exact Hc|].
  injection Hd as <-. vm_compute. discriminate.
Defined.
