(* ===== verification/GuiRouter.v ===== *)
(** The routes of the GUI port (src/collector/src/http.rs, [router]) and the
    handlers that only read: which request reaches which operation of [GuiApi], and
    what each request can change.

    [axum] matches a request by path and method: an unknown path is answered 404, a
    known one with another method 405, and a GET route serves HEAD too.  Its
    extractors (the query string, a JSON body, the upgrade) and the included static
    files are parameters. *)
From S2P Require Import Prelude Text Utf8 Schema Json Channels Codec CollectorState.
From S2P Require Import Ingest Store GuiApi CollectorSystem Webhooks CollectorConfig.
From S2P Require Import ConfigLoad CollectorMain.
From Stdlib Require Import Ascii.

Local Open Scope string_scope.
Local Open Scope Z_scope.

Inductive Method : Type := GET | HEAD | POST | OtherMethod.

#[export] Instance method_eq_dec : EqDecision Method.
Proof. solve_decision. Defined.

(** A request: [rq_json] is whether its content type is JSON, [rq_upgrade] whether
    it asks for a WebSocket. *)
Record Request : Type := mkRequest {
  rq_method : Method;
  rq_path : string;
  rq_query : string;
  rq_json : bool;
  rq_upgrade : bool;
  rq_body : string
}.

Inductive Endpoint : Type :=
  | ServeIndex | ServeAppjs | ServeCss | ApiSnapshot | ApiAlerts | ApiHosts | ApiResolve
  | ApiClearHistory | ApiGetConfig | ApiPostConfig | ApiWebhooks | WsSubscribe.

(** src/collector/src/http.rs:41-56 (router): the handlers of a path, for GET and
    for POST. *)
Definition route (path : string) : option (option Endpoint * option Endpoint) :=
  if decide (path = "/") then Some (Some ServeIndex, None)
  else if decide (path = "/app.js") then Some (Some ServeAppjs, None)
  else if decide (path = "/style.css") then Some (Some ServeCss, None)
  else if decide (path = "/api/snapshot") then Some (Some ApiSnapshot, None)
  else if decide (path = "/api/alerts") then Some (Some ApiAlerts, None)
  else if decide (path = "/api/hosts") then Some (Some ApiHosts, None)
  else if decide (path = "/api/resolve") then Some (None, Some ApiResolve)
  else if decide (path = "/api/history/clear") then Some (None, Some ApiClearHistory)
  else if decide (path = "/api/config") then Some (Some ApiGetConfig, Some ApiPostConfig)
  else if decide (path = "/api/webhooks") then Some (Some ApiWebhooks, None)
  else if decide (path = "/ws/subscribe") then Some (Some WsSubscribe, None)
  else None.

(** src/collector/src/http.rs:214-220 (WebhookSummary). *)
Record WebhookSummary : Type := mkSummary {
  ws_name : string; ws_kind : string; ws_sev_min : string; ws_active : bool
}.

(** src/collector/src/http.rs:97-104 (ResolveReq, derive(Deserialize)). *)
Definition dec_resolve : Value -> option (string * string) :=
  dec_struct ["fingerprint"; "by"] (fun l =>
  fp ← required as_str "fingerprint" l;
  by_ ← field as_str "" "by" l;
  Some (fp, by_)).

(** What comes back: a static file, a JSON view, the answer of an operation, an
    upgraded socket, or a refusal of [axum]'s. *)
Inductive Answer : Type :=
  | AStatic (content_type body : string)
  | ASnapshot (s : Snapshot)
  | AHosts (l : list HostState)
  | AWebhooks (l : list WebhookSummary)
  | AResponse (r : Response)
  | AUpgrade
  | ARejected
  | ANotFound
  | AMethodNotAllowed.

Section router.
Context {C : Type -> Type} {D : Type}.
Context `{!Mpsc C} `{!Sqlite D} `{!Codec} `{!Chrono}.
Context (toml_parse : string -> option Value) (socket_addr : string -> bool).
(** [query_limit]: [None] for a query string that does not decode, [Some None] for
    one without a limit. *)
Context (static_file : string -> string) (json_parse : string -> option Value)
        (query_limit : string -> option (option Z)).

(** The clocks and the fate of a write while a request is served. *)
Record ServeEnv : Type := mkServeEnv {
  sv_stamp : Stamp;
  sv_now_of : string -> DateTime;
  sv_now : DateTime;
  sv_write_ok : bool
}.

(** src/collector/src/http.rs:71-73 (api_snapshot). *)
Definition api_snapshot (e : ServeEnv) (g : GuiState C D) : Snapshot :=
  snapshot (sv_now_of e) (sv_now e) (gs_app g).

(** src/collector/src/http.rs:93-95 (api_hosts). *)
Definition api_hosts (e : ServeEnv) (g : GuiState C D) : list HostState :=
  sn_hosts (snapshot (sv_now_of e) (sv_now e) (gs_app g)).

(** src/collector/src/http.rs:223-247 (api_webhooks): the file is read again; any
    failure gives the empty list. *)
Definition api_webhooks (g : GuiState C D) : list WebhookSummary :=
  match load_collector toml_parse socket_addr (gs_config g) with
  | Some cfg => map (fun w => mkSummary (wh_name w) (wh_kind w) (wh_severity_min w) true)
                    (webhooks cfg)
  | None => []
  end.

(** src/collector/src/http.rs:58-61 (serve_index). *)
Definition serve_index : Answer :=
  AStatic "text/html; charset=utf-8" (static_file "index.html").
(** src/collector/src/http.rs:62-65 (serve_appjs). *)
Definition serve_appjs : Answer :=
  AStatic "application/javascript; charset=utf-8" (static_file "app.js").
(** src/collector/src/http.rs:66-69 (serve_css). *)
Definition serve_css : Answer :=
  AStatic "text/css; charset=utf-8" (static_file "style.css").

(** src/collector/src/http.rs:75-80 (AlertsQuery, default_limit). *)
Definition default_limit : Z := 500.

(** What a handler's extractors and body do. *)
Definition handle (e : ServeEnv) (r : Request) (ep : Endpoint) (g : GuiState C D) :
    GuiState C D * Answer :=
  match ep with
  | ServeIndex => (g, serve_index)
  | ServeAppjs => (g, serve_appjs)
  | ServeCss => (g, serve_css)
  | ApiSnapshot => (g, ASnapshot (api_snapshot e g))
  | ApiAlerts =>
      match query_limit (rq_query r) with
      | Some limit => (g, AResponse (api_alerts (default default_limit limit) g))
      | None => (g, ARejected)
      end
  | ApiHosts => (g, AHosts (api_hosts e g))
  | ApiResolve =>
      match (if rq_json r then json_parse (rq_body r) ≫= dec_resolve else None) with
      | Some (fp, by_) =>
          let a := api_resolve (sv_stamp e) fp by_ g in (fst a, AResponse (snd a))
      | None => (g, ARejected)
      end
  | ApiClearHistory =>
      let a := api_clear_history (sv_now_of e) (sv_now e) g in (fst a, AResponse (snd a))
  | ApiGetConfig => (g, AResponse (api_get_config g))
  | ApiPostConfig =>
      let a := api_post_config (sv_write_ok e) (rq_body r) g in (fst a, AResponse (snd a))
  | ApiWebhooks => (g, AWebhooks (api_webhooks g))
  | WsSubscribe => (g, if rq_upgrade r then AUpgrade else ARejected)
  end.

(** src/collector/src/http.rs:41-56 (router), one request on the GUI port. *)
Definition serve (e : ServeEnv) (r : Request) (g : GuiState C D) : GuiState C D * Answer :=
  match route (rq_path r) with
  | None => (g, ANotFound)
  | Some (get_ep, post_ep) =>
      match (match rq_method r with
             | GET | HEAD => get_ep | POST => post_ep | OtherMethod => None
             end) with
      | Some ep => handle e r ep g
      | None => (g, AMethodNotAllowed)
      end
  end.

(** The endpoints that change something, and where they are. *)
Definition writes (ep : Endpoint) : bool :=
  match ep with ApiResolve | ApiClearHistory | ApiPostConfig => true | _ => false end.

Context `{!SqliteLaws D}.

Lemma route_get path get_ep post_ep :
  route path = Some (Some get_ep, post_ep) -> writes get_ep = false.
Proof. unfold route. repeat case_decide; intros; by simplify_eq. Qed.

Lemma route_post path get_ep ep :
  route path = Some (get_ep, Some ep) ->
  (ep = ApiResolve /\ path = "/api/resolve")
  \/ (ep = ApiClearHistory /\ path = "/api/history/clear")
  \/ (ep = ApiPostConfig /\ path = "/api/config").
Proof. unfold route. repeat case_decide; intros; simplify_eq; auto. Qed.

Lemma handle_reads e r ep g : writes ep = false -> fst (handle e r ep g) = g.
Proof. destruct ep; simpl; try done; intros _; by case_match. Qed.

(** Where the state changes, a POST to one of three paths did it. *)
Lemma serve_writes e r g :
  fst (serve e r g) = g
  \/ (rq_method r = POST /\ exists ep, fst (serve e r g) = fst (handle e r ep g)
      /\ ((ep = ApiResolve /\ rq_path r = "/api/resolve")
          \/ (ep = ApiClearHistory /\ rq_path r = "/api/history/clear")
          \/ (ep = ApiPostConfig /\ rq_path r = "/api/config"))).
Proof.
  unfold serve. destruct (route (rq_path r)) as [[get_ep post_ep]|] eqn:E; [|by left].
  destruct (rq_method r); [left|left| |by left].
  - destruct get_ep as [ep|]; [|done]. by eapply handle_reads, route_get.
  - destruct get_ep as [ep|]; [|done]. by eapply handle_reads, route_get.
  - destruct post_ep as [ep|]; [right|by left]. split; [done|]. exists ep.
    split; [done|]. by eapply route_post.
Qed.

(** C25: the GUI port changes only what its three POST routes are for.  Whatever the
    request, a difference in the configuration file comes from a POST to
    /api/config whose body it then holds, and which is UTF-8; a difference in the
    history from a POST to /api/history/clear, after which it is empty; a
    difference in the firing alerts or the hosts from a POST to /api/resolve,
    which removes one firing alert.  No GET, HEAD or other method changes
    anything, and nothing is broadcast but by the last two. *)
Theorem gui_port_confined (e : ServeEnv) (r : Request) (g : GuiState C D) :
  let g' := fst (serve e r g) in
  (rq_method r <> POST -> g' = g)
  /\ (gs_config g' <> gs_config g ->
        rq_path r = "/api/config" /\ utf8_valid (rq_body r) = true
        /\ gs_config g' = Some (rq_body r))
  /\ (gs_store g' <> gs_store g ->
        rq_path r = "/api/history/clear" /\ rows (gs_store g') = [])
  /\ (app_firing (gs_app g') <> app_firing (gs_app g)
      \/ app_hosts (gs_app g') <> app_hosts (gs_app g) ->
        rq_path r = "/api/resolve"
        /\ exists fp, is_Some (app_firing (gs_app g) !! fp)
                      /\ app_firing (gs_app g') = delete fp (app_firing (gs_app g)))
  /\ (app_fanout (gs_app g') <> app_fanout (gs_app g) ->
        rq_path r = "/api/resolve" \/ rq_path r = "/api/history/clear").
Proof.
  intros g'. unfold g'. clear g'.
  destruct (serve_writes e r g) as [->|(Hm & ep & -> & Hep)].
  { split_and!; try done. by intros [?|?]. }
  split; [done|].
  destruct Hep as [[-> ->]|[[-> ->]|[-> ->]]]; simpl.
  - destruct (if rq_json r then _ else _) as [[fp by_]|]; simpl;
      [|split_and!; try done; by intros [?|?]].
    unfold api_resolve. destruct (app_firing (gs_app g) !! fp) as [a|] eqn:Ha; simpl;
      [|split_and!; try done; by intros [?|?]].
    split_and!; try done; [|by left]. intros _. split; [done|]. exists fp.
    split; [by rewrite Ha|]. unfold decrement_count. by repeat (case_match; simpl).
  - unfold api_clear_history, clear_all.
    destruct (delete_all (gs_store g)) as [[d n]|] eqn:Hd; simpl;
      [|split_and!; try done; by intros [?|?]].
    apply delete_all_rows in Hd as [Hd _].
    split_and!; try done; [by rewrite vacuum_rows|by intros [?|?]|by right].
  - unfold api_post_config. destruct (utf8_valid (rq_body r)); simpl;
      [|split_and!; try done; by intros [?|?]].
    destruct (contains_byte _ _), (sv_write_ok e); simpl; split_and!; try done; by intros [?|?].
Qed.

(** The editor's check is not the loader's: a text it accepts and saves, but that
    does not decode, leaves a file the collector cannot start from, and until then
    lists no webhooks. *)
Lemma saved_config_may_not_load (e : ServeEnv) (r : Request) (g : GuiState C D)
    `{!SqliteDb D} (start : StartEnv (C := C)) :
  rq_method r = POST -> rq_path r = "/api/config" ->
  utf8_valid (rq_body r) = true -> contains_byte "="%char (rq_body r) = true ->
  sv_write_ok e = true -> toml_parse (rq_body r) = None ->
  let g' := fst (serve e r g) in
  snd (serve e r g) = AResponse (RStatus 204 "")
  /\ api_webhooks g' = []
  /\ collector_main toml_parse socket_addr
       (mkStartEnv false (gs_config g') (se_channel start) (se_pem start)) = Exited.
Proof.
  intros Hm Hp Hu Hc Hw Ht. unfold serve. rewrite Hp, Hm.
  change (route "/api/config") with (Some (Some ApiGetConfig, Some ApiPostConfig)).
  simpl. unfold api_post_config. rewrite Hu, Hc, Hw. simpl. unfold api_webhooks, collector_main.
  simpl. by rewrite Hu, Ht.
Qed.

End router.

#[local] Existing Instance CodecRef.
#[local] Existing Instance ChronoRef.

Abbreviation demo_gui :=
  (mkGui (C := BoundedQueue) (D := list Row)
     (set_firing {[ al_fingerprint ref_alert := ref_alert ]} (app_new 10)) []
     (mkBounded 4 []) (Some "a = 1")).
Abbreviation demo_save := (mkRequest POST "/api/config" "" false false "b = 2").
Abbreviation demo_serve_env := (mkServeEnv (mkStamp 9 "02") (fun _ => 0) 0 true).

Lemma gui_port_confined_witness :
  let g' := fst (serve (fun _ => None) (fun _ => true) (fun _ => "") (fun _ => None)
                   (fun _ => Some None) demo_serve_env demo_save demo_gui) in
  gs_config g' = Some "b = 2" /\ app_firing (gs_app g') = {[ al_fingerprint ref_alert := ref_alert ]}.
Proof.
  pose proof (gui_port_confined (C := BoundedQueue) (D := list Row) (fun _ => None)
    (fun _ => true) (fun _ => "") (fun _ => None) (fun _ => Some None)
    demo_serve_env demo_save demo_gui) as (_ & Hconfig & _).
  split; [|reflexivity]. apply Hconfig. vm_compute. discriminate.
Defined.
