(* ===== verification/Restart.v ===== *)
(** Restarts.  The agent's trackers (src/agent/src/state.rs) and the collector's
    firing map (src/collector/src/state.rs) live in memory: a restarted process
    begins with an empty one, and nothing in the protocol compares the two.  What
    that costs, on either side, over the connection of [Pipeline]: its lanes, its
    failures and its reconnections included. *)
From stdpp Require Import functions.
From S2P Require Import Prelude Text Utf8 Schema Codec Channels.
From S2P Require Import Tracker TrackerTime Bus Transport CollectorState Ingest Pipeline.

Local Open Scope Z_scope.

Section restart.
Context {C : Type -> Type} `{!Mpsc C} `{!MpscLaws C} `{!Codec}.

(** * Where the texts on the wire come from *)

(** Decoding gives back what was encoded, if it decodes at all. *)
Definition faithful (m : Outbound) : Prop :=
  forall t e, encode (into_envelope m) = Some t -> decode t = Some e -> e = into_envelope m.

(** A message that says nothing of the fingerprint. *)
Definition silent (fp : string) (m : Outbound) : Prop :=
  match m with OutAlert a => al_fingerprint a <> fp | _ => True end.

(** The messages waiting in the lanes. *)
Definition waiting (st : TState (C := C)) : list Outbound :=
  lane_queue true (ts_sink st) ++ lane_queue false (ts_sink st).

Lemma waiting_lane st m : m ∈ waiting st <-> exists b, m ∈ lane_queue b (ts_sink st).
Proof.
  unfold waiting. rewrite elem_of_app. split; [naive_solver|]. intros [[] Hm]; auto.
Qed.

Lemma waiting_send m k b x :
  x ∈ lane_queue b (send m k) -> x = m \/ x ∈ lane_queue b k.
Proof.
  unfold send, lane_queue. destruct (sink_suppress_alerts k && is_alert m); [by right|].
  destruct (critical_lane m), b; simpl; try (intros Hx; by right); apply try_send_incl.
Qed.

(** Whatever is sent, accepted, lost or reconnected: what waits in the lanes and what
    is newly written was waiting before or was sent since. *)
Lemma transport_origin (P : Outbound -> Prop) cfg st tevs :
  Forall P (waiting st) -> (forall m, TSend m ∈ tevs -> P m) ->
  let st' := transport_run cfg st tevs in
  Forall P (waiting st')
  /\ exists new, ts_wire st' = ts_wire st ++ new
       /\ Forall (fun t => exists m, P m /\ encode (into_envelope m) = Some t) (frame_texts new).
Proof.
  intros Hw. induction tevs as [|ev tevs IH] using rev_ind; intros Hs.
  { split; [done|]. exists []. by rewrite app_nil_r. }
  destruct IH as [IHw (new & IHn & IHt)]; [set_solver|]. unfold transport_run in *.
  rewrite foldl_app. simpl. set (st1 := foldl _ _ _) in *. destruct ev as [m|ok|p]; simpl.
  - split; [|by exists new]. apply Forall_forall. intros x [b Hx]%waiting_lane.
    apply waiting_send in Hx as [->|Hx]; [apply Hs; set_solver|].
    rewrite Forall_forall in IHw. apply IHw, waiting_lane. by exists b.
  - destruct (ts_connected st1); [|destruct ok]; (split; [done|by exists new]).
  - destruct (ts_connected st1); simpl; [|split; [done|by exists new]].
    pose proof (pump_turn_lane p (ts_sink st1)) as Hlane.
    pose proof (pump_turn_text p (ts_sink st1)) as Htext.
    set (r := pump_turn p (ts_sink st1)) in *. cbv zeta in Hlane, Htext.
    assert (Hin : forall m c, tn_taken (snd r) = Some (c, m) -> P m).
    { intros m c Ht. rewrite Forall_forall in IHw. apply IHw, waiting_lane. exists c.
      rewrite Hlane, Ht. unfold lane_of. simpl. rewrite Bool.eqb_reflx. simpl. set_solver. }
    assert (Hw' : Forall P (lane_queue true (fst r) ++ lane_queue false (fst r))).
    { apply Forall_forall. intros x Hx. rewrite Forall_forall in IHw. apply IHw, waiting_lane.
      apply elem_of_app in Hx as [Hx|Hx]; [exists true|exists false]; rewrite Hlane; set_solver. }
    assert (Hn : Forall (fun t => exists m, P m /\ encode (into_envelope m) = Some t)
                   (frame_texts (tn_frames (snd r)))).
    { rewrite Htext. destruct (tn_taken (snd r)) as [[c m]|] eqn:Et; [|done].
      simpl. unfold taken_text. simpl. case_bool_decide; [|done].
      destruct (encode (into_envelope m)) as [t|] eqn:Ee; [|done].
      constructor; [|done]. exists m. split; [by eapply Hin|done]. }
    assert (Hall : exists nw, ts_wire st1 ++ tn_frames (snd r) = ts_wire st ++ nw
        /\ Forall (fun t => exists m, P m /\ encode (into_envelope m) = Some t) (frame_texts nw)).
    { exists (new ++ tn_frames (snd r)). split; [by rewrite IHn, app_assoc|].
      unfold frame_texts in *. rewrite omap_app. by apply Forall_app. }
    by destruct (tn_ok (snd r)).
Qed.

(** * What the collector does with them *)

Lemma stamp_ip_fingerprint s a : al_fingerprint (stamp_ip s a) = al_fingerprint a.
Proof. unfold stamp_ip. by destruct (is_empty _), a. Qed.

Lemma ingest_other fp a (st : IngestState C) :
  al_fingerprint a <> fp ->
  app_firing (ig_app (ingest_alert a st)) !! fp = app_firing (ig_app st) !! fp.
Proof.
  intros Ha. unfold ingest_alert. destruct (host_in_maintenance _ _); [done|]. cbn [ig_app].
  set (s1 := touch_host _ _ _ _ _). set (a1 := stamp_ip s1 a).
  assert (Hf : al_fingerprint a1 <> fp) by (unfold a1; by rewrite stamp_ip_fingerprint).
  transitivity (app_firing (fst (apply_alert a1 s1)) !! fp);
    [by destruct (snd (apply_alert a1 s1))|].
  rewrite apply_alert_firing. destruct (al_state a1);
    [by rewrite lookup_insert_ne|by rewrite lookup_delete_ne].
Qed.

(** Hellos, heartbeats and other alerts leave a fingerprint alone. *)
Lemma envelope_silent fp m (c : Conn (C := C)) :
  silent fp m ->
  app_firing (ig_app (snd (handle_envelope (into_envelope m) c))) !! fp
  = app_firing (ig_app (snd c)) !! fp.
Proof. destruct c as [cur st], m as [a|hb|h]; simpl; [apply ingest_other|done..]. Qed.

Lemma receive_silent fp texts (c : Conn (C := C)) :
  Forall (fun t => exists m, (silent fp m /\ faithful m) /\ encode (into_envelope m) = Some t) texts ->
  app_firing (ig_app (snd (receive_loop (map FText texts) c))) !! fp
  = app_firing (ig_app (snd c)) !! fp.
Proof.
  intros Ht. revert c. induction Ht as [|t texts (m & [Hm Hf] & He) _ IH]; intros c; [done|].
  simpl. rewrite IH. unfold handle_text. destruct (decode t) as [e|] eqn:Ed; [|done].
  rewrite (Hf t e He Ed). by apply envelope_silent.
Qed.

Context (cfg : Backoff).

(** * Runs of the pipeline that say nothing of a fingerprint *)

(** An invariant under which no event hands out an alert of the fingerprint. *)
Lemma pipeline_silent (I : Pipeline (C := C) -> Prop) fp s evs :
  I s ->
  (forall s e, e ∈ evs -> I s -> I (pipeline_step cfg s e) /\ Forall (silent fp) (handed s e)) ->
  I (fst (pipeline_run cfg s evs)) /\ Forall (silent fp) (snd (pipeline_run cfg s evs)).
Proof.
  intros Hs. induction evs as [|e evs IH] using rev_ind; intros He; [by split|].
  destruct IH as [IHs IHf]; [intros s' e' Hin; apply He; set_solver|].
  rewrite pipeline_run_snoc. cbn [fst snd].
  destruct (He _ e ltac:(set_solver) IHs) as [H1 H2]. split; [done|]. by apply Forall_app.
Qed.

(** What a run writes was waiting in the lanes or handed over. *)
Lemma pipeline_origin (P : Outbound -> Prop) s evs :
  Forall P (waiting (pl_net s)) -> Forall P (snd (pipeline_run cfg s evs)) ->
  let s' := fst (pipeline_run cfg s evs) in
  exists new, ts_wire (pl_net s') = ts_wire (pl_net s) ++ new
    /\ Forall (fun t => exists m, P m /\ encode (into_envelope m) = Some t) (frame_texts new).
Proof.
  intros Hw. cbv zeta. assert (Hgoal : Forall P (snd (pipeline_run cfg s evs)) ->
    Forall P (waiting (pl_net (fst (pipeline_run cfg s evs))))
    /\ exists new, ts_wire (pl_net (fst (pipeline_run cfg s evs))) = ts_wire (pl_net s) ++ new
      /\ Forall (fun t => exists m, P m /\ encode (into_envelope m) = Some t) (frame_texts new));
    [|intros Hp; by apply Hgoal].
  induction evs as [|e evs IH] using rev_ind.
  { intros _. split; [done|]. exists []. by rewrite app_nil_r. }
  rewrite pipeline_run_snoc. cbn [fst snd]. intros [Hp He]%Forall_app.
  destruct (IH Hp) as [IHw (new & IHn & IHt)]. set (s1 := fst (pipeline_run cfg s evs)) in *.
  assert (Hs : forall m, TSend m ∈ net_events s1 e -> P m).
  { intros m Hm. rewrite Forall_forall in He. apply He.
    destruct e as [i ev|m'|ok|p]; simpl in *; [|set_solver..].
    destruct (snd (tracker_step _ ev)); simpl in Hm; set_solver. }
  destruct (transport_origin P cfg (pl_net s1) (net_events s1 e) IHw Hs) as [H1 (nw & H2 & H3)].
  split; [exact H1|]. exists (new ++ nw). cbn [pipeline_step pl_net].
  rewrite H2, IHn, app_assoc. split; [done|].
  unfold frame_texts in *. rewrite omap_app. by apply Forall_app.
Qed.

Lemma silent_handed (s : Pipeline (C := C)) e fp :
  (forall i, tracker_wf (pl_trackers s i)) ->
  (forall i ev, e = PTrack i ev -> event_fp ev = fp -> snd (tracker_step (pl_trackers s i) ev) = None) ->
  (forall a, e = PSend (OutAlert a) -> al_fingerprint a <> fp) ->
  Forall (silent fp) (handed s e).
Proof.
  intros Hwf Ht Hd. destruct e as [i ev|m|ok|p]; simpl; [| |constructor..].
  - destruct (tracker_step (pl_trackers s i) ev) as [t' [a|]] eqn:E; simpl; [|constructor].
    destruct (tracker_step_alert _ _ _ _ (Hwf i) E) as [Hf _].
    apply Forall_singleton. simpl. rewrite Hf. intros Hfp.
    specialize (Ht i ev eq_refl Hfp). by rewrite E in Ht.
  - apply Forall_singleton. destruct m as [a| |]; simpl; [by apply Hd|done..].
Qed.

Lemma trackers_wf_step (s : Pipeline (C := C)) e :
  (forall i, tracker_wf (pl_trackers s i)) -> forall i, tracker_wf (pl_trackers (pipeline_step cfg s e) i).
Proof.
  intros Hwf i. destruct e as [j ev|m|ok|p]; simpl; [|done..].
  destruct (decide (j = i)) as [->|Hne];
    [rewrite fn_lookup_insert; by apply tracker_step_wf|by rewrite fn_lookup_insert_ne].
Qed.

(** A step on another fingerprint, or not on a tracker, keeps every entry of it. *)
Lemma trackers_frame (s : Pipeline (C := C)) e fp i :
  (forall ev, e = PTrack i ev -> event_fp ev <> fp) ->
  t_inner (pl_trackers (pipeline_step cfg s e) i) !! fp = t_inner (pl_trackers s i) !! fp.
Proof.
  intros He. destruct e as [j ev|m|ok|p]; simpl; [|done..].
  destruct (decide (j = i)) as [->|Hne]; [|by rewrite fn_lookup_insert_ne].
  rewrite fn_lookup_insert. by apply tracker_step_frame, He.
Qed.

(** * The agent restarts *)

(** C6: an alert outlives a restart of its agent.  The collector holds an alert as
    firing; its agent's connection ends, the agent starts again with empty trackers
    and says hello, sends heartbeats, observes and resolves what it likes, over any
    number of connections, with whatever messages lost.  If the fault has cleared
    meanwhile, so that no detection of that fingerprint is made, the collector holds
    the very same alert at the end: neither the disconnection, nor the hello, nor
    any number of good readings resolves it. *)
Theorem agent_restart_stale (k : AlertSink C) (re_notify recovery : Duration)
    (evs : list PEvent) (old : Conn (C := C)) (now : DateTime) (fp : string) (a : Alert)
    (Hempty : queued (sink_critical k) = [] /\ queued (sink_normal k) = [])
    (Hfiring : app_firing (ig_app (snd old)) !! fp = Some a)
    (Hcleared : forall i now s b, PTrack i (EvObserve now s b) ∈ evs -> fingerprint b <> fp)
    (Hdirect : forall b, PSend (OutAlert b) ∈ evs -> al_fingerprint b <> fp)
    (Hcodec : Forall faithful (snd (pipeline_run cfg (pipeline_init cfg k re_notify recovery) evs))) :
  let s := fst (pipeline_run cfg (pipeline_init cfg k re_notify recovery) evs) in
  app_firing (ig_app (collector_of s (disconnect now old))) !! fp = Some a.
Proof.
  cbv zeta. set (s0 := pipeline_init cfg k re_notify recovery) in *.
  destruct (pipeline_silent (fun s => forall i, tracker_wf (pl_trackers s i)
      /\ t_inner (pl_trackers s i) !! fp = None) fp s0 evs) as [_ Hs].
  - intros i. split; [apply tracker_wf_new|apply lookup_empty].
  - intros s e Hin Hi. assert (Hwf : forall i, tracker_wf (pl_trackers s i)) by (intros i; apply Hi).
    assert (Hnone : forall i ev, e = PTrack i ev -> event_fp ev = fp ->
              tracker_step (pl_trackers s i) ev = (pl_trackers s i, None)).
    { intros i ev -> Hfp. destruct (Hi i) as [_ Hn]. destruct ev as [n st b|n st f|st f]; simpl in *.
      - by destruct (Hcleared i n st b).
      - subst f. unfold observe_ok. by rewrite Hn.
      - subst f. unfold force_resolve. by rewrite Hn. }
    split.
    + intros i. split; [by apply trackers_wf_step|]. destruct e as [j ev|m|ok|p]; try apply Hi.
      destruct (decide (event_fp ev = fp)) as [Hfp|Hne].
      * simpl. rewrite (Hnone j ev eq_refl Hfp). simpl. destruct (decide (j = i)) as [->|Hij];
          [rewrite fn_lookup_insert|rewrite fn_lookup_insert_ne by done]; apply Hi.
      * rewrite trackers_frame; [apply Hi|]. by intros ev' [= -> ->].
    + apply silent_handed; [done| |].
      * intros i ev He Hfp. by rewrite (Hnone i ev He Hfp).
      * intros b ->. by apply Hdirect.
  - destruct (pipeline_origin (fun m => silent fp m /\ faithful m) s0 evs) as (new & Hw & Hn).
    + unfold waiting, lane_queue. simpl. rewrite (proj1 Hempty), (proj2 Hempty). constructor.
    + by apply Forall_and.
    + unfold collector_of. rewrite Hw. simpl. rewrite receive_silent by done.
      by destruct old as [[[h hid]|] st].
Qed.

(** * The collector restarts *)

Lemma pipeline_params k re_notify recovery evs i :
  t_re_notify (pl_trackers (fst (pipeline_run cfg (pipeline_init cfg k re_notify recovery) evs)) i)
  = re_notify.
Proof.
  induction evs as [|e evs IH] using rev_ind; [done|].
  rewrite pipeline_run_snoc. destruct e as [j ev| | |]; simpl; try done.
  destruct (decide (j = i)) as [->|Hne]; [|by rewrite fn_lookup_insert_ne].
  rewrite fn_lookup_insert. by rewrite (proj1 (tracker_step_params _ _)).
Qed.

(** Inside [re_notify] of the last notification the entry's detections are counted but
    say nothing. *)
Record keeps_quiet (fp : string) (i : nat) (e : Entry) (re : Duration) (s : Pipeline (C := C)) :
    Prop := {
  kq_wf j : tracker_wf (pl_trackers s j);
  kq_re : t_re_notify (pl_trackers s i) = re;
  kq_entry : exists e', t_inner (pl_trackers s i) !! fp = Some e'
               /\ e_last_emitted e' = e_last_emitted e
}.

Lemma keeps_quiet_step fp i e re s ev :
  keeps_quiet fp i e re s ->
  (forall j tev, ev = PTrack j tev -> event_fp tev = fp ->
     j = i /\ exists now st b, tev = EvObserve now st b /\ ~ spaced re (e_last_emitted e) now) ->
  (forall b, ev = PSend (OutAlert b) -> al_fingerprint b <> fp) ->
  keeps_quiet fp i e re (pipeline_step cfg s ev) /\ Forall (silent fp) (handed s ev).
Proof.
  intros [Hwf Hre (e' & He' & Hl)] Hev Hd.
  assert (Hsup : forall j tev, ev = PTrack j tev -> event_fp tev = fp ->
    snd (tracker_step (pl_trackers s j) tev) = None
    /\ exists e2, t_inner (fst (tracker_step (pl_trackers s j) tev)) !! fp = Some e2
                  /\ e_last_emitted e2 = e_last_emitted e).
  { intros j tev Hj Hfp. destruct (Hev j tev Hj Hfp) as [-> (now & st & b & -> & Hns)].
    simpl in Hfp. subst fp.
    destruct (observe_cases now st b (pl_trackers s i))
      as [(Hn & _)|(e1 & e2 & H1 & H2 & _ & _ & [(Hsp & _)|(_ & Hl2 & Hs)])]; simplify_eq.
    - destruct Hns. by rewrite <- Hl.
    - split; [done|]. exists e2. by rewrite Hl2. }
  split; [|apply silent_handed; [done| |done]; intros j tev Hj Hfp; by apply (Hsup j tev)].
  split; [by apply trackers_wf_step| |].
  - destruct ev as [j tev|m|ok|p]; simpl; [|done..].
    destruct (decide (j = i)) as [->|Hne]; [|by rewrite fn_lookup_insert_ne].
    rewrite fn_lookup_insert. by rewrite (proj1 (tracker_step_params _ _)).
  - assert (Hdec : (exists tev, ev = PTrack i tev /\ event_fp tev = fp)
                   \/ (forall tev, ev = PTrack i tev -> event_fp tev <> fp)).
    { destruct ev as [j tev|m|ok|p]; try (by right).
      destruct (decide (j = i)) as [->|], (decide (event_fp tev = fp));
        [left; by eexists|right..]; intros ? [=]; by subst. }
    destruct Hdec as [(tev & -> & Hfp)|Hno].
    + simpl. rewrite fn_lookup_insert. by apply (Hsup i tev).
    + rewrite trackers_frame by done. by exists e'.
Qed.

(** C7: a restarted collector is blind for up to [re_notify].  The agent tracks a
    fault, with no alert of it still waiting in its lanes, when the collector starts
    again with an empty firing map.  Whatever part of the texts written from then on
    reaches it, over any reconnections: while every poll of the fault is a detection
    less than [re_notify] (30 minutes by default) after the last notification, the
    collector does not show it although the agent tracks it.  Nothing resynchronises
    the two; the first detection later than that hands an alert to the sink again. *)
Theorem collector_restart_blind (k : AlertSink C) (re_notify recovery : Duration)
    (before evs : list PEvent) (i : nat) (e : Entry) (fp : string)
    (st : IngestState C) (got : list string)
    (Htracked : t_inner (pl_trackers (fst (pipeline_run cfg
       (pipeline_init cfg k re_notify recovery) before)) i) !! fp = Some e)
    (Hwaiting : Forall (silent fp) (waiting (pl_net (fst (pipeline_run cfg
       (pipeline_init cfg k re_notify recovery) before)))))
    (Hpolled : forall j ev, PTrack j ev ∈ evs -> event_fp ev = fp ->
       j = i /\ exists now s b, ev = EvObserve now s b
                /\ ~ spaced re_notify (e_last_emitted e) now)
    (Hdirect : forall b, PSend (OutAlert b) ∈ evs -> al_fingerprint b <> fp)
    (Hcodec : Forall faithful (waiting (pl_net (fst (pipeline_run cfg
        (pipeline_init cfg k re_notify recovery) before)))
      ++ snd (pipeline_run cfg (fst (pipeline_run cfg
           (pipeline_init cfg k re_notify recovery) before)) evs)))
    (Hfresh : app_firing (ig_app st) = ∅) :
  let s0 := fst (pipeline_run cfg (pipeline_init cfg k re_notify recovery) before) in
  let s := fst (pipeline_run cfg s0 evs) in
  got `sublist_of` drop (length (frame_texts (ts_wire (pl_net s0)))) (frame_texts (ts_wire (pl_net s))) ->
  is_Some (t_inner (pl_trackers s i) !! fp)
  /\ app_firing (ig_app (snd (receive_loop (map FText got) (None, st)))) !! fp = None
  /\ (forall now stm b, fingerprint b = fp -> spaced re_notify (e_last_emitted e) now ->
        exists a, handed s (PTrack i (EvObserve now stm b)) = [OutAlert a]
                  /\ al_fingerprint a = fp /\ al_state a = Firing).
Proof.
  cbv zeta. set (init := pipeline_init cfg k re_notify recovery) in *.
  set (s0 := fst (pipeline_run cfg init before)) in *. intros Hgot.
  destruct (pipeline_silent (keeps_quiet fp i e re_notify) fp s0 evs) as [Hq Hs].
  - split; [intros j; apply (pipeline_trackers_wf cfg k)|apply pipeline_params|by exists e].
  - intros s ev Hin Hi. apply keeps_quiet_step; [done| |].
    + intros j tev ->. by apply Hpolled.
    + intros b ->. by apply Hdirect.
  - set (s := fst (pipeline_run cfg s0 evs)) in *. destruct Hq as [Hwf Hre (e' & He' & Hl)].
    apply Forall_app in Hcodec as [Hc1 Hc2].
    split; [by rewrite He'|split].
    + destruct (pipeline_origin (fun m => silent fp m /\ faithful m) s0 evs) as (new & Hw & Hn);
        [by apply Forall_and|by apply Forall_and|].
      fold s in Hw. rewrite Hw in Hgot. unfold frame_texts in Hgot.
      rewrite omap_app, drop_app_length in Hgot.
      rewrite receive_silent; [simpl; by rewrite Hfresh, lookup_empty|].
      apply Forall_forall. intros t Ht. rewrite Forall_forall in Hn. apply Hn.
      by eapply elem_of_sublist.
    + intros now stm b <- Hsp.
      destruct (observe_cases now stm b (pl_trackers s i))
        as [(Hn & _)|(e1 & e2 & H1 & H2 & _ & _ & [(_ & _ & a & Hs' & _)|(Hno & _)])]; simplify_eq.
      * exists a.
        assert (E : tracker_step (pl_trackers s i) (EvObserve now stm b)
                    = (fst (tracker_step (pl_trackers s i) (EvObserve now stm b)), Some a))
          by (rewrite <- Hs'; apply surjective_pairing).
        destruct (tracker_step_alert _ _ _ _ (Hwf i) E) as [Hf _].
        pose proof (observe_firing _ _ _ _ _ Hs') as Hst.
        split_and!; [|exact Hf|exact Hst]. unfold handed. by rewrite Hs'.
      * destruct Hno. by rewrite Hre, Hl.
Qed.

End restart.

(** * Concrete restarts *)

(** A codec for the hello and some alerts, by their id. *)
Definition restart_codec (l : list Alert) : Codec :=
  {| encode e := match e with EnvAlert a => Some (al_id a) | EnvHello _ => Some "hello" | _ => None end;
     decode s := if decide (s = "hello") then Some (EnvHello (ref_hello false))
                 else EnvAlert <$> List.find (fun a => bool_decide (al_id a = s)) l;
     encode_alert a := Some (al_id a);
     decode_alert s := List.find (fun a => bool_decide (al_id a = s)) l |}.

Definition fault : AlertBuilder := run_builder "wear" Critical.
Abbreviation fault_fp := (fingerprint fault).

(** The alert as the agent sent it before the restart. *)
Definition old_alert : Alert := build_firing (mkStamp 0 "00") fault.

(** What the new agent sends: its hello, then a warning of something else. *)
Definition new_alert : Alert := build_firing (mkStamp 9 "02") (run_builder "temp" Warning).

Definition RestartCodec : Codec := restart_codec [old_alert; new_alert].

#[local] Existing Instance RestartCodec.

Definition old_conn : Conn (C := BoundedQueue) :=
  receive_loop [FText "hello"; FText "00"] (None, run_collector).

Definition new_events : list PEvent :=
  [PSend (OutHello (ref_hello false)); PConnect true; good_poll;
   PTrack 0 (EvOk 8 (mkStamp 8 "01") fault_fp);
   PTrack 1 (EvObserve 9 (mkStamp 9 "02") (run_builder "temp" Warning)); good_poll;
   PPoll (mkPoll false (Some InClose) true true); PConnect true;
   PTrack 0 (EvOk 99 (mkStamp 99 "03") fault_fp)].

Lemma agent_restart_stale_witness :
  let s := fst (run_of new_events) in
  ts_wire (pl_net s) = [WText "hello"; WText "02"]
  /\ app_firing (ig_app (collector_of s (disconnect 7 old_conn))) !! fault_fp
     = Some (set_primary_ip "10.0.0.1" old_alert).
Proof.
  split; [vm_compute; reflexivity|].
  apply (agent_restart_stale run_backoff run_sink 30 5 new_events old_conn 7 fault_fp).
  - by split.
  - vm_compute. reflexivity.
  - unfold new_events. intros i now s b Hin. in_cases Hin. by vm_compute.
  - unfold new_events. intros b Hin. by in_cases Hin.
  - assert (E : snd (pipeline_run run_backoff (pipeline_init run_backoff run_sink 30 5) new_events)
                = [OutHello (ref_hello false); OutAlert new_alert]) by (vm_compute; reflexivity).
    rewrite E. apply Forall_cons. split; [|apply Forall_singleton]; intros t e Ht;
      vm_compute in Ht; injection Ht as <-; vm_compute; by intros [= <-].
Defined.

(** The collector stops after the alert was shown; the fault is detected again. *)
Definition before_events : list PEvent :=
  [PTrack 0 (EvObserve 0 (mkStamp 0 "00") fault); PConnect true; good_poll;
   PPoll (mkPoll false (Some InClose) true true)].
Definition after_events : list PEvent :=
  [PConnect true; PTrack 0 (EvObserve 10 (mkStamp 10 "04") fault);
   PTrack 1 (EvObserve 11 (mkStamp 9 "02") (run_builder "temp" Warning)); good_poll].

Lemma collector_restart_blind_witness :
  app_firing (ig_app (snd (receive_loop (map FText ["02"]) (None, run_collector)))) !! fault_fp
  = None.
Proof.
  destruct (t_inner (pl_trackers (fst (run_of before_events)) 0) !! fault_fp) as [e|] eqn:E;
    [|vm_compute in E; discriminate].
  assert (Hl : e_last_emitted e = 0) by (vm_compute in E; by injection E as <-).
  refine (proj1 (proj2 (collector_restart_blind run_backoff run_sink 30 5 before_events after_events
    0 e fault_fp run_collector ["02"] E _ _ _ _ eq_refl _))).
  - assert (Ew : waiting (pl_net (fst (run_of before_events))) = []) by (vm_compute; reflexivity).
    unfold run_of in Ew. rewrite Ew. constructor.
  - rewrite Hl. unfold after_events. intros j ev Hin Hfp. in_cases Hin.
    split; [done|]. do 3 eexists. split; [done|]. vm_compute. by intros H.
  - unfold after_events. intros b Hin. by in_cases Hin.
  - match goal with |- Forall _ ?l =>
      assert (El : l = [OutAlert new_alert]) by (vm_compute; reflexivity); rewrite El end.
    apply Forall_singleton. intros t e' Ht. vm_compute in Ht. injection Ht as <-.
    vm_compute. by intros [= <-].
  - match goal with |- _ `sublist_of` ?l =>
      assert (El : l = ["02"]) by (vm_compute; reflexivity); rewrite El end. done.
Defined.
