(* ===== verification/AgentMain.v ===== *)
(** Starting the agent (src/agent/src/main.rs, [main]) and its logging
    (src/agent/src/logging.rs, [init]): the three things the command line can ask
    for, the order of the start, what ends it, and where an event is logged.

    [tokio::sync::mpsc::channel] panics on a capacity of zero or above
    [Semaphore::MAX_PERMITS], which is [usize::MAX >> 3]; the release profile aborts
    on a panic.  [EnvFilter] is [tracing_subscriber]'s. *)
From stdpp Require Import sorting functions.
From S2P Require Import Prelude Text Utf8 Schema Json Channels Tracker Bus Runtime Host Regex.
From S2P Require Import Command Config ConfigLoad VendorDetect Agent ModuleSpecs AgentModules.
From S2P Require Import DebugHttp DebugProbes.

Local Open Scope string_scope.
Local Open Scope Z_scope.

(** * Channels *)

(** [usize::MAX >> 3] on a 64-bit machine. *)
Definition MAX_PERMITS : Z := Z.shiftr Int.u64_max 3.

(** A bounded channel, or the panic. *)
Definition tokio_channel {Q : Type} (channel : Z -> Q) (size : Z) : option Q :=
  if (1 <=? size) && (size <=? MAX_PERMITS) then Some (channel size) else None.

(** * The start *)

(** src/agent/src/main.rs:46-55 (Cli), without the path of the configuration. *)
Record Cli : Type := mkCli { print_default_config : bool; debug_snapshot : bool }.

(** src/agent/src/main.rs:222-228 (dbg_listen). *)
Definition dbg_listen (cfg : AgentConfig) : option string :=
  s ← cfg_debug_listen (c_agent cfg);
  let t := trim s in if is_empty t then None else Some t.

(** The running agent: its configuration and host, the sink after the hello, the
    spawned tasks, whether the boot module ran, and the address of the debug
    server. *)
Record AgentProcess (C : Type -> Type) : Type := mkProcess {
  ap_cfg : AgentConfig;
  ap_host : HostId;
  ap_sink : AlertSink C;
  ap_spawned : Task -> bool;
  ap_boot : bool;
  ap_debug : option string
}.
Arguments mkProcess {C} ap_cfg ap_host ap_sink ap_spawned ap_boot ap_debug.
Arguments ap_cfg {C} _.
Arguments ap_host {C} _.
Arguments ap_sink {C} _.
Arguments ap_spawned {C} _ _.
Arguments ap_boot {C} _.
Arguments ap_debug {C} _.

(** How [main] ends or goes on. *)
Inductive AgentOutcome (C : Type -> Type) : Type :=
  | PrintedConfig
  | PrintedSnapshot (v : Value)
  | ExitedWithError
  | Panicked
  | Started (p : AgentProcess C).
Arguments PrintedConfig {C}.
Arguments PrintedSnapshot {C} v.
Arguments ExitedWithError {C}.
Arguments Panicked {C}.
Arguments Started {C} p.

Section main.
Context {C : Type -> Type} `{!Mpsc C} `{RegexEngine}.
Context (toml_parse : string -> option Value) (build : Build).
Context (host : option HostId) (env : SpawnEnv) (channel : Z -> C Outbound).
Context (penv : ProbeEnv) (debug_text : list string -> string) (generated_at : string).

(** src/agent/src/main.rs:87-151 (main, the normal start), with the detected host,
    [None] when the host name cannot be read. *)
Definition agent_boot (file : option string) (started_at : DateTime) : AgentOutcome C :=
  let cfg := agent_config toml_parse file in
  match host with
  | None => ExitedWithError
  | Some h =>
      match tokio_channel channel (cfg_send_queue_size (c_collector cfg)),
            tokio_channel channel (cfg_critical_queue_size (c_collector cfg)) with
      | Some normal, Some critical =>
          let m := maintenance build cfg in
          let sink := send (OutHello (hello_of build h cfg (env_vendor env) started_at))
                        (sink_new normal critical m) in
          Started (mkProcess cfg h sink (task_spawned (c_modules cfg) env)
                     (boot_spawned (c_modules cfg)) (dbg_listen cfg))
      | _, _ => Panicked
      end
  end.

(** src/agent/src/main.rs:58-82 (main, the modes that print and leave), then
    the normal start. *)
Definition agent_main (cli : Cli) (file : option string) (started_at : DateTime) :
    AgentOutcome C :=
  if print_default_config cli then PrintedConfig
  else if debug_snapshot cli then
    let cfg := agent_config toml_parse file in
    match host with
    | None => ExitedWithError
    | Some h => PrintedSnapshot (build_debug_snapshot cfg h penv debug_text generated_at)
    end
  else agent_boot file started_at.

End main.

(** * What a start needs *)

Section start.
Context {C : Type -> Type} `{!Mpsc C} `{!MpscLaws C} `{RegexEngine}.
Context (toml_parse : string -> option Value) (build : Build).
Context (host : option HostId) (env : SpawnEnv) (channel : Z -> C Outbound).
Context (penv : ProbeEnv) (debug_text : list string -> string) (generated_at : string).

Abbreviation run_main := (agent_main toml_parse build host env channel penv debug_text generated_at).

Definition size_ok (n : Z) : Prop := 1 <= n <= MAX_PERMITS.

Lemma tokio_channel_spec (n : Z) :
  (size_ok n /\ tokio_channel channel n = Some (channel n))
  \/ (~ size_ok n /\ tokio_channel channel n = None).
Proof.
  unfold tokio_channel, size_ok. destruct (Z.leb_spec 1 n), (Z.leb_spec n MAX_PERMITS); simpl;
    (left; split; [lia|done]) || (right; split; [lia|done]).
Qed.

(** C23: what the agent needs to start.  Apart from the two modes that print and
    leave, it starts exactly when the host name can be read and both queue sizes of
    the configuration can be allocated, and a file that does not load never stops
    it; then the hello is the only message waiting, whether or not alerts are
    suppressed.  A queue size of 0 is not raised to a minimum: it aborts the
    process. *)
Theorem agent_start_spec (file : option string) (t : DateTime)
    (Hchannel : forall n, queued (channel n) = [] /\ capacity (channel n) = Z.to_nat n) :
  let cfg := agent_config toml_parse file in
  let sizes_ok := size_ok (cfg_send_queue_size (c_collector cfg))
                  /\ size_ok (cfg_critical_queue_size (c_collector cfg)) in
  match run_main (mkCli false false) file t with
  | Started p =>
      sizes_ok /\ ap_cfg p = cfg /\ host = Some (ap_host p)
      /\ queued (sink_normal (ap_sink p))
         = [OutHello (hello_of build (ap_host p) cfg (env_vendor env) t)]
      /\ queued (sink_critical (ap_sink p)) = []
  | ExitedWithError => host = None
  | Panicked => is_Some host /\ ~ sizes_ok
  | PrintedConfig | PrintedSnapshot _ => False
  end
  /\ (is_Some host -> load toml_parse file = None ->
        exists p, run_main (mkCli false false) file t = Started p).
Proof.
  intros cfg sizes_ok. unfold agent_main. cbn [print_default_config debug_snapshot].
  unfold agent_boot. fold cfg. destruct host as [h|]; [|by split; [|intros [? ?]]].
  destruct (tokio_channel_spec (cfg_send_queue_size (c_collector cfg))) as [[H1 ->]|[H1 ->]].
  - destruct (tokio_channel_spec (cfg_critical_queue_size (c_collector cfg))) as [[H2 ->]|[H2 ->]].
    + split; [|intros; by eexists]. cbn [ap_cfg ap_host ap_sink].
      split_and!; try done.
      * destruct (Hchannel (cfg_send_queue_size (c_collector cfg))) as [Hq Hc].
        unfold send. simpl. rewrite andb_false_r. simpl.
        rewrite try_send_queued, Hq, Hc. unfold size_ok in H1.
        rewrite decide_True; [done|]. simpl. lia.
      * unfold send. simpl. rewrite andb_false_r. simpl. apply Hchannel.
    + split; [by split; [|intros [? ?]]|]. intros _ Hl. exfalso. apply H2.
      unfold cfg, agent_config. by rewrite Hl.
  - split; [by split; [|intros [? ?]]|]. intros _ Hl. exfalso. apply H1.
    unfold cfg, agent_config. by rewrite Hl.
Qed.

End start.

(** * Logging *)

Inductive Level : Type := ERROR | WARN | INFO | DEBUG | TRACE.

Definition level_rank (l : Level) : Z :=
  match l with ERROR => 1 | WARN => 2 | INFO => 3 | DEBUG => 4 | TRACE => 5 end.

(** [LevelFilter]: the level and everything more severe. *)
Definition level_filter (max l : Level) : bool := level_rank l <=? level_rank max.

(** Where a layer writes. *)
Inductive Writer : Type := Stdout | LogFile (path : string) | DevNull.

#[export] Instance writer_eq_dec : EqDecision Writer.
Proof. solve_decision. Defined.

Record Layer : Type := mkLayer { ly_writer : Writer; ly_filter : Level -> bool }.

(** src/agent/src/logging.rs:31-31 (LOG_DIR). *)
Definition LOG_DIR : string := "/var/log/monitor-agent".
(** src/agent/src/logging.rs:34-34 (ERROR_LOG_FILE). *)
Definition ERROR_LOG_FILE : string := "error.log".
(** src/agent/src/logging.rs:38-38 (EXEC_LOG_FILE). *)
Definition EXEC_LOG_FILE : string := "execution.log".

(** src/agent/src/logging.rs:167-170 (execution_log_path). *)
Definition execution_log_path : string := LOG_DIR +:+ "/" +:+ EXEC_LOG_FILE.
(** src/agent/src/logging.rs:172-175 (error_log_path). *)
Definition error_log_path : string := LOG_DIR +:+ "/" +:+ ERROR_LOG_FILE.

Section logging.
(** [env_filter] is what [EnvFilter] makes of the environment, [filter_new] of a
    text; a filter is the levels it lets through for the event at hand. *)
Context (env_filter : option (Level -> bool)) (filter_new : string -> Level -> bool).

(** src/agent/src/logging.rs:122-132 (the destination of open_log_file): the file,
    or the null device when it cannot be opened. *)
Definition open_log_file (openable : string -> bool) (dir filename : string) : Writer :=
  let path := dir +:+ "/" +:+ filename in
  if openable path then LogFile path else DevNull.

(** src/agent/src/logging.rs:110-119 (init_stdout_only). *)
Definition init_stdout_only (env_filter_str : string) : list Layer :=
  [mkLayer Stdout (default (filter_new env_filter_str) env_filter)].

(** src/agent/src/logging.rs:46-107 (init): what is left in the log directory, and
    the layers; [dir_ok] is whether the directory exists or can be created. *)
Definition init (dir_ok : bool) (now : Z) (entries : list LogEntry) (openable : string -> bool)
    (env_filter_str : string) : list LogEntry * list Layer :=
  if negb dir_ok then (entries, init_stdout_only env_filter_str)
  else
    let entries1 := purge_old_logs ERROR_LOG_FILE now error_log_retention entries in
    let entries2 := purge_old_logs EXEC_LOG_FILE now exec_log_retention entries1 in
    let error_layer := mkLayer (open_log_file openable LOG_DIR ERROR_LOG_FILE) (level_filter WARN) in
    let exec_layer := mkLayer (open_log_file openable LOG_DIR EXEC_LOG_FILE) (level_filter INFO) in
    let stdout_layer := mkLayer Stdout (default (filter_new env_filter_str) env_filter) in
    (entries2, [stdout_layer; exec_layer; error_layer]).

(** Where an event of a level goes. *)
Definition logged (layers : list Layer) (l : Level) : list Writer :=
  map ly_writer (List.filter (fun y => ly_filter y l) layers).

(** The files get the same events whatever the configured level and the
    environment: warnings and errors in both, information in the execution log. *)
Lemma files_independent now entries openable s l :
  openable execution_log_path = true -> openable error_log_path = true ->
  let r := init true now entries openable s in
  (LogFile execution_log_path ∈ logged (snd r) l <-> level_rank l <= 3)
  /\ (LogFile error_log_path ∈ logged (snd r) l <-> level_rank l <= 2).
Proof.
  intros He Hr. unfold init, open_log_file, logged.
  change (LOG_DIR +:+ "/" +:+ EXEC_LOG_FILE) with execution_log_path.
  change (LOG_DIR +:+ "/" +:+ ERROR_LOG_FILE) with error_log_path. rewrite He, Hr.
  cbn [negb snd List.filter ly_filter level_filter].
  destruct (default (filter_new s) env_filter l), l; cbn [ly_writer map level_filter];
    split; refine (bool_decide_unpack _ _); by vm_compute.
Qed.

(** Files of other names survive the start. *)
Lemma init_keeps_others now entries openable s e :
  e ∈ entries -> starts_with ERROR_LOG_FILE (le_name e) = false ->
  starts_with EXEC_LOG_FILE (le_name e) = false ->
  e ∈ fst (init true now entries openable s).
Proof.
  intros He H1 H2. unfold init. cbn [negb fst].
  apply purge_old_logs_kept. split; [|by rewrite H2; intros [? _]].
  apply purge_old_logs_kept. split; [done|by rewrite H1; intros [? _]].
Qed.

End logging.

(** * A concrete start *)

#[local] Existing Instance LiteralRegex.

Abbreviation bare_profile :=
  {| vendor_info := VendorInfo_default;
     has_smartctl := false; has_nvme_cli := false; has_ipmitool := false; has_ssacli := false;
     has_perccli := false; has_storcli := false; has_megacli := false; has_nvml := false;
     has_rocm_smi := false; has_ethtool := false |}.

Lemma agent_start_spec_witness :
  exists p, agent_main (C := BoundedQueue) (fun _ => None) (mkBuild "3.0.0" true)
    (Some (mkHostId "h" "hid" "10.0.0.1"))
    (mkSpawnEnv bare_profile (fun _ => false) (fun _ => false))
    (fun n => mkBounded (Z.to_nat n) [])
    (mkProbeEnv false (fun _ => false) None [] None (fun _ => SpawnError ""))
    (fun _ => "") "" (mkCli false false) None 0 = Started p.
Proof.
  refine (proj2 (agent_start_spec (C := BoundedQueue) (fun _ => None) (mkBuild "3.0.0" true)
    (Some (mkHostId "h" "hid" "10.0.0.1"))
    (mkSpawnEnv bare_profile (fun _ => false) (fun _ => false))
    (fun n => mkBounded (Z.to_nat n) [])
    (mkProbeEnv false (fun _ => false) None [] None (fun _ => SpawnError ""))
    (fun _ => "") "" None 0 _) _ _).
  - intros n. split; reflexivity.
  - by eexists.
  - reflexivity.
Defined.
