(* ===== verification/ToolJson.v ===== *)
(** The JSON of the disk tools: running [nvme smart-log -o json]
    (src/agent/src/modules/nvme.rs) and [smartctl -a -j]
    (src/agent/src/modules/disk_smart.rs) and what [derive(Deserialize)] makes of
    their output, so that a poll goes from the tool's bytes to its actions.

    [from_slice] is [serde_json]'s parser to a value; it gives integers as
    integers. *)
From stdpp Require Import sorting.
From S2P Require Import Prelude Text Utf8 Schema Json Host Command Config ConfigLoad Tracker Runtime.
From S2P Require Import Nvme DiskSmart.

Local Open Scope string_scope.
Local Open Scope Z_scope.

(** src/agent/src/modules/nvme.rs:291-308 (NvmeSmartLog, derive(Deserialize)): an
    absent key is 0, a key given twice is an error. *)
Definition smart_log_keys : list string :=
  ["critical_warning"; "composite_temperature"; "percentage_used"; "media_errors";
   "num_err_log_entries"; "available_spare"; "available_spare_threshold"].
Definition dec_smart_log : Value -> option NvmeSmartLog := dec_struct smart_log_keys (fun l =>
  a ← field dec_u8 0 "critical_warning" l;
  b ← field dec_u32 0 "composite_temperature" l;
  c ← field dec_u32 0 "percentage_used" l;
  d ← field dec_u64 0 "media_errors" l;
  e ← field dec_u64 0 "num_err_log_entries" l;
  f ← field dec_u32 0 "available_spare" l;
  g ← field dec_u32 0 "available_spare_threshold" l;
  Some (mkSmartLog a b c d e f g)).

(** src/agent/src/modules/disk_smart.rs:92-106 (AtaAttr and AttrRaw,
    derive(Deserialize)). *)
Definition dec_raw : Value -> option (Z * string) := dec_struct ["value"; "string"] (fun l =>
  value ← required dec_u64 "value" l;
  text ← field as_str "" "string" l;
  Some (value, text)).
Definition dec_attr : Value -> option AtaAttr :=
  dec_struct ["id"; "name"; "raw"; "when_failed"] (fun l =>
  id ← required dec_u32 "id" l;
  name ← required as_str "name" l;
  raw ← required dec_raw "raw" l;
  failed ← optional as_str "when_failed" l;
  Some (mkAttr id name (fst raw) (snd raw) failed)).

(** src/agent/src/modules/disk_smart.rs:78-107 (SmartReport and its blocks,
    derive(Deserialize)). *)
Definition smart_report_keys : list string :=
  ["smart_status"; "temperature"; "ata_smart_attributes"; "model_name"; "device"].
Definition dec_smart_report : Value -> option SmartReport := dec_struct smart_report_keys (fun l =>
  st ← optional (dec_struct ["passed"] (optional as_bool "passed")) "smart_status" l;
  t ← optional (dec_struct ["current"] (optional dec_i32 "current")) "temperature" l;
  at_ ← optional (dec_struct ["table"] (optional (dec_list dec_attr) "table"))
          "ata_smart_attributes" l;
  m ← optional as_str "model_name" l;
  dv ← optional (dec_struct ["type"] (optional as_str "type")) "device" l;
  Some (mkReport st t at_ m dv)).

Section tools.
Context (from_slice : string -> option Value) (machine : list string -> Process) (is_root : bool).

(** src/agent/src/modules/nvme.rs:310-332 (run_smart_log): the run must end within
    20 s and succeed. *)
Definition NVME_CMD_TIMEOUT : Duration := from_secs 20.
Definition run_smart_log (dev : string) : option NvmeSmartLog :=
  match machine (priv_command is_root "nvme" ++ ["smart-log"; dev; "-o"; "json"]) with
  | Ended d o =>
      if (d <? NVME_CMD_TIMEOUT) && o_success o then from_slice (o_stdout o) ≫= dec_smart_log
      else None
  | _ => None
  end.

(** src/agent/src/modules/disk_smart.rs:109-124 (the run in poll_one): the run must
    end within 30 s; a failure status is not looked at. *)
Definition SMARTCTL_TIMEOUT : Duration := from_secs 30.
Definition run_smartctl (dev : string) : option SmartReport :=
  match machine (priv_command is_root "smartctl" ++ ["-a"; "-j"; dev]) with
  | Ended d o =>
      if d <? SMARTCTL_TIMEOUT then from_slice (o_stdout o) ≫= dec_smart_report else None
  | _ => None
  end.

(** src/agent/src/modules/nvme.rs:70-86 (enumerate_drives), on the names of /dev,
    [None] when the directory cannot be read. *)
Definition enumerate_drives (dev_names : option (list string)) : option (list string) :=
  names ← dev_names;
  Some (map (fun n => "/dev/" +:+ n) (List.filter is_drive_name names)).

(** src/agent/src/modules/nvme.rs:334-339 (read_model), on the content of the
    model file of a drive. *)
Definition read_model (file : string -> option string) (dev : string) : option string :=
  name ← strip_prefix "/dev/" dev;
  trim <$> read_to_string (file ("/sys/block/" +:+ name +:+ "/device/model")).

(** src/agent/src/modules/nvme.rs:48-66 (one tick of spawn), from the machine's
    answers to the actions. *)
Definition nvme_tick (host : HostId) (cfg : NvmeCfg) (dev_names : option (list string))
    (file : string -> option string) (last : gmap string Z) : gmap string Z * list Action :=
  match enumerate_drives dev_names with
  | None => (last, [])
  | Some drives =>
      Nvme.poll_drives host cfg
        (map (fun dev => (dev, read_model file dev, run_smart_log dev)) drives) last
  end.

(** src/agent/src/modules/disk_smart.rs:47-53 (one tick of spawn), from the
    machine's answers to the actions. *)
Definition disk_tick (host : HostId) (blocks : list string) (exists_ : string -> bool) : list Action :=
  smart_tick host (map (fun dev => (dev, run_smartctl dev)) (enumerate_disks blocks exists_)).

End tools.

(** * What the keys decide *)

Lemma smart_log_typed v s :
  dec_smart_log v = Some s ->
  Int.is_u8 (critical_warning s) /\ Int.is_u32 (composite_temperature s)
  /\ Int.is_u32 (percentage_used s) /\ Int.is_u64 (media_errors s)
  /\ Int.is_u64 (num_err_log_entries s).
Proof.
  unfold dec_smart_log, dec_struct. intros Hs. apply bind_Some in Hs as (l & _ & Hs).
  destruct (unique _ l); [|done]. open_fields Hs. split_and!; simpl; in_range.
Qed.

(** The two keys the wear and temperature checks read. *)
Lemma smart_log_absent l s :
  dec_smart_log (VObject l) = Some s ->
  (assoc "percentage_used" l = None -> percentage_used s = 0)
  /\ (assoc "composite_temperature" l = None -> composite_temperature s = 0).
Proof.
  unfold dec_smart_log, dec_struct. cbn [fields mbind option_bind]. intros Hs.
  destruct (unique _ l); [|done]. open_fields Hs.
  split; intros Ha; simpl;
    match goal with H : field _ _ ?k _ = Some ?x |- ?x = 0 =>
      unfold field in H; rewrite Ha in H; by simplify_eq end.
Qed.

Lemma not_observed_silent (l : list Action) m sv : l = [] -> (m, sv) ∉ observed l.
Proof. intros ->. by apply not_elem_of_nil. Qed.

(** The metrics of the other checks. *)
Definition other_metrics : list string := ["critical_warning"; "media_errors"; "err_log_entries"].

Lemma observed_others host cfg dev m s last x :
  check_wear host cfg dev m s = [] -> check_temperature host cfg dev m s = [] ->
  x ∈ observed (snd (Nvme.poll_one host cfg dev (Some m) s last)) -> fst x ∈ other_metrics.
Proof.
  intros Hw Ht. unfold Nvme.poll_one. cbv zeta. cbn [snd].
  change (default "unknown" (Some m)) with m. rewrite Hw, Ht, app_nil_l, app_nil_r.
  rewrite !observed_app, !elem_of_app.
  unfold check_critical_warning, check_media, check_err_log, other_metrics.
  intros [Hx|[Hx|Hx]]; cbn [snd] in Hx; case_match; simpl in Hx;
    apply list_elem_of_In in Hx; simpl in Hx; destruct_or? Hx; try done; subst x;
    refine (bool_decide_unpack _ _); by vm_compute.
Qed.

(** C27: the NVMe checks that depend on a key see nothing without it.  When the
    smart-log carries neither [percentage_used] nor [composite_temperature] (the
    JSON of nvme-cli names them [percent_used] and [temperature]), the decoder takes
    0 for both: with any thresholds above 0 % and -273 degrees, a poll of that
    output reports neither wear nor temperature, however worn or hot the drive. *)
Theorem nvme_keys_required (from_slice : string -> option Value)
    (machine : list string -> Process) (is_root : bool) (host : HostId) (cfg : NvmeCfg)
    (dev model : string) (last : gmap string Z) (d : Duration) (o : Output)
    (l : list (string * Value)) (s : NvmeSmartLog) (x : string * Severity)
    (Hwear : 0 < wear_warn_pct cfg /\ 0 < wear_critical_pct cfg)
    (Htemp : -273 < temp_warn_c cfg /\ -273 < temp_critical_c cfg)
    (Hrun : machine (priv_command is_root "nvme" ++ ["smart-log"; dev; "-o"; "json"])%list = Ended d o)
    (Hjson : from_slice (o_stdout o) = Some (VObject l))
    (Hkeys : assoc "percentage_used" l = None /\ assoc "composite_temperature" l = None)
    (Hlog : run_smart_log from_slice machine is_root dev = Some s)
    (Hx : x ∈ observed (snd (Nvme.poll_one host cfg dev (Some model) s last))) :
  fst x ∈ other_metrics.
Proof.
  unfold run_smart_log in Hlog. rewrite Hrun, Hjson in Hlog.
  destruct (_ && _); [|done]. destruct (smart_log_absent l s Hlog) as [Hp Ht].
  destruct Hkeys as [Hk1 Hk2]. specialize (Hp Hk1). specialize (Ht Hk2).
  revert Hx. apply observed_others.
  - unfold check_wear. rewrite Hp. change (Int.as_u8 0) with 0.
    rewrite (proj2 (Z.leb_gt _ _)) by lia. by rewrite (proj2 (Z.leb_gt _ _)) by lia.
  - unfold check_temperature. rewrite Ht.
    change (Int.saturating_sub_i32 (Int.as_i32 0) 273) with (-273).
    rewrite (proj2 (Z.leb_gt _ _)) by lia. by rewrite (proj2 (Z.leb_gt _ _)) by lia.
Qed.

(** The document nvme-cli prints for a worn-out drive at 99 degrees with media
    errors. *)
Definition nvme_cli_document : list (string * Value) :=
  [("critical_warning", VInt 0); ("temperature", VInt 372); ("avail_spare", VInt 1);
   ("spare_thresh", VInt 10); ("percent_used", VInt 120); ("media_errors", VInt 7);
   ("num_err_log_entries", VInt 3)].

Abbreviation demo_machine :=
  (fun _ : list string => Ended 0 (mkOutput (Some 0) "{..}" "")).

Lemma nvme_keys_required_witness :
  Forall (fun x => fst x ∈ other_metrics)
    (observed (snd (Nvme.poll_one (mkHostId "h" "hid" "10.0.0.1") NvmeCfg_default
       "/dev/nvme0n1" (Some "m") (mkSmartLog 0 0 0 7 3 0 0) ∅))).
Proof.
  apply Forall_forall.
  intros x Hx. apply (nvme_keys_required (fun _ => Some (VObject nvme_cli_document)) demo_machine
    true (mkHostId "h" "hid" "10.0.0.1") NvmeCfg_default "/dev/nvme0n1" "m" ∅ 0
    (mkOutput (Some 0) "{..}" "") nvme_cli_document (mkSmartLog 0 0 0 7 3 0 0) x).
  - split; reflexivity.
  - split; reflexivity.
  - reflexivity.
  - reflexivity.
  - split; reflexivity.
  - reflexivity.
  - exact Hx.
Defined.
