(* ===== verification/WireJson.v ===== *)
(** The wire format: what [derive(Serialize, Deserialize)] makes of the schema
    (src/shared/src/lib.rs).  A message is an object whose [type] field names the
    variant; serialising gives a [Value], and decoding takes one, with the defaults
    of absent fields, the fields it does not know ignored, and a known field given
    twice refused.

    Printing and parsing JSON text ([serde_json]) and the text of a time ([chrono])
    are interfaces; with them the two halves form an instance of [Codec]. *)
From stdpp Require Import sorting.
From Stdlib Require Import Ascii.
From S2P Require Import Prelude Text Utf8 Schema Json Codec ConfigLoad.

Local Open Scope string_scope.
Local Open Scope Z_scope.

(** [DateTime<Utc>] as JSON: its text, and back. *)
Class DateText : Type := {
  date_text : DateTime -> string;
  date_parse : string -> option DateTime
}.

Class DateTextLaws `{DateText} : Prop := {
  date_parse_text d : date_parse (date_text d) = Some d
}.

Section wire.
Context `{DateText}.

(** * Serialising *)

Definition ser_option (o : option string) : Value :=
  match o with Some s => VString s | None => VNull end.
Definition ser_strings (l : list string) : Value := VArray (map VString l).
Definition ser_date (d : DateTime) : Value := VString (date_text d).

(** A [BTreeMap] iterates in the order of its keys. *)
Definition key_le {A} (x y : string * A) : Prop := String.le (fst x) (fst y).
Definition ser_map {A} (ser : A -> Value) (m : gmap string A) : Value :=
  VObject (map (fun kx => (fst kx, ser (snd kx)))
             (merge_sort (fun x y : string * A => Is_true (String.leb (fst x) (fst y)))
                (map_to_list m))).

(** src/shared/src/lib.rs:27-34 (Severity, derive(Serialize)). *)
Definition ser_severity (s : Severity) : Value :=
  VString (match s with Info => "info" | Warning => "warning" | Critical => "critical" end).
(** src/shared/src/lib.rs:46-51 (AlertState, derive(Serialize)). *)
Definition ser_state (s : AlertState) : Value :=
  VString (match s with Firing => "firing" | Resolved => "resolved" end).

(** src/shared/src/lib.rs:53-106 (Alert, derive(Serialize)). *)
Definition ser_alert (a : Alert) : list (string * Value) :=
  [("id", VString (al_id a)); ("ts", ser_date (al_ts a)); ("host", VString (al_host a));
   ("host_id", VString (al_host_id a)); ("primary_ip", VString (al_primary_ip a));
   ("category", VString (al_category a)); ("subsystem", ser_option (al_subsystem a));
   ("severity", ser_severity (al_severity a)); ("state", ser_state (al_state a));
   ("device", ser_option (al_device a)); ("device_model", ser_option (al_device_model a));
   ("metric", VString (al_metric a)); ("value", ser_option (al_value a));
   ("threshold", ser_option (al_threshold a)); ("title", VString (al_title a));
   ("message", VString (al_message a)); ("fingerprint", VString (al_fingerprint a));
   ("first_seen", ser_date (al_first_seen a)); ("last_seen", ser_date (al_last_seen a));
   ("occurrences", VInt (al_occurrences a)); ("raw", ser_map id (al_raw a));
   ("correlated", ser_strings (al_correlated a))].

(** src/shared/src/lib.rs:112-124 (Heartbeat, derive(Serialize)). *)
Definition ser_heartbeat (h : Heartbeat) : list (string * Value) :=
  [("host", VString (hb_host h)); ("host_id", VString (hb_host_id h)); ("ts", ser_date (hb_ts h));
   ("uptime_s", VInt (hb_uptime_s h)); ("firing_count", VInt (hb_firing_count h));
   ("agent_version", VString (hb_agent_version h))].

(** src/shared/src/lib.rs:144-160 (VendorInfo, derive(Serialize)). *)
Definition ser_vendor (v : VendorInfo) : list (string * Value) :=
  [("system_manufacturer", VString (system_manufacturer v));
   ("system_product_name", VString (system_product_name v));
   ("bios_version", VString (bios_version v)); ("bmc_vendor", VString (bmc_vendor v));
   ("gpu_vendors", ser_strings (gpu_vendors v)); ("kernel", VString (kernel v));
   ("os_release", VString (os_release v))].

(** src/shared/src/lib.rs:126-142 (Hello, derive(Serialize)). *)
Definition ser_hello (h : Hello) : list (string * Value) :=
  [("host", VString (hello_host h)); ("host_id", VString (hello_host_id h));
   ("primary_ip", VString (hello_primary_ip h));
   ("agent_version", VString (hello_agent_version h));
   ("started_at", ser_date (hello_started_at h)); ("vendor", VObject (ser_vendor (hello_vendor h)));
   ("tags", ser_map VString (hello_tags h)); ("maintenance", VBool (hello_maintenance h))].

(** src/shared/src/lib.rs:178-194 (HostState, derive(Serialize)). *)
Definition ser_host_state (h : HostState) : list (string * Value) :=
  [("host", VString (hs_host h)); ("host_id", VString (hs_host_id h));
   ("primary_ip", VString (hs_primary_ip h)); ("online", VBool (hs_online h));
   ("last_seen", ser_date (hs_last_seen h)); ("firing_count", VInt (hs_firing_count h));
   ("tags", ser_map VString (hs_tags h)); ("agent_version", VString (hs_agent_version h));
   ("maintenance", VBool (hs_maintenance h))].

(** src/shared/src/lib.rs:162-167 (Snapshot, derive(Serialize)). *)
Definition ser_snapshot (s : Snapshot) : list (string * Value) :=
  [("generated_at", ser_date (sn_generated_at s));
   ("alerts", VArray (map (fun a => VObject (ser_alert a)) (sn_alerts s)));
   ("hosts", VArray (map (fun h => VObject (ser_host_state h)) (sn_hosts s)))].

(** src/shared/src/lib.rs:169-176 (HostStatus, derive(Serialize)). *)
Definition ser_host_status (s : HostStatus) : list (string * Value) :=
  [("host", VString (st_host s)); ("host_id", VString (st_host_id s));
   ("online", VBool (st_online s)); ("last_seen", ser_date (st_last_seen s));
   ("firing_count", VInt (st_firing_count s))].

(** src/shared/src/lib.rs:11-25 (Envelope, derive(Serialize)): internally tagged. *)
Definition envelope_fields (e : Envelope) : list (string * Value) :=
  match e with
  | EnvAlert a => ("type", VString "alert") :: ser_alert a
  | EnvHeartbeat h => ("type", VString "heartbeat") :: ser_heartbeat h
  | EnvHello h => ("type", VString "hello") :: ser_hello h
  | EnvSnapshot s => ("type", VString "snapshot") :: ser_snapshot s
  | EnvHostStatus s => ("type", VString "host_status") :: ser_host_status s
  end.
Definition ser_envelope (e : Envelope) : Value := VObject (envelope_fields e).

(** * Decoding *)

Definition dec_date (v : Value) : option DateTime := s ← as_str v; date_parse s.

(** A [BTreeMap]: of equal keys the last counts. *)
Definition dec_btree {A} (dec : Value -> option A) (v : Value) : option (gmap string A) :=
  l ← fields v;
  kxs ← mapM (fun kx => x ← dec (snd kx); Some (fst kx, x)) l;
  Some (list_to_map (reverse kxs)).

(** src/shared/src/lib.rs:27-34 (Severity, derive(Deserialize)). *)
Definition dec_severity (v : Value) : option Severity :=
  s ← as_str v;
  if decide (s = "info") then Some Info
  else if decide (s = "warning") then Some Warning
  else if decide (s = "critical") then Some Critical else None.

(** src/shared/src/lib.rs:46-51 (AlertState, derive(Deserialize)). *)
Definition dec_state (v : Value) : option AlertState :=
  s ← as_str v;
  if decide (s = "firing") then Some Firing
  else if decide (s = "resolved") then Some Resolved else None.

Definition alert_keys : list string :=
  ["id"; "ts"; "host"; "host_id"; "primary_ip"; "category"; "subsystem"; "severity"; "state";
   "device"; "device_model"; "metric"; "value"; "threshold"; "title"; "message";
   "fingerprint"; "first_seen"; "last_seen"; "occurrences"; "raw"; "correlated"].

(** src/shared/src/lib.rs:53-110 (Alert, derive(Deserialize), with [one]). *)
Definition dec_alert : Value -> option Alert :=
  dec_struct alert_keys (fun l =>
    id ← required as_str "id" l;
    ts ← required dec_date "ts" l;
    host ← required as_str "host" l;
    host_id ← required as_str "host_id" l;
    ip ← field as_str "" "primary_ip" l;
    category ← required as_str "category" l;
    subsystem ← optional as_str "subsystem" l;
    severity ← required dec_severity "severity" l;
    state ← required dec_state "state" l;
    device ← optional as_str "device" l;
    model ← optional as_str "device_model" l;
    metric ← required as_str "metric" l;
    value ← optional as_str "value" l;
    threshold ← optional as_str "threshold" l;
    title ← required as_str "title" l;
    message ← required as_str "message" l;
    fp ← required as_str "fingerprint" l;
    first ← required dec_date "first_seen" l;
    last ← required dec_date "last_seen" l;
    n ← field dec_u64 1 "occurrences" l;
    raw ← field (dec_btree Some) ∅ "raw" l;
    correlated ← field (dec_list as_str) [] "correlated" l;
    Some (mkAlert id ts host host_id ip category subsystem severity state device model metric
            value threshold title message fp first last n raw correlated)).

Definition heartbeat_keys : list string :=
  ["host"; "host_id"; "ts"; "uptime_s"; "firing_count"; "agent_version"].

(** src/shared/src/lib.rs:112-124 (Heartbeat, derive(Deserialize)). *)
Definition dec_heartbeat : Value -> option Heartbeat :=
  dec_struct heartbeat_keys (fun l =>
    host ← required as_str "host" l;
    host_id ← required as_str "host_id" l;
    ts ← required dec_date "ts" l;
    up ← required dec_u64 "uptime_s" l;
    n ← field dec_u32 0 "firing_count" l;
    v ← field as_str "" "agent_version" l;
    Some (mkHeartbeat host host_id ts up n v)).

Definition vendor_keys : list string :=
  ["system_manufacturer"; "system_product_name"; "bios_version"; "bmc_vendor"; "gpu_vendors";
   "kernel"; "os_release"].

(** src/shared/src/lib.rs:144-160 (VendorInfo, derive(Deserialize)). *)
Definition dec_vendor : Value -> option VendorInfo :=
  dec_struct vendor_keys (fun l =>
    a ← field as_str "" "system_manufacturer" l;
    b ← field as_str "" "system_product_name" l;
    c ← field as_str "" "bios_version" l;
    d ← field as_str "" "bmc_vendor" l;
    e ← field (dec_list as_str) [] "gpu_vendors" l;
    f ← field as_str "" "kernel" l;
    g ← field as_str "" "os_release" l;
    Some (mkVendorInfo a b c d e f g)).

Definition hello_keys : list string :=
  ["host"; "host_id"; "primary_ip"; "agent_version"; "started_at"; "vendor"; "tags";
   "maintenance"].

(** src/shared/src/lib.rs:126-142 (Hello, derive(Deserialize)). *)
Definition dec_hello : Value -> option Hello :=
  dec_struct hello_keys (fun l =>
    host ← required as_str "host" l;
    host_id ← required as_str "host_id" l;
    ip ← field as_str "" "primary_ip" l;
    v ← required as_str "agent_version" l;
    started ← required dec_date "started_at" l;
    vendor ← required dec_vendor "vendor" l;
    tags ← field (dec_btree as_str) ∅ "tags" l;
    m ← field as_bool false "maintenance" l;
    Some (mkHello host host_id ip v started vendor tags m)).

Definition host_state_keys : list string :=
  ["host"; "host_id"; "primary_ip"; "online"; "last_seen"; "firing_count"; "tags";
   "agent_version"; "maintenance"].

(** src/shared/src/lib.rs:178-194 (HostState, derive(Deserialize)). *)
Definition dec_host_state : Value -> option HostState :=
  dec_struct host_state_keys (fun l =>
    host ← required as_str "host" l;
    host_id ← required as_str "host_id" l;
    ip ← field as_str "" "primary_ip" l;
    online ← required as_bool "online" l;
    seen ← required dec_date "last_seen" l;
    n ← required dec_u32 "firing_count" l;
    tags ← field (dec_btree as_str) ∅ "tags" l;
    v ← field as_str "" "agent_version" l;
    m ← field as_bool false "maintenance" l;
    Some (mkHostState host host_id ip online seen n tags v m)).

Definition snapshot_keys : list string := ["generated_at"; "alerts"; "hosts"].

(** src/shared/src/lib.rs:162-167 (Snapshot, derive(Deserialize)). *)
Definition dec_snapshot : Value -> option Snapshot :=
  dec_struct snapshot_keys (fun l =>
    at_ ← required dec_date "generated_at" l;
    alerts ← required (dec_list dec_alert) "alerts" l;
    hosts ← required (dec_list dec_host_state) "hosts" l;
    Some (mkSnapshot at_ alerts hosts)).

Definition host_status_keys : list string :=
  ["host"; "host_id"; "online"; "last_seen"; "firing_count"].

(** src/shared/src/lib.rs:169-176 (HostStatus, derive(Deserialize)). *)
Definition dec_host_status : Value -> option HostStatus :=
  dec_struct host_status_keys (fun l =>
    host ← required as_str "host" l;
    host_id ← required as_str "host_id" l;
    online ← required as_bool "online" l;
    seen ← required dec_date "last_seen" l;
    n ← required dec_u32 "firing_count" l;
    Some (mkHostStatus host host_id online seen n)).

(** src/shared/src/lib.rs:11-25 (Envelope, derive(Deserialize)): the tag chooses the
    structure; no structure has a field of that name, so it ignores the tag. *)
Definition dec_envelope (v : Value) : option Envelope :=
  l ← fields v;
  if unique ["type"] l then
    tag ← required as_str "type" l;
    if decide (tag = "alert") then EnvAlert <$> dec_alert v
    else if decide (tag = "heartbeat") then EnvHeartbeat <$> dec_heartbeat v
    else if decide (tag = "hello") then EnvHello <$> dec_hello v
    else if decide (tag = "snapshot") then EnvSnapshot <$> dec_snapshot v
    else if decide (tag = "host_status") then EnvHostStatus <$> dec_host_status v
    else None
  else None.

End wire.

(** * Round trip *)

Lemma mapM_map_Some {A B D} (f : B -> option D) (g : A -> B) (h : A -> D) (l : list A) :
  (forall x, x ∈ l -> f (g x) = Some (h x)) -> mapM f (map g l) = Some (map h l).
Proof.
  induction l as [|x l IH]; intros Hx; simpl; [done|].
  rewrite (Hx x) by constructor. simpl. rewrite IH; [done|].
  intros y Hy. apply Hx. by constructor.
Qed.

Lemma dec_ser_strings l : dec_list as_str (ser_strings l) = Some l.
Proof. simpl. rewrite (mapM_map_Some _ _ id); [by rewrite map_id|done]. Qed.

Lemma dec_ser_map {A} (dec : Value -> option A) (ser : A -> Value) (m : gmap string A) :
  (forall x, dec (ser x) = Some x) -> dec_btree dec (ser_map ser m) = Some m.
Proof.
  intros Hx. unfold dec_btree, ser_map. cbn [fields mbind option_bind].
  rewrite (mapM_map_Some _ _ id) by (intros [k x] _; simpl; by rewrite Hx).
  rewrite map_id. simpl. f_equal. rewrite <- (list_to_map_to_list m) at 2.
  apply list_to_map_proper.
  - rewrite fmap_reverse, reverse_Permutation, merge_sort_Permutation.
    apply NoDup_fst_map_to_list.
  - by rewrite reverse_Permutation, merge_sort_Permutation.
Qed.

Lemma occurrences_app k l1 l2 :
  occurrences_of k (l1 ++ l2) = (occurrences_of k l1 + occurrences_of k l2)%nat.
Proof. unfold occurrences_of. by rewrite List.filter_app, length_app. Qed.

Lemma occurrences_none k (l : list (string * Value)) :
  Forall (fun kx => fst kx <> k) l -> occurrences_of k l = 0%nat.
Proof.
  unfold occurrences_of. induction 1 as [|kx l Hk Hl IH]; simpl; [done|].
  by rewrite (proj2 (String.eqb_neq _ _) Hk).
Qed.

(** Fields of other names do not matter. *)
Lemma unique_extra keys l extra :
  Forall (fun kx => fst kx ∉ keys) extra -> unique keys (l ++ extra) = unique keys l.
Proof.
  intros He. unfold unique. apply Bool.eq_iff_eq_true. rewrite !forallb_forall.
  assert (Hk : forall k, k ∈ keys -> occurrences_of k extra = 0%nat).
  { intros k Hk. apply occurrences_none. eapply Forall_impl; [exact He|].
    intros kx Hn Heq. apply Hn. by rewrite Heq. }
  split; intros Hu k Hin; specialize (Hu k Hin);
    rewrite ?occurrences_app, (Hk k), Nat.add_0_r in * by (by apply list_elem_of_In); done.
Qed.

(** A field that is there is found whatever follows. *)
Lemma assoc_app k (l1 l2 : list (string * Value)) v :
  assoc k l1 = Some v -> assoc k (l1 ++ l2) = Some v.
Proof. induction l1 as [|[k' x] l1 IH]; simpl; [done|]. case_decide; auto. Qed.

Section fields_at.
Context (k : string) (l extra : list (string * Value)) (v : Value) (Hk : assoc k l = Some v).

Lemma required_at {A} (dec : Value -> option A) x :
  dec v = Some x -> required dec k (l ++ extra) = Some x.
Proof. intros Hx. unfold required. by rewrite (assoc_app _ _ extra _ Hk). Qed.

Lemma field_at {A} (dec : Value -> option A) dflt x :
  dec v = Some x -> field dec dflt k (l ++ extra) = Some x.
Proof. intros Hx. unfold field. by rewrite (assoc_app _ _ extra _ Hk). Qed.

Lemma optional_at o : v = ser_option o -> optional as_str k (l ++ extra) = Some o.
Proof.
  intros Hv. unfold optional. rewrite (assoc_app _ _ extra _ Hk), Hv. by destruct o.
Qed.

End fields_at.

Lemma bind_step {A B} (o : option A) x (f : A -> option B) r :
  o = Some x -> f x = r -> o ≫= f = r.
Proof. by intros -> <-. Qed.

Lemma dec_uint_in hi n : 0 <= n <= hi -> dec_uint hi (VInt n) = Some n.
Proof. intros Hn. simpl. rewrite (proj2 (Z.leb_le _ _)), (proj2 (Z.leb_le _ _)) by lia. done. Qed.

Lemma dec_list_map {A} (dec : Value -> option A) (ser : A -> Value) l :
  (forall x, x ∈ l -> dec (ser x) = Some x) -> dec_list dec (VArray (map ser l)) = Some l.
Proof. intros Hx. simpl. rewrite (mapM_map_Some _ _ id); [by rewrite map_id|done]. Qed.

Create HintDb wire.
#[local] Hint Resolve dec_ser_strings dec_uint_in : wire.
#[local] Hint Extern 1 (dec_btree _ _ = _) => apply dec_ser_map; reflexivity : wire.
#[local] Hint Extern 1 (dec_u64 _ = _) => apply dec_uint_in; assumption : wire.
#[local] Hint Extern 1 (dec_u32 _ = _) => apply dec_uint_in; assumption : wire.
#[local] Hint Extern 2 (_ = Some _) => reflexivity : wire.

(** Decode one structure, field by field. *)
Ltac decode_fields :=
  repeat (eapply bind_step;
    [first [eapply optional_at; [reflexivity|reflexivity]
           |eapply required_at; [reflexivity|solve [eauto with wire]]
           |eapply field_at; [reflexivity|solve [eauto with wire]]]
    |cbv beta]).

Section round_trip.
Context `{!DateText} `{!DateTextLaws}.

Lemma dec_ser_date d : dec_date (ser_date d) = Some d.
Proof. simpl. apply date_parse_text. Qed.
Lemma dec_ser_severity s : dec_severity (ser_severity s) = Some s.
Proof. by destruct s. Qed.
Lemma dec_ser_state s : dec_state (ser_state s) = Some s.
Proof. by destruct s. Qed.
#[local] Hint Resolve dec_ser_date dec_ser_severity dec_ser_state : wire.

(** The extra fields of a newer program. *)
Definition extra_ok (keys : list string) (extra : list (string * Value)) : Prop :=
  Forall (fun kx => fst kx ∉ "type" :: keys) extra.

Lemma extra_ok_keys keys extra : extra_ok keys extra -> Forall (fun kx => fst kx ∉ keys) extra.
Proof. intros He. eapply Forall_impl; [exact He|]. intros kx Hn Hin. apply Hn. by constructor. Qed.

Lemma dec_struct_at {A} keys (dec : list (string * Value) -> option A) l extra x :
  extra_ok keys extra -> unique keys l = true -> dec (l ++ extra)%list = Some x ->
  dec_struct keys dec (VObject (l ++ extra)%list) = Some x.
Proof.
  intros He Hu Hd. unfold dec_struct. cbn [fields mbind option_bind].
  by rewrite unique_extra, Hu by by apply extra_ok_keys.
Qed.

Lemma alert_round_trip a extra :
  0 <= al_occurrences a <= Int.u64_max -> extra_ok alert_keys extra ->
  dec_alert (VObject (ser_alert a ++ extra)%list) = Some a.
Proof.
  intros Hn He. unfold dec_alert. apply dec_struct_at; [done|reflexivity|].
  decode_fields. by destruct a.
Qed.

Lemma alert_object a :
  0 <= al_occurrences a <= Int.u64_max -> dec_alert (VObject (ser_alert a)) = Some a.
Proof. intros Hn. rewrite <- (app_nil_r (ser_alert a)). by apply alert_round_trip; [|constructor]. Qed.

Lemma heartbeat_round_trip h extra :
  0 <= hb_uptime_s h <= Int.u64_max -> 0 <= hb_firing_count h <= Int.u32_max ->
  extra_ok heartbeat_keys extra ->
  dec_heartbeat (VObject (ser_heartbeat h ++ extra)%list) = Some h.
Proof.
  intros Hu Hn He. unfold dec_heartbeat. apply dec_struct_at; [done|reflexivity|].
  decode_fields. by destruct h.
Qed.

Lemma vendor_object v : dec_vendor (VObject (ser_vendor v)) = Some v.
Proof.
  rewrite <- (app_nil_r (ser_vendor v)). unfold dec_vendor.
  apply dec_struct_at; [constructor|reflexivity|]. decode_fields. by destruct v.
Qed.
#[local] Hint Resolve vendor_object : wire.

Lemma hello_round_trip h extra :
  extra_ok hello_keys extra -> dec_hello (VObject (ser_hello h ++ extra)%list) = Some h.
Proof.
  intros He. unfold dec_hello. apply dec_struct_at; [done|reflexivity|].
  decode_fields. by destruct h.
Qed.

Lemma host_state_object h :
  0 <= hs_firing_count h <= Int.u32_max -> dec_host_state (VObject (ser_host_state h)) = Some h.
Proof.
  intros Hn. rewrite <- (app_nil_r (ser_host_state h)). unfold dec_host_state.
  apply dec_struct_at; [constructor|reflexivity|]. decode_fields. by destruct h.
Qed.

(** The numbers of a message fit their machine types. *)
Definition alert_typed (a : Alert) : Prop := 0 <= al_occurrences a <= Int.u64_max.
Definition envelope_typed (e : Envelope) : Prop :=
  match e with
  | EnvAlert a => alert_typed a
  | EnvHeartbeat h =>
      0 <= hb_uptime_s h <= Int.u64_max /\ 0 <= hb_firing_count h <= Int.u32_max
  | EnvHello _ => True
  | EnvSnapshot s =>
      Forall alert_typed (sn_alerts s)
      /\ Forall (fun h => 0 <= hs_firing_count h <= Int.u32_max) (sn_hosts s)
  | EnvHostStatus s => 0 <= st_firing_count s <= Int.u32_max
  end.

Definition envelope_keys (e : Envelope) : list string :=
  match e with
  | EnvAlert _ => alert_keys
  | EnvHeartbeat _ => heartbeat_keys
  | EnvHello _ => hello_keys
  | EnvSnapshot _ => snapshot_keys
  | EnvHostStatus _ => host_status_keys
  end.

Lemma snapshot_round_trip s extra :
  Forall alert_typed (sn_alerts s) ->
  Forall (fun h => 0 <= hs_firing_count h <= Int.u32_max) (sn_hosts s) ->
  extra_ok snapshot_keys extra ->
  dec_snapshot (VObject (ser_snapshot s ++ extra)%list) = Some s.
Proof.
  intros Ha Hh He.
  assert (H1 : dec_list dec_alert (VArray (map (fun a => VObject (ser_alert a)) (sn_alerts s)))
               = Some (sn_alerts s)).
  { apply dec_list_map. intros a Hin. apply alert_object. by eapply (proj1 (Forall_forall _ _) Ha). }
  assert (H2 : dec_list dec_host_state
                 (VArray (map (fun h => VObject (ser_host_state h)) (sn_hosts s)))
               = Some (sn_hosts s)).
  { apply dec_list_map. intros h Hin. apply host_state_object. by eapply (proj1 (Forall_forall _ _) Hh). }
  unfold dec_snapshot. apply dec_struct_at; [done|reflexivity|].
  decode_fields. by destruct s.
Qed.

Lemma host_status_round_trip s extra :
  0 <= st_firing_count s <= Int.u32_max -> extra_ok host_status_keys extra ->
  dec_host_status (VObject (ser_host_status s ++ extra)%list) = Some s.
Proof.
  intros Hn He. unfold dec_host_status. apply dec_struct_at; [done|reflexivity|].
  decode_fields. by destruct s.
Qed.

Ltac tagged :=
  let Hu := fresh in
  intros Hu; unfold dec_envelope; cbn [fields mbind option_bind]; by rewrite Hu.

(** The tag leads to the structure, which does not see it. *)
Lemma tagged_alert l :
  unique ["type"] (("type", VString "alert") :: l) = true ->
  dec_envelope (VObject (("type", VString "alert") :: l)) = EnvAlert <$> dec_alert (VObject l).
Proof. tagged. Qed.
Lemma tagged_heartbeat l :
  unique ["type"] (("type", VString "heartbeat") :: l) = true ->
  dec_envelope (VObject (("type", VString "heartbeat") :: l))
  = EnvHeartbeat <$> dec_heartbeat (VObject l).
Proof. tagged. Qed.
Lemma tagged_hello l :
  unique ["type"] (("type", VString "hello") :: l) = true ->
  dec_envelope (VObject (("type", VString "hello") :: l)) = EnvHello <$> dec_hello (VObject l).
Proof. tagged. Qed.
Lemma tagged_snapshot l :
  unique ["type"] (("type", VString "snapshot") :: l) = true ->
  dec_envelope (VObject (("type", VString "snapshot") :: l))
  = EnvSnapshot <$> dec_snapshot (VObject l).
Proof. tagged. Qed.
Lemma tagged_host_status l :
  unique ["type"] (("type", VString "host_status") :: l) = true ->
  dec_envelope (VObject (("type", VString "host_status") :: l))
  = EnvHostStatus <$> dec_host_status (VObject l).
Proof. tagged. Qed.

Lemma dec_envelope_fields e extra :
  envelope_typed e -> extra_ok (envelope_keys e) extra ->
  dec_envelope (VObject (envelope_fields e ++ extra)%list) = Some e.
Proof.
  intros Htyped Hextra.
  assert (Ht : unique ["type"] (envelope_fields e ++ extra)%list = true).
  { rewrite unique_extra; [by destruct e|].
    eapply Forall_impl; [exact Hextra|]. intros kx Hn Hin. apply Hn.
    apply list_elem_of_singleton in Hin. rewrite Hin. by constructor. }
  destruct e as [a|h|h|s|s]; cbn [envelope_fields app].
  - rewrite tagged_alert by exact Ht. by rewrite alert_round_trip.
  - rewrite tagged_heartbeat by exact Ht. destruct Htyped. by rewrite heartbeat_round_trip.
  - rewrite tagged_hello by exact Ht. by rewrite hello_round_trip.
  - rewrite tagged_snapshot by exact Ht. destruct Htyped. by rewrite snapshot_round_trip.
  - rewrite tagged_host_status by exact Ht. by rewrite host_status_round_trip.
Qed.

(** C16: the two programs understand each other.  Every message whose numbers fit
    their types decodes to itself, and so it does when a newer program has added
    fields that this one does not know: the tag, the lower-case names, the optional
    fields, the maps and the nested structures of both directions agree. *)
Theorem wire_round_trip (e : Envelope) (extra : list (string * Value))
    (Htyped : envelope_typed e) (Hextra : extra_ok (envelope_keys e) extra) :
  dec_envelope (ser_envelope e) = Some e
  /\ dec_envelope (VObject (envelope_fields e ++ extra)%list) = Some e.
Proof.
  split; [|by apply dec_envelope_fields].
  unfold ser_envelope. rewrite <- (app_nil_r (envelope_fields e)).
  apply dec_envelope_fields; [done|constructor].
Qed.

End round_trip.

(** * The codec *)

(** [serde_json] between a value and its text. *)
Class JsonText : Type := {
  json_print : Value -> string;
  json_parse : string -> option Value
}.

Section codec.
Context `{!DateText} `{!DateTextLaws} `{!JsonText}.

(** The codec of the two programs and of the history: serialising these types
    cannot fail. *)
Definition WireCodec : Codec :=
  {| encode e := Some (json_print (ser_envelope e));
     decode s := json_parse s ≫= dec_envelope;
     encode_alert a := Some (json_print (VObject (ser_alert a)));
     decode_alert s := json_parse s ≫= dec_alert |}.

(** Where the text of a value is read back, a typed message survives its frame and
    a typed alert its row: what [Pipeline] asks of a message, and [Store] of an
    alert. *)
Lemma wire_codec_delivers e :
  json_parse (json_print (ser_envelope e)) = Some (ser_envelope e) -> envelope_typed e ->
  exists t, encode (Codec := WireCodec) e = Some t /\ decode (Codec := WireCodec) t = Some e.
Proof.
  intros Ht He. exists (json_print (ser_envelope e)). split; [done|].
  cbn [decode WireCodec]. rewrite Ht. cbn [mbind option_bind].
  unfold ser_envelope. rewrite <- (app_nil_r (envelope_fields e)).
  apply dec_envelope_fields; [done|constructor].
Qed.

Lemma wire_codec_stores a :
  json_parse (json_print (VObject (ser_alert a))) = Some (VObject (ser_alert a)) ->
  alert_typed a -> round_trips (H := WireCodec) a.
Proof.
  intros Ht Ha. exists (json_print (VObject (ser_alert a))). split; [done|].
  cbn [decode_alert WireCodec]. rewrite Ht. by apply alert_object.
Qed.

End codec.

(** * A concrete message *)

(** A text of times: the sign and as many strokes. *)
Fixpoint strokes (n : nat) : string :=
  match n with O => "" | S n' => "|" +:+ strokes n' end.
#[local] Instance StrokeDates : DateText := {
  date_text d := (if d <? 0 then "-" else "+") +:+ strokes (Z.to_nat (Z.abs d));
  date_parse s := match s with
                  | String c r => let n := Z.of_nat (String.length r) in
                                  Some (if decide (c = "-"%char) then - n else n)
                  | EmptyString => None
                  end
}.

Lemma length_strokes n : String.length (strokes n) = n.
Proof. induction n as [|n IH]; simpl; [done|]. by rewrite IH. Qed.

#[local] Instance StrokeDates_laws : DateTextLaws.
Proof.
  split. intros d. simpl. destruct (Z.ltb_spec d 0); simpl; rewrite length_strokes; f_equal; lia.
Qed.

Lemma wire_round_trip_witness :
  dec_envelope (VObject (envelope_fields (EnvAlert ref_alert)
                          ++ [("rack", VString "R12"); ("hint", VInt 3)])%list)
  = Some (EnvAlert ref_alert).
Proof.
  apply (wire_round_trip (EnvAlert ref_alert) [("rack", VString "R12"); ("hint", VInt 3)]).
  - vm_compute. split; discriminate.
  - repeat constructor; refine (bool_decide_unpack _ _); vm_compute; exact I.
Defined.
